(* ===== verification/_CoqProject ===== *)
-Q . S2P
Prelude.v
Sync.v
Float64.v
Autoscaling.v
Controller.v
Core.v
Net.v
Placement.v
Persistence.v
ScalingLoop.v
ControlPlane.v
CpTypes.v
LeaderElection.v
LeaderSafety.v
HAProxy.v
FunctionMetadata.v
LoadBalancing.v
Draining.v
Proxy.v
AsyncProxy.v
Tracing.v
CpApi.v
WorkerManagers.v
Networks.v
Sandboxes.v
SandboxSpec.v
WorkerNode.v
DataPlaneDaemon.v
Cluster.v
Recovery.v
Routing.v
Config.v
Stubs.v
