(* ===== verification/Prelude.v ===== *)
(** * Dirigent

    A verification development for Dirigent, a cluster manager for serverless
    functions: a replicated control plane, data planes that route invocations,
    and worker nodes that run the sandboxes of the functions.  The definitions
    follow the Go code under [src/] function by function and keep its names; the
    theorems state what makes each part correct and, where the code does not do
    what it means to, what it does instead.

    ** The program

    Users register services with the control plane; data planes and worker nodes
    register themselves.  A data plane receives invocations, queues those that
    find no sandbox (a cold start), balances the others over the endpoints of
    their service and reports the load.  The control plane turns the load into a
    number of sandboxes per service (autoscaling), places new sandboxes on worker
    nodes, evicts others, and tells the data planes the endpoints.  Its replicas
    elect a leader; the leader keeps registrations in Redis, recovers them after
    a change of leadership, asks the nodes for their sandboxes and revises the
    load balancer (HAProxy).  Worker nodes run containers or virtual machines
    through one interface.

    ** Files

    - [Prelude]: the effects of Go code (a state and error monad with panics,
      fatal errors and blocking), machine integers, random draws, generic lemmas
      on lists and strings, the tactics [go_run] and [go_inv], hint databases.
    - [Sync]: [pkg/synchronization], [pkg/map], [pkg/atomic_map]; the state of a
      lock is part of a map, acquiring a lock that is held blocks.
    - [Float64]: binary64 arithmetic as the autoscaler uses it.
    - [Autoscaling]: [control_plane/autoscaling/autoscaling.go].
    - [Controller]: [control_plane/autoscaling/controller.go], start, stop and the
      scaling goroutine as steps of interleaved threads.
    - [Core]: the messages of [api/proto] and the handles of
      [control_plane/workers] and [control_plane/data_plane].
    - [Net]: addresses ([pkg/grpc_helpers]).
    - [Placement]: [control_plane/placement_policy] and [eviction_policy].
    - [Persistence]: [control_plane/persistence] and [pkg/redis_helpers]; a class
      of layers with a contract, met by the empty layer and by the Redis layer
      over the commands of an abstract client and a codec.
    - [ScalingLoop]: [control_plane/scaling_loop.go] and [failure.go].
    - [ControlPlane]: [control_plane/control_plane.go], [helpers.go],
      [reconstruction.go].
    - [CpTypes]: the type invariant of the tables of the control plane.
    - [LeaderElection], [LeaderSafety]: [control_plane/leader_election]; one
      replica, and the cluster of replicas as a step relation over messages.
    - [HAProxy]: [data_plane/haproxy/manager.go].
    - [FunctionMetadata]: [data_plane/function_metadata].
    - [LoadBalancing]: [data_plane/proxy/load_balancing].
    - [Draining]: what a drain of [FunctionMetadata] promises the requests of
      [LoadBalancing], with whole operations and with single instructions as the
      steps.
    - [Proxy]: [data_plane/proxy/sync_proxy_handler.go] and [metrics.go], the calls
      of the control plane in [data_plane/data_plane.go].
    - [AsyncProxy]: [data_plane/proxy/async_proxy_handler.go], [requests],
      [persistence].
    - [Tracing]: [pkg/tracing].
    - [CpApi]: [api/control_plane_api_server.go] (its eleven handlers one by one,
      each forwarding to the leader), the registration server and
      [cmd/master_node/state_management].
    - [WorkerManagers]: [worker_node/managers] (address and interface counters,
      ports, sandbox table, exit monitor, readiness probe).
    - [Networks]: NAT rules and the pool of networks of the virtual machines,
      over abstract host commands with a contract.
    - [Sandboxes], [SandboxSpec]: [worker_node/sandbox]; a class of runtimes with
      a contract, the firecracker, containerd and fake runtimes, and the proofs
      that the first two meet the contract from their construction on, and that
      the fake one, which remembers nothing, does not.
    - [WorkerNode]: [worker_node/worker_node.go] and its API server.
    - [DataPlaneDaemon]: connections, registration, heartbeats, start and
      shutdown of a data plane ([data_plane/data_plane.go], [pkg/grpc_helpers]).
    - [Cluster]: control plane and data planes as one system, with calls that do
      not arrive and replicas that are down or know no leader, and the heartbeats
      of the worker nodes against the node monitor, in time.
    - [Recovery]: the endpoints a new leader rebuilds, against the daemons.
    - [Routing]: the endpoints of the data planes against those of the control
      plane while a service is scaled.
    - [Config]: [pkg/config] over the configuration library as a parameter.
    - [Stubs]: the interfaces of the handles ([control_plane/core]) as classes,
      with the empty workers and data planes.

    ** What is shown

    Control plane.  Registrations survive a change of leadership
    ([failover_restores_registrations]) and so do the endpoints
    ([endpoints_recovered]); the tables hold what was asked for under every
    handler, failing or not ([tables_well_formed]); what is written to Redis is
    read back, page by page ([Redis_history_roundtrip]); a round of the scaling
    loop reaches the desired scale as long as the appends of its goroutines do
    not overlap and downscaling is enabled ([scaling_round_reaches_desired]),
    evictions and failures remove exactly what they name ([doDownscaling_exact],
    [HandleFailure_removes_named]); at most one scaling loop runs per service
    ([at_most_one_scaling_loop]); nodes that send their heartbeats are never taken
    for dead ([healthy_nodes_stay]); round robin takes the nodes by position
    ([RoundRobin_positions]).
    Autoscaling: the ring buffer is a moving average
    ([windowAverage_moving_average]), bounds and panic mode are respected, the
    metric is the sum of the last reports ([cachedScalingMetric_sum]).
    Election: one leader per term ([election_safety]); a replica has a
    reconstructed control plane and a monitor exactly while it leads
    ([leadership_followed]); each call is served once, by the leader
    ([api_call_served_by_leader]).
    Data plane.  While the calls of the control plane succeed and a leader is
    known when it starts, it knows exactly the registered services
    ([dataplanes_know_services]); while the calls arrive and no data plane
    registers, it routes to exactly their sandboxes
    ([routes_follow_scaling]); concurrency limits hold ([concurrency_limit]); a
    drain of consistently named endpoints returns exactly when they are idle
    ([drain_waits_for_requests]), and instruction by instruction its deadlocks are
    all known ([drain_interleavings]); an invocation restores the counters and
    the capacity it took ([invocation_counters_balanced], [warm_request_served]);
    queued requests are woken ([AddEndpoints_wakes_all]); asynchronous requests
    are retried as a loop would ([async_refines_retry_loop]) and, once
    acknowledged, survive a restart if no response fails to be written
    ([acknowledged_requests_survive]); the load balancer gets exactly the wanted
    servers as long as the table of the manager agrees with it
    ([revision_exact]).
    Worker nodes.  A node lists exactly what it announced
    ([listing_matches_answers]); sandboxes share neither port nor network
    ([sandboxes_isolated]); networks are unique, and accounted for while the host
    deletes what it is told to ([networks_unique_and_accounted]); counters are
    linearizable, exits are reported once, probes end.
    Traces and configuration.  A trace file read back is one row per entry
    written since the last reset, in order, for names without separators
    ([cold_start_trace_roundtrip]); the parts of the path of a configuration
    file are those it was made of ([parseConfigPath_roundtrip]), and a
    configuration is accepted only for an odd number of replicas
    ([accepted_replicas_odd]).
    Defects.  Deadlocks of the control plane ([store_error_deadlocks],
    [monitors_deadlock]) and of a drain ([drain_can_deadlock]), lost wake-ups,
    forwarding loops, two leaders after a stale vote ([stale_vote_two_leaders]),
    routes that outlive their sandbox ([second_dataplane_duplicates_routes],
    [AddEndpoints_appends_remaining]), calls that fail and are only logged
    ([lost_announcement_unknown_service], [lost_update_misses_route]), answers of
    a replica without a leader that are taken for success
    ([leaderless_start_unregistered]), reports that outlive their data plane
    ([removal_by_address_keeps_reports]) and others are theorems about the same definitions; each says under which
    conditions the code blocks, panics or loses data.

    ** Conventions

    A handler is a function of the state ([GoM]); its result is [Ok], [Panic],
    [Fatal] (the process exits) or [Blocked] (a lock or channel nobody will
    serve).  Time is in nanoseconds ([Second]).  What the program does not decide
    (random draws, the order of a map traversal, the clock, the answers of remote
    calls, time-outs) is an argument of the definitions; the theorems hold for
    all of them, under named conditions where the code relies on one.  Code that
    is not part of the repository (Redis, JSON, HAProxy's client, host commands,
    containerd and firecracker) is a class of operations; what is assumed of it is
    a second class, and each has an instance.  Goroutines are steps of a relation
    where their interleaving matters (the scaling controller, creations of
    sandboxes, the election, compare-and-swap counters, requests against draining)
    and run one after the other, in any order, where each holds the lock of what
    it touches.

    ** Bounds

    Loops without a structural argument have fuel, and the theorems that they
    return say how much is enough: the retry loop of the load balancer and the
    compare-and-swap of round robin (one attempt when undisturbed), the rounds of
    an asynchronous request (the allowed retries and one), the forwarding of a
    call (the length of the chain of beliefs), the scan of Redis (one call per
    page), the revision of the load balancer (its retries), the readiness probe
    (23 requests), the search for an address (three turns), the draw of a port
    (the draws given), the dialing of a replica (until a dial succeeds).  A loop
    that never ends is stated for every fuel.

    ** Not modelled

    Generated code (the accessors of the protobuf messages and the gRPC stubs),
    mocks and workload generators; logging and profiling; HTTP servers, transports
    and the reverse proxy; the reading of configuration files inside the
    configuration library and the rest of the [main] functions; hardware queries;
    the removal of files; the calls into the SDKs of containerd and firecracker,
    which are results of the environment.  These are input and output or
    third-party code. *)
From Stdlib Require Import ZArith Lia.
From stdpp Require Import base tactics list gmap strings sets numbers.

(** ** The effects of Go code

    A handler of the cluster manager reads and writes the shared state and
    either returns, panics (nil dereference, index out of range, send on a
    closed channel), terminates the process ([logrus.Fatal]) or blocks for
    ever (a mutex it already holds, a channel nobody will ever serve). *)

Inductive outcome (A : Type) : Type :=
| Ok (a : A)
| Panic
| Fatal
| Blocked.
Arguments Ok {A} a.
Arguments Panic {A}.
Arguments Fatal {A}.
Arguments Blocked {A}.

#[global] Instance outcome_eq_dec {A} `{EqDecision A} : EqDecision (outcome A).
Proof. solve_decision. Defined.

#[global] Instance outcome_ret : MRet outcome := fun A a => Ok a.
#[global] Instance outcome_bind : MBind outcome := fun A B f m =>
  match m with
  | Ok a => f a
  | Panic => Panic
  | Fatal => Fatal
  | Blocked => Blocked
  end.

(** Stateful computations over a shared state [S]. *)
Definition GoM (S A : Type) : Type := S -> outcome (A * S).

#[global] Instance gom_ret {S} : MRet (GoM S) := fun A a s => Ok (a, s).
#[global] Instance gom_bind {S} : MBind (GoM S) := fun A B f m s =>
  match m s with
  | Ok (a, s') => f a s'
  | Panic => Panic
  | Fatal => Fatal
  | Blocked => Blocked
  end.

Definition go_get {S} : GoM S S := fun s => Ok (s, s).
Definition go_put {S} (s : S) : GoM S unit := fun _ => Ok (tt, s).
Definition go_modify {S} (f : S -> S) : GoM S unit := fun s => Ok (tt, f s).
Definition go_gets {S A} (f : S -> A) : GoM S A := fun s => Ok (f s, s).
Definition go_panic {S A} : GoM S A := fun _ => Panic.
Definition go_fatal {S A} : GoM S A := fun _ => Fatal.
Definition go_block {S A} : GoM S A := fun _ => Blocked.
Definition go_lift {S A} (o : outcome A) : GoM S A := fun s =>
  match o with
  | Ok a => Ok (a, s)
  | Panic => Panic
  | Fatal => Fatal
  | Blocked => Blocked
  end.

(** Running a computation on a component [T] of a larger state [S]. *)
Definition zoom {S T A} (get : S -> T) (set : T -> S -> S) (m : GoM T A) : GoM S A :=
  fun s =>
    match m (get s) with
    | Ok (a, t) => Ok (a, set t s)
    | Panic => Panic
    | Fatal => Fatal
    | Blocked => Blocked
    end.

(** What a component returns, the whole returns. *)
Lemma zoom_run {S T A} (get : S -> T) (set : T -> S -> S) (m : GoM T A) s a t :
  m (get s) = Ok (a, t) -> zoom get set m s = Ok (a, set t s).
Proof. intros H. unfold zoom. by rewrite H. Qed.
Lemma zoom_fatal {S T A} (get : S -> T) (set : T -> S -> S) (m : GoM T A) s :
  m (get s) = Fatal -> zoom get set m s = Fatal.
Proof. intros H. unfold zoom. by rewrite H. Qed.

Lemma zoom_ok {S T A} (get : S -> T) (set : T -> S -> S) (m : GoM T A) s a s' :
  zoom get set m s = Ok (a, s') -> exists t, m (get s) = Ok (a, t) /\ s' = set t s.
Proof. unfold zoom. destruct (m (get s)) as [[a' t]| | |]; try done. intros [= <- <-]. eauto. Qed.

(** [for _, x := range l { body }] *)
Fixpoint go_for {S A} (l : list A) (body : A -> GoM S unit) : GoM S unit :=
  match l with
  | [] => mret tt
  | x :: l' => body x ;; go_for l' body
  end.

(** Nil checks: [nil] is [None]; using a nil pointer or interface panics. *)
Definition deref {A} (p : option A) : outcome A :=
  match p with Some a => Ok a | None => Panic end.

(** Slice indexing with Go's bounds check. *)
Definition go_index {A} (l : list A) (i : Z) : outcome A :=
  if decide (0 <= i)%Z then deref (l !! Z.to_nat i) else Panic.

Definition returns {S A} (m : GoM S A) (s : S) : Prop := exists a s', m s = Ok (a, s').

Section monad_lemmas.
Context {S : Type}.

Lemma gom_bind_ok {A B} (m : GoM S A) (f : A -> GoM S B) s b s' :
  mbind f m s = Ok (b, s') <->
  exists a s1, m s = Ok (a, s1) /\ f a s1 = Ok (b, s').
Proof.
  unfold mbind, gom_bind. destruct (m s) as [[a s1]| | |] eqn:E; split;
    try (by intros (?&?&?&?)); try done.
  - intros H. eauto.
  - intros (a'&s1'&Hm&Hf). by simplify_eq.
Qed.

Lemma gom_bind_ret {A B} (a : A) (f : A -> GoM S B) s :
  mbind f (mret a) s = f a s.
Proof. done. Qed.

Lemma gom_bind_run {A B} (m : GoM S A) (f : A -> GoM S B) s a s1 :
  m s = Ok (a, s1) -> mbind f m s = f a s1.
Proof. intros H. unfold mbind, gom_bind. by rewrite H. Qed.

Lemma gom_bind_blocked {A B} (m : GoM S A) (f : A -> GoM S B) s :
  m s = Blocked -> mbind f m s = Blocked.
Proof. intros H. unfold mbind, gom_bind. by rewrite H. Qed.

Lemma gom_bind_panic {A B} (m : GoM S A) (f : A -> GoM S B) s :
  m s = Panic -> mbind f m s = Panic.
Proof. intros H. unfold mbind, gom_bind. by rewrite H. Qed.

Lemma gom_bind_fatal {A B} (m : GoM S A) (f : A -> GoM S B) s :
  m s = Fatal -> mbind f m s = Fatal.
Proof. intros H. unfold mbind, gom_bind. by rewrite H. Qed.

Lemma gom_bind_assoc {A B C} (m : GoM S A) (f : A -> GoM S B) (g : B -> GoM S C) s :
  mbind g (mbind f m) s = mbind (fun a => mbind g (f a)) m s.
Proof. unfold mbind, gom_bind. by destruct (m s) as [[a s1]| | |]. Qed.
Lemma gom_bind_ext {A B} (m : GoM S A) (f g : A -> GoM S B) s :
  (forall a s1, f a s1 = g a s1) -> mbind f m s = mbind g m s.
Proof. intros H. unfold mbind, gom_bind. by destruct (m s) as [[a s1]| | |]. Qed.
Lemma gom_bind_run_eq {A B} (m m' : GoM S A) (f : A -> GoM S B) s :
  m s = m' s -> mbind f m s = mbind f m' s.
Proof. intros H. unfold mbind, gom_bind. by rewrite H. Qed.

(** Loop rule: an invariant kept by the body is kept by the loop. *)
Lemma go_for_inv {A} (P : S -> Prop) (l : list A) body s u s' :
  (forall x s1 u1 s2, x ∈ l -> P s1 -> body x s1 = Ok (u1, s2) -> P s2) ->
  P s -> go_for l body s = Ok (u, s') -> P s'.
Proof.
  revert s. induction l as [|x l IH]; intros s Hb HP; simpl.
  - intros [= <- <-]. done.
  - intros H%gom_bind_ok. destruct H as (u1&s1&H1&H2).
    eapply IH; [|eapply Hb; [|exact HP|exact H1]|exact H2].
    + intros y; intros. eapply Hb; [|done..]. by apply list_elem_of_further.
    + by left.
Qed.
End monad_lemmas.

Lemma outcome_bind_Ok {A B} (x : outcome A) (f : A -> outcome B) b :
  x ≫= f = Ok b -> exists a, x = Ok a /\ f a = Ok b.
Proof. destruct x as [a| | |]; cbn; try done. by exists a. Qed.

Lemma go_index_lookup {A} (l : list A) i x :
  l !! i = Some x -> go_index l (Z.of_nat i) = Ok x.
Proof. intros H. unfold go_index. rewrite decide_True by lia. by rewrite Nat2Z.id, H. Qed.

Lemma go_index_range {A} (l : list A) i :
  (0 <= i < Z.of_nat (length l))%Z <-> exists x, go_index l i = Ok x.
Proof.
  unfold go_index. split.
  - intros Hi. rewrite decide_True by lia.
    destruct (lookup_lt_is_Some_2 l (Z.to_nat i)) as [x Hx]; [lia|].
    exists x. by rewrite Hx.
  - intros [x Hx]. case_decide; [|done].
    destruct (l !! Z.to_nat i) eqn:E; [|done]. apply lookup_lt_Some in E. lia.
Qed.

(** ** Machine integers: Go's fixed-width arithmetic wraps around *)

Section machine_ints.
Local Open Scope Z_scope.

Definition signed_wrap (w z : Z) : Z := (z + 2 ^ (w - 1)) mod 2 ^ w - 2 ^ (w - 1).
Definition unsigned_wrap (w z : Z) : Z := z mod 2 ^ w.

Definition i32 (z : Z) : Z := signed_wrap 32 z.
Definition i64 (z : Z) : Z := signed_wrap 64 z.
Definition u32 (z : Z) : Z := unsigned_wrap 32 z.
Definition u64 (z : Z) : Z := unsigned_wrap 64 z.

Definition is_i32 (z : Z) : Prop := - 2 ^ 31 <= z < 2 ^ 31.
Definition is_i64 (z : Z) : Prop := - 2 ^ 63 <= z < 2 ^ 63.
Definition is_u32 (z : Z) : Prop := 0 <= z < 2 ^ 32.
Definition is_u64 (z : Z) : Prop := 0 <= z < 2 ^ 64.

#[global] Instance is_i32_dec z : Decision (is_i32 z).
Proof. unfold is_i32. apply _. Defined.
#[global] Instance is_i64_dec z : Decision (is_i64 z).
Proof. unfold is_i64. apply _. Defined.

Lemma i32_range z : is_i32 (i32 z).
Proof.
  unfold is_i32, i32, signed_wrap.
  pose proof (Z.mod_pos_bound (z + 2 ^ (32 - 1)) (2 ^ 32) ltac:(lia)). lia.
Qed.
Lemma i64_range z : is_i64 (i64 z).
Proof.
  unfold is_i64, i64, signed_wrap.
  pose proof (Z.mod_pos_bound (z + 2 ^ (64 - 1)) (2 ^ 64) ltac:(lia)). lia.
Qed.
Lemma u32_range z : is_u32 (u32 z).
Proof. unfold is_u32, u32, unsigned_wrap. apply Z.mod_pos_bound. lia. Qed.
Lemma u64_range z : is_u64 (u64 z).
Proof. unfold is_u64, u64, unsigned_wrap. apply Z.mod_pos_bound. lia. Qed.

Lemma i32_id z : is_i32 z -> i32 z = z.
Proof.
  unfold is_i32, i32, signed_wrap. intros Hz. rewrite Z.mod_small; lia.
Qed.
Lemma i64_id z : is_i64 z -> i64 z = z.
Proof.
  unfold is_i64, i64, signed_wrap. intros Hz. rewrite Z.mod_small; lia.
Qed.
Lemma u32_id z : is_u32 z -> u32 z = z.
Proof. unfold is_u32, u32, unsigned_wrap. intros Hz. by rewrite Z.mod_small by lia. Qed.
Lemma u64_id z : is_u64 z -> u64 z = z.
Proof. unfold is_u64, u64, unsigned_wrap. intros Hz. by rewrite Z.mod_small by lia. Qed.

Lemma signed_wrap_add w a b :
  0 < w -> signed_wrap w (signed_wrap w a + b) = signed_wrap w (a + b).
Proof.
  intros Hw. unfold signed_wrap.
  replace ((a + 2 ^ (w - 1)) mod 2 ^ w - 2 ^ (w - 1) + b + 2 ^ (w - 1))
    with ((a + 2 ^ (w - 1)) mod 2 ^ w + b) by lia.
  rewrite Zplus_mod_idemp_l. do 2 f_equal. lia.
Qed.
Lemma i32_add_l a b : i32 (i32 a + b) = i32 (a + b).
Proof. by apply signed_wrap_add. Qed.
Lemma i64_add_l a b : i64 (i64 a + b) = i64 (a + b).
Proof. by apply signed_wrap_add. Qed.
Lemma i32_add_r a b : i32 (a + i32 b) = i32 (a + b).
Proof. rewrite Z.add_comm, i32_add_l. f_equal. lia. Qed.
Lemma i64_add_r a b : i64 (a + i64 b) = i64 (a + b).
Proof. rewrite Z.add_comm, i64_add_l. f_equal. lia. Qed.
End machine_ints.

(** ** Randomness

    [rand.Intn(n)] returns a value of [0, n) and panics when [n <= 0].  The
    value drawn is an oracle [r] of the caller: [r mod n] ranges over exactly
    the values the call may return. *)
Definition Intn (r n : Z) : outcome Z :=
  if decide (n <= 0)%Z then Panic else Ok (r mod n)%Z.

Lemma Intn_range r n v : Intn r n = Ok v -> (0 <= v < n)%Z.
Proof.
  unfold Intn. case_decide; [done|]. intros [= <-]. apply Z.mod_pos_bound. lia.
Qed.

Lemma Intn_total r n : (0 < n)%Z -> exists v, Intn r n = Ok v /\ (0 <= v < n)%Z.
Proof.
  intros Hn. unfold Intn. rewrite decide_False by lia.
  eexists; split; [done|]. apply Z.mod_pos_bound. lia.
Qed.

(** ** Errors *)

(** A Go [error]: [None] is [nil]. *)
Abbreviation go_error := (option string).

(** ** Automation *)

Create HintDb go discriminated.
#[export] Hint Resolve i32_range i64_range u32_range u64_range : go.
Create Rewrite HintDb go_run.
#[export] Hint Rewrite @gom_bind_ret : go_run.

(** Run one step of a computation whose result is known. *)
Ltac go_run H := rewrite (gom_bind_run _ _ _ _ _ H).

(** Take apart a successful run of a sequence of statements. *)
Ltac go_inv :=
  repeat match goal with
  | H : mbind _ _ _ = Ok (_, _) |- _ =>
      apply gom_bind_ok in H; destruct H as (? & ? & ? & H)
  | H : mret _ _ = Ok _ |- _ => unfold mret, gom_ret in H; injection H as <- <-
  | H : go_gets _ _ = Ok _ |- _ => unfold go_gets in H; injection H as <- <-
  | H : go_modify _ _ = Ok _ |- _ => unfold go_modify in H; injection H as <- <-
  end.

(** ** Lists and finite maps *)

Section list_lemmas.
Context {A : Type}.

Lemma filter_all_length (P : A -> Prop) `{forall x, Decision (P x)} (l : list A) :
  length (filter P l) + length (filter (fun x => ¬ P x) l) = length l.
Proof.
  induction l as [|x l IH]; [done|]. rewrite !filter_cons.
  repeat case_decide; simpl; try tauto; lia.
Qed.

Lemma filter_ext_in (P Q : A -> Prop) `{forall x, Decision (P x), forall x, Decision (Q x)}
    (l : list A) :
  (forall x, x ∈ l -> P x <-> Q x) -> filter P l = filter Q l.
Proof.
  induction l as [|x l IH]; intros Hpq; [done|]. rewrite !filter_cons.
  assert (Hx : P x <-> Q x) by (apply Hpq; by left). rewrite IH; [|intros y Hy; apply Hpq; by right].
  repeat case_decide; tauto || done.
Qed.

Lemma NoDup_filter_difference_length `{EqDecision A} (l k : list A) :
  NoDup l -> NoDup k -> k ⊆ l ->
  length (filter (fun x => x ∉ k) l) + length k = length l.
Proof.
  intros Hl Hk Hsub. rewrite <- (filter_all_length (fun x => x ∉ k) l).
  f_equal. apply Permutation_length. apply NoDup_Permutation; [done| |].
  - by apply list.NoDup_filter.
  - intros x. rewrite list_elem_of_filter. split.
    + intros Hx. split; [tauto|]. by apply Hsub.
    + intros [Hnn Hx]. by destruct (decide (x ∈ k)).
Qed.

Lemma list_to_set_size_NoDup `{Countable A} (l : list A) :
  NoDup l -> size (list_to_set l : gset A) = length l.
Proof.
  induction 1 as [|x l Hx Hl IH]; [done|].
  simpl. rewrite size_union by set_solver. by rewrite size_singleton, IH.
Qed.
End list_lemmas.

(** ** Strings *)

Lemma string_app_inj_l (s a b : string) : (s +:+ a)%string = (s +:+ b)%string -> a = b.
Proof. induction s as [|c s IH]; simpl; intros [=]; auto. Qed.
Lemma string_app_assoc (a b c : string) : ((a +:+ b) +:+ c)%string = (a +:+ b +:+ c)%string.
Proof. induction a as [|x a IH]; [done|]. exact (f_equal (String x) IH). Qed.
Lemma string_length_app (a b : string) : String.length (a +:+ b) = String.length a + String.length b.
Proof. induction a as [|x a IH]; [done|]. exact (f_equal S IH). Qed.
Lemma string_app_inj_r (a b s : string) : (a +:+ s)%string = (b +:+ s)%string -> a = b.
Proof.
  revert b. induction a as [|x a IH]; intros [|y b] Heq; [done| | |].
  - apply (f_equal String.length) in Heq. rewrite !string_length_app in Heq. simpl in Heq. lia.
  - apply (f_equal String.length) in Heq. rewrite !string_length_app in Heq. simpl in Heq. lia.
  - injection Heq as -> Heq. by rewrite (IH b Heq).
Qed.
