(* ===== verification/Sync.v ===== *)
(** * Shared containers

    The packages every component is built from: [pkg/synchronization]
    (a map behind a [sync.RWMutex]), [pkg/map] (helpers on Go maps and slices)
    and [pkg/atomic_map] ([sync.Map] with types, and a map of atomic counters).

    A Go map is a [gmap].  The order in which [range] visits it is not
    specified by the language: every function that ranges over a map takes the
    order as an argument [ord], a list of the map's entries. *)
From Stdlib Require Import ZArith Lia.
From stdpp Require Import base tactics list gmap strings sets numbers.
From S2P Require Import Prelude.

(** ** Iteration order *)

Definition range_order (K V : Type) `{Countable K} : Type := gmap K V -> list (K * V).

Definition valid_order {K V} `{Countable K} (ord : range_order K V) : Prop :=
  forall m, ord m ≡ₚ map_to_list m.

Lemma map_to_list_valid {K V} `{Countable K} : valid_order (map_to_list (K:=K) (A:=V) (M:=gmap K V)).
Proof. by intros m. Qed.

Lemma valid_order_elem {K V} `{Countable K} (ord : range_order K V) (m : gmap K V) k v :
  valid_order ord -> (k, v) ∈ ord m <-> m !! k = Some v.
Proof. intros Hord. rewrite (Hord m). apply elem_of_map_to_list. Qed.

Lemma valid_order_NoDup_fst {K V} `{Countable K} (ord : range_order K V) (m : gmap K V) :
  valid_order ord -> NoDup (ord m).*1.
Proof. intros Hord. rewrite (Hord m). apply NoDup_fst_map_to_list. Qed.

Lemma valid_order_length {K V} `{Countable K} (ord : range_order K V) (m : gmap K V) :
  valid_order ord -> length (ord m) = size m.
Proof. intros Hord. rewrite (Hord m). by rewrite length_map_to_list. Qed.

(** ** sync.RWMutex

    The state of the mutex as the running goroutine sees it: [RLocked n] is
    held by [n + 1] readers.  [Lock] on a held mutex blocks; when the holder
    is the caller itself the call never returns. *)
Inductive rw_state : Type := Unlocked | RLocked (n : nat) | WLocked.

#[global] Instance rw_state_eq_dec : EqDecision rw_state.
Proof. solve_decision. Defined.

Definition rw_Lock : GoM rw_state unit := fun l =>
  match l with Unlocked => Ok (tt, WLocked) | _ => Blocked end.
Definition rw_RLock : GoM rw_state unit := fun l =>
  match l with
  | Unlocked => Ok (tt, RLocked 0)
  | RLocked n => Ok (tt, RLocked (S n))
  | WLocked => Blocked
  end.
Definition rw_Unlock : GoM rw_state unit := fun l =>
  match l with WLocked => Ok (tt, Unlocked) | _ => Fatal end.
Definition rw_RUnlock : GoM rw_state unit := fun l =>
  match l with
  | RLocked 0 => Ok (tt, Unlocked)
  | RLocked (S n) => Ok (tt, RLocked n)
  | _ => Fatal
  end.

(** ** pkg/synchronization: the map behind a lock *)

Record Structure (K V : Type) `{Countable K} : Type := mkStructure {
  InternalMap : gmap K V;
  internalLock : rw_state;
}.
Arguments mkStructure {K V _ _} InternalMap internalLock.
Arguments InternalMap {K V _ _} _.
Arguments internalLock {K V _ _} _.

Section Structure.
Context {K V : Type} `{Countable K}.
Implicit Types (s : Structure K V) (k : K) (v : V).

Definition NewControlPlaneSyncStructure : Structure K V := mkStructure ∅ Unlocked.

Definition on_lock {A} (m : GoM rw_state A) : GoM (Structure K V) A :=
  zoom internalLock (fun l s => mkStructure (InternalMap s) l) m.

Definition Lock : GoM (Structure K V) unit := on_lock rw_Lock.
Definition RLock : GoM (Structure K V) unit := on_lock rw_RLock.
Definition Unlock : GoM (Structure K V) unit := on_lock rw_Unlock.
Definition RUnlock : GoM (Structure K V) unit := on_lock rw_RUnlock.

Definition GetMap : GoM (Structure K V) (gmap K V) := go_gets InternalMap.
Definition Set_ (key : K) (value : V) : GoM (Structure K V) unit :=
  go_modify (fun s => mkStructure (<[key := value]> (InternalMap s)) (internalLock s)).
(** The pair [(V, bool)]: [Some v] is [(v, true)], [None] is [(zero, false)]. *)
Definition Get (key : K) : GoM (Structure K V) (option V) :=
  go_gets (fun s => InternalMap s !! key).
(** [GetNoCheck] returns the zero value of [V] for a missing key. *)
Definition GetNoCheck (zero : V) (key : K) : GoM (Structure K V) V :=
  go_gets (fun s => default zero (InternalMap s !! key)).
Definition Remove (key : K) : GoM (Structure K V) unit :=
  go_modify (fun s => mkStructure (delete key (InternalMap s)) (internalLock s)).
Definition Present (key : K) : GoM (Structure K V) bool :=
  go_gets (fun s => bool_decide (is_Some (InternalMap s !! key))).
Definition Len : GoM (Structure K V) Z :=
  go_gets (fun s => Z.of_nat (size (InternalMap s))).

Definition AtomicSet (key : K) (value : V) : GoM (Structure K V) unit :=
  Lock ;; Set_ key value ;; Unlock.
Definition AtomicGet (key : K) : GoM (Structure K V) (option V) :=
  RLock ;; r ← Get key; RUnlock ;; mret r.
Definition AtomicGetNoCheck (zero : V) (key : K) : GoM (Structure K V) V :=
  RLock ;; r ← GetNoCheck zero key; RUnlock ;; mret r.
Definition AtomicRemove (key : K) : GoM (Structure K V) unit :=
  Lock ;; Remove key ;; Unlock.
Definition AtomicLen : GoM (Structure K V) Z :=
  RLock ;; n ← Len; RUnlock ;; mret n.
Definition GetKeys (ord : range_order K V) : GoM (Structure K V) (list K) :=
  m ← GetMap; mret (ord m).*1.
Definition GetValues (ord : range_order K V) : GoM (Structure K V) (list V) :=
  m ← GetMap; mret (ord m).*2.

(** Every atomic operation leaves a free lock free and acts on the map as
    its unlocked counterpart; on a write-locked structure it blocks. *)
Lemma AtomicSet_free k v m :
  AtomicSet k v (mkStructure m Unlocked) = Ok (tt, mkStructure (<[k := v]> m) Unlocked).
Proof. done. Qed.
Lemma AtomicRemove_free k m :
  AtomicRemove k (mkStructure m Unlocked) = Ok (tt, mkStructure (delete k m) Unlocked).
Proof. done. Qed.
Lemma AtomicGet_free k m l :
  l ≠ WLocked -> AtomicGet k (mkStructure m l) = Ok (m !! k, mkStructure m l).
Proof. by destruct l. Qed.
Lemma AtomicLen_free m l :
  l ≠ WLocked ->
  AtomicLen (mkStructure m l) = Ok (Z.of_nat (size m), mkStructure m l).
Proof. by destruct l. Qed.
Lemma Atomic_held k v m :
  AtomicSet k v (mkStructure m WLocked) = Blocked /\
  AtomicRemove k (mkStructure m WLocked) = Blocked /\
  AtomicGet k (mkStructure m WLocked) = Blocked /\
  AtomicLen (mkStructure m WLocked) = Blocked.
Proof. done. Qed.
End Structure.

(** What a map behind a lock promises to the components that hold it. *)
Class SyncMapSpec {K V : Type} `{Countable K} (store : Structure K V -> gmap K V) : Prop := {
  sm_set : forall k v s u s', AtomicSet k v s = Ok (u, s') -> store s' = <[k := v]> (store s);
  sm_remove : forall k s u s', AtomicRemove k s = Ok (u, s') -> store s' = delete k (store s);
  sm_get : forall k s r s', AtomicGet k s = Ok (r, s') -> r = store s !! k /\ store s' = store s;
  sm_lock_free : forall (k : K) (v : V) (s : Structure K V), internalLock s = Unlocked ->
    returns (AtomicSet k v) s /\ returns (AtomicRemove k) s /\ returns (AtomicGet k) s;
}.

#[export] Instance Structure_spec {K V} `{Countable K} :
  SyncMapSpec (K:=K) (V:=V) InternalMap.
Proof.
  split; intros.
  - destruct s as [m []]; try done. rewrite AtomicSet_free in H0. by simplify_eq.
  - destruct s as [m []]; try done. rewrite AtomicRemove_free in H0. by simplify_eq.
  - destruct s as [m l]. destruct (decide (l = WLocked)) as [->|Hl]; [done|].
    rewrite AtomicGet_free in H0 by done. by simplify_eq.
  - destruct s as [m l]. simpl in *. subst l. unfold returns. eauto 10.
Qed.

(** ** pkg/map *)

Section maps.
Context {K V : Type} `{Countable K}.

Definition Keys (ord : range_order K V) (m : gmap K V) : list K :=
  foldl (fun r k => r ++ [k]) [] (ord m).*1.
Definition Values (ord : range_order K V) (m : gmap K V) : list V :=
  foldl (fun r v => r ++ [v]) [] (ord m).*2.
End maps.

(** The set of the second slice, then the elements of the first not in it. *)
Definition Difference {T} `{Countable T} (a b : list T) : list T :=
  let mb : gset T := foldl (fun mb x => {[x]} ∪ mb) ∅ b in
  foldl (fun diff x => if decide (x ∈ mb) then diff else diff ++ [x]) [] a.

Definition ExtractField {T} (m : list T) (extractor : T -> string)
  : list string * gmap string T :=
  foldl (fun acc t => let val := extractor t in
                      (acc.1 ++ [val], <[val := t]> acc.2)) ([], ∅) m.

Lemma foldl_snoc {A} (l acc : list A) : foldl (fun r x => r ++ [x]) acc l = acc ++ l.
Proof.
  revert acc. induction l as [|x l IH]; intros acc; simpl; [by rewrite app_nil_r|].
  rewrite IH, <- app_assoc. done.
Qed.

Lemma Keys_spec {K V} `{Countable K} (ord : range_order K V) m :
  valid_order ord -> NoDup (Keys ord m) /\ (forall k, k ∈ Keys ord m <-> is_Some (m !! k)).
Proof.
  intros Hord. unfold Keys. rewrite foldl_snoc. simpl. split.
  - by apply valid_order_NoDup_fst.
  - intros k. rewrite list_elem_of_fmap. split.
    + intros ([k' v]&->&Hin). rewrite valid_order_elem in Hin by done. eauto.
    + intros [v Hv]. exists (k, v). by rewrite valid_order_elem.
Qed.

Lemma foldl_set_elem {T} `{Countable T} (b : list T) (acc : gset T) x :
  x ∈ foldl (fun mb x => {[x]} ∪ mb) acc b <-> x ∈ acc \/ x ∈ b.
Proof.
  revert acc. induction b as [|y b IH]; intros acc; simpl; [set_solver|].
  rewrite IH. set_solver.
Qed.

Lemma foldl_filter {A} (P : A -> Prop) `{forall x, Decision (P x)} (l acc : list A) :
  foldl (fun r x => if decide (P x) then r else r ++ [x]) acc l =
  acc ++ filter (fun x => ¬ P x) l.
Proof.
  revert acc. induction l as [|x l IH]; intros acc; simpl; [by rewrite app_nil_r|].
  rewrite IH, filter_cons. repeat case_decide; try tauto.
  by rewrite <- app_assoc.
Qed.

(** [Difference] keeps, in order and with repetitions, the elements of [a]
    that do not occur in [b]. *)
Lemma Difference_filter {T} `{Countable T} (a b : list T) :
  Difference a b = filter (fun x => x ∉ b) a.
Proof.
  unfold Difference. rewrite foldl_filter. simpl.
  apply list_filter_iff. intros x. rewrite foldl_set_elem. set_solver.
Qed.

Lemma ExtractField_acc {T} (m : list T) f l0 m0 :
  foldl (fun acc t => (acc.1 ++ [f t], <[f t := t]> acc.2)) (l0, m0) m =
  (l0 ++ (f <$> m), foldl (fun mm t => <[f t := t]> mm) m0 m : gmap string T).
Proof.
  revert l0 m0. induction m as [|t m IH]; intros l0 m0; simpl; [by rewrite app_nil_r|].
  rewrite IH, <- app_assoc. done.
Qed.

Lemma foldl_insert_lookup {T} (m : list T) (f : T -> string) (m0 : gmap string T) k t :
  foldl (fun mm t => <[f t := t]> mm) m0 m !! k = Some t ->
  m0 !! k = Some t \/ (t ∈ m /\ f t = k).
Proof.
  revert m0. induction m as [|t' m IH]; intros m0; simpl; [by left|].
  intros [Hi|[Hin Hk]]%IH; [|right; set_solver].
  rewrite lookup_insert in Hi. case_decide; simplify_eq; [right|left]; set_solver.
Qed.

(** ** pkg/atomic_map *)

Section AtomicMap.
Context {K V : Type} `{Countable K}.
Implicit Types (c : gmap K V).

(** [sync.Map]: each operation is atomic. *)
Definition AM_Find (c : gmap K V) (key : K) : bool := bool_decide (is_Some (c !! key)).
Definition AM_Get (c : gmap K V) (key : K) : option V := c !! key.
Definition AM_GetUnsafe (zero : V) (c : gmap K V) (key : K) : V := default zero (c !! key).
Definition AM_Set (key : K) (value : V) (c : gmap K V) : gmap K V := <[key := value]> c.
Definition AM_LoadOrStore (key : K) (value : V) (c : gmap K V) : gmap K V :=
  match c !! key with Some _ => c | None => <[key := value]> c end.
Definition AM_RemoveKey (key : K) (c : gmap K V) : gmap K V := delete key c.
Definition AM_Keys (ord : range_order K V) (c : gmap K V) : list K :=
  foldl (fun r kv => r ++ [kv.1]) [] (ord c).
Definition AM_Values (ord : range_order K V) (c : gmap K V) : list V :=
  foldl (fun r kv => r ++ [kv.2]) [] (ord c).
Definition AM_KeyValues (ord : range_order K V) (c : gmap K V) : list K * list V :=
  foldl (fun r kv => (r.1 ++ [kv.1], r.2 ++ [kv.2])) ([], []) (ord c).
Definition AM_Len (ord : range_order K V) (c : gmap K V) : Z :=
  Z.of_nat (length (AM_Keys ord c)).

Lemma AM_KeyValues_zip ord c :
  AM_KeyValues ord c = ((ord c).*1, (ord c).*2).
Proof.
  unfold AM_KeyValues.
  assert (Hg : forall l (a : list K) (b : list V),
    foldl (fun r kv => (r.1 ++ [kv.1], r.2 ++ [kv.2])) (a, b) l = (a ++ l.*1, b ++ l.*2)).
  { induction l as [|[k v] l IH]; intros a b; simpl; [by rewrite !app_nil_r|].
    rewrite IH, <- !app_assoc. done. }
  by rewrite Hg.
Qed.
Lemma AM_Keys_fst ord c : AM_Keys ord c = (ord c).*1.
Proof.
  unfold AM_Keys.
  assert (Hg : forall (l : list (K * V)) (a : list K), foldl (fun r kv => r ++ [kv.1]) a l = a ++ l.*1).
  { induction l as [|[k v] l IH]; intros a; simpl; [by rewrite app_nil_r|]. by rewrite IH, <- app_assoc. }
  by rewrite Hg.
Qed.
End AtomicMap.

Section AtomicMapCounter.
Context {K : Type} `{Countable K}.
Local Open Scope Z_scope.

(** Each key holds a pointer to its own [int64]; a missing key counts 0. *)
Definition AMC_Get (c : gmap K Z) (key : K) : Z :=
  match c !! key with Some n => n | None => 0 end.
Definition AMC_AtomicAdd (key : K) (value : Z) (c : gmap K Z) : Z * gmap K Z :=
  match c !! key with
  | Some n => let n' := i64 (n + value) in (n', <[key := n']> c)
  | None => (value, <[key := value]> c)
  end.
Definition AMC_AtomicIncrement (key : K) (c : gmap K Z) : gmap K Z := (AMC_AtomicAdd key 1 c).2.
Definition AMC_AtomicDecrement (key : K) (c : gmap K Z) : gmap K Z := (AMC_AtomicAdd key (-1) c).2.
Definition AMC_Delete (key : K) (c : gmap K Z) : gmap K Z := delete key c.

Lemma AMC_Add_get c key value k :
  is_i64 value ->
  AMC_Get (AMC_AtomicAdd key value c).2 k =
    if decide (k = key) then i64 (AMC_Get c key + value) else AMC_Get c k.
Proof.
  intros Hv. unfold AMC_Get, AMC_AtomicAdd.
  destruct (c !! key) eqn:E; simpl; rewrite lookup_insert; repeat case_decide;
    subst; try done; rewrite i64_id; [lia|]; by rewrite Z.add_0_l.
Qed.
End AtomicMapCounter.
