(* ===== verification/Float64.v ===== *)
(** * float64

    Go's [float64] is IEEE 754 binary64.  The arithmetic is the executable
    specification of the Standard Library ([SpecFloat]) at precision 53 and
    maximal exponent 1024; the functions of package [math] the program calls
    are written out with their special cases (NaN, infinities, signed zeros). *)
From Stdlib Require Import ZArith Lia SpecFloat.
From stdpp Require Import base tactics list numbers.
From S2P Require Import Prelude.

Abbreviation float64 := spec_float.

Local Open Scope Z_scope.

Definition f64_prec : Z := 53.
Definition f64_emax : Z := 1024.

Definition f64_add : float64 -> float64 -> float64 := SFadd f64_prec f64_emax.
Definition f64_sub : float64 -> float64 -> float64 := SFsub f64_prec f64_emax.
Definition f64_mul : float64 -> float64 -> float64 := SFmul f64_prec f64_emax.
Definition f64_div : float64 -> float64 -> float64 := SFdiv f64_prec f64_emax.
Definition f64_sqrt : float64 -> float64 := SFsqrt f64_prec f64_emax.
Definition f64_ltb (x y : float64) : bool := SFltb x y.
Definition f64_leb (x y : float64) : bool := SFleb x y.
Definition f64_eqb (x y : float64) : bool := SFeqb x y.

(** [float64(n)] of an integer: rounded to nearest, ties to even. *)
Definition f64_of_Z (n : Z) : float64 := binary_normalize f64_prec f64_emax n 0 false.

Definition f64_is_nan (x : float64) : bool :=
  match x with S754_nan => true | _ => false end.
Definition f64_is_inf (neg : bool) (x : float64) : bool :=
  match x with S754_infinity s => Bool.eqb s neg | _ => false end.
Definition f64_signbit (x : float64) : bool :=
  match x with
  | S754_zero s | S754_infinity s | S754_finite s _ _ => s
  | S754_nan => false
  end.
Definition f64_is_zero (x : float64) : bool :=
  match x with S754_zero _ => true | _ => false end.

(** [math.Max], [math.Min]. *)
Definition f64_max (x y : float64) : float64 :=
  if f64_is_inf false x || f64_is_inf false y then S754_infinity false
  else if f64_is_nan x || f64_is_nan y then S754_nan
  else if f64_is_zero x && f64_is_zero y then (if f64_signbit x then y else x)
  else if f64_ltb y x then x else y.
Definition f64_min (x y : float64) : float64 :=
  if f64_is_inf true x || f64_is_inf true y then S754_infinity true
  else if f64_is_nan x || f64_is_nan y then S754_nan
  else if f64_is_zero x && f64_is_zero y then (if f64_signbit x then x else y)
  else if f64_ltb x y then x else y.

(** [math.Floor], [math.Ceil]; integers and specials are unchanged, and a
    result of zero keeps the sign of the argument. *)
Definition f64_floor (x : float64) : float64 :=
  match x with
  | S754_finite s m e =>
      if e <? 0 then
        let v := (if s then - Z.pos m else Z.pos m) / 2 ^ (- e) in
        if v =? 0 then S754_zero s else f64_of_Z v
      else x
  | _ => x
  end.
Definition f64_ceil (x : float64) : float64 := SFopp (f64_floor (SFopp x)).
Definition f64_abs (x : float64) : float64 := SFabs x.

(** Truncation of a finite value. *)
Definition f64_trunc_Z (x : float64) : option Z :=
  match x with
  | S754_zero _ => Some 0
  | S754_finite s m e =>
      let a := if e <? 0 then Z.pos m / 2 ^ (- e) else Z.pos m * 2 ^ e in
      Some (if s then - a else a)
  | _ => None
  end.

(** [int(x)], [uint64(x)]: truncation toward zero.  For a value out of range,
    an infinity or a NaN the language leaves the result to the
    implementation: [oob] is that result. *)
Definition f64_to_int (oob : Z) (x : float64) : Z :=
  match f64_trunc_Z x with
  | Some v => if (- 2 ^ 63 <=? v) && (v <? 2 ^ 63) then v else oob
  | None => oob
  end.
Definition f64_to_uint64 (oob : Z) (x : float64) : Z :=
  match f64_trunc_Z x with
  | Some v => if (0 <=? v) && (v <? 2 ^ 64) then v else oob
  | None => oob
  end.

(** ** Order facts *)

Lemma pos_compare_cont_Eq m1 m2 : Pos.compare_cont Eq m1 m2 = Pos.compare m1 m2.
Proof. done. Qed.

Lemma f64_leb_refl x : f64_is_nan x = false -> f64_leb x x = true.
Proof.
  destruct x as [[]|[]| |[] m e]; try done; intros _; unfold f64_leb, SFleb, SFcompare.
  - rewrite Z.compare_refl, pos_compare_cont_Eq, Pos.compare_refl. done.
  - rewrite Z.compare_refl, pos_compare_cont_Eq, Pos.compare_refl. done.
Qed.

Lemma f64_ltb_leb x y : f64_ltb x y = true -> f64_leb x y = true.
Proof. unfold f64_ltb, f64_leb, SFltb, SFleb. by destruct (SFcompare x y) as [[]|]. Qed.

Lemma SFcompare_antisym x y :
  SFcompare y x = match SFcompare x y with Some c => Some (CompOpp c) | None => None end.
Proof.
  destruct x as [[]|[]| |[] m e], y as [[]|[]| |[] m' e']; try done; simpl;
    rewrite !pos_compare_cont_Eq, (Z.compare_antisym e e'), (Pos.compare_antisym m m');
    destruct (e ?= e'); try done; by destruct (m ?= m')%positive.
Qed.

Lemma f64_not_ltb x y :
  f64_is_nan x = false -> f64_is_nan y = false ->
  f64_ltb x y = false -> f64_leb y x = true.
Proof.
  intros Hx Hy. unfold f64_ltb, f64_leb, SFltb, SFleb. rewrite (SFcompare_antisym x y).
  destruct (SFcompare x y) as [[]|] eqn:E; try done. intros _.
  by destruct x as [[]|[]| |[] ??], y as [[]|[]| |[] ??].
Qed.

Lemma f64_max_ub x y :
  f64_is_nan x = false -> f64_is_nan y = false ->
  f64_leb x (f64_max x y) = true /\ f64_leb y (f64_max x y) = true /\
  f64_is_nan (f64_max x y) = false.
Proof.
  intros Hx Hy. unfold f64_max. rewrite Hx, Hy. simpl.
  destruct (f64_is_inf false x || f64_is_inf false y) eqn:Ei.
  { destruct x as [[]|[]| |[] ??], y as [[]|[]| |[] ??]; done. }
  destruct (f64_is_zero x && f64_is_zero y) eqn:Ez.
  { by destruct x as [[]|[]| |[] ??], y as [[]|[]| |[] ??]. }
  destruct (f64_ltb y x) eqn:El.
  - auto using f64_leb_refl, f64_ltb_leb.
  - auto using f64_leb_refl, f64_not_ltb.
Qed.

Lemma f64_min_cases x y :
  f64_is_nan x = false -> f64_is_nan y = false ->
  f64_leb (f64_min x y) y = true /\ (f64_min x y = x \/ f64_min x y = y).
Proof.
  intros Hx Hy. unfold f64_min. rewrite Hx, Hy. simpl.
  destruct (f64_is_inf true x || f64_is_inf true y) eqn:Ei.
  { destruct x as [[]|[]| |[] ??], y as [[]|[]| |[] ??]; try done; simpl; auto. }
  destruct (f64_is_zero x && f64_is_zero y) eqn:Ez.
  { destruct x as [[]|[]| |[] ??], y as [[]|[]| |[] ??]; try done; simpl; auto. }
  destruct (f64_ltb x y) eqn:El; auto using f64_leb_refl, f64_ltb_leb.
Qed.

(** [min(max(d, lo), hi)] stays in [[lo, hi]]. *)
Lemma f64_clamp_range d lo hi :
  f64_is_nan d = false -> f64_is_nan lo = false -> f64_is_nan hi = false ->
  f64_leb lo hi = true ->
  f64_leb lo (f64_min (f64_max d lo) hi) = true /\
  f64_leb (f64_min (f64_max d lo) hi) hi = true.
Proof.
  intros Hd Hl Hh Hlh.
  destruct (f64_max_ub d lo Hd Hl) as (_&Hm&Hn).
  destruct (f64_min_cases (f64_max d lo) hi Hn Hh) as (Hle&[E|E]); rewrite E in *; auto.
Qed.

(** ** Exactness on integers

    Counts of requests are integers; below [2^53] their conversion, sum and
    comparison in binary64 are exact. *)

Lemma digits2_pos_bounds m :
  2 ^ (Z.pos (digits2_pos m) - 1) <= Z.pos m < 2 ^ Z.pos (digits2_pos m).
Proof.
  induction m as [m IH|m IH|]; simpl digits2_pos; [| |simpl; lia];
    rewrite Pos2Z.inj_succ, Z.pow_succ_r by lia;
    replace (Z.succ (Z.pos (digits2_pos m)) - 1) with (Z.succ (Z.pos (digits2_pos m) - 1)) by lia;
    rewrite Z.pow_succ_r by lia; lia.
Qed.

Lemma digits2_pos_unique m d :
  0 < d -> 2 ^ (d - 1) <= Z.pos m < 2 ^ d -> Z.pos (digits2_pos m) = d.
Proof.
  intros Hd Hm. pose proof (digits2_pos_bounds m) as Hb.
  set (k := Z.pos (digits2_pos m)) in *.
  assert (Hk : 0 < k) by (unfold k; lia).
  destruct (Z.lt_trichotomy k d) as [Hlt|[Heq|Hgt]]; [|done|].
  - assert (2 ^ k <= 2 ^ (d - 1)) by (apply Z.pow_le_mono_r; lia). lia.
  - assert (2 ^ d <= 2 ^ (k - 1)) by (apply Z.pow_le_mono_r; lia). lia.
Qed.

Lemma iter_xO m k : Z.pos (Pos.iter xO m k) = Z.pos m * 2 ^ Z.pos k.
Proof.
  induction k as [|k IH] using Pos.peano_ind; [simpl; lia|].
  rewrite Pos.iter_succ, Pos2Z.inj_succ, Z.pow_succ_r, Pos2Z.inj_xO, IH by lia. lia.
Qed.

Lemma iter_pos_comm {A} (f : A -> A) p x :
  SpecFloat.iter_pos f p (f x) = f (SpecFloat.iter_pos f p x).
Proof.
  revert x. induction p as [p IH|p IH|]; intros x; simpl; by rewrite ?IH.
Qed.

Lemma iter_pos_succ {A} (f : A -> A) p x :
  SpecFloat.iter_pos f (Pos.succ p) x = SpecFloat.iter_pos f p (f x).
Proof.
  revert x. induction p as [p IH|p IH|]; intros x; simpl; [|done|done].
  by rewrite !IH, !iter_pos_comm.
Qed.

Lemma iter_shr_exact q p m :
  Z.pos m = Z.pos q * 2 ^ Z.pos p ->
  SpecFloat.iter_pos shr_1 p (Build_shr_record (Z.pos m) false false) =
  Build_shr_record (Z.pos q) false false.
Proof.
  revert m. induction p as [|p IH] using Pos.peano_ind; intros m Hm.
  - simpl in *. assert (m = xO q) as -> by lia. done.
  - rewrite iter_pos_succ. rewrite Pos2Z.inj_succ, Z.pow_succ_r in Hm by lia.
    assert (Hr : exists r, m = xO r /\ Z.pos r = Z.pos q * 2 ^ Z.pos p).
    { exists (Pos.iter xO q p). rewrite iter_xO. split; [|done].
      assert (Z.pos m = Z.pos (xO (Pos.iter xO q p))); [|by simplify_eq].
      rewrite Pos2Z.inj_xO, iter_xO. lia. }
    destruct Hr as (r&->&Hr). simpl. by apply IH.
Qed.

(** The binary64 mantissa of a positive integer below [2^53]. *)
Definition canon_mantissa (v : positive) : positive :=
  Z.to_pos (Z.pos v * 2 ^ (53 - Z.pos (digits2_pos v))).

Definition canon_float (v : positive) : float64 :=
  S754_finite false (canon_mantissa v) (Z.pos (digits2_pos v) - 53).

Section exact.
Context (v : positive) (Hv : Z.pos v < 2 ^ 53).
Local Abbreviation d := (Z.pos (digits2_pos v)).

Lemma digits_small : 1 <= d <= 53.
Proof.
  split; [lia|]. pose proof (digits2_pos_bounds v) as [Hb _].
  destruct (Z.le_gt_cases d 53) as [|Hgt]; [done|].
  assert (2 ^ 53 <= 2 ^ (d - 1)) by (apply Z.pow_le_mono_r; lia). lia.
Qed.

Lemma canon_mantissa_val : Z.pos (canon_mantissa v) = Z.pos v * 2 ^ (53 - d).
Proof.
  pose proof digits_small. unfold canon_mantissa.
  rewrite Z2Pos.id; [done|]. apply Z.mul_pos_pos; [lia|]. apply Z.pow_pos_nonneg; lia.
Qed.

Lemma canon_mantissa_digits : Z.pos (digits2_pos (canon_mantissa v)) = 53.
Proof.
  pose proof digits_small. pose proof (digits2_pos_bounds v) as Hb.
  apply digits2_pos_unique; [lia|]. rewrite canon_mantissa_val.
  replace (53 - 1) with ((d - 1) + (53 - d)) by lia.
  replace 53 with (d + (53 - d)) at 4 by lia.
  rewrite !Z.pow_add_r by lia.
  assert (0 < 2 ^ (53 - d)) by (apply Z.pow_pos_nonneg; lia). nia.
Qed.

Lemma fexp_small e : -100 <= e <= 100 -> fexp f64_prec f64_emax e = e - 53.
Proof. unfold fexp, emin, f64_prec, f64_emax. lia. Qed.

Lemma round_aux_canon m e :
  Z.pos (digits2_pos m) = 53 -> -53 <= e <= 0 ->
  binary_round_aux f64_prec f64_emax false (Z.pos m) e loc_Exact = S754_finite false m e.
Proof.
  intros Hm He. unfold binary_round_aux, shr_fexp. simpl Zdigits2.
  rewrite Hm, fexp_small by lia. replace (53 + e - 53 - e) with 0 by lia. simpl.
  rewrite Hm, fexp_small by lia. replace (53 + e - 53 - e) with 0 by lia. simpl.
  unfold f64_emax, f64_prec. destruct (Z.leb_spec e (1024 - 53)); [done|lia].
Qed.

Lemma binary_round_int m e :
  -53 <= e <= 0 -> Z.pos m = Z.pos v * 2 ^ (- e) ->
  binary_round f64_prec f64_emax false m e = canon_float v.
Proof.
  intros He Hm. pose proof digits_small as Hd. pose proof (digits2_pos_bounds v) as Hb.
  assert (Hp : 0 < 2 ^ (- e)) by (apply Z.pow_pos_nonneg; lia).
  assert (Hdm : Z.pos (digits2_pos m) = d - e).
  { apply digits2_pos_unique; [lia|]. rewrite Hm.
    replace (d - e - 1) with ((d - 1) + - e) by lia.
    replace (d - e) with (d + - e) by lia. rewrite !Z.pow_add_r by lia. nia. }
  unfold binary_round. rewrite Hdm, fexp_small by lia.
  replace (d - e + e - 53) with (d - 53) by lia.
  unfold shl_align. destruct (d - 53 - e) as [|p|p] eqn:Et.
  - assert (e = d - 53) as -> by lia.
    rewrite round_aux_canon by lia. unfold canon_float. f_equal.
    apply Pos2Z.inj. rewrite canon_mantissa_val, Hm. do 2 f_equal. lia.
  - unfold binary_round_aux, shr_fexp. simpl Zdigits2. rewrite Hdm, fexp_small by lia.
    replace (d - e + e - 53 - e) with (Z.pos p) by lia. simpl.
    rewrite (iter_shr_exact (canon_mantissa v)).
    2:{ rewrite canon_mantissa_val, Hm, <- Z.mul_assoc, <- Z.pow_add_r by lia.
        do 2 f_equal. lia. }
    simpl. rewrite canon_mantissa_digits, fexp_small by lia.
    replace (53 + (e + Z.pos p) - 53 - (e + Z.pos p)) with 0 by lia. simpl.
    unfold f64_emax, f64_prec.
    destruct (Z.leb_spec (e + Z.pos p) (1024 - 53)); [|lia].
    unfold canon_float. f_equal. lia.
  - assert (Hmz : Pos.iter xO m p = canon_mantissa v).
    { apply Pos2Z.inj. rewrite iter_xO, canon_mantissa_val, Hm, <- Z.mul_assoc,
        <- Z.pow_add_r by lia. do 2 f_equal. lia. }
    rewrite Hmz, round_aux_canon; [done|apply canon_mantissa_digits|lia].
Qed.

Lemma f64_of_Z_pos : f64_of_Z (Z.pos v) = canon_float v.
Proof. apply binary_round_int; [lia|]. simpl. lia. Qed.

Lemma f64_trunc_canon : f64_trunc_Z (canon_float v) = Some (Z.pos v).
Proof.
  pose proof digits_small. unfold f64_trunc_Z, canon_float. rewrite canon_mantissa_val.
  destruct (Z.ltb_spec (d - 53) 0).
  - f_equal. replace (- (d - 53)) with (53 - d) by lia.
    apply Z.div_mul. apply Z.pow_nonzero; lia.
  - replace (53 - d) with 0 by lia. replace (d - 53) with 0 by lia. simpl. f_equal. lia.
Qed.
End exact.

Definition is_count (n : Z) : Prop := 0 <= n < 2 ^ 53.

Lemma f64_of_Z_0 : f64_of_Z 0 = S754_zero false.
Proof. done. Qed.

Lemma f64_to_int_of_Z oob n : is_count n -> f64_to_int oob (f64_of_Z n) = n.
Proof.
  intros Hn. unfold is_count in Hn. destruct n as [|v|v]; [done| |lia].
  rewrite f64_of_Z_pos by lia. unfold f64_to_int. rewrite f64_trunc_canon by lia.
  destruct (Z.leb_spec (- 2 ^ 63) (Z.pos v)), (Z.ltb_spec (Z.pos v) (2 ^ 63)); simpl; lia.
Qed.

Lemma f64_add_of_Z a b :
  is_count a -> is_count b -> is_count (a + b) ->
  f64_add (f64_of_Z a) (f64_of_Z b) = f64_of_Z (a + b).
Proof.
  unfold is_count. intros Ha Hb Hab.
  destruct a as [|x|x]; [|destruct b as [|y|y]; [|..]|lia]; try lia.
  - rewrite f64_of_Z_0, Z.add_0_l. destruct b as [|y|y]; [done| |lia].
    by rewrite f64_of_Z_pos by lia.
  - rewrite f64_of_Z_0, Z.add_0_r. by rewrite f64_of_Z_pos by lia.
  - rewrite !(f64_of_Z_pos) by lia. pose proof (digits_small x ltac:(lia)) as Hx.
    pose proof (digits_small y ltac:(lia)) as Hy.
    simpl Z.add. unfold canon_float at 1 2. unfold f64_add, SFadd.
    set (ex := Z.pos (digits2_pos x) - 53) in *. set (ey := Z.pos (digits2_pos y) - 53) in *.
    assert (Hal : forall w e, Z.pos w < 2 ^ 53 -> e = Z.pos (digits2_pos w) - 53 ->
              forall ez, ez <= e -> Z.pos (shl_align (canon_mantissa w) e ez).1 = Z.pos w * 2 ^ (- ez)).
    { intros w e Hw -> ez Hez. pose proof (digits_small w Hw) as Hdw. unfold shl_align.
      destruct (ez - (Z.pos (digits2_pos w) - 53)) as [|p|p] eqn:E; [|lia|].
      - simpl fst. rewrite canon_mantissa_val by done. do 2 f_equal. lia.
      - simpl fst. rewrite iter_xO, canon_mantissa_val by done.
        rewrite <- Z.mul_assoc, <- Z.pow_add_r by lia. do 2 f_equal. lia. }
    unfold cond_Zopp. rewrite (Hal x ex), (Hal y ey) by lia.
    rewrite <- Z.mul_add_distr_r, <- Pos2Z.inj_add.
    assert (Hp : 0 < 2 ^ (- Z.min ex ey)) by (apply Z.pow_pos_nonneg; lia).
    destruct (Z.pos (x + y) * 2 ^ (- Z.min ex ey)) as [|m|m] eqn:Em; [nia| |nia].
    rewrite f64_of_Z_pos by lia. unfold binary_normalize.
    apply binary_round_int; lia.
Qed.

Lemma f64_compare_of_Z a b :
  is_count a -> is_count b -> SFcompare (f64_of_Z a) (f64_of_Z b) = Some (a ?= b).
Proof.
  unfold is_count. intros Ha Hb.
  destruct a as [|x|x], b as [|y|y]; try lia; try done; rewrite ?f64_of_Z_pos by lia; try done.
  unfold canon_float, SFcompare. f_equal. rewrite pos_compare_cont_Eq.
  pose proof (digits2_pos_bounds x). pose proof (digits2_pos_bounds y).
  pose proof (digits_small x ltac:(lia)). pose proof (digits_small y ltac:(lia)).
  set (dx := Z.pos (digits2_pos x)) in *. set (dy := Z.pos (digits2_pos y)) in *.
  destruct (Z.compare_spec (dx - 53) (dy - 53)) as [E|E|E].
  - change (canon_mantissa x ?= canon_mantissa y)%positive
      with (Z.pos (canon_mantissa x) ?= Z.pos (canon_mantissa y)).
    rewrite !canon_mantissa_val by lia. fold dx dy. replace dy with dx by lia.
    assert (0 < 2 ^ (53 - dx)) by (apply Z.pow_pos_nonneg; lia).
    destruct (Z.compare_spec (Z.pos x) (Z.pos y)) as [He|He|He].
    + rewrite He. apply Z.compare_refl.
    + rewrite Z.compare_lt_iff. nia.
    + rewrite Z.compare_gt_iff. nia.
  - symmetry. rewrite Z.compare_lt_iff.
    assert (2 ^ dx <= 2 ^ (dy - 1)) by (apply Z.pow_le_mono_r; lia). lia.
  - symmetry. rewrite Z.compare_gt_iff.
    assert (2 ^ dy <= 2 ^ (dx - 1)) by (apply Z.pow_le_mono_r; lia). lia.
Qed.

Lemma f64_of_Z_finite n :
  is_count n ->
  f64_is_nan (f64_of_Z n) = false /\ (forall s, f64_is_inf s (f64_of_Z n) = false) /\
  f64_is_zero (f64_of_Z n) = (n =? 0) /\ f64_signbit (f64_of_Z n) = false.
Proof.
  unfold is_count. intros Hn. destruct n as [|v|v]; [done| |lia].
  by rewrite f64_of_Z_pos by lia.
Qed.

Lemma f64_min_of_Z a b :
  is_count a -> is_count b -> f64_min (f64_of_Z a) (f64_of_Z b) = f64_of_Z (Z.min a b).
Proof.
  intros Ha Hb. destruct (f64_of_Z_finite a Ha) as (Hna&Hia&Hza&Hsa).
  destruct (f64_of_Z_finite b Hb) as (Hnb&Hib&Hzb&Hsb).
  unfold f64_min, f64_ltb, SFltb. rewrite Hna, Hnb, Hia, Hib, Hza, Hzb, Hsa, f64_compare_of_Z by done.
  simpl. destruct ((a =? 0) && (b =? 0)) eqn:E0.
  { f_equal. unfold is_count in *. lia. }
  destruct (a ?= b) eqn:E; f_equal;
    rewrite ?Z.compare_eq_iff, ?Z.compare_lt_iff, ?Z.compare_gt_iff in E; lia.
Qed.

Lemma f64_max_of_Z a b :
  is_count a -> is_count b -> f64_max (f64_of_Z a) (f64_of_Z b) = f64_of_Z (Z.max a b).
Proof.
  intros Ha Hb. destruct (f64_of_Z_finite a Ha) as (Hna&Hia&Hza&Hsa).
  destruct (f64_of_Z_finite b Hb) as (Hnb&Hib&Hzb&Hsb).
  unfold f64_max, f64_ltb, SFltb. rewrite Hna, Hnb, Hia, Hib, Hza, Hzb, Hsa, f64_compare_of_Z by done.
  simpl. destruct ((a =? 0) && (b =? 0)) eqn:E0.
  { f_equal. unfold is_count in *. lia. }
  destruct (b ?= a) eqn:E; f_equal;
    rewrite ?Z.compare_eq_iff, ?Z.compare_lt_iff, ?Z.compare_gt_iff in E; lia.
Qed.
