(* ===== verification/Autoscaling.v ===== *)
(** * The autoscaler

    [internal/control_plane/autoscaling]: the per-function metrics window and
    Knative-style scaling decision ([autoscaling.go]) and the per-function
    controller with its scaling loop ([controller.go]). *)
From Stdlib Require Import ZArith Lia SpecFloat.
From stdpp Require Import base tactics list gmap strings sets numbers.
From S2P Require Import Prelude Float64.

Local Open Scope Z_scope.

(** ** Data *)

(** [proto.AutoscalingConfiguration]; the [float] fields are float32 values,
    which [float64(...)] widens exactly. *)
Record AutoscalingConfiguration : Type := mkAutoscalingConfiguration {
  ScalingUpperBound : Z;
  ScalingLowerBound : Z;
  PanicThresholdPercentage : float64;
  MaxScaleUpRate : float64;
  MaxScaleDownRate : float64;
  ContainerConcurrency : Z;
  ContainerConcurrencyTargetPercentage : Z;
  StableWindowWidthSeconds : Z;
  PanicWindowWidthSeconds : Z;
  ScalingPeriodSeconds : Z;
  ScalingMethod : Z;
}.

(** [AveragingMethod] *)
Definition Arithmetic : Z := 0.
Definition Exponential : Z := 1.

(** Times and durations are nanoseconds; [time.Time{}] is year 1. *)
Definition zero_time : Z := -62135596800 * 10 ^ 9.
Definition Second : Z := 10 ^ 9.

Record AutoscalingMetadata : Type := mkAutoscalingMetadata {
  ActualScale : Z;
  AutoscalingConfig : AutoscalingConfiguration;
  InPanicMode : bool;
  StartPanickingTimestamp : Z;
  MaxPanicPods : Z;
  inflightRequestsPerDataPlane : gmap string Z;
  cachedScalingMetric : Z;
  scalingMetrics : list float64;
  windowHead : Z;
}.

Definition set_ActualScale (n : Z) (s : AutoscalingMetadata) : AutoscalingMetadata :=
  mkAutoscalingMetadata n (AutoscalingConfig s) (InPanicMode s)
    (StartPanickingTimestamp s) (MaxPanicPods s) (inflightRequestsPerDataPlane s)
    (cachedScalingMetric s) (scalingMetrics s) (windowHead s).
Definition set_panic (b : bool) (t n : Z) (s : AutoscalingMetadata) : AutoscalingMetadata :=
  mkAutoscalingMetadata (ActualScale s) (AutoscalingConfig s) b t n
    (inflightRequestsPerDataPlane s) (cachedScalingMetric s) (scalingMetrics s) (windowHead s).
Definition set_inflight (m : gmap string Z) (c : Z) (s : AutoscalingMetadata) : AutoscalingMetadata :=
  mkAutoscalingMetadata (ActualScale s) (AutoscalingConfig s) (InPanicMode s)
    (StartPanickingTimestamp s) (MaxPanicPods s) m c (scalingMetrics s) (windowHead s).
Definition set_window (l : list float64) (h : Z) (s : AutoscalingMetadata) : AutoscalingMetadata :=
  mkAutoscalingMetadata (ActualScale s) (AutoscalingConfig s) (InPanicMode s)
    (StartPanickingTimestamp s) (MaxPanicPods s) (inflightRequestsPerDataPlane s)
    (cachedScalingMetric s) l h.

Definition NewDefaultAutoscalingMetadata (coldStartSweep : bool) : AutoscalingConfiguration :=
  if coldStartSweep then
    mkAutoscalingConfiguration 1 0 (f64_of_Z 200) (f64_of_Z 1000) (f64_of_Z 2) 1 100 6 2 2 Arithmetic
  else
    mkAutoscalingConfiguration (2 ^ 31 - 1) 0 (f64_of_Z 200) (f64_of_Z 1000) (f64_of_Z 2)
      1 100 60 6 2 Arithmetic.

(** The zero value of the struct with its configuration, as
    [NewPerFunctionStateController] builds it. *)
Definition new_metadata (cfg : AutoscalingConfiguration) : AutoscalingMetadata :=
  mkAutoscalingMetadata 0 cfg false zero_time 0 ∅ 0 [] 0.

(** ** In-flight requests per data plane *)

(** A missing map entry reads as 0. *)
Definition inflight_of (s : AutoscalingMetadata) (dp : string) : Z :=
  default 0 (inflightRequestsPerDataPlane s !! dp).

Definition RemoveDataplane (dataplaneName : string) (s : AutoscalingMetadata) : AutoscalingMetadata :=
  set_inflight (delete dataplaneName (inflightRequestsPerDataPlane s))
    (i32 (cachedScalingMetric s + i32 (- inflight_of s dataplaneName))) s.

Definition SetCachedScalingMetric (DataplaneName : string) (InflightRequests : Z)
    (s : AutoscalingMetadata) : AutoscalingMetadata :=
  set_inflight (<[DataplaneName := InflightRequests]> (inflightRequestsPerDataPlane s))
    (i32 (cachedScalingMetric s + i32 (InflightRequests - inflight_of s DataplaneName))) s.

(** ** The sliding window *)

(** int32 division: truncated, and a run-time panic on a zero divisor. *)
Definition div_int32 (a b : Z) : outcome Z :=
  if decide (b = 0) then Panic else Ok (i32 (Z.quot a b)).

Section windowAverage.
(** The result of a float-to-int conversion out of range. *)
Context (oob : Z).

(** The summing loop: [n] iterations from bucket [idx], wrapping to the last
    bucket of the window of length [windowLength]. *)
Fixpoint bucketSum (n : nat) (metrics : list float64) (idx windowLength : Z)
    (exponential : bool) (coef mult acc : float64) : outcome float64 :=
  match n with
  | O => Ok acc
  | S n' =>
      value ← go_index metrics idx;
      let value' := if exponential then f64_mul value mult else value in
      let mult' := if exponential then f64_mul (f64_sub (f64_of_Z 1) coef) mult else mult in
      let idx' := idx - 1 in
      let idx'' := if decide (idx' < 0) then windowLength - 1 else idx' in
      bucketSum n' metrics idx'' windowLength exponential coef mult' (f64_add acc value')
  end.

Definition windowAverage (observedStableValue : float64)
  : GoM AutoscalingMetadata (float64 * float64) := fun s =>
  let cfg := AutoscalingConfig s in
  panicBucketCount ← div_int32 (PanicWindowWidthSeconds cfg) (ScalingPeriodSeconds cfg);
  stableBucketCount ← div_int32 (StableWindowWidthSeconds cfg) (ScalingPeriodSeconds cfg);
  (* the smoothing coefficients keep their zero value *)
  let smoothingCoefficientStable := S754_zero false in
  let smoothingCoefficientPanic := S754_zero false in
  let exponential := bool_decide (ScalingMethod cfg = Exponential) in
  let multiplierStable := S754_zero false in
  let multiplierPanic := S754_zero false in
  let len := Z.of_nat (length (scalingMetrics s)) in
  metrics ← (if decide (len < stableBucketCount) then Ok (scalingMetrics s ++ [observedStableValue])
             else if decide (0 <= windowHead s < len)
                  then Ok (<[Z.to_nat (windowHead s) := observedStableValue]> (scalingMetrics s))
                  else Panic);
  let len' := f64_of_Z (Z.of_nat (length metrics)) in
  let windowLength := f64_to_int oob (f64_min (f64_of_Z stableBucketCount) len') in
  sumStable ← bucketSum (Z.to_nat windowLength) metrics (windowHead s) windowLength exponential
                smoothingCoefficientStable multiplierStable (S754_zero false);
  let avgStable := if decide (ScalingMethod cfg = Arithmetic)
                   then f64_div sumStable (f64_of_Z windowLength) else sumStable in
  let windowLengthP := f64_to_int oob (f64_min (f64_of_Z panicBucketCount) len') in
  sumPanic ← bucketSum (Z.to_nat windowLengthP) metrics (windowHead s) windowLengthP exponential
               smoothingCoefficientPanic multiplierPanic (S754_zero false);
  let head' := i64 (windowHead s + 1) in
  let head'' := if decide (stableBucketCount <= head') then 0 else head' in
  let avgPanic := if decide (ScalingMethod cfg = Arithmetic)
                  then f64_div sumPanic (f64_of_Z windowLengthP) else sumPanic in
  Ok ((avgStable, avgPanic), set_window metrics head'' s).

(** ** The scaling decision *)

(** Entering, extending and leaving panic mode. *)
Definition updatePanicMode (now : Z) (isOverPanicThreshold : bool)
    (s : AutoscalingMetadata) : AutoscalingMetadata :=
  if negb (InPanicMode s) && isOverPanicThreshold then
    set_panic true now (MaxPanicPods s) s
  else if isOverPanicThreshold then
    set_panic (InPanicMode s) now (MaxPanicPods s) s
  else if InPanicMode s && negb isOverPanicThreshold &&
          bool_decide (StartPanickingTimestamp s +
            StableWindowWidthSeconds (AutoscalingConfig s) * Second < now) then
    set_panic false zero_time 0 s
  else s.

(** The pod count of the cycle: in panic mode the larger of the two counts,
    and never less than the largest count of the panic episode. *)
Definition decidePodCount (desiredStablePodCount desiredPanicPodCount : Z)
    (s : AutoscalingMetadata) : Z * AutoscalingMetadata :=
  if InPanicMode s then
    let desiredPodCount := if decide (desiredStablePodCount < desiredPanicPodCount)
                           then desiredPanicPodCount else desiredStablePodCount in
    let s' := if decide (MaxPanicPods s < desiredPodCount)
              then set_panic true (StartPanickingTimestamp s) desiredPodCount s else s in
    (MaxPanicPods s', s')
  else (desiredStablePodCount, s).

Definition readyPods (s : AutoscalingMetadata) : float64 :=
  f64_max (f64_of_Z 1) (f64_of_Z (ActualScale s)).

Definition desiredPerPod (cfg : AutoscalingConfiguration) : float64 :=
  let target := f64_div (f64_of_Z (ContainerConcurrencyTargetPercentage cfg)) (f64_of_Z 100) in
  if decide (ContainerConcurrency cfg = 0) then f64_mul (f64_of_Z 100) target
  else f64_mul (f64_of_Z (ContainerConcurrency cfg)) target.

(** [int(math.Min(math.Max(count, maxScaleDown), maxScaleUp))] *)
Definition limitRate (cfg : AutoscalingConfiguration) (readyPodsCount count : float64) : Z :=
  let maxScaleUp := f64_ceil (f64_mul (MaxScaleUpRate cfg) readyPodsCount) in
  let maxScaleDown := f64_floor (f64_div readyPodsCount (MaxScaleDownRate cfg)) in
  f64_to_int oob (f64_min (f64_max count maxScaleDown) maxScaleUp).

Definition internalScaleAlgorithm (now : Z) (scalingMetric : float64)
  : GoM AutoscalingMetadata (Z * float64) := fun s0 =>
  let cfg := AutoscalingConfig s0 in
  let readyPodsCount := readyPods s0 in
  r ← windowAverage scalingMetric s0;
  let '((avgStable, avgPanic), s) := r in
  let dspc := f64_ceil (f64_div avgStable (desiredPerPod cfg)) in
  let dppc := f64_ceil (f64_div avgPanic (desiredPerPod cfg)) in
  let isOverPanicThreshold :=
    f64_leb (f64_div (PanicThresholdPercentage cfg) (f64_of_Z 100)) (f64_div dppc readyPodsCount) in
  let '(desiredPodCount, s') :=
    decidePodCount (limitRate cfg readyPodsCount dspc) (limitRate cfg readyPodsCount dppc)
      (updatePanicMode now isOverPanicThreshold s) in
  Ok ((desiredPodCount, avgStable), s').

(** [mathutil.Clamp] is a library function. *)
Context (Clamp : Z -> Z -> Z -> Z).

Definition KnativeScaling (now : Z) (isScaleFromZero : bool) : GoM AutoscalingMetadata Z :=
  if isScaleFromZero then mret 1 else
    s ← go_get;
    r ← internalScaleAlgorithm now (f64_of_Z (cachedScalingMetric s));
    mret (Clamp r.1 (ScalingLowerBound (AutoscalingConfig s)) (ScalingUpperBound (AutoscalingConfig s))).
End windowAverage.

(** ** The window as a moving average *)

Definition zsum (l : list Z) : Z := foldr Z.add 0 l.

Lemma zsum_nonneg l : Forall (fun z => 0 <= z) l -> 0 <= zsum l.
Proof. induction 1; simpl; lia. Qed.

Lemma zsum_take_mono i j l :
  Forall (fun z => 0 <= z) l -> (i <= j)%nat -> zsum (take i l) <= zsum (take j l).
Proof.
  intros Hl. revert i j. induction Hl as [|z l Hz Hl IH]; intros [|i] [|j] Hij; simpl; try lia.
  - pose proof (zsum_nonneg (take j l) ltac:(by apply Forall_take)). lia.
  - specialize (IH i j ltac:(lia)). lia.
Qed.

Lemma mod_pred (a n : nat) :
  (0 < n)%nat -> (0 < a)%nat ->
  ((a - 1) mod n = if decide (a mod n = 0) then n - 1 else a mod n - 1)%nat.
Proof.
  intros Hn Ha. pose proof (Nat.div_mod_eq a n) as Hdm.
  pose proof (Nat.mod_upper_bound a n ltac:(lia)) as Hr.
  symmetry. case_decide as E.
  - assert (1 <= a / n)%nat by (destruct (a / n)%nat; lia).
    apply (Nat.mod_unique _ _ (a / n - 1)); [lia|].
    rewrite Nat.mul_sub_distr_l. nia.
  - apply (Nat.mod_unique _ _ (a / n)); lia.
Qed.

Lemma mod_sub_small (L j n : nat) :
  (0 < n)%nat -> (j <= L mod n)%nat -> ((L - j) mod n = L mod n - j)%nat.
Proof.
  intros Hn Hj. pose proof (Nat.div_mod_eq L n). pose proof (Nat.mod_upper_bound L n ltac:(lia)).
  symmetry. apply (Nat.mod_unique _ _ (L / n)); lia.
Qed.

(** The buckets of [metrics] hold the most recent observations [hist] (newest
    first): the [j]-th most recent one is in slot [(L - j) mod n]. *)
Definition holds_recent (n : nat) (metrics : list float64) (hist : list Z) : Prop :=
  forall j z, (j < n)%nat -> hist !! j = Some z ->
    metrics !! ((length hist - 1 - j) mod n)%nat = Some (f64_of_Z z).

Section recent.
Context (n : nat) (Hn : (0 < n)%nat) (metrics : list float64) (hist : list Z).
Context (Hrecent : holds_recent n metrics hist).
Context (Hcounts : Forall (fun z => 0 <= z) hist).
Let L := (length hist - 1)%nat.

(** From the slot of the [j]-th most recent observation, [k] iterations add
    exactly the next [k] observations, provided the loop does not wrap or
    wraps at the end of the whole window. *)
Lemma bucketSum_recent k j wl acc idx c m :
  (j + k <= n)%nat -> (j + k <= length hist)%nat ->
  (wl = Z.of_nat n \/ (j + k <= S (L mod n))%nat) ->
  (k = 0%nat \/ idx = Z.of_nat ((L - j) mod n)%nat) ->
  0 <= acc -> acc + zsum (take k (drop j hist)) < 2 ^ 53 ->
  bucketSum k metrics idx wl false c m (f64_of_Z acc) =
    Ok (f64_of_Z (acc + zsum (take k (drop j hist)))).
Proof.
  revert j acc idx. induction k as [|k IH]; intros j acc idx Hjn Hjl Hwrap Hidx Hacc Hsum.
  { simpl. by rewrite Z.add_0_r. }
  destruct Hidx as [?| ->]; [lia|].
  destruct (lookup_lt_is_Some_2 hist j ltac:(lia)) as [z Hz].
  assert (Hz0 : 0 <= z) by (eapply (Forall_lookup_1 _ _ _ _ Hcounts); exact Hz).
  rewrite (drop_S _ _ _ Hz) in Hsum |- *. simpl in Hsum |- *.
  assert (Hd0 : 0 <= zsum (take k (drop (S j) hist)))
    by (apply zsum_nonneg; by apply Forall_take, Forall_drop).
  rewrite (go_index_lookup _ _ (f64_of_Z z)) by (apply Hrecent; [lia|done]). simpl.
  rewrite f64_add_of_Z by (unfold is_count; lia).
  rewrite Z.add_assoc. apply IH; try lia.
  destruct k as [|k]; [by left|right].
  assert (Hpos : (0 < L - j)%nat) by (unfold L; lia).
  pose proof (mod_pred (L - j) n Hn Hpos) as Hmp.
  replace (L - S j)%nat with (L - j - 1)%nat by lia. rewrite Hmp.
  destruct (decide ((L - j) mod n = 0)%nat) as [E|E].
  - rewrite E. simpl. destruct Hwrap as [->|Hw]; [lia|].
    exfalso. rewrite mod_sub_small in E by lia. lia.
  - rewrite decide_False by lia. lia.
Qed.
End recent.

Lemma bucketSum_all_recent n metrics hist k wl c m :
  (0 < n)%nat -> holds_recent n metrics hist ->
  Forall (fun z => 0 <= z) hist -> zsum (take k hist) < 2 ^ 53 ->
  (k <= n)%nat -> (k <= length hist)%nat ->
  (wl = Z.of_nat n \/ (k <= S ((length hist - 1) mod n))%nat) ->
  bucketSum k metrics (Z.of_nat ((length hist - 1) mod n)%nat) wl false c m (S754_zero false) =
    Ok (f64_of_Z (zsum (take k hist))).
Proof.
  intros Hn Hr Hc Ht Hkn Hkl Hw.
  rewrite <- f64_of_Z_0. rewrite (bucketSum_recent n Hn metrics hist Hr Hc k 0); try lia.
  - by rewrite drop_0, Z.add_0_l.
  - right. by rewrite Nat.sub_0_r.
  - by rewrite drop_0.
Qed.

(** Recording one more observation. *)
Lemma holds_recent_app n metrics hist z :
  (0 < n)%nat -> length metrics = length hist -> (length hist < n)%nat ->
  holds_recent n metrics hist -> holds_recent n (metrics ++ [f64_of_Z z]) (z :: hist).
Proof.
  intros Hn Hlen Hlt Hr j z' Hj Hz'. simpl length. rewrite Nat.sub_succ, Nat.sub_0_r.
  destruct j as [|j]; simpl in Hz'.
  - simplify_eq. rewrite Nat.sub_0_r, Nat.mod_small by lia.
    rewrite <- Hlen. apply list_lookup_middle. done.
  - assert (j < length hist)%nat by (by eapply lookup_lt_Some).
    specialize (Hr j z' ltac:(lia) Hz').
    replace (length hist - S j)%nat with (length hist - 1 - j)%nat by lia.
    rewrite lookup_app_l; [done|]. rewrite Nat.mod_small by lia. lia.
Qed.

Lemma holds_recent_insert n metrics hist z :
  (0 < n)%nat -> length metrics = n ->  (n <= length hist)%nat ->
  holds_recent n metrics hist ->
  holds_recent n (<[(length hist mod n)%nat := f64_of_Z z]> metrics) (z :: hist).
Proof.
  intros Hn Hlen Hle Hr j z' Hj Hz'. simpl length. rewrite Nat.sub_succ, Nat.sub_0_r.
  pose proof (Nat.mod_upper_bound (length hist) n ltac:(lia)) as Hb.
  destruct j as [|j]; simpl in Hz'.
  - simplify_eq. rewrite Nat.sub_0_r. apply list_lookup_insert_eq. lia.
  - specialize (Hr j z' ltac:(lia) Hz').
    replace (length hist - S j)%nat with (length hist - 1 - j)%nat by lia.
    rewrite list_lookup_insert_ne; [done|]. intros E.
    pose proof (Nat.div_mod_eq (length hist) n) as H1.
    pose proof (Nat.div_mod_eq (length hist - 1 - j) n) as H2.
    rewrite <- E in H2.
    assert (length hist - (length hist - 1 - j) = S j)%nat by lia.
    assert (S j = n * (length hist / n - (length hist - 1 - j) / n))%nat
      by (rewrite Nat.mul_sub_distr_l; lia).
    destruct (length hist / n - (length hist - 1 - j) / n)%nat; [lia|nia].
Qed.

(** ** Configurations *)

Definition config_ok (cfg : AutoscalingConfiguration) : Prop :=
  0 < ScalingPeriodSeconds cfg < 2 ^ 31 /\
  ScalingPeriodSeconds cfg <= StableWindowWidthSeconds cfg < 2 ^ 31 /\
  0 <= PanicWindowWidthSeconds cfg < 2 ^ 31.

Definition stableBuckets (cfg : AutoscalingConfiguration) : Z :=
  StableWindowWidthSeconds cfg / ScalingPeriodSeconds cfg.
Definition panicBuckets (cfg : AutoscalingConfiguration) : Z :=
  PanicWindowWidthSeconds cfg / ScalingPeriodSeconds cfg.

Lemma div_int32_ok a b :
  0 <= a < 2 ^ 31 -> 0 < b -> div_int32 a b = Ok (a / b).
Proof.
  intros Ha Hb. unfold div_int32. rewrite decide_False by lia.
  rewrite Z.quot_div_nonneg by lia. f_equal. apply i32_id. unfold is_i32.
  pose proof (Z.div_pos a b ltac:(lia) Hb).
  pose proof (Z.div_le_upper_bound a b a Hb ltac:(nia)). lia.
Qed.

Lemma stableBuckets_range cfg : config_ok cfg -> 1 <= stableBuckets cfg < 2 ^ 31.
Proof.
  intros (Hp&Hs&_). unfold stableBuckets. split.
  - apply Z.div_le_lower_bound; lia.
  - apply Z.div_lt_upper_bound; [lia|]. nia.
Qed.
Lemma panicBuckets_range cfg : config_ok cfg -> 0 <= panicBuckets cfg < 2 ^ 31.
Proof.
  intros (Hp&_&Hs). unfold panicBuckets. split.
  - apply Z.div_pos; lia.
  - apply Z.div_lt_upper_bound; [lia|]. nia.
Qed.

(** The state of the window after the observations [hist] (newest first). *)
Record window_after (s : AutoscalingMetadata) (hist : list Z) : Prop := {
  wa_config : config_ok (AutoscalingConfig s);
  wa_length : length (scalingMetrics s) =
    Nat.min (Z.to_nat (stableBuckets (AutoscalingConfig s))) (length hist);
  wa_head : windowHead s =
    Z.of_nat (length hist mod Z.to_nat (stableBuckets (AutoscalingConfig s)))%nat;
  wa_recent : holds_recent (Z.to_nat (stableBuckets (AutoscalingConfig s)))
    (scalingMetrics s) hist;
}.

Lemma window_after_new cfg : config_ok cfg -> window_after (new_metadata cfg) [].
Proof.
  intros Hc. split; simpl; [done| | |].
  - by rewrite Nat.min_0_r.
  - rewrite Nat.Div0.mod_0_l. done.
  - by intros j z _ Hz.
Qed.

Lemma bucketSum_total n metrics idx wl e c m acc :
  0 <= idx < Z.of_nat (length metrics) -> 1 <= wl <= Z.of_nat (length metrics) ->
  exists r, bucketSum n metrics idx wl e c m acc = Ok r.
Proof.
  revert idx m acc. induction n as [|n IH]; intros idx m acc Hidx Hwl; [by eexists|].
  simpl. destruct (proj1 (go_index_range metrics idx)) as [x Hx]; [lia|].
  rewrite Hx. simpl. apply IH; [|done]. case_decide; lia.
Qed.

Lemma windowLength_min oob a l :
  0 <= a < 2 ^ 31 -> Z.of_nat l < 2 ^ 32 ->
  f64_to_int oob (f64_min (f64_of_Z a) (f64_of_Z (Z.of_nat l))) = Z.min a (Z.of_nat l).
Proof.
  intros Ha Hl. rewrite f64_min_of_Z by (unfold is_count; lia).
  apply f64_to_int_of_Z. unfold is_count. lia.
Qed.

Section window_step.
Context (s : AutoscalingMetadata) (hist : list Z) (z : Z).
Context (Hw : window_after s hist).
Let cfg := AutoscalingConfig s.
Let n := Z.to_nat (stableBuckets cfg).
(** The buckets once the observation [z] has been recorded. *)
Let metrics :=
  if decide (Z.of_nat (length (scalingMetrics s)) < stableBuckets cfg)
  then scalingMetrics s ++ [f64_of_Z z]
  else <[Z.to_nat (windowHead s) := f64_of_Z z]> (scalingMetrics s).

Lemma window_step_n : (0 < n)%nat /\ Z.of_nat n = stableBuckets cfg.
Proof. pose proof (stableBuckets_range cfg (wa_config _ _ Hw)). subst n. lia. Qed.

Lemma window_step_length : length metrics = Nat.min n (length (z :: hist)).
Proof.
  destruct window_step_n. pose proof (wa_length _ _ Hw) as Hl. fold cfg n in Hl.
  unfold metrics. case_decide; rewrite ?length_app, ?length_insert; simpl; lia.
Qed.

Lemma window_step_recent : holds_recent n metrics (z :: hist).
Proof.
  destruct window_step_n. pose proof (wa_length _ _ Hw) as Hl.
  pose proof (wa_head _ _ Hw) as Hh. fold cfg n in Hl, Hh. unfold metrics. case_decide.
  - apply holds_recent_app; [lia..|]. apply (wa_recent _ _ Hw).
  - rewrite Hh, Nat2Z.id. apply holds_recent_insert; [lia..|]. apply (wa_recent _ _ Hw).
Qed.

Lemma window_step_head :
  windowHead s = Z.of_nat ((length (z :: hist) - 1) mod n)%nat.
Proof. rewrite (wa_head _ _ Hw). simpl length. by rewrite Nat.sub_succ, Nat.sub_0_r. Qed.

Lemma window_next_head :
  (if decide (stableBuckets cfg <= i64 (windowHead s + 1)) then 0 else i64 (windowHead s + 1)) =
  Z.of_nat (length (z :: hist) mod n)%nat.
Proof.
  destruct window_step_n as [Hn Hnz]. rewrite (wa_head _ _ Hw). fold cfg n.
  pose proof (stableBuckets_range cfg (wa_config _ _ Hw)) as Hr.
  pose proof (Nat.mod_upper_bound (length hist) n ltac:(lia)) as Hb.
  rewrite i64_id by (unfold is_i64; lia).
  pose proof (mod_pred (S (length hist)) n Hn ltac:(lia)) as Hmp.
  rewrite Nat.sub_succ, Nat.sub_0_r in Hmp. rewrite Hmp. simpl length.
  pose proof (Nat.mod_upper_bound (S (length hist)) n ltac:(lia)).
  destruct (decide (S (length hist) mod n = 0)%nat); case_decide; lia.
Qed.
End window_step.

Lemma take_min_length {A} n (l : list A) : take (n `min` length l)%nat l = take n l.
Proof. destruct (Nat.min_spec n (length l)) as [[? ->]|[? ->]]; [done|]. by rewrite !take_ge by lia. Qed.

Lemma bucketSum_counted k metrics idx :
  0 <= idx < Z.of_nat (length metrics) -> (k <= length metrics)%nat ->
  exists r, bucketSum k metrics idx (Z.of_nat k) false (S754_zero false) (S754_zero false) (S754_zero false) = Ok r.
Proof.
  intros Hidx Hk. destruct k as [|k]; [by eexists|].
  destruct (bucketSum_total (S k) metrics idx (Z.of_nat (S k)) false (S754_zero false) (S754_zero false) (S754_zero false))
    as [r Hr]; [done|lia|]. by exists r.
Qed.

Lemma windowAverage_run oob s hist z :
  window_after s hist ->
  ScalingMethod (AutoscalingConfig s) = Arithmetic ->
  Forall (fun x => 0 <= x) (z :: hist) ->
  zsum (take (Z.to_nat (stableBuckets (AutoscalingConfig s))) (z :: hist)) < 2 ^ 53 ->
  let n := Z.to_nat (stableBuckets (AutoscalingConfig s)) in
  let w := Nat.min n (length (z :: hist)) in
  let wp := Nat.min (Z.to_nat (panicBuckets (AutoscalingConfig s))) w in
  exists avgPanic s',
    windowAverage oob (f64_of_Z z) s =
      Ok ((f64_div (f64_of_Z (zsum (take n (z :: hist)))) (f64_of_Z (Z.of_nat w)), avgPanic), s') /\
    window_after s' (z :: hist) /\
    AutoscalingConfig s' = AutoscalingConfig s /\
    ((wp <= S (length hist mod n))%nat ->
     avgPanic = f64_div (f64_of_Z (zsum (take wp (z :: hist)))) (f64_of_Z (Z.of_nat wp))).
Proof.
  intros Hw Hm Hpos Hsum n w wp.
  pose proof (wa_config _ _ Hw) as Hcfg. pose proof Hcfg as (Hp&Hs&Hpw).
  destruct (window_step_n s hist Hw) as [Hn Hnz]. fold n in Hn, Hnz.
  pose proof (stableBuckets_range _ Hcfg) as Hsr. pose proof (panicBuckets_range _ Hcfg) as Hpr.
  pose proof (window_step_length s hist z Hw) as Hlen.
  pose proof (window_step_recent s hist z Hw) as Hrec.
  pose proof (window_step_head s hist z Hw) as Hhead.
  fold n in Hlen, Hrec, Hhead. set (metrics := if decide _ then _ else _) in Hlen, Hrec.
  set (h := z :: hist) in *.
  assert (Hlp : (1 <= length h)%nat) by (subst h; simpl; lia).
  pose proof (Nat.mod_upper_bound (length h - 1) n ltac:(lia)) as Hmb.
  pose proof (Nat.Div0.mod_le (length h - 1) n) as Hml.
  assert (Hidx : 0 <= windowHead s < Z.of_nat (length metrics)) by lia.
  destruct (bucketSum_counted wp metrics (windowHead s)) as [rp Hrp']; [done|lia|].
  eexists _, _. split_and!.
  - unfold windowAverage. rewrite !div_int32_ok by lia. cbn [mbind outcome_bind].
    rewrite (bool_decide_false (ScalingMethod _ = Exponential)) by (rewrite Hm; done).
    fold (stableBuckets (AutoscalingConfig s)) (panicBuckets (AutoscalingConfig s)).
    match goal with |- context [mbind _ (if decide ?P then ?a else if decide ?Q then ?b else Panic)] =>
      assert (Hmet : (if decide P then a else if decide Q then b else Panic) = Ok metrics) end.
    { unfold metrics. case_decide; [done|]. rewrite decide_True; [done|].
      pose proof (wa_length _ _ Hw) as Hl. fold n in Hl. lia. }
    rewrite Hmet. cbn [mbind outcome_bind]. rewrite !windowLength_min by lia.
    replace (Z.min (stableBuckets (AutoscalingConfig s)) (Z.of_nat (length metrics)))
      with (Z.of_nat w) by lia.
    replace (Z.min (panicBuckets (AutoscalingConfig s)) (Z.of_nat (length metrics)))
      with (Z.of_nat wp) by lia.
    rewrite !Nat2Z.id, Hrp', Hhead.
    assert (Htake : take w h = take n h) by apply take_min_length.
    assert (Hwrap : Z.of_nat w = Z.of_nat n \/ (w <= S ((length h - 1) mod n))%nat).
    { destruct (Nat.le_gt_cases (length h) n); [right|left; lia].
      rewrite Nat.mod_small by lia. lia. }
    rewrite (bucketSum_all_recent n metrics h w); [|done|done|done|by rewrite Htake|lia|lia|done].
    cbn [mbind outcome_bind]. rewrite !decide_True by done. by rewrite Htake.
  - pose proof (window_next_head s hist z Hw) as Hnh. fold n h in Hnh.
    rewrite <- Hhead, Hnh.
    split; simpl; try done.
  - done.
  - intros Hle. rewrite Hhead, (bucketSum_all_recent n metrics h wp) in Hrp'; try done; try lia.
    + injection Hrp' as <-. done.
    + pose proof (zsum_take_mono wp n h Hpos ltac:(lia)). fold n in Hsum. lia.
    + right. subst h. simpl length. by rewrite Nat.sub_succ, Nat.sub_0_r.
Qed.

(** C12: The metrics window refines a moving average.  When the ring buffer
    holds the observations [hist] (newest first), recording [z] returns as
    stable average the correctly rounded quotient of the exact sum of the last
    [n] observations and their number, where [n] is the number of buckets of
    the stable window, and the new buffer holds [z :: hist]; no bucket index
    ever leaves the slice. *)
Theorem windowAverage_moving_average oob s hist z :
  window_after s hist ->
  ScalingMethod (AutoscalingConfig s) = Arithmetic ->
  Forall (fun x => 0 <= x) (z :: hist) ->
  zsum (take (Z.to_nat (stableBuckets (AutoscalingConfig s))) (z :: hist)) < 2 ^ 53 ->
  let n := Z.to_nat (stableBuckets (AutoscalingConfig s)) in
  exists avgPanic s',
    windowAverage oob (f64_of_Z z) s =
      Ok ((f64_div (f64_of_Z (zsum (take n (z :: hist))))
                   (f64_of_Z (Z.of_nat (Nat.min n (length (z :: hist))))), avgPanic), s') /\
    window_after s' (z :: hist).
Proof.
  intros Hw Hm Hp Hs n. destruct (windowAverage_run oob s hist z Hw Hm Hp Hs)
    as (ap&s'&H1&H2&_). eauto.
Qed.

Lemma windowAverage_moving_average_witness :
  let cfg := NewDefaultAutoscalingMetadata false in
  exists ap s', windowAverage 0 (f64_of_Z 7) (new_metadata cfg) =
    Ok ((f64_div (f64_of_Z 7) (f64_of_Z 1), ap), s') /\ window_after s' [7].
Proof.
  intros cfg. apply (windowAverage_moving_average 0 (new_metadata cfg) [] 7).
  - apply window_after_new. unfold config_ok, cfg; simpl; lia.
  - reflexivity.
  - repeat constructor; lia.
  - vm_compute. reflexivity.
Defined.

(** The panic average covers the most recent panic buckets as long as they
    lie at or below the head of the ring buffer: if the panic window has at
    most [head + 1] buckets, its average is the quotient of the exact sum of
    its most recent observations and their number. *)
Theorem windowAverage_panic_recent oob s hist z :
  window_after s hist ->
  ScalingMethod (AutoscalingConfig s) = Arithmetic ->
  Forall (fun x => 0 <= x) (z :: hist) ->
  zsum (take (Z.to_nat (stableBuckets (AutoscalingConfig s))) (z :: hist)) < 2 ^ 53 ->
  let wp := Nat.min (Z.to_nat (panicBuckets (AutoscalingConfig s)))
              (Nat.min (Z.to_nat (stableBuckets (AutoscalingConfig s))) (length (z :: hist))) in
  Z.of_nat wp <= windowHead s + 1 ->
  exists avgStable s',
    windowAverage oob (f64_of_Z z) s =
      Ok ((avgStable, f64_div (f64_of_Z (zsum (take wp (z :: hist)))) (f64_of_Z (Z.of_nat wp))), s').
Proof.
  intros Hw Hm Hp Hs wp Hwp. destruct (windowAverage_run oob s hist z Hw Hm Hp Hs)
    as (ap&s'&H1&_&_&H3).
  rewrite (wa_head _ _ Hw) in Hwp. specialize (H3 ltac:(lia)). subst ap. eauto.
Qed.

Lemma windowAverage_panic_recent_witness :
  let cfg := NewDefaultAutoscalingMetadata false in
  exists avg s', windowAverage 0 (f64_of_Z 7) (new_metadata cfg) =
    Ok ((avg, f64_div (f64_of_Z 7) (f64_of_Z 1)), s').
Proof.
  intros cfg. apply (windowAverage_panic_recent 0 (new_metadata cfg) [] 7).
  - apply window_after_new. unfold config_ok, cfg; simpl; lia.
  - reflexivity.
  - repeat constructor; lia.
  - vm_compute. reflexivity.
  - vm_compute. intros ?; discriminate.
Defined.

(** Observations recorded one after the other, oldest first. *)
Fixpoint observe (oob : Z) (zs : list Z) (s : AutoscalingMetadata)
  : outcome (float64 * float64 * AutoscalingMetadata) :=
  match zs with
  | [] => Panic
  | [z] => windowAverage oob (f64_of_Z z) s
  | z :: zs' => match windowAverage oob (f64_of_Z z) s with
                | Ok (_, s') => observe oob zs' s'
                | Panic => Panic | Fatal => Fatal | Blocked => Blocked
                end
  end.

(** When the head of a full ring buffer is below the panic window, the
    panic loop wraps to the last bucket of the panic window instead of the
    last bucket of the buffer: with the default configuration (30 stable and 3
    panic buckets), 28 idle measurements, then 100, 100 and 0 in flight, the
    panic average over the last three measurements is 0, not 200/3. *)
Theorem windowAverage_panic_wrap oob :
  let cfg := NewDefaultAutoscalingMetadata false in
  let history := replicate 28 0 ++ [100; 100; 0] in
  exists avgStable s',
    observe oob history (new_metadata cfg) = Ok ((avgStable, S754_zero false), s') /\
    windowHead s' = 1 /\ panicBuckets cfg = 3 /\
    f64_ltb (f64_of_Z 66) (f64_div (f64_of_Z (zsum [0; 100; 100])) (f64_of_Z 3)) = true.
Proof. vm_compute. eauto 10. Qed.

(** ** Safety of the window for every scaling method *)

(** The shape of the ring buffer: it grows to the number of stable buckets and
    then stays there, with the head on the slot to replace. *)
Record window_wf (s : AutoscalingMetadata) : Prop := {
  wf_config : config_ok (AutoscalingConfig s);
  wf_length : Z.of_nat (length (scalingMetrics s)) <= stableBuckets (AutoscalingConfig s);
  wf_head : 0 <= windowHead s < stableBuckets (AutoscalingConfig s);
  wf_growing : Z.of_nat (length (scalingMetrics s)) < stableBuckets (AutoscalingConfig s) ->
    windowHead s = Z.of_nat (length (scalingMetrics s));
}.

Lemma window_wf_new cfg : config_ok cfg -> window_wf (new_metadata cfg).
Proof.
  intros Hc. pose proof (stableBuckets_range _ Hc). split; simpl; try done; lia.
Qed.

Lemma windowAverage_total oob v s :
  window_wf s ->
  exists avgs metrics head,
    windowAverage oob v s = Ok (avgs, set_window metrics head s) /\
    window_wf (set_window metrics head s).
Proof.
  intros [Hc Hl Hh Hg]. pose proof Hc as (Hp&Hs&Hpw).
  pose proof (stableBuckets_range _ Hc) as Hsr. pose proof (panicBuckets_range _ Hc) as Hpr.
  set (metrics := if decide (Z.of_nat (length (scalingMetrics s)) < stableBuckets (AutoscalingConfig s))
                  then scalingMetrics s ++ [v]
                  else <[Z.to_nat (windowHead s) := v]> (scalingMetrics s)).
  assert (Hlen : windowHead s < Z.of_nat (length metrics) <= stableBuckets (AutoscalingConfig s) /\
    (Z.of_nat (length metrics) < stableBuckets (AutoscalingConfig s) ->
     windowHead s + 1 = Z.of_nat (length metrics))).
  { unfold metrics. case_decide; rewrite ?length_app, ?length_insert; simpl; lia. }
  assert (Hsum : forall k e c m, 0 <= k <= Z.of_nat (length metrics) -> exists r,
    bucketSum (Z.to_nat k) metrics (windowHead s) k e c m (S754_zero false) = Ok r).
  { intros k e c m Hk. destruct (decide (k = 0)) as [->|]; [by eexists|].
    apply bucketSum_total; lia. }
  unfold windowAverage. rewrite !div_int32_ok by lia. cbn [mbind outcome_bind].
  fold (stableBuckets (AutoscalingConfig s)) (panicBuckets (AutoscalingConfig s)).
  match goal with |- context [mbind _ (if decide ?P then ?a else if decide ?Q then ?b else Panic)] =>
    assert (Hmet : (if decide P then a else if decide Q then b else Panic) = Ok metrics) end.
  { unfold metrics. case_decide; [done|]. rewrite decide_True; [done|]. lia. }
  clearbody metrics. rewrite Hmet. clear Hmet. cbn [mbind outcome_bind]. rewrite !windowLength_min by lia.
  do 2 (match goal with |- context [bucketSum (Z.to_nat ?k) _ _ _ ?e ?c ?m _] =>
          destruct (Hsum k e c m) as [? ->]; [lia|] end; cbn [mbind outcome_bind]).
  eexists _, _, _. split; [done|].
  rewrite i64_id by (unfold is_i64; lia).
  split; simpl; try done; try case_decide; lia.
Qed.

(** The panic state machine alone. *)
Lemma decide_update_config now over d1 d2 s r s' :
  decidePodCount d1 d2 (updatePanicMode now over s) = (r, s') ->
  AutoscalingConfig s' = AutoscalingConfig s /\ ActualScale s' = ActualScale s /\
  scalingMetrics s' = scalingMetrics s /\ windowHead s' = windowHead s.
Proof.
  unfold decidePodCount, updatePanicMode.
  destruct (InPanicMode s) eqn:E, over; simpl; try case_bool_decide; simpl;
    rewrite ?E; repeat case_decide; intros [= <- <-]; done.
Qed.

Lemma decide_update_panic now over d1 d2 s r s' :
  InPanicMode s = true ->
  decidePodCount d1 d2 (updatePanicMode now over s) = (r, s') ->
  (InPanicMode s' = true /\ r = MaxPanicPods s' /\ MaxPanicPods s <= r /\ d1 <= r /\ d2 <= r /\
   StartPanickingTimestamp s' = (if over then now else StartPanickingTimestamp s)) \/
  (InPanicMode s' = false /\ over = false /\ r = d1 /\ MaxPanicPods s' = 0 /\
   StartPanickingTimestamp s + StableWindowWidthSeconds (AutoscalingConfig s) * Second < now).
Proof.
  intros E. unfold decidePodCount, updatePanicMode. rewrite E.
  destruct over; simpl; try case_bool_decide; simpl; rewrite ?E; repeat case_decide;
    intros [= <- <-]; simpl; rewrite ?E;
    first [right; split_and!; done || lia | left; split_and!; done || lia].
Qed.

Lemma internalScaleAlgorithm_total oob now v s :
  window_wf s ->
  exists over d1 d2 r avg metrics head s',
    decidePodCount d1 d2 (updatePanicMode now over (set_window metrics head s)) = (r, s') /\
    internalScaleAlgorithm oob now v s = Ok ((r, avg), s') /\ window_wf s' /\
    AutoscalingConfig s' = AutoscalingConfig s /\ ActualScale s' = ActualScale s.
Proof.
  intros Hw. destruct (windowAverage_total oob v s Hw) as ([a1 a2]&ms&hd&Hrun&Hw').
  unfold internalScaleAlgorithm. rewrite Hrun. cbn [mbind outcome_bind].
  destruct (decidePodCount _ _ _) as [r s'] eqn:E.
  eexists _, _, _, r, _, ms, hd, s'. split; [exact E|]. split; [done|].
  destruct (decide_update_config _ _ _ _ _ _ _ E) as (Hc&Ha&Hm&Hh).
  split; [|done]. destruct Hw' as [w1 w2 w3 w4].
  split; rewrite Hc, ?Hm, ?Hh; done.
Qed.

(** Successive scaling cycles: the time and the metric of each, the decisions
    in order. *)
Fixpoint scaleCycles (oob : Z) (inputs : list (Z * float64)) (s : AutoscalingMetadata)
  : outcome (list Z * AutoscalingMetadata) :=
  match inputs with
  | [] => Ok ([], s)
  | (now, v) :: rest =>
      r ← internalScaleAlgorithm oob now v s;
      t ← scaleCycles oob rest r.2;
      Ok (r.1.1 :: t.1, t.2)
  end.

(** Each decision is at least [lo], and the decisions never decrease. *)
Fixpoint non_decreasing_from (lo : Z) (l : list Z) : Prop :=
  match l with
  | [] => True
  | x :: l' => lo <= x /\ non_decreasing_from x l'
  end.

(** C11: During a panic episode the autoscaler never scales down: whatever the
    metrics, the cycles that fall between the start of the panic and the end
    of the stable window after it all return, the function stays in panic
    mode, and their decisions form a non-decreasing sequence that starts at or
    above the largest count decided so far. *)
Theorem panic_episode_never_scales_down oob inputs s :
  window_wf s -> InPanicMode s = true ->
  Forall (fun c => StartPanickingTimestamp s <= c.1 <=
                   StartPanickingTimestamp s + StableWindowWidthSeconds (AutoscalingConfig s) * Second)
    inputs ->
  exists decisions s',
    scaleCycles oob inputs s = Ok (decisions, s') /\
    length decisions = length inputs /\ InPanicMode s' = true /\
    non_decreasing_from (MaxPanicPods s) decisions.
Proof.
  remember (StartPanickingTimestamp s) as t0 eqn:Ht.
  assert (Ht' : t0 <= StartPanickingTimestamp s) by lia. clear Ht.
  remember (AutoscalingConfig s) as cfg eqn:Hcfg. revert s Ht' Hcfg.
  induction inputs as [|[now v] rest IH]; intros s Ht Hcfg Hw Hp Hin; [by eexists _, _|].
  inversion_clear Hin as [|? ? Hnow Hin']. simpl in Hnow.
  destruct (internalScaleAlgorithm_total oob now v s Hw)
    as (over&d1&d2&r&avg&ms&hd&s1&Hdec&Hrun&Hw1&Hc1&_).
  destruct (decide_update_panic now over d1 d2 (set_window ms hd s) r s1 Hp Hdec)
    as [(Hp1&Hr&Hge&_&_&Hst)|(_&_&_&_&Hlate)]; simpl in *.
  - destruct (IH s1) as (ds&s2&Hrun2&Hlen&Hp2&Hmono); try done; [|congruence|].
    { rewrite Hst. destruct over; lia. }
    exists (r :: ds), s2. rewrite Hrun. cbn. rewrite Hrun2. cbn.
    split; [done|]. split; [by rewrite Hlen|]. split; [done|].
    split; [done|]. by rewrite Hr.
  - subst cfg. lia.
Qed.

(** A panic that starts after two measurements of 0 and 500 requests. *)
Lemma panic_episode_never_scales_down_witness :
  exists decisions s',
    scaleCycles 0 [(5, f64_of_Z 3); (7, f64_of_Z 0)]
      (set_panic true 1 42 (new_metadata (NewDefaultAutoscalingMetadata false))) =
      Ok (decisions, s') /\
    length decisions = 2%nat /\ InPanicMode s' = true /\ non_decreasing_from 42 decisions.
Proof.
  apply (panic_episode_never_scales_down 0 [(5, f64_of_Z 3); (7, f64_of_Z 0)]
    (set_panic true 1 42 (new_metadata (NewDefaultAutoscalingMetadata false)))).
  - destruct (window_wf_new (NewDefaultAutoscalingMetadata false)) as [w1 w2 w3 w4].
    { unfold config_ok; simpl; lia. }
    split; done.
  - reflexivity.
  - repeat constructor; vm_compute; discriminate.
Defined.

Section KnativeScaling.
Context (oob : Z) (Clamp : Z -> Z -> Z -> Z).
(** The documented contract of [mathutil.Clamp(v, lo, hi)]. *)
Definition Clamp_contract : Prop :=
  forall v lo hi, lo <= hi ->
    lo <= Clamp v lo hi <= hi /\ (lo <= v <= hi -> Clamp v lo hi = v).

Definition bounds_ok (cfg : AutoscalingConfiguration) : Prop :=
  ScalingLowerBound cfg <= ScalingUpperBound cfg.

Lemma KnativeScaling_run now s :
  Clamp_contract -> window_wf s -> bounds_ok (AutoscalingConfig s) ->
  exists r s', KnativeScaling oob Clamp now false s = Ok (r, s') /\ window_wf s' /\
    AutoscalingConfig s' = AutoscalingConfig s /\
    ScalingLowerBound (AutoscalingConfig s) <= r <= ScalingUpperBound (AutoscalingConfig s).
Proof.
  intros HC Hw Hb. unfold KnativeScaling.
  destruct (internalScaleAlgorithm_total oob now (f64_of_Z (cachedScalingMetric s)) s Hw)
    as (?&?&?&r&avg&?&?&s'&_&Hrun&Hw'&Hc&_).
  eexists _, s'. split; [|split; [done|split; [done|]]].
  - go_run (eq_refl (go_get s)). by go_run Hrun.
  - by apply HC.
Qed.
End KnativeScaling.

(** C29: Every periodic scaling decision returns and lies within the bounds of
    the function's configuration, whatever the metrics, and leaves the window
    well formed; a decision to scale from zero is always 1. *)
Theorem KnativeScaling_within_bounds oob Clamp now s :
  Clamp_contract Clamp -> window_wf s -> bounds_ok (AutoscalingConfig s) ->
  KnativeScaling oob Clamp now true s = Ok (1, s) /\
  exists r s', KnativeScaling oob Clamp now false s = Ok (r, s') /\ window_wf s' /\
    ScalingLowerBound (AutoscalingConfig s) <= r <= ScalingUpperBound (AutoscalingConfig s).
Proof.
  intros HC Hw Hb. split; [done|].
  destruct (KnativeScaling_run oob Clamp now s HC Hw Hb) as (r&s'&H1&H2&_&H3). eauto.
Qed.

(** A clamp that satisfies the contract. *)
Definition clampZ (v lo hi : Z) : Z := Z.max lo (Z.min hi v).

Lemma KnativeScaling_within_bounds_witness :
  let s := new_metadata (NewDefaultAutoscalingMetadata true) in
  KnativeScaling 0 clampZ 10 true s = Ok (1, s) /\
  exists r s', KnativeScaling 0 clampZ 10 false s = Ok (r, s') /\ window_wf s' /\ 0 <= r <= 1.
Proof.
  intros s. apply (KnativeScaling_within_bounds 0 clampZ 10 s).
  - intros v lo hi Hlh. unfold clampZ. lia.
  - apply window_wf_new. unfold config_ok; simpl; lia.
  - unfold bounds_ok; simpl; lia.
Defined.

(** ** The cached metric *)

Definition map_sum (m : gmap string Z) : Z := map_fold (fun _ v acc => v + acc) 0 m.

Lemma map_sum_delete m k : map_sum m = default 0 (m !! k) + map_sum (delete k m).
Proof.
  unfold map_sum. destruct (m !! k) as [v|] eqn:E; simpl.
  - rewrite (map_fold_delete_L (fun _ v acc => v + acc) 0 k v m); [done| |done]. intros; lia.
  - by rewrite delete_id.
Qed.

Lemma map_sum_insert m k v : map_sum (<[k := v]> m) = v + map_sum m - default 0 (m !! k).
Proof.
  rewrite (map_sum_delete (<[k := v]> m) k), (map_sum_delete m k).
  rewrite lookup_insert_eq, delete_insert_eq. simpl. lia.
Qed.

(** What a data plane can do to a function's metric. *)
Inductive metric_event : Type :=
| MSet (dp : string) (inflight : Z)
| MRemove (dp : string).

Definition metric_apply (e : metric_event) (s : AutoscalingMetadata) : AutoscalingMetadata :=
  match e with
  | MSet dp n => SetCachedScalingMetric dp n s
  | MRemove dp => RemoveDataplane dp s
  end.

Definition metric_consistent (s : AutoscalingMetadata) : Prop :=
  cachedScalingMetric s = i32 (map_sum (inflightRequestsPerDataPlane s)).

Lemma metric_apply_consistent e s :
  metric_consistent s -> metric_consistent (metric_apply e s).
Proof.
  unfold metric_consistent. destruct e as [dp n|dp]; simpl; intros ->;
    rewrite i32_add_r, i32_add_l; f_equal; unfold inflight_of.
  - rewrite map_sum_insert. lia.
  - rewrite (map_sum_delete _ dp). lia.
Qed.

Definition event_dp (e : metric_event) : string := match e with MSet dp _ | MRemove dp => dp end.
(** What the history says of a data plane: the number of its last report,
    unless it was removed since, or never reported. *)
Definition last_report (dp : string) (events : list metric_event) : option Z :=
  match list.last (filter (fun e => event_dp e = dp) events) with
  | Some (MSet _ n) => Some n
  | _ => None
  end.

Lemma last_report_snoc dp events e :
  last_report dp (events ++ [e]) =
  if decide (event_dp e = dp) then (match e with MSet _ n => Some n | MRemove _ => None end)
  else last_report dp events.
Proof.
  unfold last_report. rewrite list.filter_app, filter_cons, filter_nil. case_decide.
  - by rewrite last_snoc.
  - by rewrite app_nil_r.
Qed.

Definition metric_run (cfg : AutoscalingConfiguration) (events : list metric_event) : AutoscalingMetadata :=
  foldl (fun s e => metric_apply e s) (new_metadata cfg) events.

Lemma metric_run_reports cfg events dp :
  inflightRequestsPerDataPlane (metric_run cfg events) !! dp = last_report dp events.
Proof.
  unfold metric_run. induction events as [|e events IH] using rev_ind; [done|].
  rewrite foldl_app, last_report_snoc. cbn. destruct e as [d n|d]; cbn; case_decide; subst.
  - by rewrite lookup_insert_eq.
  - by rewrite lookup_insert_ne.
  - by rewrite lookup_delete_eq.
  - by rewrite lookup_delete_ne.
Qed.
Lemma metric_run_consistent cfg events : metric_consistent (metric_run cfg events).
Proof.
  unfold metric_run. induction events as [|e events IH] using rev_ind; [done|].
  rewrite foldl_app. by apply metric_apply_consistent.
Qed.

(** C36: After any sequence of reports ([SetCachedScalingMetric]) and removals
    ([RemoveDataplane]), the table of a function holds, under each name, the
    number of the last report filed under that name unless the name was
    removed since, and no other entry; and the incrementally maintained metric
    is the sum of these reports, modulo the width of [int32]. *)
Theorem cachedScalingMetric_sum cfg events :
  let s := foldl (fun s e => metric_apply e s) (new_metadata cfg) events in
  (forall dp, inflightRequestsPerDataPlane s !! dp = last_report dp events) /\
  cachedScalingMetric s = i32 (map_sum (inflightRequestsPerDataPlane s)).
Proof. split; [intros dp; apply (metric_run_reports cfg)|apply (metric_run_consistent cfg)]. Qed.

(** The control plane removes a data plane that leaves under its IP address
    ([DeregisterDataplane]), while a data plane reports under its name, the
    host name with a random number.  As long as no report was filed under the
    address, the removal changes nothing: what the data plane last reported
    stays in the metric. *)
Theorem removal_by_address_keeps_reports cfg events ip :
  (forall n, MSet ip n ∉ events) ->
  let s := foldl (fun s e => metric_apply e s) (new_metadata cfg) events in
  inflightRequestsPerDataPlane (RemoveDataplane ip s) = inflightRequestsPerDataPlane s /\
  cachedScalingMetric (RemoveDataplane ip s) = cachedScalingMetric s.
Proof.
  intros Hno. cbv zeta.
  change (foldl _ _ _) with (metric_run cfg events).
  assert (Hnone : inflightRequestsPerDataPlane (metric_run cfg events) !! ip = None).
  { rewrite metric_run_reports. unfold last_report.
    destruct (list.last _) as [[d n|d]|] eqn:E; [|done..].
    apply last_Some_elem_of, list_elem_of_filter in E as [Hd Hin]. cbn in Hd. subst. by apply Hno in Hin. }
  unfold RemoveDataplane, inflight_of. cbn. rewrite Hnone. cbn. split; [by apply delete_id|].
  rewrite i32_add_r, (metric_run_consistent cfg events). rewrite i32_add_l. f_equal. lia.
Qed.

Lemma removal_by_address_keeps_reports_witness :
  let events := [MSet "host-42" 7] in
  let s := foldl (fun s e => metric_apply e s) (new_metadata (NewDefaultAutoscalingMetadata false)) events in
  cachedScalingMetric (RemoveDataplane "10.0.0.9" s) = 7.
Proof.
  intros events s.
  destruct (removal_by_address_keeps_reports (NewDefaultAutoscalingMetadata false) events "10.0.0.9") as [_ H].
  - intros n Hin. apply list_elem_of_singleton in Hin. discriminate Hin.
  - etransitivity; [exact H|]. reflexivity.
Defined.
