(* ===== verification/Controller.v ===== *)
(** * The per-function controller

    [internal/control_plane/autoscaling/controller.go]: [PFStateController],
    whose [Start] and [Stop] are called by the gRPC handlers of the control
    plane while its own goroutine runs [ScalingLoop].  The goroutines are
    threads with a program counter; an [event] is one atomic action of one of
    them, so a list of events is an interleaving. *)
From Stdlib Require Import ZArith Lia.
From stdpp Require Import base tactics list gmap strings sets numbers.
From S2P Require Import Prelude Float64 Autoscaling.

Local Open Scope Z_scope.

(** ** State *)

(** A [chan struct{}] of capacity 1. *)
Record stop_chan : Type := mkStopChan { sc_buffered : bool; sc_closed : bool }.

#[global] Instance stop_chan_eq_dec : EqDecision stop_chan.
Proof. solve_decision. Defined.

(** Where a goroutine is. *)
Inductive thread_pc : Type :=
| StartMake                      (* [Start], compare-and-swap done *)
| StopSend                       (* [Stop], flag read as non-zero *)
| Cycle (isScaleFromZero : bool) (* before [scalingCycle] *)
| NewTicker                      (* before [time.NewTicker] *)
| SelectEnter                    (* at the head of the [for] *)
| SelectWait (ch : option nat)   (* in the [select], on the channel it read *)
| StopStore                      (* [stopAutoscalingLoop], before the store *)
| StopClose                      (* before [close(as.StopCh)] *)
| StopNil.                       (* before [as.StopCh = nil] *)

#[global] Instance thread_pc_eq_dec : EqDecision thread_pc.
Proof. solve_decision. Defined.

Record PFStateController : Type := mkPFStateController {
  AutoscalingRunning : Z;
  StopCh : option nat;
  stop_chans : list stop_chan;     (* every channel ever made, by its index *)
  DesiredStateClosed : bool;
  desired_sent : list Z;           (* what went through [DesiredStateChannel] *)
  ScalingMetadata : AutoscalingMetadata;
  Period : Z;
  threads : list thread_pc;
}.

Definition NewPerFunctionStateController (cfg : AutoscalingConfiguration) (period : Z)
  : PFStateController :=
  mkPFStateController 0 None [] false [] (new_metadata cfg) period [].

Section controller.
Context (oob : Z) (Clamp : Z -> Z -> Z -> Z).

Definition with_running (r : Z) (s : PFStateController) : PFStateController :=
  mkPFStateController r (StopCh s) (stop_chans s) (DesiredStateClosed s) (desired_sent s)
    (ScalingMetadata s) (Period s) (threads s).
Definition with_StopCh (c : option nat) (s : PFStateController) : PFStateController :=
  mkPFStateController (AutoscalingRunning s) c (stop_chans s) (DesiredStateClosed s)
    (desired_sent s) (ScalingMetadata s) (Period s) (threads s).
Definition with_chans (l : list stop_chan) (s : PFStateController) : PFStateController :=
  mkPFStateController (AutoscalingRunning s) (StopCh s) l (DesiredStateClosed s)
    (desired_sent s) (ScalingMetadata s) (Period s) (threads s).
Definition with_sent (z : Z) (m : AutoscalingMetadata) (s : PFStateController)
  : PFStateController :=
  mkPFStateController (AutoscalingRunning s) (StopCh s) (stop_chans s) (DesiredStateClosed s)
    (desired_sent s ++ [z]) m (Period s) (threads s).
Definition with_threads (l : list thread_pc) (s : PFStateController) : PFStateController :=
  mkPFStateController (AutoscalingRunning s) (StopCh s) (stop_chans s) (DesiredStateClosed s)
    (desired_sent s) (ScalingMetadata s) (Period s) l.

(** ** Atomic actions *)

(** The compare-and-swap of [Start]. *)
Definition Start_cas (s : PFStateController) : bool * PFStateController :=
  if decide (AutoscalingRunning s = 0)
  then (true, with_threads (threads s ++ [StartMake]) (with_running 1 s))
  else (false, s).

(** The flag test of [Stop]. *)
Definition Stop_load (s : PFStateController) : PFStateController :=
  if decide (AutoscalingRunning s = 0) then s
  else with_threads (threads s ++ [StopSend]) s.

(** [ch <- struct{}{}]: blocks on [nil] and on a full buffer, panics on a
    closed channel. *)
Definition stop_chan_send (ch : option nat) (s : PFStateController) : outcome PFStateController :=
  match ch with
  | None => Blocked
  | Some c =>
      match stop_chans s !! c with
      | None => Blocked
      | Some k => if sc_closed k then Panic
                  else if sc_buffered k then Blocked
                  else Ok (with_chans (<[c := mkStopChan true false]> (stop_chans s)) s)
      end
  end.

(** [<-ch]: a closed channel is always ready, [nil] never is. *)
Definition stop_chan_recv (ch : option nat) (s : PFStateController) : outcome PFStateController :=
  match ch with
  | None => Blocked
  | Some c =>
      match stop_chans s !! c with
      | None => Blocked
      | Some k => if sc_buffered k
                  then Ok (with_chans (<[c := mkStopChan false (sc_closed k)]> (stop_chans s)) s)
                  else if sc_closed k then Ok s else Blocked
      end
  end.

(** [close(ch)]: panics on [nil] and on a closed channel. *)
Definition stop_chan_close (ch : option nat) (s : PFStateController) : outcome PFStateController :=
  match ch with
  | None => Panic
  | Some c =>
      match stop_chans s !! c with
      | None => Panic
      | Some k => if sc_closed k then Panic
                  else Ok (with_chans (<[c := mkStopChan (sc_buffered k) true]> (stop_chans s)) s)
      end
  end.

(** [scalingCycle]: the decision, the send to the scaling loop of the control
    plane, and whether the loop has to stop. *)
Definition scalingCycle (now : Z) (isScaleFromZero : bool) (s : PFStateController)
  : outcome (bool * PFStateController) :=
  r ← KnativeScaling oob Clamp now isScaleFromZero (ScalingMetadata s);
  let '(desiredScale, m) := r in
  if DesiredStateClosed s then Panic
  else Ok (bool_decide (desiredScale = 0), with_sent desiredScale m s).

(** One action of the goroutine at [pc]: the new state and the next program
    counters ([[]] when it ends; [Start] also forks the loop).  [stop] picks
    the ready case of the [select]. *)
Definition thread_step (now : Z) (stop : bool) (pc : thread_pc) (s : PFStateController)
  : outcome (list thread_pc * PFStateController) :=
  match pc with
  | StartMake =>
      let c := length (stop_chans s) in
      Ok ([Cycle true],
          with_StopCh (Some c) (with_chans (stop_chans s ++ [mkStopChan false false]) s))
  | StopSend => s' ← stop_chan_send (StopCh s) s; Ok ([], s')
  | Cycle isScaleFromZero =>
      r ← scalingCycle now isScaleFromZero s;
      let '(toStop, s') := (r : bool * PFStateController) in
      Ok ([if toStop then StopStore else if isScaleFromZero then NewTicker else SelectEnter], s')
  | NewTicker => if decide (Period s <= 0) then Panic else Ok ([SelectEnter], s)
  | SelectEnter => Ok ([SelectWait (StopCh s)], s)
  | SelectWait ch =>
      if stop then s' ← stop_chan_recv ch s; Ok ([StopStore], s')
      else Ok ([Cycle false], s)
  | StopStore => Ok ([StopClose], with_running 0 s)
  | StopClose => s' ← stop_chan_close (StopCh s) s; Ok ([StopNil], s')
  | StopNil => Ok ([], with_StopCh None s)
  end.

Inductive event : Type :=
| EvStart
| EvStop
| EvThread (i : nat) (now : Z) (stop : bool).

(** [Blocked]: the action is not enabled. *)
Definition ctl_step (e : event) (s : PFStateController) : outcome PFStateController :=
  match e with
  | EvStart => Ok (Start_cas s).2
  | EvStop => Ok (Stop_load s)
  | EvThread i now stop =>
      match threads s !! i with
      | None => Blocked
      | Some pc =>
          r ← thread_step now stop pc s;
          let '(pcs, s') := r in
          Ok (with_threads (take i (threads s) ++ pcs ++ drop (S i) (threads s)) s')
      end
  end.

Fixpoint ctl_run (es : list event) (s : PFStateController) : outcome PFStateController :=
  match es with
  | [] => Ok s
  | e :: es' => s' ← ctl_step e s; ctl_run es' s'
  end.
End controller.

(** ** Mutual exclusion of the scaling loops *)

(** The goroutines that still own the loop: from the compare-and-swap of
    [Start] to the store of [stopAutoscalingLoop]. *)
Definition owns_loop (pc : thread_pc) : bool :=
  match pc with
  | StartMake | Cycle _ | NewTicker | SelectEnter | SelectWait _ | StopStore => true
  | StopSend | StopClose | StopNil => false
  end.

Definition owners (l : list thread_pc) : Z := Z.of_nat (length (filter (fun p => owns_loop p = true) l)).

Lemma owners_app l1 l2 : owners (l1 ++ l2) = owners l1 + owners l2.
Proof. unfold owners. rewrite list.filter_app, length_app. lia. Qed.
Lemma owners_single pc : owners [pc] = if owns_loop pc then 1 else 0.
Proof. unfold owners. rewrite filter_cons. by destruct (owns_loop pc). Qed.
Lemma owners_nonneg l : 0 <= owners l.
Proof. unfold owners. lia. Qed.

Definition loop_inv (s : PFStateController) : Prop :=
  AutoscalingRunning s = owners (threads s) /\ 0 <= AutoscalingRunning s <= 1.

Section loop_inv.
Context (oob : Z) (Clamp : Z -> Z -> Z -> Z).

Lemma stop_chan_frame f ch s s' :
  (f = stop_chan_send \/ f = stop_chan_recv \/ f = stop_chan_close) ->
  f ch s = Ok s' ->
  AutoscalingRunning s' = AutoscalingRunning s /\ threads s' = threads s.
Proof.
  intros Hf. destruct ch as [c|]; destruct Hf as [->|[->| ->]]; simpl; try done;
    destruct (stop_chans s !! c) as [[[] []]|]; simpl; try done; by intros [= <-].
Qed.

(** Each action of a goroutine moves the flag and the ownership together. *)
Lemma thread_step_owners now stop pc s pcs s' :
  thread_step oob Clamp now stop pc s = Ok (pcs, s') ->
  threads s' = threads s /\
  AutoscalingRunning s' =
    (if decide (pc = StopStore) then 0 else AutoscalingRunning s) /\
  owners pcs = (if decide (pc = StopStore) then 0 else owners [pc]).
Proof.
  destruct pc as [| |z| | |ch| | |]; simpl; intros H.
  - by simplify_eq.
  - destruct (stop_chan_send _ _) as [s1| | |] eqn:E; simplify_eq/=.
    apply stop_chan_frame in E as [-> ->]; auto.
  - destruct (scalingCycle _ _ _ _ _) as [[b s1]| | |] eqn:E; simplify_eq/=.
    revert E. unfold scalingCycle.
    destruct (KnativeScaling _ _ _ _ _) as [[d m]| | |]; cbn; try done.
    destruct (DesiredStateClosed s); [done|]. intros [= <- <-].
    by destruct (bool_decide _), z.
  - case_decide; by simplify_eq.
  - by simplify_eq.
  - destruct stop; [|by simplify_eq].
    destruct (stop_chan_recv _ _) as [s1| | |] eqn:E; simplify_eq/=.
    apply stop_chan_frame in E as [-> ->]; auto.
  - by simplify_eq.
  - destruct (stop_chan_close _ _) as [s1| | |] eqn:E; simplify_eq/=.
    apply stop_chan_frame in E as [-> ->]; auto.
  - by simplify_eq.
Qed.

Lemma ctl_step_inv e s s' : loop_inv s -> ctl_step oob Clamp e s = Ok s' -> loop_inv s'.
Proof.
  intros [Hr Hb]. destruct e as [| |i now stop]; simpl.
  - intros [= <-]. unfold loop_inv, Start_cas. case_decide as E; simpl; [|done].
    rewrite owners_app, owners_single. simpl. lia.
  - intros [= <-]. unfold loop_inv, Stop_load. case_decide as E; simpl; [done|].
    rewrite owners_app, owners_single. simpl. lia.
  - destruct (threads s !! i) as [pc|] eqn:Hi; [|done].
    destruct (thread_step _ _ _ _ _ _) as [[pcs s1]| | |] eqn:E; cbn; try done.
    intros [= <-]. apply thread_step_owners in E as (Ht&Hr'&Ho).
    pose proof (take_drop_middle _ _ _ Hi) as Htd. rewrite <- Htd in Hr.
    rewrite !owners_app in Hr. change (pc :: ?l) with ([pc] ++ l) in Hr.
    rewrite owners_app in Hr.
    pose proof (owners_nonneg (take i (threads s))). pose proof (owners_nonneg (drop (S i) (threads s))).
    unfold loop_inv. simpl. rewrite !owners_app, Hr', Ho.
    case_decide; subst; rewrite ?owners_single in *; simpl in *; lia.
Qed.
End loop_inv.

Lemma ctl_run_inv oob Clamp es s s' :
  loop_inv s -> ctl_run oob Clamp es s = Ok s' -> loop_inv s'.
Proof.
  revert s. induction es as [|e es IH]; intros s Hs; simpl; [by intros [= <-]|].
  destruct (ctl_step oob Clamp e s) as [s1| | |] eqn:E; cbn; try done.
  apply IH. by eapply ctl_step_inv.
Qed.

(** C27: However the calls of [Start] and [Stop] and the steps of the scaling
    goroutines interleave, at most one goroutine of a function owns the
    scaling loop, and the flag [AutoscalingRunning] is 1 exactly while one
    does: [Start] returns true only when no loop is running. *)
Theorem at_most_one_scaling_loop oob Clamp cfg period es s :
  ctl_run oob Clamp es (NewPerFunctionStateController cfg period) = Ok s ->
  owners (threads s) <= 1 /\
  AutoscalingRunning s = owners (threads s) /\
  ((Start_cas s).1 = true <-> owners (threads s) = 0).
Proof.
  intros H. apply ctl_run_inv in H as [Hr Hb]; [|done].
  split; [lia|]. split; [done|]. unfold Start_cas. case_decide; simpl; split; (done || lia).
Qed.

Lemma at_most_one_scaling_loop_witness :
  exists s, ctl_run 0 clampZ [EvStart; EvThread 0 5 false; EvStart; EvThread 0 5 false]
      (NewPerFunctionStateController (NewDefaultAutoscalingMetadata false) 2) = Ok s /\
    owners (threads s) <= 1 /\ AutoscalingRunning s = owners (threads s) /\
    ((Start_cas s).1 = true <-> owners (threads s) = 0).
Proof.
  eexists. split; [vm_compute; reflexivity|].
  apply (at_most_one_scaling_loop 0 clampZ (NewDefaultAutoscalingMetadata false) 2
    [EvStart; EvThread 0 5 false; EvStart; EvThread 0 5 false]).
  vm_compute. reflexivity.
Defined.

Lemma ctl_run_cons oob Clamp e es s s1 :
  ctl_step oob Clamp e s = Ok s1 -> ctl_run oob Clamp (e :: es) s = ctl_run oob Clamp es s1.
Proof. intros H. simpl. by rewrite H. Qed.

(** No goroutine is running and the stop channel is [nil]. *)
Definition idle (s : PFStateController) : Prop :=
  AutoscalingRunning s = 0 /\ StopCh s = None /\ threads s = [] /\ DesiredStateClosed s = false.

(** Starting an idle controller and stopping it while its loop waits for
    the ticker is a round trip: the loop sends the decision to scale from zero
    to one exactly once, every action is enabled in turn, nothing panics, and
    the controller is idle again, ready for the next [Start]. *)
Theorem start_stop_roundtrip oob Clamp now s :
  idle s -> 0 < Period s ->
  exists s', ctl_run oob Clamp
      [EvStart;                 (* [Start] *)
       EvThread 0 now false;    (* makes the channel, forks the loop *)
       EvThread 0 now false;    (* scalingCycle(true) *)
       EvThread 0 now false;    (* NewTicker *)
       EvThread 0 now false;    (* enters the select *)
       EvStop;                  (* [Stop] reads the flag *)
       EvThread 1 now false;    (* and sends *)
       EvThread 0 now true;     (* the loop receives *)
       EvThread 0 now false; EvThread 0 now false; EvThread 0 now false] s = Ok s' /\
    idle s' /\ desired_sent s' = desired_sent s ++ [1].
Proof.
  intros (Hr&Hs&Ht&Hd) Hp. destruct s as [r sc chs dc sent m p ths]; simpl in Hr, Hs, Ht, Hd, Hp; subst.
  set (st r sc k sent ths := mkPFStateController r sc (chs ++ k) false sent m p ths).
  set (c := Some (length chs)). set (sent' := sent ++ [1]).
  assert (Hl : forall k, (chs ++ [k]) !! length chs = Some k)
    by (intros k; by apply list_lookup_middle).
  assert (Hi : forall k k', <[length chs := k']> (chs ++ [k]) = chs ++ [k'])
    by (intros k k'; rewrite insert_app_r_alt, Nat.sub_diag by lia; done).
  exists (st 0 None [mkStopChan false true] sent' []). split; [|done].
  rewrite (ctl_run_cons _ _ _ _ _ (st 1 None [] sent [StartMake])) by (unfold st; by rewrite app_nil_r).
  rewrite (ctl_run_cons _ _ _ _ _ (st 1 c [mkStopChan false false] sent [Cycle true]))
    by (unfold st; by rewrite app_nil_r).
  rewrite (ctl_run_cons _ _ _ _ _ (st 1 c [mkStopChan false false] sent' [NewTicker])) by done.
  rewrite (ctl_run_cons _ _ _ _ _ (st 1 c [mkStopChan false false] sent' [SelectEnter])).
  2:{ unfold ctl_step, thread_step. simpl. by rewrite decide_False by lia. }
  rewrite (ctl_run_cons _ _ _ _ _ (st 1 c [mkStopChan false false] sent' [SelectWait c])) by done.
  rewrite (ctl_run_cons _ _ _ _ _ (st 1 c [mkStopChan false false] sent' [SelectWait c; StopSend])) by done.
  rewrite (ctl_run_cons _ _ _ _ _ (st 1 c [mkStopChan true false] sent' [SelectWait c])).
  2:{ cbn. rewrite Hl. cbn. by rewrite Hi. }
  rewrite (ctl_run_cons _ _ _ _ _ (st 1 c [mkStopChan false false] sent' [StopStore])).
  2:{ cbn. rewrite Hl. cbn. by rewrite Hi. }
  rewrite (ctl_run_cons _ _ _ _ _ (st 0 c [mkStopChan false false] sent' [StopClose])) by done.
  rewrite (ctl_run_cons _ _ _ _ _ (st 0 c [mkStopChan false true] sent' [StopNil])).
  2:{ cbn. rewrite Hl. cbn. by rewrite Hi. }
  done.
Qed.

Lemma start_stop_roundtrip_witness :
  let s := NewPerFunctionStateController (NewDefaultAutoscalingMetadata false) 2 in
  exists s', ctl_run 0 clampZ
      [EvStart; EvThread 0 7 false; EvThread 0 7 false; EvThread 0 7 false; EvThread 0 7 false;
       EvStop; EvThread 1 7 false; EvThread 0 7 true;
       EvThread 0 7 false; EvThread 0 7 false; EvThread 0 7 false] s = Ok s' /\
    idle s' /\ desired_sent s' = [] ++ [1].
Proof.
  intros s. apply (start_stop_roundtrip 0 clampZ 7 s); [repeat split|]; vm_compute; reflexivity.
Defined.

(** The flag is cleared before the stop channel is closed.  A [Start] in
    between replaces the channel, so the old loop closes the new loop's
    channel: the new loop takes that for a request to stop and its own
    [close] hits the [nil] the old loop has just stored, which panics. *)
Theorem restart_race_panics oob Clamp :
  let s := NewPerFunctionStateController (NewDefaultAutoscalingMetadata false) 2 in
  let t i := EvThread i 0 false in
  let race :=
      [EvStart; t 0%nat; t 0%nat; t 0%nat; t 0%nat;  (* the first loop waits *)
       EvStop; t 1%nat; EvThread 0 0 true;           (* it is told to stop *)
       t 0%nat;                                      (* it clears the flag *)
       EvStart; t 1%nat; t 1%nat; t 1%nat; t 1%nat;  (* a second loop starts *)
       t 0%nat; t 0%nat;                             (* the first closes the new channel *)
       EvThread 0 0 true; t 0%nat] in
  (exists s', ctl_run oob Clamp race s = Ok s') /\
  ctl_run oob Clamp (race ++ [t 0%nat]) s = Panic.
Proof. split; [eexists|]; vm_compute; reflexivity. Qed.

(** A decision after the service was deregistered (its desired-state
    channel closed) panics the control plane: a scaling loop that has not yet
    been stopped sends on the closed channel. *)
Theorem cycle_after_deregistration_panics oob Clamp now b s :
  window_wf (ScalingMetadata s) -> DesiredStateClosed s = true ->
  scalingCycle oob Clamp now b s = Panic.
Proof.
  intros Hw Hc. unfold scalingCycle, KnativeScaling. destruct b.
  - cbn. by rewrite Hc.
  - destruct (internalScaleAlgorithm_total oob now
      (f64_of_Z (cachedScalingMetric (ScalingMetadata s))) _ Hw)
      as (?&?&?&r&avg&?&?&m&_&Hrun&_).
    go_run (eq_refl (go_get (ScalingMetadata s))).
    unfold mbind at 1, outcome_bind. unfold mbind at 1, gom_bind. rewrite Hrun. cbn. by rewrite Hc.
Qed.

Lemma cycle_after_deregistration_panics_witness :
  let s := mkPFStateController 1 None [] true [] (new_metadata (NewDefaultAutoscalingMetadata false)) 2
             [Cycle false] in
  scalingCycle 0 clampZ 3 false s = Panic.
Proof.
  intros s. apply (cycle_after_deregistration_panics 0 clampZ 3 false s); [|reflexivity].
  apply window_wf_new. unfold config_ok; simpl; lia.
Defined.
