(* ===== verification/Core.v ===== *)
(** * Core types

    [api/proto] (the messages exchanged by the components),
    [internal/control_plane/core] (endpoints and node configurations),
    [internal/control_plane/workers] and [internal/control_plane/data_plane]
    (what the control plane keeps about each worker node and data plane).

    A pointer to an endpoint is the endpoint with its address [ep_ptr]; a
    reference from an endpoint to its worker node is the node's name, under
    which every consumer of the reference looks the node up. *)
From Stdlib Require Import ZArith Lia Ascii.
From stdpp Require Import base tactics list gmap strings sets numbers pretty.
From S2P Require Import Prelude Sync Autoscaling.

Local Open Scope Z_scope.

(** ** Messages *)

Inductive L4Protocol : Type := TCP | UDP.

Record PortMapping : Type := mkPortMapping {
  pm_HostPort : Z;
  pm_GuestPort : Z;
  pm_Protocol : L4Protocol;
}.

Record ServiceInfo : Type := mkServiceInfo {
  si_Name : string;
  si_Image : string;
  si_RequestedCpu : Z;
  si_RequestedMemory : Z;
  si_PortForwarding : PortMapping;
  si_AutoscalingConfig : AutoscalingConfiguration;
}.

(** [ActionStatus] and [DeploymentUpdateSuccess] *)
Record ActionStatus : Type := mkActionStatus {
  as_Success : bool;
  as_Message : string;
}.
Definition status_ok : ActionStatus := mkActionStatus true "".
Definition status_failed : ActionStatus := mkActionStatus false "".

Record NodeInfo : Type := mkNodeInfo {
  ni_NodeID : string;
  ni_IP : string;
  ni_Port : Z;
  ni_CpuCores : Z;
  ni_MemorySize : Z;
}.

Record NodeHeartbeatMessage : Type := mkNodeHeartbeatMessage {
  hb_NodeID : string;
  hb_CpuUsage : Z;
  hb_MemoryUsage : Z;
}.

Record DataplaneInfo : Type := mkDataplaneInfo {
  di_IP : string;
  di_APIPort : Z;
  di_ProxyPort : Z;
}.

Record DataplaneInformation : Type := mkDataplaneInformation {
  dpi_Address : string;
  dpi_ApiPort : string;
  dpi_ProxyPort : string;
}.

Record WorkerNodeInformation : Type := mkWorkerNodeInformation {
  wni_Name : string;
  wni_Ip : string;
  wni_Port : string;
  wni_CpuCores : Z;
  wni_Memory : Z;
}.

Record AutoscalingMetric : Type := mkAutoscalingMetric {
  am_ServiceName : string;
  am_DataplaneName : string;
  am_InflightRequests : Z;
}.

Inductive FailureType : Type :=
| SANDBOX_FAILURE
| SANDBOX_DAEMON_FAILURE
| WORKER_NODE_FAILURE.

Record Failure : Type := mkFailure {
  fl_Type : FailureType;
  fl_ServiceName : string;
  fl_SandboxIDs : list string;
}.

Record EndpointInfo : Type := mkEndpointInfo {
  ei_ID : string;
  ei_URL : string;
}.

(** [proto.Endpoint], an element of [EndpointsList] *)
Record proto_Endpoint : Type := mkProtoEndpoint {
  pe_SandboxID : string;
  pe_URL : string;
  pe_NodeName : string;
  pe_ServiceName : string;
  pe_HostPort : Z;
}.

Record SandboxCreationStatus : Type := mkSandboxCreationStatus {
  scs_Success : bool;
  scs_ID : string;
  scs_PortMappings : PortMapping;
}.

#[global] Instance EndpointInfo_eq_dec : EqDecision EndpointInfo.
Proof. solve_decision. Defined.
#[global] Instance proto_Endpoint_eq_dec : EqDecision proto_Endpoint.
Proof. solve_decision. Defined.
#[global] Instance ActionStatus_eq_dec : EqDecision ActionStatus.
Proof. solve_decision. Defined.

(** ** Endpoints *)

Record Endpoint : Type := mkEndpoint {
  ep_ptr : nat;
  SandboxID : string;
  URL : string;
  Node : option string;
  HostPort : Z;
}.

#[global] Instance Endpoint_eq_dec : EqDecision Endpoint.
Proof. solve_decision. Defined.
#[global] Instance Endpoint_countable : Countable Endpoint.
Proof.
  refine (inj_countable'
    (fun e => (ep_ptr e, SandboxID e, URL e, Node e, HostPort e))
    (fun '(p, s, u, n, h) => mkEndpoint p s u n h) _).
  by intros [].
Defined.

(** ** Worker nodes, as the control plane sees them *)

Record WorkerNodeConfiguration : Type := mkWorkerNodeConfiguration {
  wc_Name : string;
  wc_IP : string;
  wc_Port : string;
  wc_CpuCores : Z;
  wc_Memory : Z;
}.

Record WorkerNode : Type := mkWorkerNode {
  wn_Name : string;
  wn_IP : string;
  wn_Port : string;
  wn_CpuUsage : Z;
  wn_MemoryUsage : Z;
  wn_CpuCores : Z;
  wn_Memory : Z;
  wn_LastHeartbeat : Z;
  wn_connected : bool;                       (* [wnConnection != nil] *)
  wn_endpointMap : Structure Endpoint string;
  wn_Schedulable : bool;
}.

Definition NewWorkerNode (now : Z) (c : WorkerNodeConfiguration) : WorkerNode :=
  mkWorkerNode (wc_Name c) (wc_IP c) (wc_Port c) 0 0 (wc_CpuCores c) (wc_Memory c) now false
    NewControlPlaneSyncStructure false.

Definition GetWorkerNodeConfiguration (w : WorkerNode) : WorkerNodeConfiguration :=
  mkWorkerNodeConfiguration (wn_Name w) (wn_IP w) (wn_Port w) (wn_CpuCores w) (wn_Memory w).

Definition SetSchedulability (val : bool) (w : WorkerNode) : WorkerNode :=
  mkWorkerNode (wn_Name w) (wn_IP w) (wn_Port w) (wn_CpuUsage w) (wn_MemoryUsage w)
    (wn_CpuCores w) (wn_Memory w) (wn_LastHeartbeat w) (wn_connected w) (wn_endpointMap w) val.
Definition UpdateLastHearBeat (now : Z) (w : WorkerNode) : WorkerNode :=
  mkWorkerNode (wn_Name w) (wn_IP w) (wn_Port w) (wn_CpuUsage w) (wn_MemoryUsage w)
    (wn_CpuCores w) (wn_Memory w) now (wn_connected w) (wn_endpointMap w) (wn_Schedulable w).
Definition SetUsage (cpu memory : Z) (w : WorkerNode) : WorkerNode :=
  mkWorkerNode (wn_Name w) (wn_IP w) (wn_Port w) cpu memory
    (wn_CpuCores w) (wn_Memory w) (wn_LastHeartbeat w) (wn_connected w) (wn_endpointMap w)
    (wn_Schedulable w).
(** [dialed]: the gRPC dial succeeded; an existing connection is kept. *)
Definition ConnectToWorker (dialed : bool) (w : WorkerNode) : WorkerNode :=
  mkWorkerNode (wn_Name w) (wn_IP w) (wn_Port w) (wn_CpuUsage w) (wn_MemoryUsage w)
    (wn_CpuCores w) (wn_Memory w) (wn_LastHeartbeat w) (wn_connected w || dialed) (wn_endpointMap w)
    (wn_Schedulable w).
Definition SetEndpointMap (m : Structure Endpoint string) (w : WorkerNode) : WorkerNode :=
  mkWorkerNode (wn_Name w) (wn_IP w) (wn_Port w) (wn_CpuUsage w) (wn_MemoryUsage w)
    (wn_CpuCores w) (wn_Memory w) (wn_LastHeartbeat w) (wn_connected w) m (wn_Schedulable w).

(** ** Data planes, as the control plane sees them *)

Record DataPlaneConnectionInfo : Type := mkDataPlaneConnectionInfo {
  dp_IP : string;
  dp_APIPort : string;
  dp_ProxyPort : string;
  dp_LastHeartBeat : Z;
  dp_connected : bool;                       (* [Iface != nil] *)
}.

Definition NewDataplaneConnection (now : Z) (IP APIPort ProxyPort : string)
  : DataPlaneConnectionInfo := mkDataPlaneConnectionInfo IP APIPort ProxyPort now false.
Definition UpdateHeartBeat (now : Z) (d : DataPlaneConnectionInfo) : DataPlaneConnectionInfo :=
  mkDataPlaneConnectionInfo (dp_IP d) (dp_APIPort d) (dp_ProxyPort d) now (dp_connected d).
Definition SetConnected (d : DataPlaneConnectionInfo) : DataPlaneConnectionInfo :=
  mkDataPlaneConnectionInfo (dp_IP d) (dp_APIPort d) (dp_ProxyPort d) (dp_LastHeartBeat d) true.

(** [ResetMeasurements] of a connection calls itself: with any bound on the
    depth of the stack, the call never produces a status. *)
Fixpoint ResetMeasurements_call (depth : nat) (d : DataPlaneConnectionInfo) : outcome ActionStatus :=
  match depth with
  | O => Fatal (* goroutine stack exceeds the limit *)
  | S depth' => ResetMeasurements_call depth' d
  end.

(** The addresses of a load balancer configuration. *)
Record HAProxyConfig : Type := mkHAProxyConfig {
  hc_Dataplanes : list string;
  hc_RegistrationServers : list string;
}.

(** ** strconv.Itoa *)
Definition Itoa (z : Z) : string := pretty z.

(** ** strconv.Atoi: [None] is an error *)
Definition digit_value (c : ascii) : option Z :=
  let n := Z.of_nat (nat_of_ascii c) - 48 in
  if decide (0 <= n <= 9) then Some n else None.
Fixpoint digits_value (s : string) (acc : Z) : option Z :=
  match s with
  | EmptyString => Some acc
  | String c s' => d ← digit_value c; digits_value s' (acc * 10 + d)
  end.
Definition unsigned_value (s : string) : option Z :=
  match s with EmptyString => None | _ => digits_value s 0 end.
Definition Atoi (s : string) : option Z :=
  v ← match s with
      | String c s' =>
          if decide (c = "-"%char) then Z.opp <$> unsigned_value s'
          else if decide (c = "+"%char) then unsigned_value s' else unsigned_value s
      | EmptyString => None
      end;
  if decide (is_i64 v) then Some v else None.
