(* ===== verification/Net.v ===== *)
(** * Network addresses

    The parts of [pkg/grpc_helpers] that compute: [SplitAddress] and
    [ParseReplicaPorts], with what they use of [net.SplitHostPort] and
    [strconv], and the inverse, [fmt.Sprintf("%s:%d", host, port)]. *)
From Stdlib Require Import ZArith Lia Ascii.
From stdpp Require Import base tactics list gmap strings sets numbers pretty.
From S2P Require Import Prelude Core.

Local Open Scope Z_scope.

(** ** Strings *)

Fixpoint mentions (c : ascii) (s : string) : bool :=
  match s with
  | EmptyString => false
  | String c' s' => bool_decide (c' = c) || mentions c s'
  end.

(** [bytealg.LastIndexByteString], with the two sides: the text before and
    after the last occurrence of [c]. *)
Fixpoint split_last (c : ascii) (s : string) : option (string * string) :=
  match s with
  | EmptyString => None
  | String c' s' =>
      match split_last c s' with
      | Some (a, b) => Some (String c' a, b)
      | None => if decide (c' = c) then Some (EmptyString, s') else None
      end
  end.
(** [bytealg.IndexByteString]: before and after the first occurrence. *)
Fixpoint split_first (c : ascii) (s : string) : option (string * string) :=
  match s with
  | EmptyString => None
  | String c' s' =>
      if decide (c' = c) then Some (EmptyString, s')
      else match split_first c s' with
           | Some (a, b) => Some (String c' a, b)
           | None => None
           end
  end.

(** ** net.SplitHostPort: [None] is an error *)

Definition SplitHostPort (hostport : string) : option (string * string) :=
  match hostport with
  | String "["%char rest =>
      (* an IPv6 literal: the bracket closes right before the last colon *)
      '(host, after) ← split_first "]"%char rest;
      match after with
      | String ":"%char port =>
          if mentions ":"%char port || mentions "["%char (host +:+ after) || mentions "]"%char after
          then None else Some (host, port)
      | _ => None
      end
  | _ =>
      '(host, port) ← split_last ":"%char hostport;
      if mentions ":"%char host || mentions "["%char hostport || mentions "]"%char hostport
      then None else Some (host, port)
  end.

(** [SplitAddress]: errors are fatal. *)
Definition SplitAddress (address : string) : outcome (string * Z) :=
  match SplitHostPort address with
  | None => Fatal
  | Some (hostString, portString) =>
      match Atoi portString with
      | None => Fatal
      | Some port => Ok (hostString, port)
      end
  end.

Fixpoint ParseReplicaPorts (replicas : list string) : outcome (list Z) :=
  match replicas with
  | [] => Ok []
  | a :: rest =>
      hp ← SplitAddress a;
      l ← ParseReplicaPorts rest;
      Ok ((hp : string * Z).2 :: l)
  end.

(** [fmt.Sprintf("%s:%d", host, port)] *)
Definition host_port (host : string) (port : Z) : string := (host +:+ ":" +:+ Itoa port)%string.

(** ** Decimal numbers *)

Lemma digit_value_pretty n : (n < 10)%N -> digit_value (pretty_N_char n) = Some (Z.of_N n).
Proof.
  intros Hn. assert (Hc : n ∈ [0; 1; 2; 3; 4; 5; 6; 7; 8; 9]%N) by (rewrite !elem_of_cons; lia).
  rewrite !elem_of_cons, elem_of_nil in Hc. by destruct_or!; subst.
Qed.

Lemma digits_value_pretty x s : digits_value (pretty_N_go x s) 0 = digits_value s (Z.of_N x).
Proof.
  revert s. induction (N.lt_wf_0 x) as [x _ IH]; intros s.
  destruct (decide (x = 0)%N) as [->|Hx]; [by rewrite pretty_N_go_0|].
  rewrite pretty_N_go_step by lia. rewrite IH by (apply N.div_lt; lia).
  cbn [digits_value]. rewrite digit_value_pretty by (apply N.mod_lt; lia). simpl. f_equal.
  pose proof (N.div_mod x 10 ltac:(lia)). lia.
Qed.

(** A decimal number is not empty and has neither sign nor separator. *)
Lemma pretty_N_char_digit n : (n < 10)%N ->
  pretty_N_char n ∈ ["0"; "1"; "2"; "3"; "4"; "5"; "6"; "7"; "8"; "9"]%char.
Proof.
  intros Hn. assert (Hc : n ∈ [0; 1; 2; 3; 4; 5; 6; 7; 8; 9]%N) by (rewrite !elem_of_cons; lia).
  rewrite !elem_of_cons, elem_of_nil in Hc. rewrite !elem_of_cons.
  destruct_or!; subst; auto 12.
Qed.

Fixpoint all_digits (s : string) : Prop :=
  match s with
  | EmptyString => True
  | String c s' => c ∈ ["0"; "1"; "2"; "3"; "4"; "5"; "6"; "7"; "8"; "9"]%char /\ all_digits s'
  end.
Lemma all_digits_pretty x s : all_digits s -> all_digits (pretty_N_go x s).
Proof.
  revert s. induction (N.lt_wf_0 x) as [x _ IH]; intros s Hs.
  destruct (decide (x = 0)%N) as [->|Hx]; [by rewrite pretty_N_go_0|].
  rewrite pretty_N_go_step by lia. apply IH; [apply N.div_lt; lia|].
  split; [apply pretty_N_char_digit, N.mod_lt; lia|done].
Qed.
Lemma pretty_N_go_nonempty x s : (x ≠ 0)%N \/ s ≠ EmptyString -> pretty_N_go x s ≠ EmptyString.
Proof.
  revert s. induction (N.lt_wf_0 x) as [x _ IH]; intros s Hs.
  destruct (decide (x = 0)%N) as [->|Hx]; [rewrite pretty_N_go_0; destruct Hs; done|].
  rewrite pretty_N_go_step by lia. apply IH; [apply N.div_lt; lia|by right].
Qed.

Lemma Itoa_digits z : 0 <= z -> all_digits (Itoa z) /\ Itoa z ≠ EmptyString /\
  digits_value (Itoa z) 0 = Some z.
Proof.
  intros Hz. destruct z as [|p|p]; [|change (Itoa (Zpos p)) with (pretty_N_go (Npos p) EmptyString)|lia].
  { split; [split; [by left|done]|]. done. }
  split; [by apply all_digits_pretty|]. split; [apply pretty_N_go_nonempty; by left|].
  by rewrite digits_value_pretty.
Qed.

Lemma all_digits_mentions c s :
  all_digits s -> c ∉ ["0"; "1"; "2"; "3"; "4"; "5"; "6"; "7"; "8"; "9"]%char -> mentions c s = false.
Proof.
  intros Hs Hc. induction s as [|c' s IH]; [done|]. destruct Hs as [Hd Hs]. simpl.
  rewrite IH by done. rewrite orb_false_r. apply bool_decide_eq_false. by intros ->.
Qed.

Lemma Atoi_Itoa z : 0 <= z < 2 ^ 63 -> Atoi (Itoa z) = Some z.
Proof.
  intros Hz. destruct (Itoa_digits z) as (Hd&Hne&Hv); [lia|]. unfold Atoi.
  destruct (Itoa z) as [|c s]; [done|]. destruct Hd as [Hc _].
  assert (Hnc : c ≠ "-"%char /\ c ≠ "+"%char).
  { rewrite !elem_of_cons, elem_of_nil in Hc. by destruct_or!; subst. }
  rewrite !decide_False by tauto. unfold unsigned_value. rewrite Hv. cbn.
  rewrite decide_True; [done|]. unfold is_i64. lia.
Qed.

(** ** The round trip *)

Lemma mentions_app c a b : mentions c (a +:+ b) = mentions c a || mentions c b.
Proof. induction a as [|c' a IH]; [done|]. simpl. by rewrite IH, orb_assoc. Qed.

Lemma split_last_none c s : mentions c s = false -> split_last c s = None.
Proof.
  induction s as [|c' s IH]; [done|]. simpl. rewrite orb_false_iff, bool_decide_eq_false.
  intros [Hc Hs]. rewrite IH by done. by rewrite decide_False.
Qed.
Lemma split_last_app c a b :
  mentions c b = false -> split_last c (a +:+ String c b) = Some (a, b).
Proof.
  intros Hb. induction a as [|c' a IH]; simpl; [|by rewrite IH].
  rewrite split_last_none by done. by rewrite decide_True.
Qed.

(** A host name or an IPv4 address. *)
Definition plain_host (h : string) : bool :=
  negb (mentions ":"%char h || mentions "["%char h || mentions "]"%char h).

Lemma SplitHostPort_plain h p :
  plain_host h = true ->
  mentions ":"%char p = false -> mentions "["%char p = false -> mentions "]"%char p = false ->
  SplitHostPort (h +:+ ":" +:+ p) = Some (h, p).
Proof.
  unfold plain_host. rewrite negb_true_iff, !orb_false_iff. intros [[H1 H2] H3] P1 P2 P3.
  assert (Hs : split_last ":"%char (h +:+ ":" +:+ p) = Some (h, p)) by (by apply split_last_app).
  assert (Hm1 : mentions "["%char (h +:+ ":" +:+ p) = false)
    by (by rewrite mentions_app, H2; simpl).
  assert (Hm2 : mentions "]"%char (h +:+ ":" +:+ p) = false)
    by (by rewrite mentions_app, H3; simpl).
  unfold SplitHostPort. destruct (h +:+ ":" +:+ p) as [|c s] eqn:E; [done|].
  assert (Hc : c ≠ "["%char).
  { intros ->. discriminate Hm1. }
  assert (Hgen : ('(host, port) ← split_last ":"%char (String c s);
    if mentions ":"%char host || mentions "["%char (String c s) || mentions "]"%char (String c s)
    then None else Some (host, port)) = Some (h, p)).
  { rewrite Hs. cbn [mbind option_bind]. by rewrite H1, Hm1, Hm2. }
  destruct c as [[] [] [] [] [] [] [] []]; try exact Hgen; by destruct Hc.
Qed.

Lemma SplitAddress_host_port h p :
  plain_host h = true -> 0 <= p < 2 ^ 63 -> SplitAddress (host_port h p) = Ok (h, p).
Proof.
  intros Hh Hp. destruct (Itoa_digits p) as (Hd&_&_); [lia|].
  unfold SplitAddress, host_port. rewrite SplitHostPort_plain; try done.
  2-4: apply all_digits_mentions; [done|]; rewrite !not_elem_of_cons; split_and!; try done;
       apply not_elem_of_nil.
  by rewrite Atoi_Itoa.
Qed.

Lemma host_port_inj h h' p p' :
  plain_host h = true -> plain_host h' = true -> 0 <= p < 2 ^ 63 -> 0 <= p' < 2 ^ 63 ->
  host_port h p = host_port h' p' -> h = h' /\ p = p'.
Proof.
  intros Hh Hh' Hp Hp' E.
  pose proof (SplitAddress_host_port h p Hh Hp) as H1.
  rewrite E, (SplitAddress_host_port h' p' Hh' Hp') in H1. by injection H1.
Qed.

(** Addresses survive the way through their text.  Splitting the text of any
    host without colon and bracket (a name or an IPv4 address) and any port
    gives them back, so that distinct addresses have distinct texts, and the
    identifiers of the replicas of a control plane are their ports, in order. *)
Theorem SplitAddress_roundtrip (l : list (string * Z)) :
  Forall (fun hp => plain_host hp.1 = true /\ 0 <= hp.2 < 2 ^ 63) l ->
  Forall (fun hp => SplitAddress (host_port hp.1 hp.2) = Ok hp) l /\
  ParseReplicaPorts ((fun hp => host_port hp.1 hp.2) <$> l) = Ok l.*2 /\
  (NoDup l -> NoDup ((fun hp => host_port hp.1 hp.2) <$> l)).
Proof.
  intros Hl. split_and!.
  - eapply list.Forall_impl; [exact Hl|]. intros [h p] [Hh Hp]. by apply SplitAddress_host_port.
  - induction Hl as [|[h p] l [Hh Hp] _ IH]; [done|]. simpl in Hh, Hp.
    cbn [fmap list_fmap ParseReplicaPorts fst snd]. rewrite SplitAddress_host_port by done.
    cbn [mbind outcome_bind]. change (list_fmap _ _ ?f l) with (f <$> l). rewrite IH. done.
  - induction Hl as [|[h p] l [Hh Hp] Hl IH]; intros Hn; [constructor|].
    apply list.NoDup_cons in Hn as [Hx Hn]. cbn [fmap list_fmap]. apply list.NoDup_cons.
    split; [|by apply IH]. intros (hp'&E&Hin)%list_elem_of_fmap. apply Hx.
    rewrite list.Forall_forall in Hl. destruct (Hl hp' Hin) as [Hh' Hp'].
    apply host_port_inj in E as [E1 E2]; try done. simpl in E1, E2. subst. by destruct hp'.
Qed.

Lemma SplitAddress_roundtrip_witness :
  SplitAddress "10.0.1.2:9091" = Ok ("10.0.1.2", 9091) /\
  ParseReplicaPorts ["10.0.1.2:9091"; "cp-3:9093"] = Ok [9091; 9093].
Proof.
  pose proof (SplitAddress_roundtrip [("10.0.1.2", 9091); ("cp-3", 9093)]) as H.
  destruct H as (H1&H2&_).
  { apply list.Forall_cons. split; [split; [reflexivity|simpl; lia]|].
    apply list.Forall_cons. split; [split; [reflexivity|simpl; lia]|]. constructor. }
  apply list.Forall_cons in H1 as [H1 _]. split; [exact H1|exact H2].
Defined.
