(* ===== verification/Placement.v ===== *)
(** * Placement and eviction

    [internal/control_plane/placement_policy] (where a new sandbox goes) and
    [internal/control_plane/eviction_policy] (which sandbox is torn down). *)
From Stdlib Require Import ZArith Lia SpecFloat.
From stdpp Require Import base tactics list gmap strings sets numbers.
From S2P Require Import Prelude Sync Float64 Core.

Local Open Scope Z_scope.

(** ** Eviction *)

(** [rand.Intn] draws the victim; the others keep their order. *)
Definition EvictionPolicy {E} (r : Z) (endpoint : list E) : outcome (option E * list E) :=
  if decide (length endpoint = 0%nat) then Ok (None, [])
  else
    index ← Intn r (Z.of_nat (length endpoint));
    victim ← go_index endpoint index;
    let newEndpointList :=
      foldl (fun l ie => if decide (Z.of_nat ie.1 ≠ index) then l ++ [ie.2] else l)
        [] (imap (fun i e => (i, e)) endpoint) in
    Ok (Some victim, newEndpointList).

Lemma foldl_skip_index {E} (l : list E) (k : nat) (i : Z) acc :
  foldl (fun l ie => if decide (Z.of_nat ie.1 ≠ i) then l ++ [ie.2] else l)
    acc (imap (fun j e => ((k + j)%nat, e)) l) =
  acc ++ (if decide (Z.of_nat k <= i) then delete (Z.to_nat i - k)%nat l else l).
Proof.
  revert k acc. induction l as [|e l IH]; intros k acc; simpl.
  { case_decide; by rewrite app_nil_r. }
  rewrite Nat.add_0_r.
  assert (Himap : imap ((fun j e0 => ((k + j)%nat, e0)) ∘ S) l =
                  imap (fun j (e0 : E) => ((S k + j)%nat, e0)) l).
  { apply imap_ext. intros; simpl. f_equal. lia. }
  rewrite Himap, IH. destruct (decide (Z.of_nat k ≠ i)) as [Hne|He].
  - rewrite <- app_assoc. f_equal. destruct (decide (Z.of_nat k <= i)).
    + rewrite decide_True by lia. replace (Z.to_nat i - k)%nat with (S (Z.to_nat i - S k)) by lia.
      done.
    + by rewrite decide_False by lia.
  - assert (Z.of_nat k = i) as <- by lia. rewrite decide_False by lia.
    rewrite decide_True by lia. by replace (Z.to_nat (Z.of_nat k) - k)%nat with 0%nat by lia.
Qed.

Lemma EvictionPolicy_run {E} r (l : list E) :
  l ≠ [] ->
  exists i v, l !! i = Some v /\ EvictionPolicy r l = Ok (Some v, delete i l).
Proof.
  intros Hl. unfold EvictionPolicy.
  assert (0 < length l)%nat by (destruct l; simpl; [done|lia]).
  rewrite decide_False by lia.
  destruct (Intn_total r (Z.of_nat (length l))) as (x&Hx&Hr); [lia|].
  destruct (lookup_lt_is_Some_2 l (Z.to_nat x)) as [v Hv]; [lia|].
  exists (Z.to_nat x), v. split; [done|]. rewrite Hx. cbn [mbind outcome_bind].
  unfold go_index. rewrite decide_True by lia. rewrite Hv. cbn [deref mbind outcome_bind].
  pose proof (foldl_skip_index l 0 x []) as Hf. simpl in Hf. rewrite Hf.
  rewrite decide_True by lia. by rewrite Nat.sub_0_r.
Qed.

(** Eviction removes exactly one endpoint and loses no other: whatever the
    random draw, a non-empty list yields a victim and the remaining endpoints,
    which together are the original list, in the original order; an empty list
    yields no victim. *)
Theorem EvictionPolicy_removes_one {E} r (l : list E) :
  (l = [] -> EvictionPolicy r l = Ok (None, [])) /\
  (l ≠ [] -> exists v before after,
     EvictionPolicy r l = Ok (Some v, before ++ after) /\ l = before ++ v :: after).
Proof.
  split; [by intros ->|]. intros Hl.
  destruct (EvictionPolicy_run r l Hl) as (i&v&Hv&Hr).
  exists v, (take i l), (drop (S i) l). rewrite Hr, delete_take_drop.
  split; [done|]. symmetry. by apply take_drop_middle.
Qed.

(** ** Resource maps *)

Definition RM_CPU_KEY : string := "cpu".
Definition RM_MEMORY_KEY : string := "memory".

(** [resources map[string]uint64] *)
Abbreviation ResourceMap := (gmap string Z).

Definition GetCPUCores (r : ResourceMap) : Z := default 0 (r !! RM_CPU_KEY).
Definition GetMemory (r : ResourceMap) : Z := default 0 (r !! RM_MEMORY_KEY).
Definition SetCPUCores (v : Z) (r : ResourceMap) : ResourceMap := <[RM_CPU_KEY := v]> r.
Definition SetMemory (v : Z) (r : ResourceMap) : ResourceMap := <[RM_MEMORY_KEY := v]> r.
Definition ResourceKeys (ord : range_order string Z) (r : ResourceMap) : list string :=
  foldl (fun keys kv => keys ++ [kv.1]) [] (ord r).
Definition GetByKey (key : string) (r : ResourceMap) : outcome Z :=
  match r !! key with Some v => Ok v | None => Fatal end.

Fixpoint sum_keys (keys : list string) (r : ResourceMap) (sum : Z) : outcome Z :=
  match keys with
  | [] => Ok sum
  | key :: keys' => req ← GetByKey key r; sum_keys keys' r (u64 (sum + req))
  end.
Definition SumAllResourceTypes (ord : range_order string Z) (r : ResourceMap) : outcome Z :=
  sum_keys (ResourceKeys ord r) r 0.

Definition CreateResourceMap (cpu memory : Z) : ResourceMap := SetMemory memory (SetCPUCores cpu ∅).
Definition ExtendCPU (r : ResourceMap) : ResourceMap := SetCPUCores (u64 (GetCPUCores r * 1000)) r.
Definition SumResources (a b : ResourceMap) : ResourceMap :=
  CreateResourceMap (u64 (GetCPUCores a + GetCPUCores b)) (u64 (GetMemory a + GetMemory b)).
Definition SubtractResources (a b : ResourceMap) : ResourceMap :=
  CreateResourceMap (u64 (GetCPUCores a - GetCPUCores b)) (u64 (GetMemory a - GetMemory b)).

Lemma GetCPUCores_create cpu memory : GetCPUCores (CreateResourceMap cpu memory) = cpu.
Proof. unfold GetCPUCores, CreateResourceMap, SetMemory, SetCPUCores. by rewrite lookup_insert_ne, lookup_insert_eq. Qed.
Lemma GetMemory_create cpu memory : GetMemory (CreateResourceMap cpu memory) = memory.
Proof. unfold GetMemory, CreateResourceMap, SetMemory. by rewrite lookup_insert_eq. Qed.

Lemma GetByKey_create cpu memory :
  GetByKey RM_CPU_KEY (CreateResourceMap cpu memory) = Ok cpu /\
  GetByKey RM_MEMORY_KEY (CreateResourceMap cpu memory) = Ok memory.
Proof.
  unfold GetByKey, CreateResourceMap, SetMemory, SetCPUCores.
  by rewrite lookup_insert_ne, !lookup_insert_eq.
Qed.

Lemma ResourceKeys_fst ord r : ResourceKeys ord r = (ord r).*1.
Proof.
  unfold ResourceKeys.
  assert (Hg : forall l acc, foldl (fun keys (kv : string * Z) => keys ++ [kv.1]) acc l = acc ++ l.*1).
  { induction l as [|kv l IH]; intros acc; simpl; [by rewrite app_nil_r|].
    by rewrite IH, <- app_assoc. }
  apply Hg.
Qed.

(** Ranging over a map of the two resources visits them in one of two orders. *)
Lemma CreateResourceMap_keys ord cpu memory :
  valid_order ord ->
  ResourceKeys ord (CreateResourceMap cpu memory) = [RM_CPU_KEY; RM_MEMORY_KEY] \/
  ResourceKeys ord (CreateResourceMap cpu memory) = [RM_MEMORY_KEY; RM_CPU_KEY].
Proof.
  intros Hord. rewrite ResourceKeys_fst.
  assert (Hp : (ord (CreateResourceMap cpu memory)).*1 ≡ₚ [RM_MEMORY_KEY; RM_CPU_KEY]).
  { rewrite (Hord _). unfold CreateResourceMap, SetMemory, SetCPUCores.
    rewrite map_to_list_insert by done. rewrite map_to_list_insert by done.
    by rewrite map_to_list_empty. }
  apply Permutation_sym, Permutation_length_2_inv in Hp as [->| ->]; auto.
Qed.

(** Resource arithmetic on maps of the two resources agrees with 64-bit
    arithmetic on each resource, subtraction undoes addition modulo the width,
    and the total over all types is the sum of the two, whatever the order in
    which the map is traversed. *)
Theorem resource_map_arithmetic ord c1 m1 c2 m2 :
  valid_order ord -> is_u64 c1 -> is_u64 m1 -> is_u64 c2 -> is_u64 m2 ->
  let a := CreateResourceMap c1 m1 in let b := CreateResourceMap c2 m2 in
  SumAllResourceTypes ord (SumResources a b) = Ok (u64 (c1 + c2 + m1 + m2)) /\
  SubtractResources (SumResources a b) b = a /\
  GetCPUCores (ExtendCPU a) = u64 (1000 * c1) /\ GetMemory (ExtendCPU a) = m1.
Proof.
  intros Hord Hc1 Hm1 Hc2 Hm2 a b. subst a b. unfold SumResources, SubtractResources.
  rewrite !GetCPUCores_create, !GetMemory_create.
  assert (Hback : forall x y, is_u64 x -> u64 (u64 (x + y) - y) = x).
  { intros x y Hx. unfold u64, unsigned_wrap. rewrite Zminus_mod_idemp_l.
    rewrite Z.add_simpl_r. by apply u64_id. }
  split_and!.
  - unfold SumAllResourceTypes.
    destruct (GetByKey_create (u64 (c1 + c2)) (u64 (m1 + m2))) as [HC HM].
    destruct (CreateResourceMap_keys ord (u64 (c1 + c2)) (u64 (m1 + m2)) Hord) as [-> | ->];
      cbn [sum_keys]; rewrite ?HC, ?HM; cbn [mbind outcome_bind sum_keys];
      rewrite ?HC, ?HM; cbn [mbind outcome_bind sum_keys]; f_equal; unfold u64, unsigned_wrap;
      rewrite Z.add_0_l, Zmod_mod, Zplus_mod_idemp_l, Zplus_mod_idemp_r; f_equal; lia.
  - by rewrite !Hback.
  - unfold ExtendCPU, GetCPUCores, SetCPUCores. rewrite lookup_insert_eq. simpl.
    rewrite Z.mul_comm. done.
  - unfold ExtendCPU, GetMemory, SetCPUCores. by rewrite lookup_insert_ne.
Qed.

Lemma resource_map_arithmetic_witness :
  let a := CreateResourceMap 4 8 in let b := CreateResourceMap 1 2 in
  SumAllResourceTypes map_to_list (SumResources a b) = Ok (u64 (4 + 1 + 8 + 2)) /\
  SubtractResources (SumResources a b) b = a /\
  GetCPUCores (ExtendCPU a) = u64 (1000 * 4) /\ GetMemory (ExtendCPU a) = 8.
Proof.
  apply (resource_map_arithmetic map_to_list 4 8 1 2);
    [apply map_to_list_valid|unfold is_u64; lia..].
Defined.

(** ** Scoring *)

Definition leastRequestedScore (requested capacity : Z) : Z :=
  if decide (capacity = 0) then 0
  else if decide (capacity < requested) then 0
  else u64 (u64 (capacity - requested) * 100) / capacity.

Definition fit_weight (key : string) : Z :=
  if decide (key = RM_CPU_KEY) then 1 else if decide (key = RM_MEMORY_KEY) then 1 else 0.

Fixpoint fit_scores (keys : list string) (installed requested : ResourceMap)
    (nodeScore weightSum : Z) : outcome (Z * Z) :=
  match keys with
  | [] => Ok (nodeScore, weightSum)
  | key :: keys' =>
      req ← GetByKey key requested;
      av ← GetByKey key installed;
      let resourceScore := leastRequestedScore req av in
      fit_scores keys' installed requested
        (u64 (nodeScore + u64 (resourceScore * fit_weight key))) (u64 (weightSum + fit_weight key))
  end.

Definition ScoreFitLeastAllocated (ord : range_order string Z) (installed requested : ResourceMap)
  : outcome Z :=
  r ← fit_scores (ResourceKeys ord installed) installed requested 0 0;
  let '(nodeScore, weightSum) := (r : Z * Z) in
  Ok (if decide (weightSum = 0) then 0 else nodeScore / weightSum).

Fixpoint fractions (keys : list string) (installed requested : ResourceMap)
    (total : float64) (l : list float64) : outcome (float64 * list float64) :=
  match keys with
  | [] => Ok (total, l)
  | key :: keys' =>
      req ← GetByKey key requested;
      av ← GetByKey key installed;
      let q := f64_div (f64_of_Z req) (f64_of_Z av) in
      let fraction := if f64_ltb (f64_of_Z 1) q then f64_of_Z 1 else q in
      fractions keys' installed requested (f64_add total fraction) (l ++ [fraction])
  end.

Definition deviation (totalFraction : float64) (fr : list float64) : float64 :=
  match fr with
  | [f0; f1] => f64_abs (f64_div (f64_sub f0 f1) (f64_of_Z 2))
  | _ :: _ :: _ :: _ =>
      let len := f64_of_Z (Z.of_nat (length fr)) in
      let mean := f64_div totalFraction len in
      let sum := foldl (fun s f => f64_add s (f64_mul (f64_sub f mean) (f64_sub f mean)))
                   (S754_zero false) fr in
      f64_sqrt (f64_div sum len)
  | _ => S754_zero false
  end.

Definition ScoreBalancedAllocation (oob : Z) (ord : range_order string Z)
    (installed requested : ResourceMap) : outcome Z :=
  r ← fractions (ResourceKeys ord installed) installed requested (S754_zero false) [];
  let std := deviation r.1 r.2 in
  Ok (f64_to_uint64 oob (f64_mul (f64_sub (f64_of_Z 1) std) (f64_of_Z 100))).

(** No overflow: capacities below 2^64/100. *)
Definition capacity_ok (c : Z) : Prop := 0 <= c < 2 ^ 57.

Lemma leastRequestedScore_spec req cap :
  0 <= req -> capacity_ok cap ->
  leastRequestedScore req cap =
    if decide (cap = 0 \/ cap < req) then 0 else (cap - req) * 100 / cap.
Proof.
  intros Hr [Hc1 Hc2]. unfold leastRequestedScore.
  repeat case_decide; try lia; try done.
  rewrite (u64_id (cap - req)) by (unfold is_u64; lia).
  by rewrite u64_id by (unfold is_u64; lia).
Qed.

Lemma leastRequestedScore_bound req cap :
  0 <= req -> capacity_ok cap -> 0 <= leastRequestedScore req cap <= 100.
Proof.
  intros Hr Hc. rewrite leastRequestedScore_spec by done. destruct Hc as [Hc1 Hc2].
  case_decide; [lia|]. split; [apply Z.div_pos; lia|].
  apply Z.div_le_upper_bound; lia.
Qed.

Lemma leastRequestedScore_mono r1 r2 cap :
  0 <= r1 <= r2 -> capacity_ok cap -> leastRequestedScore r2 cap <= leastRequestedScore r1 cap.
Proof.
  intros Hr Hc. pose proof (leastRequestedScore_bound r1 cap ltac:(lia) Hc).
  rewrite !leastRequestedScore_spec in * by (done || lia). destruct Hc as [Hc1 Hc2].
  repeat case_decide; try lia. apply Z.div_le_mono; lia.
Qed.

Lemma ScoreFit_two ord ci mi cr mr :
  valid_order ord -> 0 <= cr -> 0 <= mr -> capacity_ok ci -> capacity_ok mi ->
  ScoreFitLeastAllocated ord (CreateResourceMap ci mi) (CreateResourceMap cr mr) =
  Ok ((leastRequestedScore cr ci + leastRequestedScore mr mi) / 2).
Proof.
  intros Hord Hcr Hmr Hci Hmi.
  pose proof (leastRequestedScore_bound cr ci Hcr Hci) as B1.
  pose proof (leastRequestedScore_bound mr mi Hmr Hmi) as B2.
  destruct (GetByKey_create ci mi) as [C1 M1]. destruct (GetByKey_create cr mr) as [C2 M2].
  assert (Hw : fit_weight RM_CPU_KEY = 1 /\ fit_weight RM_MEMORY_KEY = 1) by done.
  destruct Hw as [W1 W2].
  assert (Hsum : forall a b, 0 <= a <= 100 -> 0 <= b <= 100 ->
    u64 (u64 (0 + u64 a) + u64 b) = b + a).
  { intros a b Ha Hb. rewrite (u64_id a), (u64_id b), Z.add_0_l, u64_id, u64_id;
      unfold is_u64; rewrite ?u64_id; unfold is_u64; lia. }
  unfold ScoreFitLeastAllocated.
  destruct (CreateResourceMap_keys ord ci mi Hord) as [-> | ->];
    cbn [fit_scores]; rewrite ?C1, ?C2, ?M1, ?M2; cbn [mbind outcome_bind];
    rewrite ?C1, ?C2, ?M1, ?M2; cbn [mbind outcome_bind]; rewrite W1, W2, !Z.mul_1_r;
    rewrite Hsum by lia; rewrite decide_False by done; f_equal; first [by rewrite Z.add_comm | done].
Qed.

(** The least-allocated score of a node is between 0 and 100, does not
    depend on the order in which the resources are visited, and never grows
    when more is requested: for capacities below 2^57 nothing overflows. *)
Theorem ScoreFit_bounded_monotone ord1 ord2 ci mi c1 m1 c2 m2 :
  valid_order ord1 -> valid_order ord2 -> capacity_ok ci -> capacity_ok mi ->
  0 <= c1 <= c2 -> 0 <= m1 <= m2 ->
  exists s1 s2,
    ScoreFitLeastAllocated ord1 (CreateResourceMap ci mi) (CreateResourceMap c1 m1) = Ok s1 /\
    ScoreFitLeastAllocated ord2 (CreateResourceMap ci mi) (CreateResourceMap c2 m2) = Ok s2 /\
    0 <= s2 <= s1 /\ s1 <= 100.
Proof.
  intros Ho1 Ho2 Hci Hmi Hc Hm.
  rewrite !ScoreFit_two by (done || lia). eexists _, _. do 2 (split; [done|]).
  pose proof (leastRequestedScore_mono c1 c2 ci Hc Hci).
  pose proof (leastRequestedScore_mono m1 m2 mi Hm Hmi).
  pose proof (leastRequestedScore_bound c1 ci ltac:(lia) Hci).
  pose proof (leastRequestedScore_bound m1 mi ltac:(lia) Hmi).
  pose proof (leastRequestedScore_bound c2 ci ltac:(lia) Hci).
  pose proof (leastRequestedScore_bound m2 mi ltac:(lia) Hmi).
  split; [split; [apply Z.div_pos; lia|apply Z.div_le_mono; lia]|].
  apply Z.div_le_upper_bound; lia.
Qed.

Lemma ScoreFit_bounded_monotone_witness :
  exists s1 s2,
    ScoreFitLeastAllocated map_to_list (CreateResourceMap 10 100) (CreateResourceMap 2 10) = Ok s1 /\
    ScoreFitLeastAllocated map_to_list (CreateResourceMap 10 100) (CreateResourceMap 5 10) = Ok s2 /\
    0 <= s2 <= s1 /\ s1 <= 100.
Proof.
  apply (ScoreFit_bounded_monotone map_to_list map_to_list 10 100 2 10 5 10);
    try apply map_to_list_valid; unfold capacity_ok; lia.
Defined.

(** ** The policies *)

Abbreviation NodeStorage := (Structure string WorkerNode).

(** What a call of a policy does not determine itself: the order in which the
    map of nodes is traversed, the random draws ([pe_rand i] is the [i]-th),
    and a bound on the iterations of a compare-and-swap loop. *)
Record place_env : Type := mkPlaceEnv {
  pe_ord : range_order string WorkerNode;
  pe_rand : nat -> Z;
  pe_fuel : nat;
}.

(** The interface [PlacementPolicy]. *)
Class PlacementPolicy (P : Type) : Type := {
  Place : place_env -> ResourceMap -> GoM (P * NodeStorage) (option WorkerNode);
}.

Definition getSchedulableNodes (allNodes : list WorkerNode) : list WorkerNode :=
  foldl (fun result node => if wn_Schedulable node then result ++ [node] else result) [] allNodes.

Lemma getSchedulableNodes_filter l :
  getSchedulableNodes l = filter (fun n => wn_Schedulable n = true) l.
Proof.
  unfold getSchedulableNodes.
  assert (Hg : forall acc, foldl (fun result node => if wn_Schedulable node then result ++ [node] else result)
    acc l = acc ++ filter (fun n => wn_Schedulable n = true) l).
  { induction l as [|n l IH]; intros acc; simpl; [by rewrite app_nil_r|].
    rewrite IH, filter_cons. destruct (wn_Schedulable n); simpl; [by rewrite <- app_assoc|done]. }
  apply Hg.
Qed.

Definition schedulable_nodes (ord : range_order string WorkerNode) (m : gmap string WorkerNode)
  : list WorkerNode := getSchedulableNodes (ord m).*2.

(** *** random *)

Definition Random : Type := unit.
Definition Random_Place (env : place_env) (requested : ResourceMap)
  : GoM (Random * NodeStorage) (option WorkerNode) := fun s =>
  let schedulable := schedulable_nodes (pe_ord env) (InternalMap s.2) in
  if decide (length schedulable ≠ 0%nat) then
    i ← Intn (pe_rand env 0) (Z.of_nat (length schedulable));
    n ← go_index schedulable i;
    Ok (Some n, s)
  else Ok (None, s).

(** *** round robin *)

(** [schedulingCounterRoundRobin] *)
Definition RoundRobinPlacement : Type := Z.
Definition NewRoundRobinPlacement : RoundRobinPlacement := 0.

(** The compare-and-swap loop on the counter; [%] truncates. *)
Fixpoint rr_cas_loop (fuel : nat) (n counter : Z) : outcome (Z * Z) :=
  match fuel with
  | O => Blocked
  | S fuel' =>
      let index := Z.rem counter n in
      let newIndex := Z.rem (i32 (index + 1)) n in
      if decide (counter = index) then Ok (index, newIndex)
      else rr_cas_loop fuel' n counter
  end.

Definition RoundRobin_Place (env : place_env) (requested : ResourceMap)
  : GoM (RoundRobinPlacement * NodeStorage) (option WorkerNode) := fun s =>
  let schedulable := schedulable_nodes (pe_ord env) (InternalMap s.2) in
  if decide (length schedulable = 0%nat) then Ok (None, s)
  else
    r ← rr_cas_loop (pe_fuel env) (i32 (Z.of_nat (length schedulable))) s.1;
    let '(index, counter') := (r : Z * Z) in
    n ← go_index schedulable index;
    Ok (Some n, (counter', s.2)).

(** *** kubernetes *)

Definition KubernetesPolicy : Type := ResourceMap.
Definition NewKubernetesPolicy : KubernetesPolicy := CreateResourceMap 1 1.

(** The local [var resultingNodes] of interface type: it is never assigned, so
    it is a nil interface, on which every method call panics. *)
Definition nil_Set (storage : option (gmap string WorkerNode)) (key : string) (v : WorkerNode)
  : outcome (option (gmap string WorkerNode)) :=
  m ← deref storage; Ok (Some (<[key := v]> m)).

Definition node_fits (rm : ResourceMap) (n : WorkerNode) : bool :=
  bool_decide (GetMemory rm <= wn_Memory n) && bool_decide (GetCPUCores rm <= wn_CpuCores n) &&
  wn_Schedulable n.

Fixpoint filter_loop (entries : list (string * WorkerNode)) (rm : ResourceMap)
    (result : option (gmap string WorkerNode)) : outcome (option (gmap string WorkerNode)) :=
  match entries with
  | [] => Ok result
  | (key, value) :: rest =>
      if node_fits rm value then
        result' ← nil_Set result key value; filter_loop rest rm result'
      else filter_loop rest rm result
  end.
Definition filterMachines (env : place_env) (m : gmap string WorkerNode) (rm : ResourceMap)
  : outcome (option (gmap string WorkerNode)) :=
  filter_loop (pe_ord env m) rm None.

Definition getInstalledResources (n : WorkerNode) : ResourceMap :=
  CreateResourceMap (wn_CpuCores n) (wn_Memory n).
Definition getRequestedResources (n : WorkerNode) (request : ResourceMap) : ResourceMap :=
  SumResources (CreateResourceMap (u64 (wn_CpuUsage n * wn_CpuCores n))
                                  (u64 (wn_MemoryUsage n * wn_Memory n))) request.

Fixpoint score_loop (alg : ResourceMap -> ResourceMap -> outcome Z) (request : ResourceMap)
    (entries : list (string * WorkerNode)) (scores : gmap string Z) : outcome (gmap string Z) :=
  match entries with
  | [] => Ok scores
  | (key, machine) :: rest =>
      sc ← alg (getInstalledResources machine) (getRequestedResources machine request);
      score_loop alg request rest (<[key := u64 (default 0 (scores !! key) + sc)]> scores)
  end.

(** [CreateScoringPipeline] then, for each algorithm, every machine. *)
Definition prioritizeNodes (oob : Z) (rord : range_order string Z) (env : place_env)
    (storage : option (gmap string WorkerNode)) (request : ResourceMap) : outcome (gmap string Z) :=
  m ← deref storage;
  s1 ← score_loop (ScoreFitLeastAllocated rord) request (pe_ord env m) ∅;
  score_loop (ScoreBalancedAllocation oob rord) request (pe_ord env m) s1.

(** Reservoir selection among the machines with the best score. *)
Fixpoint select_loop (rand : nat -> Z) (k : nat) (entries : list (string * WorkerNode))
    (scores : gmap string Z) (selected : option WorkerNode) (maxScore cntOfMaxScore : Z)
  : outcome (option WorkerNode) :=
  match entries with
  | [] => Ok selected
  | (key, element) :: rest =>
      let score := default 0 (scores !! key) in
      if decide (maxScore < score) then
        select_loop rand k rest scores (Some element) score 1
      else if decide (score = maxScore) then
        let cnt := u64 (cntOfMaxScore + 1) in
        d ← Intn (rand k) (i64 cnt);
        select_loop rand (S k) rest scores (if decide (d = 0) then Some element else selected)
          maxScore cnt
      else select_loop rand k rest scores selected maxScore cntOfMaxScore
  end.

Definition selectOneMachine (env : place_env) (storage : option (gmap string WorkerNode))
    (scores : gmap string Z) : outcome (option WorkerNode) :=
  m ← deref storage;
  if decide (size m = 0%nat) then Fatal
  else select_loop (pe_rand env) 0 (pe_ord env m) scores None 0 1.

Definition Kubernetes_Place (oob : Z) (rord : range_order string Z) (env : place_env)
    (requested : ResourceMap) : GoM (KubernetesPolicy * NodeStorage) (option WorkerNode) := fun s =>
  filtered ← filterMachines env (InternalMap s.2) s.1;
  scores ← prioritizeNodes oob rord env filtered requested;
  n ← selectOneMachine env filtered scores;
  Ok (n, s).

#[export] Instance Random_policy : PlacementPolicy Random := { Place := Random_Place }.
#[export] Instance RoundRobin_policy : PlacementPolicy RoundRobinPlacement :=
  { Place := RoundRobin_Place }.

(** [node] is the interface that was placed on; the read lock is held around
    the call and taken again by the emptiness test. *)
Definition on_storage {P A} (m : GoM NodeStorage A) : GoM (P * NodeStorage) A :=
  zoom snd (fun st s => (s.1, st)) m.

Definition ApplyPlacementPolicy {P} (place : GoM (P * NodeStorage) (option WorkerNode))
  : GoM (P * NodeStorage) (option WorkerNode) :=
  on_storage RLock ;;
  n ← on_storage AtomicLen;
  r ← (if decide (n = 0) then mret None else place);
  on_storage RUnlock ;;
  mret r.

(** ** What a policy promises *)

Definition placed_on (m : gmap string WorkerNode) (r : option WorkerNode) : Prop :=
  match r with
  | Some n => exists name, m !! name = Some n /\ wn_Schedulable n = true
  | None => forall name n, m !! name = Some n -> wn_Schedulable n = false
  end.

Class SoundPlacement (P : Type) `{PlacementPolicy P} : Prop :=
  sound_place : forall env req p st r s',
    valid_order (pe_ord env) ->
    Place env req (p, st) = Ok (r, s') -> s'.2 = st /\ placed_on (InternalMap st) r.

Lemma schedulable_nodes_elem ord m n :
  valid_order ord ->
  n ∈ schedulable_nodes ord m <-> wn_Schedulable n = true /\ exists name, m !! name = Some n.
Proof.
  intros Hord. unfold schedulable_nodes. rewrite getSchedulableNodes_filter, list_elem_of_filter.
  rewrite list_elem_of_fmap. split; intros [Hs Hm]; (split; [done|]).
  - destruct Hm as ([name n']&->&Hin). exists name. by apply (valid_order_elem ord m).
  - destruct Hm as [name Hm]. exists (name, n). by rewrite valid_order_elem.
Qed.

Lemma placed_on_none ord m :
  valid_order ord -> length (schedulable_nodes ord m) = 0%nat -> placed_on m None.
Proof.
  intros Hord Hl name n Hm. destruct (wn_Schedulable n) eqn:Hs; [|done].
  assert (Hin : n ∈ schedulable_nodes ord m) by (apply schedulable_nodes_elem; eauto).
  apply nil_length_inv in Hl. rewrite Hl in Hin. by apply not_elem_of_nil in Hin.
Qed.

Lemma placed_on_index ord m i n :
  valid_order ord -> go_index (schedulable_nodes ord m) i = Ok n -> placed_on m (Some n).
Proof.
  intros Hord. unfold go_index. case_decide; [|done].
  destruct (_ !! _) as [n'|] eqn:E; [|done]. intros [= ->].
  apply list_elem_of_lookup_2 in E. apply schedulable_nodes_elem in E as [Hs [name Hm]]; [|done].
  by exists name.
Qed.

#[export] Instance Random_sound : SoundPlacement Random.
Proof.
  intros env req p st r s' Hord. simpl. unfold Random_Place. cbn [snd fst].
  case_decide as Hl.
  - destruct (Intn _ _) as [i| | |]; cbn; try done.
    destruct (go_index _ _) as [n| | |] eqn:E; cbn; try done. intros [= <- <-].
    split; [done|]. by eapply placed_on_index.
  - intros [= <- <-]. split; [done|]. eapply placed_on_none; [done|]. lia.
Qed.

#[export] Instance RoundRobin_sound : SoundPlacement RoundRobinPlacement.
Proof.
  intros env req p st r s' Hord. simpl. unfold RoundRobin_Place. cbn [snd fst].
  case_decide as Hl.
  - intros [= <- <-]. split; [done|]. by eapply placed_on_none.
  - destruct (rr_cas_loop _ _ _) as [[i c]| | |]; cbn; try done.
    destruct (go_index _ _) as [n| | |] eqn:E; cbn; try done. intros [= <- <-].
    split; [done|]. by eapply placed_on_index.
Qed.

Section apply.
Context {P : Type} `{SoundPlacement P}.

Lemma ApplyPlacementPolicy_run env req (p : P) m :
  m ≠ ∅ ->
  ApplyPlacementPolicy (Place env req) (p, mkStructure m Unlocked) =
    match Place env req (p, mkStructure m (RLocked 0)) with
    | Ok (r, s') => (on_storage RUnlock ;; mret r) s'
    | Panic => Panic | Fatal => Fatal | Blocked => Blocked
    end.
Proof.
  intros Hm. unfold ApplyPlacementPolicy.
  erewrite gom_bind_run; [|reflexivity]. erewrite gom_bind_run; [|reflexivity].
  cbn [InternalMap]. rewrite decide_False; [done|].
  intros Hz. apply Hm, map_size_empty_inv. cbn in Hz. apply Nat2Z.inj. exact Hz.
Qed.

(** Placement through the lock: the node returned is registered and
    schedulable, [nil] means that no registered node is, and the table of
    nodes and its lock are left as they were. *)
Lemma ApplyPlacementPolicy_sound env req (p : P) m r s' :
  valid_order (pe_ord env) ->
  ApplyPlacementPolicy (Place env req) (p, mkStructure m Unlocked) = Ok (r, s') ->
  s'.2 = mkStructure m Unlocked /\ placed_on m r.
Proof.
  intros Hord. destruct (decide (m = ∅)) as [->|Hm].
  - intros Heq. assert (r = None) as -> by (by injection Heq). injection Heq as <-.
    split; [done|]. by intros name n ?.
  - rewrite ApplyPlacementPolicy_run by done.
    destruct (Place _ _ _) as [[r' s1]| | |] eqn:E; try done.
    apply sound_place in E as [Hst Hr]; [|done]. destruct s1 as [p1 st]. simpl in Hst. subst st.
    intros [= <- <-]. done.
Qed.
End apply.

(** A policy that always answers, whatever the draws and the orders. *)
Class TotalPlacement (P : Type) `{PlacementPolicy P} : Prop :=
  total_apply : forall env req (p : P) m,
    exists r p', ApplyPlacementPolicy (Place env req) (p, mkStructure m Unlocked) =
      Ok (r, (p', mkStructure m Unlocked)).

#[export] Instance Random_total : TotalPlacement Random.
Proof.
  intros env req [] m. destruct (decide (m = ∅)) as [->|Hm]; [by eexists _, _|].
  rewrite ApplyPlacementPolicy_run by done. simpl. unfold Random_Place. cbn [snd fst InternalMap].
  case_decide as Hl; [|by eexists _, _].
  destruct (Intn_total (pe_rand env 0) (Z.of_nat (length (schedulable_nodes (pe_ord env) m))))
    as (i&Hi&Hr); [lia|].
  rewrite Hi. cbn [mbind outcome_bind].
  apply go_index_range in Hr as [n Hn]. rewrite Hn. by eexists _, _.
Qed.

(** The random policy always answers: from a free lock it returns, places
    on a registered, schedulable node whenever one exists and returns nil
    exactly when none does, and releases the lock, for every random draw and
    every traversal order. *)
Theorem Random_placement_total env req m :
  valid_order (pe_ord env) ->
  exists r, ApplyPlacementPolicy (Random_Place env req) (tt, mkStructure m Unlocked) =
              Ok (r, (tt, mkStructure m Unlocked)) /\
    placed_on m r /\
    (r = None <-> forall name n, m !! name = Some n -> wn_Schedulable n = false).
Proof.
  intros Hord. destruct (Random_total env req tt m) as (r&[]&Hr). exists r. split; [done|].
  pose proof (ApplyPlacementPolicy_sound env req (tt : Random) m r _ Hord Hr) as [_ Hp].
  split; [done|]. split; [by intros ->|]. intros Hno. destruct r as [n|]; [|done].
  destruct Hp as (name&Hn&Hs). rewrite (Hno _ _ Hn) in Hs. done.
Qed.

Definition example_node (name : string) (b : bool) : WorkerNode :=
  SetSchedulability b (NewWorkerNode 0 (mkWorkerNodeConfiguration name "10.0.0.1" "10010" 8 64)).
Definition example_nodes (bs : list (string * bool)) : gmap string WorkerNode :=
  list_to_map ((fun nb => (nb.1, example_node nb.1 nb.2)) <$> bs).
Definition example_env : place_env := mkPlaceEnv map_to_list (fun _ => 0) 5.

Lemma Random_placement_total_witness :
  let m := example_nodes [("a", true); ("b", false)] in
  exists r, ApplyPlacementPolicy (Random_Place example_env ∅) (tt, mkStructure m Unlocked) =
              Ok (r, (tt, mkStructure m Unlocked)) /\
    placed_on m r /\
    (r = None <-> forall name n, m !! name = Some n -> wn_Schedulable n = false).
Proof. intros m. apply (Random_placement_total example_env ∅ m). apply map_to_list_valid. Defined.

(** ** Round robin *)

Lemma rr_cas_loop_in_range fuel n c :
  0 <= c < n -> n < 2 ^ 31 -> rr_cas_loop (S fuel) n c = Ok (c, (c + 1) mod n).
Proof.
  intros Hc Hn. simpl. rewrite Z.rem_small by lia. rewrite decide_True by done.
  rewrite i32_id by (unfold is_i32; lia). rewrite Z.rem_mod_nonneg by lia. done.
Qed.

Lemma rr_cas_loop_out_of_range fuel n c :
  0 < n <= c -> rr_cas_loop fuel n c = Blocked.
Proof.
  intros Hc. induction fuel as [|fuel IH]; [done|]. simpl.
  pose proof (Z.rem_bound_pos c n ltac:(lia) ltac:(lia)).
  by rewrite decide_False by lia.
Qed.

(** Consecutive placements, each with its own environment: the map of nodes is
    traversed afresh, in an order of its own, by every call. *)
Fixpoint place_each {P} (calls : list (GoM (P * NodeStorage) (option WorkerNode)))
  : GoM (P * NodeStorage) (list (option WorkerNode)) :=
  match calls with
  | [] => mret []
  | place :: calls' => r ← place; rs ← place_each calls'; mret (r :: rs)
  end.

Section round_robin.
Context (req : ResourceMap) (st : NodeStorage).
Abbreviation sched env := (schedulable_nodes (pe_ord env) (InternalMap st)).
Context (n : nat) (Hmax : Z.of_nat n < 2 ^ 31).

Lemma RoundRobin_Place_step env c :
  (0 < pe_fuel env)%nat -> length (sched env) = n -> (c < n)%nat ->
  exists node, sched env !! c = Some node /\
    RoundRobin_Place env req (Z.of_nat c, st) =
      Ok (Some node, (Z.of_nat ((c + 1) mod n)%nat, st)).
Proof.
  intros Hfuel Hn Hc. rewrite <- Hn in Hc. destruct (lookup_lt_is_Some_2 (sched env) c Hc) as [node Hnode].
  exists node. split; [done|]. unfold RoundRobin_Place. cbn [fst snd]. rewrite Hn in *.
  rewrite decide_False by lia. destruct (pe_fuel env) as [|fuel] eqn:Ef; [lia|].
  rewrite i32_id by (unfold is_i32; lia).
  rewrite rr_cas_loop_in_range by lia. cbn [mbind outcome_bind].
  rewrite (go_index_lookup _ _ _ Hnode). cbn. do 3 f_equal. rewrite Nat2Z.inj_mod. f_equal. lia.
Qed.

Lemma place_each_run envs : Forall (fun env => (0 < pe_fuel env)%nat /\ length (sched env) = n) envs ->
  forall c, (c < n)%nat ->
  exists rs, place_each ((fun env => RoundRobin_Place env req) <$> envs) (Z.of_nat c, st) =
      Ok (rs, (Z.of_nat ((c + length envs) mod n)%nat, st)) /\
    length rs = length envs /\
    forall j env, envs !! j = Some env -> rs !! j = Some (sched env !! ((c + j) mod n)%nat).
Proof.
  induction 1 as [|env envs [Hfuel Hn] _ IH]; intros c Hc.
  { exists []. split; [|split; [done|intros j ? Hj; by rewrite lookup_nil in Hj]]. simpl.
    rewrite Nat.add_0_r, Nat.mod_small by done. done. }
  destruct (RoundRobin_Place_step env c Hfuel Hn Hc) as (node&Hnode&Hrun).
  destruct (IH ((c + 1) mod n)%nat) as (rs&Hrs&Hlen&Hlook); [apply Nat.mod_upper_bound; lia|].
  exists (Some node :: rs). split_and!.
  - cbn [length]. replace ((c + S (length envs)) mod n)%nat with (((c + 1) mod n + length envs) mod n)%nat
      by (rewrite Nat.Div0.add_mod_idemp_l; f_equal; lia).
    simpl. go_run Hrun. by go_run Hrs.
  - simpl. by rewrite Hlen.
  - intros [|j] env' Hj; simpl in *.
    + injection Hj as <-. rewrite Nat.add_0_r, Nat.mod_small by done. by rewrite Hnode.
    + rewrite (Hlook j env') by done. do 2 f_equal. rewrite Nat.Div0.add_mod_idemp_l. f_equal. lia.
Qed.
End round_robin.

Lemma schedulable_nodes_length ord ord' m :
  valid_order ord -> valid_order ord' ->
  length (schedulable_nodes ord m) = length (schedulable_nodes ord' m).
Proof.
  intros H H'. unfold schedulable_nodes. rewrite !getSchedulableNodes_filter. apply Permutation_length.
  by rewrite (H m), (H' m).
Qed.

Lemma length_filter_fmap {A B} (f : A -> B) (Q : B -> bool) (l : list A) :
  length (filter (fun b => Q b = true) (f <$> l)) = length (filter (fun a => Q (f a) = true) l).
Proof. induction l as [|a l IH]; [done|]. rewrite fmap_cons, !filter_cons. case_decide; cbn; by rewrite IH. Qed.
Lemma list_filter_all {A} (Q : A -> bool) (l : list A) :
  (forall a, a ∈ l -> Q a = true) -> filter (fun a => Q a = true) l = l.
Proof.
  induction l as [|a l IH]; intros H; [done|]. rewrite filter_cons, decide_True by (apply H; by left).
  f_equal. apply IH. intros b Hb. apply H. by right.
Qed.
Lemma schedulable_nodes_size (m : gmap string WorkerNode) :
  length (schedulable_nodes map_to_list m) = size (filter (fun kv => wn_Schedulable kv.2 = true) m).
Proof.
  unfold schedulable_nodes. rewrite getSchedulableNodes_filter, length_filter_fmap.
  rewrite map_filter_alt, <- length_map_to_list, map_to_list_to_map; [done|].
  eapply sublist_NoDup; [apply (NoDup_fst_map_to_list m)|]. apply fmap_sublist, sublist_filter.
Qed.

(** C34: The round-robin policy takes the schedulable nodes by position.  With
    [n] schedulable nodes and the counter at [c < n], the [j]-th of any number
    of consecutive placements returns the node at position [(c + j) mod n] of
    the nodes as that call finds them, in the order in which it happens to
    traverse the map, which may differ from call to call; each call needs a
    single compare-and-swap, and the counter ends at [(c + calls) mod n]. *)
Theorem RoundRobin_positions envs req st c n :
  Forall (fun env => (0 < pe_fuel env)%nat /\ valid_order (pe_ord env)) envs ->
  n = size (filter (fun kv => wn_Schedulable kv.2 = true) (InternalMap st)) ->
  (c < n)%nat -> Z.of_nat n < 2 ^ 31 ->
  exists rs,
    place_each ((fun env => RoundRobin_Place env req) <$> envs) (Z.of_nat c, st) =
      Ok (rs, (Z.of_nat ((c + length envs) mod n)%nat, st)) /\
    length rs = length envs /\
    forall j env, envs !! j = Some env ->
      exists node, rs !! j = Some (Some node) /\
        schedulable_nodes (pe_ord env) (InternalMap st) !! ((c + j) mod n)%nat = Some node.
Proof.
  intros Henvs -> Hc Hmax. set (n := size _) in *.
  assert (Hlen : forall ord, valid_order ord -> length (schedulable_nodes ord (InternalMap st)) = n).
  { intros ord Hord. subst n. rewrite (schedulable_nodes_length ord map_to_list) by (done || apply map_to_list_valid).
    apply schedulable_nodes_size. }
  destruct (place_each_run req st n Hmax envs) with (c := c) as (rs&Hrun&Hl&Hlook); [|done|].
  { eapply list.Forall_impl; [exact Henvs|]. intros env [??]. auto. }
  exists rs. split_and!; [done..|]. intros j env Hj. rewrite (Hlook j env Hj).
  eapply list.Forall_lookup_1 in Henvs as [_ Hord]; [|exact Hj].
  destruct (lookup_lt_is_Some_2 (schedulable_nodes (pe_ord env) (InternalMap st)) ((c + j) mod n)%nat) as [node Hnode].
  { rewrite Hlen by done. apply Nat.mod_upper_bound. lia. }
  exists node. by rewrite Hnode.
Qed.

(** A traversal that starts [r] entries later. *)
Definition rotated (r : nat) (ord : range_order string WorkerNode) : range_order string WorkerNode :=
  fun m => drop r (ord m) ++ take r (ord m).
Lemma rotated_valid r ord : valid_order ord -> valid_order (rotated r ord).
Proof.
  intros H m. unfold rotated. rewrite Permutation_app_comm, take_drop. apply H.
Qed.

Lemma rotated_lookup ord m x rest p :
  ord m = x :: rest -> (p < length (ord m))%nat ->
  rotated ((length (ord m) - p) mod length (ord m)) ord m !! p = Some x.
Proof.
  intros E Hp. unfold rotated. destruct (decide (p = 0%nat)) as [->|Hne].
  - rewrite Nat.sub_0_r, Nat.Div0.mod_same. rewrite drop_0, take_0, app_nil_r. by rewrite E.
  - rewrite Nat.mod_small by lia. rewrite lookup_app_r by (rewrite length_drop; lia).
    rewrite length_drop. replace (p - (length (ord m) - (length (ord m) - p)))%nat with 0%nat by lia.
    rewrite lookup_take_lt by lia. by rewrite E.
Qed.

(** The rotation over the nodes is therefore not guaranteed: the position
    advances, but the order is the map's own at each call.  For any table whose
    nodes are all schedulable there are orders, one per call, with which any
    number of consecutive placements all return the same node. *)
Theorem RoundRobin_not_rotating (m : gmap string WorkerNode) req name node calls :
  (forall k nd, m !! k = Some nd -> wn_Schedulable nd = true) -> m !! name = Some node ->
  Z.of_nat (size m) < 2 ^ 31 ->
  exists envs c',
    Forall (fun env => valid_order (pe_ord env)) envs /\ length envs = calls /\
    place_each ((fun env => RoundRobin_Place env req) <$> envs)
        (NewRoundRobinPlacement, mkStructure m Unlocked) =
      Ok (replicate calls (Some node), (c', mkStructure m Unlocked)).
Proof.
  intros Hall Hnode Hmax.
  pose (ord0 := fun m' : gmap string WorkerNode =>
    if m' !! name is Some nd then (name, nd) :: map_to_list (delete name m') else map_to_list m').
  assert (Hord0 : valid_order ord0).
  { intros m'. unfold ord0. destruct (m' !! name) as [nd|] eqn:E; [|done]. by apply map_to_list_delete. }
  assert (Hn : length (ord0 m) = size m) by (by apply valid_order_length).
  assert (E0 : ord0 m = (name, node) :: map_to_list (delete name m)) by (unfold ord0; by rewrite Hnode).
  assert (Hpos : (0 < size m)%nat) by (rewrite <- Hn, E0; cbn; lia).
  assert (Hsched : forall ord, valid_order ord -> schedulable_nodes ord m = (ord m).*2).
  { intros ord Ho. unfold schedulable_nodes. rewrite getSchedulableNodes_filter.
    apply list_filter_all. intros nd ([k nd']&->&Hin)%list_elem_of_fmap.
    apply valid_order_elem in Hin; eauto. }
  pose (env_at j := mkPlaceEnv (rotated ((size m - j mod size m) mod size m) ord0) (fun _ => 0) 1).
  pose (envs := env_at <$> seq 0 calls).
  assert (Hv : Forall (fun env => valid_order (pe_ord env)) envs).
  { apply list.Forall_forall. intros env (j&->&_)%list_elem_of_fmap. by apply rotated_valid. }
  destruct (place_each_run req (mkStructure m Unlocked) (size m) Hmax envs) with (c := 0%nat)
    as (rs&Hrun&Hl&Hlook); [|done|].
  { apply list.Forall_forall. intros env Henv. eapply list.Forall_forall in Hv; [|exact Henv].
    apply list_elem_of_fmap in Henv as (j&->&_). split; [cbn; lia|]. cbn [InternalMap].
    rewrite Hsched, length_fmap by done. by apply valid_order_length. }
  eexists envs, _. split; [done|]. assert (Hle : length envs = calls) by (unfold envs; by rewrite length_fmap, length_seq).
  split; [done|]. etransitivity; [exact Hrun|]. do 2 f_equal.
  apply list_eq. intros j. destruct (decide (j < calls)%nat) as [Hj|Hj].
  - rewrite lookup_replicate_2 by done. rewrite (Hlook j (env_at j)).
    + f_equal. cbn [InternalMap pe_ord env_at]. rewrite Hsched by (by apply rotated_valid).
      rewrite list_lookup_fmap, Nat.add_0_l.
      pose proof (rotated_lookup ord0 m _ _ (j mod size m) E0) as Hr. rewrite Hn in Hr.
      rewrite Hr; [done|]. apply Nat.mod_upper_bound. lia.
    + unfold envs. rewrite list_lookup_fmap, lookup_seq_lt by done. done.
  - rewrite !lookup_ge_None_2; [done|rewrite length_replicate; lia|rewrite Hl, Hle; lia].
Qed.

Lemma RoundRobin_positions_witness :
  let st := mkStructure (example_nodes [("a", true); ("b", true); ("c", false)]) Unlocked in
  let envs := [example_env; mkPlaceEnv (rotated 1 map_to_list) (fun _ => 0) 1; example_env] in
  exists rs, place_each ((fun env => RoundRobin_Place env ∅) <$> envs) (1, st) = Ok (rs, (0, st)) /\
    length rs = 3%nat.
Proof.
  intros st envs. destruct (RoundRobin_positions envs ∅ st 1 2) as (rs&H&Hl&_).
  - repeat constructor; cbn; try lia; try apply map_to_list_valid. apply rotated_valid, map_to_list_valid.
  - vm_compute. reflexivity.
  - lia.
  - lia.
  - exists rs. split; [exact H|exact Hl].
Defined.

Lemma RoundRobin_not_rotating_witness :
  let m := example_nodes [("a", true); ("b", true); ("c", true)] in
  exists envs c',
    Forall (fun env => valid_order (pe_ord env)) envs /\ length envs = 3%nat /\
    place_each ((fun env => RoundRobin_Place env ∅) <$> envs)
        (NewRoundRobinPlacement, mkStructure m Unlocked) =
      Ok (replicate 3 (Some (example_node "b" true)), (c', mkStructure m Unlocked)).
Proof.
  intros m. apply (RoundRobin_not_rotating m ∅ "b").
  - intros k nd Hk. assert (Hm : map_Forall (fun _ nd => wn_Schedulable nd = true) m).
    { unfold m, example_nodes. cbn. repeat (apply map_Forall_insert_2; [reflexivity|]). apply map_Forall_empty. }
    exact (Hm k nd Hk).
  - reflexivity.
  - vm_compute. reflexivity.
Defined.

(** When the number of schedulable nodes has dropped to the counter or
    below, the round-robin policy never returns: its compare-and-swap expects
    the counter reduced modulo the number of nodes, which is not what is
    stored, so it fails for ever.  Two placements on three nodes followed by
    the loss of two of them reach this state. *)
Theorem RoundRobin_livelock env req st c :
  0 < Z.of_nat (length (schedulable_nodes (pe_ord env) (InternalMap st))) <= c -> is_i32 c ->
  RoundRobin_Place env req (c, st) = Blocked.
Proof.
  intros Hc Hb. unfold RoundRobin_Place. cbn [fst snd]. rewrite decide_False by lia.
  rewrite i32_id by (unfold is_i32 in *; lia). by rewrite rr_cas_loop_out_of_range.
Qed.

Lemma RoundRobin_livelock_witness :
  let full := mkStructure (example_nodes [("a", true); ("b", true); ("c", true)]) Unlocked in
  let lost := mkStructure (example_nodes [("a", true); ("b", false); ("c", false)]) Unlocked in
  exists rs c,
    place_each (replicate 2 (RoundRobin_Place example_env ∅)) (NewRoundRobinPlacement, full) =
      Ok (rs, (c, full)) /\ c = 2 /\
    forall fuel, RoundRobin_Place (mkPlaceEnv map_to_list (fun _ => 0) fuel) ∅ (c, lost) = Blocked.
Proof.
  intros full lost. eexists _, 2. split; [vm_compute; reflexivity|]. split; [reflexivity|].
  intros fuel. apply (RoundRobin_livelock (mkPlaceEnv map_to_list (fun _ => 0) fuel) ∅ lost 2).
  - vm_compute. split; [reflexivity|discriminate].
  - unfold is_i32; lia.
Defined.

(** ** The kubernetes policy *)

Lemma filter_loop_nil entries rm :
  filter_loop entries rm None = Panic \/ filter_loop entries rm None = Ok None.
Proof.
  induction entries as [|[key n] rest IH]; simpl; [by right|].
  destruct (node_fits rm n); [by left|done].
Qed.

(** The kubernetes policy panics on every request: the storage that is to
    hold the machines that fit is declared with an interface type and never
    assigned, so the first method called on it, in the filter or in the
    scoring, is a nil dereference. *)
Theorem Kubernetes_Place_panics oob rord env req s :
  Kubernetes_Place oob rord env req s = Panic.
Proof.
  unfold Kubernetes_Place, filterMachines.
  destruct (filter_loop_nil (pe_ord env (InternalMap s.2)) s.1) as [-> | ->]; done.
Qed.

Definition score_of (scores : gmap string Z) (key : string) : Z := default 0 (scores !! key).

(** The candidate is one of the machines seen with the best score, unless no
    machine seen scored above zero. *)
Lemma select_loop_max rand k entries scores selected maxScore cnt seen :
  1 <= cnt -> cnt + Z.of_nat (length entries) < 2 ^ 63 ->
  Forall (fun e => score_of scores e.1 <= maxScore) seen ->
  0 <= maxScore ->
  (maxScore = 0 \/ exists e, e ∈ seen /\ selected = Some e.2 /\ score_of scores e.1 = maxScore) ->
  exists r best, select_loop rand k entries scores selected maxScore cnt = Ok r /\
    Forall (fun e => score_of scores e.1 <= best) (seen ++ entries) /\ 0 <= best /\
    (best = 0 \/ exists e, e ∈ seen ++ entries /\ r = Some e.2 /\ score_of scores e.1 = best).
Proof.
  revert k selected maxScore cnt seen.
  induction entries as [|[key n] rest IH]; intros k selected maxScore cnt seen Hc Hlen Hseen H0 Hsel.
  { exists selected, maxScore. rewrite app_nil_r. done. }
  simpl length in Hlen. simpl.
  replace (seen ++ (key, n) :: rest) with ((seen ++ [(key, n)]) ++ rest) by (by rewrite <- app_assoc).
  fold (score_of scores key).
  assert (Hup : forall b, maxScore <= b -> score_of scores key <= b ->
    Forall (fun e => score_of scores e.1 <= b) (seen ++ [(key, n)])).
  { intros b Hb Hk. apply Forall_app. split; [|by constructor].
    eapply Forall_impl; [|exact Hseen]. simpl. lia. }
  assert (Hold : maxScore = 0 \/ exists e, e ∈ seen ++ [(key, n)] /\ selected = Some e.2 /\
            score_of scores e.1 = maxScore).
  { destruct Hsel as [?|(e&?&?&?)]; [by left|right]. exists e. split; [|done].
    apply elem_of_app. by left. }
  assert (Hin : (key, n) ∈ seen ++ [(key, n)]) by (apply elem_of_app; right; by left).
  destruct (decide (maxScore < score_of scores key)).
  - apply IH; [lia|lia|apply Hup; lia|lia|]. right. by exists (key, n).
  - destruct (decide (score_of scores key = maxScore)) as [Heq|].
    + rewrite u64_id, i64_id by (unfold is_i64, is_u64; lia).
      destruct (Intn_total (rand k) (cnt + 1)) as (d&Hd&_); [lia|]. rewrite Hd.
      cbn [mbind outcome_bind]. apply IH; [lia|lia|apply Hup; lia|lia|].
      case_decide; [|done]. right. by exists (key, n).
    + apply IH; [lia|lia|apply Hup; lia|lia|done].
Qed.

(** The selection step on a real table of machines always answers and
    picks a machine with the highest score whenever some machine scores above
    zero, whatever the traversal order and the random tie-breaking. *)
Theorem selectOneMachine_best env m scores key0 :
  valid_order (pe_ord env) -> Z.of_nat (size m) < 2 ^ 62 ->
  is_Some (m !! key0) -> 0 < score_of scores key0 ->
  exists key n, selectOneMachine env (Some m) scores = Ok (Some n) /\ m !! key = Some n /\
    forall key' n', m !! key' = Some n' -> score_of scores key' <= score_of scores key.
Proof.
  intros Hord Hsize [n0 Hn0] Hpos. unfold selectOneMachine. cbn [deref mbind outcome_bind].
  rewrite decide_False.
  2:{ intros ->%map_size_empty_iff. done. }
  destruct (select_loop_max (pe_rand env) 0 (pe_ord env m) scores None 0 1 [])
    as (r&best&Hr&Hbest&H0&Hcase); [lia| |done|done|by left|].
  { rewrite valid_order_length by done. lia. }
  simpl in *. rewrite list.Forall_forall in Hbest.
  assert (Hall : forall key' n', m !! key' = Some n' -> score_of scores key' <= best).
  { intros key' n' Hk. apply (Hbest (key', n')). by apply valid_order_elem. }
  destruct Hcase as [->|([key n]&Hin&->&Hk)].
  - specialize (Hall _ _ Hn0). lia.
  - exists key, n. split; [done|]. split; [by eapply valid_order_elem|].
    intros key' n' Hk'. simpl in Hk. rewrite Hk. by eapply Hall.
Qed.

Lemma selectOneMachine_best_witness :
  let m := example_nodes [("a", true); ("b", true)] in
  let scores : gmap string Z := {[ "a" := 40; "b" := 70 ]} in
  exists key n, selectOneMachine example_env (Some m) scores = Ok (Some n) /\ m !! key = Some n /\
    forall key' n', m !! key' = Some n' -> score_of scores key' <= score_of scores key.
Proof.
  intros m scores. apply (selectOneMachine_best example_env m scores "b").
  - apply map_to_list_valid.
  - vm_compute. reflexivity.
  - eexists. vm_compute. reflexivity.
  - vm_compute. reflexivity.
Defined.
