(* ===== verification/Persistence.v ===== *)
(** * The persistence layer

    [internal/control_plane/persistence]: the interface through which the
    control plane survives a crash, its implementation that stores nothing and
    its implementation on Redis, with [pkg/redis_helpers.ScanKeys].

    Redis itself and the two encoders (protobuf and JSON) are code of others:
    they are the classes [RedisClient] and [Codec], and what the layer relies
    on is stated by [RedisSpec] and [CodecSpec] from their documentation. *)
From Stdlib Require Import ZArith Lia Ascii.
From stdpp Require Import base tactics list gmap strings sets numbers.
From S2P Require Import Prelude Core.

Local Open Scope Z_scope.

(** ** The interface *)

Class PersistenceLayer (S : Type) : Type := {
  StoreDataPlaneInformation : DataplaneInformation -> GoM S go_error;
  DeleteDataPlaneInformation : DataplaneInformation -> GoM S go_error;
  GetDataPlaneInformation : GoM S (string + list DataplaneInformation);
  StoreWorkerNodeInformation : WorkerNodeInformation -> GoM S go_error;
  DeleteWorkerNodeInformation : string -> GoM S go_error;
  GetWorkerNodeInformation : GoM S (string + list WorkerNodeInformation);
  StoreServiceInformation : ServiceInfo -> GoM S go_error;
  DeleteServiceInformation : ServiceInfo -> GoM S go_error;
  GetServiceInformation : GoM S (string + list ServiceInfo);
  SetLeader : GoM S go_error;
  StoreEndpoint : Endpoint -> GoM S go_error;
}.

(** What the control plane expects to find again: a record per data plane,
    worker node and service, by its key. *)
Record stored : Type := mkStored {
  st_dataplanes : gmap string DataplaneInformation;
  st_workers : gmap string WorkerNodeInformation;
  st_services : gmap string ServiceInfo;
}.

Definition values_of {A} (m : gmap string A) (l : list A) : Prop :=
  forall x, x ∈ l <-> exists k, m !! k = Some x.

(** The contract: an operation that reports no error has taken effect, and
    reading returns exactly the stored records, in any order and possibly
    repeated. *)
Class PersistenceSpec (S : Type) `{PersistenceLayer S} (persisted : S -> stored -> Prop) : Prop := {
  ps_store_dp : forall i s st s',
    persisted s st -> StoreDataPlaneInformation i s = Ok (None, s') ->
    persisted s' (mkStored (<[dpi_Address i := i]> (st_dataplanes st)) (st_workers st) (st_services st));
  ps_delete_dp : forall i s st s',
    persisted s st -> DeleteDataPlaneInformation i s = Ok (None, s') ->
    persisted s' (mkStored (delete (dpi_Address i) (st_dataplanes st)) (st_workers st) (st_services st));
  ps_get_dp : forall s st l s',
    persisted s st -> GetDataPlaneInformation s = Ok (inr l, s') ->
    persisted s' st /\ values_of (st_dataplanes st) l;
  ps_store_worker : forall i s st s',
    persisted s st -> StoreWorkerNodeInformation i s = Ok (None, s') ->
    persisted s' (mkStored (st_dataplanes st) (<[wni_Name i := i]> (st_workers st)) (st_services st));
  ps_delete_worker : forall n s st s',
    persisted s st -> DeleteWorkerNodeInformation n s = Ok (None, s') ->
    persisted s' (mkStored (st_dataplanes st) (delete n (st_workers st)) (st_services st));
  ps_get_worker : forall s st l s',
    persisted s st -> GetWorkerNodeInformation s = Ok (inr l, s') ->
    persisted s' st /\ values_of (st_workers st) l;
  ps_store_service : forall i s st s',
    persisted s st -> StoreServiceInformation i s = Ok (None, s') ->
    persisted s' (mkStored (st_dataplanes st) (st_workers st) (<[si_Name i := i]> (st_services st)));
  ps_delete_service : forall i s st s',
    persisted s st -> DeleteServiceInformation i s = Ok (None, s') ->
    persisted s' (mkStored (st_dataplanes st) (st_workers st) (delete (si_Name i) (st_services st)));
  ps_get_service : forall s st l s',
    persisted s st -> GetServiceInformation s = Ok (inr l, s') ->
    persisted s' st /\ values_of (st_services st) l;
  ps_leader : forall s st e s', persisted s st -> SetLeader s = Ok (e, s') -> persisted s' st;
}.

(** ** Nothing is stored *)

Definition EmptyPersistence : Type := unit.

#[export] Instance EmptyPersistence_layer : PersistenceLayer EmptyPersistence := {
  StoreDataPlaneInformation _ := mret None;
  DeleteDataPlaneInformation _ := mret None;
  GetDataPlaneInformation := mret (inr []);
  StoreWorkerNodeInformation _ := mret None;
  DeleteWorkerNodeInformation _ := mret None;
  GetWorkerNodeInformation := mret (inr []);
  StoreServiceInformation _ := mret None;
  DeleteServiceInformation _ := mret None;
  GetServiceInformation := mret (inr []);
  SetLeader := mret None;
  StoreEndpoint _ := mret None;
}.

(** ** Redis *)

(** The commands of the client library the layer uses: a hash per key, the
    incremental [SCAN] (keys and next cursor), [WAIT] and [REPLICAOF]. *)
Class RedisClient (R : Type) : Type := {
  HSet : string -> string -> string -> GoM R go_error;
  Del : list string -> GoM R go_error;
  HGetAll : string -> GoM R (string + gmap string string);
  Scan : Z -> string -> Z -> GoM R (string + (list string * Z));
  Wait : Z -> GoM R go_error;
  SlaveOf : string -> string -> GoM R go_error;
  OtherClients : Z;
  (** [SlaveOf] issued to the other instances, in order. *)
  Others_SlaveOf : list (GoM R go_error);
}.

(** [proto2.Marshal] and [proto2.Unmarshal] at a message type; [None] is an
    error. *)
Class Codec (A : Type) : Type := {
  Marshal : A -> option string;
  Unmarshal : string -> option A;
}.
Class CodecSpec (A : Type) `{Codec A} : Prop :=
  codec_roundtrip : forall a d, Marshal a = Some d -> Unmarshal d = Some a.

Definition dataplanePrefix : string := "dataplane".
Definition workerPrefix : string := "worker".
Definition servicePrefix : string := "service".

(** A key is a prefix, a separator and the name of the record;
    [fmt.Sprintf("%s:%s", prefix, name)] for the control plane. *)
Definition record_key (sep prefix name : string) : string := (prefix +:+ sep +:+ name)%string.
Abbreviation redis_key := (record_key ":").

Section redis.
Context {R : Type} `{RedisClient R}.
Context `{Codec DataplaneInformation, Codec WorkerNodeInformation, Codec ServiceInfo}.
(** [json.Marshal] of an endpoint. *)
Context (json_Marshal : Endpoint -> option string).
(** A bound on the number of [SCAN] calls of one iteration. *)
Context (scan_fuel : nat).

Fixpoint scan_loop (fuel : nat) (cursor : Z) (pattern : string) (output : list string)
  : GoM R (list string) :=
  match fuel with
  | O => go_block
  | S fuel' =>
      r ← Scan cursor pattern 10;
      match r with
      | inl _ => go_panic
      | inr (keys, cursor') =>
          let output' := output ++ keys in
          if decide (cursor' = 0) then mret output' else scan_loop fuel' cursor' pattern output'
      end
  end.
Definition ScanKeys (prefix : string) : GoM R (list string) :=
  scan_loop scan_fuel 0 (prefix +:+ "*")%string [].

Definition WaitForQuorumWrite : GoM R go_error := Wait OtherClients.

(** [HSet] of the encoded record, then the wait for the replicas. *)
Definition store_record (key : string) (data : option string) : GoM R go_error :=
  match data with
  | None => mret (Some "marshal error"%string)
  | Some d =>
      err ← HSet key "data" d;
      match err with Some e => mret (Some e) | None => WaitForQuorumWrite end
  end.
Definition delete_record (keys : list string) : GoM R go_error :=
  err ← Del keys;
  match err with Some e => mret (Some e) | None => WaitForQuorumWrite end.
(** [fields["data"]] of a missing field is the empty string. *)
Fixpoint read_records {A} `{Codec A} (keys : list string) (acc : list A) : GoM R (string + list A) :=
  match keys with
  | [] => mret (inr acc)
  | key :: keys' =>
      r ← HGetAll key;
      match r with
      | inl e => mret (inl e)
      | inr fields =>
          match Unmarshal (default ""%string (fields !! "data"%string)) with
          | None => go_panic
          | Some a => read_records keys' (acc ++ [a])
          end
      end
  end.
Definition get_records {A} `{Codec A} (prefix : string) : GoM R (string + list A) :=
  keys ← ScanKeys prefix; read_records keys [].

Definition Redis_StoreDataPlaneInformation (i : DataplaneInformation) : GoM R go_error :=
  store_record (redis_key dataplanePrefix (dpi_Address i)) (Marshal i).
Definition Redis_DeleteDataPlaneInformation (i : DataplaneInformation) : GoM R go_error :=
  delete_record [redis_key dataplanePrefix (dpi_Address i)].
Definition Redis_GetDataPlaneInformation : GoM R (string + list DataplaneInformation) :=
  get_records dataplanePrefix.
Definition Redis_StoreWorkerNodeInformation (i : WorkerNodeInformation) : GoM R go_error :=
  store_record (redis_key workerPrefix (wni_Name i)) (Marshal i).
Definition Redis_DeleteWorkerNodeInformation (name : string) : GoM R go_error :=
  delete_record [redis_key workerPrefix name; "data"%string].
Definition Redis_GetWorkerNodeInformation : GoM R (string + list WorkerNodeInformation) :=
  get_records workerPrefix.
Definition Redis_StoreServiceInformation (i : ServiceInfo) : GoM R go_error :=
  store_record (redis_key servicePrefix (si_Name i)) (Marshal i).
Definition Redis_DeleteServiceInformation (i : ServiceInfo) : GoM R go_error :=
  delete_record [redis_key servicePrefix (si_Name i); "data"%string].
Definition Redis_GetServiceInformation : GoM R (string + list ServiceInfo) :=
  get_records servicePrefix.

(** The other instances follow; a failure to tell one of them is logged. *)
Definition Redis_SetLeader : GoM R go_error :=
  err ← SlaveOf "no" "one";
  match err with
  | Some e => mret (Some e)
  | None => go_for Others_SlaveOf (fun call => call ;; mret tt) ;; mret None
  end.

(** The key is in the name space of the worker nodes. *)
Definition Redis_StoreEndpoint (e : Endpoint) : GoM R go_error :=
  store_record (redis_key workerPrefix (SandboxID e)) (json_Marshal e).

Definition Redis_layer : PersistenceLayer R := {|
  StoreDataPlaneInformation := Redis_StoreDataPlaneInformation;
  DeleteDataPlaneInformation := Redis_DeleteDataPlaneInformation;
  GetDataPlaneInformation := Redis_GetDataPlaneInformation;
  StoreWorkerNodeInformation := Redis_StoreWorkerNodeInformation;
  DeleteWorkerNodeInformation := Redis_DeleteWorkerNodeInformation;
  GetWorkerNodeInformation := Redis_GetWorkerNodeInformation;
  StoreServiceInformation := Redis_StoreServiceInformation;
  DeleteServiceInformation := Redis_DeleteServiceInformation;
  GetServiceInformation := Redis_GetServiceInformation;
  SetLeader := Redis_SetLeader;
  StoreEndpoint := Redis_StoreEndpoint;
|}.
End redis.

(** ** What Redis and the encoder promise *)

(** The prefixes of the control plane and of the asynchronous proxy
    ([proxy/persistence/redis_persistence.go]). *)
Definition bufferedRequestPrefix : string := "req_".
Definition bufferedResponsePredix : string := "res_".
Definition prefixes : list string :=
  [dataplanePrefix; workerPrefix; servicePrefix; bufferedRequestPrefix; bufferedResponsePredix].

(** One iteration of [SCAN] as its documentation describes it: a first call
    with some cursor, each next call with the cursor the previous one
    returned, until a call returns the cursor 0.  [pages] are the replies. *)
Inductive scan_iteration {R : Type} `{RedisClient R} (pattern : string) (count : Z) :
  Z -> R -> list (list string) -> R -> Prop :=
| scan_last c keys r r' :
    Scan c pattern count r = Ok (inr (keys, 0), r') ->
    scan_iteration pattern count c r [keys] r'
| scan_next c c' keys pages r r1 r' :
    Scan c pattern count r = Ok (inr (keys, c'), r1) -> c' ≠ 0 ->
    scan_iteration pattern count c' r1 pages r' ->
    scan_iteration pattern count c r (keys :: pages) r'.

(** The documented behaviour of the commands: those that report no error have
    taken effect, those that report one have taken effect or not (commands are
    atomic, but the answer may be lost); [WAIT] and [REPLICAOF] leave the data of the master as it is;
    a reply of [SCAN] holds keys that match the pattern, and a full iteration,
    from the cursor 0 until the cursor 0 comes back, returns every key that
    matches, in some reply, in any order and possibly repeated. *)
Class RedisSpec (R : Type) `{RedisClient R} (content : R -> gmap string (gmap string string)) : Prop := {
  redis_hset : forall k f v r r', HSet k f v r = Ok (None, r') ->
    content r' = <[k := <[f := v]> (default ∅ (content r !! k))]> (content r);
  redis_hset_err : forall k f v e r r', HSet k f v r = Ok (Some e, r') ->
    content r' = content r \/
    content r' = <[k := <[f := v]> (default ∅ (content r !! k))]> (content r);
  redis_del : forall ks r r', Del ks r = Ok (None, r') ->
    content r' = foldl (fun c k => delete k c) (content r) ks;
  redis_del_err : forall ks e r r', Del ks r = Ok (Some e, r') ->
    content r' = content r \/ content r' = foldl (fun c k => delete k c) (content r) ks;
  redis_hgetall : forall k fs r r', HGetAll k r = Ok (inr fs, r') ->
    fs = default ∅ (content r !! k) /\ content r' = content r;
  redis_wait : forall n e r r', Wait n r = Ok (e, r') -> content r' = content r;
  redis_slaveof : forall a p e r r', SlaveOf a p r = Ok (e, r') -> content r' = content r;
  redis_others : forall call e r r', call ∈ Others_SlaveOf -> call r = Ok (e, r') ->
    content r' = content r;
  redis_scan_reply : forall p c n keys c' r r', p ∈ prefixes ->
    Scan c (p +:+ "*")%string n r = Ok (inr (keys, c'), r') ->
    content r' = content r /\
    (forall k, k ∈ keys -> is_Some (content r !! k) /\ String.prefix p k = true);
  redis_scan_full : forall p n r pages r', p ∈ prefixes ->
    scan_iteration (p +:+ "*")%string n 0 r pages r' ->
    forall k, is_Some (content r !! k) -> String.prefix p k = true -> exists keys, keys ∈ pages /\ k ∈ keys;
}.

(** The database answers the reads of the layer in the states that hold these
    data: [HGETALL] reports no error, and an iteration of [SCAN] comes back to
    the cursor 0 without an error, within [fuel] calls. *)
Class RedisReads (R : Type) `{RedisClient R} (content : R -> gmap string (gmap string string))
    (fuel : nat) (data : gmap string (gmap string string)) : Prop := {
  reads_hgetall : forall k r, content r = data -> exists fs r', HGetAll k r = Ok (inr fs, r');
  reads_scan : forall p r, p ∈ prefixes -> content r = data ->
    exists pages r', scan_iteration (p +:+ "*")%string 10 0 r pages r' /\ (length pages <= fuel)%nat;
}.

(** ** Keys *)

Lemma prefix_app (p s : string) : String.prefix p (p +:+ s) = true.
Proof.
  induction p as [|c p IH]; [by destruct s|]. simpl. destruct (Ascii.ascii_dec c c); done.
Qed.
Lemma record_key_prefix sep p n : String.prefix p (record_key sep p n) = true.
Proof. apply prefix_app. Qed.
#[global] Instance record_key_inj sep p : Inj (=) (=) (record_key sep p).
Proof. intros a b. unfold record_key. by intros ?%string_app_inj_l%string_app_inj_l. Qed.
Lemma record_key_other sep p q n :
  p ∈ prefixes -> q ∈ prefixes -> p ≠ q -> String.prefix p (record_key sep q n) = false.
Proof.
  unfold prefixes. rewrite !elem_of_cons, !elem_of_nil. intros Hp Hq ?.
  destruct_or!; subst; done.
Qed.
Lemma data_not_record p : p ∈ prefixes -> String.prefix p "data" = false.
Proof. unfold prefixes. rewrite !elem_of_cons, !elem_of_nil. intros Hp. by destruct_or!; subst. Qed.

(** ** The records of one kind *)

Section holds.
Context {A : Type} `{Codec A} (sep : string).
Implicit Types (c : gmap string (gmap string string)) (m : gmap string A).

(** The keys with this prefix are those of [m], and each decodes to its
    record. *)
Definition holds (p : string) c m : Prop :=
  (forall n a, m !! n = Some a -> exists f d, c !! record_key sep p n = Some f /\
     f !! "data"%string = Some d /\ Unmarshal d = Some a) /\
  (forall k, is_Some (c !! k) -> String.prefix p k = true ->
     exists n, k = record_key sep p n /\ is_Some (m !! n)).

Lemma holds_insert `{!CodecSpec A} p c m n a d f :
  holds p c m -> Marshal a = Some d ->
  holds p (<[record_key sep p n := <["data"%string := d]> f]> c) (<[n := a]> m).
Proof.
  intros [H1 H2] Hd. split.
  - intros n' a'. rewrite lookup_insert. case_decide; subst.
    + intros [= <-]. eexists _, d. rewrite lookup_insert_eq. split; [done|].
      rewrite lookup_insert_eq. split; [done|]. by apply codec_roundtrip.
    + intros Hl. rewrite lookup_insert_ne; [by apply H1|]. by intros ?%(inj _).
  - intros k. rewrite lookup_insert. case_decide as Hk.
    + intros _ _. exists n. split; [done|]. by rewrite lookup_insert_eq.
    + intros Hs Hp. destruct (H2 k Hs Hp) as (n'&->&Hn'). exists n'. split; [done|].
      rewrite lookup_insert_ne; [done|]. by intros ->.
Qed.

Lemma holds_insert_other p c m k f :
  holds p c m -> String.prefix p k = false -> holds p (<[k := f]> c) m.
Proof.
  intros [H1 H2] Hk. split.
  - intros n a Hn. destruct (H1 n a Hn) as (f'&d&Hc&Hrest). exists f', d. split; [|done].
    rewrite lookup_insert_ne; [done|]. intros ->. by rewrite record_key_prefix in Hk.
  - intros k' Hs Hp. rewrite lookup_insert_ne in Hs; [by apply H2|]. intros ->. congruence.
Qed.

Lemma holds_delete p c m n : holds p c m -> holds p (delete (record_key sep p n) c) (delete n m).
Proof.
  intros [H1 H2]. split.
  - intros n' a Hn. apply lookup_delete_Some in Hn as [Hne Hn].
    rewrite lookup_delete_ne; [by apply H1|]. by intros ?%(inj _).
  - intros k [f Hs] Hp. apply lookup_delete_Some in Hs as [Hne Hs].
    destruct (H2 k) as (n'&->&Hn'); [eauto|done|]. exists n'. split; [done|].
    rewrite lookup_delete_ne; [done|]. by intros ->.
Qed.

Lemma holds_delete_other p c m k :
  holds p c m -> String.prefix p k = false -> holds p (delete k c) m.
Proof.
  intros [H1 H2] Hk. split.
  - intros n a Hn. destruct (H1 n a Hn) as (f'&d&Hc&Hrest). exists f', d. split; [|done].
    rewrite lookup_delete_ne; [done|]. intros ->. by rewrite record_key_prefix in Hk.
  - intros k' [f Hs] Hp. apply lookup_delete_Some in Hs as [_ Hs]. apply H2; eauto.
Qed.

Lemma holds_decode p c m k :
  holds p c m -> is_Some (c !! k) -> String.prefix p k = true ->
  exists n a, k = record_key sep p n /\ m !! n = Some a /\
    Unmarshal (default ""%string (default ∅ (c !! k) !! "data"%string)) = Some a.
Proof.
  intros [H1 H2] Hs Hp. destruct (H2 k Hs Hp) as (n&->&[a Ha]).
  destruct (H1 n a Ha) as (f&d&Hf&Hd&Hu). exists n, a. split; [done|]. split; [done|].
  by rewrite Hf; simpl; rewrite Hd.
Qed.
End holds.

Section redis_correct.
Context {R : Type} `{RC : RedisClient R} {content : R -> gmap string (gmap string string)}
  `{RS : !RedisSpec R content}.
Context `{CD : Codec DataplaneInformation, CDS : !CodecSpec DataplaneInformation,
          CW : Codec WorkerNodeInformation, CWS : !CodecSpec WorkerNodeInformation,
          CS : Codec ServiceInfo, CSS : !CodecSpec ServiceInfo}.
Context (json_Marshal : Endpoint -> option string) (scan_fuel : nat).

(** The loop of [ScanKeys] is one iteration of [SCAN], whose replies it
    concatenates. *)
Lemma scan_loop_iteration fuel pattern : forall c out (r r' : R) l,
  scan_loop fuel c pattern out r = Ok (l, r') ->
  exists pages, scan_iteration pattern 10 c r pages r' /\ l = out ++ concat pages.
Proof.
  induction fuel as [|fuel IH]; intros c out r r' l; cbn [scan_loop]; [done|]. intros H.
  apply gom_bind_ok in H as (o&r1&Hs&H). destruct o as [e|[keys c']]; [done|].
  case_decide as Hc.
  - subst. injection H as <- <-. exists [keys]. split; [by constructor|]. cbn. by rewrite app_nil_r.
  - apply IH in H as (pages&Hp&->). exists (keys :: pages). split; [by econstructor|].
    cbn. by rewrite <- app_assoc.
Qed.
(** With fuel for its calls, a complete iteration is what the loop runs. *)
Lemma iteration_scan_loop pattern c (r r' : R) pages :
  scan_iteration pattern 10 c r pages r' -> forall fuel out, (length pages <= fuel)%nat ->
  scan_loop fuel c pattern out r = Ok (out ++ concat pages, r').
Proof.
  induction 1 as [c keys r r' Hs|c c' keys pages r r1 r' Hs Hc _ IH]; intros [|fuel] out Hf;
    cbn in Hf; try lia; cbn [scan_loop]; go_run Hs; cbv beta iota.
  - rewrite decide_True by done. cbn. by rewrite app_nil_r.
  - rewrite decide_False by done. rewrite IH by lia. cbn. by rewrite <- app_assoc.
Qed.

Lemma scan_iteration_reply p n c (r r' : R) pages :
  p ∈ prefixes -> scan_iteration (p +:+ "*")%string n c r pages r' ->
  content r' = content r /\
  (forall keys k, keys ∈ pages -> k ∈ keys -> is_Some (content r !! k) /\ String.prefix p k = true).
Proof.
  intros Hp. induction 1 as [c keys r r' Hs|c c' keys pages r r1 r' Hs Hc _ [IHc IH]].
  - apply redis_scan_reply in Hs as [Hc Hk]; [|done]. split; [done|].
    intros ks k ->%list_elem_of_singleton. apply Hk.
  - apply redis_scan_reply in Hs as [Hc1 Hk]; [|done]. split; [congruence|].
    intros ks k [->|Hin]%elem_of_cons; [apply Hk|]. rewrite <- Hc1. by apply IH.
Qed.

(** [ScanKeys] returns the keys with its prefix, all of them and no other. *)
Lemma ScanKeys_content p (r r' : R) l :
  p ∈ prefixes -> ScanKeys scan_fuel p r = Ok (l, r') ->
  content r' = content r /\
  (forall k, k ∈ l <-> is_Some (content r !! k) /\ String.prefix p k = true).
Proof.
  intros Hp H. apply scan_loop_iteration in H as (pages&Hi&->).
  destruct (scan_iteration_reply _ _ _ _ _ _ Hp Hi) as [Hc Hr]. split; [done|]. intros k.
  cbn. rewrite list_elem_of_In, in_concat. setoid_rewrite <- list_elem_of_In. split.
  - intros (keys&Hk&Hin). by eapply Hr.
  - intros [Hs Hpre]. by eapply redis_scan_full.
Qed.

Lemma store_record_content k data (r r' : R) :
  store_record k data r = Ok (None, r') ->
  exists d, data = Some d /\
    content r' = <[k := <["data"%string := d]> (default ∅ (content r !! k))]> (content r).
Proof.
  destruct data as [d|]; [|done]. unfold store_record. intros Hs. exists d. split; [done|].
  apply gom_bind_ok in Hs as (e&r1&H1&H2). destruct e; [done|].
  apply redis_hset in H1. apply redis_wait in H2. congruence.
Qed.

Lemma delete_record_content ks (r r' : R) :
  delete_record ks r = Ok (None, r') ->
  content r' = foldl (fun c k => delete k c) (content r) ks.
Proof.
  unfold delete_record. intros Hs. apply gom_bind_ok in Hs as (e&r1&H1&H2).
  destruct e; [done|]. apply redis_del in H1. apply redis_wait in H2. congruence.
Qed.

Lemma read_records_content {A} `{Codec A} sep p m ks acc (r r' : R) l :
  holds sep p (content r) m ->
  (forall k, k ∈ ks -> is_Some (content r !! k) /\ String.prefix p k = true) ->
  read_records ks acc r = Ok (inr l, r') ->
  content r' = content r /\
  exists l', l = acc ++ l' /\ forall x : A, x ∈ l' <-> exists n, record_key sep p n ∈ ks /\ m !! n = Some x.
Proof.
  intros Hh. revert r acc Hh. induction ks as [|k ks IH]; intros r acc Hh Hks; cbn [read_records].
  { intros [= <- <-]. split; [done|]. exists []. rewrite app_nil_r. split; [done|].
    intros x. split; [by intros ?%elem_of_nil|]. intros (n&Hn&_). by apply elem_of_nil in Hn. }
  intros Hr. apply gom_bind_ok in Hr as (o&r1&Hg&Hr). destruct o as [e|fs]; [done|].
  apply redis_hgetall in Hg as [-> Hc].
  destruct (Hks k) as [Hs Hp]; [by left|].
  destruct (holds_decode sep p (content r) m k Hh Hs Hp) as (n&a&->&Hn&Hu). rewrite Hu in Hr.
  apply IH in Hr as (Hc'&l'&->&Hl'); [| by rewrite Hc | ].
  - split; [congruence|]. exists (a :: l'). rewrite <- app_assoc. split; [done|]. intros x.
    rewrite elem_of_cons, Hl'. split.
    + intros [->|(n'&Hn'&Hx)]; [exists n|exists n']; rewrite elem_of_cons; auto.
    + intros (n'&Hn'&Hx). apply elem_of_cons in Hn' as [->%(inj _)|Hn'];
        [left; congruence|right; eauto].
  - intros k' Hk'. rewrite Hc. apply Hks. by right.
Qed.

Lemma get_records_content {A} `{Codec A} sep p (m : gmap string A) (r r' : R) l :
  p ∈ prefixes -> holds sep p (content r) m ->
  get_records scan_fuel p r = Ok (inr l, r') ->
  content r' = content r /\ values_of m l.
Proof.
  intros Hpre Hh Hr. unfold get_records in Hr. apply gom_bind_ok in Hr as (ks&r1&H1&H2).
  apply ScanKeys_content in H1 as [Hc Hks]; [|done].
  apply (read_records_content sep p m) in H2 as (Hc'&l'&->&Hl').
  - split; [congruence|]. intros x. simpl. rewrite Hl'. split; [intros (n&_&Hn); eauto|].
    intros (n&Hn). exists n. split; [|done]. apply Hks. split; [|apply record_key_prefix].
    destruct Hh as [Hh _]. destruct (Hh n x Hn) as (f&d&Hf&_). eauto.
  - by rewrite Hc.
  - intros k Hk%Hks. by rewrite Hc.
Qed.

(** A read returns when the database answers: enough calls are allowed for
    the scan, and every record found decodes. *)
Lemma get_records_returns {A} `{Codec A} sep p (m : gmap string A) (r : R) :
  RedisReads R content scan_fuel (content r) -> p ∈ prefixes -> holds sep p (content r) m ->
  exists l r', get_records scan_fuel p r = Ok (inr l, r').
Proof.
  intros RR Hp Hh. destruct (reads_scan p r Hp eq_refl) as (pages&r1&Hi&Hlen).
  assert (Hs : ScanKeys scan_fuel p r = Ok (concat pages, r1)) by (by eapply (iteration_scan_loop _ _ _ _ _ Hi)).
  unfold get_records. go_run Hs.
  destruct (ScanKeys_content _ _ _ _ Hp Hs) as [Hc Hks].
  assert (Hall : forall k, k ∈ concat pages -> is_Some (content r !! k) /\ String.prefix p k = true)
    by (intros k; apply Hks).
  clear Hi Hs Hks Hlen. revert r1 Hc. generalize (@nil A). revert Hall. generalize (concat pages) as ks.
  induction ks as [|k ks IH]; intros Hall acc r1 Hc; [by eexists _, _|].
  cbn [read_records]. destruct (reads_hgetall k r1 Hc) as (fs&r2&Hg). go_run Hg. cbv beta iota.
  apply redis_hgetall in Hg as [-> Hc2]. destruct (Hall k) as [Hs Hpre]; [by left|].
  destruct (holds_decode sep p (content r) m k Hh Hs Hpre) as (n&a&_&_&Hu).
  rewrite Hc, Hu. apply IH; [|congruence]. intros k' Hk'. apply Hall. by right.
Qed.

(** What an instance of Redis holds. *)
Definition redis_persisted (r : R) (st : stored) : Prop :=
  holds ":" dataplanePrefix (content r) (st_dataplanes st) /\
  holds ":" workerPrefix (content r) (st_workers st) /\
  holds ":" servicePrefix (content r) (st_services st).

Lemma redis_persisted_content r r' st :
  content r' = content r -> redis_persisted r st -> redis_persisted r' st.
Proof. unfold redis_persisted. by intros ->. Qed.

(** The three name spaces do not overlap: a write in one of them leaves the
    others as they are. *)
Lemma holds_write_other {A} `{Codec A} sep p q n f c (m : gmap string A) :
  p ∈ prefixes -> q ∈ prefixes -> p ≠ q -> holds sep p c m -> holds sep p (<[record_key sep q n := f]> c) m.
Proof. intros. apply holds_insert_other; [done|]. by apply record_key_other. Qed.
Lemma holds_erase_other {A} `{Codec A} sep p q n c (m : gmap string A) :
  p ∈ prefixes -> q ∈ prefixes -> p ≠ q -> holds sep p c m -> holds sep p (delete (record_key sep q n) c) m.
Proof. intros. apply holds_delete_other; [done|]. by apply record_key_other. Qed.

Lemma Others_content calls (r r' : R) u :
  calls ⊆ Others_SlaveOf ->
  go_for calls (fun call => call ;; mret tt) r = Ok (u, r') -> content r' = content r.
Proof.
  intros Hsub Hr. eapply (go_for_inv (fun x => content x = content r)); [|done|exact Hr].
  intros call r1 u1 r2 Hin Heq Hb. apply gom_bind_ok in Hb as (e&r3&Hc&Hret).
  injection Hret as <- <-. rewrite <- Heq. eapply redis_others; [|exact Hc]. by apply Hsub.
Qed.

Lemma Redis_spec :
  @PersistenceSpec R (Redis_layer json_Marshal scan_fuel) redis_persisted.
Proof.
  assert (Hd : dataplanePrefix ∈ prefixes) by (by left).
  assert (Hw : workerPrefix ∈ prefixes) by (by right; left).
  assert (Hs : servicePrefix ∈ prefixes) by (by right; right; left).
  split; cbn; unfold redis_persisted; intros; destruct_and?.
  - destruct (store_record_content _ _ _ _ H0) as (d&Hm&->).
    split_and!; [by apply holds_insert|by apply holds_write_other..].
  - rewrite (delete_record_content _ _ _ H0). simpl.
    split_and!; [by apply holds_delete|by apply holds_erase_other..].
  - destruct (get_records_content _ _ _ _ _ _ Hd H1 H0) as [-> ?]. done.
  - destruct (store_record_content _ _ _ _ H0) as (d&Hm&->).
    split_and!; [by apply holds_write_other|by apply holds_insert|by apply holds_write_other].
  - rewrite (delete_record_content _ _ _ H0). simpl.
    split_and!; (apply holds_delete_other; [|by apply data_not_record]);
      [by apply holds_erase_other|by apply holds_delete|by apply holds_erase_other].
  - destruct (get_records_content _ _ _ _ _ _ Hw H H0) as [-> ?]. done.
  - destruct (store_record_content _ _ _ _ H0) as (d&Hm&->).
    split_and!; [by apply holds_write_other..|by apply holds_insert].
  - rewrite (delete_record_content _ _ _ H0). simpl.
    split_and!; (apply holds_delete_other; [|by apply data_not_record]);
      [by apply holds_erase_other..|by apply holds_delete].
  - destruct (get_records_content _ _ _ _ _ _ Hs H3 H0) as [-> ?]. done.
  - unfold Redis_SetLeader in H0. apply gom_bind_ok in H0 as (e1&r1&Hc1&Hrest).
    apply redis_slaveof in Hc1. destruct e1.
    { injection Hrest as <- <-. by rewrite Hc1. }
    apply gom_bind_ok in Hrest as (u&r2&Hf&Hret). injection Hret as <- <-.
    apply Others_content in Hf; [|done]. by rewrite Hf, Hc1.
Qed.
End redis_correct.

(** ** A concrete store and encoder

    Used only to show that the hypotheses above can be met: Redis as one map
    whose [SCAN] takes two calls, each with one half of the keys, and an encoder that writes a countable
    type as a string of bits. *)
Module Example.
Definition Map : Type := gmap string (gmap string string).

Definition matches (pattern k : string) : bool :=
  (* [pattern] is a prefix followed by one star *)
  String.prefix (String.substring 0 (String.length pattern - 1) pattern) k.

Definition matching (pattern : string) (r : Map) : list string :=
  filter (fun k => matches pattern k = true) (map_to_list r).*1.
Definition half (pattern : string) (r : Map) : nat := Nat.div2 (length (matching pattern r)).

#[export] Instance Map_client : RedisClient Map := {
  HSet k f v := fun r => Ok (None, <[k := <[f := v]> (default ∅ (r !! k))]> r);
  Del ks := fun r => Ok (None, foldl (fun c k => delete k c) r ks);
  HGetAll k := fun r => Ok (inr (default ∅ (r !! k)), r);
  Scan cursor pattern _ := fun r =>
    if decide (cursor = 0) then Ok (inr (take (half pattern r) (matching pattern r), 1), r)
    else Ok (inr (drop (half pattern r) (matching pattern r), 0), r);
  Wait _ := mret None;
  SlaveOf _ _ := mret None;
  OtherClients := 0;
  Others_SlaveOf := [];
}.

Lemma matching_spec p k (r : Map) :
  p ∈ prefixes -> k ∈ matching (p +:+ "*") r <-> is_Some (r !! k) /\ String.prefix p k = true.
Proof.
  intros Hpre. unfold matching. rewrite list_elem_of_filter, list_elem_of_fmap.
  assert (Hm : matches (p +:+ "*") k = String.prefix p k).
  { revert Hpre. unfold prefixes. rewrite !elem_of_cons, elem_of_nil. intros Hp. by destruct_or!; subst. }
  rewrite Hm. split.
  - intros [Hp ([k' v]&->&Hin)]. apply elem_of_map_to_list in Hin. eauto.
  - intros [[v Hv] Hp]. split; [done|]. exists (k, v). split; [done|]. by apply elem_of_map_to_list.
Qed.
Lemma halves {A} n (l : list A) k : k ∈ l <-> k ∈ take n l \/ k ∈ drop n l.
Proof. by rewrite <- elem_of_app, take_drop. Qed.
Lemma Map_iteration pattern n (r : Map) :
  scan_iteration pattern n 0 r
    [take (half pattern r) (matching pattern r); drop (half pattern r) (matching pattern r)] r.
Proof. eapply scan_next with (c' := 1); [reflexivity|done|]. by apply scan_last. Qed.
Lemma Map_iteration_inv pattern n (r r' : Map) pages :
  scan_iteration pattern n 0 r pages r' ->
  pages = [take (half pattern r) (matching pattern r); drop (half pattern r) (matching pattern r)].
Proof.
  inversion 1 as [? ? ? ? Hs|? ? ? ? ? ? ? Hs ? Hi]; subst; [discriminate Hs|].
  injection Hs as <- <- <-. inversion Hi as [? ? ? ? Hs'|? ? ? ? ? ? ? Hs' ? Hi']; subst.
  - by injection Hs' as <- <-.
  - by injection Hs' as <- <- <-.
Qed.

#[export] Instance Map_spec : RedisSpec Map (fun r => r).
Proof.
  split; cbn; unfold mret, gom_ret; intros; simplify_eq; try done.
  - by apply elem_of_nil in H.
  - case_decide; simplify_eq; (split; [done|]); intros k Hk; apply matching_spec; try done;
      eapply halves; eauto.
  - apply Map_iteration_inv in H0 as ->.
    assert (Hk : k ∈ matching (p +:+ "*") r) by (by apply matching_spec).
    apply (halves (half (p +:+ "*") r)) in Hk as [Hk|Hk];
      eexists; (split; [|exact Hk]); rewrite !elem_of_cons; auto.
Qed.
#[export] Instance Map_reads r : RedisReads Map (fun r => r) 2 r.
Proof.
  split; [intros k r1 _; eexists _, _; reflexivity|].
  intros p r1 _ _. eexists _, _. split; [apply Map_iteration|]. cbn. lia.
Qed.

Fixpoint bits (p : positive) : string :=
  match p with
  | xH => ""
  | xO p' => String "0"%char (bits p')
  | xI p' => String "1"%char (bits p')
  end.
Fixpoint unbits (s : string) : option positive :=
  match s with
  | EmptyString => Some xH
  | String c s' =>
      p ← unbits s';
      if decide (c = "0"%char) then Some (xO p)
      else if decide (c = "1"%char) then Some (xI p) else None
  end.
Lemma unbits_bits p : unbits (bits p) = Some p.
Proof. induction p as [p IH|p IH|]; simpl; [by rewrite IH..|done]. Qed.

Definition count_codec (A : Type) `{Countable A} : Codec A := {|
  Marshal a := Some (bits (encode a));
  Unmarshal d := p ← unbits d; decode p;
|}.
Lemma count_codec_spec (A : Type) `{Countable A} : @CodecSpec A (count_codec A).
Proof.
  intros a d. cbn. intros [= <-]. rewrite unbits_bits. simpl. apply decode_encode.
Qed.

#[global] Instance spec_float_eq_dec : EqDecision SpecFloat.spec_float.
Proof. solve_decision. Defined.
#[global] Instance spec_float_countable : Countable SpecFloat.spec_float.
Proof.
  refine (inj_countable'
    (fun f => match f with
              | SpecFloat.S754_zero b => inl (inl b)
              | SpecFloat.S754_infinity b => inl (inr b)
              | SpecFloat.S754_nan => inr None
              | SpecFloat.S754_finite b p z => inr (Some (b, p, z)) end)
    (fun x => match x with
              | inl (inl b) => SpecFloat.S754_zero b
              | inl (inr b) => SpecFloat.S754_infinity b
              | inr None => SpecFloat.S754_nan
              | inr (Some (b, p, z)) => SpecFloat.S754_finite b p z end) _).
  by intros [].
Defined.
#[global] Instance DataplaneInformation_eq_dec : EqDecision DataplaneInformation.
Proof. solve_decision. Defined.
#[global] Instance DataplaneInformation_countable : Countable DataplaneInformation.
Proof.
  refine (inj_countable' (fun i => (dpi_Address i, dpi_ApiPort i, dpi_ProxyPort i))
    (fun '(a, p, q) => mkDataplaneInformation a p q) _). by intros [].
Defined.
#[global] Instance WorkerNodeInformation_eq_dec : EqDecision WorkerNodeInformation.
Proof. solve_decision. Defined.
#[global] Instance WorkerNodeInformation_countable : Countable WorkerNodeInformation.
Proof.
  refine (inj_countable'
    (fun i => (wni_Name i, wni_Ip i, wni_Port i, wni_CpuCores i, wni_Memory i))
    (fun '(a, b, c, d, e) => mkWorkerNodeInformation a b c d e) _). by intros [].
Defined.
#[global] Instance L4Protocol_eq_dec : EqDecision L4Protocol.
Proof. solve_decision. Defined.
#[global] Instance L4Protocol_countable : Countable L4Protocol.
Proof.
  refine (inj_countable' (fun p => match p with TCP => true | UDP => false end)
    (fun b : bool => if b then TCP else UDP) _). by intros [].
Defined.
#[global] Instance AutoscalingConfiguration_eq_dec : EqDecision Autoscaling.AutoscalingConfiguration.
Proof. solve_decision. Defined.
#[global] Instance AutoscalingConfiguration_countable :
  Countable Autoscaling.AutoscalingConfiguration.
Proof.
  refine (inj_countable'
    (fun c => (Autoscaling.ScalingUpperBound c, Autoscaling.ScalingLowerBound c,
               Autoscaling.PanicThresholdPercentage c, Autoscaling.MaxScaleUpRate c,
               Autoscaling.MaxScaleDownRate c, Autoscaling.ContainerConcurrency c,
               Autoscaling.ContainerConcurrencyTargetPercentage c,
               Autoscaling.StableWindowWidthSeconds c, Autoscaling.PanicWindowWidthSeconds c,
               Autoscaling.ScalingPeriodSeconds c, Autoscaling.ScalingMethod c))
    (fun '(a, b, c, d, e, f, g, h, i, j, k) =>
       Autoscaling.mkAutoscalingConfiguration a b c d e f g h i j k) _). by intros [].
Defined.
#[global] Instance PortMapping_eq_dec : EqDecision PortMapping.
Proof. solve_decision. Defined.
#[global] Instance PortMapping_countable : Countable PortMapping.
Proof.
  refine (inj_countable' (fun p => (pm_HostPort p, pm_GuestPort p, pm_Protocol p))
    (fun '(a, b, c) => mkPortMapping a b c) _). by intros [].
Defined.
#[global] Instance ServiceInfo_eq_dec : EqDecision ServiceInfo.
Proof. solve_decision. Defined.
#[global] Instance ServiceInfo_countable : Countable ServiceInfo.
Proof.
  refine (inj_countable'
    (fun s => (si_Name s, si_Image s, si_RequestedCpu s, si_RequestedMemory s,
               si_PortForwarding s, si_AutoscalingConfig s))
    (fun '(a, b, c, d, e, f) => mkServiceInfo a b c d e f) _). by intros [].
Defined.

#[export] Instance dp_codec : Codec DataplaneInformation := count_codec _.
#[export] Instance dp_codec_spec : CodecSpec DataplaneInformation := count_codec_spec _.
#[export] Instance wn_codec : Codec WorkerNodeInformation := count_codec _.
#[export] Instance wn_codec_spec : CodecSpec WorkerNodeInformation := count_codec_spec _.
#[export] Instance si_codec : Codec ServiceInfo := count_codec _.
#[export] Instance si_codec_spec : CodecSpec ServiceInfo := count_codec_spec _.

(** [json.Marshal] writes an object, which is no string of bits. *)
Definition json (e : Endpoint) : option string :=
  Some ("{SandboxID:" +:+ SandboxID e +:+ "}")%string.

#[export] Instance Map_layer : PersistenceLayer Map := Redis_layer json 2.
#[export] Instance Map_persistence :
  @PersistenceSpec Map Map_layer (redis_persisted (content := fun r => r)) :=
  Redis_spec json 2.
End Example.

(** ** Histories *)

Inductive p_op : Type :=
| PStoreDataplane (i : DataplaneInformation)
| PDeleteDataplane (i : DataplaneInformation)
| PStoreWorker (i : WorkerNodeInformation)
| PDeleteWorker (name : string)
| PStoreService (i : ServiceInfo)
| PDeleteService (i : ServiceInfo).

(** The effect of an operation on the abstract records. *)
Definition p_apply (st : stored) (o : p_op) : stored :=
  match o with
  | PStoreDataplane i =>
      mkStored (<[dpi_Address i := i]> (st_dataplanes st)) (st_workers st) (st_services st)
  | PDeleteDataplane i =>
      mkStored (delete (dpi_Address i) (st_dataplanes st)) (st_workers st) (st_services st)
  | PStoreWorker i =>
      mkStored (st_dataplanes st) (<[wni_Name i := i]> (st_workers st)) (st_services st)
  | PDeleteWorker n =>
      mkStored (st_dataplanes st) (delete n (st_workers st)) (st_services st)
  | PStoreService i =>
      mkStored (st_dataplanes st) (st_workers st) (<[si_Name i := i]> (st_services st))
  | PDeleteService i =>
      mkStored (st_dataplanes st) (st_workers st) (delete (si_Name i) (st_services st))
  end.

Definition no_records : stored := mkStored ∅ ∅ ∅.

Section histories.
Context {S : Type} `{PL : PersistenceLayer S}.

Definition p_run (o : p_op) : GoM S go_error :=
  match o with
  | PStoreDataplane i => StoreDataPlaneInformation i
  | PDeleteDataplane i => DeleteDataPlaneInformation i
  | PStoreWorker i => StoreWorkerNodeInformation i
  | PDeleteWorker n => DeleteWorkerNodeInformation n
  | PStoreService i => StoreServiceInformation i
  | PDeleteService i => DeleteServiceInformation i
  end.

(** A history in which no operation reported an error. *)
Fixpoint p_history (ops : list p_op) (s s' : S) : Prop :=
  match ops with
  | [] => s' = s
  | o :: ops' => exists s1, p_run o s = Ok (None, s1) /\ p_history ops' s1 s'
  end.

Context {persisted : S -> stored -> Prop} `{PS : !PersistenceSpec S persisted}.

Lemma p_run_persisted o s st s' :
  persisted s st -> p_run o s = Ok (None, s') -> persisted s' (p_apply st o).
Proof.
  destruct o; simpl; intros Hp Hr;
    [eapply ps_store_dp|eapply ps_delete_dp|eapply ps_store_worker|eapply ps_delete_worker
    |eapply ps_store_service|eapply ps_delete_service]; eauto.
Qed.

Lemma p_history_persisted ops s st s' :
  persisted s st -> p_history ops s s' -> persisted s' (foldl p_apply st ops).
Proof.
  revert s st. induction ops as [|o ops IH]; intros s st Hp; simpl; [by intros ->|].
  intros (s1&H1&H2). eapply IH; [|exact H2]. eapply p_run_persisted; eauto.
Qed.
End histories.

Section redis_theorems.
Context {R : Type} `{RC : RedisClient R} {content : R -> gmap string (gmap string string)}.
Context `{CD : Codec DataplaneInformation, CW : Codec WorkerNodeInformation, CS : Codec ServiceInfo}.
Context (json_Marshal : Endpoint -> option string) (scan_fuel : nat).

(** C7: What the control plane stored in Redis is what it reads back.  After
    any history of stores and deletions that reported no error, starting
    from an empty database, whatever [GetDataPlaneInformation],
    [GetWorkerNodeInformation] and [GetServiceInformation] return is exactly
    the records the history leaves, each decoded to the value that was stored,
    however [SCAN] splits the keys into replies, orders and repeats them; and
    the three do return when the database answers their commands without
    error and the scan is allowed as many calls as its iteration takes. *)
Theorem Redis_history_roundtrip ops (r r' : R) :
  RedisSpec R content -> CodecSpec DataplaneInformation -> CodecSpec WorkerNodeInformation ->
  CodecSpec ServiceInfo -> content r = ∅ ->
  p_history (PL := Redis_layer json_Marshal scan_fuel) ops r r' ->
  let st := foldl p_apply no_records ops in
  (forall l r'', Redis_GetDataPlaneInformation scan_fuel r' = Ok (inr l, r'') ->
     values_of (st_dataplanes st) l) /\
  (forall l r'', Redis_GetWorkerNodeInformation scan_fuel r' = Ok (inr l, r'') ->
     values_of (st_workers st) l) /\
  (forall l r'', Redis_GetServiceInformation scan_fuel r' = Ok (inr l, r'') ->
     values_of (st_services st) l) /\
  (RedisReads R content scan_fuel (content r') ->
     (exists l r'', Redis_GetDataPlaneInformation scan_fuel r' = Ok (inr l, r'')) /\
     (exists l r'', Redis_GetWorkerNodeInformation scan_fuel r' = Ok (inr l, r'')) /\
     (exists l r'', Redis_GetServiceInformation scan_fuel r' = Ok (inr l, r''))).
Proof.
  intros RS CDS CWS CSS Hempty Hh st.
  assert (Hp0 : redis_persisted (content := content) r no_records).
  { unfold redis_persisted. rewrite Hempty. split_and!; (split; [done|intros k [? ?]; done]). }
  eapply (p_history_persisted (PS := Redis_spec json_Marshal scan_fuel)) in Hh; [|exact Hp0].
  destruct Hh as (H1&H2&H3).
  assert (Hd : dataplanePrefix ∈ prefixes) by (by left).
  assert (Hw : workerPrefix ∈ prefixes) by (by right; left).
  assert (Hs : servicePrefix ∈ prefixes) by (by right; right; left).
  split_and!; try (intros l r'' Hl; eapply get_records_content in Hl as [_ Hl]; [exact Hl|done|eassumption]).
  intros RR. split_and!; by eapply (get_records_returns scan_fuel ":").
Qed.

(** Endpoints are stored under the key prefix of the worker nodes.  Once
    one endpoint has been stored, and its JSON text is not the encoding of a
    worker node, reading the worker nodes never succeeds: a control plane
    that persists endpoints cannot be reconstructed from its database. *)
Theorem StoreEndpoint_breaks_recovery e d (r r' : R) :
  RedisSpec R content -> json_Marshal e = Some d -> Unmarshal (A := WorkerNodeInformation) d = None ->
  Redis_StoreEndpoint json_Marshal e r = Ok (None, r') ->
  forall l r'', Redis_GetWorkerNodeInformation scan_fuel r' ≠ Ok (inr l, r'').
Proof.
  intros RS Hj Hu Hs l r'' Hg.
  apply store_record_content in Hs as (d'&Hd'&Hc). rewrite Hj in Hd'. injection Hd' as <-.
  unfold Redis_GetWorkerNodeInformation, get_records in Hg.
  apply gom_bind_ok in Hg as (ks&r1&Hk&Hr). apply (ScanKeys_content scan_fuel) in Hk as [Hc1 Hks]; [|by right; left].
  assert (Hin : redis_key workerPrefix (SandboxID e) ∈ ks).
  { apply Hks. split; [|apply record_key_prefix]. rewrite Hc, lookup_insert_eq. eauto. }
  assert (Hbad : default ""%string (default ∅ (content r1 !! redis_key workerPrefix (SandboxID e))
                   !! "data"%string) = d).
  { by rewrite Hc1, Hc, lookup_insert_eq; simpl; rewrite lookup_insert_eq. }
  clear Hks Hc1 Hc. revert Hr. generalize (@nil WorkerNodeInformation). revert r1 Hbad.
  induction ks as [|k ks IH]; intros r1 Hbad acc; [by apply elem_of_nil in Hin|].
  cbn [read_records]. intros Hr. apply gom_bind_ok in Hr as (o&r2&Hg&Hr).
  destruct o as [err|fs]; [discriminate Hr|]. apply redis_hgetall in Hg as [-> Hc2].
  apply elem_of_cons in Hin as [<-|Hin].
  - rewrite Hbad, Hu in Hr. discriminate Hr.
  - match type of Hr with context [Unmarshal ?x] => destruct (Unmarshal x) as [a|] end;
      [|discriminate Hr].
    eapply IH; [exact Hin| |exact Hr]. by rewrite Hc2.
Qed.
End redis_theorems.

Import Example.

Definition example_worker : WorkerNodeInformation := mkWorkerNodeInformation "w1" "10.0.0.1" "10010" 8 16000.

Lemma Redis_history_roundtrip_witness :
  let w2 := mkWorkerNodeInformation "w2" "10.0.0.2" "10010" 8 16000 in
  let ops := [PStoreWorker example_worker; PStoreWorker w2; PDeleteWorker "w0";
              PStoreDataplane (mkDataplaneInformation "10.0.0.9" "8081" "8080")] in
  exists r' : Example.Map,
    p_history (PL := Example.Map_layer) ops (∅ : Example.Map) r' /\
    exists l r'', Redis_GetWorkerNodeInformation 2 r' = Ok (inr l, r'') /\
      values_of (st_workers (foldl p_apply no_records ops)) l.
Proof.
  intros w2 ops.
  assert (Hh : exists r', p_history (PL := Example.Map_layer) ops (∅ : Example.Map) r').
  { eexists. do 4 (eexists; split; [reflexivity|]). reflexivity. }
  destruct Hh as [r' Hh]. exists r'. split; [exact Hh|].
  destruct (Redis_history_roundtrip (content := fun r => r) Example.json 2 ops (∅ : Example.Map) r'
      Example.Map_spec Example.dp_codec_spec Example.wn_codec_spec Example.si_codec_spec eq_refl Hh)
    as (_&Hw&_&Hret).
  destruct (Hret (Example.Map_reads r')) as (_&(l&r''&Hl)&_).
  exists l, r''. split; [exact Hl|]. exact (Hw l r'' Hl).
Defined.

Lemma StoreEndpoint_breaks_recovery_witness :
  let e := mkEndpoint 0 "sb1" "10.0.0.1:1000" (Some "w1"%string) 1000 in
  exists r' : Example.Map,
    Redis_StoreEndpoint Example.json e (∅ : Example.Map) = Ok (None, r') /\
    forall l r'', Redis_GetWorkerNodeInformation 2 r' ≠ Ok (inr l, r'').
Proof.
  intros e. eexists. split; [reflexivity|].
  eapply (StoreEndpoint_breaks_recovery Example.json 2 e);
    [apply Example.Map_spec|reflexivity|reflexivity|reflexivity].
Defined.
