(* ===== verification/ScalingLoop.v ===== *)
(** * The state of the control plane and its scaling loop

    [internal/control_plane/scaling_loop.go] and [failure.go]: what the
    control plane keeps, the loop that brings the number of sandboxes of a
    service to the scale the autoscaler asks for, and the removal of failed
    sandboxes.

    A [*ServiceInfoStorage] is an address of [ss_heap]: the scaling loop of a
    service keeps its pointer after the service left [SIStorage].  Remote
    calls are recorded in [cp_rpcs] in the order in which they are made; what
    they answer, the clock, the random draws and the orders of map traversals
    are the arguments of [cp_env].  A goroutine spawned by an operation is a
    list of atomic steps ([doUpscaling]) or a task the state holds until it
    runs ([cp_tasks]). *)
From Stdlib Require Import ZArith Lia.
From stdpp Require Import base tactics list gmap strings sets numbers pretty.
From S2P Require Import Prelude Sync Autoscaling Controller Core Placement Persistence.

Local Open Scope Z_scope.

(** ** State *)

Record ServiceInfoStorage : Type := mkServiceInfoStorage {
  ss_ServiceInfo : ServiceInfo;
  ss_Controller : PFStateController;
  ss_EndpointLock : rw_state;              (* [Controller.EndpointLock] *)
  ss_Endpoints : list Endpoint;            (* [Controller.Endpoints] *)
  ss_StartTime : Z;
}.

Inductive rpc : Type :=
| RpcAddDeployment (dp : string) (service : string)
| RpcDeleteDeployment (dp : string) (service : string)
| RpcUpdateEndpointList (dp : string) (service : string) (endpoints : list EndpointInfo)
| RpcDrainSandbox (dp : string) (service : string) (endpoints : list EndpointInfo)
| RpcCreateSandbox (node : string) (service : string)
| RpcDeleteSandbox (node : string) (ID : string) (HostPort : Z)
| RpcListEndpoints (node : string).

#[global] Instance rpc_eq_dec : EqDecision rpc.
Proof. solve_decision. Defined.

(** [config.ControlPlaneConfig], the fields the control plane reads. *)
Record ControlPlaneConfig : Type := mkControlPlaneConfig {
  cfg_Reconstruct : bool;
  cfg_PrecreateSnapshots : bool;
  cfg_EndpointPersistence : bool;
  cfg_RegistrationServer : string;
  cfg_RegistrationServerReplicas : list string;
  cfg_PlacementPolicy : string;
}.

Record ControlPlane (S P : Type) : Type := mkControlPlane {
  DataPlaneConnections : Structure string DataPlaneConnectionInfo;
  NIStorage : Structure string WorkerNode;
  SIStorage : Structure string nat;
  ss_heap : list ServiceInfoStorage;
  cp_PlacementPolicy : P;
  cp_PersistenceLayer : S;
  cp_rpcs : list rpc;
  cp_endpoints : nat;                      (* endpoints allocated so far *)
  cp_tasks : list (nat * gset Endpoint);   (* sandboxes to drain and delete *)
  cp_loops : list nat;                     (* scaling loops started *)
}.
Arguments mkControlPlane {S P} _ _ _ _ _ _ _ _ _ _.
Arguments DataPlaneConnections {S P} _.
Arguments NIStorage {S P} _.
Arguments SIStorage {S P} _.
Arguments ss_heap {S P} _.
Arguments cp_PlacementPolicy {S P} _.
Arguments cp_PersistenceLayer {S P} _.
Arguments cp_rpcs {S P} _.
Arguments cp_endpoints {S P} _.
Arguments cp_tasks {S P} _.
Arguments cp_loops {S P} _.

(** What the environment decides. *)
Record cp_env : Type := mkCpEnv {
  e_now : Z;
  e_dp_ord : range_order string DataPlaneConnectionInfo;
  e_ni_ord : range_order string WorkerNode;
  e_si_ord : range_order string nat;
  e_em_ord : range_order Endpoint string;
  e_evict_ord : gset Endpoint -> list Endpoint;
  e_place : nat -> place_env;             (* of the [i]-th goroutine *)
  e_rand : nat -> Z;                      (* draws of the eviction policy *)
  e_err : nat -> go_error;                (* error of the [n]-th call *)
  e_created : nat -> SandboxCreationStatus;
  e_listed : nat -> list proto_Endpoint;
  e_dial : string -> go_error;            (* error of a dial *)
}.

Section operations.
Context {S P : Type} `{PL : PersistenceLayer S} `{PP : PlacementPolicy P}.
Context (cfg : ControlPlaneConfig) (env : cp_env).

Abbreviation CP := (ControlPlane S P).
Abbreviation M := (GoM CP).

(** ** Access to the parts of the state *)

Definition on_dp {A} (m : GoM (Structure string DataPlaneConnectionInfo) A) : M A :=
  zoom DataPlaneConnections (fun x c => mkControlPlane x (NIStorage c) (SIStorage c) (ss_heap c)
    (cp_PlacementPolicy c) (cp_PersistenceLayer c) (cp_rpcs c) (cp_endpoints c) (cp_tasks c)
    (cp_loops c)) m.
Definition on_ni {A} (m : GoM (Structure string WorkerNode) A) : M A :=
  zoom NIStorage (fun x c => mkControlPlane (DataPlaneConnections c) x (SIStorage c) (ss_heap c)
    (cp_PlacementPolicy c) (cp_PersistenceLayer c) (cp_rpcs c) (cp_endpoints c) (cp_tasks c)
    (cp_loops c)) m.
Definition on_si {A} (m : GoM (Structure string nat) A) : M A :=
  zoom SIStorage (fun x c => mkControlPlane (DataPlaneConnections c) (NIStorage c) x (ss_heap c)
    (cp_PlacementPolicy c) (cp_PersistenceLayer c) (cp_rpcs c) (cp_endpoints c) (cp_tasks c)
    (cp_loops c)) m.
Definition on_persistence {A} (m : GoM S A) : M A :=
  zoom cp_PersistenceLayer (fun x c => mkControlPlane (DataPlaneConnections c) (NIStorage c)
    (SIStorage c) (ss_heap c) (cp_PlacementPolicy c) x (cp_rpcs c) (cp_endpoints c) (cp_tasks c)
    (cp_loops c)) m.
Definition on_placement {A} (m : GoM (P * NodeStorage) A) : M A :=
  zoom (fun c => (cp_PlacementPolicy c, NIStorage c)) (fun x c => mkControlPlane
    (DataPlaneConnections c) x.2 (SIStorage c) (ss_heap c) x.1 (cp_PersistenceLayer c)
    (cp_rpcs c) (cp_endpoints c) (cp_tasks c) (cp_loops c)) m.
Definition with_heap (h : list ServiceInfoStorage) (c : CP) : CP :=
  mkControlPlane (DataPlaneConnections c) (NIStorage c) (SIStorage c) h
    (cp_PlacementPolicy c) (cp_PersistenceLayer c) (cp_rpcs c) (cp_endpoints c) (cp_tasks c)
    (cp_loops c).
Definition with_rpc (r : rpc) (c : CP) : CP :=
  mkControlPlane (DataPlaneConnections c) (NIStorage c) (SIStorage c) (ss_heap c)
    (cp_PlacementPolicy c) (cp_PersistenceLayer c) (cp_rpcs c ++ [r]) (cp_endpoints c)
    (cp_tasks c) (cp_loops c).
Definition with_new_endpoint (c : CP) : CP :=
  mkControlPlane (DataPlaneConnections c) (NIStorage c) (SIStorage c) (ss_heap c)
    (cp_PlacementPolicy c) (cp_PersistenceLayer c) (cp_rpcs c) (cp_endpoints c + 1)%nat
    (cp_tasks c) (cp_loops c).
Definition with_tasks (l : list (nat * gset Endpoint)) (c : CP) : CP :=
  mkControlPlane (DataPlaneConnections c) (NIStorage c) (SIStorage c) (ss_heap c)
    (cp_PlacementPolicy c) (cp_PersistenceLayer c) (cp_rpcs c) (cp_endpoints c) l (cp_loops c).

(** The object behind a [*ServiceInfoStorage]. *)
Definition ss_deref (a : nat) : M ServiceInfoStorage :=
  fun c => match ss_heap c !! a with Some ss => Ok (ss, c) | None => Panic end.
Definition ss_modify (a : nat) (f : ServiceInfoStorage -> ServiceInfoStorage) : M unit :=
  ss ← ss_deref a; go_modify (fun c => with_heap (<[a := f ss]> (ss_heap c)) c).

Definition set_endpoints (l : list Endpoint) (ss : ServiceInfoStorage) : ServiceInfoStorage :=
  mkServiceInfoStorage (ss_ServiceInfo ss) (ss_Controller ss) (ss_EndpointLock ss) l (ss_StartTime ss).
Definition set_lock (l : rw_state) (ss : ServiceInfoStorage) : ServiceInfoStorage :=
  mkServiceInfoStorage (ss_ServiceInfo ss) (ss_Controller ss) l (ss_Endpoints ss) (ss_StartTime ss).
Definition set_controller (k : PFStateController) (ss : ServiceInfoStorage) : ServiceInfoStorage :=
  mkServiceInfoStorage (ss_ServiceInfo ss) k (ss_EndpointLock ss) (ss_Endpoints ss) (ss_StartTime ss).
Definition with_metadata (f : AutoscalingMetadata -> AutoscalingMetadata) (ss : ServiceInfoStorage)
  : ServiceInfoStorage :=
  let k := ss_Controller ss in
  set_controller (mkPFStateController (AutoscalingRunning k) (StopCh k) (stop_chans k)
    (DesiredStateClosed k) (desired_sent k) (f (ScalingMetadata k)) (Period k) (threads k)) ss.
Definition ss_scale (ss : ServiceInfoStorage) : Z := ActualScale (ScalingMetadata (ss_Controller ss)).
(** [atomic.AddInt64(&ActualScale, n)] *)
Definition add_scale (n : Z) (ss : ServiceInfoStorage) : ServiceInfoStorage :=
  with_metadata (set_ActualScale (i64 (ss_scale ss + n))) ss.

(** [EndpointLock], a [sync.Mutex]. *)
Definition EndpointLock_Lock (a : nat) : M unit :=
  ss ← ss_deref a;
  match ss_EndpointLock ss with
  | Unlocked => ss_modify a (set_lock WLocked)
  | _ => go_block
  end.
Definition EndpointLock_Unlock (a : nat) : M unit :=
  ss ← ss_deref a;
  match ss_EndpointLock ss with
  | WLocked => ss_modify a (set_lock Unlocked)
  | _ => go_fatal
  end.

(** ** Remote calls *)

(** A call on an interface that was never connected is a nil dereference. *)
Definition call (connected : bool) (r : rpc) : M go_error :=
  if connected
  then fun c => Ok (e_err env (length (cp_rpcs c)), with_rpc r c)
  else go_panic.
Definition dp_call (dp : DataPlaneConnectionInfo) (r : rpc) : M go_error := call (dp_connected dp) r.
Definition wn_call (wn : WorkerNode) (r : rpc) : M go_error := call (wn_connected wn) r.
Definition CreateSandbox (wn : WorkerNode) (service : ServiceInfo)
  : M (go_error * SandboxCreationStatus) :=
  n ← go_gets (fun c => length (cp_rpcs c));
  err ← wn_call wn (RpcCreateSandbox (wn_Name wn) (si_Name service));
  mret (err, e_created env n).

(** ** Endpoints of a service *)

Definition GetAllURLs (ss : ServiceInfoStorage) : list string :=
  foldl (fun res e => res ++ [URL e]) [] (ss_Endpoints ss).

Definition prepareEndpointInfo (endpoints : list Endpoint) : list EndpointInfo :=
  foldl (fun res e => res ++ [mkEndpointInfo (SandboxID e) (URL e)]) [] endpoints.
Definition prepareCurrentEndpointInfoList (ss : ServiceInfoStorage) : list EndpointInfo :=
  foldl (fun res e => res ++ [mkEndpointInfo (SandboxID e) (URL e)]) [] (ss_Endpoints ss).

Definition excludeEndpoints (a : nat) (toExclude : gset Endpoint) : M unit :=
  ss_modify a (fun ss => set_endpoints
    (foldl (fun result e => if decide (e ∈ toExclude) then result else result ++ [e])
       [] (ss_Endpoints ss)) ss).

Definition isDownScalingDisabled (ss : ServiceInfoStorage) : bool :=
  bool_decide (e_now env - ss_StartTime ss <
    StableWindowWidthSeconds (AutoscalingConfig (ScalingMetadata (ss_Controller ss))) * Second).

(** One call per data plane; an error is logged. *)
Definition singlethreadUpdateEndpoints (a : nat) (endpoints : list EndpointInfo) : M unit :=
  ss ← ss_deref a;
  m ← on_dp GetMap;
  go_for (e_dp_ord env m) (fun kv =>
    dp_call kv.2 (RpcUpdateEndpointList kv.1 (si_Name (ss_ServiceInfo ss)) endpoints) ;; mret tt).
Definition updateEndpoints (a : nat) (endpoints : list EndpointInfo) : M unit :=
  on_dp Lock ;; singlethreadUpdateEndpoints a endpoints ;; on_dp Unlock.

(** [GetNoCheck(name)] of a missing node is a nil interface. *)
Definition removeEndpointFromWNStruct (e : Endpoint) : M unit :=
  match Node e with
  | None => mret tt
  | Some name =>
      m ← on_ni GetMap;
      wn ← go_lift (deref (m !! name));
      em ← go_lift (Lock (wn_endpointMap wn));
      em' ← go_lift (Remove e em.2);
      em'' ← go_lift (Unlock em'.2);
      on_ni (Set_ name (SetEndpointMap em''.2 wn))
  end.

(** ** Scaling up *)

(** Where a goroutine of [doUpscaling] is: before the placement, before the
    creation on the chosen node, before and after it read the list of
    endpoints it appends to. *)
Inductive up_pc : Type :=
| UpPlace
| UpCreate (node : WorkerNode)
| UpAppend (e : Endpoint)
| UpStore (e : Endpoint) (read : list Endpoint)
| UpDone.

Definition up_place (i a : nat) : M up_pc :=
  ss ← ss_deref a;
  let requested := CreateResourceMap (si_RequestedCpu (ss_ServiceInfo ss))
                     (si_RequestedMemory (ss_ServiceInfo ss)) in
  node ← on_placement (ApplyPlacementPolicy (Place (e_place env i) requested));
  match node with
  | None => ss_modify a (add_scale (-1)) ;; mret UpDone
  | Some n => mret (UpCreate n)
  end.

Definition up_create (a : nat) (node : WorkerNode) : M up_pc :=
  ss ← ss_deref a;
  r ← CreateSandbox node (ss_ServiceInfo ss);
  let '(err, resp) := (r : go_error * SandboxCreationStatus) in
  if decide (err ≠ None \/ scs_Success resp = false)
  then ss_modify a (add_scale (-1)) ;; mret UpDone
  else
    ptr ← go_gets cp_endpoints;
    go_modify with_new_endpoint ;;
    let port := pm_HostPort (scs_PortMappings resp) in
    let newEndpoint := mkEndpoint ptr (scs_ID resp) (wn_IP node +:+ ":" +:+ Itoa port)%string
                         (Some (wn_Name node)) port in
    (if cfg_EndpointPersistence cfg
     then on_persistence (StoreEndpoint newEndpoint) ;; mret tt else mret tt) ;;
    (* the node may have been deregistered during the call *)
    o ← on_ni (AtomicGet (wn_Name node));
    wn ← go_lift (deref o);
    em ← go_lift (AtomicSet newEndpoint (si_Name (ss_ServiceInfo ss)) (wn_endpointMap wn));
    on_ni (Set_ (wn_Name node) (SetEndpointMap em.2 wn)) ;;
    mret (UpAppend newEndpoint).

Definition up_read (a : nat) (e : Endpoint) : M up_pc :=
  ss ← ss_deref a; mret (UpStore e (ss_Endpoints ss)).
Definition up_store (a : nat) (e : Endpoint) (read : list Endpoint) : M up_pc :=
  ss_modify a (set_endpoints (read ++ [e])) ;;
  updateEndpoints a (prepareEndpointInfo [e]) ;;
  mret UpDone.

Definition up_step (i a : nat) (pc : up_pc) : M up_pc :=
  match pc with
  | UpPlace => up_place i a
  | UpCreate node => up_create a node
  | UpAppend e => up_read a e
  | UpStore e read => up_store a e read
  | UpDone => mret UpDone
  end.

(** [sched] is the order in which the goroutines take their steps. *)
Fixpoint up_run (sched : list nat) (a : nat) (pcs : list up_pc) : M (list up_pc) :=
  match sched with
  | [] => mret pcs
  | i :: sched' =>
      match pcs !! i with
      | None => up_run sched' a pcs
      | Some pc => pc' ← up_step i a pc; up_run sched' a (<[i := pc']> pcs)
      end
  end.

(** [wg.Wait()]: returns when every goroutine is done. *)
Definition up_done (pc : up_pc) : bool := match pc with UpDone => true | _ => false end.
Definition doUpscaling (sched : list nat) (a : nat) (toCreateCount : Z) : M unit :=
  pcs ← up_run sched a (replicate (Z.to_nat toCreateCount) UpPlace);
  if forallb up_done pcs then mret tt else go_block.

(** ** Scaling down *)

(** The loop that draws the victims; [k] counts its iterations. *)
Fixpoint evict_loop (k n : nat) (currentState : list Endpoint) (toEvict : gset Endpoint)
  : outcome (gset Endpoint) :=
  match n with
  | O => Ok toEvict
  | Datatypes.S n' =>
      r ← EvictionPolicy (e_rand env k) currentState;
      match r.1 with
      | None => evict_loop (k + 1) n' currentState toEvict
      | Some endpoint => evict_loop (k + 1) n' r.2 ({[endpoint]} ∪ toEvict)
      end
  end.

Definition doDownscaling (a : nat) (actualScale desiredCount : Z) : M unit :=
  ss ← ss_deref a;
  toEvict ← go_lift (evict_loop 0 (Z.to_nat (actualScale - desiredCount)) (ss_Endpoints ss) ∅);
  excludeEndpoints a toEvict ;;
  go_modify (fun c => with_tasks (cp_tasks c ++ [(a, toEvict)]) c).

(** The connections are locked only while the calls are spawned; the calls
    of one traversal are made in its order. *)
Definition drainSandbox (a : nat) (toEvict : gset Endpoint) : M unit :=
  ss ← ss_deref a;
  let toDrain := e_evict_ord env toEvict in
  on_dp Lock ;;
  m ← on_dp GetMap;
  on_dp Unlock ;;
  go_for (e_dp_ord env m) (fun kv =>
    dp_call kv.2 (RpcDrainSandbox kv.1 (si_Name (ss_ServiceInfo ss)) (prepareEndpointInfo toDrain)) ;;
    mret tt).

(** The endpoint refers to its node even after the node was deregistered. *)
Definition deleteSandbox (e : Endpoint) : M unit :=
  match Node e with
  | None => mret tt
  | Some name => call true (RpcDeleteSandbox name (SandboxID e) (HostPort e)) ;; mret tt
  end.

(** The goroutine of [doDownscaling]: drain first, then delete. *)
Definition evict_task (a : nat) (toEvict : gset Endpoint) : M unit :=
  drainSandbox a toEvict ;;
  go_for (e_evict_ord env toEvict) (fun victim =>
    deleteSandbox victim ;; removeEndpointFromWNStruct victim).
Definition run_task : M unit :=
  l ← go_gets cp_tasks;
  match l with
  | [] => mret tt
  | (a, toEvict) :: l' => go_modify (with_tasks l') ;; evict_task a toEvict
  end.

(** ** The loop *)

(** [DesiredStateChannel], unbuffered: the values goroutines are blocked
    sending, and whether it is closed. *)
Record desired_chan : Type := mkDesiredChan { dc_senders : list Z; dc_closed : bool }.

(** A receive that does not block: [None] when it would. *)
Definition dc_try_recv (ch : desired_chan) : option (Z * bool * desired_chan) :=
  match dc_senders ch with
  | v :: l => Some (v, true, mkDesiredChan l (dc_closed ch))
  | [] => if dc_closed ch then Some (0, false, ch) else None
  end.

(** The loop around the [select] with a default case. *)
Fixpoint drain_desired (fuel : nat) (desiredCount : Z) (isLoopRunning : bool) (ch : desired_chan)
  : outcome (Z * bool * desired_chan) :=
  match fuel with
  | O => Blocked
  | Datatypes.S fuel' =>
      match dc_try_recv ch with
      | Some (v, ok, ch') => drain_desired fuel' v ok ch'
      | None => Ok (desiredCount, isLoopRunning, ch)
      end
  end.

(** One iteration of [ScalingControllerLoop]: [None] is its end. *)
Definition scaling_round (fuel : nat) (sched : list nat) (a : nat) (ch : desired_chan)
  : M (option desired_chan) :=
  match dc_try_recv ch with
  | None => go_block
  | Some (v, ok, ch1) =>
      r ← go_lift (drain_desired fuel v ok ch1);
      let '(desiredCount, isLoopRunning, ch2) := (r : Z * bool * desired_chan) in
      ss ← ss_deref a;
      let actualScale := ss_scale ss in
      ss_modify a (with_metadata (set_ActualScale desiredCount)) ;;
      if isLoopRunning then
        EndpointLock_Lock a ;;
        (if decide (actualScale < desiredCount)
         then doUpscaling sched a (desiredCount - actualScale)
         else if negb (isDownScalingDisabled ss) && bool_decide (desiredCount < actualScale)
         then doDownscaling a actualScale desiredCount
         else mret tt) ;;
        EndpointLock_Unlock a ;;
        mret (Some ch2)
      else
        EndpointLock_Lock a ;;
        doDownscaling a actualScale 0 ;;
        EndpointLock_Unlock a ;;
        mret None
  end.

(** ** Failures *)

Definition searchEndpointByContainerName (endpoints : list Endpoint) (cid : string)
  : option Endpoint :=
  list_find (fun e => SandboxID e = cid) endpoints ≫= fun ie => Some ie.2.

Fixpoint failed_endpoints (a : nat) (cids : list string) (toRemove : gset Endpoint)
  : M (gset Endpoint) :=
  match cids with
  | [] => mret toRemove
  | cid :: cids' =>
      ss ← ss_deref a;
      match searchEndpointByContainerName (ss_Endpoints ss) cid with
      | None => failed_endpoints a cids' toRemove
      | Some e => removeEndpointFromWNStruct e ;; failed_endpoints a cids' ({[e]} ∪ toRemove)
      end
  end.

Definition removeEndpoints (a : nat) (endpoints : list string) : M unit :=
  EndpointLock_Lock a ;;
  toRemove ← failed_endpoints a endpoints ∅;
  ss_modify a (add_scale (- Z.of_nat (size toRemove))) ;;
  excludeEndpoints a toRemove ;;
  ss ← ss_deref a;
  updateEndpoints a (prepareEndpointInfo (ss_Endpoints ss)) ;;
  EndpointLock_Unlock a.

Definition HandleFailure (failures : list Failure) : M bool :=
  go_for failures (fun failure =>
    match fl_Type failure with
    | SANDBOX_FAILURE | WORKER_NODE_FAILURE =>
        o ← on_si (Get (fl_ServiceName failure));
        match o with
        | Some a => removeEndpoints a (fl_SandboxIDs failure)
        | None => mret tt
        end
    | SANDBOX_DAEMON_FAILURE => mret tt
    end) ;;
  mret true.
End operations.

(** ** A control plane at rest

    No lock is held, every node and data plane it knows is connected. *)
Record cp_ready {S P} (c : ControlPlane S P) : Prop := {
  rd_ni : internalLock (NIStorage c) = Unlocked;
  rd_nodes : forall name wn, InternalMap (NIStorage c) !! name = Some wn ->
    wn_Name wn = name /\ wn_connected wn = true /\ internalLock (wn_endpointMap wn) = Unlocked;
  rd_dp : internalLock (DataPlaneConnections c) = Unlocked;
  rd_dps : forall ip d, InternalMap (DataPlaneConnections c) !! ip = Some d -> dp_connected d = true;
}.

(** A service whose recorded scale exceeds its number of endpoints by [d];
    endpoints have distinct addresses, all allocated. *)
Record scale_inv {S P} (d : Z) (c : ControlPlane S P) (ss : ServiceInfoStorage) : Prop := {
  si_scale : ss_scale ss = Z.of_nat (length (ss_Endpoints ss)) + d;
  si_nodup : NoDup (ep_ptr <$> ss_Endpoints ss);
  si_alloc : Forall (fun e => (ep_ptr e < cp_endpoints c)%nat) (ss_Endpoints ss);
}.

Lemma prepareEndpointInfo_map l :
  prepareEndpointInfo l = (fun e => mkEndpointInfo (SandboxID e) (URL e)) <$> l.
Proof.
  unfold prepareEndpointInfo.
  assert (Hg : forall acc, foldl (fun res e => res ++ [mkEndpointInfo (SandboxID e) (URL e)]) acc l =
    acc ++ ((fun e => mkEndpointInfo (SandboxID e) (URL e)) <$> l)).
  { induction l as [|e l IH]; intros acc; simpl; [by rewrite app_nil_r|].
    by rewrite IH, <- app_assoc. }
  apply Hg.
Qed.

Section runs.
Context {S P : Type} `{PL : PersistenceLayer S} `{PP : PlacementPolicy P}.
Context (cfg : ControlPlaneConfig) (env : cp_env).
Implicit Types (c : ControlPlane S P) (ss : ServiceInfoStorage).

Definition with_rpcs (l : list rpc) (c : ControlPlane S P) : ControlPlane S P :=
  mkControlPlane (DataPlaneConnections c) (NIStorage c) (SIStorage c) (ss_heap c)
    (cp_PlacementPolicy c) (cp_PersistenceLayer c) (cp_rpcs c ++ l) (cp_endpoints c)
    (cp_tasks c) (cp_loops c).

Lemma with_rpcs_nil c : with_rpcs [] c = c.
Proof. unfold with_rpcs. rewrite app_nil_r. by destruct c. Qed.

Lemma ss_deref_run a ss c : ss_heap c !! a = Some ss -> ss_deref a c = Ok (ss, c).
Proof. unfold ss_deref. by intros ->. Qed.
Lemma ss_modify_run a f ss c :
  ss_heap c !! a = Some ss -> ss_modify a f c = Ok (tt, with_heap (<[a := f ss]> (ss_heap c)) c).
Proof. intros Hs. unfold ss_modify. go_run (ss_deref_run _ _ _ Hs). done. Qed.

(** A loop of calls on connected data planes makes all of them. *)
Lemma go_for_calls {A} (f : A -> bool) (g : A -> rpc) l c :
  Forall (fun x => f x = true) l ->
  go_for l (fun x => call env (f x) (g x) ;; mret tt) c = Ok (tt, with_rpcs (g <$> l) c).
Proof.
  intros Hl. revert c. induction Hl as [|x l Hx Hl IH]; intros c; cbn [go_for].
  - by rewrite with_rpcs_nil.
  - unfold call at 1. rewrite Hx. erewrite gom_bind_run; [|reflexivity].
    rewrite IH. do 2 f_equal. unfold with_rpcs, with_rpc. simpl. by rewrite <- app_assoc.
Qed.

Lemma range_connected c ord :
  cp_ready c -> valid_order ord ->
  Forall (fun kv => dp_connected kv.2 = true) (ord (InternalMap (DataPlaneConnections c))).
Proof.
  intros Hr Hord. apply list.Forall_forall. intros [ip d] Hin.
  rewrite valid_order_elem in Hin by done. by eapply rd_dps.
Qed.

(** An update of the endpoints reaches every data plane. *)
Lemma updateEndpoints_run a ss eps c :
  cp_ready c -> valid_order (e_dp_ord env) -> ss_heap c !! a = Some ss ->
  updateEndpoints env a eps c =
    Ok (tt, with_rpcs ((fun kv => RpcUpdateEndpointList kv.1 (si_Name (ss_ServiceInfo ss)) eps)
              <$> e_dp_ord env (InternalMap (DataPlaneConnections c))) c).
Proof.
  intros Hr Hord Hs. pose proof (range_connected c _ Hr Hord) as Hf.
  pose proof (rd_dp _ Hr) as Hl. destruct c as [[dpm lk] ni si h pol per rpcs n ts ls].
  simpl in *. subst lk. unfold updateEndpoints. erewrite gom_bind_run; [|reflexivity].
  unfold singlethreadUpdateEndpoints.
  erewrite gom_bind_run; [|erewrite gom_bind_run; [|by apply ss_deref_run]].
  2: { erewrite gom_bind_run; [|reflexivity]. cbn [InternalMap].
       apply (go_for_calls (fun kv => dp_connected kv.2)). exact Hf. }
  reflexivity.
Qed.

Lemma removeEndpointFromWNStruct_run e name wn c :
  cp_ready c -> Node e = Some name -> InternalMap (NIStorage c) !! name = Some wn ->
  removeEndpointFromWNStruct e c = on_ni (Set_ name (SetEndpointMap
    (mkStructure (delete e (InternalMap (wn_endpointMap wn))) Unlocked) wn)) c.
Proof.
  intros Hr He Hn. unfold removeEndpointFromWNStruct. rewrite He.
  erewrite gom_bind_run; [|reflexivity]. rewrite Hn.
  erewrite gom_bind_run; [|reflexivity].
  destruct (rd_nodes _ Hr _ _ Hn) as (_&_&Hl). destruct (wn_endpointMap wn) as [em l]. simpl in Hl.
  subst l. by destruct c as [? [? ?]].
Qed.

Lemma ni_get_run name c :
  internalLock (NIStorage c) = Unlocked ->
  on_ni (AtomicGet name) c = Ok (InternalMap (NIStorage c) !! name, c).
Proof.
  intros Hl. destruct c as [dp [nim lk] si h pol per rpcs n ts ls].
  simpl in Hl. by subst lk.
Qed.

Lemma cp_ready_set_node name wn em c :
  cp_ready c -> InternalMap (NIStorage c) !! name = Some wn -> internalLock em = Unlocked ->
  exists c', on_ni (Set_ name (SetEndpointMap em wn)) c = Ok (tt, c') /\ cp_ready c' /\
    c' = mkControlPlane (DataPlaneConnections c)
           (mkStructure (<[name := SetEndpointMap em wn]> (InternalMap (NIStorage c))) Unlocked)
           (SIStorage c) (ss_heap c) (cp_PlacementPolicy c) (cp_PersistenceLayer c) (cp_rpcs c)
           (cp_endpoints c) (cp_tasks c) (cp_loops c).
Proof.
  intros Hr Hn Hem. eexists. split; [reflexivity|]. pose proof (rd_ni _ Hr) as Hl. split.
  - split; simpl; [done| |apply Hr|apply Hr]. intros name' wn' Hw.
    rewrite lookup_insert in Hw. case_decide; simplify_eq; [|by eapply rd_nodes].
    destruct (rd_nodes _ Hr _ _ Hn) as (?&?&?). by destruct wn.
  - by rewrite Hl.
Qed.
End runs.

(** What scaling the service at [a] leaves as it was. *)
Record step_frame {S P} (a : nat) (c c' : ControlPlane S P) : Prop := {
  sf_ready : cp_ready c';
  sf_dp : DataPlaneConnections c' = DataPlaneConnections c;
  sf_sched : forall name, wn_Schedulable <$> (InternalMap (NIStorage c') !! name) =
                          wn_Schedulable <$> (InternalMap (NIStorage c) !! name);
  sf_si : SIStorage c' = SIStorage c;
  sf_tasks : cp_tasks c' = cp_tasks c;
  sf_heap : forall b, b ≠ a -> ss_heap c' !! b = ss_heap c !! b;
  sf_alloc : (cp_endpoints c <= cp_endpoints c')%nat;
}.

Lemma step_frame_trans {S P} a (c1 c2 c3 : ControlPlane S P) :
  step_frame a c1 c2 -> step_frame a c2 c3 -> step_frame a c1 c3.
Proof.
  intros H1 H2. split.
  - apply H2.
  - rewrite (sf_dp _ _ _ H2). apply H1.
  - intros name. rewrite (sf_sched _ _ _ H2). apply H1.
  - rewrite (sf_si _ _ _ H2). apply H1.
  - rewrite (sf_tasks _ _ _ H2). apply H1.
  - intros b Hb. rewrite (sf_heap _ _ _ H2 b Hb). by apply H1.
  - pose proof (sf_alloc _ _ _ H1). pose proof (sf_alloc _ _ _ H2). lia.
Qed.
#[export] Hint Resolve step_frame_trans : go.

Section upscaling.
Context {S P : Type} `{PL : PersistenceLayer S} `{PP : PlacementPolicy P}
  `{!SoundPlacement P, !TotalPlacement P}.
Context (cfg : ControlPlaneConfig) (env : cp_env).
Implicit Types (c : ControlPlane S P) (ss : ServiceInfoStorage).

(** The environment is well behaved: traversals visit the whole map, and the
    database answers. *)
Record env_ok : Prop := {
  eo_dp : valid_order (e_dp_ord env);
  eo_place : forall i, valid_order (pe_ord (e_place env i));
  eo_store : forall e (s : S), returns (StoreEndpoint e) s;
}.

(** Nothing stands in the way of a creation. *)
Definition all_ok c : Prop :=
  (exists name, wn_Schedulable <$> (InternalMap (NIStorage c) !! name) = Some true) /\
  (forall n, e_err env n = None /\ scs_Success (e_created env n) = true).

Lemma all_ok_frame a c c' : step_frame a c c' -> all_ok c -> all_ok c'.
Proof.
  intros Hf [[name Hn] He]. split; [|done]. exists name. by rewrite (sf_sched _ _ _ Hf).
Qed.

Lemma heap_frame a c f ss :
  cp_ready c -> ss_heap c !! a = Some ss ->
  step_frame a c (with_heap (<[a := f ss]> (ss_heap c)) c) /\
  ss_heap (with_heap (<[a := f ss]> (ss_heap c)) c) !! a = Some (f ss).
Proof.
  intros Hr Hs. split.
  - split; simpl; try done; [by destruct Hr; split|]. intros b Hb. by rewrite list_lookup_insert_ne.
  - simpl. apply list_lookup_insert_eq. by eapply lookup_lt_Some.
Qed.

Lemma up_place_run i a ss c :
  env_ok -> cp_ready c -> ss_heap c !! a = Some ss ->
  ((¬ all_ok c /\ exists c', up_place env i a c = Ok (UpDone, c') /\ step_frame a c c' /\
      ss_heap c' !! a = Some (add_scale (-1) ss)) \/
   (exists wn c', up_place env i a c = Ok (UpCreate wn, c') /\ step_frame a c c' /\
      ss_heap c' !! a = Some ss /\ cp_endpoints c' = cp_endpoints c /\
      InternalMap (NIStorage c') !! wn_Name wn = Some wn /\ wn_Schedulable wn = true)).
Proof.
  intros Henv Hr Hs. unfold up_place. go_run (ss_deref_run _ _ _ Hs).
  pose proof (rd_ni _ Hr) as Hl. destruct c as [dp [nim lk] si h pol per rpcs n ts ls].
  simpl in Hl, Hs. subst lk.
  set (req := CreateResourceMap _ _).
  destruct (total_apply (e_place env i) req pol nim) as (r&pol'&Hap).
  pose proof (ApplyPlacementPolicy_sound _ _ _ _ _ _ (eo_place Henv i) Hap) as [_ Hplaced].
  erewrite gom_bind_run.
  2: { unfold on_placement, zoom. simpl. rewrite Hap. reflexivity. }
  simpl. destruct r as [wn|].
  - right. eexists wn, _. split; [reflexivity|]. destruct Hplaced as (name&Hn&Hsch).
    destruct (rd_nodes _ Hr _ _ Hn) as (<-&_&_).
    split_and!; try done. split; try done. by destruct Hr; split.
  - left. split.
    { intros [[name Hname] _]. simpl in Hname. destruct (nim !! name) eqn:E; [|done].
      specialize (Hplaced _ _ E). simpl in Hname. congruence. }
    eexists. split.
    { erewrite gom_bind_run; [reflexivity|]. by apply ss_modify_run. }
    set (c1 := mkControlPlane dp (mkStructure nim Unlocked) si h pol' per rpcs n ts ls).
    assert (Hr1 : cp_ready c1) by (destruct Hr; split; assumption).
    destruct (heap_frame a c1 (add_scale (-1)) ss Hr1 Hs) as [Hf Hh]. split; [|exact Hh].
    destruct Hf. split; assumption.
Qed.

(** The optional store of the endpoint changes only the database. *)
Lemma store_endpoint_run e c :
  env_ok ->
  exists per, (if cfg_EndpointPersistence cfg
     then on_persistence (StoreEndpoint e) ;; mret tt else mret tt) c =
    Ok (tt, mkControlPlane (DataPlaneConnections c) (NIStorage c) (SIStorage c) (ss_heap c)
      (cp_PlacementPolicy c) per (cp_rpcs c) (cp_endpoints c) (cp_tasks c) (cp_loops c)).
Proof.
  intros Henv. destruct (cfg_EndpointPersistence cfg).
  - destruct (eo_store Henv e (cp_PersistenceLayer c)) as (r&per&Hs). exists per.
    erewrite gom_bind_run; [reflexivity|]. unfold on_persistence, zoom. by rewrite Hs.
  - exists (cp_PersistenceLayer c). by destruct c.
Qed.

Lemma up_create_run a ss wn c :
  env_ok -> cp_ready c -> ss_heap c !! a = Some ss ->
  wn_connected wn = true -> is_Some (InternalMap (NIStorage c) !! wn_Name wn) ->
  (¬ all_ok c /\ exists c', up_create cfg env a wn c = Ok (UpDone, c') /\ step_frame a c c' /\
      ss_heap c' !! a = Some (add_scale (-1) ss)) \/
  (exists e c', up_create cfg env a wn c = Ok (UpAppend e, c') /\ step_frame a c c' /\
      ss_heap c' !! a = Some ss /\ ep_ptr e = cp_endpoints c /\
      cp_endpoints c' = (cp_endpoints c + 1)%nat).
Proof.
  intros Henv Hr Hs Hconn [wn1 Hn]. unfold up_create. go_run (ss_deref_run _ _ _ Hs).
  destruct (rd_nodes _ Hr _ _ Hn) as (_&_&Hem).
  set (k := length (cp_rpcs c)). set (r := RpcCreateSandbox (wn_Name wn) (si_Name (ss_ServiceInfo ss))).
  erewrite gom_bind_run.
  2: { unfold CreateSandbox, wn_call, call. rewrite Hconn. reflexivity. }
  fold k r. assert (Hr1 : cp_ready (with_rpc r c)) by (destruct Hr; split; assumption).
  assert (Hf1 : step_frame a c (with_rpc r c)) by (by split).
  cbv beta iota zeta. case_decide as Hbad.
  - left. split.
    { intros [_ Hok]. destruct (Hok k) as [H1 H2]. destruct Hbad as [Hb|Hb]; [by apply Hb|].
      by pose proof (eq_trans (eq_sym H2) Hb). }
    eexists. split.
    { erewrite gom_bind_run; [reflexivity|]. by apply ss_modify_run. }
    destruct (heap_frame a (with_rpc r c) (add_scale (-1)) ss Hr1 Hs) as [Hf Hh]. eauto with go.
  - right. erewrite gom_bind_run; [|reflexivity]. erewrite gom_bind_run; [|reflexivity].
    set (e := mkEndpoint _ _ _ _ _). set (c2 := with_new_endpoint (with_rpc r c)).
    destruct (store_endpoint_run e c2 Henv) as [per Hst]. go_run Hst.
    set (c3 := mkControlPlane _ _ _ _ _ per _ _ _ _).
    assert (Hr3 : cp_ready c3) by (destruct Hr; split; assumption).
    assert (Hf3 : step_frame a c c3) by (split; simpl; done || lia).
    assert (Hn3 : InternalMap (NIStorage c3) !! wn_Name wn = Some wn1) by exact Hn.
    go_run (ni_get_run (wn_Name wn) c3 (rd_ni _ Hr3)). rewrite Hn3.
    erewrite gom_bind_run; [|reflexivity].
    destruct (wn_endpointMap wn1) as [em lk] eqn:Eem. simpl in Hem. subst lk.
    erewrite gom_bind_run; [|reflexivity]. cbn [snd].
    set (em' := mkStructure _ Unlocked).
    destruct (cp_ready_set_node (wn_Name wn) wn1 em' c3 Hr3 Hn3 eq_refl) as (c4&Hset&Hr4&Hc4).
    exists e, c4. split.
    { erewrite gom_bind_run; [reflexivity|]. exact Hset. }
    subst c4. split; [|done]. eapply step_frame_trans; [exact Hf3|]. split; try done; simpl.
    intros name. rewrite lookup_insert. case_decide; [subst|done]. simpl. by rewrite Hn.
Qed.

Lemma up_append_run i a ss e c :
  env_ok -> cp_ready c -> ss_heap c !! a = Some ss ->
  exists c', (pc ← up_read a e; up_step cfg env i a pc) c = Ok (UpDone, c') /\ step_frame a c c' /\
    ss_heap c' !! a = Some (set_endpoints (ss_Endpoints ss ++ [e]) ss) /\
    cp_endpoints c' = cp_endpoints c.
Proof.
  intros Henv Hr Hs. destruct (heap_frame a c (set_endpoints (ss_Endpoints ss ++ [e])) ss Hr Hs) as [Hf Hh].
  eexists. split.
  - erewrite gom_bind_run; [|unfold up_read; go_run (ss_deref_run _ _ _ Hs); reflexivity].
    cbn [up_step]. unfold up_store. erewrite gom_bind_run; [|by apply ss_modify_run].
    erewrite gom_bind_run; [reflexivity|].
    eapply updateEndpoints_run; [apply Hf|apply Henv|exact Hh].
  - split; [|done]. eapply step_frame_trans; [exact Hf|]. split; try done.
    destruct Hf as [[] _ _ _ _ _ _]. split; assumption.
Qed.

(** ** Goroutines in any order *)

Lemma up_run_cons i sched a pcs pc pc' c c' :
  pcs !! i = Some pc -> up_step cfg env i a pc c = Ok (pc', c') ->
  up_run cfg env (i :: sched) a pcs c = up_run cfg env sched a (<[i := pc']> pcs) c'.
Proof. intros Hi Hs. cbn [up_run]. rewrite Hi. by go_run Hs. Qed.

(** How often goroutine [i] has run in a schedule. *)
Definition occurrences (i : nat) (sched : list nat) : nat := length (filter (fun j => j = i) sched).
(** The third step of a goroutine reads the list of endpoints, its fourth
    stores the longer one; nothing else runs in between. *)
Definition atomic_appends (sched : list nat) : Prop :=
  forall k i, sched !! k = Some i -> occurrences i (take k sched) = 2%nat -> sched !! (k + 1)%nat = Some i.
(** Each of [n] goroutines takes at least the four steps to its end. *)
Definition complete (n : nat) (sched : list nat) : Prop :=
  forall i, (i < n)%nat -> (4 <= occurrences i sched)%nat.

Lemma occurrences_snoc i l j :
  occurrences i (l ++ [j]) = (occurrences i l + if decide (j = i) then 1 else 0)%nat.
Proof.
  unfold occurrences. rewrite list.filter_app, length_app, filter_cons, filter_nil. by case_decide.
Qed.

(** The goroutines still under way. *)
Definition undone (pcs : list up_pc) : nat := length (filter (fun pc => up_done pc = false) pcs).

Lemma undone_insert pcs i pc pc' :
  pcs !! i = Some pc ->
  (undone (<[i := pc']> pcs) + (if up_done pc then 0 else 1) = undone pcs + (if up_done pc' then 0 else 1))%nat.
Proof.
  intros Hi. unfold undone. pose proof (take_drop_middle pcs i pc Hi) as E.
  rewrite (insert_take_drop pcs i pc') by (by eapply lookup_lt_Some). rewrite <- E at 3.
  rewrite !list.filter_app, !length_app, !filter_cons.
  destruct (up_done pc), (up_done pc'); repeat case_decide; cbn; try done; lia.
Qed.
Lemma undone_zero pcs : undone pcs = 0%nat -> forallb up_done pcs = true.
Proof.
  unfold undone. intros H%nil_length_inv. apply forallb_forall. intros pc Hin%list_elem_of_In.
  destruct (up_done pc) eqn:E; [done|]. exfalso.
  assert (Hf : pc ∈ filter (fun pc => up_done pc = false) pcs) by (by apply list_elem_of_filter).
  rewrite H in Hf. by apply elem_of_nil in Hf.
Qed.

(** Where each goroutine is after the steps [pre]: what it has done so far
    agrees with the number of its steps, the node it chose is still there, and
    the endpoint it created is new. *)
Definition pc_ok (k : nat) c ss (pc : up_pc) : Prop :=
  match pc with
  | UpPlace => k = 0%nat
  | UpCreate wn => k = 1%nat /\ wn_connected wn = true /\ is_Some (InternalMap (NIStorage c) !! wn_Name wn)
  | UpAppend e => k = 2%nat /\ (ep_ptr e < cp_endpoints c)%nat /\ ep_ptr e ∉ ep_ptr <$> ss_Endpoints ss
  | UpStore _ _ => False
  | UpDone => True
  end.
Record up_inv (pre : list nat) (pcs : list up_pc) c ss : Prop := {
  ui_pcs : forall i pc, pcs !! i = Some pc -> pc_ok (occurrences i pre) c ss pc;
  ui_distinct : forall i j e e', pcs !! i = Some (UpAppend e) -> pcs !! j = Some (UpAppend e') ->
    ep_ptr e = ep_ptr e' -> i = j;
  ui_scale : scale_inv (Z.of_nat (undone pcs)) c ss;
  ui_bound : Z.of_nat (length (ss_Endpoints ss)) + Z.of_nat (undone pcs) < 2 ^ 31;
}.

(** What a step does to the service: at most its scale and its endpoints. *)
Record svc_step a c ss c' ss' : Prop := {
  sv_frame : step_frame a c c';
  sv_heap : ss_heap c' !! a = Some ss';
  sv_rest : set_endpoints [] (with_metadata (set_ActualScale 0) ss') =
            set_endpoints [] (with_metadata (set_ActualScale 0) ss);
  sv_le : ss_scale ss' <= ss_scale ss;
  sv_ok : all_ok c -> ss_scale ss' = ss_scale ss;
}.
Lemma svc_step_trans a c1 ss1 c2 ss2 c3 ss3 :
  svc_step a c1 ss1 c2 ss2 -> svc_step a c2 ss2 c3 ss3 -> svc_step a c1 ss1 c3 ss3.
Proof.
  intros [H1 H2 H3 H4 H5] [G1 G2 G3 G4 G5]. split; [by eauto with go|done|congruence|lia|].
  intros Hok. rewrite G5, H5; [done..|]. by eapply all_ok_frame.
Qed.

(** Other goroutines keep their place when one of them moves. *)
Lemma pc_ok_frame a k c ss c' ss' pc :
  step_frame a c c' -> ss_Endpoints ss' = ss_Endpoints ss -> pc_ok k c ss pc -> pc_ok k c' ss' pc.
Proof.
  intros Hf He. destruct pc as [|wn|e|e l|]; cbn; try done.
  - intros (?&?&[w Hw]). split_and!; [done..|].
    pose proof (sf_sched _ _ _ Hf (wn_Name wn)) as Hs. rewrite Hw in Hs. cbn in Hs.
    destruct (InternalMap (NIStorage c') !! wn_Name wn); [eauto|done].
  - intros (?&?&?). rewrite He. pose proof (sf_alloc _ _ _ Hf). split_and!; [done|lia|done].
Qed.

Lemma up_inv_move a pre pre' pcs i pc pc' c ss c' ss' :
  up_inv pre pcs c ss -> pcs !! i = Some pc -> step_frame a c c' ->
  (forall j, j ≠ i -> occurrences j pre' = occurrences j pre) ->
  pc_ok (occurrences i pre') c' ss' pc' ->
  (forall j pcj, j ≠ i -> pcs !! j = Some pcj -> pc_ok (occurrences j pre) c ss pcj ->
     pc_ok (occurrences j pre) c' ss' pcj) ->
  (forall e j e', pc' = UpAppend e -> pcs !! j = Some (UpAppend e') -> ep_ptr e' ≠ ep_ptr e) ->
  scale_inv (Z.of_nat (undone (<[i := pc']> pcs))) c' ss' ->
  Z.of_nat (length (ss_Endpoints ss')) + Z.of_nat (undone (<[i := pc']> pcs)) < 2 ^ 31 ->
  up_inv pre' (<[i := pc']> pcs) c' ss'.
Proof.
  intros [Hpcs Hdis _ _] Hi Hf Hpre Hpc' Hothers Hfresh Hsc Hb.
  pose proof (lookup_lt_Some _ _ _ Hi) as Hlen. split; [| |done..].
  - intros j pcj. rewrite list_lookup_insert. case_decide as Hj.
    + destruct Hj as [<- _]. by intros [= <-].
    + intros Hpcj. assert (j ≠ i) by (intros ->; apply Hj; auto). rewrite Hpre by done. auto.
  - intros j k e e'. rewrite !list_lookup_insert. repeat case_decide; destruct_and?; subst; try done.
    + intros [= ->] Hk He. by edestruct Hfresh.
    + intros Hj [= ->] He. by edestruct Hfresh.
    + eauto.
Qed.

(** A goroutine that fails gives its part of the scale back. *)
Lemma fail_inv pcs i pc a c c' ss :
  pcs !! i = Some pc -> up_done pc = false -> scale_inv (Z.of_nat (undone pcs)) c ss ->
  Z.of_nat (length (ss_Endpoints ss)) + Z.of_nat (undone pcs) < 2 ^ 31 -> step_frame a c c' ->
  scale_inv (Z.of_nat (undone (<[i := UpDone]> pcs))) c' (add_scale (-1) ss) /\
  Z.of_nat (length (ss_Endpoints (add_scale (-1) ss))) + Z.of_nat (undone (<[i := UpDone]> pcs)) < 2 ^ 31 /\
  ss_scale (add_scale (-1) ss) = ss_scale ss - 1.
Proof.
  intros Hi Hd [Hsc Hnd Hal] Hb Hf. pose proof (undone_insert _ _ _ UpDone Hi) as Hu. rewrite Hd in Hu. cbn in Hu.
  assert (He : ss_scale (add_scale (-1) ss) = ss_scale ss - 1).
  { unfold add_scale, ss_scale at 1. cbn. apply i64_id. unfold is_i64. lia. }
  split_and!; [split; [rewrite He; cbn; lia|done|]|cbn; lia|done].
  eapply list.Forall_impl; [exact Hal|]. pose proof (sf_alloc _ _ _ Hf). cbn. lia.
Qed.
Lemma move_inv pcs i pc pc' a c c' ss :
  pcs !! i = Some pc -> up_done pc = up_done pc' -> scale_inv (Z.of_nat (undone pcs)) c ss ->
  Z.of_nat (length (ss_Endpoints ss)) + Z.of_nat (undone pcs) < 2 ^ 31 -> step_frame a c c' ->
  scale_inv (Z.of_nat (undone (<[i := pc']> pcs))) c' ss /\
  Z.of_nat (length (ss_Endpoints ss)) + Z.of_nat (undone (<[i := pc']> pcs)) < 2 ^ 31.
Proof.
  intros Hi Hd [Hsc Hnd Hal] Hb Hf. pose proof (undone_insert _ _ _ pc' Hi) as Hu. rewrite Hd in Hu.
  split; [split|]; [lia|done| |lia].
  eapply list.Forall_impl; [exact Hal|]. pose proof (sf_alloc _ _ _ Hf). cbn. lia.
Qed.

Lemma occurrences_snoc_ne i j l : j ≠ i -> occurrences j (l ++ [i]) = occurrences j l.
Proof. intros. rewrite occurrences_snoc, decide_False by done. lia. Qed.
Lemma occurrences_snoc_eq i l : occurrences i (l ++ [i]) = (occurrences i l + 1)%nat.
Proof. by rewrite occurrences_snoc, decide_True. Qed.

(** One step of a goroutine that is not about to append. *)
Lemma up_step_inv a pre pcs i pc c ss :
  env_ok -> cp_ready c -> ss_heap c !! a = Some ss -> up_inv pre pcs c ss -> pcs !! i = Some pc ->
  (forall e, pc ≠ UpAppend e) ->
  exists pc' c' ss', up_step cfg env i a pc c = Ok (pc', c') /\
    up_inv (pre ++ [i]) (<[i := pc']> pcs) c' ss' /\ svc_step a c ss c' ss'.
Proof.
  intros Henv Hr Hs Hinv Hi Hna. pose proof (ui_pcs _ _ _ _ Hinv _ _ Hi) as Hpc.
  pose proof (ui_scale _ _ _ _ Hinv) as Hsc. pose proof (ui_bound _ _ _ _ Hinv) as Hb.
  pose proof (occurrences_snoc_ne i) as Hne. pose proof (occurrences_snoc_eq i pre) as Heq.
  assert (Hfail : forall c', ¬ all_ok c -> step_frame a c c' -> ss_heap c' !! a = Some (add_scale (-1) ss) ->
    up_done pc = false ->
    up_inv (pre ++ [i]) (<[i := UpDone]> pcs) c' (add_scale (-1) ss) /\ svc_step a c ss c' (add_scale (-1) ss)).
  { intros c' Hno Hf Hh Hd. destruct (fail_inv pcs i pc a c c' ss Hi Hd Hsc Hb Hf) as (H1&H2&H3). split.
    - eapply up_inv_move; eauto; try done. intros j pcj _ _. by apply (pc_ok_frame a).
    - split; try done. lia. }
  assert (Hgo : forall pc' c', step_frame a c c' -> ss_heap c' !! a = Some ss -> up_done pc = up_done pc' ->
    pc_ok (occurrences i (pre ++ [i])) c' ss pc' ->
    (forall e j e', pc' = UpAppend e -> pcs !! j = Some (UpAppend e') -> ep_ptr e' ≠ ep_ptr e) ->
    up_inv (pre ++ [i]) (<[i := pc']> pcs) c' ss /\ svc_step a c ss c' ss).
  { intros pc' c' Hf Hh Hd Hpc' Hfresh. destruct (move_inv pcs i pc pc' a c c' ss Hi Hd Hsc Hb Hf) as [H1 H2]. split.
    - eapply up_inv_move; eauto. intros j pcj _ _. by apply (pc_ok_frame a).
    - by split. }
  destruct pc as [|wn|e|e l|]; cbn in Hpc; [| |by edestruct Hna|done|]; cbn [up_step].
  - destruct (up_place_run i a ss c Henv Hr Hs) as [(Hno&c1&H1&Hf1&Hh1)|(wn&c1&H1&Hf1&Hh1&Ha1&Hn1&_)].
    + exists UpDone, c1, (add_scale (-1) ss). split; [done|]. by apply Hfail.
    + exists (UpCreate wn), c1, ss. split; [done|]. apply Hgo; try done. rewrite Heq, Hpc.
      split_and!; [done| |eauto]. by destruct (rd_nodes _ (sf_ready _ _ _ Hf1) _ _ Hn1) as (_&?&_).
  - destruct Hpc as (Hk&Hcon&Hn).
    destruct (up_create_run a ss wn c Henv Hr Hs Hcon Hn)
      as [(Hno&c2&H2&Hf2&Hh2)|(e&c2&H2&Hf2&Hh2&Hp2&Ha2)].
    + exists UpDone, c2, (add_scale (-1) ss). split; [done|]. by apply Hfail.
    + exists (UpAppend e), c2, ss. split; [done|]. apply Hgo; try done.
      * rewrite Heq, Hk. split_and!; [done|lia|]. rewrite Hp2. intros (e'&He'&Hin)%list_elem_of_fmap.
        pose proof (si_alloc _ _ _ Hsc) as Hal. rewrite list.Forall_forall in Hal. specialize (Hal _ Hin). lia.
      * intros e0 j e' [= <-] Hj. apply (ui_pcs _ _ _ _ Hinv) in Hj as (_&Hlt&_). lia.
  - exists UpDone, c, ss. split; [done|]. apply Hgo; done.
Qed.

(** The two steps of an append, with nothing in between. *)
Lemma up_append_inv a pre pcs i e c ss :
  env_ok -> cp_ready c -> ss_heap c !! a = Some ss -> up_inv pre pcs c ss -> pcs !! i = Some (UpAppend e) ->
  exists read c1 c' ss', up_step cfg env i a (UpAppend e) c = Ok (UpStore e read, c1) /\
    up_step cfg env i a (UpStore e read) c1 = Ok (UpDone, c') /\
    up_inv (pre ++ [i; i]) (<[i := UpDone]> pcs) c' ss' /\ svc_step a c ss c' ss'.
Proof.
  intros Henv Hr Hs Hinv Hi. destruct (ui_pcs _ _ _ _ Hinv _ _ Hi) as (_&Hlt&Hnin).
  destruct (up_append_run i a ss e c Henv Hr Hs) as (c'&Hrun&Hf&Hh&Ha).
  apply gom_bind_ok in Hrun as (pc1&c1&H1&H2).
  assert (E : pc1 = UpStore e (ss_Endpoints ss)).
  { unfold up_read in H1. rewrite (gom_bind_run _ _ _ _ _ (ss_deref_run _ _ _ Hs)) in H1. by injection H1. }
  subst pc1. exists (ss_Endpoints ss), c1, c', (set_endpoints (ss_Endpoints ss ++ [e]) ss).
  split; [exact H1|]. split; [exact H2|]. split; [|by split].
  pose proof (ui_scale _ _ _ _ Hinv) as [Hsc Hnd Hal]. pose proof (ui_bound _ _ _ _ Hinv) as Hb.
  pose proof (undone_insert _ _ _ UpDone Hi) as Hu. cbn in Hu.
  eapply up_inv_move; eauto; try done.
  - intros j Hj. change [i; i] with ([i] ++ [i]). by rewrite app_assoc, !occurrences_snoc_ne.
  - intros j pcj Hj Hpcj Hok. destruct pcj as [|wn|e'|e' l|]; try done.
    + by eapply (pc_ok_frame a _ c ss c' ss) in Hok.
    + destruct Hok as (?&?&Hn'). split_and!; [done|lia|]. cbn. rewrite fmap_app, elem_of_app.
      intros [?|Heq%list_elem_of_singleton]; [done|]. apply Hj. by eapply (ui_distinct _ _ _ _ Hinv).
  - split; cbn.
    + rewrite length_app. cbn. unfold ss_scale in *. cbn. lia.
    + rewrite fmap_app. apply list.NoDup_app. split_and!; [done| |apply NoDup_singleton].
      intros x Hx ->%list_elem_of_singleton. done.
    + apply Forall_app. split; [|apply Forall_singleton; lia].
      eapply list.Forall_impl; [exact Hal|]. cbn. lia.
  - cbn. rewrite length_app. cbn. lia.
Qed.

Lemma atomic_appends_head pre i l :
  atomic_appends (pre ++ i :: l) -> occurrences i pre = 2%nat -> exists l', l = i :: l'.
Proof.
  intros Hat Hk. specialize (Hat (length pre) i).
  rewrite list_lookup_middle, take_app_length in Hat by done. specialize (Hat eq_refl Hk).
  rewrite lookup_app_r in Hat by lia. replace (length pre + 1 - length pre)%nat with 1%nat in Hat by lia.
  destruct l as [|j l]; cbn in Hat; [done|]. injection Hat as ->. by exists l.
Qed.

Lemma up_run_inv n : forall sched pre a pcs c ss, (length sched <= n)%nat ->
  env_ok -> cp_ready c -> ss_heap c !! a = Some ss -> up_inv pre pcs c ss ->
  atomic_appends (pre ++ sched) ->
  exists pcs' c' ss', up_run cfg env sched a pcs c = Ok (pcs', c') /\ length pcs' = length pcs /\
    up_inv (pre ++ sched) pcs' c' ss' /\ svc_step a c ss c' ss'.
Proof.
  induction n as [|n IH]; intros [|i sched] pre a pcs c ss Hlen Henv Hr Hs Hinv Hat; cbn in Hlen; try lia.
  1, 2: exists pcs, c, ss; rewrite app_nil_r; split_and!; try done; by repeat split.
  destruct (pcs !! i) as [pc|] eqn:Hi.
  2: { cbn [up_run]. rewrite Hi. rewrite (cons_middle i pre sched), app_assoc in Hat |- *. apply (IH sched); try done; [lia|].
       destruct Hinv as [H1 H2 H3 H4]. split; try done. intros j pcj Hj.
       rewrite occurrences_snoc_ne; [by apply H1|congruence]. }
  pose proof (lookup_lt_Some _ _ _ Hi) as Hlt.
  destruct pc as [|wn|e|e l|].
  3: { destruct (ui_pcs _ _ _ _ Hinv _ _ Hi) as (Hk&_&_).
       destruct (atomic_appends_head _ _ _ Hat Hk) as [l' ->].
       destruct (up_append_inv a pre pcs i e c ss) as (read&c1&c2&ss2&H1&H2&Hinv2&Hst); try done.
       rewrite (up_run_cons _ _ _ _ _ _ _ _ Hi H1).
       rewrite (up_run_cons _ _ _ _ _ _ _ _ (list_lookup_insert_eq _ _ _ Hlt) H2), list_insert_insert_eq.
       change (i :: i :: l') with ([i; i] ++ l') in Hat |- *. rewrite app_assoc in Hat |- *. cbn in Hlen.
       destruct (IH l' (pre ++ [i; i]) a (<[i := UpDone]> pcs) c2 ss2) as (pcs'&c'&ss'&Hrun&Hl&Hi'&Hst');
         try done; [lia|apply Hst|apply Hst|].
       exists pcs', c', ss'. rewrite length_insert in Hl. split_and!; try done. by eapply svc_step_trans. }
  all: (destruct (up_step_inv a pre pcs i _ c ss Henv Hr Hs Hinv Hi) as (pc'&c1&ss1&H1&Hinv1&Hst); [done|];
       rewrite (up_run_cons _ _ _ _ _ _ _ _ Hi H1);
       rewrite (cons_middle i pre sched), app_assoc in Hat |- *;
       destruct (IH sched (pre ++ [i]) a (<[i := pc']> pcs) c1 ss1) as (pcs'&c'&ss'&Hrun&Hl&Hi'&Hst');
         try done; [lia|apply Hst|apply Hst|];
       exists pcs', c', ss'; rewrite length_insert in Hl; split_and!; try done; by eapply svc_step_trans).
Qed.
End upscaling.

(** ** Scaling down *)

Lemma evict_loop_run env k n cur (E : gset Endpoint) :
  NoDup cur -> (forall x, x ∈ cur -> x ∉ E) ->
  exists E', evict_loop env k n cur E = Ok E' /\ E ⊆ E' /\
    (forall x, x ∈ E' -> x ∈ E \/ x ∈ cur) /\
    size E' = (size E + n `min` length cur)%nat.
Proof.
  revert k cur E. induction n as [|n IH]; intros k cur E Hnd Hdis; cbn [evict_loop].
  { exists E. split_and!; auto. }
  destruct (decide (cur = [])) as [->|Hne].
  { unfold EvictionPolicy at 1. rewrite decide_True by done. cbn [mbind outcome_bind fst].
    destruct (IH (k + 1)%nat [] E) as (E'&HE&Hsub&Hin&Hsz); [done|set_solver|].
    exists E'. split_and!; try done. simpl in *. lia. }
  destruct (EvictionPolicy_run (e_rand env k) cur Hne) as (i&v&Hv&->). cbn [mbind outcome_bind fst snd].
  assert (Hperm : cur ≡ₚ v :: delete i cur) by (by apply delete_Permutation).
  assert (Hnd' : NoDup (v :: delete i cur)) by (by rewrite <- Hperm).
  apply list.NoDup_cons in Hnd' as [Hvn Hnd'].
  assert (Hvin : v ∈ cur) by (by eapply list_elem_of_lookup_2).
  assert (Hsubd : forall x, x ∈ delete i cur -> x ∈ cur).
  { intros x Hx. rewrite Hperm. by right. }
  destruct (IH (k + 1)%nat (delete i cur) ({[v]} ∪ E)) as (E'&HE&Hsub&Hin&Hsz); [done| |].
  { intros x Hx. pose proof (Hdis x (Hsubd x Hx)). rewrite elem_of_union, elem_of_singleton.
    intros [->|]; [by apply Hvn|done]. }
  exists E'. split; [done|]. split; [set_solver|]. split.
  - intros x Hx. destruct (Hin x Hx) as [[->%elem_of_singleton|]%elem_of_union|]; auto.
  - rewrite Hsz, size_union, size_singleton.
    + rewrite length_delete by eauto. pose proof (lookup_lt_Some _ _ _ Hv). lia.
    + pose proof (Hdis v Hvin). set_solver.
Qed.

Lemma exclude_filter (E : gset Endpoint) l :
  foldl (fun result e => if decide (e ∈ E) then result else result ++ [e]) [] l =
  filter (fun e => e ∉ E) l.
Proof. apply (foldl_filter (fun e => e ∈ E) l []). Qed.

Lemma exclude_length (E : gset Endpoint) l :
  NoDup l -> (forall x, x ∈ E -> x ∈ l) ->
  (length (filter (fun e => e ∉ E) l) + size E = length l)%nat.
Proof.
  intros Hl Hsub. rewrite <- (NoDup_filter_difference_length l (elements E)); [|done|apply NoDup_elements|].
  - f_equal. apply f_equal, list_filter_iff. intros x. by rewrite elem_of_elements.
  - intros x Hx. by apply Hsub, elem_of_elements.
Qed.

Section downscaling.
Context {S P : Type}.
Context (env : cp_env).
Implicit Types (c : ControlPlane S P) (ss : ServiceInfoStorage).

Lemma doDownscaling_run a ss n desired c :
  ss_heap c !! a = Some ss -> NoDup (ss_Endpoints ss) ->
  exists E, doDownscaling env a n desired c =
      Ok (tt, with_tasks (cp_tasks c ++ [(a, E)])
            (with_heap (<[a := set_endpoints (filter (fun e => e ∉ E) (ss_Endpoints ss)) ss]>
                          (ss_heap c)) c)) /\
    (forall x, x ∈ E -> x ∈ ss_Endpoints ss) /\
    size E = (Z.to_nat (n - desired) `min` length (ss_Endpoints ss))%nat.
Proof.
  intros Hs Hnd. destruct (evict_loop_run env 0 (Z.to_nat (n - desired)) (ss_Endpoints ss) ∅)
    as (E&HE&_&Hin&Hsz); [done|set_solver|].
  exists E. split; [|split; [intros x Hx; destruct (Hin x Hx); set_solver|done]].
  unfold doDownscaling. go_run (ss_deref_run _ _ _ Hs). erewrite gom_bind_run; [|by rewrite HE].
  unfold excludeEndpoints. erewrite gom_bind_run; [|by apply ss_modify_run].
  unfold go_modify. simpl. by rewrite exclude_filter.
Qed.

(** C30: Scaling down removes exactly as many sandboxes as asked.  From a list
    of distinct endpoints the victims are drawn without repetition, whatever
    the random draws: when the endpoints suffice exactly
    [actualScale - desiredCount] of them are victims, otherwise all; the
    victims are handed to the task that drains and deletes them, the others
    stay in their order, and together they are the original endpoints. *)
Theorem doDownscaling_exact a ss actualScale desiredCount c :
  ss_heap c !! a = Some ss -> NoDup (ss_Endpoints ss) ->
  exists c' E rest, doDownscaling env a actualScale desiredCount c = Ok (tt, c') /\
    cp_tasks c' = cp_tasks c ++ [(a, E)] /\
    ss_heap c' !! a = Some (set_endpoints rest ss) /\
    rest = filter (fun e => e ∉ E) (ss_Endpoints ss) /\
    ss_Endpoints ss ≡ₚ rest ++ elements E /\
    length (elements E) = (Z.to_nat (actualScale - desiredCount) `min` length (ss_Endpoints ss))%nat.
Proof.
  intros Hs Hnd. destruct (doDownscaling_run a ss actualScale desiredCount c Hs Hnd) as (E&Hrun&Hin&Hsz).
  eexists _, E, _. split; [exact Hrun|]. split; [done|]. split.
  { simpl. apply list_lookup_insert_eq. by eapply lookup_lt_Some. }
  split; [done|]. split; [|done]. apply NoDup_Permutation; [done| |].
  - apply list.NoDup_app. split_and!; [by apply list.NoDup_filter| |apply NoDup_elements].
    intros x Hx Hx'. apply list_elem_of_filter in Hx as [Hx _]. by apply Hx, elem_of_elements.
  - intros x. rewrite elem_of_app, list_elem_of_filter, elem_of_elements. split.
    + intros Hx. destruct (decide (x ∈ E)); auto.
    + intros [[_ ?]|?]; auto.
Qed.
End downscaling.

(** ** One round of the loop *)

(** The values waiting on an open channel are read to the last one. *)
Lemma drain_desired_open fuel v ok l :
  (length l < fuel)%nat ->
  drain_desired fuel v ok (mkDesiredChan l false) =
    Ok (default v (list.last l), match l with [] => ok | _ => true end, mkDesiredChan [] false).
Proof.
  revert fuel v ok. induction l as [|x l IH]; intros fuel v ok Hf; simpl in Hf;
    (destruct fuel as [|fuel]; [lia|]); [done|].
  cbn [drain_desired dc_try_recv dc_senders dc_closed]. rewrite IH by lia.
  destruct l as [|y l]; [done|]. rewrite last_cons_cons.
  destruct (list.last (y :: l)) eqn:E; [done|]. by apply last_None in E.
Qed.

(** A closed channel is always ready: the loop around it does not end. *)
Lemma drain_desired_closed fuel v ok l : drain_desired fuel v ok (mkDesiredChan l true) = Blocked.
Proof.
  revert v ok l. induction fuel as [|fuel IH]; intros v ok l; [done|].
  destruct l; cbn [drain_desired dc_try_recv dc_senders dc_closed]; apply IH.
Qed.

Section round.
Context {S P : Type} `{PL : PersistenceLayer S} `{PP : PlacementPolicy P}.
Context (cfg : ControlPlaneConfig) (env : cp_env).
Implicit Types (c : ControlPlane S P) (ss : ServiceInfoStorage).

Lemma EndpointLock_Lock_run a ss c :
  ss_heap c !! a = Some ss -> ss_EndpointLock ss = Unlocked ->
  EndpointLock_Lock a c = Ok (tt, with_heap (<[a := set_lock WLocked ss]> (ss_heap c)) c).
Proof.
  intros Hs Hl. unfold EndpointLock_Lock. go_run (ss_deref_run _ _ _ Hs). rewrite Hl.
  by apply ss_modify_run.
Qed.
Lemma EndpointLock_Unlock_run a ss c :
  ss_heap c !! a = Some ss -> ss_EndpointLock ss = WLocked ->
  EndpointLock_Unlock a c = Ok (tt, with_heap (<[a := set_lock Unlocked ss]> (ss_heap c)) c).
Proof.
  intros Hs Hl. unfold EndpointLock_Unlock. go_run (ss_deref_run _ _ _ Hs). rewrite Hl.
  by apply ss_modify_run.
Qed.

Lemma doUpscaling_run `{!SoundPlacement P, !TotalPlacement P} sched a n ss c :
  env_ok (S := S) env -> cp_ready c -> ss_heap c !! a = Some ss -> scale_inv n c ss ->
  0 <= n -> Z.of_nat (length (ss_Endpoints ss)) + n < 2 ^ 31 ->
  atomic_appends sched -> complete (Z.to_nat n) sched ->
  exists c' ss', doUpscaling cfg env sched a n c = Ok (tt, c') /\ svc_step env a c ss c' ss' /\ scale_inv 0 c' ss'.
Proof.
  intros Henv Hr Hs Hinv Hn Hlen Hat Hcomp.
  assert (Hu0 : undone (replicate (Z.to_nat n) UpPlace) = Z.to_nat n).
  { unfold undone. clear. induction (Z.to_nat n) as [|k IH]; [done|].
    cbn [replicate]. rewrite filter_cons, decide_True by done. cbn [length]. by rewrite IH. }
  destruct (up_run_inv cfg env (length sched) sched [] a (replicate (Z.to_nat n) UpPlace) c ss)
    as (pcs&c'&ss'&Hrun&Hl&Hi&Hst); try done.
  { split.
    - by intros i pc [-> _]%lookup_replicate.
    - by intros i j e e' [? _]%lookup_replicate.
    - rewrite Hu0, Z2Nat.id by lia. done.
    - rewrite Hu0. lia. }
  assert (Hdone : undone pcs = 0%nat).
  { unfold undone. destruct (filter _ pcs) as [|pc l] eqn:Ef; [done|]. exfalso.
    assert (Hin : pc ∈ filter (fun pc => up_done pc = false) pcs) by (rewrite Ef; by left).
    apply list_elem_of_filter in Hin as [Hd (i&Hpc)%list_elem_of_lookup].
    pose proof (lookup_lt_Some _ _ _ Hpc) as Hlt. rewrite Hl, length_replicate in Hlt.
    specialize (Hcomp i Hlt). apply (ui_pcs _ _ _ _ Hi) in Hpc. cbn [app] in Hpc.
    destruct pc; cbn in Hpc; destruct_and?; try done; lia. }
  exists c', ss'. split; [|split; [done|]].
  - unfold doUpscaling. go_run Hrun. by rewrite undone_zero.
  - pose proof (ui_scale _ _ _ _ Hi) as Hsc. by rewrite Hdone in Hsc.
Qed.

(** A round between its lock and its unlock: the scale is set, the lock is
    taken, [body] runs, the lock is released. *)
Lemma scaling_round_open fuel sched a ss v l c :
  ss_heap c !! a = Some ss -> ss_EndpointLock ss = Unlocked -> (length l < fuel)%nat ->
  let desired := default v (list.last l) in
  let ss2 := set_lock WLocked (with_metadata (set_ActualScale desired) ss) in
  scaling_round cfg env fuel sched a (mkDesiredChan (v :: l) false) c =
    ((if decide (ss_scale ss < desired) then doUpscaling cfg env sched a (desired - ss_scale ss)
      else if negb (isDownScalingDisabled env ss) && bool_decide (desired < ss_scale ss)
      then doDownscaling env a (ss_scale ss) desired else mret tt) ;;
     EndpointLock_Unlock a ;; mret (Some (mkDesiredChan [] false)))
    (with_heap (<[a := ss2]> (ss_heap c)) c).
Proof.
  intros Hs Hl Hf desired ss2. unfold scaling_round. cbn [dc_try_recv dc_senders dc_closed].
  erewrite gom_bind_run; [|by rewrite drain_desired_open].
  fold desired. replace (match l with [] => true | _ => true end) with true by (by destruct l).
  go_run (ss_deref_run _ _ _ Hs). erewrite gom_bind_run; [|by apply ss_modify_run].
  erewrite gom_bind_run;
    [|apply (EndpointLock_Lock_run a (with_metadata (set_ActualScale desired) ss)); [|exact Hl]].
  2: { simpl. apply list_lookup_insert_eq. by eapply lookup_lt_Some. }
  f_equal. unfold with_heap. simpl. by rewrite list_insert_insert_eq.
Qed.

(** The end of a round, from the state [c3] in which its body left the
    service. *)
Lemma round_unlock a c c2 c3 ss3 s :
  step_frame a c c2 -> step_frame a c2 (with_tasks (cp_tasks c2) c3) ->
  ss_heap c3 !! a = Some ss3 -> scale_inv 0 c3 ss3 -> ss_EndpointLock ss3 = WLocked ->
  ss_scale ss3 = s ->
  exists c' ss', (EndpointLock_Unlock a ;; mret (Some (mkDesiredChan [] false))) c3 =
      Ok (Some (mkDesiredChan [] false), c') /\
    cp_ready c' /\ ss_heap c' !! a = Some ss' /\ scale_inv 0 c' ss' /\
    ss_EndpointLock ss' = Unlocked /\ ss_scale ss' = s /\
    DataPlaneConnections c' = DataPlaneConnections c /\ SIStorage c' = SIStorage c /\
    (forall b, b ≠ a -> ss_heap c' !! b = ss_heap c !! b).
Proof.
  intros Hf2 Hf3 Hs3 Hi3 Hl3 He3.
  pose proof (step_frame_trans _ _ _ _ Hf2 Hf3) as Hf23.
  eexists _, (set_lock Unlocked ss3). split.
  { erewrite gom_bind_run; [reflexivity|]. by apply EndpointLock_Unlock_run. }
  split_and!; try done.
  - destruct Hf23 as [[] _ _ _ _ _ _]. by split.
  - simpl. apply list_lookup_insert_eq. by eapply lookup_lt_Some.
  - by destruct Hi3; split.
  - apply Hf23.
  - apply Hf23.
  - intros b Hb. simpl. rewrite list_lookup_insert_ne by done. by apply Hf23.
Qed.

End round.

(** ** Failures of sandboxes *)

Section failures.
Context {S P : Type}.
Context (env : cp_env).
Implicit Types (c : ControlPlane S P) (ss : ServiceInfoStorage).

(** Every endpoint of the service is on a registered node. *)
Definition nodes_known c ss : Prop :=
  forall e name, e ∈ ss_Endpoints ss -> Node e = Some name ->
    is_Some (InternalMap (NIStorage c) !! name).

Lemma search_spec l cid :
  match searchEndpointByContainerName l cid with
  | Some e => e ∈ l /\ SandboxID e = cid
  | None => forall e, e ∈ l -> SandboxID e ≠ cid
  end.
Proof.
  unfold searchEndpointByContainerName. destruct (list_find _ l) as [[i e]|] eqn:E; simpl.
  - apply list_find_Some in E as (H1&H2&_). split; [by eapply list_elem_of_lookup_2|done].
  - apply list_find_None in E. rewrite list.Forall_forall in E. auto.
Qed.

Lemma removeEndpointFromWNStruct_frame a e ss c :
  cp_ready c -> nodes_known c ss -> e ∈ ss_Endpoints ss -> ss_heap c !! a = Some ss ->
  exists c', removeEndpointFromWNStruct e c = Ok (tt, c') /\ step_frame a c c' /\
    ss_heap c' = ss_heap c /\ nodes_known c' ss /\ cp_rpcs c' = cp_rpcs c.
Proof.
  intros Hr Hk He Hs. destruct (Node e) as [name|] eqn:En.
  - destruct (Hk e name He En) as [wn Hn].
    rewrite (removeEndpointFromWNStruct_run e name wn c Hr En Hn).
    set (em := mkStructure _ Unlocked).
    destruct (cp_ready_set_node name wn em c Hr Hn eq_refl) as (c'&Hrun&Hr'&Hc').
    exists c'. split; [done|]. subst c'. split_and!; try done.
    + split; try done; simpl. intros n. rewrite lookup_insert. case_decide; [subst|done].
      simpl. by rewrite Hn.
    + intros e' n' He' Hn'. simpl. rewrite lookup_insert. case_decide; [eauto|].
      by apply (Hk e').
  - exists c. unfold removeEndpointFromWNStruct. rewrite En. split_and!; done || by split.
Qed.

Lemma failed_endpoints_run a ss cids R c :
  cp_ready c -> nodes_known c ss -> ss_heap c !! a = Some ss ->
  NoDup (SandboxID <$> ss_Endpoints ss) -> (forall e, e ∈ R -> e ∈ ss_Endpoints ss) ->
  exists c' R', failed_endpoints a cids R c = Ok (R', c') /\ step_frame a c c' /\
    ss_heap c' = ss_heap c /\ cp_rpcs c' = cp_rpcs c /\
    (forall e, e ∈ R' <-> e ∈ R \/ (e ∈ ss_Endpoints ss /\ SandboxID e ∈ cids)).
Proof.
  intros Hr Hk Hs Hnd. revert R c Hr Hk Hs. induction cids as [|cid cids IH]; intros R c Hr Hk Hs HR;
    cbn [failed_endpoints].
  { exists c, R. split_and!; try done. intros e. split; [auto|].
    intros [?|[_ Hx]]; [done|by apply elem_of_nil in Hx]. }
  go_run (ss_deref_run _ _ _ Hs). pose proof (search_spec (ss_Endpoints ss) cid) as Hsearch.
  destruct (searchEndpointByContainerName _ cid) as [e0|].
  - destruct Hsearch as [He0 Hcid].
    destruct (removeEndpointFromWNStruct_frame a e0 ss c Hr Hk He0 Hs) as (c1&H1&Hf1&Hh1&Hk1&Hrp1).
    go_run H1.
    destruct (IH ({[e0]} ∪ R) c1 (sf_ready _ _ _ Hf1) Hk1) as (c'&R'&Hrun&Hf&Hh&Hrp&HR').
    { by rewrite Hh1. } { intros e [->%elem_of_singleton|?]%elem_of_union; auto. }
    exists c', R'. split; [done|]. split; [by eauto with go|]. split; [congruence|].
    split; [congruence|]. intros e. rewrite HR', elem_of_union, elem_of_singleton, elem_of_cons.
    split.
    + intros [[->|?]|[? ?]]; auto.
    + intros [?|[He [Hx|Hx]]]; auto. left. left.
      apply list_elem_of_lookup in He as [i Hi]. apply list_elem_of_lookup in He0 as [j Hj].
      assert (i = j) as ->; [|congruence].
      eapply NoDup_lookup; [exact Hnd| |]; rewrite list_lookup_fmap; [by rewrite Hi|].
      by rewrite Hj; simpl; f_equal; congruence.
  - destruct (IH R c Hr Hk Hs HR) as (c'&R'&Hrun&Hf&Hh&Hrp&HR'). exists c', R'. split_and!; try done.
    intros e. rewrite HR', elem_of_cons. split; [intros [?|[? ?]]; auto|].
    intros [?|[He [Hx|Hx]]]; auto. by destruct (Hsearch e He).
Qed.

Definition update_rpcs c (name : string) (endpoints : list EndpointInfo) : list rpc :=
  (fun kv => RpcUpdateEndpointList kv.1 name endpoints)
    <$> e_dp_ord env (InternalMap (DataPlaneConnections c)).

Lemma removeEndpoints_run a ss cids c :
  valid_order (e_dp_ord env) -> cp_ready c -> ss_heap c !! a = Some ss ->
  ss_EndpointLock ss = Unlocked -> nodes_known c ss -> NoDup (SandboxID <$> ss_Endpoints ss) ->
  scale_inv 0 c ss -> Z.of_nat (length (ss_Endpoints ss)) < 2 ^ 31 ->
  let rest := filter (fun e => SandboxID e ∉ cids) (ss_Endpoints ss) in
  exists c' ss', removeEndpoints env a cids c = Ok (tt, c') /\ cp_ready c' /\
    ss_heap c' !! a = Some ss' /\ ss_Endpoints ss' = rest /\ scale_inv 0 c' ss' /\
    ss_EndpointLock ss' = Unlocked /\
    cp_rpcs c' = cp_rpcs c ++ update_rpcs c (si_Name (ss_ServiceInfo ss)) (prepareEndpointInfo rest).
Proof.
  intros Hord Hr Hs Hl Hk Hnd [Hsc Hndp Hal] Hlen rest.
  pose proof (heap_frame a c (set_lock WLocked) ss Hr Hs) as [Hf1 Hs1].
  unfold removeEndpoints. erewrite gom_bind_run; [|by apply EndpointLock_Lock_run].
  set (c1 := with_heap _ c) in *.
  destruct (failed_endpoints_run a (set_lock WLocked ss) cids ∅ c1)
    as (c2&R&Hrun&Hf2&Hh2&Hrp2&HR); [apply Hf1|done|done|done|set_solver|].
  assert (HRin : forall e, e ∈ R -> e ∈ ss_Endpoints ss).
  { intros e He. apply HR in He as [He|[He _]]; [by apply elem_of_empty in He|exact He]. }
  assert (Hfil : filter (fun e => e ∉ R) (ss_Endpoints ss) = rest).
  { unfold rest. apply filter_ext_in. intros e He. rewrite HR. split; intros Hn Hin; apply Hn; [auto|].
    destruct Hin as [Hin|[_ Hin]]; [by apply elem_of_empty in Hin|done]. }
  assert (Hnde : NoDup (ss_Endpoints ss)) by (by eapply NoDup_fmap_1).
  pose proof (exclude_length R (ss_Endpoints ss) Hnde HRin) as Hcount. rewrite Hfil in Hcount.
  go_run Hrun. rewrite <- Hh2 in Hs1. erewrite gom_bind_run; [|by apply ss_modify_run].
  pose proof (heap_frame a c2 (add_scale (- Z.of_nat (size R))) _ (sf_ready _ _ _ Hf2) Hs1) as [Hf3 Hs3].
  set (c3 := with_heap _ c2) in *.
  unfold excludeEndpoints. erewrite gom_bind_run; [|by apply ss_modify_run].
  cbv beta. rewrite exclude_filter. cbn [add_scale with_metadata set_controller set_lock ss_Endpoints].
  rewrite Hfil. set (ss4 := set_endpoints rest _).
  pose proof (heap_frame a c3 (fun _ => ss4) _ (sf_ready _ _ _ Hf3) Hs3) as [Hf4 Hs4].
  cbv beta in Hf4, Hs4. set (c4 := with_heap _ c3) in *.
  go_run (ss_deref_run _ _ _ Hs4).
  erewrite gom_bind_run; [|apply (updateEndpoints_run _ _ _ _ _ (sf_ready _ _ _ Hf4) Hord Hs4)].
  assert (Hdp : DataPlaneConnections c4 = DataPlaneConnections c).
  { rewrite (sf_dp _ _ _ Hf4), (sf_dp _ _ _ Hf3), (sf_dp _ _ _ Hf2). apply Hf1. }
  eexists _, (set_lock Unlocked ss4). split; [by apply EndpointLock_Unlock_run|].
  split_and!; try done.
  - destruct (sf_ready _ _ _ Hf4). by split.
  - simpl. apply list_lookup_insert_eq. by eapply lookup_lt_Some.
  - split; simpl.
    + change (i64 (ss_scale ss + - Z.of_nat (size R)) = Z.of_nat (length rest) + 0).
      rewrite i64_id by (unfold is_i64; lia). lia.
    + eapply sublist_NoDup; [exact Hndp|]. apply fmap_sublist, sublist_filter.
    + apply list.Forall_forall. intros e [_ He]%list_elem_of_filter.
      rewrite list.Forall_forall in Hal. specialize (Hal _ He). simpl in Hal.
      pose proof (sf_alloc _ _ _ Hf2). simpl in *. lia.
  - unfold update_rpcs. rewrite <- Hdp. simpl. by rewrite Hrp2.
Qed.

(** C28: A failure report removes exactly the sandboxes it names.  For a
    registered service whose sandboxes have distinct identifiers and whose
    nodes are registered, the handler returns; the endpoints left are those
    the report does not name, in their order, the recorded scale drops by
    the number of endpoints removed, however often an identifier is
    repeated, and every data plane is sent the remaining list. *)
Theorem HandleFailure_removes_named a ss f c :
  fl_Type f ≠ SANDBOX_DAEMON_FAILURE -> valid_order (e_dp_ord env) ->
  cp_ready c -> ss_heap c !! a = Some ss -> InternalMap (SIStorage c) !! fl_ServiceName f = Some a ->
  ss_EndpointLock ss = Unlocked -> nodes_known c ss -> NoDup (SandboxID <$> ss_Endpoints ss) ->
  scale_inv 0 c ss -> Z.of_nat (length (ss_Endpoints ss)) < 2 ^ 31 ->
  let rest := filter (fun e => SandboxID e ∉ fl_SandboxIDs f) (ss_Endpoints ss) in
  exists c' ss', HandleFailure env [f] c = Ok (true, c') /\ cp_ready c' /\
    ss_heap c' !! a = Some ss' /\ ss_Endpoints ss' = rest /\ scale_inv 0 c' ss' /\
    ss_EndpointLock ss' = Unlocked /\
    cp_rpcs c' = cp_rpcs c ++
      update_rpcs c (si_Name (ss_ServiceInfo ss)) (prepareEndpointInfo rest).
Proof.
  intros Hty Hord Hr Hs Hsi Hl Hk Hnd Hinv Hlen rest.
  destruct (removeEndpoints_run a ss (fl_SandboxIDs f) c) as (c'&ss'&Hrun&Hrest); try done.
  exists c', ss'. split; [|done]. unfold HandleFailure. cbn [go_for].
  erewrite gom_bind_run; [reflexivity|]. erewrite gom_bind_run; [reflexivity|].
  destruct (fl_Type f); try done;
    (erewrite gom_bind_run; [|unfold on_si, zoom, Get, go_gets; rewrite Hsi; reflexivity]);
    by destruct c.
Qed.
End failures.

(** ** Where the loop departs from its intent *)

Section departures.
Context {S P : Type} `{PL : PersistenceLayer S} `{PP : PlacementPolicy P}.
Context (cfg : ControlPlaneConfig) (env : cp_env).
Implicit Types (c : ControlPlane S P) (ss : ServiceInfoStorage).

(** Deregistration never tears the sandboxes down.  When the channel of
    desired scales is closed, the inner loop of the scaling loop, whose exit
    is the default case of a select, finds the closed channel ready at every
    iteration: for no number of iterations does the round reach the code
    that removes all endpoints. *)
Theorem closed_channel_never_downscales fuel sched a c :
  scaling_round cfg env fuel sched a (mkDesiredChan [] true) c = Blocked.
Proof.
  unfold scaling_round. cbn [dc_try_recv dc_senders dc_closed].
  apply gom_bind_blocked. by rewrite drain_desired_closed.
Qed.

(** While downscaling is disabled the recorded scale is still overwritten.
    A round that asks for less than the current scale within the stable
    window of a reconstructed service leaves every endpoint running but
    records the smaller scale, so that the surplus sandboxes are never
    removed by a later round that asks for the same scale. *)
Theorem disabled_downscaling_loses_sandboxes fuel a ss v c :
  ss_heap c !! a = Some ss -> ss_EndpointLock ss = Unlocked -> (0 < fuel)%nat ->
  v < ss_scale ss -> isDownScalingDisabled env ss = true ->
  exists c' ss', scaling_round cfg env fuel [] a (mkDesiredChan [v] false) c =
      Ok (Some (mkDesiredChan [] false), c') /\
    ss_heap c' !! a = Some ss' /\ ss_Endpoints ss' = ss_Endpoints ss /\ ss_scale ss' = v /\
    cp_tasks c' = cp_tasks c /\
    (forall env', exists c'', scaling_round cfg env' fuel [] a (mkDesiredChan [v] false) c' =
       Ok (Some (mkDesiredChan [] false), c'') /\ cp_tasks c'' = cp_tasks c).
Proof.
  intros Hs Hl Hf Hlt Hdis.
  assert (Hround : forall env0 ss0 c0, ss_heap c0 !! a = Some ss0 -> ss_EndpointLock ss0 = Unlocked ->
    v <= ss_scale ss0 -> negb (isDownScalingDisabled env0 ss0) && bool_decide (v < ss_scale ss0) = false ->
    exists c' ss', scaling_round cfg env0 fuel [] a (mkDesiredChan [v] false) c0 =
        Ok (Some (mkDesiredChan [] false), c') /\ ss_heap c' !! a = Some ss' /\
      ss_Endpoints ss' = ss_Endpoints ss0 /\ ss_scale ss' = v /\ ss_EndpointLock ss' = Unlocked /\
      cp_tasks c' = cp_tasks c0).
  { intros env0 ss0 c0 Hs0 Hl0 Hle Hskip. rewrite (scaling_round_open cfg env0 fuel [] a ss0) by done.
    cbn [default list.last]. rewrite decide_False by (simpl; lia). simpl. rewrite Hskip.
    assert (Hs2 : forall x, <[a := x]> (ss_heap c0) !! a = Some x).
    { intros x. apply list_lookup_insert_eq. by eapply lookup_lt_Some. }
    eexists _, (set_lock Unlocked (with_metadata (set_ActualScale v) ss0)). split.
    { erewrite gom_bind_run; [|reflexivity]. erewrite gom_bind_run; [reflexivity|].
      apply (EndpointLock_Unlock_run a (set_lock WLocked (with_metadata (set_ActualScale v) ss0)));
        [apply Hs2|done]. }
    simpl. rewrite list_insert_insert_eq, Hs2. done. }
  destruct (Hround env ss c Hs Hl) as (c'&ss'&H1&H2&H3&H4&H5&H6); [lia|by rewrite Hdis|].
  exists c', ss'. split_and!; try done. intros env'.
  destruct (Hround env' ss' c' H2 H5) as (c''&_&H7&_&_&_&_&H8); [lia| |].
  { rewrite H4, bool_decide_false by lia. by rewrite andb_false_r. }
  exists c''. split; [done|]. congruence.
Qed.

(** The goroutines of one upscaling append to the list of endpoints
    without a lock.  When two of them read the list before either stores
    it, both end, both sandboxes run, but only the one stored last is an
    endpoint of the service: the other is never drained or deleted. *)
Theorem concurrent_append_loses_endpoint a ss e1 e2 c :
  valid_order (e_dp_ord env) -> cp_ready c -> ss_heap c !! a = Some ss ->
  exists c', up_run cfg env [0; 1; 0; 1]%nat a [UpAppend e1; UpAppend e2] c =
      Ok ([UpDone; UpDone], c') /\
    ss_heap c' !! a = Some (set_endpoints (ss_Endpoints ss ++ [e2]) ss).
Proof.
  intros Hord Hr Hs.
  assert (Hread : forall e, up_step cfg env 0 a (UpAppend e) c = Ok (UpStore e (ss_Endpoints ss), c)).
  { intros e. cbn [up_step]. unfold up_read. by go_run (ss_deref_run _ _ _ Hs). }
  assert (Hstore : forall e c0 ss0, cp_ready c0 -> ss_heap c0 !! a = Some ss0 ->
    exists c1, up_step cfg env 0 a (UpStore e (ss_Endpoints ss)) c0 = Ok (UpDone, c1) /\ cp_ready c1 /\
      ss_heap c1 !! a = Some (set_endpoints (ss_Endpoints ss ++ [e]) ss0)).
  { intros e c0 ss0 Hr0 Hs0. cbn [up_step]. unfold up_store.
    destruct (heap_frame a c0 (set_endpoints (ss_Endpoints ss ++ [e])) ss0 Hr0 Hs0) as [Hf1 Hs1].
    eexists. split.
    - erewrite gom_bind_run; [|by apply ss_modify_run]. erewrite gom_bind_run; [reflexivity|].
      apply (updateEndpoints_run env a _ _ _ (sf_ready _ _ _ Hf1) Hord Hs1).
    - split; [|exact Hs1]. destruct (sf_ready _ _ _ Hf1). by split. }
  destruct (Hstore e1 c ss Hr Hs) as (c1&H1&Hr1&Hs1).
  destruct (Hstore e2 c1 _ Hr1 Hs1) as (c2&H2&_&Hs2).
  exists c2. split; [|exact Hs2].
  do 2 (erewrite up_run_cons; [|reflexivity|apply Hread]).
  erewrite up_run_cons; [|reflexivity|exact H1].
  erewrite up_run_cons; [|reflexivity|exact H2]. reflexivity.
Qed.

(** A node that leaves while a sandbox is being created on it takes the
    control plane down: the goroutine looks the node up again after the
    call and uses the nil interface it finds. *)
Theorem node_lost_during_creation_panics a ss wn c :
  ss_heap c !! a = Some ss -> wn_connected wn = true ->
  internalLock (NIStorage c) = Unlocked -> InternalMap (NIStorage c) !! wn_Name wn = None ->
  (forall n, e_err env n = None /\ scs_Success (e_created env n) = true) ->
  cfg_EndpointPersistence cfg = false ->
  up_create cfg env a wn c = Panic.
Proof.
  intros Hs Hc Hl Hn He Hp. unfold up_create. go_run (ss_deref_run _ _ _ Hs).
  erewrite gom_bind_run.
  2: { unfold CreateSandbox, wn_call, call. rewrite Hc. reflexivity. }
  cbv beta iota zeta. destruct (He (length (cp_rpcs c))) as [H1 H2].
  rewrite decide_False by (rewrite H1, H2; by intros [?|?]). rewrite Hp.
  do 3 (erewrite gom_bind_run; [|reflexivity]).
  erewrite gom_bind_run; [|apply ni_get_run; exact Hl].
  cbn [NIStorage with_new_endpoint with_rpc]. by rewrite Hn.
Qed.
End departures.

(** ** Concrete states *)

Definition ex_cfg : ControlPlaneConfig := mkControlPlaneConfig true false false "10.0.0.2:9091" [] "random".
Definition ex_created (n : nat) : SandboxCreationStatus :=
  mkSandboxCreationStatus true ("sb" +:+ pretty n)%string (mkPortMapping (1000 + Z.of_nat n) 80 TCP).
Definition ex_env : cp_env :=
  mkCpEnv (1700000000 * Second) map_to_list map_to_list map_to_list map_to_list elements
    (fun _ => example_env) (fun _ => 0) (fun _ => None) ex_created (fun _ => []) (fun _ => None).
Definition ex_service : ServiceInfo :=
  mkServiceInfo "f" "image" 1 1 (mkPortMapping 0 80 TCP) (NewDefaultAutoscalingMetadata false).
Definition ex_endpoint (k : nat) : Endpoint :=
  mkEndpoint k ("old" +:+ pretty k)%string "10.0.0.1:900" (Some "n1"%string) 900.
Definition ex_ss (k : nat) (start : Z) : ServiceInfoStorage :=
  with_metadata (set_ActualScale (Z.of_nat k))
    (mkServiceInfoStorage ex_service
       (NewPerFunctionStateController (si_AutoscalingConfig ex_service) (2 * Second)) Unlocked
       (ex_endpoint <$> seq 0 k) start).
Definition ex_wn : WorkerNode := ConnectToWorker true (example_node "n1" true).
Definition ex_dp : DataPlaneConnectionInfo :=
  SetConnected (NewDataplaneConnection 0 "10.0.0.9" "8081" "8080").
Definition ex_cp (k : nat) (start : Z) : ControlPlane EmptyPersistence Random :=
  mkControlPlane (mkStructure {[ "10.0.0.9"%string := ex_dp ]} Unlocked)
    (mkStructure {[ "n1"%string := ex_wn ]} Unlocked)
    (mkStructure {[ "f"%string := 0%nat ]} Unlocked) [ex_ss k start] tt tt [] k [] [0%nat].

Lemma ex_cp_ready k start : cp_ready (ex_cp k start).
Proof.
  split; try done; simpl.
  - intros name wn Hl. apply lookup_singleton_Some in Hl as [<- <-]. done.
  - intros ip d Hl. apply lookup_singleton_Some in Hl as [<- <-]. done.
Qed.
Lemma ex_env_ok : env_ok (S := EmptyPersistence) ex_env.
Proof.
  split.
  - apply map_to_list_valid.
  - intros i. apply map_to_list_valid.
  - intros e s. by exists None, s.
Qed.
Lemma ex_ptrs k i : ep_ptr <$> (ex_endpoint <$> seq i k) = seq i k.
Proof. revert i. induction k as [|k IH]; intros i; simpl; [done|]. by rewrite IH. Qed.
Lemma ex_scale_inv k start : scale_inv 0 (ex_cp k start) (ex_ss k start).
Proof.
  split.
  - unfold ss_scale. simpl. rewrite length_fmap, length_seq. lia.
  - simpl. rewrite ex_ptrs. apply NoDup_seq.
  - simpl. apply list.Forall_forall. intros e He. apply list_elem_of_fmap in He as (i&->&Hi).
    apply elem_of_seq in Hi. simpl. lia.
Qed.

Lemma doDownscaling_exact_witness :
  exists c' E rest, doDownscaling ex_env 0 3 1 (ex_cp 3 zero_time) = Ok (tt, c') /\
    cp_tasks c' = [] ++ [(0%nat, E)] /\
    ss_heap c' !! 0%nat = Some (set_endpoints rest (ex_ss 3 zero_time)) /\
    rest = filter (fun e => e ∉ E) (ss_Endpoints (ex_ss 3 zero_time)) /\
    ss_Endpoints (ex_ss 3 zero_time) ≡ₚ rest ++ elements E /\
    length (elements E) = 2%nat.
Proof.
  apply (doDownscaling_exact ex_env 0 (ex_ss 3 zero_time) 3 1 (ex_cp 3 zero_time)); [reflexivity|].
  apply (NoDup_fmap_1 ep_ptr). apply (si_nodup _ _ _ (ex_scale_inv 3 zero_time)).
Defined.


Lemma HandleFailure_removes_named_witness :
  exists c' ss', HandleFailure ex_env [mkFailure SANDBOX_FAILURE "f" ["old1"; "old1"; "zz"]%string]
      (ex_cp 3 zero_time) = Ok (true, c') /\
    ss_heap c' !! 0%nat = Some ss' /\ ss_scale ss' = 2.
Proof.
  destruct (HandleFailure_removes_named ex_env 0 (ex_ss 3 zero_time)
    (mkFailure SANDBOX_FAILURE "f" ["old1"; "old1"; "zz"]%string) (ex_cp 3 zero_time))
    as (c'&ss'&H1&_&H2&H3&H4&_).
  - discriminate.
  - apply map_to_list_valid.
  - apply ex_cp_ready.
  - reflexivity.
  - reflexivity.
  - reflexivity.
  - intros e name He Hn. apply (list_elem_of_fmap ex_endpoint (seq 0 3)) in He as (i&->&Hi). simpl in Hn.
    injection Hn as <-. simpl. eexists. reflexivity.
  - simpl. apply (bool_decide_unpack _). vm_compute. exact I.
  - apply ex_scale_inv.
  - simpl. lia.
  - exists c', ss'. split; [exact H1|]. split; [exact H2|].
    rewrite (si_scale _ _ _ H4), H3. reflexivity.
Defined.

Lemma disabled_downscaling_loses_sandboxes_witness :
  let start := 1700000000 * Second - 5 * Second in
  exists c' ss', scaling_round ex_cfg ex_env 5 [] 0 (mkDesiredChan [1] false) (ex_cp 3 start) =
      Ok (Some (mkDesiredChan [] false), c') /\
    ss_heap c' !! 0%nat = Some ss' /\ length (ss_Endpoints ss') = 3%nat /\ ss_scale ss' = 1.
Proof.
  intros start.
  destruct (disabled_downscaling_loses_sandboxes ex_cfg ex_env 5 0 (ex_ss 3 start) 1 (ex_cp 3 start))
    as (c'&ss'&H1&H2&H3&H4&_); [reflexivity|reflexivity|lia|reflexivity|reflexivity|].
  exists c', ss'. split; [exact H1|]. split; [exact H2|]. rewrite H3. split; [reflexivity|exact H4].
Defined.

Lemma concurrent_append_loses_endpoint_witness :
  exists c', up_run ex_cfg ex_env [0; 1; 0; 1]%nat 0 [UpAppend (ex_endpoint 8); UpAppend (ex_endpoint 9)]
      (ex_cp 1 zero_time) = Ok ([UpDone; UpDone], c') /\
    ss_heap c' !! 0%nat = Some (set_endpoints [ex_endpoint 0; ex_endpoint 9] (ex_ss 1 zero_time)).
Proof.
  apply (concurrent_append_loses_endpoint ex_cfg ex_env 0 (ex_ss 1 zero_time) (ex_endpoint 8)
    (ex_endpoint 9) (ex_cp 1 zero_time)); [apply map_to_list_valid|apply ex_cp_ready|reflexivity].
Defined.

Lemma node_lost_during_creation_panics_witness :
  up_create ex_cfg ex_env 0 (ConnectToWorker true (example_node "gone" true)) (ex_cp 1 zero_time) = Panic.
Proof.
  apply (node_lost_during_creation_panics ex_cfg ex_env 0 (ex_ss 1 zero_time)); try reflexivity.
  intros n. split; reflexivity.
Defined.
