(* ===== verification/ControlPlane.v ===== *)
(** * The control plane

    [internal/control_plane/control_plane.go], [helpers.go] and
    [reconstruction.go]: the handlers of the control plane on the state of
    [ScalingLoop], its monitoring loops (one iteration each) and the
    reconstruction of the state from the persistence layer after a failover.

    A [defer Unlock] is the [Unlock] at the end of the handler.  A goroutine
    that only connects to a node is an operation of its own
    ([connect_node], [connect_recovered]): it may run at any later time. *)
From Stdlib Require Import ZArith Lia.
From stdpp Require Import base tactics list gmap strings sets numbers.
From S2P Require Import Prelude Sync Autoscaling Controller Core Placement Persistence ScalingLoop.

Local Open Scope Z_scope.

Definition HeartbeatInterval : Z := 5 * Second.
Definition TolerateHeartbeatMisses : Z := 3.

Definition NewControlPlane {S P} (policy : P) (client : S) : ControlPlane S P :=
  mkControlPlane NewControlPlaneSyncStructure NewControlPlaneSyncStructure
    NewControlPlaneSyncStructure [] policy client [] 0 [] [].

Inductive parsed_policy : Type := PolicyRandom | PolicyRoundRobin | PolicyKubernetes.
Definition ParsePlacementPolicy (cfg : ControlPlaneConfig) : parsed_policy :=
  if decide (cfg_PlacementPolicy cfg = "random") then PolicyRandom
  else if decide (cfg_PlacementPolicy cfg = "round-robin") then PolicyRoundRobin
  else if decide (cfg_PlacementPolicy cfg = "kubernetes") then PolicyKubernetes
  else PolicyRandom.

Section handlers.
Context {S P : Type} `{PL : PersistenceLayer S} `{PP : PlacementPolicy P}.
Context (cfg : ControlPlaneConfig) (env : cp_env).

Abbreviation CP := (ControlPlane S P).
Abbreviation M := (GoM CP).

Definition dataplane_information (i : DataplaneInfo) : DataplaneInformation :=
  mkDataplaneInformation (di_IP i) (Itoa (di_APIPort i)) (Itoa (di_ProxyPort i)).

(** ** Data planes *)

(** The services are announced to the new data plane one by one; the first
    failure takes it off the table. *)
Fixpoint announce_services (key : string) (services : list (string * nat))
  : M (ActionStatus * go_error * bool) :=
  match services with
  | [] => mret (status_ok, None, false)
  | (_, a) :: services' =>
      ss ← ss_deref a;
      o ← on_dp (Get key);
      conn ← go_lift (deref o);
      err ← dp_call env conn (RpcAddDeployment key (si_Name (ss_ServiceInfo ss)));
      match err with
      | Some e => on_dp (Remove key) ;; mret (status_failed, Some e, false)
      | None =>
          singlethreadUpdateEndpoints env a (prepareCurrentEndpointInfoList ss) ;;
          announce_services key services'
      end
  end.

Definition RegisterDataplane (i : DataplaneInfo) : M (ActionStatus * go_error * bool) :=
  let dataplaneInfo := dataplane_information i in
  let key := di_IP i in
  let dataplaneConnection := NewDataplaneConnection (e_now env) (dpi_Address dataplaneInfo)
                               (dpi_ApiPort dataplaneInfo) (dpi_ProxyPort dataplaneInfo) in
  on_si Lock ;;
  on_dp Lock ;;
  present ← on_dp (Get key);
  r ← match present with
      | Some conn =>
          on_dp (Set_ key (UpdateHeartBeat (e_now env) conn)) ;; mret (status_ok, None, true)
      | None =>
          err ← on_persistence (StoreDataPlaneInformation dataplaneInfo);
          match err with
          | Some e => on_dp (Remove key) ;; mret (status_failed, Some e, false)
          | None =>
              match e_dial env (dpi_Address dataplaneInfo) with
              | Some e => on_dp (Remove key) ;; mret (status_failed, Some e, false)
              | None =>
                  on_dp (Set_ key (SetConnected dataplaneConnection)) ;;
                  services ← on_si GetMap;
                  announce_services key (e_si_ord env services)
              end
          end
      end;
  on_dp Unlock ;;
  on_si Unlock ;;
  mret r.

Definition DeregisterDataplane (i : DataplaneInfo) : M (ActionStatus * go_error) :=
  let dataplaneInfo := dataplane_information i in
  on_si Lock ;;
  on_dp Lock ;;
  present ← on_dp (Get (dpi_Address dataplaneInfo));
  r ← match present with
      | Some _ =>
          err ← on_persistence (DeleteDataPlaneInformation dataplaneInfo);
          match err with
          | Some e => mret (status_failed, Some e)
          | None =>
              services ← on_si GetMap;
              go_for (e_si_ord env services) (fun kv =>
                ss_modify kv.2 (with_metadata (RemoveDataplane (di_IP i)))) ;;
              on_dp (Remove (dpi_Address dataplaneInfo)) ;;
              mret (status_ok, None)
          end
      | None => mret (status_ok, None)
      end;
  on_dp Unlock ;;
  on_si Unlock ;;
  mret r.

Definition dataplane_url (d : DataPlaneConnectionInfo) : string :=
  (dp_IP d +:+ ":" +:+ dp_ProxyPort d)%string.

Definition GetHAProxyConfig : M HAProxyConfig :=
  let registrationServers := cfg_RegistrationServer cfg :: cfg_RegistrationServerReplicas cfg in
  on_dp Lock ;;
  m ← on_dp GetMap;
  let dataPlanes := foldl (fun l kv => l ++ [dataplane_url kv.2]) [] (e_dp_ord env m) in
  on_dp Unlock ;;
  mret (mkHAProxyConfig dataPlanes registrationServers).

(** [ReviseDataplanesInLB]: the callback works on the load balancer, which is not
    part of this state; [R] is a state that holds both, [run] an operation of
    the control plane within it. *)
Definition ReviseDataplanesInLB {R} (run : forall A, M A -> GoM R A) (callback : list string -> GoM R bool) : GoM R bool :=
  run _ (on_dp RLock) ;;
  m ← run _ (on_dp GetMap);
  let dataplanes := foldl (fun l kv => l ++ [dataplane_url kv.2]) [] (e_dp_ord env m) in
  r ← callback dataplanes;
  run _ (on_dp RUnlock) ;;
  mret r.

(** ** Worker nodes *)

Definition node_configuration (i : NodeInfo) : WorkerNodeConfiguration :=
  mkWorkerNodeConfiguration (ni_NodeID i) (ni_IP i) (Itoa (ni_Port i)) (ni_CpuCores i) (ni_MemorySize i).
Definition node_information (i : NodeInfo) : WorkerNodeInformation :=
  mkWorkerNodeInformation (ni_NodeID i) (ni_IP i) (Itoa (ni_Port i)) (ni_CpuCores i) (ni_MemorySize i).

Definition RegisterNode (i : NodeInfo) : M (ActionStatus * go_error) :=
  let wn := NewWorkerNode (e_now env) (node_configuration i) in
  on_ni Lock ;;
  present ← on_ni (Get (ni_NodeID i));
  r ← match present with
      | Some _ => mret (mkActionStatus false
          "Node registration failed. Node with the same name already exists.", None)
      | None =>
          err ← on_persistence (StoreWorkerNodeInformation (node_information i));
          match err with
          | Some e => on_ni (AtomicRemove (ni_NodeID i)) ;; mret (status_failed, Some e)
          | None =>
              on_ni (Set_ (ni_NodeID i) wn) ;;
              (* [go wn.ConnectToWorker()]: see [connect_node] *)
              on_ni (Set_ (ni_NodeID i) (SetSchedulability true wn)) ;;
              mret (status_ok, None)
          end
      end;
  on_ni Unlock ;;
  mret r.

(** The goroutine of [RegisterNode]. *)
Definition connect_node (name : string) : M unit :=
  m ← on_ni GetMap;
  match m !! name with
  | None => mret tt
  | Some wn => on_ni (Set_ name (ConnectToWorker (bool_decide (e_dial env (wn_IP wn) = None)) wn))
  end.

(** [endpoint.Node.GetName()] of a nil node panics. *)
Fixpoint endpoints_on_node (nodeID : string) (l : list Endpoint) (toExclude : gset Endpoint)
  : outcome (gset Endpoint) :=
  match l with
  | [] => Ok toExclude
  | e :: l' =>
      name ← deref (Node e);
      endpoints_on_node nodeID l' (if decide (name = nodeID) then {[e]} ∪ toExclude else toExclude)
  end.

Definition removeEndointsAssociatedWithNode (nodeID : string) : M unit :=
  on_si Lock ;;
  services ← on_si GetMap;
  go_for (e_si_ord env services) (fun kv =>
    EndpointLock_Lock kv.2 ;;
    ss ← ss_deref kv.2;
    toExclude ← go_lift (endpoints_on_node nodeID (ss_Endpoints ss) ∅);
    excludeEndpoints kv.2 toExclude ;;
    EndpointLock_Unlock kv.2 ;;
    ss_modify kv.2 (add_scale (- Z.of_nat (size toExclude)))) ;;
  on_si Unlock.

Definition DeregisterNode (i : NodeInfo) : M (ActionStatus * go_error) :=
  on_ni Lock ;;
  present ← on_ni (Get (ni_NodeID i));
  r ← match present with
      | Some _ =>
          err ← on_persistence (DeleteWorkerNodeInformation (ni_NodeID i));
          match err with
          | Some e => mret (status_failed, Some e)
          | None =>
              removeEndointsAssociatedWithNode (ni_NodeID i) ;;
              on_ni (Remove (ni_NodeID i)) ;;
              mret (status_ok, None)
          end
      | None => mret (mkActionStatus false "Node registration failed. Node doesn't exists.", None)
      end;
  on_ni Unlock ;;
  mret r.

(** No lock is taken. *)
Definition NodeHeartbeat (i : NodeHeartbeatMessage) : M ActionStatus :=
  m ← on_ni GetMap;
  match m !! hb_NodeID i with
  | None => mret status_failed
  | Some wn =>
      on_ni (Set_ (hb_NodeID i) (SetSchedulability true (SetUsage (hb_CpuUsage i) (hb_MemoryUsage i)
        (UpdateLastHearBeat (e_now env) wn)))) ;;
      mret status_ok
  end.

(** ** Services *)

Definition new_service (startTime : Z) (serviceInfo : ServiceInfo) : ServiceInfoStorage :=
  mkServiceInfoStorage serviceInfo
    (NewPerFunctionStateController (si_AutoscalingConfig serviceInfo) (2 * Second)) Unlocked [] startTime.

(** Allocation of the service object and start of its loop. *)
Definition alloc_service (ss : ServiceInfoStorage) : M nat := fun c =>
  let a := length (ss_heap c) in
  Ok (a, mkControlPlane (DataPlaneConnections c) (NIStorage c) (SIStorage c) (ss_heap c ++ [ss])
           (cp_PlacementPolicy c) (cp_PersistenceLayer c) (cp_rpcs c) (cp_endpoints c) (cp_tasks c)
           (cp_loops c ++ [a])).

Definition notifyDataplanesAndStartScalingLoop (serviceInfo : ServiceInfo)
    (reconstructFromPersistence : bool) : M go_error :=
  on_dp Lock ;;
  m ← on_dp GetMap;
  go_for (e_dp_ord env m) (fun kv =>
    dp_call env kv.2 (RpcAddDeployment kv.1 (si_Name serviceInfo)) ;; mret tt) ;;
  on_dp Unlock ;;
  let startTime := if reconstructFromPersistence then e_now env else zero_time in
  a ← alloc_service (new_service startTime serviceInfo);
  on_si (Set_ (si_Name serviceInfo) a) ;;
  mret None.

(** One creation and one deletion per node; failures are logged. *)
Definition precreateSnapshots (info : ServiceInfo) : M unit :=
  on_si Lock ;;
  o ← on_si (Get (si_Name info));
  nodes ← on_ni GetMap;
  go_for (e_ni_ord env nodes) (fun kv =>
    a ← go_lift (deref o);
    ss ← ss_deref a;
    r ← CreateSandbox env kv.2 (ss_ServiceInfo ss);
    let '(err, sandboxInfo) := (r : go_error * SandboxCreationStatus) in
    match err with
    | Some _ => mret tt
    | None => wn_call env kv.2 (RpcDeleteSandbox kv.1 (scs_ID sandboxInfo)
                (pm_HostPort (scs_PortMappings sandboxInfo))) ;; mret tt
    end) ;;
  on_si Unlock.

Definition RegisterService (serviceInfo : ServiceInfo) : M (ActionStatus * go_error) :=
  on_si Lock ;;
  present ← on_si (Get (si_Name serviceInfo));
  r ← match present with
      | Some _ => mret (status_failed, Some "service is already registered"%string)
      | None =>
          err ← on_persistence (StoreServiceInformation serviceInfo);
          match err with
          | Some e => on_si (AtomicRemove (si_Name serviceInfo)) ;; mret (status_failed, Some e)
          | None =>
              err ← notifyDataplanesAndStartScalingLoop serviceInfo false;
              match err with
              | Some e => on_si (AtomicRemove (si_Name serviceInfo)) ;; mret (status_failed, Some e)
              | None =>
                  (if cfg_PrecreateSnapshots cfg then precreateSnapshots serviceInfo else mret tt) ;;
                  mret (status_ok, None)
              end
          end
      end;
  on_si Unlock ;;
  mret r.

(** The early return leaves the lock held. *)
Fixpoint delete_deployments (name : string) (conns : list (string * DataPlaneConnectionInfo))
  : M go_error :=
  match conns with
  | [] => on_dp Unlock ;; mret None
  | (ip, conn) :: conns' =>
      err ← dp_call env conn (RpcDeleteDeployment ip name);
      match err with
      | Some e => mret (Some e)
      | None => delete_deployments name conns'
      end
  end.
Definition removeServiceFromDataplane (serviceInfo : ServiceInfo) : M go_error :=
  on_dp Lock ;;
  m ← on_dp GetMap;
  delete_deployments (si_Name serviceInfo) (e_dp_ord env m).

(** [close(DesiredStateChannel)] panics on a closed channel. *)
Definition close_desired (a : nat) : M unit :=
  ss ← ss_deref a;
  let k := ss_Controller ss in
  if DesiredStateClosed k then go_panic
  else ss_modify a (set_controller (mkPFStateController (AutoscalingRunning k) (StopCh k) (stop_chans k)
         true (desired_sent k) (ScalingMetadata k) (Period k) (threads k))).

Definition DeregisterService (serviceInfo : ServiceInfo) : M (ActionStatus * go_error) :=
  on_si Lock ;;
  present ← on_si (Get (si_Name serviceInfo));
  r ← match present with
      | Some a =>
          err ← on_persistence (DeleteServiceInformation serviceInfo);
          match err with
          | Some e => mret (status_failed, Some e)
          | None =>
              err ← removeServiceFromDataplane serviceInfo;
              match err with
              | Some e => mret (status_failed, Some e)
              | None =>
                  close_desired a ;;
                  on_si (Remove (si_Name serviceInfo)) ;;
                  mret (status_ok, None)
              end
          end
      | None => mret (status_failed, Some "service is not registered"%string)
      end;
  on_si Unlock ;;
  mret r.

Definition ListServices : M (list string) :=
  on_si RLock ;;
  m ← on_si GetMap;
  let keys := Keys (e_si_ord env) m in
  on_si RUnlock ;;
  mret keys.

Definition OnMetricsReceive (metric : AutoscalingMetric) : M ActionStatus :=
  o ← on_si (AtomicGet (am_ServiceName metric));
  match o with
  | None => mret status_failed
  | Some a =>
      ss_modify a (with_metadata
        (SetCachedScalingMetric (am_DataplaneName metric) (am_InflightRequests metric))) ;;
      ss_modify a (fun ss => set_controller (Start_cas (ss_Controller ss)).2 ss) ;;
      mret status_ok
  end.

(** ** Monitoring *)

(** The sandboxes on the node, whatever service they belong to. *)
Definition getServicesOnWorkerNode (wn : WorkerNode) : M (list string) :=
  o ← on_ni (AtomicGet (wn_Name wn));
  match o with
  | None => mret []
  | Some toRemove =>
      em ← go_lift (RLock (wn_endpointMap toRemove));
      let cIDs := foldl (fun l kv => l ++ [SandboxID kv.1]) []
                    (e_em_ord env (InternalMap (wn_endpointMap toRemove))) in
      em' ← go_lift (RUnlock em.2);
      mret cIDs
  end.

Fixpoint failure_events (wn : WorkerNode) (services : list (string * nat)) (acc : list Failure)
  : M (list Failure) :=
  match services with
  | [] => mret acc
  | (_, a) :: services' =>
      ss ← ss_deref a;
      ids ← getServicesOnWorkerNode wn;
      failure_events wn services'
        (if decide (ids = []) then acc
         else acc ++ [mkFailure WORKER_NODE_FAILURE (si_Name (ss_ServiceInfo ss)) ids])
  end.
Definition createWorkerNodeFailureEvents (wn : WorkerNode) : M (list Failure) :=
  on_si Lock ;;
  services ← on_si GetMap;
  failures ← failure_events wn (e_si_ord env services) [];
  on_si Unlock ;;
  mret failures.

Fixpoint check_nodes (nodes : list (string * WorkerNode)) (events : list Failure) : M (list Failure) :=
  match nodes with
  | [] => mret events
  | (name, wn) :: nodes' =>
      let wn1 := SetSchedulability true wn in
      on_ni (Set_ name wn1) ;;
      if decide (TolerateHeartbeatMisses * HeartbeatInterval < e_now env - wn_LastHeartbeat wn) then
        l ← createWorkerNodeFailureEvents wn1;
        on_ni (Set_ name (SetSchedulability false wn1)) ;;
        check_nodes nodes' (events ++ l)
      else check_nodes nodes' events
  end.
(** The body of the timer case of [CheckPeriodicallyWorkerNodes]. *)
Definition CheckPeriodicallyWorkerNodes_tick : M unit :=
  on_ni Lock ;;
  nodes ← on_ni GetMap;
  events ← check_nodes (e_ni_ord env nodes) [];
  on_ni Unlock ;;
  HandleFailure env events ;;
  mret tt.

(** The ports are parsed back, the error is dropped; the address of the data
    plane is not set in the request. *)
Fixpoint check_dataplanes (conns : list (string * DataPlaneConnectionInfo)) : M unit :=
  match conns with
  | [] => mret tt
  | (_, d) :: conns' =>
      (if decide (TolerateHeartbeatMisses * HeartbeatInterval < e_now env - dp_LastHeartBeat d)
       then
         let apiPort := default 0 (Atoi (dp_APIPort d)) in
         let proxyPort := default 0 (Atoi (dp_ProxyPort d)) in
         DeregisterDataplane (mkDataplaneInfo "" (i32 apiPort) (i32 proxyPort)) ;; mret tt
       else mret tt) ;;
      check_dataplanes conns'
  end.
Definition CheckPeriodicallyDataplanes_tick : M unit :=
  on_dp Lock ;;
  conns ← on_dp GetMap;
  check_dataplanes (e_dp_ord env conns) ;;
  on_dp Unlock.

(** [Controller.Stop()] *)
Definition controller_stop (k : PFStateController) : outcome PFStateController :=
  if decide (AutoscalingRunning k = 0) then Ok k else stop_chan_send (StopCh k) k.
Definition StopAllScalingLoops : M unit :=
  on_si Lock ;;
  services ← on_si GetMap;
  go_for (e_si_ord env services) (fun kv =>
    ss ← ss_deref kv.2;
    k ← go_lift (controller_stop (ss_Controller ss));
    ss_modify kv.2 (set_controller k)) ;;
  on_si Unlock.

(** ** Reconstruction *)

Fixpoint connect_dataplanes (l : list DataplaneInformation) : M unit :=
  match l with
  | [] => mret tt
  | i :: l' =>
      let d := NewDataplaneConnection (e_now env) (dpi_Address i) (dpi_ApiPort i) (dpi_ProxyPort i) in
      (* the error of the dial is dropped *)
      on_dp (Set_ (dpi_Address i)
        (if decide (e_dial env (dpi_Address i) = None) then SetConnected d else d)) ;;
      connect_dataplanes l'
  end.
Definition reconstructDataplaneState : M go_error :=
  r ← on_persistence GetDataPlaneInformation;
  match r with
  | inl e => mret (Some e)
  | inr l => connect_dataplanes l ;; mret None
  end.

Definition recovered_node (i : WorkerNodeInformation) : WorkerNode :=
  NewWorkerNode (e_now env) (mkWorkerNodeConfiguration (wni_Name i) (wni_Ip i) (wni_Port i)
    (wni_CpuCores i) (wni_Memory i)).
(** The nodes whose connections are being established. *)
Definition reconstructWorkersState : M (go_error * list WorkerNode) :=
  r ← on_persistence GetWorkerNodeInformation;
  match r with
  | inl e => mret (Some e, [])
  | inr l => mret (None, recovered_node <$> l)
  end.
(** The goroutine of a recovered node. *)
Definition connect_recovered (wn : WorkerNode) : M unit :=
  if decide (e_dial env (wn_IP wn) = None)
  then on_ni Lock ;; on_ni (Set_ (wn_Name wn) (ConnectToWorker true wn)) ;; on_ni Unlock
  else mret tt.

(** The goroutines run one at a time, under the lock, in the order [ord]
    in which they take it. *)
Definition reconstructServiceState (ord : list ServiceInfo -> list ServiceInfo) : M go_error :=
  r ← on_persistence GetServiceInformation;
  match r with
  | inl e => mret (Some e)
  | inr l =>
      go_for (ord l) (fun service =>
        on_si Lock ;; notifyDataplanesAndStartScalingLoop service true ;; on_si Unlock) ;;
      mret None
  end.

Fixpoint list_endpoints (nodes : list (string * WorkerNode)) (acc : list proto_Endpoint)
  : M (list proto_Endpoint) :=
  match nodes with
  | [] => mret acc
  | (name, wn) :: nodes' =>
      if wn_connected wn then
        n ← go_gets (fun c => length (cp_rpcs c));
        err ← wn_call env wn (RpcListEndpoints name);
        match err with
        | Some _ => go_panic (* the reply is nil *)
        | None => list_endpoints nodes' (acc ++ e_listed env n)
        end
      else list_endpoints nodes' acc
  end.

(** The goroutine of one endpoint. *)
Definition reconstruct_endpoint (e : proto_Endpoint) : M unit :=
  on_ni RLock ;;
  o ← on_ni (Get (pe_NodeName e));
  on_ni RUnlock ;;
  match o with
  | None => mret tt
  | Some node =>
      ptr ← go_gets cp_endpoints;
      go_modify with_new_endpoint ;;
      let cpe := mkEndpoint ptr (pe_SandboxID e) (wn_IP node +:+ ":" +:+ Itoa (pe_HostPort e))%string
                   (Some (wn_Name node)) (pe_HostPort e) in
      on_si RLock ;;
      found ← on_si (Get (pe_ServiceName e));
      on_si RUnlock ;;
      match found with
      | None => mret tt
      | Some a =>
          ss ← ss_deref a;
          o ← on_ni (AtomicGet (wn_Name node));
          wn ← go_lift (deref o);
          em ← go_lift (AtomicSet cpe (si_Name (ss_ServiceInfo ss)) (wn_endpointMap wn));
          on_ni (Set_ (wn_Name node) (SetEndpointMap em.2 wn)) ;;
          EndpointLock_Lock a ;;
          ss ← ss_deref a;
          ss_modify a (set_endpoints (ss_Endpoints ss ++ [cpe])) ;;
          EndpointLock_Unlock a ;;
          updateEndpoints env a (prepareEndpointInfo (ss_Endpoints ss ++ [cpe])) ;;
          ss_modify a (with_metadata (fun m => set_panic true (e_now env) (MaxPanicPods m) m)) ;;
          ss_modify a (add_scale 1) ;;
          ss_modify a (fun ss => set_controller (Start_cas (ss_Controller ss)).2 ss)
      end
  end.
Definition reconstructEndpointsState (ord : list proto_Endpoint -> list proto_Endpoint) : M go_error :=
  nodes ← on_ni GetMap;
  endpoints ← list_endpoints (e_ni_ord env nodes) [];
  go_for (ord endpoints) reconstruct_endpoint ;;
  mret None.

(** [ReconstructState] within a state [R] that holds the control plane and the
    load balancer; [run] is an operation of the control plane there, [haproxy]
    the callback to the load balancer. *)
Definition ReconstructState_in {R} (run : forall A, M A -> GoM R A) (haproxy : GoM R unit)
    (ord_s : list ServiceInfo -> list ServiceInfo) (ord_e : list proto_Endpoint -> list proto_Endpoint)
  : GoM R (go_error * list WorkerNode) :=
  if cfg_Reconstruct cfg then
    err ← run _ reconstructDataplaneState;
    match err with
    | Some e => mret (Some e, [])
    | None =>
        w ← run _ reconstructWorkersState;
        match w.1 with
        | Some e => mret (Some e, [])
        | None =>
            haproxy ;;
            err ← run _ (reconstructServiceState ord_s);
            match err with
            | Some e => mret (Some e, w.2)
            | None =>
                err ← run _ (reconstructEndpointsState ord_e);
                match err with
                | Some e => mret (Some e, w.2)
                | None => err ← run _ (on_persistence SetLeader); mret (err, w.2)
                end
            end
        end
    end
  else haproxy ;; mret (None, []).

(** The callback to the load balancer is the argument [haproxy]. *)
Definition ReconstructState (haproxy : M unit) (ord_s : list ServiceInfo -> list ServiceInfo)
    (ord_e : list proto_Endpoint -> list proto_Endpoint) : M (go_error * list WorkerNode) :=
  ReconstructState_in (fun _ f => f) haproxy ord_s ord_e.

Definition GetNumberConnectedWorkers : M Z := on_ni AtomicLen.
Definition GetNumberDataplanes : M Z := on_dp AtomicLen.
Definition GetNumberServices : M Z := on_si AtomicLen.
End handlers.

(** ** What a failover has to restore *)

Definition dp_record (d : DataPlaneConnectionInfo) : DataplaneInformation :=
  mkDataplaneInformation (dp_IP d) (dp_APIPort d) (dp_ProxyPort d).
Definition wn_record (w : WorkerNode) : WorkerNodeInformation :=
  mkWorkerNodeInformation (wn_Name w) (wn_IP w) (wn_Port w) (wn_CpuCores w) (wn_Memory w).

Section views.
Context {S P : Type}.
Implicit Types (c : ControlPlane S P).

(** The registrations, as the records that describe them, and the database. *)
Record registrations : Type := mkRegistrations {
  rg_dp : gmap string DataplaneInformation;
  rg_wn : gmap string WorkerNodeInformation;
  rg_si : gmap string nat;
  rg_infos : list ServiceInfo;
  rg_db : S;
}.
Definition view c : registrations :=
  mkRegistrations (dp_record <$> InternalMap (DataPlaneConnections c))
    (wn_record <$> InternalMap (NIStorage c)) (InternalMap (SIStorage c))
    (ss_ServiceInfo <$> ss_heap c) (cp_PersistenceLayer c).

(** Operations on a lock keep the map. *)
Definition keeps_map {K V A} `{Countable K} (m : GoM (Structure K V) A) : Prop :=
  forall s a s', m s = Ok (a, s') -> InternalMap s' = InternalMap s.
Lemma on_lock_keeps {K V A} `{Countable K} (m : GoM rw_state A) :
  keeps_map (on_lock (K:=K) (V:=V) m).
Proof.
  intros s a s'. unfold on_lock, zoom. destruct (m (internalLock s)) as [[x l]| | |]; try done.
  intros [= <- <-]. done.
Qed.
Lemma on_dp_Get k c o c' :
  on_dp (Get k) c = Ok (o, c') -> c' = c /\ o = InternalMap (DataPlaneConnections c) !! k.
Proof. destruct c. by intros [= <- <-]. Qed.
Lemma on_ni_Get k c o c' :
  on_ni (Get k) c = Ok (o, c') -> c' = c /\ o = InternalMap (NIStorage c) !! k.
Proof. destruct c. by intros [= <- <-]. Qed.
Lemma on_si_Get k c o c' :
  on_si (Get k) c = Ok (o, c') -> c' = c /\ o = InternalMap (SIStorage c) !! k.
Proof. destruct c. by intros [= <- <-]. Qed.
Lemma on_dp_GetMap c m c' :
  on_dp GetMap c = Ok (m, c') -> c' = c /\ m = InternalMap (DataPlaneConnections c).
Proof. destruct c. by intros [= <- <-]. Qed.
Lemma on_ni_GetMap c m c' :
  on_ni GetMap c = Ok (m, c') -> c' = c /\ m = InternalMap (NIStorage c).
Proof. destruct c. by intros [= <- <-]. Qed.
Lemma on_si_GetMap c m c' :
  on_si GetMap c = Ok (m, c') -> c' = c /\ m = InternalMap (SIStorage c).
Proof. destruct c. by intros [= <- <-]. Qed.

Lemma on_dp_keeps {A} (m : GoM _ A) c a c' :
  keeps_map m -> on_dp m c = Ok (a, c') -> view c' = view c.
Proof.
  intros Hm. unfold on_dp, zoom. destruct (m _) as [[x d]| | |] eqn:E; try done.
  intros [= <- <-]. unfold view. simpl. by rewrite (Hm _ _ _ E).
Qed.
Lemma on_ni_keeps {A} (m : GoM _ A) c a c' :
  keeps_map m -> on_ni m c = Ok (a, c') -> view c' = view c.
Proof.
  intros Hm. unfold on_ni, zoom. destruct (m _) as [[x d]| | |] eqn:E; try done.
  intros [= <- <-]. unfold view. simpl. by rewrite (Hm _ _ _ E).
Qed.
Lemma on_si_keeps {A} (m : GoM _ A) c a c' :
  keeps_map m -> on_si m c = Ok (a, c') -> view c' = view c.
Proof.
  intros Hm. unfold on_si, zoom. destruct (m _) as [[x d]| | |] eqn:E; try done.
  intros [= <- <-]. unfold view. simpl. by rewrite (Hm _ _ _ E).
Qed.

Lemma ss_deref_view a c x c' : ss_deref a c = Ok (x, c') -> c' = c /\ ss_heap c !! a = Some x.
Proof. unfold ss_deref. destruct (ss_heap c !! a) eqn:E; [|done]. intros [= <- <-]. done. Qed.
Lemma ss_modify_view a f c u c' :
  (forall ss, ss_ServiceInfo (f ss) = ss_ServiceInfo ss) ->
  ss_modify a f c = Ok (u, c') -> view c' = view c.
Proof.
  intros Hf Hm. unfold ss_modify in Hm. apply gom_bind_ok in Hm as (ss&c1&H1&H2).
  apply ss_deref_view in H1 as [-> Hl]. injection H2 as <- <-. unfold view. simpl. f_equal.
  rewrite list_fmap_insert, Hf. apply list_insert_id. by rewrite list_lookup_fmap, Hl.
Qed.
Lemma call_view env b r c x c' : call env b r c = Ok (x, c') -> view c' = view c.
Proof. unfold call. destruct b; [|done]. by intros [= <- <-]. Qed.
Lemma go_lift_view {A} (o : outcome A) c x c' : go_lift o c = Ok (x, c') -> c' = c /\ o = Ok x.
Proof. unfold go_lift. destruct o; try done. by intros [= <- <-]. Qed.

Lemma go_for_view {A} (l : list A) body c u c' :
  (forall x c1 u1 c2, x ∈ l -> body x c1 = Ok (u1, c2) -> view c2 = view c1) ->
  go_for l body c = Ok (u, c') -> view c' = view c.
Proof.
  intros Hb Hr. eapply (go_for_inv (fun x => view x = view c)); [|done|exact Hr].
  intros x c1 u1 c2 Hx Hv H1. rewrite <- Hv. by eapply Hb.
Qed.
Lemma on_persistence_view {A} (m : GoM S A) c x c' :
  on_persistence m c = Ok (x, c') ->
  exists s, m (rg_db (view c)) = Ok (x, s) /\
    view c' = mkRegistrations (rg_dp (view c)) (rg_wn (view c)) (rg_si (view c)) (rg_infos (view c)) s.
Proof.
  unfold on_persistence, zoom. simpl. destruct (m _) as [[y s]| | |]; try done. intros [= <- <-]. eauto.
Qed.

Lemma on_dp_Set_view k d c u c' :
  on_dp (Set_ k d) c = Ok (u, c') ->
  view c' = mkRegistrations (<[k := dp_record d]> (rg_dp (view c))) (rg_wn (view c)) (rg_si (view c))
              (rg_infos (view c)) (rg_db (view c)).
Proof. intros [= <- <-]. unfold view. simpl. by rewrite fmap_insert. Qed.
Lemma on_dp_Remove_view k c u c' :
  on_dp (Remove k) c = Ok (u, c') ->
  view c' = mkRegistrations (delete k (rg_dp (view c))) (rg_wn (view c)) (rg_si (view c))
              (rg_infos (view c)) (rg_db (view c)).
Proof. intros [= <- <-]. unfold view. simpl. by rewrite fmap_delete. Qed.
Lemma on_ni_Set_view k w c u c' :
  on_ni (Set_ k w) c = Ok (u, c') ->
  view c' = mkRegistrations (rg_dp (view c)) (<[k := wn_record w]> (rg_wn (view c))) (rg_si (view c))
              (rg_infos (view c)) (rg_db (view c)).
Proof. intros [= <- <-]. unfold view. simpl. by rewrite fmap_insert. Qed.
Lemma on_ni_Remove_view k c u c' :
  on_ni (Remove k) c = Ok (u, c') ->
  view c' = mkRegistrations (rg_dp (view c)) (delete k (rg_wn (view c))) (rg_si (view c))
              (rg_infos (view c)) (rg_db (view c)).
Proof. intros [= <- <-]. unfold view. simpl. by rewrite fmap_delete. Qed.
Lemma on_si_Set_view k a c u c' :
  on_si (Set_ k a) c = Ok (u, c') ->
  view c' = mkRegistrations (rg_dp (view c)) (rg_wn (view c)) (<[k := a]> (rg_si (view c)))
              (rg_infos (view c)) (rg_db (view c)).
Proof. by intros [= <- <-]. Qed.
Lemma on_si_Remove_view k c u c' :
  on_si (Remove k) c = Ok (u, c') ->
  view c' = mkRegistrations (rg_dp (view c)) (rg_wn (view c)) (delete k (rg_si (view c)))
              (rg_infos (view c)) (rg_db (view c)).
Proof. by intros [= <- <-]. Qed.
Lemma alloc_service_view ss c a c' :
  alloc_service ss c = Ok (a, c') ->
  a = length (rg_infos (view c)) /\
  view c' = mkRegistrations (rg_dp (view c)) (rg_wn (view c)) (rg_si (view c))
              (rg_infos (view c) ++ [ss_ServiceInfo ss]) (rg_db (view c)).
Proof. intros [= <- <-]. unfold view. simpl. by rewrite length_fmap, fmap_app. Qed.
End views.
Arguments registrations : clear implicits.


(** Turn the steps of a successful run that leave the registrations as they
    were into equations between views. *)
Ltac view_lock H c c' lem :=
  assert (view c' = view c) by (eapply lem; [|exact H]; apply on_lock_keeps); clear H.
Ltac view_step :=
  match goal with
  | H : mbind _ _ _ = Ok _ |- _ => apply gom_bind_ok in H; destruct H as (? & ? & ? & H)
  | H : mret _ _ = Ok _ |- _ => unfold mret, gom_ret in H; injection H; clear H; intros; subst
  | H : on_dp (Get _) _ = Ok _ |- _ => apply on_dp_Get in H; destruct H as [-> ->]
  | H : on_ni (Get _) _ = Ok _ |- _ => apply on_ni_Get in H; destruct H as [-> ->]
  | H : on_si (Get _) _ = Ok _ |- _ => apply on_si_Get in H; destruct H as [-> ->]
  | H : on_dp GetMap _ = Ok _ |- _ => apply on_dp_GetMap in H; destruct H as [-> ->]
  | H : on_ni GetMap _ = Ok _ |- _ => apply on_ni_GetMap in H; destruct H as [-> ->]
  | H : on_si GetMap _ = Ok _ |- _ => apply on_si_GetMap in H; destruct H as [-> ->]
  | H : on_dp ?m ?c = Ok (_, ?c') |- _ =>
      lazymatch m with Lock => idtac | Unlock => idtac | RLock => idtac | RUnlock => idtac end;
      view_lock H c c' on_dp_keeps
  | H : on_ni ?m ?c = Ok (_, ?c') |- _ =>
      lazymatch m with Lock => idtac | Unlock => idtac | RLock => idtac | RUnlock => idtac end;
      view_lock H c c' on_ni_keeps
  | H : on_si ?m ?c = Ok (_, ?c') |- _ =>
      lazymatch m with Lock => idtac | Unlock => idtac | RLock => idtac | RUnlock => idtac end;
      view_lock H c c' on_si_keeps
  | H : on_dp (Set_ _ _) _ = Ok _ |- _ => apply on_dp_Set_view in H
  | H : on_dp (Remove _) _ = Ok _ |- _ => apply on_dp_Remove_view in H
  | H : on_ni (Set_ _ _) _ = Ok _ |- _ => apply on_ni_Set_view in H
  | H : on_ni (Remove _) _ = Ok _ |- _ => apply on_ni_Remove_view in H
  | H : on_si (Set_ _ _) _ = Ok _ |- _ => apply on_si_Set_view in H
  | H : on_si (Remove _) _ = Ok _ |- _ => apply on_si_Remove_view in H
  | H : alloc_service _ _ = Ok _ |- _ => apply alloc_service_view in H; destruct H as [-> H]
  | H : on_persistence _ _ = Ok _ |- _ => apply on_persistence_view in H; destruct H as (? & ? & H)
  | H : call _ _ _ _ = Ok _ |- _ => apply call_view in H
  | H : dp_call _ _ _ _ = Ok _ |- _ => apply call_view in H
  | H : wn_call _ _ _ _ = Ok _ |- _ => apply call_view in H
  | H : ss_deref _ _ = Ok _ |- _ => apply ss_deref_view in H; destruct H as [-> ?]
  | H : go_lift _ _ = Ok _ |- _ => apply go_lift_view in H; destruct H as [-> ?]
  end.
Ltac view_steps := repeat view_step.
(** Replace the view of every later state by what it is of the first one. *)
Ltac view_rewrite :=
  repeat match goal with
  | H : view ?x = ?v, H' : context [view ?x] |- _ =>
      lazymatch H' with H => fail | _ => rewrite H in H' end
  | H : view ?x = ?v |- context [view ?x] => rewrite H
  end; cbn [rg_dp rg_wn rg_si rg_infos rg_db] in *.
(** Case analysis on the scrutinee of the statement that ran. *)
Ltac run_case :=
  match goal with
  | H : (match ?o with Some _ => _ | None => _ end) _ = Ok _ |- _ =>
      let E := fresh "E" in destruct o eqn:E
  | H : (if ?b then _ else _) _ = Ok _ |- _ => let E := fresh "E" in destruct b eqn:E
  end.

Section recovery.
Context {S P : Type} `{PL : PersistenceLayer S} `{PP : PlacementPolicy P}.
Context (cfg : ControlPlaneConfig) (env : cp_env).
Implicit Types (c : ControlPlane S P).

Lemma singlethreadUpdateEndpoints_view a eps c u c' :
  singlethreadUpdateEndpoints env a eps c = Ok (u, c') -> view c' = view c.
Proof.
  unfold singlethreadUpdateEndpoints. intros H. view_steps.
  eapply go_for_view; [|exact H]. intros kv d1 u1 d2 _ Hb. cbv beta in Hb. view_steps. congruence.
Qed.

Lemma announce_services_view key l c st b c' :
  announce_services env key l c = Ok ((st, None, b), c') -> view c' = view c.
Proof.
  revert c. induction l as [|[n a] l IH]; intros c; cbn [announce_services]; intros H.
  { view_steps. done. }
  view_steps. run_case; view_steps; [congruence|].
  apply IH in H. repeat match goal with
  | H : singlethreadUpdateEndpoints _ _ _ _ = Ok _ |- _ => apply singlethreadUpdateEndpoints_view in H
  end. congruence.
Qed.

(** Every record is stored under its own key. *)
Definition keyed (st : stored) : Prop :=
  (forall k i, st_dataplanes st !! k = Some i -> dpi_Address i = k) /\
  (forall k i, st_workers st !! k = Some i -> wni_Name i = k) /\
  (forall k i, st_services st !! k = Some i -> si_Name i = k).

Lemma keyed_p_apply st o : keyed st -> keyed (p_apply st o).
Proof.
  intros (H1&H2&H3). destruct o; split_and!; simpl; auto; intros k x;
    rewrite ?lookup_insert_Some, ?lookup_delete_Some; intros; destruct_or?; destruct_and?; subst; auto.
Qed.

(** The state and the database agree: [st] is what the database holds, and
    it is what the tables of the control plane say. *)
Record mirrors (persisted : S -> stored -> Prop) (v : registrations S) (st : stored) : Prop := {
  mi_db : persisted (rg_db v) st;
  mi_dp : st_dataplanes st = rg_dp v;
  mi_wn : st_workers st = rg_wn v;
  mi_si : forall k, st_services st !! k = rg_si v !! k ≫= fun a => rg_infos v !! a;
  mi_addr : forall k a, rg_si v !! k = Some a -> is_Some (rg_infos v !! a);
  mi_keyed : keyed st;
}.

Inductive cp_request : Type :=
| RqRegisterDataplane (i : DataplaneInfo)
| RqDeregisterDataplane (i : DataplaneInfo)
| RqRegisterNode (i : NodeInfo)
| RqDeregisterNode (i : NodeInfo)
| RqRegisterService (i : ServiceInfo)
| RqDeregisterService (i : ServiceInfo).

Definition cp_handle (rq : cp_request) : GoM (ControlPlane S P) (ActionStatus * go_error) :=
  match rq with
  | RqRegisterDataplane i => r ← RegisterDataplane env i; mret (r.1.1, r.1.2)
  | RqDeregisterDataplane i => DeregisterDataplane env i
  | RqRegisterNode i => RegisterNode env i
  | RqDeregisterNode i => DeregisterNode env i
  | RqRegisterService i => RegisterService cfg env i
  | RqDeregisterService i => DeregisterService env i
  end.

Context {persisted : S -> stored -> Prop} `{PS : !PersistenceSpec S persisted}.

(** A handler that reports success keeps the database in step. *)
Definition keeps_mirror {A} (m : GoM (ControlPlane S P) A) (ok : A -> Prop) : Prop :=
  forall c r c' st, mirrors persisted (view c) st -> m c = Ok (r, c') -> ok r ->
    exists st', mirrors persisted (view c') st'.

Definition success (r : ActionStatus * go_error) : Prop := as_Success r.1 = true /\ r.2 = None.

Lemma RegisterNode_mirror i : keeps_mirror (RegisterNode env i) success.
Proof.
  intros c r c' st [Hdb Hdp Hwn Hsi Had Hk] H [Hs He]. unfold RegisterNode in H. view_steps.
  run_case; view_steps; [done|]. run_case; view_steps; [done|]. view_rewrite.
  eexists. split; simpl; [by eapply ps_store_worker|done| |exact Hsi|exact Had|].
  - rewrite insert_insert_eq. by rewrite Hwn.
  - by apply (keyed_p_apply st (PStoreWorker _)).
Qed.

Lemma EndpointLock_view a c u c' :
  EndpointLock_Lock a c = Ok (u, c') \/ EndpointLock_Unlock a c = Ok (u, c') -> view c' = view c.
Proof.
  unfold EndpointLock_Lock, EndpointLock_Unlock.
  intros [H|H]; view_steps; destruct (ss_EndpointLock _); try discriminate H;
    by apply ss_modify_view in H.
Qed.

Lemma removeEndoints_view nodeID c u c' :
  removeEndointsAssociatedWithNode env nodeID c = Ok (u, c') -> view c' = view c.
Proof.
  unfold removeEndointsAssociatedWithNode. intros H. view_steps.
  match goal with Hl : go_for _ _ _ = Ok _ |- _ => apply go_for_view in Hl end; [view_rewrite; done|].
  intros kv d1 u1 d2 _ Hb. cbv beta in Hb. view_steps.
  repeat match goal with
  | Hl : EndpointLock_Lock _ _ = Ok _ |- _ => apply (fun H => EndpointLock_view _ _ _ _ (or_introl H)) in Hl
  | Hl : EndpointLock_Unlock _ _ = Ok _ |- _ => apply (fun H => EndpointLock_view _ _ _ _ (or_intror H)) in Hl
  | Hl : excludeEndpoints _ _ _ = Ok _ |- _ => apply ss_modify_view in Hl; [|done]
  | Hl : ss_modify _ _ _ = Ok _ |- _ => apply ss_modify_view in Hl; [|done]
  end. congruence.
Qed.

Lemma DeregisterNode_mirror i : keeps_mirror (DeregisterNode env i) success.
Proof.
  intros c r c' st [Hdb Hdp Hwn Hsi Had Hk] H [Hs He]. unfold DeregisterNode in H. view_steps.
  run_case; view_steps; [|done]. run_case; view_steps; [done|].
  match goal with Hl : removeEndointsAssociatedWithNode _ _ _ = Ok _ |- _ =>
    apply removeEndoints_view in Hl end. view_rewrite.
  eexists. split; simpl; [by eapply ps_delete_worker|done|by rewrite Hwn|exact Hsi|exact Had
    |by apply (keyed_p_apply st (PDeleteWorker _))].
Qed.

Lemma dp_heartbeat_record k d c :
  InternalMap (DataPlaneConnections c) !! k = Some d ->
  <[k := dp_record (UpdateHeartBeat (e_now env) d)]> (rg_dp (view c)) = rg_dp (view c).
Proof. intros Hk. apply insert_id. simpl. by rewrite lookup_fmap, Hk. Qed.

Lemma RegisterDataplane_mirror i :
  keeps_mirror (r ← RegisterDataplane env i; mret (r.1.1, r.1.2)) success.
Proof.
  intros c r c' st Hm H [Hs He]. unfold RegisterDataplane in H. view_steps.
  repeat match goal with H : context [match InternalMap ?m !! ?k with _ => _ end] |- _ =>
    destruct (InternalMap m !! k) eqn:? end; view_steps.
  - rewrite dp_heartbeat_record in * by done. exists st.
    match goal with Hv : view c' = _ |- _ => rewrite Hv end. view_rewrite. by destruct (view c).
  - repeat (run_case; view_steps; try done).
    match goal with Ha : announce_services _ _ _ _ = Ok (?y, _) |- _ =>
      destruct y as [[s0 e0] b0]; simpl in He; subst e0; apply announce_services_view in Ha end.
    destruct Hm as [Hdb Hdp Hwn Hsi Had Hk]. view_rewrite.
    eexists. split; simpl; [by eapply ps_store_dp|by rewrite Hdp|done|exact Hsi|exact Had
      |by apply (keyed_p_apply st (PStoreDataplane _))].
Qed.

Lemma DeregisterDataplane_mirror i : keeps_mirror (DeregisterDataplane env i) success.
Proof.
  intros c r c' st Hm H [Hs He]. unfold DeregisterDataplane in H. view_steps.
  run_case; view_steps; [|exists st; view_rewrite; done].
  destruct Hm as [Hdb Hdp Hwn Hsi Had Hk]. run_case; view_steps; [done|].
  match goal with Hl : go_for _ _ _ = Ok _ |- _ => apply go_for_view in Hl end.
  - view_rewrite.
    eexists. split; simpl; [by eapply ps_delete_dp|by rewrite Hdp|done|exact Hsi|exact Had
      |by apply (keyed_p_apply st (PDeleteDataplane _))].
  - intros kv d1 u1 d2 _ Hb. by apply ss_modify_view in Hb.
Qed.

Lemma notify_view info b c e c' :
  notifyDataplanesAndStartScalingLoop env info b c = Ok (e, c') ->
  e = None /\
  view c' = mkRegistrations (rg_dp (view c)) (rg_wn (view c))
    (<[si_Name info := length (rg_infos (view c))]> (rg_si (view c)))
    (rg_infos (view c) ++ [info]) (rg_db (view c)).
Proof.
  unfold notifyDataplanesAndStartScalingLoop. intros H. view_steps.
  match goal with Hl : go_for _ _ _ = Ok _ |- _ => apply go_for_view in Hl end.
  - view_rewrite. done.
  - intros kv d1 u1 d2 _ Hb. cbv beta in Hb. view_steps. congruence.
Qed.

(** The table after a service was added at a fresh address. *)
Lemma services_insert (m : gmap string nat) infos info (l : gmap string ServiceInfo) :
  (forall k, l !! k = m !! k ≫= fun a => infos !! a) ->
  (forall k a, m !! k = Some a -> is_Some (infos !! a)) ->
  (forall k, <[si_Name info := info]> l !! k =
     <[si_Name info := length infos]> m !! k ≫= fun a => (infos ++ [info]) !! a) /\
  (forall k a, <[si_Name info := length infos]> m !! k = Some a ->
     is_Some ((infos ++ [info]) !! a)).
Proof.
  intros Hl Ha. split.
  - intros k. rewrite !lookup_insert. case_decide; simpl; [by rewrite list_lookup_middle|].
    rewrite Hl. destruct (m !! k) as [a|] eqn:E; [|done]. simpl. destruct (Ha k a E) as [x Hx].
    by rewrite Hx, (lookup_app_l_Some _ _ _ _ Hx).
  - intros k a. rewrite lookup_insert. case_decide.
    + intros [= <-]. by rewrite list_lookup_middle.
    + intros E. destruct (Ha k a E) as [x Hx]. rewrite (lookup_app_l_Some _ _ _ _ Hx). eauto.
Qed.

Lemma precreateSnapshots_view info c u c' :
  precreateSnapshots env info c = Ok (u, c') -> view c' = view c.
Proof.
  unfold precreateSnapshots. intros H. view_steps.
  match goal with Hl : go_for _ _ _ = Ok _ |- _ => apply go_for_view in Hl end; [congruence|].
  intros kv d1 u1 d2 _ Hb. cbv beta in Hb. unfold CreateSandbox in Hb. view_steps.
  match goal with Hl : go_gets _ _ = Ok _ |- _ => injection Hl as <- <- end.
  run_case; view_steps; congruence.
Qed.

Lemma RegisterService_mirror i : keeps_mirror (RegisterService cfg env i) success.
Proof.
  intros c r c' st [Hdb Hdp Hwn Hsi Had Hk] H [Hs He]. unfold RegisterService in H. view_steps.
  run_case; view_steps; [done|]. run_case; view_steps; [done|].
  match goal with Hl : notifyDataplanesAndStartScalingLoop _ _ _ _ = Ok _ |- _ =>
    apply notify_view in Hl as [-> Hl] end.
  view_steps. destruct (cfg_PrecreateSnapshots cfg).
  1: match goal with Hl : precreateSnapshots _ _ _ = Ok _ |- _ => apply precreateSnapshots_view in Hl end.
  all: view_steps; view_rewrite; destruct (services_insert _ _ i _ Hsi Had) as [H1' H2'];
    eexists; split; simpl; [by eapply ps_store_service|done|done|exact H1'|exact H2'
      |by apply (keyed_p_apply st (PStoreService _))].
Qed.

Lemma delete_deployments_view name l c c' :
  delete_deployments env name l c = Ok (None, c') -> view c' = view c.
Proof.
  revert c. induction l as [|[ip d] l IH]; intros c; cbn [delete_deployments]; intros H;
    view_steps; [congruence|].
  run_case; view_steps; [done|]. apply IH in H. congruence.
Qed.

Lemma DeregisterService_mirror i : keeps_mirror (DeregisterService env i) success.
Proof.
  intros c r c' st [Hdb Hdp Hwn Hsi Had Hk] H [Hs He]. unfold DeregisterService in H. view_steps.
  run_case; view_steps; [|done]. run_case; view_steps; [done|]. run_case; view_steps; [done|].
  match goal with Hl : removeServiceFromDataplane _ _ _ = Ok _ |- _ =>
    unfold removeServiceFromDataplane in Hl; view_steps; apply delete_deployments_view in Hl end.
  match goal with Hl : close_desired _ _ = Ok _ |- _ =>
    unfold close_desired in Hl; view_steps; destruct (DesiredStateClosed _); [discriminate Hl|];
    apply ss_modify_view in Hl; [|done] end.
  view_rewrite. eexists. split; simpl; [by eapply ps_delete_service|done|done| | |by apply (keyed_p_apply st (PDeleteService _))].
  - intros k. simpl. destruct (decide (si_Name i = k)) as [<-|Hne]; [by rewrite !lookup_delete_eq|].
    rewrite !lookup_delete_ne by done. apply Hsi.
  - intros k a [_ Hl]%lookup_delete_Some. by eapply Had.
Qed.

Lemma cp_handle_mirror rq : keeps_mirror (cp_handle rq) success.
Proof.
  destruct rq; simpl; eauto using RegisterDataplane_mirror, DeregisterDataplane_mirror,
    RegisterNode_mirror, DeregisterNode_mirror, RegisterService_mirror, DeregisterService_mirror.
Qed.

(** ** Reconstruction *)

Lemma connect_dataplanes_run l (m : gmap string DataplaneInformation) c :
  (forall i, e_dial env i = None) ->
  (forall i, i ∈ l -> m !! dpi_Address i = Some i) ->
  exists dpm, connect_dataplanes env l c =
      Ok (tt, mkControlPlane (mkStructure dpm (internalLock (DataPlaneConnections c))) (NIStorage c)
        (SIStorage c) (ss_heap c) (cp_PlacementPolicy c) (cp_PersistenceLayer c) (cp_rpcs c)
        (cp_endpoints c) (cp_tasks c) (cp_loops c)) /\
    (forall k, dp_record <$> dpm !! k =
       if decide (k ∈ dpi_Address <$> l) then m !! k
       else dp_record <$> InternalMap (DataPlaneConnections c) !! k) /\
    (forall k d, dpm !! k = Some d ->
       InternalMap (DataPlaneConnections c) !! k = Some d \/ dp_connected d = true).
Proof.
  intros Hdial. revert c. induction l as [|i l IH]; intros c Hl; cbn [connect_dataplanes].
  { exists (InternalMap (DataPlaneConnections c)). split; [by destruct c as [[] ?]|].
    split; [|auto]. intros k. by rewrite decide_False by apply not_elem_of_nil. }
  rewrite decide_True by done. erewrite gom_bind_run; [|reflexivity].
  set (d := SetConnected _).
  destruct (IH (mkControlPlane (mkStructure (<[dpi_Address i := d]>
    (InternalMap (DataPlaneConnections c))) (internalLock (DataPlaneConnections c))) (NIStorage c)
    (SIStorage c) (ss_heap c) (cp_PlacementPolicy c) (cp_PersistenceLayer c) (cp_rpcs c)
    (cp_endpoints c) (cp_tasks c) (cp_loops c))) as (dpm&Hrun&Hk&Hc).
  { intros j Hj. apply Hl. by right. }
  exists dpm. split; [exact Hrun|]. split.
  - intros k. rewrite Hk. simpl. destruct (decide (k ∈ dpi_Address <$> l)) as [Hin|Hin].
    + rewrite decide_True; [done|]. by right.
    + rewrite lookup_insert. destruct (decide (dpi_Address i = k)) as [<-|Hne].
      * rewrite decide_True by (by left). rewrite (Hl i) by (by left). simpl. by destruct i.
      * rewrite decide_False; [done|]. by intros [?|?]%elem_of_cons.
  - intros k d' Hd. destruct (Hc k d' Hd) as [Hi|Hi]; [|by right]. simpl in Hi.
    rewrite lookup_insert in Hi. case_decide; simplify_eq; auto.
Qed.

(** A table with no lock held, all of whose data planes are connected. *)
Record quiet c : Prop := {
  qt_dp : internalLock (DataPlaneConnections c) = Unlocked;
  qt_si : internalLock (SIStorage c) = Unlocked;
  qt_conn : forall k d, InternalMap (DataPlaneConnections c) !! k = Some d -> dp_connected d = true;
}.

(** The announcement of a service, from a free table of data planes. *)
Lemma notify_run info b dpm ni sim l h pol per rpcs n ts ls :
  valid_order (e_dp_ord env) -> (forall k d, dpm !! k = Some d -> dp_connected d = true) ->
  notifyDataplanesAndStartScalingLoop env info b
    (mkControlPlane (mkStructure dpm Unlocked) ni (mkStructure sim l) h pol per rpcs n ts ls :
       ControlPlane S P) = Ok (None,
    mkControlPlane (mkStructure dpm Unlocked) ni (mkStructure (<[si_Name info := length h]> sim) l)
      (h ++ [new_service (if b then e_now env else zero_time) info]) pol per
      (rpcs ++ ((fun kv => RpcAddDeployment kv.1 (si_Name info)) <$> e_dp_ord env dpm)) n ts
      (ls ++ [length h])).
Proof.
  intros Hord Hconn. unfold notifyDataplanesAndStartScalingLoop.
  do 2 (erewrite gom_bind_run; [|reflexivity]).
  erewrite gom_bind_run; [|apply (go_for_calls env (fun kv => dp_connected kv.2))]; [reflexivity|].
  apply list.Forall_forall. intros [ip d] Hin. cbn [InternalMap] in Hin.
  rewrite valid_order_elem in Hin by done. by eapply Hconn.
Qed.

Lemma notify_quiet info b c :
  valid_order (e_dp_ord env) -> quiet c ->
  exists c', (on_si Lock ;; notifyDataplanesAndStartScalingLoop env info b ;; on_si Unlock) c =
      Ok (tt, c') /\ quiet c' /\ NIStorage c' = NIStorage c /\
    DataPlaneConnections c' = DataPlaneConnections c /\
    view c' = mkRegistrations (rg_dp (view c)) (rg_wn (view c))
      (<[si_Name info := length (rg_infos (view c))]> (rg_si (view c)))
      (rg_infos (view c) ++ [info]) (rg_db (view c)).
Proof.
  intros Hord [Hdp Hsi Hconn]. destruct c as [[dpm l1] ni [sim l2] h pol per rpcs n ts ls].
  simpl in *. subst l1 l2. erewrite gom_bind_run; [|reflexivity].
  pose proof (notify_run info b dpm ni sim WLocked h pol per rpcs n ts ls Hord Hconn) as Hn.
  go_run Hn. eexists. split; [reflexivity|].
  split_and!; try done. unfold view. simpl. by rewrite length_fmap, fmap_app.
Qed.

Lemma services_loop_run l (m : gmap string ServiceInfo) c :
  valid_order (e_dp_ord env) -> quiet c -> (forall i, i ∈ l -> m !! si_Name i = Some i) ->
  (forall k a, rg_si (view c) !! k = Some a -> is_Some (rg_infos (view c) !! a)) ->
  exists c', go_for l (fun service =>
        on_si Lock ;; notifyDataplanesAndStartScalingLoop env service true ;; on_si Unlock) c =
      Ok (tt, c') /\ quiet c' /\ NIStorage c' = NIStorage c /\
    DataPlaneConnections c' = DataPlaneConnections c /\ rg_db (view c') = rg_db (view c) /\
    forall k, rg_si (view c') !! k ≫= (fun a => rg_infos (view c') !! a) =
      if decide (k ∈ si_Name <$> l) then m !! k
      else rg_si (view c) !! k ≫= (fun a => rg_infos (view c) !! a).
Proof.
  intros Hord. revert c. induction l as [|i l IH]; intros c Hq Hl Ha; cbn [go_for].
  { by exists c. }
  destruct (notify_quiet i true c Hord Hq) as (c1&Hrun&Hq1&Hni1&Hdp1&Hv1). go_run Hrun.
  destruct (services_insert (rg_si (view c)) (rg_infos (view c)) i
    (map_imap (fun k _ => rg_si (view c) !! k ≫= fun a => rg_infos (view c) !! a) (rg_si (view c))))
    as [HA HB]; [|done|].
  { intros k. rewrite map_lookup_imap. by destruct (rg_si (view c) !! k). }
  destruct (IH c1 Hq1) as (c'&Hrun'&Hq'&Hni'&Hdp'&Hdb'&Hk').
  { intros j Hj. apply Hl. by right. } { by rewrite Hv1. }
  exists c'. split; [exact Hrun'|]. split_and!; try congruence.
  { rewrite Hdb', Hv1. done. }
  intros k. rewrite Hk', Hv1. cbn [rg_si rg_infos]. rewrite <- HA.
  destruct (decide (k ∈ si_Name <$> l)) as [Hin|Hin].
  - rewrite decide_True; [done|]. by right.
  - rewrite lookup_insert. destruct (decide (si_Name i = k)) as [<-|Hne].
    + rewrite decide_True by (by left). symmetry. apply Hl. by left.
    + rewrite decide_False by (by intros [?|?]%elem_of_cons). rewrite map_lookup_imap.
      by destruct (rg_si (view c) !! k).
Qed.
End recovery.

Section failover.
Context {S P : Type} `{PL : PersistenceLayer S} `{PP : PlacementPolicy P}.
Implicit Types (c : ControlPlane S P).

(** The database answers its readers. *)
Record DatabaseAnswers (persisted : S -> stored -> Prop) : Prop := {
  da_dp : forall s st, persisted s st -> exists l s', GetDataPlaneInformation s = Ok (inr l, s');
  da_wn : forall s st, persisted s st -> exists l s', GetWorkerNodeInformation s = Ok (inr l, s');
  da_si : forall s st, persisted s st -> exists l s', GetServiceInformation s = Ok (inr l, s');
  da_leader : forall s st, persisted s st -> exists s', SetLeader s = Ok (None, s');
}.

(** A history of requests, each handled with success in its environment. *)
Fixpoint cp_history (cfg : ControlPlaneConfig) (h : list (cp_env * cp_request)) c c' : Prop :=
  match h with
  | [] => c' = c
  | (env, rq) :: h' => exists r c1, cp_handle cfg env rq c = Ok (r, c1) /\ success r /\
                         cp_history cfg h' c1 c'
  end.

(** The same, run. *)
Fixpoint run_history (cfg : ControlPlaneConfig) (h : list (cp_env * cp_request)) c
  : option (ControlPlane S P) :=
  match h with
  | [] => Some c
  | (env, rq) :: h' =>
      match cp_handle cfg env rq c with
      | Ok (r, c1) => if as_Success r.1 && bool_decide (r.2 = None) then run_history cfg h' c1 else None
      | _ => None
      end
  end.
Lemma run_history_sound cfg h c c' : run_history cfg h c = Some c' -> cp_history cfg h c c'.
Proof.
  revert c. induction h as [|[env rq] h IH]; intros c; simpl; [by intros [= ->]|].
  destruct (cp_handle cfg env rq c) as [[r c1]| | |]; try done.
  destruct (as_Success r.1) eqn:E1; [|done]. case_bool_decide; [|done].
  intros Hr. exists r, c1. split; [done|]. split; [done|]. by apply IH.
Qed.

Definition service_info c (k : string) : option ServiceInfo :=
  InternalMap (SIStorage c) !! k ≫= fun a => ss_ServiceInfo <$> ss_heap c !! a.

Lemma history_mirrors (persisted : S -> stored -> Prop) `{!PersistenceSpec S persisted} cfg h c c' st :
  mirrors persisted (view c) st -> cp_history cfg h c c' ->
  exists st', mirrors persisted (view c') st'.
Proof.
  revert c st. induction h as [|[env rq] h IH]; intros c st Hm; simpl; [intros ->; eauto|].
  intros (r&c1&H1&Hs&H2). destruct (cp_handle_mirror cfg env rq c r c1 st Hm H1 Hs) as [st1 Hm1].
  by eapply IH.
Qed.

Lemma values_of_keyed {A} (key : A -> string) (m : gmap string A) l :
  (forall k i, m !! k = Some i -> key i = k) -> values_of m l ->
  (forall i, i ∈ l -> m !! key i = Some i) /\ (forall k, k ∈ key <$> l <-> is_Some (m !! k)).
Proof.
  intros Hk Hv. split.
  - intros i Hi. apply Hv in Hi as [k Hi]. by rewrite (Hk k i Hi).
  - intros k. rewrite list_elem_of_fmap. split.
    + intros (i&->&Hi). apply Hv in Hi as [k Hi]. rewrite (Hk k i Hi). eauto.
    + intros [i Hi]. exists i. split; [by rewrite (Hk k i Hi)|]. apply Hv. eauto.
Qed.

Lemma if_decide_lookup {A} (m : gmap string A) k (Q : Prop) `{Decision Q} :
  (Q <-> is_Some (m !! k)) -> (if decide Q then m !! k else None) = m !! k.
Proof.
  intros HQ. case_decide; [done|]. symmetry. apply eq_None_not_Some. by rewrite <- HQ.
Qed.

(** A state whose only content is a table of data planes and a database. *)
Definition with_dataplanes (dpm : gmap string DataPlaneConnectionInfo) (policy : P) (s : S) : ControlPlane S P :=
  mkControlPlane (mkStructure dpm Unlocked) NewControlPlaneSyncStructure NewControlPlaneSyncStructure [] policy s [] 0 [] [].

(** The reconstruction, given what the database answers and what the loops over
    the data planes and the services do. *)
Lemma ReconstructState_run cfg' env' haproxy ord_s ord_e policy s l1 s1 l2 s2 l3 s3 s4 dpm c4 :
  cfg_Reconstruct cfg' = true -> valid_order (e_ni_ord env') -> (forall x, haproxy x = Ok (tt, x)) ->
  (forall l, ord_e l ≡ₚ l) ->
  GetDataPlaneInformation s = Ok (inr l1, s1) -> GetWorkerNodeInformation s1 = Ok (inr l2, s2) ->
  GetServiceInformation s2 = Ok (inr l3, s3) -> SetLeader s3 = Ok (None, s4) ->
  connect_dataplanes env' l1 (NewControlPlane policy s1) = Ok (tt, with_dataplanes dpm policy s1) ->
  go_for (ord_s l3) (fun service =>
    on_si Lock ;; notifyDataplanesAndStartScalingLoop env' service true ;; on_si Unlock)
    (with_dataplanes dpm policy s3) = Ok (tt, c4) ->
  NIStorage c4 = NewControlPlaneSyncStructure -> cp_PersistenceLayer c4 = s3 ->
  ReconstructState cfg' env' haproxy ord_s ord_e (NewControlPlane policy s) =
    Ok ((None, recovered_node env' <$> l2),
        mkControlPlane (DataPlaneConnections c4) NewControlPlaneSyncStructure (SIStorage c4) (ss_heap c4) (cp_PlacementPolicy c4) s4
          (cp_rpcs c4) (cp_endpoints c4) (cp_tasks c4) (cp_loops c4)).
Proof.
  intros Hrec Hnio Hha Hoe Hg1 Hg2 Hg3 Hg4 Hrun1 Hrun4 Hni4 Hdb4.
  assert (Hord0 : e_ni_ord env' ∅ = []).
  { apply Permutation_nil_r. rewrite (Hnio ∅). by rewrite map_to_list_empty. }
  assert (Hoe0 : ord_e [] = []) by (apply Permutation_nil_r; by rewrite (Hoe [])).
  unfold ReconstructState, ReconstructState_in. rewrite Hrec. cbv beta iota. erewrite gom_bind_run.
  2: { unfold reconstructDataplaneState. erewrite gom_bind_run.
       2: { unfold on_persistence, zoom. cbn [cp_PersistenceLayer NewControlPlane]. rewrite Hg1. reflexivity. }
       cbv beta iota. erewrite gom_bind_run; [reflexivity|exact Hrun1]. }
  cbv beta iota. erewrite gom_bind_run.
  2: { unfold reconstructWorkersState. erewrite gom_bind_run.
       2: { unfold on_persistence, zoom. cbn [cp_PersistenceLayer with_dataplanes]. rewrite Hg2. reflexivity. }
       reflexivity. }
  cbn [fst snd]. cbv beta iota. erewrite gom_bind_run; [|apply Hha]. cbv beta iota. erewrite gom_bind_run.
  2: { unfold reconstructServiceState. erewrite gom_bind_run.
       2: { unfold on_persistence, zoom. cbn [cp_PersistenceLayer]. rewrite Hg3. reflexivity. }
       cbv beta iota. erewrite gom_bind_run; [reflexivity|exact Hrun4]. }
  cbv beta iota. erewrite gom_bind_run.
  2: { unfold reconstructEndpointsState. erewrite gom_bind_run; [|reflexivity].
       rewrite Hni4. cbn [InternalMap NewControlPlaneSyncStructure]. rewrite Hord0.
       cbn [list_endpoints]. erewrite gom_bind_run; [|reflexivity]. rewrite Hoe0. reflexivity. }
  cbv beta iota. erewrite gom_bind_run; [reflexivity|].
  unfold on_persistence, zoom. cbn [cp_PersistenceLayer]. rewrite Hdb4, Hg4. reflexivity.
Qed.

Lemma service_info_infos c k :
  service_info c k = rg_si (view c) !! k ≫= (fun a => rg_infos (view c) !! a).
Proof.
  unfold service_info. simpl. destruct (InternalMap (SIStorage c) !! k); simpl; [|done]. by rewrite list_lookup_fmap.
Qed.

Lemma recovered_records env' (l : list WorkerNodeInformation) : wn_record <$> (recovered_node env' <$> l) = l.
Proof.
  rewrite <- list_fmap_compose. rewrite <- (list_fmap_id l) at 2. apply list_fmap_ext. by intros i [] _.
Qed.

(** C1: A new leader recovers every registration.  Take any history of
    registrations and deregistrations of data planes, worker nodes and
    services that were all answered with success.  A control plane started
    on the database it leaves reconstructs its state without error, and
    then knows exactly the same data planes (with their addresses and
    ports) and the same services (with their configuration), and is
    connecting to exactly the same worker nodes; the order in which the
    database lists the records, repetitions in the listing and the order of
    the goroutines do not matter.  The persistence layer enters only through
    its contract. *)
Theorem failover_restores_registrations (persisted : S -> stored -> Prop) cfg h policy s0 c
    cfg' env' haproxy ord_s ord_e policy' :
  PersistenceSpec S persisted -> DatabaseAnswers persisted -> persisted s0 no_records ->
  cp_history cfg h (NewControlPlane policy s0) c ->
  cfg_Reconstruct cfg' = true -> valid_order (e_dp_ord env') -> valid_order (e_ni_ord env') ->
  (forall a, e_dial env' a = None) -> (forall x, haproxy x = Ok (tt, x)) ->
  (forall l, ord_s l ≡ₚ l) -> (forall l, ord_e l ≡ₚ l) ->
  exists c' pending,
    ReconstructState cfg' env' haproxy ord_s ord_e
      (NewControlPlane (policy' : P) (cp_PersistenceLayer c)) = Ok ((None, pending), c') /\
    (forall k, dp_record <$> InternalMap (DataPlaneConnections c') !! k =
               dp_record <$> InternalMap (DataPlaneConnections c) !! k) /\
    (forall w, w ∈ wn_record <$> pending <->
               exists k, wn_record <$> InternalMap (NIStorage c) !! k = Some w) /\
    (forall k, service_info c' k = service_info c k).
Proof.
  intros PS DA Hp0 Hh Hrec Hdpo Hnio Hdial Hha Hos Hoe.
  destruct (history_mirrors persisted cfg h (NewControlPlane policy s0) c no_records) as [st [Hdb Hdp Hwn Hsi _ (Hk1&Hk2&Hk3)]];
    [|exact Hh|].
  { split; try done. }
  simpl in Hdb, Hdp, Hwn, Hsi.
  destruct (da_dp _ DA _ _ Hdb) as (l1&s1&Hg1). destruct (ps_get_dp _ _ _ _ Hdb Hg1) as [Hdb1 Hv1].
  destruct (da_wn _ DA _ _ Hdb1) as (l2&s2&Hg2). destruct (ps_get_worker _ _ _ _ Hdb1 Hg2) as [Hdb2 Hv2].
  destruct (da_si _ DA _ _ Hdb2) as (l3&s3&Hg3). destruct (ps_get_service _ _ _ _ Hdb2 Hg3) as [Hdb3 Hv3].
  destruct (da_leader _ DA _ _ Hdb3) as (s4&Hg4).
  destruct (values_of_keyed dpi_Address _ l1 Hk1 Hv1) as [Hl1 Hin1].
  destruct (values_of_keyed si_Name _ l3 Hk3 Hv3) as [Hl3 Hin3].
  destruct (connect_dataplanes_run env' l1 (st_dataplanes st) (NewControlPlane policy' s1) Hdial Hl1)
    as (dpm&Hrun1&Hdpm&Hconn).
  destruct (services_loop_run env' (ord_s l3) (st_services st) (with_dataplanes dpm policy' s3) Hdpo)
    as (c4&Hrun4&_&Hni4&Hdp4&Hdb4&Hk4).
  { split; try done. intros k d Hd. by destruct (Hconn k d Hd). }
  { intros i Hi. apply Hl3. by rewrite <- (Hos l3). }
  { done. }
  eexists _, (recovered_node env' <$> l2). split; [|split; [|split]].
  - by eapply ReconstructState_run.
  - intros k. simpl. rewrite Hdp4. simpl. rewrite Hdpm. simpl.
    rewrite (if_decide_lookup (st_dataplanes st)) by apply Hin1. by rewrite Hdp, lookup_fmap.
  - intros w. rewrite recovered_records, (Hv2 w), Hwn. split; intros [k Hx]; exists k; by rewrite lookup_fmap in *.
  - intros k. rewrite !service_info_infos. specialize (Hk4 k). simpl in Hk4 |- *. rewrite Hk4, <- Hsi.
    apply (if_decide_lookup (st_services st)). rewrite <- Hin3. by rewrite (Hos l3).
Qed.
End failover.

(** Run one statement whose result is known by computation, and bring the
    state it leaves to its fields. *)
Ltac go_step :=
  erewrite gom_bind_run; [|reflexivity];
  cbn [DataPlaneConnections NIStorage SIStorage ss_heap cp_PlacementPolicy cp_PersistenceLayer cp_rpcs
       cp_endpoints cp_tasks cp_loops InternalMap internalLock].

(** ** Locks the handlers take twice *)

Section deadlocks.
Context {S P : Type} `{PL : PersistenceLayer S} `{PP : PlacementPolicy P}.
Context (cfg : ControlPlaneConfig) (env : cp_env).
Implicit Types (c : ControlPlane S P).

Definition unlocked c : Prop :=
  internalLock (DataPlaneConnections c) = Unlocked /\ internalLock (NIStorage c) = Unlocked /\
  internalLock (SIStorage c) = Unlocked.

Lemma on_persistence_run {A} (m : GoM S A) c x s :
  m (cp_PersistenceLayer c) = Ok (x, s) ->
  on_persistence m c = Ok (x, mkControlPlane (DataPlaneConnections c) (NIStorage c) (SIStorage c)
    (ss_heap c) (cp_PlacementPolicy c) s (cp_rpcs c) (cp_endpoints c) (cp_tasks c) (cp_loops c)).
Proof. intros Hm. unfold on_persistence, zoom. by rewrite Hm. Qed.

(** C37: A failed write to the database hangs the control plane.  When the
    store of a new worker node or of a new service reports an error, the
    handler removes the entry through the locking variant while it holds
    the lock itself: it never returns, and neither does any later request
    that needs the lock. *)
Theorem store_error_deadlocks i info e c s1 s2 :
  unlocked c ->
  InternalMap (NIStorage c) !! ni_NodeID i = None ->
  InternalMap (SIStorage c) !! si_Name info = None ->
  StoreWorkerNodeInformation (node_information i) (cp_PersistenceLayer c) = Ok (Some e, s1) ->
  StoreServiceInformation info (cp_PersistenceLayer c) = Ok (Some e, s2) ->
  RegisterNode env i c = Blocked /\ RegisterService cfg env info c = Blocked.
Proof.
  intros (_&Hni&Hsi) Hn Hs Hp1 Hp2.
  destruct c as [dp [nim l1] [sim l2] h pol per rpcs n ts ls]. simpl in *. subst l1 l2. split.
  - unfold RegisterNode. do 2 (erewrite gom_bind_run; [|reflexivity]). cbn [InternalMap NIStorage SIStorage DataPlaneConnections]. rewrite Hn.
    apply gom_bind_blocked. erewrite gom_bind_run; [|by apply on_persistence_run].
    by apply gom_bind_blocked.
  - unfold RegisterService. do 2 (erewrite gom_bind_run; [|reflexivity]). cbn [InternalMap NIStorage SIStorage DataPlaneConnections]. rewrite Hs.
    apply gom_bind_blocked. erewrite gom_bind_run; [|by apply on_persistence_run].
    by apply gom_bind_blocked.
Qed.

(** With snapshot creation enabled no new service can be registered: the
    handler takes the lock on the services, stores and announces the
    service, and then waits for the same lock for ever. *)
Theorem precreate_deadlocks info c s1 :
  unlocked c -> valid_order (e_dp_ord env) -> cfg_PrecreateSnapshots cfg = true ->
  (forall k d, InternalMap (DataPlaneConnections c) !! k = Some d -> dp_connected d = true) ->
  InternalMap (SIStorage c) !! si_Name info = None ->
  StoreServiceInformation info (cp_PersistenceLayer c) = Ok (None, s1) ->
  RegisterService cfg env info c = Blocked.
Proof.
  intros (Hdp&_&Hsi) Hord Hcfg Hconn Hs Hp.
  destruct c as [[dpm l1] ni [sim l2] h pol per rpcs n ts ls]. simpl in *. subst l1 l2.
  unfold RegisterService. do 2 (erewrite gom_bind_run; [|reflexivity]). cbn [InternalMap NIStorage SIStorage DataPlaneConnections]. rewrite Hs.
  apply gom_bind_blocked. erewrite gom_bind_run; [|by apply on_persistence_run]. cbv beta iota.
  erewrite gom_bind_run; [|by apply notify_run].
  cbv beta iota. rewrite Hcfg. by apply gom_bind_blocked.
Qed.

(** The node monitor reaches a late node: it asks for it under its own lock. *)
Lemma check_nodes_blocked name wn sname sa l evs dp nim sim h pol per rpcs n ts ls :
  valid_order (e_si_ord env) -> (name, wn) ∈ l ->
  TolerateHeartbeatMisses * HeartbeatInterval < e_now env - wn_LastHeartbeat wn ->
  sim !! sname = Some sa -> (forall k a, sim !! k = Some a -> is_Some (h !! a)) ->
  check_nodes env l evs (mkControlPlane dp (mkStructure nim WLocked) (mkStructure sim Unlocked) h pol
    per rpcs n ts ls : ControlPlane S P) = Blocked.
Proof.
  intros Hso Hin Hlate Hsa Hheap. revert nim evs.
  induction l as [|[name' wn'] l IH]; intros nim evs; [by apply elem_of_nil in Hin|].
  cbn [check_nodes]. cbv zeta. erewrite gom_bind_run; [|reflexivity]. case_decide as Hd.
  - apply gom_bind_blocked. unfold createWorkerNodeFailureEvents.
    do 2 (erewrite gom_bind_run; [|reflexivity]). apply gom_bind_blocked. cbn [InternalMap SIStorage].
    assert (Hs1 : (sname, sa) ∈ e_si_ord env sim) by (by apply valid_order_elem).
    assert (Hs2 : forall x, x ∈ e_si_ord env sim -> is_Some (h !! x.2)).
    { intros [k a] Hx. apply valid_order_elem in Hx; [|done]. by eapply Hheap. }
    destruct (e_si_ord env sim) as [|[k a] l']; [by apply elem_of_nil in Hs1|].
    destruct (Hs2 (k, a)) as [ss Hss]; [by left|]. cbn [failure_events].
    erewrite gom_bind_run; [|apply ss_deref_run; exact Hss].
    apply gom_bind_blocked. unfold getServicesOnWorkerNode. by apply gom_bind_blocked.
  - apply elem_of_cons in Hin as [[= <- <-]|Hin]; [done|]. by apply IH.
Qed.

(** C38: The failure detectors cannot report a failure.  When a worker node
    has missed its heartbeats and a service is registered, the node monitor
    asks for the node under a read lock while it holds the write lock; when
    a data plane has missed its heartbeats, its monitor calls the
    deregistration handler, which takes the lock the monitor holds.  Both
    block for ever on the first failure they detect. *)
Theorem monitors_deadlock c :
  unlocked c -> valid_order (e_ni_ord env) -> valid_order (e_si_ord env) -> valid_order (e_dp_ord env) ->
  ((exists name wn, InternalMap (NIStorage c) !! name = Some wn /\
      TolerateHeartbeatMisses * HeartbeatInterval < e_now env - wn_LastHeartbeat wn) ->
   (exists name a, InternalMap (SIStorage c) !! name = Some a) ->
   (forall name a, InternalMap (SIStorage c) !! name = Some a -> is_Some (ss_heap c !! a)) ->
   CheckPeriodicallyWorkerNodes_tick env c = Blocked) /\
  ((exists ip d, InternalMap (DataPlaneConnections c) !! ip = Some d /\
      TolerateHeartbeatMisses * HeartbeatInterval < e_now env - dp_LastHeartBeat d) ->
   CheckPeriodicallyDataplanes_tick env c = Blocked).
Proof.
  intros (Hdp&Hni&Hsi) Hno Hso Hdo.
  destruct c as [[dpm l1] [nim l2] [sim l3] h pol per rpcs n ts ls]. simpl in *. subst l1 l2 l3.
  split.
  - intros (name&wn&Hn&Hlate) (sname&sa&Hsa) Hheap.
    unfold CheckPeriodicallyWorkerNodes_tick. do 2 (erewrite gom_bind_run; [|reflexivity]).
    apply gom_bind_blocked. cbn [InternalMap NIStorage SIStorage DataPlaneConnections].
    apply (check_nodes_blocked name wn sname sa); try done. by apply valid_order_elem.
  - intros (ip&d&Hd&Hlate). unfold CheckPeriodicallyDataplanes_tick.
    do 2 (erewrite gom_bind_run; [|reflexivity]). apply gom_bind_blocked. cbn [InternalMap NIStorage SIStorage DataPlaneConnections].
    assert (Hin : (ip, d) ∈ e_dp_ord env dpm) by (by apply valid_order_elem).
    induction (e_dp_ord env dpm) as [|[ip' d'] l IH]; [by apply elem_of_nil in Hin|].
    cbn [check_dataplanes]. case_decide as Hd'.
    + apply gom_bind_blocked. cbv zeta. apply gom_bind_blocked. unfold DeregisterDataplane.
      erewrite gom_bind_run; [|reflexivity]. by apply gom_bind_blocked.
    + erewrite gom_bind_run; [|reflexivity]. apply elem_of_cons in Hin as [[= <- <-]|Hin]; [done|].
      by apply IH.
Qed.
End deadlocks.

Section lock_leak.
Context {S P : Type} `{PL : PersistenceLayer S} `{PP : PlacementPolicy P}.
Context (env : cp_env).
Implicit Types (c : ControlPlane S P).

(** A data plane that fails to delete a deployment freezes the cluster.
    The deregistration of the service reports the error but returns with the
    table of data planes locked; the service stays registered although its
    record is gone from the database, and every later registration of a
    data plane blocks, as do all updates of endpoints. *)
Theorem DeregisterService_error_leaks_lock info a e c s1 :
  unlocked c -> valid_order (e_dp_ord env) ->
  InternalMap (SIStorage c) !! si_Name info = Some a ->
  DeleteServiceInformation info (cp_PersistenceLayer c) = Ok (None, s1) ->
  (forall k d, InternalMap (DataPlaneConnections c) !! k = Some d -> dp_connected d = true) ->
  InternalMap (DataPlaneConnections c) ≠ ∅ -> (forall n, e_err env n = Some e) ->
  exists c', DeregisterService env info c = Ok ((status_failed, Some e), c') /\
    InternalMap (SIStorage c') = InternalMap (SIStorage c) /\ cp_PersistenceLayer c' = s1 /\
    (forall env' i, RegisterDataplane env' i c' = Blocked) /\
    (forall env' b eps, updateEndpoints env' b eps c' = Blocked).
Proof.
  intros (Hdp&_&Hsi) Hord Hs Hp Hconn Hne Herr.
  destruct c as [[dpm l1] ni [sim l2] h pol per rpcs n ts ls]. simpl in *. subst l1 l2.
  assert (Hdel : exists ip d l, e_dp_ord env dpm = (ip, d) :: l /\ dp_connected d = true).
  { destruct (e_dp_ord env dpm) as [|[ip d] l] eqn:E.
    - exfalso. apply Hne, map_to_list_empty_iff, Permutation_nil_r. rewrite <- (Hord dpm). by rewrite E.
    - exists ip, d, l. split; [done|]. apply (Hconn ip). apply (valid_order_elem (e_dp_ord env)); [done|].
      rewrite E. by left. }
  destruct Hdel as (ip&d&l&El&Hc).
  assert (Hrm : forall per' : S, removeServiceFromDataplane env info
      (mkControlPlane (mkStructure dpm Unlocked) ni (mkStructure sim WLocked) h pol per' rpcs n ts ls) =
    Ok (Some e, mkControlPlane (mkStructure dpm WLocked) ni (mkStructure sim WLocked) h pol per'
      (rpcs ++ [RpcDeleteDeployment ip (si_Name info)]) n ts ls)).
  { intros per'. unfold removeServiceFromDataplane. go_step. go_step. rewrite El.
    cbn [delete_deployments]. unfold dp_call, call. rewrite Hc. go_step. by rewrite Herr. }
  exists (mkControlPlane (mkStructure dpm WLocked) ni (mkStructure sim Unlocked) h pol s1
      (rpcs ++ [RpcDeleteDeployment ip (si_Name info)]) n ts ls).
  split; [|split; [done|split; [done|split]]].
  - unfold DeregisterService. go_step. go_step. rewrite Hs.
    erewrite gom_bind_run; [|erewrite gom_bind_run; [|by apply on_persistence_run]; cbv beta iota;
      erewrite gom_bind_run; [|apply Hrm]; reflexivity].
    reflexivity.
  - intros env' i. unfold RegisterDataplane. cbv zeta. go_step. by apply gom_bind_blocked.
  - intros env' b eps. unfold updateEndpoints. by apply gom_bind_blocked.
Qed.
End lock_leak.

(** ** Concrete runs *)

Import Example.

Lemma Map_answers : DatabaseAnswers (PL := Map_layer) (redis_persisted (content := fun r => r)).
Proof.
  assert (Hget : forall A (C : Codec A) p (m : gmap string A) (r : Map), p ∈ prefixes -> holds ":" p r m ->
    exists l r', get_records 2 p r = Ok (inr l, r')).
  { intros A C p m r Hp Hh. eapply (get_records_returns (content := fun r => r)); [|done|exact Hh].
    apply Map_reads. }
  split; intros s st (H1&H2&H3).
  - eapply Hget; [|exact H1]. by left.
  - eapply Hget; [|exact H2]. by right; left.
  - eapply Hget; [|exact H3]. by right; right; left.
  - by eexists.
Qed.

Definition ex_node_info : NodeInfo := mkNodeInfo "n1" "10.0.0.1" 10010 8 64.
Definition ex_dp_info : DataplaneInfo := mkDataplaneInfo "10.0.0.9" 8081 8080.
Definition ex_history : list (cp_env * cp_request) :=
  [(ex_env, RqRegisterNode ex_node_info); (ex_env, RqRegisterDataplane ex_dp_info);
   (ex_env, RqRegisterService ex_service)].

Lemma failover_restores_registrations_witness :
  exists c : ControlPlane Map Random,
    cp_history (PL := Map_layer) ex_cfg ex_history (NewControlPlane tt (∅ : Map)) c /\
    exists c' pending,
      ReconstructState (PL := Map_layer) ex_cfg ex_env (fun x => Ok (tt, x)) (fun l => l) (fun l => l)
        (NewControlPlane (tt : Random) (cp_PersistenceLayer c)) = Ok ((None, pending), c') /\
      service_info c' "f" = Some ex_service.
Proof.
  assert (Hh : exists c : ControlPlane Map Random,
    cp_history (PL := Map_layer) ex_cfg ex_history (NewControlPlane tt (∅ : Map)) c /\
    service_info c "f" = Some ex_service).
  { assert (Hrun : (run_history (PL := Map_layer) ex_cfg ex_history
        (NewControlPlane (tt : Random) (∅ : Map)) ≫= fun c => service_info c "f") = Some ex_service)
      by (vm_compute; reflexivity).
    apply bind_Some in Hrun as (c&Hc&Hs). exists c. split; [by apply run_history_sound|exact Hs]. }
  destruct Hh as (c&Hh&Hs). exists c. split; [exact Hh|].
  destruct (failover_restores_registrations (PL := Map_layer) (redis_persisted (content := fun r => r))
    ex_cfg ex_history tt (∅ : Map) c ex_cfg ex_env (fun x => Ok (tt, x)) (fun l => l) (fun l => l) tt)
    as (c'&pending&H1&_&_&H2).
  - apply Map_persistence.
  - apply Map_answers.
  - split; [|split]; (split; [intros ? ? Hx; discriminate Hx|intros ? [? Hx]; discriminate Hx]).
  - exact Hh.
  - reflexivity.
  - apply map_to_list_valid.
  - apply map_to_list_valid.
  - intros a. reflexivity.
  - intros x. reflexivity.
  - intros l. reflexivity.
  - intros l. reflexivity.
  - exists c', pending. split; [exact H1|]. rewrite H2. exact Hs.
Defined.

(** A database that refuses every write. *)
Definition refusing_layer : PersistenceLayer EmptyPersistence := {|
  StoreDataPlaneInformation _ := mret (Some "down"%string);
  DeleteDataPlaneInformation _ := mret (Some "down"%string);
  GetDataPlaneInformation := mret (inr []);
  StoreWorkerNodeInformation _ := mret (Some "down"%string);
  DeleteWorkerNodeInformation _ := mret (Some "down"%string);
  GetWorkerNodeInformation := mret (inr []);
  StoreServiceInformation _ := mret (Some "down"%string);
  DeleteServiceInformation _ := mret (Some "down"%string);
  GetServiceInformation := mret (inr []);
  SetLeader := mret None;
  StoreEndpoint _ := mret (Some "down"%string);
|}.

Lemma store_error_deadlocks_witness :
  RegisterNode (PL := refusing_layer) ex_env (mkNodeInfo "n2" "10.0.0.3" 10010 8 64) (ex_cp 1 zero_time)
    = Blocked /\
  RegisterService (PL := refusing_layer) ex_cfg ex_env
    (mkServiceInfo "g" "image" 1 1 (mkPortMapping 0 80 TCP) (NewDefaultAutoscalingMetadata false))
    (ex_cp 1 zero_time) = Blocked.
Proof.
  apply (store_error_deadlocks (PL := refusing_layer) ex_cfg ex_env _ _ "down" (ex_cp 1 zero_time) tt tt);
    [split; [reflexivity|split; reflexivity]|reflexivity|reflexivity|reflexivity|reflexivity].
Defined.

Lemma precreate_deadlocks_witness :
  RegisterService (mkControlPlaneConfig true true false "" [] "random") ex_env
    (mkServiceInfo "g" "image" 1 1 (mkPortMapping 0 80 TCP) (NewDefaultAutoscalingMetadata false))
    (ex_cp 1 zero_time) = Blocked.
Proof.
  apply (precreate_deadlocks _ ex_env _ (ex_cp 1 zero_time) tt);
    [split; [reflexivity|split; reflexivity]|apply map_to_list_valid|reflexivity| |reflexivity|reflexivity].
  intros k d. apply (rd_dps _ (ex_cp_ready 1 zero_time)).
Defined.

Lemma monitors_deadlock_witness :
  CheckPeriodicallyWorkerNodes_tick ex_env (ex_cp 1 zero_time) = Blocked /\
  CheckPeriodicallyDataplanes_tick ex_env (ex_cp 1 zero_time) = Blocked.
Proof.
  destruct (monitors_deadlock ex_env (ex_cp 1 zero_time)) as [H1 H2];
    [split; [reflexivity|split; reflexivity]|apply map_to_list_valid..|].
  split.
  - apply H1.
    + exists "n1"%string, ex_wn. split; reflexivity.
    + exists "f"%string, 0%nat. reflexivity.
    + intros name a Ha. simpl in Ha. apply lookup_singleton_Some in Ha as [_ <-]. eexists. reflexivity.
  - apply H2. exists "10.0.0.9"%string, ex_dp. split; reflexivity.
Defined.

Definition failing_env : cp_env :=
  mkCpEnv (1700000000 * Second) map_to_list map_to_list map_to_list map_to_list elements
    (fun _ => example_env) (fun _ => 0) (fun _ => Some "unavailable"%string) ex_created (fun _ => [])
    (fun _ => None).

Lemma DeregisterService_error_leaks_lock_witness :
  exists c', DeregisterService failing_env ex_service (ex_cp 1 zero_time) =
      Ok ((status_failed, Some "unavailable"%string), c') /\
    forall env' i, RegisterDataplane env' i c' = Blocked.
Proof.
  destruct (DeregisterService_error_leaks_lock failing_env ex_service 0 "unavailable" (ex_cp 1 zero_time) tt)
    as (c'&H1&_&_&H2&_);
    [split; [reflexivity|split; reflexivity]|apply map_to_list_valid|reflexivity|reflexivity| | |reflexivity|].
  - intros k d. apply (rd_dps _ (ex_cp_ready 1 zero_time)).
  - simpl. intros Hx. apply (f_equal (fun m : gmap string DataPlaneConnectionInfo => m !! "10.0.0.9"%string)) in Hx.
    discriminate Hx.
  - exists c'. split; [exact H1|exact H2].
Defined.
