(* ===== verification/CpTypes.v ===== *)
(** * Well-formed tables

    The type invariant of the control plane: every record is filed under its own
    name, the ports it keeps as text are numbers, and the table of services
    points to service objects.  Every handler keeps it, also when it fails. *)
From Stdlib Require Import ZArith Lia Ascii.
From stdpp Require Import base tactics list gmap strings sets numbers pretty.
From S2P Require Import Prelude Sync Autoscaling Controller Core Net Placement Persistence ScalingLoop ControlPlane.

Local Open Scope Z_scope.

(** A port of a request, a non-negative [int32]. *)
Definition is_port (p : Z) : Prop := 0 <= p < 2 ^ 31.

(** Every record is filed under its own name and is one that was asked for:
    [DP], [WN] and [SI] are the records the requests so far may have left. *)
Record well_typed {S} (DP : DataplaneInformation -> Prop) (WN : WorkerNodeInformation -> Prop)
    (SI : ServiceInfo -> Prop) (v : registrations S) : Prop := {
  wt_dp : forall k i, rg_dp v !! k = Some i -> dpi_Address i = k /\ DP i;
  wt_wn : forall k i, rg_wn v !! k = Some i -> wni_Name i = k /\ WN i;
  wt_si : forall k a, rg_si v !! k = Some a ->
    exists info, rg_infos v !! a = Some info /\ si_Name info = k /\ SI info;
}.

(** Well-typed tables stay so when a record is added or removed. *)
Section closure.
Context {S : Type} (DP : DataplaneInformation -> Prop) (WN : WorkerNodeInformation -> Prop)
  (SI : ServiceInfo -> Prop).
Abbreviation well_typed := (well_typed DP WN SI).
Implicit Types (v : registrations S) (s : S).

Lemma wt_db v s : well_typed v -> well_typed (mkRegistrations (rg_dp v) (rg_wn v) (rg_si v) (rg_infos v) s).
Proof. intros [H1 H2 H3]. by split. Qed.
Lemma wt_dp_insert v i s :
  DP i -> well_typed v ->
  well_typed (mkRegistrations (<[dpi_Address i := i]> (rg_dp v)) (rg_wn v) (rg_si v) (rg_infos v) s).
Proof.
  intros Hd [H1 H2 H3]. split; simpl; [|done|done]. intros k j.
  rewrite lookup_insert_Some. intros [[<- <-]|[_ Hk]]; [done|]. by apply H1.
Qed.
Lemma wt_dp_delete v k s :
  well_typed v -> well_typed (mkRegistrations (delete k (rg_dp v)) (rg_wn v) (rg_si v) (rg_infos v) s).
Proof. intros [H1 H2 H3]. split; simpl; [|done|done]. intros k' j [_ Hk]%lookup_delete_Some. by apply H1. Qed.
Lemma wt_wn_insert v i s :
  WN i -> well_typed v ->
  well_typed (mkRegistrations (rg_dp v) (<[wni_Name i := i]> (rg_wn v)) (rg_si v) (rg_infos v) s).
Proof.
  intros Hp [H1 H2 H3]. split; simpl; [done| |done]. intros k j.
  rewrite lookup_insert_Some. intros [[<- <-]|[_ Hk]]; [done|]. by apply H2.
Qed.
Lemma wt_wn_delete v k s :
  well_typed v -> well_typed (mkRegistrations (rg_dp v) (delete k (rg_wn v)) (rg_si v) (rg_infos v) s).
Proof. intros [H1 H2 H3]. split; simpl; [done| |done]. intros k' j [_ Hk]%lookup_delete_Some. by apply H2. Qed.
Lemma wt_si_insert v info s :
  SI info -> well_typed v -> well_typed (mkRegistrations (rg_dp v) (rg_wn v)
    (<[si_Name info := length (rg_infos v)]> (rg_si v)) (rg_infos v ++ [info]) s).
Proof.
  intros Hi [H1 H2 H3]. split; simpl; [done|done|]. intros k a.
  rewrite lookup_insert_Some. intros [[<- <-]|[_ Hk]].
  - exists info. by rewrite list_lookup_middle.
  - destruct (H3 k a Hk) as (j&Hj&Hn). exists j. split; [by apply lookup_app_l_Some|done].
Qed.
Lemma wt_si_delete v k s :
  well_typed v -> well_typed (mkRegistrations (rg_dp v) (rg_wn v) (delete k (rg_si v)) (rg_infos v) s).
Proof. intros [H1 H2 H3]. split; simpl; [done|done|]. intros k' j [_ Hk]%lookup_delete_Some. by apply H3. Qed.
End closure.
Create HintDb wt discriminated.
#[export] Hint Resolve wt_db wt_dp_insert wt_dp_delete wt_wn_insert wt_wn_delete wt_si_insert wt_si_delete : wt.

Section keeps.
Context {S P : Type} `{PL : PersistenceLayer S} `{PP : PlacementPolicy P}.
Context (cfg : ControlPlaneConfig) (env : cp_env).
Context (DP : DataplaneInformation -> Prop) (WN : WorkerNodeInformation -> Prop) (SI : ServiceInfo -> Prop).
Implicit Types (c : ControlPlane S P).
Abbreviation well_typed := (well_typed DP WN SI).

Definition keeps_typed {A} (m : GoM (ControlPlane S P) A) : Prop :=
  forall c r c', well_typed (view c) -> m c = Ok (r, c') -> well_typed (view c').
Definition same_view {A} (m : GoM (ControlPlane S P) A) : Prop :=
  forall c r c', m c = Ok (r, c') -> view c' = view c.

Lemma same_view_typed {A} (m : GoM (ControlPlane S P) A) : same_view m -> keeps_typed m.
Proof. intros Hs c r c' Hw H. by rewrite (Hs c r c' H). Qed.

Lemma on_ni_Set_same k w w' c u c' :
  InternalMap (NIStorage c) !! k = Some w -> wn_record w' = wn_record w ->
  on_ni (Set_ k w') c = Ok (u, c') -> view c' = view c.
Proof.
  intros Hk Hr H. apply on_ni_Set_view in H. rewrite H, Hr. unfold view. simpl. f_equal.
  apply insert_id. by rewrite lookup_fmap, Hk.
Qed.

Lemma AtomicRemove_ni_typed k : keeps_typed (on_ni (AtomicRemove k)).
Proof.
  intros c r c' Hw H. unfold on_ni in H. apply zoom_ok in H as (t&Ht&->).
  destruct (NIStorage c) as [m []] eqn:E; try done. injection Ht as <- <-. unfold view. simpl.
  rewrite fmap_delete. apply (wt_wn_delete DP WN SI (view c)) with (k := k) (s := cp_PersistenceLayer c) in Hw.
  unfold view in Hw. simpl in Hw. by rewrite E in Hw.
Qed.
Lemma AtomicRemove_si_typed k : keeps_typed (on_si (AtomicRemove k)).
Proof.
  intros c r c' Hw H. unfold on_si in H. apply zoom_ok in H as (t&Ht&->).
  destruct (SIStorage c) as [m []] eqn:E; try done. injection Ht as <- <-. unfold view. simpl.
  apply (wt_si_delete DP WN SI (view c)) with (k := k) (s := cp_PersistenceLayer c) in Hw.
  unfold view in Hw. simpl in Hw. by rewrite E in Hw.
Qed.

Lemma RegisterNode_typed i : WN (node_information i) -> keeps_typed (RegisterNode env i).
Proof.
  intros Hp c r c' Hw H. unfold RegisterNode in H. view_steps. run_case; view_steps; [by view_rewrite|].
  run_case; view_steps.
  - match goal with Hr : on_ni (AtomicRemove _) _ = Ok _ |- _ => apply AtomicRemove_ni_typed in Hr end;
      view_rewrite; auto with wt.
  - view_rewrite. rewrite insert_insert_eq.
    apply (wt_wn_insert DP WN SI (view c) (node_information i)); done.
Qed.

Lemma DeregisterNode_typed i : keeps_typed (DeregisterNode env i).
Proof.
  intros c r c' Hw H. unfold DeregisterNode in H. view_steps. run_case; view_steps; [|by view_rewrite].
  run_case; view_steps; [view_rewrite; auto with wt|].
  match goal with Hl : removeEndointsAssociatedWithNode _ _ _ = Ok _ |- _ =>
    apply removeEndoints_view in Hl end. view_rewrite. by apply (wt_wn_delete DP WN SI (view c)).
Qed.

Lemma announce_services_typed key l : keeps_typed (announce_services env key l).
Proof.
  induction l as [|[n a] l IH]; intros c r c' Hw; cbn [announce_services]; intros H; [by view_steps|].
  view_steps. run_case; view_steps; [view_rewrite; auto with wt|].
  match goal with Hu : singlethreadUpdateEndpoints _ _ _ _ = Ok _ |- _ =>
    apply singlethreadUpdateEndpoints_view in Hu end.
  eapply IH; [|exact H]. by view_rewrite.
Qed.

Lemma RegisterDataplane_typed i :
  DP (dataplane_information i) -> keeps_typed (RegisterDataplane env i).
Proof.
  intros Hd c r c' Hw H. unfold RegisterDataplane in H. cbv zeta in H. view_steps.
  match goal with H : context [match InternalMap ?m !! ?k with _ => _ end] |- _ =>
    destruct (InternalMap m !! k) eqn:E end; view_steps.
  - rewrite dp_heartbeat_record in * by done.
    match goal with Hv : view c' = _ |- _ => rewrite Hv end. view_rewrite. by destruct (view c).
  - repeat (run_case; view_steps; try (view_rewrite; auto with wt; fail)).
    match goal with Hn : announce_services _ _ _ _ = Ok _ |- _ => apply announce_services_typed in Hn end;
      view_rewrite; [done|].
    apply (wt_dp_insert DP WN SI (view c) (dataplane_information i)); done.
Qed.

Lemma DeregisterDataplane_typed i : keeps_typed (DeregisterDataplane env i).
Proof.
  intros c r c' Hw H. unfold DeregisterDataplane in H. cbv zeta in H. view_steps.
  run_case; view_steps; [|by view_rewrite]. run_case; view_steps; [view_rewrite; auto with wt|].
  match goal with Hl : go_for _ _ _ = Ok _ |- _ => apply go_for_view in Hl end.
  - view_rewrite. by apply (wt_dp_delete DP WN SI (view c)).
  - intros kv d1 u1 d2 _ Hb. by apply ss_modify_view in Hb.
Qed.

Lemma RegisterService_typed i : SI i -> keeps_typed (RegisterService cfg env i).
Proof.
  intros Hi c r c' Hw H. unfold RegisterService in H. view_steps. run_case; view_steps; [by view_rewrite|].
  run_case; view_steps.
  - match goal with Hr : on_si (AtomicRemove _) _ = Ok _ |- _ => apply AtomicRemove_si_typed in Hr end;
      view_rewrite; auto with wt.
  - match goal with Hl : notifyDataplanesAndStartScalingLoop _ _ _ _ = Ok _ |- _ =>
      apply notify_view in Hl as [-> Hl] end. view_steps. destruct (cfg_PrecreateSnapshots cfg).
    1: match goal with Hl : precreateSnapshots _ _ _ = Ok _ |- _ => apply precreateSnapshots_view in Hl end.
    all: view_steps; view_rewrite; by apply (wt_si_insert DP WN SI (view c)).
Qed.

Lemma delete_deployments_same name l : same_view (delete_deployments env name l).
Proof.
  induction l as [|[ip d] l IH]; intros c r c'; cbn [delete_deployments]; intros H; view_steps; [congruence|].
  run_case; view_steps; [congruence|]. apply IH in H. congruence.
Qed.

Lemma DeregisterService_typed i : keeps_typed (DeregisterService env i).
Proof.
  intros c r c' Hw H. unfold DeregisterService in H. view_steps. run_case; view_steps; [|by view_rewrite].
  run_case; view_steps; [view_rewrite; auto with wt|].
  match goal with Hl : removeServiceFromDataplane _ _ _ = Ok _ |- _ =>
    unfold removeServiceFromDataplane in Hl; view_steps; apply delete_deployments_same in Hl end.
  run_case; view_steps; [view_rewrite; auto with wt|].
  match goal with Hl : close_desired _ _ = Ok _ |- _ =>
    unfold close_desired in Hl; view_steps; destruct (DesiredStateClosed _); [discriminate Hl|];
    apply ss_modify_view in Hl; [|done] end.
  view_rewrite. by apply (wt_si_delete DP WN SI (view c)).
Qed.

Lemma NodeHeartbeat_same i : same_view (NodeHeartbeat env i).
Proof.
  intros c r c' H. unfold NodeHeartbeat in H. view_steps. run_case; [|by view_steps].
  apply gom_bind_ok in H as (u&c1&H1&[= <- <-]). by eapply on_ni_Set_same in H1.
Qed.
Lemma connect_node_same name : same_view (connect_node env name).
Proof.
  intros c r c' H. unfold connect_node in H. view_steps. run_case; [|by view_steps].
  by eapply on_ni_Set_same in H.
Qed.

Lemma AtomicGet_si_same k : same_view (on_si (AtomicGet k)).
Proof.
  intros c r c' H. unfold on_si in H. apply zoom_ok in H as (t&Ht&->). unfold view. simpl.
  destruct (SIStorage c) as [m []]; try done; injection Ht as <- <-; done.
Qed.
Lemma OnMetricsReceive_same m : same_view (OnMetricsReceive m).
Proof.
  intros c r c' H. unfold OnMetricsReceive in H. apply gom_bind_ok in H as (o&c1&H1&H).
  apply AtomicGet_si_same in H1. destruct o as [a|]; [|injection H as <- <-; done].
  apply gom_bind_ok in H as (u&c2&H2&H). apply gom_bind_ok in H as (u'&c3&H3&[= <- <-]).
  apply ss_modify_view in H2; [|done]. apply ss_modify_view in H3; [|done]. congruence.
Qed.

Lemma removeEndpointFromWNStruct_same e : same_view (removeEndpointFromWNStruct e).
Proof.
  intros c r c' H. unfold removeEndpointFromWNStruct in H. destruct (Node e) as [name|]; [|by view_steps].
  view_steps. destruct (InternalMap (NIStorage c) !! name) as [wn|] eqn:E; [|done]. 
  match goal with Hd : deref _ = Ok _ |- _ => injection Hd as <- end.
  rewrite H. unfold view. simpl. f_equal. apply insert_id. by rewrite lookup_fmap, E.
Qed.
Lemma failed_endpoints_same a cids acc : same_view (failed_endpoints a cids acc).
Proof.
  revert acc. induction cids as [|cid cids IH]; intros acc c r c'; cbn [failed_endpoints]; intros H; [by view_steps|].
  view_steps. run_case; [|by apply IH in H]. apply gom_bind_ok in H as (u&c1&H1&H).
  apply removeEndpointFromWNStruct_same in H1. apply IH in H. congruence.
Qed.
Lemma updateEndpoints_same a eps : same_view (updateEndpoints env a eps).
Proof.
  intros c r c' H. unfold updateEndpoints in H. view_steps.
  match goal with Hl : singlethreadUpdateEndpoints _ _ _ _ = Ok _ |- _ =>
    apply singlethreadUpdateEndpoints_view in Hl end. congruence.
Qed.
Lemma removeEndpoints_same a cids : same_view (removeEndpoints env a cids).
Proof.
  intros c r c' H. unfold removeEndpoints in H. view_steps.
  repeat match goal with
  | Hl : EndpointLock_Lock _ _ = Ok _ |- _ => apply (fun H => EndpointLock_view _ _ _ _ (or_introl H)) in Hl
  | Hl : EndpointLock_Unlock _ _ = Ok _ |- _ => apply (fun H => EndpointLock_view _ _ _ _ (or_intror H)) in Hl
  | Hl : excludeEndpoints _ _ _ = Ok _ |- _ => apply ss_modify_view in Hl; [|done]
  | Hl : ss_modify _ _ _ = Ok _ |- _ => apply ss_modify_view in Hl; [|done]
  | Hl : failed_endpoints _ _ _ _ = Ok _ |- _ => apply failed_endpoints_same in Hl
  | Hl : updateEndpoints _ _ _ _ = Ok _ |- _ => apply updateEndpoints_same in Hl
  end. congruence.
Qed.
Lemma HandleFailure_same failures : same_view (HandleFailure env failures).
Proof.
  intros c r c' H. unfold HandleFailure in H. apply gom_bind_ok in H as (u&c1&H&[= <- <-]).
  eapply go_for_view; [|exact H]. intros f c2 u2 c3 _ Hb. cbv beta in Hb.
  destruct (fl_Type f); view_steps; try done; (run_case; [by apply removeEndpoints_same in Hb|by view_steps]).
Qed.

(** The monitor writes back nodes it has read. *)
Lemma createWorkerNodeFailureEvents_same wn : same_view (createWorkerNodeFailureEvents env wn).
Proof.
  intros c r c' H. unfold createWorkerNodeFailureEvents in H. view_steps.
  assert (Hf : forall l acc c r c', failure_events env wn l acc c = Ok (r, c') -> view c' = view c).
  { clear. induction l as [|[k a] l IH]; intros acc c r c'; cbn [failure_events]; intros H; [by view_steps|].
    view_steps. match goal with Hx : getServicesOnWorkerNode _ _ _ = Ok _ |- _ => rename Hx into Hg end.
    apply IH in H. rewrite H. unfold getServicesOnWorkerNode in Hg.
    apply gom_bind_ok in Hg as (o&c2&Ho&Hg).
    assert (view c2 = view c) as <-.
    { unfold on_ni in Ho. apply zoom_ok in Ho as (t&Ht&->). unfold view. simpl.
      destruct (NIStorage c) as [m []]; try done; injection Ht as <- <-; done. }
    destruct o; view_steps; congruence. }
  match goal with Hl : failure_events _ _ _ _ _ = Ok _ |- _ => apply Hf in Hl end. congruence.
Qed.

Lemma check_nodes_typed l evs :
  Forall (fun kv => wn_Name kv.2 = kv.1 /\ WN (wn_record kv.2)) l -> keeps_typed (check_nodes env l evs).
Proof.
  intros Hl. revert evs. induction Hl as [|[name wn] l [Hn Hp] Hl IH]; intros evs c r c' Hw; cbn [check_nodes];
    [by intros [= <- <-]|].
  cbv zeta. simpl in Hn, Hp. subst name. intros H. apply gom_bind_ok in H as (u&c1&H1&H).
  apply on_ni_Set_view in H1.
  assert (Hw1 : well_typed (view c1)).
  { rewrite H1. by apply (wt_wn_insert DP WN SI (view c) (wn_record (SetSchedulability true wn))). }
  case_decide; [|by apply IH in H].
  apply gom_bind_ok in H as (evs'&c2&H2&H). apply createWorkerNodeFailureEvents_same in H2.
  apply gom_bind_ok in H as (u'&c3&H3&H). apply on_ni_Set_view in H3. apply IH in H; [done|].
  rewrite H3, H2. by apply (wt_wn_insert DP WN SI (view c1) (wn_record (SetSchedulability false (SetSchedulability true wn)))).
Qed.

Lemma nodes_tick_typed : valid_order (e_ni_ord env) -> keeps_typed (CheckPeriodicallyWorkerNodes_tick env).
Proof.
  intros Ho c r c' Hw H. unfold CheckPeriodicallyWorkerNodes_tick in H. view_steps.
  match goal with Hn : check_nodes _ _ _ _ = Ok _, Hf : HandleFailure _ _ _ = Ok _ |- _ =>
    apply HandleFailure_same in Hf; apply check_nodes_typed in Hn; [view_rewrite; done| |by view_rewrite] end.
  apply list.Forall_forall. intros [k wn] Hin. rewrite valid_order_elem in Hin by done.
  match goal with Hv : view ?x = view c |- _ => rewrite <- Hv in Hw end.
  destruct (wt_wn _ _ _ _ Hw k (wn_record wn)) as [Hn Hp]; [|done]. simpl. by rewrite lookup_fmap, Hin.
Qed.

Lemma dataplanes_tick_typed : keeps_typed (CheckPeriodicallyDataplanes_tick env).
Proof.
  intros c r c' Hw H. unfold CheckPeriodicallyDataplanes_tick in H. view_steps.
  assert (Hc : forall l, keeps_typed (check_dataplanes env l)).
  { clear. induction l as [|[k d] l IH]; intros c r c' Hw; cbn [check_dataplanes]; [by intros [= <- <-]|].
    intros H. apply gom_bind_ok in H as (u&c1&H1&H). apply IH in H; [done|]. case_decide; [|by injection H1 as <- <-].
    cbv zeta in H1. apply gom_bind_ok in H1 as (v&c2&H1&[= <- <-]). by apply DeregisterDataplane_typed in H1. }
  match goal with Hn : check_dataplanes _ _ _ = Ok _ |- _ => apply Hc in Hn end; [|by view_rewrite].
  by view_rewrite.
Qed.
End keeps.

(** ** All handlers *)

(** What may call into the control plane, with the ports of its requests. *)
Inductive cp_call : Type :=
| CallRequest (rq : cp_request)
| CallNodeHeartbeat (i : NodeHeartbeatMessage)
| CallOnMetricsReceive (m : AutoscalingMetric)
| CallConnectNode (name : string)
| CallHandleFailure (failures : list Failure)
| CallNodeMonitor
| CallDataplaneMonitor.
(** The records a call may leave in the tables. *)
Definition call_ok (DP : DataplaneInformation -> Prop) (WN : WorkerNodeInformation -> Prop)
    (SI : ServiceInfo -> Prop) (k : cp_call) : Prop :=
  match k with
  | CallRequest (RqRegisterDataplane i) => DP (dataplane_information i)
  | CallRequest (RqRegisterNode i) => WN (node_information i)
  | CallRequest (RqRegisterService i) => SI i
  | _ => True
  end.
Definition call_ports (k : cp_call) : list Z :=
  match k with
  | CallRequest (RqRegisterDataplane i) => [di_APIPort i; di_ProxyPort i]
  | CallRequest (RqRegisterNode i) => [ni_Port i]
  | _ => []
  end.
Definition cp_serve {S P} `{PersistenceLayer S} `{PlacementPolicy P} (cfg : ControlPlaneConfig) (env : cp_env)
    (k : cp_call) : GoM (ControlPlane S P) unit :=
  match k with
  | CallRequest rq => cp_handle cfg env rq ;; mret tt
  | CallNodeHeartbeat i => NodeHeartbeat env i ;; mret tt
  | CallOnMetricsReceive m => OnMetricsReceive m ;; mret tt
  | CallConnectNode name => connect_node env name
  | CallHandleFailure failures => HandleFailure env failures ;; mret tt
  | CallNodeMonitor => CheckPeriodicallyWorkerNodes_tick env
  | CallDataplaneMonitor => CheckPeriodicallyDataplanes_tick env
  end.
(** Any sequence of calls that return, with success or with an error. *)
Fixpoint cp_serves {S P} `{PersistenceLayer S} `{PlacementPolicy P} (cfg : ControlPlaneConfig)
    (l : list (cp_env * cp_call)) : GoM (ControlPlane S P) unit :=
  match l with
  | [] => mret tt
  | (env, k) :: l' => cp_serve cfg env k ;; cp_serves cfg l'
  end.

Lemma cp_serve_typed {S P} `{PersistenceLayer S} `{PlacementPolicy P} cfg env DP WN SI k :
  valid_order (e_ni_ord env) -> call_ok DP WN SI k ->
  keeps_typed DP WN SI (cp_serve (S := S) (P := P) cfg env k).
Proof.
  intros Ho Hp c u c' Hw Hr. destruct k as [rq|i|m|name|fs| |]; cbn [cp_serve] in Hr;
    try (apply gom_bind_ok in Hr as (r&c1&Hr&[= <- <-])).
  - destruct rq; cbn [cp_handle call_ok] in Hr, Hp.
    + apply gom_bind_ok in Hr as (r2&c2&Hr&[= <- <-]). by apply (RegisterDataplane_typed _ DP WN SI) in Hr.
    + by apply (DeregisterDataplane_typed _ DP WN SI) in Hr.
    + by apply (RegisterNode_typed _ DP WN SI) in Hr.
    + by apply (DeregisterNode_typed _ DP WN SI) in Hr.
    + by apply (RegisterService_typed _ _ DP WN SI) in Hr.
    + by apply (DeregisterService_typed _ DP WN SI) in Hr.
  - by apply NodeHeartbeat_same in Hr as ->.
  - by apply OnMetricsReceive_same in Hr as ->.
  - by apply connect_node_same in Hr as ->.
  - by apply HandleFailure_same in Hr as ->.
  - by apply (nodes_tick_typed _ DP WN SI) in Hr.
  - by apply (dataplanes_tick_typed _ DP WN SI) in Hr.
Qed.

Lemma cp_serves_typed {S P} `{PersistenceLayer S} `{PlacementPolicy P} cfg DP WN SI
    (l : list (cp_env * cp_call)) (c c' : ControlPlane S P) :
  Forall (fun ek => valid_order (e_ni_ord ek.1) /\ call_ok DP WN SI ek.2) l ->
  well_typed DP WN SI (view c) -> cp_serves cfg l c = Ok (tt, c') -> well_typed DP WN SI (view c').
Proof.
  intros Hl. revert c. induction Hl as [|[env k] l [Ho Hp] Hl IH]; intros c Hw.
  - by intros [= <-].
  - cbn [cp_serves]. intros Hr. apply gom_bind_ok in Hr as ([]&c2&Hk&Hr). eapply IH; [|exact Hr].
    by apply (cp_serve_typed _ _ DP WN SI) in Hk.
Qed.

(** C26: The tables of the control plane hold what was asked for.  After any
    sequence of calls of the API, of failure reports and of passes of the monitors, answered
    with success or with an error: every entry of the table of data planes is
    filed under its address, which is the address of a registration request of
    the sequence, and its API port and proxy port, kept as text, parse back to
    the two numbers of that request, each to its own; every node is filed under
    its name and has the address, the port, the cores and the memory of a
    registration request; every entry of the table of services leads to a
    service object of that name that holds the information of a registration
    request.  So the monitor that parses the ports never works with the zero of
    a failed conversion.  The ports of the requests are non-negative. *)
Theorem tables_well_formed {S P} `{PersistenceLayer S} `{PlacementPolicy P} cfg policy s0
    (l : list (cp_env * cp_call)) (c : ControlPlane S P) :
  Forall (fun ek => valid_order (e_ni_ord ek.1) /\ Forall is_port (call_ports ek.2)) l ->
  cp_serves cfg l (NewControlPlane policy s0) = Ok (tt, c) ->
  (forall k d, InternalMap (DataPlaneConnections c) !! k = Some d ->
     exists i, CallRequest (RqRegisterDataplane i) ∈ l.*2 /\ di_IP i = k /\ dp_IP d = k /\
       Atoi (dp_APIPort d) = Some (di_APIPort i) /\ Atoi (dp_ProxyPort d) = Some (di_ProxyPort i)) /\
  (forall k w, InternalMap (NIStorage c) !! k = Some w ->
     exists i, CallRequest (RqRegisterNode i) ∈ l.*2 /\ ni_NodeID i = k /\ wn_Name w = k /\
       wn_IP w = ni_IP i /\ Atoi (wn_Port w) = Some (ni_Port i) /\
       wn_CpuCores w = ni_CpuCores i /\ wn_Memory w = ni_MemorySize i) /\
  (forall k a, InternalMap (SIStorage c) !! k = Some a ->
     exists ss, ss_heap c !! a = Some ss /\ si_Name (ss_ServiceInfo ss) = k /\
       CallRequest (RqRegisterService (ss_ServiceInfo ss)) ∈ l.*2).
Proof.
  intros Hl Hr.
  set (DP := fun d => exists i, CallRequest (RqRegisterDataplane i) ∈ l.*2 /\
    Forall is_port [di_APIPort i; di_ProxyPort i] /\ d = dataplane_information i).
  set (WN := fun w => exists i, CallRequest (RqRegisterNode i) ∈ l.*2 /\ is_port (ni_Port i) /\ w = node_information i).
  set (SI := fun i => CallRequest (RqRegisterService i) ∈ l.*2).
  assert (Hw : well_typed DP WN SI (view c)).
  { refine (cp_serves_typed cfg DP WN SI l _ c _ _ Hr); [|by split]. apply list.Forall_forall. intros [env k] Hin.
    rewrite list.Forall_forall in Hl. destruct (Hl _ Hin) as [Ho Hp]. split; [done|].
    assert (Hk : k ∈ l.*2) by (apply list_elem_of_fmap; by exists (env, k)).
    destruct k as [[]| | | | | |]; cbn in *; try done.
    - by eexists.
    - exists i. rewrite list.Forall_cons in Hp. by destruct Hp. }
  assert (Htext : forall p, is_port p -> Atoi (Itoa p) = Some p).
  { intros p Hp. apply Atoi_Itoa. unfold is_port in Hp. lia. }
  destruct Hw as [W1 W2 W3]. split_and!.
  - intros k d Hk. destruct (W1 k (dp_record d)) as (Hn&i&Hi&Hp&E); [simpl; by rewrite lookup_fmap, Hk|].
    rewrite !list.Forall_cons in Hp. destruct Hp as (Ha&Hp&_). injection E as E1 E2 E3. exists i. cbn in Hn.
    rewrite E2, E3, !Htext by done. split_and!; congruence.
  - intros k w Hk. destruct (W2 k (wn_record w)) as (Hn&i&Hi&Hp&E); [simpl; by rewrite lookup_fmap, Hk|].
    injection E as E1 E2 E3 E4 E5. cbn in Hn. exists i. rewrite E3, Htext by done. split_and!; congruence.
  - intros k a Hk. destruct (W3 k a Hk) as (info&Hi&Hn&Hs). simpl in Hi. rewrite list_lookup_fmap in Hi.
    destruct (ss_heap c !! a) as [ss|]; [|done]. injection Hi as <-. eauto.
Qed.

Lemma tables_well_formed_witness :
  exists c : ControlPlane EmptyPersistence Random,
    cp_serves ex_cfg [(ex_env, CallRequest (RqRegisterNode ex_node_info));
      (ex_env, CallRequest (RqRegisterNode ex_node_info)); (ex_env, CallRequest (RqRegisterDataplane ex_dp_info));
      (ex_env, CallNodeMonitor); (ex_env, CallRequest (RqDeregisterService ex_service))]
      (NewControlPlane tt tt) = Ok (tt, c) /\
    exists d, InternalMap (DataPlaneConnections c) !! "10.0.0.9"%string = Some d /\
      Atoi (dp_APIPort d) = Some 8081 /\ Atoi (dp_ProxyPort d) = Some 8080.
Proof.
  destruct (cp_serves ex_cfg _ _) as [[[] c]| | |] eqn:E; [|by vm_compute in E..].
  exists c. split; [reflexivity|].
  assert (Hd : exists d, InternalMap (DataPlaneConnections c) !! "10.0.0.9"%string = Some d).
  { vm_compute in E. injection E as <-. eexists. reflexivity. }
  destruct Hd as [d Hd]. exists d. split; [exact Hd|].
  destruct (tables_well_formed ex_cfg (tt : Random) (tt : EmptyPersistence)
    [(ex_env, CallRequest (RqRegisterNode ex_node_info));
      (ex_env, CallRequest (RqRegisterNode ex_node_info)); (ex_env, CallRequest (RqRegisterDataplane ex_dp_info));
      (ex_env, CallNodeMonitor); (ex_env, CallRequest (RqDeregisterService ex_service))] c) as [H1 _].
  - repeat (constructor; [split; [apply map_to_list_valid|repeat constructor; unfold is_port; cbn; lia]|]). constructor.
  - exact E.
  - destruct (H1 _ _ Hd) as (i&Hi&_&_&Ha&Hp). 
    assert (Ei : i = ex_dp_info).
    { cbn in Hi. rewrite !elem_of_cons, elem_of_nil in Hi. destruct_or!; congruence. }
    subst i. split; [exact Ha|exact Hp].
Defined.
