(* ===== verification/LeaderElection.v ===== *)
(** * Leader election

    [internal/control_plane/leader_election]: the consensus module of a control
    plane replica ([consensus_module.go], [state.go]) and the server around it
    ([server.go]).  Every handler runs under the module's mutex, so it is one
    function on the module's state; the announcements it sends to the
    control plane are the list [announced], oldest first. *)
From Stdlib Require Import ZArith Lia.
From stdpp Require Import base tactics list gmap strings sets numbers.
From S2P Require Import Prelude.

Local Open Scope Z_scope.

(** ** State *)

Inductive CMState : Type := Follower | Candidate | Leader | Dead.

#[global] Instance CMState_eq_dec : EqDecision CMState.
Proof. solve_decision. Defined.

Definition CMState_String (s : CMState) : string :=
  match s with
  | Follower => "Follower"
  | Candidate => "Candidate"
  | Leader => "Leader"
  | Dead => "Dead"
  end.

Record AnnounceLeadership : Type := mkAnnounceLeadership {
  al_IsLeader : bool;
  al_Term : Z;
}.

Record ConsensusModule : Type := mkConsensusModule {
  cm_id : Z;
  cm_peerIds : list Z;
  cm_currentTerm : Z;
  cm_votedFor : Z;
  cm_state : CMState;
  cm_electionResetEvent : Z;
  cm_currentLeaderID : Z;
  announced : list AnnounceLeadership;
}.

Record RequestVoteArgs : Type := mkRequestVoteArgs { rv_Term : Z; rv_CandidateID : Z }.
Record RequestVoteReply : Type := mkRequestVoteReply { rvr_Term : Z; rvr_VoteGranted : bool }.
Record AppendEntriesArgs : Type := mkAppendEntriesArgs { ae_Term : Z; ae_LeaderID : Z }.
Record AppendEntriesReply : Type := mkAppendEntriesReply { aer_Term : Z; aer_Success : bool }.

Definition set_state (st : CMState) (cm : ConsensusModule) : ConsensusModule :=
  mkConsensusModule (cm_id cm) (cm_peerIds cm) (cm_currentTerm cm) (cm_votedFor cm) st
    (cm_electionResetEvent cm) (cm_currentLeaderID cm) (announced cm).
Definition set_vote (c now : Z) (cm : ConsensusModule) : ConsensusModule :=
  mkConsensusModule (cm_id cm) (cm_peerIds cm) (cm_currentTerm cm) c (cm_state cm)
    now (cm_currentLeaderID cm) (announced cm).
Definition set_reset (now : Z) (cm : ConsensusModule) : ConsensusModule :=
  mkConsensusModule (cm_id cm) (cm_peerIds cm) (cm_currentTerm cm) (cm_votedFor cm) (cm_state cm)
    now (cm_currentLeaderID cm) (announced cm).
Definition set_leaderID (l : Z) (cm : ConsensusModule) : ConsensusModule :=
  mkConsensusModule (cm_id cm) (cm_peerIds cm) (cm_currentTerm cm) (cm_votedFor cm) (cm_state cm)
    (cm_electionResetEvent cm) l (announced cm).
Definition announce (b : bool) (cm : ConsensusModule) : ConsensusModule :=
  mkConsensusModule (cm_id cm) (cm_peerIds cm) (cm_currentTerm cm) (cm_votedFor cm) (cm_state cm)
    (cm_electionResetEvent cm) (cm_currentLeaderID cm)
    (announced cm ++ [mkAnnounceLeadership b (cm_currentTerm cm)]).

(** ** Operations *)

(** A module without peers proclaims itself leader. *)
Definition NewConsensusModule (id : Z) (peerIds : list Z) : ConsensusModule :=
  let cm := mkConsensusModule id peerIds 0 (-1) Follower 0 0 [] in
  if decide (length peerIds = 0%nat) then set_state Leader (announce true cm) else cm.

Definition Report (cm : ConsensusModule) : Z * Z * bool :=
  (cm_id cm, cm_currentTerm cm, bool_decide (cm_state cm = Leader)).
Definition cm_Stop (cm : ConsensusModule) : ConsensusModule := set_state Dead cm.
Definition IsLeader (cm : ConsensusModule) : bool := bool_decide (cm_state cm = Leader).
Definition GetLeaderID (cm : ConsensusModule) : Z := cm_currentLeaderID cm.

Definition becomeFollower (now term : Z) (cm : ConsensusModule) : ConsensusModule :=
  let cm := announce false cm in
  mkConsensusModule (cm_id cm) (cm_peerIds cm) term (-1) Follower now (cm_currentLeaderID cm)
    (announced cm).

Definition startLeader (cm : ConsensusModule) : ConsensusModule :=
  announce true (set_state Leader cm).

Definition RequestVote (now : Z) (args : RequestVoteArgs) (cm : ConsensusModule)
  : option RequestVoteReply * ConsensusModule :=
  if decide (cm_state cm = Dead) then (None, cm)
  else
    let cm := if decide (cm_currentTerm cm < rv_Term args)
              then becomeFollower now (rv_Term args) cm else cm in
    if decide (cm_currentTerm cm = rv_Term args /\
               (cm_votedFor cm = -1 \/ cm_votedFor cm = rv_CandidateID args))
    then (Some (mkRequestVoteReply (cm_currentTerm cm) true),
          set_vote (rv_CandidateID args) now cm)
    else (Some (mkRequestVoteReply (cm_currentTerm cm) false), cm).

Definition AppendEntries (now : Z) (args : AppendEntriesArgs) (cm : ConsensusModule)
  : option AppendEntriesReply * ConsensusModule :=
  if decide (cm_state cm = Dead) then (None, cm)
  else
    let cm := if decide (cm_currentTerm cm < ae_Term args)
              then becomeFollower now (ae_Term args) cm else cm in
    let cm := set_leaderID (ae_LeaderID args) cm in
    if decide (ae_Term args = cm_currentTerm cm) then
      let cm := if decide (cm_state cm ≠ Follower)
                then becomeFollower now (ae_Term args) cm else cm in
      let cm := set_reset now cm in
      (Some (mkAppendEntriesReply (cm_currentTerm cm) true), cm)
    else (Some (mkAppendEntriesReply (cm_currentTerm cm) false), cm).

(** [electionTimeout], in nanoseconds; [force]: the stress-test variable is
    set; [r1], [r2] are the two random draws. *)
Definition Millisecond : Z := 10 ^ 6.
Definition electionTimeout (force : bool) (r1 r2 : Z) : Z :=
  if force && bool_decide (r1 mod 3 = 0) then 150 * Millisecond
  else (150 + r2 mod 150) * Millisecond.

(** One tick of [runElectionTimer], started in term [termStarted]. *)
Inductive timer_action : Type := TimerExit | TimerElection | TimerContinue.
Definition electionTimerTick (termStarted timeout now : Z) (cm : ConsensusModule) : timer_action :=
  if decide (cm_state cm ≠ Candidate /\ cm_state cm ≠ Follower) then TimerExit
  else if decide (termStarted ≠ cm_currentTerm cm) then TimerExit
  else if decide (timeout <= now - cm_electionResetEvent cm) then TimerElection
  else TimerContinue.

(** [startElection]: the new state, and the term the vote requests carry. *)
Definition startElection (now : Z) (cm : ConsensusModule) : Z * ConsensusModule :=
  let term := i32 (cm_currentTerm cm + 1) in
  (term, mkConsensusModule (cm_id cm) (cm_peerIds cm) term (cm_id cm) Candidate now
           (cm_currentLeaderID cm) (announced cm)).

(** The callback of a vote request sent in term [savedCurrentTerm], whose
    election has [votesReceived] votes so far. *)
Definition onVoteReply (now savedCurrentTerm : Z) (reply : RequestVoteReply)
    (votesReceived : Z) (cm : ConsensusModule) : Z * ConsensusModule :=
  if decide (cm_state cm ≠ Candidate) then (votesReceived, cm)
  else if decide (savedCurrentTerm < rvr_Term reply) then
    (votesReceived, becomeFollower now (rvr_Term reply) cm)
  else if decide (rvr_Term reply = savedCurrentTerm) then
    if rvr_VoteGranted reply then
      let votes := votesReceived + 1 in
      if decide (Z.of_nat (length (cm_peerIds cm)) + 1 < votes * 2)
      then (votes, startLeader cm) else (votes, cm)
    else (votesReceived, cm)
  else (votesReceived, cm).

(** The arguments of a round of heartbeats, if the module is a leader. *)
Definition leaderSendHeartbeats (cm : ConsensusModule) : option AppendEntriesArgs :=
  if decide (cm_state cm = Leader)
  then Some (mkAppendEntriesArgs (cm_currentTerm cm) (cm_id cm)) else None.

(** The callback of a heartbeat sent in term [savedCurrentTerm]. *)
Definition onHeartbeatReply (now savedCurrentTerm : Z) (reply : AppendEntriesReply)
    (cm : ConsensusModule) : ConsensusModule :=
  if decide (savedCurrentTerm < aer_Term reply)
  then becomeFollower now (aer_Term reply) cm else cm.

(** ** The server around the module *)

Section server.
(** gRPC clients of the peers. *)
Context {Client : Type}.

Record LeaderElectionServer : Type := mkLeaderElectionServer {
  les_cm : ConsensusModule;
  les_peerClients : gmap Z Client;
}.

Definition NewServer (serverId : Z) (peerIds : list Z) : LeaderElectionServer :=
  mkLeaderElectionServer (NewConsensusModule serverId peerIds) ∅.

(** Fatal when called on the leader; [nil] before the leader is known. *)
Definition GetLeader (s : LeaderElectionServer) : outcome (option Client) :=
  if IsLeader (les_cm s) then Fatal
  else Ok (les_peerClients s !! GetLeaderID (les_cm s)).

Definition ConnectToPeer (peerId : Z) (conn : option Client) (s : LeaderElectionServer)
  : bool * LeaderElectionServer :=
  match conn with
  | None => (false, s)
  | Some c =>
      (true, match les_peerClients s !! peerId with
             | Some _ => s
             | None => mkLeaderElectionServer (les_cm s) (<[peerId := c]> (les_peerClients s))
             end)
  end.
Definition DisconnectPeer (peerId : Z) (s : LeaderElectionServer) : LeaderElectionServer :=
  mkLeaderElectionServer (les_cm s) (delete peerId (les_peerClients s)).
Definition DisconnectAll (s : LeaderElectionServer) : LeaderElectionServer :=
  mkLeaderElectionServer (les_cm s) ∅.
End server.
Arguments LeaderElectionServer : clear implicits.

(** [EstablishLeaderElectionMesh]: the wait group starts at [votesNeeded]; each
    established connection increments [votesCurrent] and calls [Done] while
    the count has not passed [votesNeeded]. *)
Definition mesh_votesNeeded (replicas : nat) : Z := i32 (Z.of_nat replicas + 1) / 2.
Fixpoint mesh_connections (k : nat) (votesNeeded votesCurrent wg : Z) : outcome (Z * Z) :=
  match k with
  | O => Ok (votesCurrent, wg)
  | S k' =>
      let newValue := i32 (votesCurrent + 1) in
      let wg' := if decide (newValue <= votesNeeded) then wg - 1 else wg in
      if decide (wg' < 0) then Panic (* negative WaitGroup counter *)
      else mesh_connections k' votesNeeded newValue wg'
  end.

Lemma mesh_connections_run k needed cur wg :
  0 <= cur -> cur + Z.of_nat k < 2 ^ 31 -> wg = Z.max 0 (needed - cur) ->
  mesh_connections k needed cur wg =
    Ok (cur + Z.of_nat k, Z.max 0 (needed - (cur + Z.of_nat k))).
Proof.
  revert cur wg. induction k as [|k IH]; intros cur wg Hc Hk ->.
  { simpl. by rewrite Z.add_0_r. }
  cbn [mesh_connections]. rewrite i32_id by (unfold is_i32; lia).
  replace (cur + Z.of_nat (S k)) with (cur + 1 + Z.of_nat k) by lia.
  destruct (decide (cur + 1 <= needed)); rewrite decide_False by lia; apply IH; lia.
Qed.

(** Waiting for the election mesh ends exactly when, together with this
    replica, a strict majority of the cluster is connected: after [k] of the
    [r] peers have connected the wait group has not gone negative, and it is
    open iff at least half of the cluster size [r + 1] has connected, which
    with this replica makes a majority. *)
Theorem mesh_waits_for_majority r k :
  (k <= r)%nat -> Z.of_nat r < 2 ^ 31 - 1 ->
  exists wg, mesh_connections k (mesh_votesNeeded r) 0 (mesh_votesNeeded r) = Ok (Z.of_nat k, wg) /\
    (wg = 0 <-> Z.of_nat r + 1 < 2 * (Z.of_nat k + 1)).
Proof.
  intros Hk Hr. unfold mesh_votesNeeded. rewrite i32_id by (unfold is_i32; lia).
  pose proof (Z.div_mod (Z.of_nat r + 1) 2 ltac:(lia)) as Hdm.
  pose proof (Z.mod_pos_bound (Z.of_nat r + 1) 2 ltac:(lia)).
  rewrite mesh_connections_run by lia. eexists. split; [done|]. lia.
Qed.

Lemma mesh_waits_for_majority_witness :
  exists wg, mesh_connections 1 (mesh_votesNeeded 2) 0 (mesh_votesNeeded 2) = Ok (1, wg) /\
    (wg = 0 <-> 2 + 1 < 2 * (1 + 1)).
Proof. apply (mesh_waits_for_majority 2 1); lia. Defined.

(** ** Timers *)

(** The randomised election timeout always lies in [150 ms, 300 ms), and an
    election timer that expires only ever starts an election for a live
    non-leader whose term has not moved since the timer was started. *)
Theorem election_timer_sound force r1 r2 termStarted now cm :
  let timeout := electionTimeout force r1 r2 in
  150 * Millisecond <= timeout < 300 * Millisecond /\
  (electionTimerTick termStarted timeout now cm = TimerElection <->
     (cm_state cm = Candidate \/ cm_state cm = Follower) /\ termStarted = cm_currentTerm cm /\
     cm_electionResetEvent cm + timeout <= now).
Proof.
  intros timeout. split.
  - unfold timeout, electionTimeout, Millisecond.
    pose proof (Z.mod_pos_bound r2 150 ltac:(lia)). destruct (force && _); lia.
  - unfold electionTimerTick. repeat case_decide; split; try done.
    + intros (Hs&_). tauto.
    + by intros (_&Ht&_).
    + intros _. split_and!; [destruct (cm_state cm); naive_solver|lia|lia].
    + intros (_&_&Hto). lia.
Qed.
