(* ===== verification/LeaderSafety.v ===== *)
(** * Safety of the leader election

    The consensus modules of a cluster of replicas exchanging vote requests
    and heartbeats over gRPC.  A remote call is delivered at most once; its
    reply comes back at most once and arbitrarily late; either may be lost.
    A list of events is a run of the cluster. *)
From Stdlib Require Import ZArith Lia.
From stdpp Require Import base tactics list gmap strings sets numbers.
From S2P Require Import Prelude LeaderElection.

Local Open Scope Z_scope.

(** ** The cluster *)

(** One call of [startElection]: the goroutines it starts share the vote
    count. *)
Record election : Type := mkElection { el_cand : Z; el_term : Z; el_votes : Z }.

(** A vote request of election [vr_el] to peer [vr_peer]. *)
Inductive vote_stage : Type := VRequested | VReplied (r : RequestVoteReply) | VDone.
Record vote_rpc : Type := mkVoteRpc { vr_el : nat; vr_peer : Z; vr_stage : vote_stage }.

(** A heartbeat of [hb_src] to [hb_peer]. *)
Inductive hb_stage : Type := HRequested | HReplied (r : AppendEntriesReply) | HDone.
Record hb_rpc : Type := mkHbRpc { hb_src : Z; hb_term : Z; hb_peer : Z; hb_st : hb_stage }.

Record cluster : Type := mkCluster {
  modules : gmap Z ConsensusModule;
  elections : list election;
  vote_rpcs : list vote_rpc;
  hb_rpcs : list hb_rpc;
}.

Definition peers_of (ids : list Z) (id : Z) : list Z := filter (fun p => p ≠ id) ids.

Definition new_cluster (ids : list Z) : cluster :=
  mkCluster (list_to_map ((fun id => (id, NewConsensusModule id (peers_of ids id))) <$> ids)) [] [] [].

Inductive raft_event : Type :=
| EvTimer (id termStarted timeout now : Z)   (* a tick of an election timer *)
| EvDeliverVote (k : nat) (now : Z)          (* the [k]-th vote request arrives *)
| EvVoteReply (k : nat) (now : Z)            (* its reply is handled *)
| EvHeartbeats (id : Z)                      (* [leaderSendHeartbeats] *)
| EvDeliverHb (k : nat) (now : Z)
| EvHbReply (k : nat) (now : Z)
| EvStopNode (id : Z).

Definition set_module (id : Z) (cm : ConsensusModule) (c : cluster) : cluster :=
  mkCluster (<[id := cm]> (modules c)) (elections c) (vote_rpcs c) (hb_rpcs c).
Definition set_vote_rpc (k : nat) (r : vote_rpc) (c : cluster) : cluster :=
  mkCluster (modules c) (elections c) (<[k := r]> (vote_rpcs c)) (hb_rpcs c).
Definition set_hb_rpc (k : nat) (r : hb_rpc) (c : cluster) : cluster :=
  mkCluster (modules c) (elections c) (vote_rpcs c) (<[k := r]> (hb_rpcs c)).
Definition set_election (e : nat) (el : election) (c : cluster) : cluster :=
  mkCluster (modules c) (<[e := el]> (elections c)) (vote_rpcs c) (hb_rpcs c).

(** [None]: the event is not enabled. *)
Definition raft_step (ev : raft_event) (c : cluster) : option cluster :=
  match ev with
  | EvTimer id termStarted timeout now =>
      cm ← modules c !! id;
      match electionTimerTick termStarted timeout now cm with
      | TimerElection =>
          let '(term, cm') := startElection now cm in
          let e := length (elections c) in
          Some (mkCluster (<[id := cm']> (modules c))
                  (elections c ++ [mkElection id term 1])
                  (vote_rpcs c ++ ((fun p => mkVoteRpc e p VRequested) <$> cm_peerIds cm))
                  (hb_rpcs c))
      | _ => Some c
      end
  | EvDeliverVote k now =>
      r ← vote_rpcs c !! k;
      match vr_stage r with
      | VRequested =>
          el ← elections c !! vr_el r;
          cm ← modules c !! vr_peer r;
          let '(reply, cm') := RequestVote now (mkRequestVoteArgs (el_term el) (el_cand el)) cm in
          let stage := match reply with Some rep => VReplied rep | None => VDone end in
          Some (set_vote_rpc k (mkVoteRpc (vr_el r) (vr_peer r) stage) (set_module (vr_peer r) cm' c))
      | _ => None
      end
  | EvVoteReply k now =>
      r ← vote_rpcs c !! k;
      match vr_stage r with
      | VReplied reply =>
          el ← elections c !! vr_el r;
          cm ← modules c !! el_cand el;
          let '(votes, cm') := onVoteReply now (el_term el) reply (el_votes el) cm in
          Some (set_vote_rpc k (mkVoteRpc (vr_el r) (vr_peer r) VDone)
                 (set_election (vr_el r) (mkElection (el_cand el) (el_term el) votes)
                   (set_module (el_cand el) cm' c)))
      | _ => None
      end
  | EvHeartbeats id =>
      cm ← modules c !! id;
      args ← leaderSendHeartbeats cm;
      Some (mkCluster (modules c) (elections c) (vote_rpcs c)
              (hb_rpcs c ++ ((fun p => mkHbRpc (ae_LeaderID args) (ae_Term args) p HRequested)
                             <$> cm_peerIds cm)))
  | EvDeliverHb k now =>
      r ← hb_rpcs c !! k;
      match hb_st r with
      | HRequested =>
          cm ← modules c !! hb_peer r;
          let '(reply, cm') := AppendEntries now (mkAppendEntriesArgs (hb_term r) (hb_src r)) cm in
          let stage := match reply with Some rep => HReplied rep | None => HDone end in
          Some (set_hb_rpc k (mkHbRpc (hb_src r) (hb_term r) (hb_peer r) stage)
                 (set_module (hb_peer r) cm' c))
      | _ => None
      end
  | EvHbReply k now =>
      r ← hb_rpcs c !! k;
      match hb_st r with
      | HReplied reply =>
          cm ← modules c !! hb_src r;
          Some (set_hb_rpc k (mkHbRpc (hb_src r) (hb_term r) (hb_peer r) HDone)
                 (set_module (hb_src r) (onHeartbeatReply now (hb_term r) reply cm) c))
      | _ => None
      end
  | EvStopNode id =>
      cm ← modules c !! id; Some (set_module id (cm_Stop cm) c)
  end.

(** ** Timely runs

    The callbacks do not compare the module's term with the term in which the
    call was made.  A run is timely when it never matters: a reply is handled
    while the caller is still in the term of the call.  The last clause
    excludes the wrap-around of the 32-bit term. *)
Definition timely (ev : raft_event) (c : cluster) : bool :=
  match ev with
  | EvVoteReply k _ =>
      match vote_rpcs c !! k with
      | Some r =>
          match elections c !! vr_el r with
          | Some el => match modules c !! el_cand el with
                       | Some cm => bool_decide (cm_currentTerm cm = el_term el)
                       | None => true
                       end
          | None => true
          end
      | None => true
      end
  | EvHbReply k _ =>
      match hb_rpcs c !! k with
      | Some r => match modules c !! hb_src r with
                  | Some cm => bool_decide (cm_currentTerm cm = hb_term r)
                  | None => true
                  end
      | None => true
      end
  | EvTimer id _ _ _ =>
      match modules c !! id with
      | Some cm => bool_decide (cm_currentTerm cm < 2 ^ 31 - 1)
      | None => true
      end
  | _ => true
  end.

Inductive raft_run (ok : raft_event -> cluster -> bool) : cluster -> cluster -> Prop :=
| run_nil c : raft_run ok c c
| run_step c1 c2 c3 ev :
    raft_run ok c1 c2 -> ok ev c2 = true -> raft_step ev c2 = Some c3 -> raft_run ok c1 c3.

(** A run given as a list of events, for concrete executions. *)
Fixpoint raft_exec (evs : list raft_event) (c : cluster) : option cluster :=
  match evs with
  | [] => Some c
  | ev :: evs' => c' ← raft_step ev c; raft_exec evs' c'
  end.
Fixpoint all_ok (ok : raft_event -> cluster -> bool) (evs : list raft_event) (c : cluster) : bool :=
  match evs with
  | [] => true
  | ev :: evs' => ok ev c && match raft_step ev c with Some c' => all_ok ok evs' c' | None => false end
  end.

Lemma raft_exec_run ok evs c c' c0 :
  raft_run ok c0 c -> all_ok ok evs c = true -> raft_exec evs c = Some c' -> raft_run ok c0 c'.
Proof.
  revert c. induction evs as [|ev evs IH]; intros c Hr Hok He; simpl in *; [by simplify_eq|].
  apply andb_true_iff in Hok as [Hok1 Hok2].
  destruct (raft_step ev c) as [c1|] eqn:Hs; simpl in He; [|done].
  apply (IH c1); [|done|done]. by eapply run_step.
Qed.

(** ** Ghost history

    The votes granted, the leaders elected and the modules that dropped back
    to follower within their term, as functions of the event and the state. *)
Record ghost : Type := mkGhost {
  g_votes : gset (Z * Z * Z);     (* voter, term, candidate *)
  g_leaders : gset (Z * Z);       (* leader, term *)
  g_resets : gset (Z * Z);        (* module, term *)
}.
Definition no_ghost : ghost := mkGhost ∅ ∅ ∅.

Definition add_vote (g : ghost) (v t x : Z) : ghost :=
  mkGhost ({[ (v, t, x) ]} ∪ g_votes g) (g_leaders g) (g_resets g).
Definition add_leader (g : ghost) (l t : Z) : ghost :=
  mkGhost (g_votes g) ({[ (l, t) ]} ∪ g_leaders g) (g_resets g).
Definition add_reset (g : ghost) (v t : Z) : ghost :=
  mkGhost (g_votes g) (g_leaders g) ({[ (v, t) ]} ∪ g_resets g).

(** The history after the module [v] has moved to [cm']. *)
Definition vote_of (g : ghost) (v : Z) (cm' : ConsensusModule) : ghost :=
  if decide (cm_votedFor cm' = -1) then g
  else add_vote g v (cm_currentTerm cm') (cm_votedFor cm').
Definition leader_of (g : ghost) (v : Z) (cm' : ConsensusModule) : ghost :=
  if decide (cm_state cm' = Leader) then add_leader g v (cm_currentTerm cm') else g.

Definition ghost_step (ev : raft_event) (c c' : cluster) (g : ghost) : ghost :=
  match ev with
  | EvTimer id _ _ _ => from_option (vote_of g id) g (modules c' !! id)
  | EvDeliverVote k _ =>
      match vote_rpcs c !! k with
      | Some r => from_option (vote_of g (vr_peer r)) g (modules c' !! vr_peer r)
      | None => g
      end
  | EvVoteReply k _ =>
      match vote_rpcs c !! k ≫= (fun r => elections c !! vr_el r) with
      | Some el => from_option (leader_of g (el_cand el)) g (modules c' !! el_cand el)
      | None => g
      end
  | EvDeliverHb k _ =>
      match hb_rpcs c !! k with
      | Some r =>
          match modules c !! hb_peer r with
          | Some cm => if decide (cm_currentTerm cm = hb_term r /\
                                  (cm_state cm = Candidate \/ cm_state cm = Leader))
                       then add_reset g (hb_peer r) (hb_term r) else g
          | None => g
          end
      | None => g
      end
  | _ => g
  end.

(** ** Invariants *)

Section safety.
Context (ids : list Z).

Record mod_ok (g : ghost) (v : Z) (cm : ConsensusModule) : Prop := {
  mo_id : cm_id cm = v;
  mo_peers : cm_peerIds cm = peers_of ids v;
  mo_term : forall t x, (v, t, x) ∈ g_votes g -> t <= cm_currentTerm cm;
  mo_voted : cm_votedFor cm ≠ -1 -> (v, cm_currentTerm cm, cm_votedFor cm) ∈ g_votes g;
  mo_self : cm_state cm = Candidate \/ cm_state cm = Leader -> cm_votedFor cm = v;
  mo_reset : cm_votedFor cm = -1 -> forall x, (v, cm_currentTerm cm, x) ∈ g_votes g ->
    (v, cm_currentTerm cm) ∈ g_resets g;
  mo_leader : cm_state cm = Leader -> (v, cm_currentTerm cm) ∈ g_leaders g;
  mo_nonneg : 0 <= cm_currentTerm cm;
}.

Definition quorum_of (g : ghost) (t l : Z) (Q : list Z) : Prop :=
  NoDup Q /\ Q ⊆ ids /\ (length ids < 2 * length Q)%nat /\
  forall v, v ∈ Q -> (v, t, l) ∈ g_votes g.

Record ghost_ok (g : ghost) : Prop := {
  go_twice : forall v t x y, (v, t, x) ∈ g_votes g -> (v, t, y) ∈ g_votes g ->
    x = y \/ (v, t) ∈ g_resets g;
  go_resets : forall v t, (v, t) ∈ g_resets g ->
    (v, t, v) ∈ g_votes g /\ exists l, l ≠ v /\ (l, t) ∈ g_leaders g;
  go_quorum : forall l t, (l, t) ∈ g_leaders g ->
    exists Q, quorum_of g t l Q /\ forall v, v ∈ Q -> (v, t) ∉ g_resets g;
}.

Record msgs_ok (g : ghost) (c : cluster) : Prop := {
  ms_hb : forall k r, hb_rpcs c !! k = Some r ->
    (hb_src r, hb_term r) ∈ g_leaders g /\ hb_peer r ≠ hb_src r;
  ms_election : forall e el, elections c !! e = Some el ->
    el_cand el ∈ ids /\
    exists Q, NoDup Q /\ Q ⊆ ids /\ Z.of_nat (length Q) = el_votes el /\
      (forall v, v ∈ Q -> (v, el_term el, el_cand el) ∈ g_votes g) /\
      (forall k r, vote_rpcs c !! k = Some r -> vr_el r = e -> vr_stage r ≠ VDone -> vr_peer r ∉ Q);
  ms_unique : forall k k' r r', vote_rpcs c !! k = Some r -> vote_rpcs c !! k' = Some r' ->
    vr_el r = vr_el r' -> vr_peer r = vr_peer r' -> k = k';
  ms_rpc : forall k r, vote_rpcs c !! k = Some r ->
    vr_peer r ∈ ids /\
    exists el, elections c !! vr_el r = Some el /\
      forall rep, vr_stage r = VReplied rep -> rvr_VoteGranted rep = true ->
        rvr_Term rep = el_term el -> (vr_peer r, el_term el, el_cand el) ∈ g_votes g;
}.

Record cluster_inv (c : cluster) (g : ghost) : Prop := {
  ci_mods : forall v cm, modules c !! v = Some cm -> v ∈ ids /\ mod_ok g v cm;
  ci_ghost : ghost_ok g;
  ci_msgs : msgs_ok g c;
}.

(** *** Quorums intersect *)

Lemma quorum_intersect (Q1 Q2 : list Z) :
  NoDup Q1 -> NoDup Q2 -> Q1 ⊆ ids -> Q2 ⊆ ids ->
  (length ids < 2 * length Q1)%nat -> (length ids < 2 * length Q2)%nat ->
  exists w, w ∈ Q1 /\ w ∈ Q2.
Proof.
  intros N1 N2 S1 S2 L1 L2.
  destruct (decide (Exists (fun w => w ∈ Q2) Q1)) as [He|He].
  { by apply list.Exists_exists in He. }
  exfalso. assert (HN : NoDup (Q1 ++ Q2)).
  { apply list.NoDup_app. split_and!; [done| |done]. intros w Hw Hw2.
    apply He, list.Exists_exists. by exists w. }
  assert (Hlen : (length (Q1 ++ Q2) <= length ids)%nat).
  { apply submseteq_length, NoDup_submseteq; [done|]. intros w [Hw|Hw]%elem_of_app; auto. }
  rewrite length_app in Hlen. lia.
Qed.

Lemma leader_unique g l l' t :
  ghost_ok g -> (l, t) ∈ g_leaders g -> (l', t) ∈ g_leaders g -> l = l'.
Proof.
  intros Hg H1 H2.
  destruct (go_quorum g Hg _ _ H1) as (Q1&(N1&S1&L1&V1)&R1).
  destruct (go_quorum g Hg _ _ H2) as (Q2&(N2&S2&L2&V2)&R2).
  destruct (quorum_intersect Q1 Q2) as (w&W1&W2); try done.
  destruct (go_twice g Hg w t l l') as [?|Hr]; auto. by destruct (R1 w).
Qed.

(** *** Growing the history *)

Lemma elem_add {A} `{Countable A} (x y : A) (X : gset A) : x ∈ {[ y ]} ∪ X <-> x = y \/ x ∈ X.
Proof. by rewrite elem_of_union, elem_of_singleton. Qed.

Lemma add_vote_ok g v t x :
  ghost_ok g -> (forall y, (v, t, y) ∈ g_votes g -> y = x \/ (v, t) ∈ g_resets g) ->
  ghost_ok (add_vote g v t x).
Proof.
  intros Hg Hv. split; simpl.
  - intros v' t' a b. rewrite !elem_add. intros [Ha|Ha] [Hb|Hb]; simplify_eq; auto.
    + destruct (Hv b Hb) as [->|]; auto.
    + by apply (go_twice g Hg v' t').
  - intros v' t' Hr. destruct (go_resets g Hg _ _ Hr) as [H1 H2]. rewrite elem_add. eauto.
  - intros l t' Hl. destruct (go_quorum g Hg _ _ Hl) as (Q&(N&S&L&V)&R).
    exists Q. split; [|done]. split_and!; [done..|]. intros w Hw; simpl. rewrite elem_add. auto.
Qed.

Lemma add_leader_ok g l t Q :
  ghost_ok g -> quorum_of g t l Q -> ghost_ok (add_leader g l t).
Proof.
  intros Hg HQ. split; simpl.
  - apply (go_twice g Hg).
  - intros v t' Hr. destruct (go_resets g Hg _ _ Hr) as (H1&l'&H2&H3). split; [done|].
    exists l'. rewrite elem_add. auto.
  - intros l' t'. rewrite elem_add. intros [Heq|Hin]; [|by apply (go_quorum g Hg)].
    simplify_eq. destruct (decide (Forall (fun v => (v, t) ∉ g_resets g) Q)) as [HF|HF].
    { exists Q. split; [done|]. rewrite list.Forall_forall in HF. auto. }
    apply not_Forall_Exists in HF; [|apply _]. apply list.Exists_exists in HF as (v&Hv&Hr).
    apply dec_stable in Hr. destruct (go_resets g Hg _ _ Hr) as (_&l0&_&Hl0).
    destruct (go_quorum g Hg _ _ Hl0) as (Q0&HQ0&R0).
    assert (l0 = l) as ->; [|by exists Q0].
    destruct HQ as (N&S&L&V). destruct HQ0 as (N0&S0&L0&V0).
    destruct (quorum_intersect Q Q0) as (w&W&W0); try done.
    destruct (go_twice g Hg w t l0 l) as [?|Hrw]; auto. by destruct (R0 w).
Qed.

Lemma add_reset_ok g v t l :
  ghost_ok g -> (v, t, v) ∈ g_votes g -> l ≠ v -> (l, t) ∈ g_leaders g ->
  ghost_ok (add_reset g v t).
Proof.
  intros Hg Hv Hne Hl. split; simpl.
  - intros v' t' a b Ha Hb. rewrite elem_add. destruct (go_twice g Hg v' t' a b); auto.
  - intros v' t'. rewrite elem_add. intros [Heq|Hr]; [simplify_eq; eauto|by apply (go_resets g Hg)].
  - intros l' t' Hl'. destruct (go_quorum g Hg _ _ Hl') as (Q&HQ&R). exists Q. split; [done|].
    intros w Hw. rewrite elem_add. intros [Heq|?]; [|by apply (R w)]. simplify_eq.
    destruct HQ as (_&_&_&V). destruct (go_twice g Hg v t l' v) as [->|?]; auto.
    + by apply Hne, (leader_unique g _ _ t Hg).
    + by apply (R v).
Qed.

(** *** One module *)

Lemma mod_ok_ext g v cm cm' :
  cm_id cm' = cm_id cm -> cm_peerIds cm' = cm_peerIds cm ->
  cm_currentTerm cm' = cm_currentTerm cm -> cm_votedFor cm' = cm_votedFor cm ->
  cm_state cm' = cm_state cm -> mod_ok g v cm -> mod_ok g v cm'.
Proof. intros E1 E2 E3 E4 E5 []. split; rewrite ?E1, ?E2, ?E3, ?E4, ?E5; done. Qed.

Lemma mod_ok_bump g v cm now t :
  mod_ok g v cm -> cm_currentTerm cm < t -> mod_ok g v (becomeFollower now t cm).
Proof.
  intros [H1 H2 H3 H4 H5 H6 H7 H8] Ht. split; simpl; try done.
  - intros t' x Hx. specialize (H3 _ _ Hx). lia.
  - by intros [].
  - intros _ x Hx. specialize (H3 _ _ Hx). lia.
  - lia.
Qed.

Lemma mod_ok_stop g v cm : mod_ok g v cm -> mod_ok g v (cm_Stop cm).
Proof. intros []. split; simpl; try done. by intros [|]. Qed.

Lemma add_vote_present g v t x : (v, t, x) ∈ g_votes g -> add_vote g v t x = g.
Proof. intros Hx. destruct g as [V L R]. unfold add_vote; simpl in *. f_equal.
  apply set_eq. intros y. rewrite elem_add. split; [by intros [->|]|auto]. Qed.
Lemma add_leader_present g l t : (l, t) ∈ g_leaders g -> add_leader g l t = g.
Proof. intros Hx. destruct g as [V L R]. unfold add_leader; simpl in *. f_equal.
  apply set_eq. intros y. rewrite elem_add. split; [by intros [->|]|auto]. Qed.

Lemma vote_of_same g v cm : mod_ok g v cm -> vote_of g v cm = g.
Proof. intros Hm. unfold vote_of. case_decide; [done|]. by apply add_vote_present, mo_voted. Qed.
Lemma leader_of_same g v cm : mod_ok g v cm -> leader_of g v cm = g.
Proof. intros Hm. unfold leader_of. case_decide; [|done]. by apply add_leader_present, mo_leader. Qed.

Lemma grant_ok g v cm x now :
  ghost_ok g -> mod_ok g v cm -> v ≠ -1 -> x ≠ -1 ->
  cm_votedFor cm = -1 \/ cm_votedFor cm = x ->
  ghost_ok (add_vote g v (cm_currentTerm cm) x) /\
  mod_ok (add_vote g v (cm_currentTerm cm) x) v (set_vote x now cm).
Proof.
  intros Hg [H1 H2 H3 H4 H5 H6 H7 H8] Hv Hx Hvote. split.
  - apply add_vote_ok; [done|]. intros y Hy. destruct Hvote as [Hn|Heq].
    + right. by apply (H6 Hn y).
    + assert (Hin : (v, cm_currentTerm cm, cm_votedFor cm) ∈ g_votes g) by (apply H4; congruence).
      rewrite Heq in Hin. destruct (go_twice g Hg _ _ _ _ Hin Hy); auto.
  - split; simpl; try done.
    + intros t y. rewrite elem_add. intros [Heq|Hy]; [simplify_eq; lia|by apply (H3 t y)].
    + intros _. rewrite elem_add. by left.
    + intros Hs. specialize (H5 Hs). destruct Hvote; congruence.
Qed.

Lemma RequestVote_ok g v cm now t x rep cm' :
  ghost_ok g -> mod_ok g v cm -> v ≠ -1 -> x ≠ -1 ->
  RequestVote now (mkRequestVoteArgs t x) cm = (rep, cm') ->
  ghost_ok (vote_of g v cm') /\ mod_ok (vote_of g v cm') v cm' /\
  (forall r, rep = Some r -> rvr_VoteGranted r = true -> (v, t, x) ∈ g_votes (vote_of g v cm')).
Proof.
  intros Hg Hm Hv Hx. unfold RequestVote. simpl. case_decide.
  { intros [= <- <-]. rewrite vote_of_same by done. by split_and!. }
  set (cm1 := if decide (cm_currentTerm cm < t) then _ else cm).
  assert (Hm1 : mod_ok g v cm1) by (unfold cm1; case_decide; [by apply mod_ok_bump|done]).
  clearbody cm1. case_decide as Hgrant; intros [= <- <-].
  - destruct Hgrant as [Ht Hvote].
    destruct (grant_ok g v cm1 x now Hg Hm1 Hv Hx Hvote) as [G1 G2].
    unfold vote_of. simpl. rewrite decide_False by done. split_and!; [done..|].
    intros r _ _. simpl. rewrite elem_add, Ht. by left.
  - rewrite vote_of_same by done. split_and!; [done..|]. by intros r [= <-].
Qed.

Lemma AppendEntries_ok g v cm now t l rep cm' :
  ghost_ok g -> mod_ok g v cm -> v ≠ -1 -> (l, t) ∈ g_leaders g -> l ≠ v ->
  AppendEntries now (mkAppendEntriesArgs t l) cm = (rep, cm') ->
  let g' := if decide (cm_currentTerm cm = t /\ (cm_state cm = Candidate \/ cm_state cm = Leader))
            then add_reset g v t else g in
  ghost_ok g' /\ mod_ok g' v cm'.
Proof.
  intros Hg Hm Hv Hl Hne Hrun. unfold AppendEntries in Hrun. simpl in Hrun. intros g'.
  destruct (decide (cm_state cm = Dead)) as [Hd|Hd].
  { simplify_eq. subst g'. rewrite decide_False; [done|]. rewrite Hd. by intros [_ []]. }
  destruct (decide (cm_currentTerm cm < t)) as [Hlt|Hlt].
  { subst g'. rewrite decide_False by lia. split; [done|].
    simpl in Hrun. rewrite !decide_True in Hrun by done. simplify_eq/=.
    eapply mod_ok_ext, (mod_ok_bump g v cm now t); done. }
  simpl in Hrun. destruct (decide (t = cm_currentTerm cm)) as [Ht|Ht].
  - destruct (decide (cm_state cm ≠ Follower)) as [Hs|Hs]; simplify_eq/=; subst g'.
    + assert (Hcl : cm_state cm = Candidate \/ cm_state cm = Leader) by (destruct (cm_state cm); auto; congruence).
      rewrite decide_True by done. pose proof Hm as [H1 H2 H3 H4 H5 H6 H7 H8].
      assert (Hself : (v, cm_currentTerm cm, v) ∈ g_votes g).
      { specialize (H4 ltac:(rewrite (H5 Hcl); done)). by rewrite (H5 Hcl) in H4. }
      split; [by eapply add_reset_ok|]. split; simpl; try done.
      * by intros [].
      * intros _ x _. rewrite elem_add. by left.
    + rewrite decide_False by (intros [_ [E|E]]; apply Hs; rewrite E; done).
      split; [done|]. by eapply mod_ok_ext, Hm.
  - simplify_eq/=. subst g'. rewrite decide_False by (intros [? _]; congruence).
    split; [done|]. by eapply mod_ok_ext, Hm.
Qed.

(** *** The cluster *)

(** [g'] extends [g], with new votes of [v] only. *)
Definition ghost_le (v : Z) (g g' : ghost) : Prop :=
  g_votes g ⊆ g_votes g' /\ g_leaders g ⊆ g_leaders g' /\ g_resets g ⊆ g_resets g' /\
  forall w t x, w ≠ v -> (w, t, x) ∈ g_votes g' -> (w, t, x) ∈ g_votes g.

Lemma ghost_le_refl v g : ghost_le v g g.
Proof. by split_and!. Qed.
Lemma ghost_le_vote v g cm : ghost_le v g (vote_of g v cm).
Proof.
  unfold vote_of. case_decide; [apply ghost_le_refl|].
  split_and!; simpl; try done; [apply union_subseteq_r|].
  intros w t x Hw. rewrite elem_add. intros [?|?]; [by simplify_eq|done].
Qed.
Lemma ghost_le_leader v g l cm : ghost_le v g (leader_of g l cm).
Proof.
  unfold leader_of. case_decide; [|apply ghost_le_refl].
  split_and!; simpl; try done. apply union_subseteq_r.
Qed.
Lemma ghost_le_reset v g w t : ghost_le v g (add_reset g w t).
Proof. split_and!; simpl; try done. apply union_subseteq_r. Qed.

Lemma mod_ok_mono v g g' w cm : ghost_le v g g' -> w ≠ v -> mod_ok g w cm -> mod_ok g' w cm.
Proof.
  intros (V&L&R&B) Hw [H1 H2 H3 H4 H5 H6 H7 H8]. split; auto.
  - intros t x Hx. by eapply H3, B.
  - intros Hn x Hx. by eapply R, (H6 Hn x), B.
Qed.

Lemma msgs_ok_mono v g g' c : ghost_le v g g' -> msgs_ok g c -> msgs_ok g' c.
Proof.
  intros (V&L&R&B) [M1 M2 M3 M4]. split; [| |done|].
  - intros k r Hk. destruct (M1 k r Hk). auto.
  - intros e el He. destruct (M2 e el He) as (Hin&Q&HN&HS&HL&HV&HP). split; [done|].
    exists Q. auto 10.
  - intros k r Hk. destruct (M4 k r Hk) as (Hin&el&Hel&Hrep). eauto 10.
Qed.

Lemma inv_set_module c g g' v cm' :
  cluster_inv c g -> is_Some (modules c !! v) -> ghost_le v g g' ->
  ghost_ok g' -> mod_ok g' v cm' -> cluster_inv (set_module v cm' c) g'.
Proof.
  intros [Hm Hg Hs] [cm Hv] Hle Hg' Hm'. split; [|done|by destruct (msgs_ok_mono v g g' c Hle Hs); split].
  intros w cmw. simpl. rewrite lookup_insert. case_decide as Hw.
  - intros [= <-]. subst. split; [|done]. by apply (Hm _ _ Hv).
  - intros Hlw. destruct (Hm _ _ Hlw) as [Hin Hok]. split; [done|].
    eapply mod_ok_mono; [done| |done]. congruence.
Qed.

Lemma inv_msgs c c' g :
  cluster_inv c g -> modules c' = modules c -> msgs_ok g c' -> cluster_inv c' g.
Proof. intros [Hm Hg Hs] Hmod Hs'. split; [by rewrite Hmod|done|done]. Qed.

(** A delivered or finished vote request. *)
Lemma msgs_ok_vote_stage g c k r stage :
  msgs_ok g c -> vote_rpcs c !! k = Some r -> vr_stage r ≠ VDone ->
  (forall el rep, elections c !! vr_el r = Some el -> stage = VReplied rep ->
     rvr_VoteGranted rep = true -> rvr_Term rep = el_term el ->
     (vr_peer r, el_term el, el_cand el) ∈ g_votes g) ->
  msgs_ok g (set_vote_rpc k (mkVoteRpc (vr_el r) (vr_peer r) stage) c).
Proof.
  intros [M1 M2 M3 M4] Hk Hst Hnew.
  assert (Hlk : forall j r', <[k := mkVoteRpc (vr_el r) (vr_peer r) stage]> (vote_rpcs c) !! j = Some r' ->
    exists r0, vote_rpcs c !! j = Some r0 /\ vr_el r' = vr_el r0 /\ vr_peer r' = vr_peer r0 /\
      (j = k /\ r0 = r /\ vr_stage r' = stage \/ r' = r0)).
  { intros j r' Hj. apply list_lookup_insert_Some in Hj as [(->&<-&_)|[Hne Hj]].
    - exists r. auto 10.
    - exists r'. auto 10. }
  split; simpl.
  - done.
  - intros e el He. destruct (M2 e el He) as (Hin&Q&HN&HS&HL&HV&HP). split; [done|].
    exists Q. split_and!; try done. intros j r' Hj He' Hnd.
    destruct (Hlk _ _ Hj) as (r0&Hr0&E1&E2&Hcase). rewrite E2. apply (HP j r0); [done|congruence|].
    destruct Hcase as [(_&->&_)| <-]; done.
  - intros j j' r1 r2 Hj Hj' Ee Ep.
    destruct (Hlk _ _ Hj) as (a&Ha&A1&A2&_). destruct (Hlk _ _ Hj') as (b&Hb&B1&B2&_).
    apply (M3 j j' a b); congruence.
  - intros j r' Hj. destruct (Hlk _ _ Hj) as (r0&Hr0&E1&E2&Hcase). rewrite E1, E2.
    destruct (M4 _ _ Hr0) as (Hin&el&Hel&Hrep). split; [done|]. exists el. split; [done|].
    intros rep Hs Hgr Ht. destruct Hcase as [(_&->&Hst')| ->]; [|by eapply Hrep].
    eapply Hnew; [done| |done|done]. congruence.
Qed.

Lemma msgs_ok_hb g c hbs :
  msgs_ok g c ->
  (forall k r, hbs !! k = Some r -> (hb_src r, hb_term r) ∈ g_leaders g /\ hb_peer r ≠ hb_src r) ->
  msgs_ok g (mkCluster (modules c) (elections c) (vote_rpcs c) hbs).
Proof. intros [M1 M2 M3 M4] Hh. by split. Qed.

Context (Hnodup : NoDup ids) (Hpos : -1 ∉ ids).

Lemma id_not_none v : v ∈ ids -> v ≠ -1.
Proof. intros Hv ->. done. Qed.

Lemma peers_of_elem p id : p ∈ peers_of ids id <-> p ≠ id /\ p ∈ ids.
Proof. unfold peers_of. by rewrite list_elem_of_filter. Qed.

(** The vote requests of a new election. *)
Lemma msgs_ok_new_election g c id t :
  msgs_ok g c -> id ∈ ids -> (id, t, id) ∈ g_votes g ->
  msgs_ok g (mkCluster (modules c) (elections c ++ [mkElection id t 1])
    (vote_rpcs c ++ ((fun p => mkVoteRpc (length (elections c)) p VRequested) <$> peers_of ids id))
    (hb_rpcs c)).
Proof.
  intros [M1 M2 M3 M4] Hin Hself. set (n := length (elections c)).
  assert (Hlk : forall k r, (vote_rpcs c ++ ((fun p => mkVoteRpc n p VRequested) <$> peers_of ids id)) !! k = Some r ->
    (vote_rpcs c !! k = Some r /\ (vr_el r < n)%nat) \/
    (exists p, peers_of ids id !! (k - length (vote_rpcs c))%nat = Some p /\ (length (vote_rpcs c) <= k)%nat /\
       r = mkVoteRpc n p VRequested)).
  { intros k r Hk. apply lookup_app_Some in Hk as [Hk|[Hge Hk]].
    - left. split; [done|]. destruct (M4 k r Hk) as (_&el&Hel&_). by apply lookup_lt_Some in Hel.
    - right. rewrite list_lookup_fmap in Hk.
      destruct (peers_of ids id !! _) as [p|] eqn:Ep; simplify_eq/=. eauto. }
  split; simpl.
  - done.
  - intros e el He. apply lookup_app_Some in He as [He|[Hge He]].
    + destruct (M2 e el He) as (Hc&Q&HN&HS&HL&HV&HP). split; [done|]. exists Q. split_and!; try done.
      intros k r Hk Hre Hst. destruct (Hlk k r Hk) as [[Hk' _]|(p&_&_&->)]; [by apply (HP k r)|].
      simpl in Hre. subst e. apply lookup_lt_Some in He. lia.
    + apply list_lookup_singleton_Some in He as [He <-]. simpl. split; [done|].
      exists [id]. split_and!; try done.
      * apply NoDup_singleton.
      * by intros x ->%list_elem_of_singleton.
      * by intros v ->%list_elem_of_singleton.
      * intros k r Hk Hre _. destruct (Hlk k r Hk) as [[_ Hlt]|(p&Hp&_&->)]; [lia|]. simpl.
        apply list_elem_of_lookup_2, peers_of_elem in Hp as [Hp _]. by intros Heq%list_elem_of_singleton.
  - intros k k' r r' Hk Hk' Ee Ep.
    destruct (Hlk k r Hk) as [[H1 L1]|(p&P1&G1&->)], (Hlk k' r' Hk') as [[H2 L2]|(p'&P2&G2&->)];
      simpl in *; try lia; [by eapply M3|]. subst p'.
    assert (HN : NoDup (peers_of ids id)) by (by apply list.NoDup_filter).
    pose proof (NoDup_lookup _ _ _ _ HN P1 P2). lia.
  - intros k r Hk. destruct (Hlk k r Hk) as [[Hk' Hlt]|(p&Hp&_&->)].
    + destruct (M4 k r Hk') as (Hp&el&Hel&Hrep). split; [done|]. exists el. split; [|done].
      by apply lookup_app_l_Some.
    + simpl. apply list_elem_of_lookup_2, peers_of_elem in Hp as [_ Hp]. split; [done|].
      exists (mkElection id t 1). split; [|done]. by apply list_lookup_middle.
Qed.

Lemma timer_inv c g id cm now :
  cluster_inv c g -> modules c !! id = Some cm -> cm_currentTerm cm < 2 ^ 31 - 1 ->
  let '(term, cm') := startElection now cm in
  cluster_inv (mkCluster (<[id := cm']> (modules c))
    (elections c ++ [mkElection id term 1])
    (vote_rpcs c ++ ((fun p => mkVoteRpc (length (elections c)) p VRequested) <$> cm_peerIds cm))
    (hb_rpcs c)) (vote_of g id cm').
Proof.
  intros Hinv Hcm Hmax. destruct (startElection now cm) as [term cm'] eqn:E.
  destruct (ci_mods _ _ Hinv _ _ Hcm) as [Hin Hok]. pose proof Hok as [H1 H2 H3 H4 H5 H6 H7 H8].
  unfold startElection in E. rewrite i32_id in E by (unfold is_i32; lia).
  injection E as <- Ecm. symmetry in Ecm. rewrite H1 in Ecm.
  set (t := cm_currentTerm cm + 1) in *.
  assert (Hv : vote_of g id cm' = add_vote g id t id).
  { unfold vote_of. rewrite Ecm. simpl. rewrite decide_False; [done|].
    by apply id_not_none. }
  rewrite Hv.
  assert (Hnew : forall y, (id, t, y) ∉ g_votes g) by (intros y Hy; apply H3 in Hy; lia).
  assert (Hinv' : cluster_inv (set_module id cm' c) (add_vote g id t id)).
  { apply (inv_set_module c g).
    - done.
    - eauto.
    - rewrite <- Hv. apply ghost_le_vote.
    - apply add_vote_ok; [by apply Hinv|]. intros y Hy. by destruct (Hnew y).
    - rewrite Ecm. split; simpl; try done.
      + intros t' y. rewrite elem_add. intros [Heq|Hy]; [simplify_eq; lia|].
        apply H3 in Hy. lia.
      + intros _. rewrite elem_add. by left.
      + intros Hn. exfalso. by apply (id_not_none id).
      + lia. }
  apply (inv_msgs _ _ _ Hinv'); [done|].
  rewrite H2. apply (msgs_ok_new_election _ (set_module id cm' c)); [apply Hinv'|done|].
  simpl. rewrite elem_add. by left.
Qed.

Lemma onVoteReply_cases now saved reply votes0 cm votes cm' :
  onVoteReply now saved reply votes0 cm = (votes, cm') ->
  (votes = votes0 /\ cm' = cm) \/
  (votes = votes0 /\ saved < rvr_Term reply /\ cm' = becomeFollower now (rvr_Term reply) cm) \/
  (rvr_Term reply = saved /\ rvr_VoteGranted reply = true /\ cm_state cm = Candidate /\
   votes = votes0 + 1 /\
   (cm' = cm \/ (Z.of_nat (length (cm_peerIds cm)) + 1 < 2 * votes /\ cm' = startLeader cm))).
Proof.
  unfold onVoteReply. destruct (decide (cm_state cm ≠ Candidate)) as [|Hc]; [intros [= <- <-]; auto|].
  apply dec_stable in Hc. destruct (decide (saved < rvr_Term reply)); [intros [= <- <-]; auto|].
  destruct (decide (rvr_Term reply = saved)); [|intros [= <- <-]; auto].
  destruct (rvr_VoteGranted reply); [|intros [= <- <-]; auto].
  case_decide; intros [= <- <-]; right; right; split_and!; auto. right. split; [lia|done].
Qed.

(** Counting the vote of a reply: the requests still pending are to peers
    that have not been counted. *)
Lemma msgs_ok_count g c k r el votes :
  msgs_ok g c -> vote_rpcs c !! k = Some r -> vr_stage r ≠ VDone ->
  elections c !! vr_el r = Some el ->
  votes = el_votes el \/
  (votes = el_votes el + 1 /\ (vr_peer r, el_term el, el_cand el) ∈ g_votes g) ->
  msgs_ok g (set_vote_rpc k (mkVoteRpc (vr_el r) (vr_peer r) VDone)
    (set_election (vr_el r) (mkElection (el_cand el) (el_term el) votes) c)).
Proof.
  intros Hms Hk Hst Hel Hvotes.
  destruct (ms_rpc _ _ Hms _ _ Hk) as (Hpin&_).
  destruct (msgs_ok_vote_stage g c k r VDone Hms Hk Hst) as [M1 M2 M3 M4]; [done|].
  destruct (ms_election _ _ Hms _ _ Hel) as (Hc&Q&HN&HS&HL&HV&HP).
  split; simpl in *.
  - done.
  - intros e el' He. apply list_lookup_insert_Some in He as [(<-&<-&_)|[Hne He]]; [|by apply M2].
    simpl. split; [done|].
    assert (Hold : forall j r', <[k:=mkVoteRpc (vr_el r) (vr_peer r) VDone]> (vote_rpcs c) !! j = Some r' ->
      vr_el r' = vr_el r -> vr_stage r' ≠ VDone -> (vr_peer r' ∉ Q) /\ vr_peer r' ≠ vr_peer r).
    { intros j r' Hj He' Hnd. apply list_lookup_insert_Some in Hj as [(->&<-&_)|[Hne Hj]]; [done|].
      split; [by apply (HP j r')|]. intros Hpe. apply Hne. symmetry.
      by apply (ms_unique _ _ Hms j k r' r). }
    destruct Hvotes as [->|[-> Hgr]].
    + exists Q. split_and!; try done. intros j r' Hj He' Hnd. by destruct (Hold j r' Hj He' Hnd).
    + exists (vr_peer r :: Q). split_and!.
      * apply list.NoDup_cons. split; [|done]. by apply (HP k r).
      * intros v [->|Hv]%elem_of_cons; auto.
      * simpl length. lia.
      * intros v [->|Hv]%elem_of_cons; auto.
      * intros j r' Hj He' Hnd. destruct (Hold j r' Hj He' Hnd). by apply not_elem_of_cons.
  - done.
  - intros j r' Hj. destruct (M4 j r' Hj) as (Hp&el'&Hel'&Hrep). split; [done|].
    destruct (decide (vr_el r' = vr_el r)) as [Heq|Hne].
    + exists (mkElection (el_cand el) (el_term el) votes). rewrite Heq.
      rewrite list_lookup_insert_eq by (by eapply lookup_lt_Some). split; [done|]. simpl.
      rewrite Heq in Hel'. by simplify_eq.
    + exists el'. by rewrite list_lookup_insert_ne.
Qed.

Lemma peers_of_length id : id ∈ ids -> S (length (peers_of ids id)) = length ids.
Proof.
  intros Hin. pose proof (NoDup_filter_difference_length ids [id] Hnodup) as H.
  rewrite <- H; [|apply NoDup_singleton|by intros x ->%list_elem_of_singleton].
  simpl. unfold peers_of. rewrite Nat.add_1_r. do 2 f_equal. apply list_filter_iff.
  intros x. by rewrite list_elem_of_singleton.
Qed.

Lemma startLeader_ok g v cm Q :
  ghost_ok g -> mod_ok g v cm -> v ∈ ids -> cm_state cm = Candidate ->
  NoDup Q -> Q ⊆ ids -> Z.of_nat (length (cm_peerIds cm)) + 1 < 2 * Z.of_nat (length Q) ->
  (forall w, w ∈ Q -> (w, cm_currentTerm cm, v) ∈ g_votes g) ->
  ghost_ok (add_leader g v (cm_currentTerm cm)) /\
  mod_ok (add_leader g v (cm_currentTerm cm)) v (startLeader cm).
Proof.
  intros Hg [H1 H2 H3 H4 H5 H6 H7 H8] Hin Hc HN HS HL HV. split.
  - apply add_leader_ok with Q; [done|]. split_and!; try done.
    rewrite H2 in HL. pose proof (peers_of_length v Hin). lia.
  - split; simpl; try done.
    + intros _. by apply H5; left.
    + intros _. rewrite elem_add. by left.
Qed.

Lemma vote_reply_inv c g k r reply el cm now votes cm' :
  cluster_inv c g -> vote_rpcs c !! k = Some r -> vr_stage r = VReplied reply ->
  elections c !! vr_el r = Some el -> modules c !! el_cand el = Some cm ->
  cm_currentTerm cm = el_term el ->
  onVoteReply now (el_term el) reply (el_votes el) cm = (votes, cm') ->
  cluster_inv (set_vote_rpc k (mkVoteRpc (vr_el r) (vr_peer r) VDone)
    (set_election (vr_el r) (mkElection (el_cand el) (el_term el) votes)
      (set_module (el_cand el) cm' c))) (leader_of g (el_cand el) cm').
Proof.
  intros Hinv Hk Hst Hel Hcm Hterm Hrun.
  destruct (ci_mods _ _ Hinv _ _ Hcm) as [Hin Hok].
  pose proof (ci_ghost _ _ Hinv) as Hg. pose proof (ci_msgs _ _ Hinv) as Hms.
  destruct (ms_rpc _ _ Hms _ _ Hk) as (Hpin&el'&Hel'&Hgr).
  rewrite Hel in Hel'. injection Hel' as <-. specialize (Hgr reply Hst).
  assert (Hnd : vr_stage r ≠ VDone) by (by rewrite Hst).
  apply onVoteReply_cases in Hrun.
  assert (Hmod : ghost_ok (leader_of g (el_cand el) cm') /\ mod_ok (leader_of g (el_cand el) cm') (el_cand el) cm').
  { destruct Hrun as [(_&->)|[(_&Hlt&->)|(Ht&Hv&Hc&Hvotes&[->|[Hmaj ->]])]].
    - by rewrite leader_of_same.
    - rewrite leader_of_same; [split; [done|]|]; apply mod_ok_bump; lia || done.
    - by rewrite leader_of_same.
    - destruct (ms_election _ _ Hms _ _ Hel) as (_&Q&HN&HS&HL&HV&HP).
      unfold leader_of. simpl. rewrite Hterm, <- Hterm.
      apply startLeader_ok with (vr_peer r :: Q); try done.
      + apply list.NoDup_cons. split; [|done]. by apply (HP k r).
      + intros v [->|Hv']%elem_of_cons; auto.
      + simpl length. lia.
      + rewrite Hterm. intros v [->|Hv']%elem_of_cons; auto. }
  destruct Hmod as [Hg' Hm'].
  pose proof (inv_set_module c g _ (el_cand el) cm' Hinv ltac:(eauto) (ghost_le_leader _ g _ cm') Hg' Hm') as Hinv'.
  apply (inv_msgs _ _ _ Hinv'); [done|].
  apply (msgs_ok_count _ (set_module (el_cand el) cm' c) k r el votes); try done; [apply Hinv'|].
  destruct Hrun as [(?&_)|[(?&_)|(Ht&Hv&_&?&_)]]; auto. right. split; [done|].
  unfold leader_of. case_decide; simpl; auto.
Qed.

Lemma msgs_ok_hb_stage g c k r stage :
  msgs_ok g c -> hb_rpcs c !! k = Some r ->
  msgs_ok g (set_hb_rpc k (mkHbRpc (hb_src r) (hb_term r) (hb_peer r) stage) c).
Proof.
  intros Hms Hk. apply msgs_ok_hb; [done|]. intros j r' Hj.
  apply list_lookup_insert_Some in Hj as [(->&<-&_)|[_ Hj]]; simpl.
  - apply (ms_hb _ _ Hms _ _ Hk).
  - apply (ms_hb _ _ Hms _ _ Hj).
Qed.

Lemma deliver_vote_inv c g k r el cm now reply cm' :
  cluster_inv c g -> vote_rpcs c !! k = Some r -> vr_stage r = VRequested ->
  elections c !! vr_el r = Some el -> modules c !! vr_peer r = Some cm ->
  RequestVote now (mkRequestVoteArgs (el_term el) (el_cand el)) cm = (reply, cm') ->
  cluster_inv (set_vote_rpc k (mkVoteRpc (vr_el r) (vr_peer r)
      (match reply with Some rep => VReplied rep | None => VDone end))
    (set_module (vr_peer r) cm' c)) (vote_of g (vr_peer r) cm').
Proof.
  intros Hinv Hk Hst Hel Hcm Hrun.
  destruct (ci_mods _ _ Hinv _ _ Hcm) as [Hin Hok].
  pose proof (ci_ghost _ _ Hinv) as Hg. pose proof (ci_msgs _ _ Hinv) as Hms.
  destruct (ms_election _ _ Hms _ _ Hel) as [Hc _].
  destruct (RequestVote_ok _ _ _ _ _ _ _ _ Hg Hok (id_not_none _ Hin) (id_not_none _ Hc) Hrun)
    as (Hg'&Hm'&Hgr).
  pose proof (inv_set_module c g _ _ cm' Hinv ltac:(eauto) (ghost_le_vote _ g cm') Hg' Hm') as Hinv'.
  apply (inv_msgs _ _ _ Hinv'); [done|].
  apply (msgs_ok_vote_stage _ (set_module (vr_peer r) cm' c) k r); try done;
    [apply Hinv'|by rewrite Hst|].
  intros el' rep Hel' Hrep Hvg _. simpl in Hel'. rewrite Hel in Hel'. injection Hel' as <-.
  destruct reply as [rep'|]; [|done]. injection Hrep as ->. by apply (Hgr rep).
Qed.

Lemma deliver_hb_inv c g k r cm now reply cm' :
  cluster_inv c g -> hb_rpcs c !! k = Some r -> modules c !! hb_peer r = Some cm ->
  AppendEntries now (mkAppendEntriesArgs (hb_term r) (hb_src r)) cm = (reply, cm') ->
  cluster_inv (set_hb_rpc k (mkHbRpc (hb_src r) (hb_term r) (hb_peer r)
      (match reply with Some rep => HReplied rep | None => HDone end))
    (set_module (hb_peer r) cm' c))
    (if decide (cm_currentTerm cm = hb_term r /\ (cm_state cm = Candidate \/ cm_state cm = Leader))
     then add_reset g (hb_peer r) (hb_term r) else g).
Proof.
  intros Hinv Hk Hcm Hrun. destruct (ci_mods _ _ Hinv _ _ Hcm) as [Hin Hok].
  pose proof (ci_ghost _ _ Hinv) as Hg. pose proof (ci_msgs _ _ Hinv) as Hms.
  destruct (ms_hb _ _ Hms _ _ Hk) as [Hl Hne].
  destruct (AppendEntries_ok _ _ _ _ _ _ _ _ Hg Hok (id_not_none _ Hin) Hl ltac:(congruence) Hrun)
    as [Hg' Hm'].
  set (g' := if decide _ then _ else g) in *.
  assert (Hle : ghost_le (hb_peer r) g g')
    by (unfold g'; case_decide; [apply ghost_le_reset|apply ghost_le_refl]).
  pose proof (inv_set_module c g g' _ cm' Hinv ltac:(eauto) Hle Hg' Hm') as Hinv'.
  apply (inv_msgs _ _ _ Hinv'); [done|]. apply (msgs_ok_hb_stage _ (set_module (hb_peer r) cm' c)); [apply Hinv'|done].
Qed.

Lemma hb_done_inv c g k r reply cm now :
  cluster_inv c g -> hb_rpcs c !! k = Some r -> hb_st r = HReplied reply ->
  modules c !! hb_src r = Some cm -> cm_currentTerm cm = hb_term r ->
  cluster_inv (set_hb_rpc k (mkHbRpc (hb_src r) (hb_term r) (hb_peer r) HDone)
    (set_module (hb_src r) (onHeartbeatReply now (hb_term r) reply cm) c)) g.
Proof.
  intros Hinv Hk Hst Hcm Ht. destruct (ci_mods _ _ Hinv _ _ Hcm) as [Hin Hok].
  assert (Hm' : mod_ok g (hb_src r) (onHeartbeatReply now (hb_term r) reply cm)).
  { unfold onHeartbeatReply. case_decide; [|done]. apply mod_ok_bump; [done|lia]. }
  pose proof (inv_set_module c g g _ _ Hinv ltac:(eauto) (ghost_le_refl _ g) (ci_ghost _ _ Hinv) Hm') as Hinv'.
  apply (inv_msgs _ _ _ Hinv'); [done|].
  apply (msgs_ok_hb_stage _ (set_module (hb_src r) (onHeartbeatReply now (hb_term r) reply cm) c));
    [apply Hinv'|done].
Qed.

Lemma heartbeats_inv c g id cm args :
  cluster_inv c g -> modules c !! id = Some cm -> leaderSendHeartbeats cm = Some args ->
  cluster_inv (mkCluster (modules c) (elections c) (vote_rpcs c)
    (hb_rpcs c ++ ((fun p => mkHbRpc (ae_LeaderID args) (ae_Term args) p HRequested)
                   <$> cm_peerIds cm))) g.
Proof.
  intros Hinv Hcm Ha. destruct (ci_mods _ _ Hinv _ _ Hcm) as [Hin Hok].
  unfold leaderSendHeartbeats in Ha. case_decide as Hlead; [|done]. injection Ha as <-. simpl.
  apply (inv_msgs c); [done|done|]. apply msgs_ok_hb; [apply Hinv|].
  intros k r Hk. apply lookup_app_Some in Hk as [Hk|[_ Hk]].
  - by apply (ms_hb _ _ (ci_msgs _ _ Hinv) _ _ Hk).
  - rewrite list_lookup_fmap in Hk. destruct (cm_peerIds cm !! _) as [p|] eqn:Ep; simplify_eq/=.
    rewrite (mo_peers _ _ _ Hok) in Ep. apply list_elem_of_lookup_2, peers_of_elem in Ep as [Hp _].
    rewrite (mo_id _ _ _ Hok). split; [by apply (mo_leader _ _ _ Hok)|done].
Qed.

Lemma raft_step_inv ev c c' g :
  cluster_inv c g -> timely ev c = true -> raft_step ev c = Some c' ->
  cluster_inv c' (ghost_step ev c c' g).
Proof.
  intros Hinv Ht Hs. destruct ev as [id ts to now|k now|k now|id|k now|k now|id]; simpl in *.
  - destruct (modules c !! id) as [cm|] eqn:Hcm; [|done]. simpl in Hs.
    apply bool_decide_eq_true in Ht.
    destruct (electionTimerTick _ _ _ _); simplify_eq/=.
    2:{ apply (timer_inv c g id cm now) in Hcm; [|done|done]. simpl in Hcm.
        rewrite lookup_insert_eq. exact Hcm. }
    all: rewrite Hcm; simpl; rewrite vote_of_same; [done|]; by apply (ci_mods _ _ Hinv).
  - destruct (vote_rpcs c !! k) as [r|] eqn:Hk; [|done]. simpl in Hs.
    destruct (vr_stage r) eqn:Hst; try done.
    destruct (elections c !! vr_el r) as [el|] eqn:Hel; [|done]. simpl in Hs.
    destruct (modules c !! vr_peer r) as [cm|] eqn:Hcm; [|done]. simpl in Hs.
    destruct (RequestVote _ _ _) as [reply cm'] eqn:Hrun. injection Hs as <-.
    simpl. rewrite lookup_insert_eq. by eapply deliver_vote_inv.
  - destruct (vote_rpcs c !! k) as [r|] eqn:Hk; [|done]. simpl in Hs |- *.
    destruct (vr_stage r) eqn:Hst; try done.
    destruct (elections c !! vr_el r) as [el|] eqn:Hel; [|done]. simpl in Hs |- *.
    destruct (modules c !! el_cand el) as [cm|] eqn:Hcm; [|done]. simpl in Hs.
    apply bool_decide_eq_true in Ht.
    destruct (onVoteReply _ _ _ _ _) as [votes cm'] eqn:Hrun. injection Hs as <-.
    simpl. rewrite lookup_insert_eq. by eapply vote_reply_inv.
  - destruct (modules c !! id) as [cm|] eqn:Hcm; [|done]. simpl in Hs.
    destruct (leaderSendHeartbeats cm) as [args|] eqn:Ha; [|done]. injection Hs as <-.
    by eapply heartbeats_inv.
  - destruct (hb_rpcs c !! k) as [r|] eqn:Hk; [|done]. simpl in Hs.
    destruct (hb_st r) eqn:Hst; try done.
    destruct (modules c !! hb_peer r) as [cm|] eqn:Hcm; [|done]. simpl in Hs.
    destruct (AppendEntries _ _ _) as [reply cm'] eqn:Hrun. injection Hs as <-.
    by eapply deliver_hb_inv.
  - destruct (hb_rpcs c !! k) as [r|] eqn:Hk; [|done]. simpl in Hs.
    destruct (hb_st r) eqn:Hst; try done.
    destruct (modules c !! hb_src r) as [cm|] eqn:Hcm; [|done]. simpl in Hs.
    apply bool_decide_eq_true in Ht. injection Hs as <-. by eapply hb_done_inv.
  - destruct (modules c !! id) as [cm|] eqn:Hcm; [|done]. injection Hs as <-.
    apply (inv_set_module c g g); [done|eauto|apply ghost_le_refl|apply Hinv|].
    apply mod_ok_stop. by apply (ci_mods _ _ Hinv).
Qed.

Lemma raft_run_inv c c' g :
  raft_run timely c c' -> cluster_inv c g -> exists g', cluster_inv c' g'.
Proof.
  intros Hr Hinv. induction Hr as [c|c1 c2 c3 ev Hr IH Hok Hs]; [eauto|].
  destruct (IH Hinv) as [g' Hg']. eexists. by eapply raft_step_inv.
Qed.

Lemma new_cluster_inv : (2 <= length ids)%nat -> cluster_inv (new_cluster ids) no_ghost.
Proof.
  intros Hlen. split.
  - intros v cm. simpl. intros Hl. apply elem_of_list_to_map_2 in Hl.
    apply list_elem_of_fmap in Hl as (id&Heq&Hid). injection Heq as -> ->. split; [done|].
    unfold NewConsensusModule. pose proof (peers_of_length id Hid).
    rewrite decide_False by lia. split; simpl; try done. by intros [|].
  - by split.
  - by split.
Qed.
End safety.

(** C3: Election safety.  In every run of a cluster of at least two replicas in
    which the callbacks of remote calls run in the term of their call, any two
    replicas that are leaders in the same term are the same replica, whatever
    messages are lost, delayed or reordered and whichever replicas stop. *)
Theorem election_safety ids c i j cmi cmj :
  NoDup ids -> -1 ∉ ids -> (2 <= length ids)%nat ->
  raft_run timely (new_cluster ids) c ->
  modules c !! i = Some cmi -> modules c !! j = Some cmj ->
  cm_state cmi = Leader -> cm_state cmj = Leader ->
  cm_currentTerm cmi = cm_currentTerm cmj -> i = j.
Proof.
  intros Hn Hp Hl Hr Hi Hj Li Lj Ht.
  destruct (raft_run_inv ids Hn Hp _ _ no_ghost Hr) as [g Hg]; [by apply new_cluster_inv|].
  destruct (ci_mods _ _ _ Hg _ _ Hi) as [_ Mi]. destruct (ci_mods _ _ _ Hg _ _ Hj) as [_ Mj].
  apply (leader_unique ids g i j (cm_currentTerm cmi)); [apply Hg|by apply (mo_leader _ _ _ _ Mi)|].
  rewrite Ht. by apply (mo_leader _ _ _ _ Mj).
Qed.

(** ** Concrete runs of a cluster of three *)

Definition three : list Z := [0; 1; 2].

(** Replica 0 times out, is voted for by replica 1 and wins term 1; its
    heartbeat reaches replica 2. *)
Definition election_run : list raft_event :=
  [EvTimer 0 0 200 200; EvDeliverVote 0 200; EvVoteReply 0 201;
   EvHeartbeats 0; EvDeliverHb 1 202; EvHbReply 1 203].

Lemma election_safety_witness :
  exists c cm, raft_run timely (new_cluster three) c /\
    modules c !! 0 = Some cm /\ cm_state cm = Leader /\
    forall j cmj, modules c !! j = Some cmj -> cm_state cmj = Leader ->
      cm_currentTerm cm = cm_currentTerm cmj -> 0 = j.
Proof.
  destruct (raft_exec election_run (new_cluster three)) as [c|] eqn:He; [|by vm_compute in He].
  assert (Hrun : raft_run timely (new_cluster three) c).
  { apply (raft_exec_run timely election_run (new_cluster three)); [constructor|reflexivity|done]. }
  destruct (modules c !! 0) as [cm|] eqn:Hcm.
  2:{ vm_compute in He. injection He as <-. vm_compute in Hcm. done. }
  assert (Hl : cm_state cm = Leader).
  { vm_compute in He. injection He as <-. vm_compute in Hcm. by injection Hcm as <-. }
  exists c, cm. split_and!; [done..|].
  intros j cmj Hj Lj Ht. apply (election_safety three c 0 j cm cmj); try done.
  - apply (bool_decide_unpack (NoDup three)). vm_compute. exact I.
  - apply (bool_decide_unpack (-1 ∉ three)). vm_compute. exact I.
  - simpl; lia.
Defined.

(** Without timeliness two replicas can lead the same term: a vote granted
    to replica 0 in term 1 is handled after it has started a second election,
    where it still completes the count of the first, so replica 0 becomes
    leader of term 2 next to replica 1, which won term 2. *)
Theorem stale_vote_two_leaders :
  let evs := [EvTimer 0 0 200 200;      (* replica 0: election in term 1 *)
              EvDeliverVote 0 200;      (* replica 1 votes for it, the reply is slow *)
              EvTimer 0 1 200 400;      (* replica 0: election in term 2 *)
              EvTimer 1 1 200 400;      (* replica 1: election in term 2 *)
              EvDeliverVote 5 401;      (* replica 2 votes for replica 1 *)
              EvVoteReply 5 402;        (* replica 1 leads term 2 *)
              EvVoteReply 0 403] in     (* the vote of term 1 arrives *)
  exists c cm0 cm1, raft_exec evs (new_cluster three) = Some c /\
    modules c !! 0 = Some cm0 /\ modules c !! 1 = Some cm1 /\
    cm_state cm0 = Leader /\ cm_state cm1 = Leader /\
    cm_currentTerm cm0 = 2 /\ cm_currentTerm cm1 = 2.
Proof. do 3 eexists. do 3 (split; [vm_compute; reflexivity|]). vm_compute. split_and!; done. Qed.

(** A late reply can move a candidate back to an older term: the callback
    adopts the term of the reply whenever it exceeds the term of the request,
    even when the candidate has moved past it, and forgets its vote. *)
Theorem stale_reply_lowers_term now saved reply votes cm :
  cm_state cm = Candidate -> saved < rvr_Term reply < cm_currentTerm cm ->
  let cm' := (onVoteReply now saved reply votes cm).2 in
  cm_currentTerm cm' < cm_currentTerm cm /\ cm_votedFor cm' = -1 /\ cm_state cm' = Follower.
Proof.
  intros Hc Ht. unfold onVoteReply. rewrite decide_False by (intros Hn; by apply Hn).
  rewrite decide_True by lia. simpl. split; [lia|done].
Qed.

Lemma stale_reply_lowers_term_witness :
  let cm := mkConsensusModule 0 [1; 2] 5 0 Candidate 0 0 [] in
  let cm' := (onVoteReply 1 3 (mkRequestVoteReply 4 false) 1 cm).2 in
  cm_currentTerm cm' < 5 /\ cm_votedFor cm' = -1 /\ cm_state cm' = Follower.
Proof.
  intros cm. apply (stale_reply_lowers_term 1 3 (mkRequestVoteReply 4 false) 1 cm);
    [reflexivity|simpl; lia].
Defined.
