(* ===== verification/HAProxy.v ===== *)
(** * The load balancer in front of the data planes

    [internal/data_plane/haproxy/manager.go]: the control plane edits the
    configuration of an HAProxy instance so that its backends list the data
    planes and the registration servers.  The names of the data plane servers
    are kept in a table in memory, by address.

    The client library is code of others: its commands are the class
    [HAProxyClient], and what the manager relies on is [HAProxyClientSpec]. *)
From Stdlib Require Import ZArith Lia.
From stdpp Require Import base tactics list gmap strings sets numbers pretty.
From S2P Require Import Prelude Sync Core Net.

Local Open Scope Z_scope.

(** ** The client library *)

(** [models.Server]; the port is a pointer. *)
Record Server : Type := mkServer {
  sv_Name : string;
  sv_Address : string;
  sv_Port : option Z;
  sv_Check : string;
  sv_Inter : Z;
}.

(** [api.client.Configuration]: an empty transaction identifier addresses the
    configuration itself. *)
Class HAProxyClient (C : Type) : Type := {
  GetVersion : string -> GoM C (string + Z);
  StartTransaction : Z -> GoM C (string + string);
  GetServers : string -> string -> GoM C (string + (Z * list Server));
  CreateServer : string -> Server -> string -> Z -> GoM C go_error;
  DeleteServer : string -> string -> string -> Z -> GoM C go_error;
  CommitTransaction : string -> GoM C go_error;
  (** [getHAProxyClient]: open the configuration anew. *)
  getHAProxyClient : GoM C unit;
}.

Definition DataplaneBackend : string := "dirigent_data_planes".
Definition DataplanePrefix : string := "dp_".
Definition RegistrationServerBackend : string := "dirigent_registration_server".
Definition RegistrationServerPrefix : string := "rs_".
Definition ServerHealthCheckInterval : Z := 2500.
Definition ServerCheckEnabled : string := "enabled".

(** ** The manager *)

Record API (C : Type) : Type := mkAPI {
  api_client : C;
  api_lbAddress : string;
  api_addressToName : gmap string string;
  api_restarts : nat;          (* restarts asked of the init system *)
}.
Arguments mkAPI {C} _ _ _ _.
Arguments api_client {C} _.
Arguments api_lbAddress {C} _.
Arguments api_addressToName {C} _.
Arguments api_restarts {C} _.

(** [fmt.Sprintf("%s:%d", s.Address, *s.Port)]: a nil port panics. *)
Definition server_url (s : Server) : outcome string :=
  p ← deref (sv_Port s); Ok (host_port (sv_Address s) p).
Fixpoint server_urls (l : list Server) : outcome (list string) :=
  match l with
  | [] => Ok []
  | s :: l' => u ← server_url s; us ← server_urls l'; Ok (u :: us)
  end.

Definition new_server (name address : string) (port : Z) : Server :=
  mkServer name address (Some (i64 port)) ServerCheckEnabled ServerHealthCheckInterval.

Section manager.
Context {C : Type} `{HC : HAProxyClient C}.
Abbreviation M := (GoM (API C)).

Definition with_client (c : C) (a : API C) : API C :=
  mkAPI c (api_lbAddress a) (api_addressToName a) (api_restarts a).
Definition with_names (m : gmap string string) (a : API C) : API C :=
  mkAPI (api_client a) (api_lbAddress a) m (api_restarts a).
Definition on_client {A} : GoM C A -> M A := zoom api_client with_client.

Definition RestartHAProxy : M unit :=
  go_modify (fun a => mkAPI (api_client a) (api_lbAddress a) (api_addressToName a) (S (api_restarts a))).
Definition GetLoadBalancerAddress (a : API C) : string := api_lbAddress a.

(** [listServers]: an error of the library is printed, the list is then
    empty. *)
Definition listServers (backend : string) : M (list string * list string) :=
  r ← on_client (GetServers backend "");
  let servers := match r with inl _ => [] | inr (_, l) => l end in
  addresses ← go_lift (server_urls servers);
  mret (sv_Name <$> servers, addresses).
Definition ListDataplanes : M (list string * list string) := listServers DataplaneBackend.
Definition ListRegistrationServers : M (list string * list string) := listServers RegistrationServerBackend.

(** [NewHAProxyAPI], on the client it has opened. *)
Definition NewHAProxyAPI (loadBalancerAddress : string) (c : C) : outcome (API C) :=
  r ← ListDataplanes (mkAPI c loadBalancerAddress ∅ 0);
  let '((names, addresses), api) := (r : list string * list string * API C) in
  Ok (with_names (foldl (fun m na => <[na.2 := na.1]> m) ∅ (zip names addresses)) api).

Definition persistServerMetadata (name ipAddress : string) (port : Z) (transaction : string) (version : Z)
  : M unit :=
  on_client (CreateServer DataplaneBackend (new_server name ipAddress port) transaction version) ;;
  mret tt.

(** [addServer]; [rnd] is the random number of the name. *)
Definition addServer (rnd : Z) (ipAddress : string) (port : Z) (transaction : string) (version : Z) : M unit :=
  let name := (DataplanePrefix +:+ Itoa rnd)%string in
  let url := host_port ipAddress port in
  a ← go_get;
  match api_addressToName a !! url with
  | Some _ => mret tt
  | None =>
      persistServerMetadata name ipAddress port transaction version ;;
      go_modify (fun a => with_names (<[url := name]> (api_addressToName a)) a)
  end.

Definition addRegistrationServer (rnd : Z) (ipAddress : string) (port : Z) (transaction : string) (version : Z)
  : M unit :=
  on_client (CreateServer RegistrationServerBackend
               (new_server (RegistrationServerPrefix +:+ Itoa rnd) ipAddress port) transaction version) ;;
  mret tt.

Definition removeServerByName (ipAddress : string) (port : Z) (transaction : string) (version : Z) : M unit :=
  let url := host_port ipAddress port in
  a ← go_get;
  match api_addressToName a !! url with
  | None => mret tt
  | Some dataplaneName =>
      on_client (DeleteServer dataplaneName DataplaneBackend transaction version) ;;
      go_modify (fun a => with_names (delete url (api_addressToName a)) a)
  end.

Definition removeRegistrationServers (transaction : string) : M unit :=
  r ← on_client (GetServers RegistrationServerBackend transaction);
  match r with
  | inl _ => mret tt
  | inr (_, servers) =>
      go_for servers (fun s =>
        on_client (DeleteServer (sv_Name s) RegistrationServerBackend transaction 0) ;; mret tt)
  end.

Definition AddDataplane (rnd : Z) (ipAddress : string) (port : Z) (restart : bool) : M unit :=
  v ← on_client (GetVersion "");
  match v with
  | inl _ => mret tt
  | inr version =>
      addServer rnd ipAddress port "" version ;;
      if restart then RestartHAProxy else mret tt
  end.

Definition RemoveDataplane (ipAddress : string) (port : Z) (restart : bool) : M unit :=
  v ← on_client (GetVersion "");
  match v with
  | inl _ => mret tt
  | inr version =>
      removeServerByName ipAddress port "" version ;;
      if restart then RestartHAProxy else mret tt
  end.

Definition DeleteAllDataplanes : M unit :=
  r ← on_client (GetServers DataplaneBackend "");
  let servers := match r with inl _ => [] | inr (_, l) => l end in
  go_for servers (fun s => p ← go_lift (deref (sv_Port s)); RemoveDataplane (sv_Address s) p false) ;;
  RestartHAProxy.

(** ** Revisions *)

(** The two loops over the addresses to remove and to add; [rnd k] is the
    [k]-th random number. *)
Fixpoint remove_all (l : list string) (transaction : string) : M unit :=
  match l with
  | [] => mret tt
  | server :: l' =>
      hp ← go_lift (SplitAddress server);
      let '(ipAddress, port) := (hp : string * Z) in
      removeServerByName ipAddress port transaction 0 ;; remove_all l' transaction
  end.
Fixpoint add_all (add : Z -> string -> Z -> string -> Z -> M unit) (rnd : nat -> Z) (k : nat)
    (l : list string) (transaction : string) : M unit :=
  match l with
  | [] => mret tt
  | address :: l' =>
      hp ← go_lift (SplitAddress address);
      let '(ipAddress, port) := (hp : string * Z) in
      add (rnd k) ipAddress port transaction 0 ;; add_all add rnd (S k) l' transaction
  end.

(** [genericRevise]: success, and whether there is anything to change. *)
Definition genericRevise (rnd : nat -> Z) (backend : string) (addressesToKeep : list string)
  : M (bool * bool) :=
  if negb (bool_decide (backend = DataplaneBackend) || bool_decide (backend = RegistrationServerBackend))
  then go_fatal
  else
    v ← on_client (GetVersion "");
    match v with
    | inl _ => mret (false, false)
    | inr version =>
        t ← on_client (StartTransaction version);
        match t with
        | inl _ => mret (false, false)
        | inr transaction =>
            r ← on_client (GetServers backend transaction);
            match r with
            | inl _ => mret (false, false)
            | inr (_, servers) =>
                existingURLs ← go_lift (server_urls servers);
                let toAdd := Difference addressesToKeep existingURLs in
                let toRemove := Difference existingURLs addressesToKeep in
                let anyChanges := bool_decide (toAdd ≠ []) || bool_decide (toRemove ≠ []) in
                (if decide (backend = DataplaneBackend) then remove_all toRemove transaction
                 else removeRegistrationServers transaction) ;;
                (if decide (backend = DataplaneBackend) then add_all addServer rnd 0 toAdd transaction
                 else add_all addRegistrationServer rnd 0 addressesToKeep transaction) ;;
                err ← on_client (CommitTransaction transaction);
                match err with
                | Some _ => mret (false, false)
                | None => mret (true, anyChanges)
                end
            end
        end
    end.

(** The loops of [ReviseDataplanes] and [ReviseRegistrationServers] try until
    a revision succeeds: at most [fuel] times here, [rnd i] being the random
    numbers of attempt [i]. *)
Fixpoint revise_loop (fuel : nat) (rnd : nat -> nat -> Z) (backend : string)
    (addressesToKeep : list string) : M bool :=
  match fuel with
  | O => go_block
  | S fuel' =>
      on_client getHAProxyClient ;;
      r ← genericRevise (rnd O) backend addressesToKeep;
      let '(success, changes) := (r : bool * bool) in
      if success then mret changes else revise_loop fuel' (fun i => rnd (S i)) backend addressesToKeep
  end.
Definition ReviseDataplanes (fuel : nat) (rnd : nat -> nat -> Z) : list string -> M bool :=
  revise_loop fuel rnd DataplaneBackend.
Definition ReviseRegistrationServers (fuel : nat) (rnd : nat -> nat -> Z) : list string -> M bool :=
  revise_loop fuel rnd RegistrationServerBackend.

Definition ReviseHAProxyConfiguration (fuel : nat) (rnd : nat -> nat -> Z) (args : HAProxyConfig)
  : M (ActionStatus * go_error) :=
  dpChanges ← ReviseDataplanes fuel rnd (hc_Dataplanes args);
  rsChanges ← ReviseRegistrationServers fuel rnd (hc_RegistrationServers args);
  (if dpChanges || rsChanges then RestartHAProxy else mret tt) ;;
  mret (mkActionStatus true "", None).

(** [HAProxyReconstructionCallback]: [R] is a state that holds the control plane
    and the load balancer, [run] an operation of the load balancer there, and
    [reviseDataplanes] calls its argument with the addresses of the data
    planes. *)
Definition HAProxyReconstructionCallback {R} (run : forall A, M A -> GoM R A) (fuel : nat) (rnd : nat -> nat -> Z)
    (registrationServer : string) (replicas : list string)
    (reviseDataplanes : (list string -> GoM R bool) -> GoM R bool) : GoM R unit :=
  dpChanges ← reviseDataplanes (fun dataplanes => run _ (ReviseDataplanes fuel rnd dataplanes));
  rsChanges ← run _ (ReviseRegistrationServers fuel rnd (registrationServer :: replicas));
  if dpChanges || rsChanges then run _ RestartHAProxy else mret tt.
End manager.

(** ** What the library promises *)

(** [servers c t b]: the servers of backend [b] in transaction [t] of the
    client, and in its configuration for the empty identifier.  A transaction
    starts from the configuration; in one that is active a server with a new
    name can be created and an existing one deleted, which changes nothing
    else; a commit that reports no error makes the transaction the
    configuration, one that does leaves the configuration as it was. *)
Class HAProxyClientSpec (C : Type) `{HAProxyClient C}
    (servers : C -> string -> string -> list Server) (active : C -> string -> Prop) : Prop := {
  hc_version : forall t r c c', GetVersion t c = Ok (r, c') -> servers c' = servers c;
  hc_get : forall b t r c c', GetServers b t c = Ok (r, c') ->
    servers c' = servers c /\ (active c t -> active c' t) /\
    forall v l, r = inr (v, l) -> l = servers c t b;
  hc_start : forall v r c c', StartTransaction v c = Ok (r, c') ->
    servers c' "" = servers c "" /\
    forall id, r = inr id -> id ≠ ""%string /\ active c' id /\ servers c' id = servers c "";
  hc_create : forall b s t v c, active c t -> sv_Name s ∉ sv_Name <$> servers c t b ->
    exists c', CreateServer b s t v c = Ok (None, c') /\ active c' t /\
      servers c' t b = servers c t b ++ [s] /\
      forall t' b', (t', b') ≠ (t, b) -> servers c' t' b' = servers c t' b';
  hc_delete : forall n b t v c, active c t -> n ∈ sv_Name <$> servers c t b ->
    exists c', DeleteServer n b t v c = Ok (None, c') /\ active c' t /\
      servers c' t b = filter (fun s => sv_Name s ≠ n) (servers c t b) /\
      forall t' b', (t', b') ≠ (t, b) -> servers c' t' b' = servers c t' b';
  hc_commit : forall t e c c', CommitTransaction t c = Ok (e, c') ->
    servers c' "" = match e with None => servers c t | Some _ => servers c "" end;
  hc_open : forall u c c', getHAProxyClient c = Ok (u, c') -> servers c' "" = servers c "";
}.

(** The library answers, and only a commit may be refused. *)
Class HAProxyAnswers (C : Type) `{HAProxyClient C} : Prop := {
  ha_version : forall c, exists v c', GetVersion "" c = Ok (inr v, c');
  ha_start : forall v c, exists id c', StartTransaction v c = Ok (inr id, c');
  ha_get : forall b t c, exists v l c', GetServers b t c = Ok (inr (v, l), c');
  ha_commit : forall t c, exists e c', CommitTransaction t c = Ok (e, c');
}.

(** ** Servers and their addresses *)

Definition well_formed (u : string) : Prop :=
  exists h p, u = host_port h p /\ plain_host h = true /\ 0 <= p < 2 ^ 63.
Definition url_of (s : Server) : string := host_port (sv_Address s) (default 0 (sv_Port s)).
Definition good_server (s : Server) : Prop :=
  plain_host (sv_Address s) = true /\ exists p, sv_Port s = Some p /\ 0 <= p < 2 ^ 63.

(** The table agrees with the servers of the backend. *)
Record agrees (m : gmap string string) (l : list Server) : Prop := {
  ag_good : Forall good_server l;
  ag_names : NoDup (sv_Name <$> l);
  ag_urls : NoDup (url_of <$> l);
  ag_table : forall u n, m !! u = Some n <-> exists s, s ∈ l /\ url_of s = u /\ sv_Name s = n;
}.

Lemma good_server_url s : good_server s -> server_url s = Ok (url_of s) /\ well_formed (url_of s).
Proof.
  intros [Hh (p&Hp&Hr)]. unfold server_url, url_of. rewrite Hp. split; [done|].
  by exists (sv_Address s), p.
Qed.
Lemma server_urls_good l : Forall good_server l -> server_urls l = Ok (url_of <$> l).
Proof.
  induction 1 as [|s l Hs _ IH]; [done|]. simpl. rewrite (proj1 (good_server_url s Hs)).
  cbn [mbind outcome_bind]. rewrite IH. done.
Qed.
Lemma well_formed_split u : well_formed u ->
  exists h p, u = host_port h p /\ plain_host h = true /\ 0 <= p < 2 ^ 63 /\ SplitAddress u = Ok (h, p).
Proof.
  intros (h&p&->&Hh&Hp). exists h, p. by rewrite SplitAddress_host_port.
Qed.

Lemma filter_everything {A} (P : A -> Prop) `{!forall x, Decision (P x)} (l : list A) :
  (forall x, x ∈ l -> P x) -> filter P l = l.
Proof.
  intros HP. induction l as [|x l IH]; [done|].
  rewrite filter_cons_True by (apply HP; by left). f_equal. apply IH. intros y Hy. apply HP. by right.
Qed.

(** In a list without repetitions the name and the address identify a server. *)
Lemma fmap_NoDup_inj {A B} (f : A -> B) (l : list A) x y :
  NoDup (f <$> l) -> x ∈ l -> y ∈ l -> f x = f y -> x = y.
Proof.
  induction l as [|z l IH]; intros Hn Hx Hy Hf; [by apply elem_of_nil in Hx|].
  cbn [fmap list_fmap] in Hn. apply list.NoDup_cons in Hn as [Hz Hn].
  apply elem_of_cons in Hx as [->|Hx]; apply elem_of_cons in Hy as [->|Hy]; try done; auto;
    destruct Hz; apply list_elem_of_fmap; eauto.
Qed.

Lemma NoDup_fmap_filter {A B} (f : A -> B) (P : A -> Prop) `{!forall x, Decision (P x)} l :
  NoDup (f <$> l) -> NoDup (f <$> filter P l).
Proof.
  induction l as [|x l IH]; [done|]. cbn [fmap list_fmap]. intros [Hx Hn]%list.NoDup_cons.
  rewrite filter_cons. case_decide; [|auto]. cbn [fmap list_fmap]. apply list.NoDup_cons.
  split; [|auto]. intros (y&E&Hy)%list_elem_of_fmap. apply Hx.
  apply list_elem_of_filter in Hy as [_ Hy]. rewrite E. by apply list_elem_of_fmap_2.
Qed.

Lemma agrees_remove m l s :
  agrees m l -> s ∈ l ->
  agrees (delete (url_of s) m) (filter (fun s' => sv_Name s' ≠ sv_Name s) l).
Proof.
  intros [H1 H2 H3 H4] Hs. split.
  - rewrite list.Forall_forall in H1 |- *. intros x [_ Hx]%list_elem_of_filter. auto.
  - by apply NoDup_fmap_filter.
  - by apply NoDup_fmap_filter.
  - intros u n. rewrite lookup_delete. case_decide as Hu.
    + split; [done|]. intros (s'&Hs'&Hu'&_). apply list_elem_of_filter in Hs' as [Hne Hs'].
      destruct Hne. f_equal. eapply (fmap_NoDup_inj url_of); eauto. congruence.
    + rewrite H4. split; intros (s'&Hs'&Hu'&Hn').
      * exists s'. rewrite list_elem_of_filter. split_and!; try done. intros Hne.
        destruct Hu. rewrite <- Hu'. f_equal. symmetry. by eapply (fmap_NoDup_inj sv_Name).
      * apply list_elem_of_filter in Hs' as [_ Hs']. eauto.
Qed.

Lemma agrees_add m l s :
  agrees m l -> good_server s -> sv_Name s ∉ sv_Name <$> l -> url_of s ∉ url_of <$> l ->
  agrees (<[url_of s := sv_Name s]> m) (l ++ [s]).
Proof.
  intros [H1 H2 H3 H4] Hg Hn Hu.
  assert (Hsnoc : forall (f : Server -> string), f s ∉ f <$> l -> NoDup (f <$> l) -> NoDup (f <$> (l ++ [s]))).
  { intros f Hf Hl. rewrite fmap_app. apply list.NoDup_app. split_and!; [done| |apply list.NoDup_singleton].
    intros x Hx ->%list_elem_of_singleton. done. }
  split.
  - apply Forall_app. auto.
  - auto.
  - auto.
  - intros u n. rewrite lookup_insert. setoid_rewrite elem_of_app. case_decide as Hc.
    + split.
      * intros [= <-]. exists s. rewrite list_elem_of_singleton. auto.
      * intros (s'&[Hs'| ->%list_elem_of_singleton]&Hu'&Hn'); [|by rewrite Hn'].
        destruct Hu. rewrite Hc, <- Hu'. by apply list_elem_of_fmap_2.
    + rewrite H4. split; intros (s'&Hs'&Hu'&Hn').
      * exists s'. auto.
      * destruct Hs' as [Hs'| ->%list_elem_of_singleton]; [eauto|done].
Qed.

(** ** One revision of the data planes *)

Section revise.
Context {C : Type} `{HC : HAProxyClient C} {servers : C -> string -> string -> list Server}
  {active : C -> string -> Prop} `{HS : !HAProxyClientSpec C servers active}.

Abbreviation tx_servers t a := (servers (api_client a) t DataplaneBackend).
Abbreviation committed a := (servers (api_client a) "" DataplaneBackend).

(** The state of the manager inside a transaction. *)
Record editing (t : string) (l0 : list Server) (a : API C) : Prop := {
  ed_id : t ≠ ""%string;
  ed_active : active (api_client a) t;
  ed_agrees : agrees (api_addressToName a) (tx_servers t a);
  ed_committed : committed a = l0;
}.

Lemma removeServerByName_run t l0 a s :
  editing t l0 a -> s ∈ tx_servers t a ->
  exists a', removeServerByName (sv_Address s) (default 0 (sv_Port s)) t 0 a = Ok (tt, a') /\
    editing t l0 a' /\ tx_servers t a' = filter (fun s' => url_of s' ≠ url_of s) (tx_servers t a).
Proof.
  intros [Hid Hact Hag Hcom] Hs.
  assert (Hn : api_addressToName a !! url_of s = Some (sv_Name s)) by (apply (ag_table _ _ Hag); eauto).
  destruct (hc_delete (sv_Name s) DataplaneBackend t 0 (api_client a) Hact) as (c'&Hd&Ha'&Hsv&Hoth).
  { by apply list_elem_of_fmap_2. }
  exists (with_names (delete (url_of s) (api_addressToName a)) (with_client c' a)).
  assert (Hfil : filter (fun s' => sv_Name s' ≠ sv_Name s) (tx_servers t a) =
                 filter (fun s' => url_of s' ≠ url_of s) (tx_servers t a)).
  { apply filter_ext_in. intros s' Hs'.
    split; intros Hne E; apply Hne; f_equal;
      [eapply (fmap_NoDup_inj url_of)|eapply (fmap_NoDup_inj sv_Name)]; eauto using ag_urls, ag_names. }
  split; [|split].
  - unfold removeServerByName, mbind, gom_bind. cbn [go_get]. change (host_port _ _) with (url_of s).
    rewrite Hn. unfold on_client, zoom. rewrite Hd. done.
  - split; [done|done| |].
    + simpl. rewrite Hsv. by apply agrees_remove.
    + simpl. rewrite Hoth; [done|]. by intros [= <-].
  - simpl. by rewrite Hsv.
Qed.

Lemma remove_all_run us t l0 a :
  editing t l0 a -> NoDup us -> us ⊆ url_of <$> tx_servers t a ->
  exists a', remove_all us t a = Ok (tt, a') /\ editing t l0 a' /\
    tx_servers t a' = filter (fun s => url_of s ∉ us) (tx_servers t a).
Proof.
  revert a. induction us as [|u us IH]; intros a He Hn Hsub.
  { exists a. split; [done|]. split; [done|]. symmetry. apply filter_everything.
    intros s _. apply not_elem_of_nil. }
  apply list.NoDup_cons in Hn as [Hu Hn].
  assert (Hin : u ∈ url_of <$> tx_servers t a) by (apply Hsub; by left).
  apply list_elem_of_fmap in Hin as (s&->&Hs).
  pose proof (ag_good _ _ (ed_agrees _ _ _ He)) as Hg. rewrite list.Forall_forall in Hg.
  destruct (Hg s Hs) as [Hh (p&Hp&Hr)].
  destruct (removeServerByName_run t l0 a s He Hs) as (a1&H1&He1&Hl1).
  destruct (IH a1 He1 Hn) as (a2&H2&He2&Hl2).
  { intros u' Hu'. rewrite Hl1. assert (Hin : u' ∈ url_of <$> tx_servers t a) by (apply Hsub; by right).
    apply list_elem_of_fmap in Hin as (s'&->&Hs'). apply list_elem_of_fmap_2.
    apply list_elem_of_filter. split; [|done]. intros E. by rewrite E in Hu'. }
  exists a2. split; [|split; [done|]].
  - cbn [remove_all]. unfold url_of at 1. rewrite Hp. simpl default.
    rewrite SplitAddress_host_port by done. unfold mbind, gom_bind. cbn [go_lift].
    rewrite Hp in H1. simpl default in H1. by rewrite H1.
  - rewrite Hl2, Hl1. rewrite list_filter_filter. apply list_filter_iff. intros x.
    rewrite not_elem_of_cons. tauto.
Qed.

(** The names of the servers an attempt adds. *)
Definition dp_name (rnd : Z) : string := (DataplanePrefix +:+ Itoa rnd)%string.

Lemma dp_name_inj x y : 0 <= x < 2 ^ 63 -> 0 <= y < 2 ^ 63 -> dp_name x = dp_name y -> x = y.
Proof.
  intros Hx Hy E. unfold dp_name in E. apply string_app_inj_l in E.
  pose proof (Atoi_Itoa x Hx) as H1. rewrite E, (Atoi_Itoa y Hy) in H1. congruence.
Qed.

Lemma addServer_run rnd h p t l0 a :
  editing t l0 a -> plain_host h = true -> 0 <= p < 2 ^ 63 ->
  host_port h p ∉ url_of <$> tx_servers t a -> dp_name rnd ∉ sv_Name <$> tx_servers t a ->
  exists a', addServer rnd h p t 0 a = Ok (tt, a') /\ editing t l0 a' /\
    tx_servers t a' = tx_servers t a ++ [new_server (dp_name rnd) h p].
Proof.
  intros [Hid Hact Hag Hcom] Hh Hp Hu Hnew. set (s := new_server (dp_name rnd) h p).
  assert (Hurl : url_of s = host_port h p).
  { unfold url_of, s. simpl. by rewrite i64_id by (unfold is_i64; lia). }
  assert (Hn : api_addressToName a !! host_port h p = None).
  { destruct (api_addressToName a !! host_port h p) as [n|] eqn:E; [|done].
    apply (ag_table _ _ Hag) in E as (s'&Hs'&Hu'&_). destruct Hu. rewrite <- Hu'.
    by apply list_elem_of_fmap_2. }
  destruct (hc_create DataplaneBackend s t 0 (api_client a) Hact Hnew) as (c'&Hc&Ha'&Hsv&Hoth).
  exists (with_names (<[host_port h p := dp_name rnd]> (api_addressToName a)) (with_client c' a)).
  split; [|split].
  - unfold addServer, persistServerMetadata, mbind, gom_bind. cbn [go_get]. rewrite Hn.
    unfold on_client, zoom. fold (dp_name rnd). fold s. rewrite Hc. done.
  - split; [done|done| |].
    + simpl. rewrite Hsv. rewrite <- Hurl. apply (agrees_add _ _ s); try done; [|by rewrite Hurl].
      split; [done|]. exists p. split; [|done]. simpl. by rewrite i64_id by (unfold is_i64; lia).
    + simpl. rewrite Hoth; [done|]. by intros [= <-].
  - simpl. by rewrite Hsv.
Qed.

(** The first [n] random numbers, non-negative as [rand.Int] gives them, are
    distinct. *)
Definition new_names (n : nat) (rnd : nat -> Z) : Prop :=
  (forall i, (i < n)%nat -> 0 <= rnd i < 2 ^ 63) /\
  (forall i j, (i < n)%nat -> (j < n)%nat -> rnd i = rnd j -> i = j).

Lemma add_all_run rnd us k n t l0 a :
  editing t l0 a -> NoDup us -> Forall well_formed us ->
  (forall u, u ∈ us -> u ∉ url_of <$> tx_servers t a) ->
  (k + length us <= n)%nat -> new_names n rnd ->
  (forall i, (k <= i < n)%nat -> dp_name (rnd i) ∉ sv_Name <$> tx_servers t a) ->
  exists a' new, add_all addServer rnd k us t a = Ok (tt, a') /\ editing t l0 a' /\
    tx_servers t a' = tx_servers t a ++ new /\ url_of <$> new = us.
Proof.
  intros He Hn Hwf Hfresh Hlen [Hrng Hinj] Hnames. revert k a He Hfresh Hlen Hnames.
  induction us as [|u us IH]; intros k a He Hfresh Hlen Hnames.
  { exists a, []. rewrite app_nil_r. done. }
  apply list.NoDup_cons in Hn as [Hu Hn]. apply list.Forall_cons in Hwf as [Hw Hwf].
  destruct (well_formed_split u Hw) as (h&p&->&Hh&Hp&Hsplit).
  destruct (addServer_run (rnd k) h p t l0 a He Hh Hp) as (a1&H1&He1&Hl1).
  { apply Hfresh. by left. }
  { apply Hnames. simpl in Hlen. lia. }
  assert (Hurl : url_of (new_server (dp_name (rnd k)) h p) = host_port h p).
  { unfold url_of. simpl. by rewrite i64_id by (unfold is_i64; lia). }
  destruct (IH Hn Hwf (S k) a1 He1) as (a2&new&H2&He2&Hl2&Hnew).
  { intros u' Hu'. rewrite Hl1, fmap_app, not_elem_of_app. split; [apply Hfresh; by right|].
    intros E%list_elem_of_singleton. rewrite Hurl in E. by subst. }
  { simpl in Hlen. lia. }
  { intros i Hi. simpl in Hlen. rewrite Hl1, fmap_app, not_elem_of_app. split; [apply Hnames; lia|].
    intros E%list_elem_of_singleton. simpl in E.
    apply dp_name_inj in E; [|apply Hrng; lia|apply Hrng; lia]. apply Hinj in E; lia. }
  exists a2, (new_server (dp_name (rnd k)) h p :: new). split; [|split; [done|split]].
  - cbn [add_all]. rewrite Hsplit. unfold mbind, gom_bind. cbn [go_lift]. by rewrite H1.
  - by rewrite Hl2, Hl1, <- app_assoc.
  - cbn [fmap list_fmap]. by rewrite Hurl, <- Hnew.
Qed.

(** Everything a revision does before it commits. *)
Definition start_revision (keep : list string) (rnd : nat -> Z) (a : API C) (t : string) (a1 : API C) : Prop :=
  exists existing,
    server_urls (committed a) = Ok existing /\
    genericRevise rnd DataplaneBackend keep a =
      match CommitTransaction t (api_client a1) with
      | Ok (Some _, c) => Ok ((false, false), with_client c a1)
      | Ok (None, c) =>
          Ok ((true, bool_decide (Difference keep existing ≠ []) ||
                     bool_decide (Difference existing keep ≠ [])), with_client c a1)
      | Panic => Panic
      | Fatal => Fatal
      | Blocked => Blocked
      end.

Lemma on_client_run {A} (f : GoM C A) (a : API C) x c :
  f (api_client a) = Ok (x, c) -> on_client f a = Ok (x, with_client c a).
Proof. intros H. unfold on_client, zoom. by rewrite H. Qed.

Lemma open_transaction `{HA : !HAProxyAnswers C} keep rnd (a : API C) :
  Forall good_server (committed a) ->
  exists t a0, t ≠ ""%string /\ active (api_client a0) t /\ api_addressToName a0 = api_addressToName a /\
    tx_servers t a0 = committed a /\ committed a0 = committed a /\
    forall a2 a1,
      let existing := url_of <$> committed a in
      remove_all (Difference existing keep) t a0 = Ok (tt, a2) ->
      add_all addServer rnd 0 (Difference keep existing) t a2 = Ok (tt, a1) ->
      start_revision keep rnd a t a1.
Proof.
  intros Hg. destruct (ha_version (api_client a)) as (v&c1&H1).
  destruct (ha_start v c1) as (t&c2&H2). destruct (ha_get DataplaneBackend t c2) as (v'&l&c3&H3).
  pose proof (hc_version _ _ _ _ H1) as S1. destruct (hc_start _ _ _ _ H2) as [S2 S2'].
  destruct (S2' t eq_refl) as (Hid&Hact&S2t). destruct (hc_get _ _ _ _ _ H3) as (S3&Hact3&Hl).
  specialize (Hl _ _ eq_refl). subst l.
  exists t, (with_client c3 a).
  assert (Htx : servers c2 t DataplaneBackend = committed a) by (by rewrite S2t, S1).
  split_and!; [done|by apply Hact3|done|simpl; by rewrite S3|simpl; by rewrite S3, S2, S1|].
  intros a2 a1 existing Hr Ha. exists existing.
  split; [unfold existing; by rewrite server_urls_good|].
  assert (Hb : negb (bool_decide (DataplaneBackend = DataplaneBackend) ||
                     bool_decide (DataplaneBackend = RegistrationServerBackend)) = false) by reflexivity.
  unfold genericRevise. rewrite Hb.
  erewrite gom_bind_run; [|by apply on_client_run]. cbv beta iota.
  erewrite gom_bind_run; [|by apply on_client_run]. cbv beta iota.
  erewrite gom_bind_run; [|by apply on_client_run]. cbv beta iota.
  rewrite Htx, server_urls_good by done. erewrite gom_bind_run; [|reflexivity]. fold existing.
  change (with_client c3 (with_client c2 (with_client c1 a))) with (with_client c3 a).
  rewrite !decide_True by done. erewrite gom_bind_run; [|exact Hr]. erewrite gom_bind_run; [|exact Ha].
  unfold mbind, gom_bind, on_client, zoom.
  destruct (CommitTransaction t (api_client a1)) as [[[e|] c]| | |]; done.
Qed.

Lemma prepare_revision `{HA : !HAProxyAnswers C} keep rnd (a : API C) :
  agrees (api_addressToName a) (committed a) -> NoDup keep -> Forall well_formed keep ->
  new_names (length keep) rnd ->
  (forall i, (i < length keep)%nat -> dp_name (rnd i) ∉ sv_Name <$> committed a) ->
  exists t a1 new, start_revision keep rnd a t a1 /\ editing t (committed a) a1 /\
    tx_servers t a1 = filter (fun s => url_of s ∈ keep) (committed a) ++ new /\
    url_of <$> new = Difference keep (url_of <$> committed a).
Proof.
  intros Hag Hn Hwf Hnew0 Hfresh.
  destruct (open_transaction keep rnd a (ag_good _ _ Hag)) as (t&a0&Hid&Hact&Hnm&Htx&Hcom&Hrun).
  assert (He0 : editing t (committed a) a0) by (split; [done|done|by rewrite Hnm, Htx|done]).
  set (existing := url_of <$> committed a) in *.
  destruct (remove_all_run (Difference existing keep) t (committed a) a0 He0) as (a2&H2&He2&Hl2).
  { rewrite Difference_filter. apply list.NoDup_filter, (ag_urls _ _ Hag). }
  { rewrite Htx, Difference_filter. intros u [_ Hu]%list_elem_of_filter. done. }
  assert (Hl2' : tx_servers t a2 = filter (fun s => url_of s ∈ keep) (committed a)).
  { rewrite Hl2, Htx. apply filter_ext_in. intros s Hs. rewrite Difference_filter, list_elem_of_filter.
    split; [|tauto]. intros Hx. destruct (decide (url_of s ∈ keep)); [done|]. destruct Hx.
    split; [done|]. by apply list_elem_of_fmap_2. }
  destruct (add_all_run rnd (Difference keep existing) 0 (length keep) t (committed a) a2 He2)
    as (a1&new&H1&He1&Hl1&Hnew); try done.
  { rewrite Difference_filter. by apply list.NoDup_filter. }
  { rewrite Difference_filter, list.Forall_forall. intros u [_ Hu]%list_elem_of_filter.
    rewrite list.Forall_forall in Hwf. auto. }
  { intros u Hu. rewrite Difference_filter in Hu. apply list_elem_of_filter in Hu as [Hu _].
    rewrite Hl2'. intros (s&->&Hs)%list_elem_of_fmap. apply Hu. apply list_elem_of_filter in Hs as [_ Hs].
    by apply list_elem_of_fmap_2. }
  { rewrite Difference_filter. simpl. apply length_filter. }
  { intros i Hi. rewrite Hl2'. intros (s&E&Hs)%list_elem_of_fmap. apply (Hfresh i); [lia|]. rewrite E.
    apply list_elem_of_filter in Hs as [_ Hs]. by apply list_elem_of_fmap_2. }
  exists t, a1, new. split; [by eapply Hrun|]. split; [done|]. split; [by rewrite Hl1, Hl2'|done].
Qed.
(** A table that already lists exactly the addresses to keep makes the two
    loops do nothing, whatever the backend contains. *)
Lemma remove_all_noop us t (a : API C) :
  Forall well_formed us -> (forall u, u ∈ us -> api_addressToName a !! u = None) ->
  remove_all us t a = Ok (tt, a).
Proof.
  induction 1 as [|u us Hu _ IH]; intros Hn; [done|].
  destruct (well_formed_split u Hu) as (h&p&->&_&_&Hs). cbn [remove_all]. rewrite Hs.
  erewrite gom_bind_run; [|reflexivity]. cbv beta iota.
  erewrite gom_bind_run; [apply IH; intros u Hin; apply Hn; by right|].
  unfold removeServerByName. erewrite gom_bind_run; [|reflexivity]. by rewrite Hn by left.
Qed.
Lemma add_all_noop rnd us k t (a : API C) :
  Forall well_formed us -> (forall u, u ∈ us -> is_Some (api_addressToName a !! u)) ->
  add_all addServer rnd k us t a = Ok (tt, a).
Proof.
  intros Hwf. revert k. induction Hwf as [|u us Hu _ IH]; intros k Hn; [done|].
  destruct (well_formed_split u Hu) as (h&p&->&_&_&Hs). cbn [add_all]. rewrite Hs.
  erewrite gom_bind_run; [|reflexivity]. cbv beta iota.
  erewrite gom_bind_run; [apply IH; intros u Hin; apply Hn; by right|].
  unfold addServer. erewrite gom_bind_run; [|reflexivity].
  by destruct (Hn (host_port h p)) as [n ->]; [left|].
Qed.

Lemma stale_revision_noop `{HA : !HAProxyAnswers C} keep rnd (a : API C) r a' :
  Forall good_server (committed a) -> Forall well_formed keep ->
  (forall u, is_Some (api_addressToName a !! u) <-> u ∈ keep) ->
  genericRevise rnd DataplaneBackend keep a = Ok (r, a') -> committed a' = committed a.
Proof.
  intros Hg Hwf Hkeys Hrun.
  destruct (open_transaction keep rnd a Hg) as (t&a0&Hid&Hact&Hnm&Htx&Hcom&Hst).
  destruct (Hst a0 a0) as (existing&_&Heq).
  - apply remove_all_noop.
    + rewrite Difference_filter, list.Forall_forall. intros u [_ Hu]%list_elem_of_filter.
      apply list_elem_of_fmap in Hu as (s&->&Hs). rewrite list.Forall_forall in Hg.
      by apply good_server_url, Hg.
    + intros u Hu. rewrite Difference_filter in Hu. apply list_elem_of_filter in Hu as [Hu _].
      rewrite Hnm. apply eq_None_not_Some. by rewrite Hkeys.
  - apply add_all_noop.
    + rewrite Difference_filter, list.Forall_forall. intros u [_ Hu]%list_elem_of_filter.
      rewrite list.Forall_forall in Hwf. auto.
    + intros u Hu. rewrite Difference_filter in Hu. apply list_elem_of_filter in Hu as [_ Hu].
      rewrite Hnm. by apply Hkeys.
  - rewrite Heq in Hrun.
    destruct (CommitTransaction t (api_client a0)) as [[[e|] c]| | |] eqn:Hc; try done;
      injection Hrun as _ <-; apply hc_commit in Hc; simpl; rewrite Hc; [done|by rewrite Htx].
Qed.
End revise.

(** The addresses after the two loops are the wanted ones. *)
Lemma revised_urls keep l new u :
  url_of <$> new = Difference keep (url_of <$> l) ->
  u ∈ url_of <$> (filter (fun s => url_of s ∈ keep) l ++ new) <-> u ∈ keep.
Proof.
  intros Hnew. rewrite fmap_app, elem_of_app, Hnew, Difference_filter, list_elem_of_filter. split.
  - intros [(s&->&Hs)%list_elem_of_fmap|[_ Hu]]; [|done]. by apply list_elem_of_filter in Hs as [? _].
  - intros Hu. destruct (decide (u ∈ url_of <$> l)) as [Hin|]; [left|by right].
    apply list_elem_of_fmap in Hin as (s&->&Hs). apply list_elem_of_fmap_2.
    by apply list_elem_of_filter.
Qed.

Lemma Difference_nil (a b : list string) : Difference a b = [] <-> forall u, u ∈ a -> u ∈ b.
Proof.
  rewrite Difference_filter. split.
  - intros Hf u Hu. destruct (decide (u ∈ b)); [done|]. exfalso.
    by eapply (filter_nil_not_elem_of (fun x => x ∉ b)).
  - intros Hsub. destruct (filter _ a) as [|u l] eqn:E; [done|].
    assert (Hu : u ∈ filter (fun x => x ∉ b) a) by (rewrite E; by left).
    apply list_elem_of_filter in Hu as [Hn Hu]. by apply Hsub in Hu.
Qed.

Lemma names_table (l : list Server) : NoDup (url_of <$> l) -> forall u n,
  foldl (fun m na => <[na.2 := na.1]> m) (∅ : gmap string string) (zip (sv_Name <$> l) (url_of <$> l)) !! u = Some n
  <-> exists s, s ∈ l /\ url_of s = u /\ sv_Name s = n.
Proof.
  induction l as [|s l IH] using rev_ind; intros Hnd u n.
  { cbn. split; [done|]. by intros (s&?%elem_of_nil&_). }
  rewrite !fmap_app in *. apply list.NoDup_app in Hnd as (Hnd&Hni&_).
  rewrite zip_with_app by (by rewrite !length_fmap). rewrite foldl_app. cbn.
  rewrite lookup_insert_Some, IH by done. setoid_rewrite elem_of_app. setoid_rewrite list_elem_of_singleton. split.
  - intros [[<- <-]|[_ (s'&?&?&?)]]; [by exists s; auto|exists s'; auto].
  - intros (s'&[Hin| ->]&<-&<-); [right|by left]. split; [|by exists s'].
    intros E. apply (Hni (url_of s')); [by apply list_elem_of_fmap_2|]. rewrite <- E. by apply list_elem_of_singleton.
Qed.

(** The manager starts with a table that agrees with the backend it finds,
    when the servers listed there have distinct names and addresses. *)
Lemma NewHAProxyAPI_agrees {C} `{HC : HAProxyClient C} (servers : C -> string -> string -> list Server)
    (active : C -> string -> Prop) `{!HAProxyClientSpec C servers active, HA : !HAProxyAnswers C} lb c :
  let l := servers c "" DataplaneBackend in
  Forall good_server l -> NoDup (sv_Name <$> l) -> NoDup (url_of <$> l) ->
  exists a, NewHAProxyAPI lb c = Ok a /\ servers (api_client a) "" DataplaneBackend = l /\
    agrees (api_addressToName a) l.
Proof.
  intros l Hg Hn Hu. destruct (ha_get DataplaneBackend "" c) as (v&l'&c'&Hget).
  pose proof Hget as Hget'. apply (hc_get (servers := servers) (active := active)) in Hget' as (Hs&_&Hl).
  specialize (Hl v l' eq_refl). fold l in Hl. subst l'.
  eexists. split.
  { unfold NewHAProxyAPI, ListDataplanes, listServers.
    erewrite gom_bind_run; [|unfold on_client, zoom; cbn [api_client]; rewrite Hget; reflexivity].
    cbv beta iota zeta. unfold go_lift. unfold mbind at 1, gom_bind. rewrite (server_urls_good l Hg).
    cbn. reflexivity. }
  split; [cbn; by rewrite Hs|]. split; [done..|]. cbn. by apply names_table.
Qed.


(** A revision whose commit is refused is lost.  The table of names is
    edited before the commit and not restored when it fails; the next attempt,
    which the loop makes at once, then finds nothing to do, commits the old
    configuration and reports success: the new data planes are not in the load
    balancer, and those that left still are. *)
Theorem refused_commit_loses_revision {C} `{HC : HAProxyClient C}
    (servers : C -> string -> string -> list Server) (active : C -> string -> Prop)
    keep rnd rnd' (a a1 a2 a3 : API C) changes changes' :
  HAProxyClientSpec C servers active -> HAProxyAnswers C ->
  let backend (a : API C) := servers (api_client a) "" DataplaneBackend in
  agrees (api_addressToName a) (backend a) -> NoDup keep -> Forall well_formed keep ->
  new_names (length keep) rnd ->
  (forall i, (i < length keep)%nat -> dp_name (rnd i) ∉ sv_Name <$> backend a) ->
  genericRevise rnd DataplaneBackend keep a = Ok ((false, changes), a1) ->
  on_client getHAProxyClient a1 = Ok (tt, a2) ->
  genericRevise rnd' DataplaneBackend keep a2 = Ok ((true, changes'), a3) ->
  backend a3 = backend a.
Proof.
  intros HS HA backend Hag Hn Hwf Hnew0 Hfresh H1 H2 H3.
  destruct (prepare_revision keep rnd a Hag Hn Hwf Hnew0 Hfresh) as (t&b&new&Hst&He&Hl&Hnew).
  destruct Hst as (existing&_&Hrun). rewrite Hrun in H1.
  destruct (CommitTransaction t (api_client b)) as [[[e|] c]| | |] eqn:Hc; try done.
  injection H1 as _ <-. apply hc_commit in Hc.
  unfold on_client, zoom in H2. destruct (getHAProxyClient _) as [[v c']| | |] eqn:Ho; try done.
  injection H2 as _ <-. apply hc_open in Ho. simpl in Ho.
  assert (Hb : backend (with_client c' (with_client c b)) = backend a).
  { unfold backend. simpl. rewrite Ho, Hc. apply (ed_committed _ _ _ He). }
  rewrite <- Hb. eapply stale_revision_noop; [|exact Hwf| |exact H3].
  - change (Forall good_server (backend (with_client c' (with_client c b)))).
    rewrite Hb. apply (ag_good _ _ Hag).
  - intros u. simpl. pose proof (ed_agrees _ _ _ He) as [_ _ _ Ht]. rewrite Hl in Ht.
    assert (Hu : is_Some (api_addressToName b !! u) <-> u ∈ url_of <$> (filter (fun s => url_of s ∈ keep)
                   (backend a) ++ new)).
    { rewrite list_elem_of_fmap. split.
      - intros [n Hx]. apply Ht in Hx as (s&Hs&<-&_). eauto.
      - intros (s&->&Hs). exists (sv_Name s). apply Ht. eauto. }
    rewrite Hu. by apply revised_urls.
Qed.

(** ** A concrete client, for the examples

    The configuration and the open transactions in one table, by identifier;
    [ex_refuse] commits are refused. *)
Module LbExample.
Record Ex : Type := mkEx {
  ex_conf : gmap string (gmap string (list Server));
  ex_next : nat;
  ex_refuse : nat;
}.
Definition ex_servers (c : Ex) (t b : string) : list Server := default [] (default ∅ (ex_conf c !! t) !! b).
Definition ex_active (c : Ex) (t : string) : Prop := is_Some (ex_conf c !! t).
Definition ex_set (t b : string) (l : list Server) (c : Ex) : Ex :=
  mkEx (<[t := <[b := l]> (default ∅ (ex_conf c !! t))]> (ex_conf c)) (ex_next c) (ex_refuse c).
Definition ex_id (n : nat) : string := ("t" +:+ pretty n)%string.

#[export] Instance ex_client : HAProxyClient Ex := {
  GetVersion _ := fun c => Ok (inr 1, c);
  StartTransaction _ := fun c =>
    Ok (inr (ex_id (ex_next c)),
        mkEx (<[ex_id (ex_next c) := default ∅ (ex_conf c !! ""%string)]> (ex_conf c)) (S (ex_next c))
          (ex_refuse c));
  GetServers b t := fun c => Ok (inr (1, ex_servers c t b), c);
  CreateServer b s t _ := fun c =>
    if decide (sv_Name s ∈ sv_Name <$> ex_servers c t b) then Ok (Some "exists"%string, c)
    else Ok (None, ex_set t b (ex_servers c t b ++ [s]) c);
  DeleteServer n b t _ := fun c =>
    if decide (n ∈ sv_Name <$> ex_servers c t b)
    then Ok (None, ex_set t b (filter (fun s => sv_Name s ≠ n) (ex_servers c t b)) c)
    else Ok (Some "missing"%string, c);
  CommitTransaction t := fun c =>
    match ex_refuse c with
    | S k => Ok (Some "refused"%string, mkEx (ex_conf c) (ex_next c) k)
    | O => Ok (None, mkEx (<[""%string := default ∅ (ex_conf c !! t)]> (ex_conf c)) (ex_next c) O)
    end;
  getHAProxyClient := mret tt;
}.

Lemma ex_set_same t b l c : ex_servers (ex_set t b l c) t b = l.
Proof. unfold ex_servers, ex_set. simpl. by rewrite lookup_insert_eq; simpl; rewrite lookup_insert_eq. Qed.
Lemma ex_set_other t b l c t' b' :
  (t', b') ≠ (t, b) -> ex_servers (ex_set t b l c) t' b' = ex_servers c t' b'.
Proof.
  intros Hne. unfold ex_servers, ex_set. simpl. destruct (decide (t' = t)) as [->|].
  - rewrite lookup_insert_eq. simpl. rewrite lookup_insert_ne; [done|]. congruence.
  - by rewrite lookup_insert_ne by congruence.
Qed.

#[export] Instance ex_spec : HAProxyClientSpec Ex ex_servers ex_active.
Proof.
  split; cbn.
  - by intros t r c c' [= _ <-].
  - intros b t r c c' [= <- <-]. split_and!; [done|done|]. by intros v l [= _ <-].
  - intros v r c c' [= <- <-]. split.
    + unfold ex_servers. cbn [ex_conf]. by rewrite lookup_insert_ne by done.
    + intros id [= <-]. split; [done|]. unfold ex_active, ex_servers. cbn [ex_conf].
      rewrite lookup_insert_eq. split; [eauto|done].
  - intros b s t v c Ha Hn. rewrite decide_False by done. eexists. split; [done|].
    split; [unfold ex_active; simpl; rewrite lookup_insert_eq; eauto|].
    split; [apply ex_set_same|apply ex_set_other].
  - intros n b t v c Ha Hn. rewrite decide_True by done. eexists. split; [done|].
    split; [unfold ex_active; simpl; rewrite lookup_insert_eq; eauto|].
    split; [apply ex_set_same|apply ex_set_other].
  - intros t e c c'. destruct (ex_refuse c); intros [= <- <-]; [|done].
    unfold ex_servers. cbn [ex_conf]. by rewrite lookup_insert_eq.
  - by intros u c c' [= _ <-].
Qed.
#[export] Instance ex_answers : HAProxyAnswers Ex.
Proof.
  split; cbn; intros; try by eexists _, _.
  - by eexists _, _, _.
  - destruct (ex_refuse c); by eexists _, _.
Qed.

(** One data plane is listed; it leaves, and another one joins. *)
Definition listed : Server := mkServer "dp_7" "10.0.0.7" (Some 8080) ServerCheckEnabled 2500.
Definition start (refuse : nat) : API Ex :=
  mkAPI (mkEx {[ ""%string := {[ DataplaneBackend := [listed] ]} ]} 0 refuse) "lb:80"
    {[ "10.0.0.7:8080"%string := "dp_7"%string ]} 0.
Definition wanted : list string := ["10.0.0.8:8080"].
Definition draws (k : nat) : Z := Z.of_nat k + 100.
Lemma draws_new : new_names 1 draws.
Proof. unfold new_names, draws. split; intros; lia. Qed.

Lemma start_agrees refuse :
  agrees (api_addressToName (start refuse)) (ex_servers (api_client (start refuse)) "" DataplaneBackend).
Proof.
  change (ex_servers _ _ _) with [listed]. split.
  - apply list.Forall_singleton. split; [done|]. exists 8080. split; [done|lia].
  - apply list.NoDup_singleton.
  - apply list.NoDup_singleton.
  - intros u n. simpl. rewrite lookup_singleton_Some. setoid_rewrite list_elem_of_singleton. split.
    + intros [<- <-]. by exists listed.
    + by intros (s&->&<-&<-).
Qed.
Lemma wanted_well_formed : Forall well_formed wanted.
Proof. apply list.Forall_singleton. exists "10.0.0.8"%string, 8080. split; [done|]. split; [done|lia]. Qed.
Lemma draws_fresh refuse i : (i < 1)%nat ->
  dp_name (draws i) ∉ sv_Name <$> ex_servers (api_client (start refuse)) "" DataplaneBackend.
Proof. intros Hi. replace i with 0%nat by lia. change (_ <$> _) with ["dp_7"%string]. by intros ?%list_elem_of_singleton. Qed.
End LbExample.
Import LbExample.


Lemma refused_commit_loses_revision_witness :
  match genericRevise LbExample.draws DataplaneBackend LbExample.wanted (LbExample.start 1) with
  | Ok ((false, _), a1) =>
      match genericRevise LbExample.draws DataplaneBackend LbExample.wanted a1 with
      | Ok ((true, _), a3) =>
          LbExample.ex_servers (api_client a3) "" DataplaneBackend = [LbExample.listed]
      | _ => False
      end
  | _ => False
  end.
Proof.
  assert (Hv : match genericRevise LbExample.draws DataplaneBackend LbExample.wanted (LbExample.start 1) with
    | Ok ((false, _), a1) =>
        match genericRevise LbExample.draws DataplaneBackend LbExample.wanted a1 with
        | Ok ((true, _), a3) => true | _ => false end
    | _ => false end = true) by (vm_compute; reflexivity).
  destruct (genericRevise LbExample.draws DataplaneBackend LbExample.wanted (LbExample.start 1))
    as [[[[] ch] a1]| | |] eqn:E1; try discriminate Hv.
  destruct (genericRevise LbExample.draws DataplaneBackend LbExample.wanted a1)
    as [[[[] ch'] a3]| | |] eqn:E2; try discriminate Hv.
  apply (refused_commit_loses_revision LbExample.ex_servers LbExample.ex_active LbExample.wanted
    LbExample.draws LbExample.draws (LbExample.start 1) a1 a1 a3 ch ch').
  - apply LbExample.ex_spec.
  - apply LbExample.ex_answers.
  - apply LbExample.start_agrees.
  - apply list.NoDup_singleton.
  - apply LbExample.wanted_well_formed.
  - apply LbExample.draws_new.
  - apply LbExample.draws_fresh.
  - exact E1.
  - by destruct a1.
  - exact E2.
Defined.
