(* ===== verification/FunctionMetadata.v ===== *)
(** * Functions on the data plane

    [internal/data_plane/function_metadata]: the endpoints of a function, the
    queue of its cold-started requests, its autoscaling metric and statistics.

    Endpoints are shared between the list of the function and the requests in
    flight, so they live in a heap [ep_heap] indexed by their address.  Each
    function below is one critical section of the metadata's mutex (or one
    atomic operation), so a sequence of them is an interleaving. *)
From Stdlib Require Import ZArith Lia.
From stdpp Require Import base tactics list gmap strings sets numbers.
From S2P Require Import Prelude Sync Core.

Local Open Scope Z_scope.

(** ** Data *)

Definition UnlimitedConcurrency : Z := 0.

Record UpstreamEndpoint : Type := mkUpstreamEndpoint {
  ue_ID : string;
  ue_URL : string;
  ue_cap : Z;                        (* capacity of the throttler channel *)
  ue_tokens : Z;                     (* tokens in it *)
  ue_Drained : Z;
  ue_DrainingCallback : option bool; (* [None]: nil; [Some b]: its one slot is full *)
  ue_InFlight : Z;
}.

Inductive ColdStartOutcome : Type := SuccessfulColdStart | CanceledColdStart.

#[global] Instance ColdStartOutcome_eq_dec : EqDecision ColdStartOutcome.
Proof. solve_decision. Defined.

Record FunctionStatistics : Type := mkFunctionStatistics {
  st_SuccessfulInvocations : Z;
  st_Inflight : Z;
  st_QueueDepth : Z;
}.

Record FunctionMetadata : Type := mkFunctionMetadata {
  fm_dataPlaneID : string;
  fm_identifier : string;
  fm_sandboxParallelism : Z;
  ep_heap : gmap nat UpstreamEndpoint;
  fm_upstreamEndpoints : list nat;
  fm_activeEndpointCount : Z;
  fm_queue : list nat;                            (* wait channels, front first *)
  fm_wait_chans : gmap nat (list ColdStartOutcome); (* capacity 1 each *)
  fm_RoundRobinCounter : Z;
  fm_KubernetesRoundRobinCounter : Z;
  fm_RequestCountPerInstance : gmap nat Z;
  fm_inflightRequests : Z;
  fm_statistics : FunctionStatistics;
  fm_autoscalingTriggered : Z;
  fm_next : nat;                                  (* next free address *)
}.

Definition NewFunctionMetadata (name dataplaneID : string) : FunctionMetadata :=
  mkFunctionMetadata dataplaneID name 1 ∅ [] 0 [] ∅ 0 0 ∅ 0 (mkFunctionStatistics 0 0 0) 0 0.

Section setters.
Context (m : FunctionMetadata).
Definition set_endpoints (h : gmap nat UpstreamEndpoint) (l : list nat) (n : nat) : FunctionMetadata :=
  mkFunctionMetadata (fm_dataPlaneID m) (fm_identifier m) (fm_sandboxParallelism m) h l
    (fm_activeEndpointCount m) (fm_queue m) (fm_wait_chans m) (fm_RoundRobinCounter m)
    (fm_KubernetesRoundRobinCounter m) (fm_RequestCountPerInstance m) (fm_inflightRequests m)
    (fm_statistics m) (fm_autoscalingTriggered m) n.
Definition set_active (c : Z) : FunctionMetadata :=
  mkFunctionMetadata (fm_dataPlaneID m) (fm_identifier m) (fm_sandboxParallelism m) (ep_heap m)
    (fm_upstreamEndpoints m) c (fm_queue m) (fm_wait_chans m) (fm_RoundRobinCounter m)
    (fm_KubernetesRoundRobinCounter m) (fm_RequestCountPerInstance m) (fm_inflightRequests m)
    (fm_statistics m) (fm_autoscalingTriggered m) (fm_next m).
Definition set_queue (q : list nat) (w : gmap nat (list ColdStartOutcome)) (n : nat) : FunctionMetadata :=
  mkFunctionMetadata (fm_dataPlaneID m) (fm_identifier m) (fm_sandboxParallelism m) (ep_heap m)
    (fm_upstreamEndpoints m) (fm_activeEndpointCount m) q w (fm_RoundRobinCounter m)
    (fm_KubernetesRoundRobinCounter m) (fm_RequestCountPerInstance m) (fm_inflightRequests m)
    (fm_statistics m) (fm_autoscalingTriggered m) n.
Definition set_counters (rr krr : Z) (rc : gmap nat Z) : FunctionMetadata :=
  mkFunctionMetadata (fm_dataPlaneID m) (fm_identifier m) (fm_sandboxParallelism m) (ep_heap m)
    (fm_upstreamEndpoints m) (fm_activeEndpointCount m) (fm_queue m) (fm_wait_chans m) rr krr rc
    (fm_inflightRequests m) (fm_statistics m) (fm_autoscalingTriggered m) (fm_next m).
Definition set_metrics (infl : Z) (st : FunctionStatistics) (trig : Z) : FunctionMetadata :=
  mkFunctionMetadata (fm_dataPlaneID m) (fm_identifier m) (fm_sandboxParallelism m) (ep_heap m)
    (fm_upstreamEndpoints m) (fm_activeEndpointCount m) (fm_queue m) (fm_wait_chans m)
    (fm_RoundRobinCounter m) (fm_KubernetesRoundRobinCounter m) (fm_RequestCountPerInstance m)
    infl st trig (fm_next m).
End setters.

(** ** Statistics *)

Definition add_statistics (succ infl depth : Z) (s : FunctionStatistics) : FunctionStatistics :=
  mkFunctionStatistics (i64 (st_SuccessfulInvocations s + succ)) (i64 (st_Inflight s + infl))
    (i64 (st_QueueDepth s + depth)).
Definition IncrementSuccessfulInvocations := add_statistics 1 0 0.
Definition IncrementInflight := add_statistics 0 1 0.
Definition DecrementInflight := add_statistics 0 (-1) 0.
Definition IncrementQueueDepth := add_statistics 0 0 1.
Definition DecrementQueueDepth := add_statistics 0 0 (-1).

(** The goroutines add atomically, in any order [functions]. *)
Definition AggregateStatistics (functions : list FunctionMetadata) : FunctionStatistics :=
  foldl (fun agg f => add_statistics (st_SuccessfulInvocations (fm_statistics f))
                        (st_Inflight (fm_statistics f)) (st_QueueDepth (fm_statistics f)) agg)
    (mkFunctionStatistics 0 0 0) functions.

Definition update_stats (f : FunctionStatistics -> FunctionStatistics) (m : FunctionMetadata)
  : FunctionMetadata :=
  set_metrics m (fm_inflightRequests m) (f (fm_statistics m)) (fm_autoscalingTriggered m).

(** ** Counters of the load balancer *)

(** [counter % uint32(len)]: an integer division by zero panics. *)
Definition mod_len (counter : Z) (l : list nat) : outcome Z :=
  let n := u32 (Z.of_nat (length l)) in
  if decide (n = 0) then Panic else Ok (counter mod n).
Definition GetRoundRobinCounter (m : FunctionMetadata) : outcome Z :=
  mod_len (fm_RoundRobinCounter m) (fm_upstreamEndpoints m).
Definition IncrementRoundRobinCounter (m : FunctionMetadata) : FunctionMetadata :=
  set_counters m (u32 (fm_RoundRobinCounter m + 1)) (fm_KubernetesRoundRobinCounter m)
    (fm_RequestCountPerInstance m).
Definition GetKubernetesRoundRobinCounter (m : FunctionMetadata) : outcome Z :=
  mod_len (fm_KubernetesRoundRobinCounter m) (fm_upstreamEndpoints m).
Definition IncrementKubernetesRoundRobinCounter (m : FunctionMetadata) : FunctionMetadata :=
  set_counters m (fm_RoundRobinCounter m) (u32 (fm_KubernetesRoundRobinCounter m + 1))
    (fm_RequestCountPerInstance m).
Definition IncrementRequestCountPerInstance (ep : nat) (m : FunctionMetadata) : FunctionMetadata :=
  set_counters m (fm_RoundRobinCounter m) (fm_KubernetesRoundRobinCounter m)
    (AMC_AtomicIncrement ep (fm_RequestCountPerInstance m)).
Definition GetLocalQueueLength (m : FunctionMetadata) (ep : nat) : Z :=
  AMC_Get (fm_RequestCountPerInstance m) ep.

(** ** Endpoints *)

(** A channel filled with as many tokens as it has room for. *)
Definition new_endpoint (parallelism : Z) (e : EndpointInfo) : UpstreamEndpoint :=
  mkUpstreamEndpoint (ei_ID e) (ei_URL e) parallelism parallelism 0 None 0.

Fixpoint addToEndpointList (data : list EndpointInfo) (m : FunctionMetadata) : FunctionMetadata :=
  match data with
  | [] => m
  | e :: data' =>
      let p := fm_next m in
      addToEndpointList data'
        (set_endpoints m (<[p := new_endpoint (fm_sandboxParallelism m) e]> (ep_heap m))
           (fm_upstreamEndpoints m ++ [p]) (S p))
  end.

(** [signal <- ColdStartChannelStruct{...}]: blocks while the slot is full. *)
Definition wait_chan_send (c : nat) (o : ColdStartOutcome) (w : gmap nat (list ColdStartOutcome))
  : outcome (gmap nat (list ColdStartOutcome)) :=
  match w !! c with
  | Some [] => Ok (<[c := [o]]> w)
  | _ => Blocked
  end.

Fixpoint dequeue_all (q : list nat) (w : gmap nat (list ColdStartOutcome))
  : outcome (gmap nat (list ColdStartOutcome)) :=
  match q with
  | [] => Ok w
  | c :: q' => w' ← wait_chan_send c SuccessfulColdStart w; dequeue_all q' w'
  end.

Definition AddEndpoints (endpoints : list EndpointInfo) (m : FunctionMetadata)
  : outcome FunctionMetadata :=
  let m := addToEndpointList endpoints m in
  let m := set_active m (i32 (Z.of_nat (length (fm_upstreamEndpoints m)))) in
  if decide (0 < length (fm_upstreamEndpoints m))%nat then
    w ← dequeue_all (fm_queue m) (fm_wait_chans m);
    Ok (set_queue m [] w (fm_next m))
  else Ok m.

Definition RemoveAllEndpoints (m : FunctionMetadata) : FunctionMetadata :=
  set_active (set_endpoints m (ep_heap m) [] (fm_next m)) 0.

Definition url_of (h : gmap nat UpstreamEndpoint) (p : nat) : string :=
  from_option ue_URL "" (h !! p).
Definition id_of (h : gmap nat UpstreamEndpoint) (p : nat) : string :=
  from_option ue_ID "" (h !! p).

(** The inner loop: delete the first endpoint with the URL. *)
Fixpoint remove_first_url (h : gmap nat UpstreamEndpoint) (url : string) (l : list nat) : list nat :=
  match l with
  | [] => []
  | p :: l' => if decide (url = url_of h p) then l' else p :: remove_first_url h url l'
  end.
Definition removeEndpoints (endpoints : list EndpointInfo) (m : FunctionMetadata) : FunctionMetadata :=
  let l := foldl (fun l e => remove_first_url (ep_heap m) (ei_URL e) l)
             (fm_upstreamEndpoints m) endpoints in
  let m := set_endpoints m (ep_heap m) l (fm_next m) in
  set_active m (i32 (Z.of_nat (length l))).

Definition set_drained (d : Z) (cb : option bool) (e : UpstreamEndpoint) : UpstreamEndpoint :=
  mkUpstreamEndpoint (ue_ID e) (ue_URL e) (ue_cap e) (ue_tokens e) d cb (ue_InFlight e).

(** The endpoints with a drained ID that were not yet draining get a callback
    channel, already signalled when nothing is in flight; the barriers are
    their addresses. *)
Fixpoint mark_loop (ids : list string) (l : list nat) (h : gmap nat UpstreamEndpoint)
  : list nat * gmap nat UpstreamEndpoint :=
  match l with
  | [] => ([], h)
  | p :: l' =>
      match h !! p with
      | Some e =>
          if decide (ue_ID e ∈ ids) then
            if decide (ue_Drained e = 0) then
              let cb := bool_decide (ue_InFlight e = 0) in
              let '(bs, h') := mark_loop ids l' (<[p := set_drained 1 (Some cb) e]> h) in
              (p :: bs, h')
            else mark_loop ids l' (<[p := set_drained 1 (ue_DrainingCallback e) e]> h)
          else mark_loop ids l' h
      | None => mark_loop ids l' h
      end
  end.
Definition markEndpointsAsDraining (endpoints : list EndpointInfo) (m : FunctionMetadata)
  : list nat * FunctionMetadata :=
  let '(bs, h) := mark_loop (ei_ID <$> endpoints) (fm_upstreamEndpoints m) (ep_heap m) in
  (bs, set_endpoints m h (fm_upstreamEndpoints m) (fm_next m)).

(** The critical section of [DrainEndpoints] and the wait after it: [<-barrier]
    empties the slot of each barrier, [Blocked] while one is empty. *)
Definition DrainEndpoints_mark (endpoints : list EndpointInfo) (m : FunctionMetadata)
  : list nat * FunctionMetadata :=
  let '(bs, m') := markEndpointsAsDraining endpoints m in
  (bs, removeEndpoints endpoints m').

Fixpoint waitForDrainingToComplete (barriers : list nat) (h : gmap nat UpstreamEndpoint)
  : outcome (gmap nat UpstreamEndpoint) :=
  match barriers with
  | [] => Ok h
  | p :: bs =>
      match h !! p with
      | Some e => match ue_DrainingCallback e with
                  | Some true => waitForDrainingToComplete bs
                                   (<[p := set_drained (ue_Drained e) (Some false) e]> h)
                  | _ => Blocked
                  end
      | None => Blocked
      end
  end.

(** ** Requests *)

Definition DecreaseInflight (m : FunctionMetadata) : FunctionMetadata :=
  set_metrics m (i32 (fm_inflightRequests m - 1)) (fm_statistics m) (fm_autoscalingTriggered m).

(** The compare-and-swap loop: whether the metrics goroutine was started. *)
Definition triggerAutoscaling (m : FunctionMetadata) : bool * FunctionMetadata :=
  if decide (fm_autoscalingTriggered m = 0)
  then (true, set_metrics m (fm_inflightRequests m) (fm_statistics m) 1)
  else (false, m).

(** [TryWarmStart] up to and including the load of the endpoint count: whether
    the request has to wait. *)
Definition TryWarmStart_load (m : FunctionMetadata) : bool * FunctionMetadata :=
  let m := set_metrics m (i32 (fm_inflightRequests m + 1)) (IncrementInflight (fm_statistics m))
             (fm_autoscalingTriggered m) in
  let m := (triggerAutoscaling m).2 in
  (bool_decide (fm_activeEndpointCount m = 0), m).

(** The critical section of a request that has to wait: its channel. *)
Definition TryWarmStart_enqueue (m : FunctionMetadata) : nat * FunctionMetadata :=
  let c := fm_next m in
  (c, update_stats IncrementQueueDepth
        (set_queue m (fm_queue m ++ [c]) (<[c := []]> (fm_wait_chans m)) (S c))).

(** One iteration of [sendMetricsToAutoscaler]: the metric sent, and whether
    the loop ends. *)
Definition sendMetrics_iteration (m : FunctionMetadata) : Z * bool * FunctionMetadata :=
  let infl := fm_inflightRequests m in
  let toBreak := bool_decide (infl = 0) in
  (infl, toBreak,
   if toBreak then set_metrics m infl (fm_statistics m) 0 else m).

(** ** Deployments *)

Definition Deployments : Type := gmap string FunctionMetadata.
Definition Deployments_Add (name dataplaneID : string) (d : Deployments) : bool * Deployments :=
  match d !! name with
  | Some _ => (false, d)
  | None => (true, <[name := NewFunctionMetadata name dataplaneID]> d)
  end.
Definition GetDeployment (name : string) (d : Deployments) : option FunctionMetadata := d !! name.
Definition Deployments_Delete (name : string) (d : Deployments) : bool * Deployments :=
  match d !! name with
  | Some _ => (true, delete name d)
  | None => (false, d)
  end.
Definition ListDeployments (ord : range_order string FunctionMetadata) (d : Deployments)
  : list FunctionMetadata := foldl (fun r kv => r ++ [kv.2]) [] (ord d).

(** [endpointDelta] *)
Definition endpointDelta (h : gmap nat UpstreamEndpoint) (old : list nat) (new : list EndpointInfo)
  : gmap string nat * gmap string EndpointInfo * list string * list string :=
  let '(oldURLs, mmOld) := ExtractField old (url_of h) in
  let '(newURLs, mmNew) := ExtractField new ei_URL in
  (mmOld, mmNew, Difference newURLs oldURLs, Difference oldURLs newURLs).

(** ** Adding endpoints *)

Lemma addToEndpointList_run data m :
  let m' := addToEndpointList data m in
  let new := seq (fm_next m) (length data) in
  m' = set_endpoints m (ep_heap m') (fm_upstreamEndpoints m ++ new) (fm_next m + length data) /\
  (forall p, (p < fm_next m)%nat -> ep_heap m' !! p = ep_heap m !! p) /\
  (forall i e, data !! i = Some e ->
     ep_heap m' !! (fm_next m + i)%nat = Some (new_endpoint (fm_sandboxParallelism m) e)).
Proof.
  revert m. induction data as [|e data IH]; intros m; simpl.
  - split_and!; [|done|done]. rewrite app_nil_r, Nat.add_0_r. by destruct m.
  - set (m1 := set_endpoints m _ _ _). destruct (IH m1) as (H1&H2&H3). simpl in *.
    split_and!.
    + rewrite H1. unfold m1, set_endpoints. simpl. rewrite <- app_assoc. simpl.
      by replace (fm_next m + S (length data))%nat with (S (fm_next m + length data)) by lia.
    + intros p Hp. rewrite H2 by lia. apply lookup_insert_ne. lia.
    + intros [|i] e' He; simpl in He.
      * simplify_eq. rewrite Nat.add_0_r, H2 by lia. by rewrite lookup_insert_eq.
      * replace (fm_next m + S i)%nat with (S (fm_next m) + i)%nat by lia. by apply H3.
Qed.

Lemma dequeue_all_run q w :
  NoDup q -> (forall c, c ∈ q -> w !! c = Some []) ->
  exists w', dequeue_all q w = Ok w' /\
    (forall c, w' !! c = if decide (c ∈ q) then Some [SuccessfulColdStart] else w !! c).
Proof.
  revert w. induction q as [|c q IH]; intros w Hnd Hw.
  { exists w. split; [done|]. done. }
  apply list.NoDup_cons in Hnd as [Hc Hnd]. simpl. unfold wait_chan_send.
  rewrite (Hw c) by (by left). cbn [mbind outcome_bind].
  destruct (IH (<[c := [SuccessfulColdStart]]> w)) as (w'&Hrun&Hw'); [done| |].
  { intros c' Hc'. rewrite lookup_insert_ne by (intros ->; done). apply Hw. by right. }
  exists w'. split; [done|]. intros c'. rewrite Hw', lookup_insert.
  repeat case_decide; subst; rewrite ?elem_of_cons in *; try tauto; try done; naive_solver.
Qed.

(** The queued requests wait on distinct channels whose slot is empty. *)
Definition queue_ok (m : FunctionMetadata) : Prop :=
  NoDup (fm_queue m) /\ forall c, c ∈ fm_queue m -> fm_wait_chans m !! c = Some [].

Lemma AddEndpoints_run endpoints m :
  queue_ok m -> endpoints ≠ [] ->
  exists m', AddEndpoints endpoints m = Ok m' /\
    fm_queue m' = [] /\
    (forall c, fm_wait_chans m' !! c =
       if decide (c ∈ fm_queue m) then Some [SuccessfulColdStart] else fm_wait_chans m !! c) /\
    fm_upstreamEndpoints m' = fm_upstreamEndpoints m ++ seq (fm_next m) (length endpoints) /\
    (forall i e, endpoints !! i = Some e ->
       ep_heap m' !! (fm_next m + i)%nat = Some (new_endpoint (fm_sandboxParallelism m) e)) /\
    (forall p, (p < fm_next m)%nat -> ep_heap m' !! p = ep_heap m !! p) /\
    fm_activeEndpointCount m' = i32 (Z.of_nat (length (fm_upstreamEndpoints m'))).
Proof.
  intros [Hnd Hw] Hne. unfold AddEndpoints.
  destruct (addToEndpointList_run endpoints m) as (H1&H2&H3).
  set (m1 := addToEndpointList endpoints m) in *. clearbody m1.
  assert (Hlen : (0 < length (fm_upstreamEndpoints m1))%nat).
  { rewrite H1. simpl. rewrite length_app, length_seq. destruct endpoints; [done|simpl; lia]. }
  destruct (dequeue_all_run (fm_queue m1) (fm_wait_chans m1)) as (w&Hrun&Hwc);
    [by rewrite H1|by rewrite H1|].
  cbn [fm_queue fm_wait_chans set_active fm_upstreamEndpoints]. rewrite decide_True by done.
  rewrite Hrun. cbn [mbind outcome_bind].
  eexists. split; [done|]. simpl. split_and!; try done.
  - rewrite H1 in Hwc. exact Hwc.
  - by rewrite H1.
Qed.

(** C31: Adding endpoints wakes every queued request exactly once: the update
    returns, every channel of the queue receives one successful outcome and no
    other channel is touched, the queue is empty, the new endpoints are
    appended with a full throttler, the existing ones are unchanged, and the
    published endpoint count is the number of endpoints. *)
Theorem AddEndpoints_wakes_all endpoints m :
  queue_ok m -> endpoints ≠ [] ->
  exists m', AddEndpoints endpoints m = Ok m' /\
    fm_queue m' = [] /\
    (forall c, fm_wait_chans m' !! c =
       if decide (c ∈ fm_queue m) then Some [SuccessfulColdStart] else fm_wait_chans m !! c) /\
    fm_upstreamEndpoints m' = fm_upstreamEndpoints m ++ seq (fm_next m) (length endpoints) /\
    (forall i e, endpoints !! i = Some e ->
       ep_heap m' !! (fm_next m + i)%nat = Some (new_endpoint (fm_sandboxParallelism m) e)) /\
    (forall p, (p < fm_next m)%nat -> ep_heap m' !! p = ep_heap m !! p) /\
    fm_activeEndpointCount m' = i32 (Z.of_nat (length (fm_upstreamEndpoints m'))).
Proof. apply AddEndpoints_run. Qed.

Definition example_endpoints : list EndpointInfo :=
  [mkEndpointInfo "s1" "10.0.0.1:80"; mkEndpointInfo "s2" "10.0.0.2:80"].
Definition example_queued : FunctionMetadata :=
  (TryWarmStart_enqueue (TryWarmStart_load (NewFunctionMetadata "f" "dp")).2).2.

Lemma AddEndpoints_wakes_all_witness :
  exists m', AddEndpoints example_endpoints example_queued = Ok m' /\
    fm_queue m' = [] /\ fm_wait_chans m' !! 0%nat = Some [SuccessfulColdStart] /\
    fm_activeEndpointCount m' = 2.
Proof.
  destruct (AddEndpoints_wakes_all example_endpoints example_queued)
    as (m'&H1&H2&H3&H4&_&_&H7).
  - split; [apply NoDup_singleton|]. intros c ->%list_elem_of_singleton. reflexivity.
  - discriminate.
  - exists m'. split; [done|]. split; [done|]. split; [rewrite H3; reflexivity|].
    rewrite H7, H4. reflexivity.
Defined.

(** Adding is not idempotent: the update that the control plane sends after
    a failure carries the endpoints that remain, and the data plane appends
    them, so an endpoint that failed stays in the list and the others are
    duplicated. *)
Theorem AddEndpoints_appends_remaining e1 e2 m :
  queue_ok m -> fm_upstreamEndpoints m = [] ->
  exists m1 m2, AddEndpoints [e1; e2] m = Ok m1 /\ AddEndpoints [e2] m1 = Ok m2 /\
    (url_of (ep_heap m2) <$> fm_upstreamEndpoints m2) = [ei_URL e1; ei_URL e2; ei_URL e2].
Proof.
  intros Hq Hm.
  destruct (AddEndpoints_run [e1; e2] m Hq ltac:(done)) as (m1&R1&Q1&_&U1&N1&_&_).
  assert (Hq1 : queue_ok m1) by (split; rewrite Q1; [constructor|by intros c Hc%elem_of_nil]).
  destruct (AddEndpoints_run [e2] m1 Hq1 ltac:(done)) as (m2&R2&_&_&U2&N2&O2&_).
  exists m1, m2. split; [done|]. split; [done|].
  assert (Hn1 : fm_next m1 = (fm_next m + 2)%nat).
  { unfold AddEndpoints in R1. simpl in R1. rewrite Hm in R1. simpl in R1.
    destruct (dequeue_all _ _); cbn in R1; try done. injection R1 as <-. simpl. lia. }
  rewrite U2, U1, Hm, Hn1. simpl. unfold url_of.
  specialize (N1 0%nat e1 eq_refl) as A0. specialize (N1 1%nat e2 eq_refl) as A1.
  specialize (N2 0%nat e2 eq_refl) as A2.
  rewrite Hn1, !Nat.add_0_r in *. rewrite !O2 by lia.
  replace (S (fm_next m)) with (fm_next m + 1)%nat by lia. by rewrite A0, A1, A2.
Qed.

Lemma AddEndpoints_appends_remaining_witness :
  let e1 := mkEndpointInfo "s1" "10.0.0.1:80" in let e2 := mkEndpointInfo "s2" "10.0.0.2:80" in
  exists m1 m2, AddEndpoints [e1; e2] (NewFunctionMetadata "f" "dp") = Ok m1 /\
    AddEndpoints [e2] m1 = Ok m2 /\
    (url_of (ep_heap m2) <$> fm_upstreamEndpoints m2) = [ei_URL e1; ei_URL e2; ei_URL e2].
Proof.
  intros e1 e2. apply (AddEndpoints_appends_remaining e1 e2 (NewFunctionMetadata "f" "dp")).
  - split; [constructor|]. intros c Hc. by apply elem_of_nil in Hc.
  - reflexivity.
Defined.

(** ** The cold-start queue *)

(** Without interference a request that arrives while there is no endpoint
    is queued on a fresh empty channel, and the next addition of endpoints
    delivers it a successful outcome; with endpoints present it is not
    queued. *)
Theorem cold_start_is_woken endpoints m :
  queue_ok m -> endpoints ≠ [] ->
  (forall c, is_Some (fm_wait_chans m !! c) -> (c < fm_next m)%nat) ->
  (fm_activeEndpointCount m ≠ 0 -> (TryWarmStart_load m).1 = false) /\
  (fm_activeEndpointCount m = 0 ->
   let '(wait, m1) := TryWarmStart_load m in
   let '(c, m2) := TryWarmStart_enqueue m1 in
   wait = true /\ exists m3, AddEndpoints endpoints m2 = Ok m3 /\
     fm_wait_chans m3 !! c = Some [SuccessfulColdStart] /\ fm_queue m3 = []).
Proof.
  intros [Hnd Hw] Hne Hfresh. split.
  { intros Ha. unfold TryWarmStart_load, triggerAutoscaling. simpl. case_decide; simpl;
      by apply bool_decide_eq_false. }
  intros Ha. destruct (TryWarmStart_load m) as [wait m1] eqn:E.
  assert (Hm1 : wait = true /\ fm_queue m1 = fm_queue m /\ fm_wait_chans m1 = fm_wait_chans m /\
                fm_next m1 = fm_next m).
  { unfold TryWarmStart_load, triggerAutoscaling in E. simpl in E. case_decide; injection E as <- <-;
      simpl; rewrite Ha; by split_and!. }
  destruct Hm1 as (->&E1&E2&E3). simpl. split; [done|].
  set (m2 := update_stats _ _).
  assert (Hq2 : queue_ok m2).
  { unfold queue_ok, m2. simpl. rewrite E1, E2, E3. split.
    - apply list.NoDup_app. split_and!; [done| |apply NoDup_singleton].
      intros c Hc ->%list_elem_of_singleton. specialize (Hw _ Hc).
      specialize (Hfresh (fm_next m) ltac:(eauto)). lia.
    - intros c [Hc|Hc]%elem_of_app.
      + rewrite lookup_insert_ne; [by apply Hw|]. intros <-.
        specialize (Hfresh (fm_next m) ltac:(rewrite (Hw _ Hc); eauto)). lia.
      + apply list_elem_of_singleton in Hc as ->. by rewrite lookup_insert_eq. }
  destruct (AddEndpoints_run endpoints m2 Hq2 Hne) as (m3&R3&Q3&W3&_).
  exists m3. split; [done|]. split; [|done]. rewrite W3, decide_True; [done|].
  simpl. apply elem_of_app. right. apply list_elem_of_singleton. done.
Qed.

Lemma cold_start_is_woken_witness :
  let m := NewFunctionMetadata "f" "dp" in
  (TryWarmStart_load m).1 = true /\
  exists m3, AddEndpoints example_endpoints example_queued = Ok m3 /\
    fm_wait_chans m3 !! 0%nat = Some [SuccessfulColdStart] /\ fm_queue m3 = [].
Proof.
  intros m. destruct (cold_start_is_woken example_endpoints m) as [_ H].
  - split; [constructor|]. intros c Hc. by apply elem_of_nil in Hc.
  - discriminate.
  - intros c [x Hx]. vm_compute in Hx. destruct c; discriminate.
  - destruct (H eq_refl) as [H1 H2]. split; [exact H1|exact H2].
Defined.

(** The load of the endpoint count and the insertion into the queue are
    separate steps.  When the endpoints arrive in between, the request is
    queued although endpoints are available, and its channel stays empty: no
    wake-up is pending for it. *)
Theorem cold_start_lost_wakeup endpoints m :
  queue_ok m -> endpoints ≠ [] -> fm_activeEndpointCount m = 0 ->
  Z.of_nat (length (fm_upstreamEndpoints m) + length endpoints) < 2 ^ 31 ->
  let '(wait, m1) := TryWarmStart_load m in
  exists m2, AddEndpoints endpoints m1 = Ok m2 /\
    let '(c, m3) := TryWarmStart_enqueue m2 in
    wait = true /\ fm_queue m3 = [c] /\ fm_wait_chans m3 !! c = Some [] /\
    0 < fm_activeEndpointCount m3.
Proof.
  intros Hq Hne Ha Hb. destruct (TryWarmStart_load m) as [wait m1] eqn:E.
  assert (Hm1 : wait = true /\ queue_ok m1 /\ fm_upstreamEndpoints m1 = fm_upstreamEndpoints m).
  { unfold TryWarmStart_load, triggerAutoscaling in E. simpl in E. case_decide; injection E as <- <-;
      simpl; rewrite Ha; by split_and!. }
  destruct Hm1 as (->&Hq1&Hu1).
  destruct (AddEndpoints_run endpoints m1 Hq1 Hne) as (m2&R2&Q2&_&U2&_&_&A2).
  exists m2. split; [done|]. simpl. split; [done|]. rewrite Q2. split; [done|].
  split; [by rewrite lookup_insert_eq|]. rewrite A2, U2, length_app, length_seq, Hu1.
  assert (0 < length endpoints)%nat by (destruct endpoints; [done|simpl; lia]).
  rewrite i32_id by (unfold is_i32; lia). lia.
Qed.

Lemma cold_start_lost_wakeup_witness :
  let m := NewFunctionMetadata "f" "dp" in
  exists m2, AddEndpoints example_endpoints (TryWarmStart_load m).2 = Ok m2 /\
    (TryWarmStart_load m).1 = true /\
    fm_queue (TryWarmStart_enqueue m2).2 = [(TryWarmStart_enqueue m2).1] /\
    0 < fm_activeEndpointCount (TryWarmStart_enqueue m2).2.
Proof.
  intros m. destruct (cold_start_lost_wakeup example_endpoints m) as (m2&H1&H2&H3&_&H5).
  - split; [constructor|]. intros c Hc. by apply elem_of_nil in Hc.
  - discriminate.
  - reflexivity.
  - reflexivity.
  - exists m2. split; [exact H1|]. split; [exact H2|]. split; [exact H3|exact H5].
Defined.

(** ** Statistics *)

(** The aggregated statistics are the sums over the functions, whatever the
    order in which the goroutines add their share. *)
Theorem AggregateStatistics_sum fs fs' :
  fs ≡ₚ fs' ->
  AggregateStatistics fs = AggregateStatistics fs' /\
  st_Inflight (AggregateStatistics fs) =
    i64 (foldr (fun f acc => st_Inflight (fm_statistics f) + acc) 0 fs).
Proof.
  assert (Hgen : forall fs a b c,
    foldl (fun agg f => add_statistics (st_SuccessfulInvocations (fm_statistics f))
                        (st_Inflight (fm_statistics f)) (st_QueueDepth (fm_statistics f)) agg)
      (mkFunctionStatistics (i64 a) (i64 b) (i64 c)) fs =
    mkFunctionStatistics
      (i64 (a + foldr (fun f acc => st_SuccessfulInvocations (fm_statistics f) + acc) 0 fs))
      (i64 (b + foldr (fun f acc => st_Inflight (fm_statistics f) + acc) 0 fs))
      (i64 (c + foldr (fun f acc => st_QueueDepth (fm_statistics f) + acc) 0 fs))).
  { induction fs0 as [|f l IH]; intros a b c; simpl; [by rewrite !Z.add_0_r|].
    unfold add_statistics at 2. simpl. rewrite !i64_add_l, IH. by rewrite !Z.add_assoc. }
  assert (Hperm : forall (g : FunctionMetadata -> Z), fs ≡ₚ fs' ->
    foldr (fun f acc => g f + acc) 0 fs = foldr (fun f acc => g f + acc) 0 fs').
  { intros g Hp. induction Hp; simpl; lia. }
  intros Hp. unfold AggregateStatistics.
  change (mkFunctionStatistics 0 0 0) with (mkFunctionStatistics (i64 0) (i64 0) (i64 0)).
  rewrite !Hgen. simpl. split; [|done]. f_equal; do 2 f_equal; by apply Hperm.
Qed.

Lemma AggregateStatistics_sum_witness :
  let f := update_stats IncrementInflight (NewFunctionMetadata "f" "dp") in
  let g := NewFunctionMetadata "g" "dp" in
  AggregateStatistics [f; g] = AggregateStatistics [g; f] /\
  st_Inflight (AggregateStatistics [f; g]) = i64 1.
Proof. intros f g. apply (AggregateStatistics_sum [f; g] [g; f]). apply Permutation_swap. Defined.
