(* ===== verification/LoadBalancing.v ===== *)
(** * Load balancing

    [internal/data_plane/proxy/load_balancing]: the choice of an endpoint for a
    request, the concurrency throttler and, from [proxy/utils.go], the return
    of the capacity after the request. *)
From Stdlib Require Import ZArith Lia.
From stdpp Require Import base tactics list gmap strings sets numbers.
From S2P Require Import Prelude Sync Core FunctionMetadata.

Local Open Scope Z_scope.

Abbreviation FM := FunctionMetadata.

(** ** Policies *)

Definition LOAD_BALANCING_RANDOM : Z := 0.
Definition LOAD_BALANCING_ROUND_ROBIN : Z := 1.
Definition LOAD_BALANCING_LEAST_PROCESSED : Z := 2.
Definition LOAD_BALANCING_KNATIVE : Z := 3.

Definition tokens_of (m : FM) (p : nat) : Z := from_option ue_tokens 0 (ep_heap m !! p).

Definition randomEndpoint (r : Z) (endpoints : list nat) : outcome nat :=
  index ← Intn r (Z.of_nat (length endpoints)); go_index endpoints index.

Definition randomLoadBalancing (r : Z) : GoM FM nat := fun m =>
  p ← randomEndpoint r (fm_upstreamEndpoints m); Ok (p, m).

Definition roundRobinLoadBalancing : GoM FM nat := fun m =>
  idx ← GetRoundRobinCounter m;
  p ← go_index (fm_upstreamEndpoints m) idx;
  Ok (p, IncrementRoundRobinCounter m).

Fixpoint least_loop (counts : gmap nat Z) (l : list nat) (minEndpoint : nat) (minValue : Z) : nat :=
  match l with
  | [] => minEndpoint
  | e :: l' =>
      let c := AMC_Get counts e in
      if decide (c < minValue) then least_loop counts l' e c
      else least_loop counts l' minEndpoint minValue
  end.
Definition leastProcessedLoadBalancing : GoM FM nat := fun m =>
  p0 ← go_index (fm_upstreamEndpoints m) 0;
  Ok (least_loop (fm_RequestCountPerInstance m) (fm_upstreamEndpoints m) p0
        (AMC_Get (fm_RequestCountPerInstance m) p0), m).

Definition generateTwoUniformRandomEndpoints (d1 d2 : Z) (endpoints : list nat) : outcome (nat * nat) :=
  let size := Z.of_nat (length endpoints) in
  r1 ← Intn d1 size;
  r2 ← Intn d2 (size - 1);
  let r2 := if decide (r1 <= r2) then r2 + 1 else r2 in
  e1 ← go_index endpoints r1;
  e2 ← go_index endpoints r2;
  Ok (e1, e2).

Definition bestOfTwoRandoms (d1 d2 : Z) : GoM FM nat := fun m =>
  let endpoints := fm_upstreamEndpoints m in
  if decide (length endpoints = 1%nat) then p ← go_index endpoints 0; Ok (p, m)
  else
    ee ← generateTwoUniformRandomEndpoints d1 d2 endpoints;
    let '(e1, e2) := (ee : nat * nat) in
    Ok (if decide (GetLocalQueueLength m e2 < GetLocalQueueLength m e1) then e1 else e2, m).

Fixpoint first_available (m : FM) (l : list nat) : option nat :=
  match l with
  | [] => None
  | p :: l' => if decide (0 < tokens_of m p) then Some p else first_available m l'
  end.
Definition kubernetesFirstAvailableLoadBalancing (r : Z) : GoM FM nat := fun m =>
  match first_available m (fm_upstreamEndpoints m) with
  | Some p => Ok (p, m)
  | None => randomLoadBalancing r m
  end.

(** The [for] loop, with a bound on its iterations. *)
Fixpoint krr_loop (fuel : nat) (baseIdx : Z) (m : FM) : outcome FM :=
  match fuel with
  | O => Blocked
  | S fuel' =>
      i ← GetKubernetesRoundRobinCounter m;
      p ← go_index (fm_upstreamEndpoints m) i;
      if decide (tokens_of m p = 0) then
        let m' := IncrementKubernetesRoundRobinCounter m in
        i' ← GetKubernetesRoundRobinCounter m';
        if decide (i' = baseIdx) then Ok m' else krr_loop fuel' baseIdx m'
      else Ok m
  end.
Definition kubernetesRoundRobinLoadBalancing (fuel : nat) (r : Z) : GoM FM nat := fun m =>
  baseIdx ← GetKubernetesRoundRobinCounter m;
  m1 ← krr_loop fuel baseIdx m;
  idx ← GetKubernetesRoundRobinCounter m1;
  p ← go_index (fm_upstreamEndpoints m1) idx;
  if decide (0 < tokens_of m1 p) then Ok (p, IncrementKubernetesRoundRobinCounter m1)
  else randomLoadBalancing r m1.

Definition kubernetesNativeLoadBalancing (fuel : nat) (d1 d2 : Z) : GoM FM nat := fun m =>
  let containerConcurrency := fm_sandboxParallelism m in
  if decide (containerConcurrency = UnlimitedConcurrency) then bestOfTwoRandoms d1 d2 m
  else if decide (containerConcurrency <= 3) then kubernetesFirstAvailableLoadBalancing d1 m
  else kubernetesRoundRobinLoadBalancing fuel d1 m.

(** [d1], [d2]: the random draws of one call. *)
Definition runLoadBalancingAlgorithm (fuel : nat) (d1 d2 policy : Z) : GoM FM (option nat) := fun m =>
  if decide (length (fm_upstreamEndpoints m) = 0%nat) then Ok (None, m)
  else
    r ← (if decide (policy = LOAD_BALANCING_RANDOM) then randomLoadBalancing d1 m
         else if decide (policy = LOAD_BALANCING_ROUND_ROBIN) then roundRobinLoadBalancing m
         else if decide (policy = LOAD_BALANCING_LEAST_PROCESSED) then leastProcessedLoadBalancing m
         else if decide (policy = LOAD_BALANCING_KNATIVE) then kubernetesNativeLoadBalancing fuel d1 d2 m
         else randomLoadBalancing d1 m);
    let '(p, m') := (r : nat * FM) in Ok (Some p, m').

(** ** Capacity *)

Definition set_flow (tokens inflight : Z) (cb : option bool) (e : UpstreamEndpoint) : UpstreamEndpoint :=
  mkUpstreamEndpoint (ue_ID e) (ue_URL e) (ue_cap e) tokens (ue_Drained e) cb inflight.

Definition update_ep (p : nat) (e : UpstreamEndpoint) (m : FM) : FM :=
  set_endpoints m (<[p := e]> (ep_heap m)) (fm_upstreamEndpoints m) (fm_next m).

(** The [select]: [got] when the token is received before the timer fires. *)
Definition waitForCapacityOrDie (got : bool) (p : nat) (m : FM) : outcome (bool * FM) :=
  match ep_heap m !! p with
  | None => Panic
  | Some e =>
      if got then
        if decide (0 < ue_tokens e)
        then Ok (true, update_ep p (set_flow (ue_tokens e - 1) (ue_InFlight e) (ue_DrainingCallback e) e) m)
        else Blocked
      else Ok (false, m)
  end.

Definition loadBalancingRetries : nat := 60.

(** What the attempts of one call draw: the random numbers and whether the
    token arrives in time. *)
Record lb_env : Type := mkLbEnv {
  lb_fuel : nat;
  lb_d1 : nat -> Z;
  lb_d2 : nat -> Z;
  lb_got : nat -> bool;
}.

Fixpoint lb_attempts (env : lb_env) (policy : Z) (n i : nat) (m : FM) : outcome (option nat * FM) :=
  match n with
  | O => Ok (None, m)
  | S n' =>
      r ← runLoadBalancingAlgorithm (lb_fuel env) (lb_d1 env i) (lb_d2 env i) policy m;
      let '(endpoint, m1) := (r : option nat * FM) in
      p ← deref endpoint;          (* [endpoint.Capacity] *)
      w ← waitForCapacityOrDie (lb_got env i) p m1;
      let '(gotCapacity, m2) := (w : bool * FM) in
      if gotCapacity then Ok (Some p, m2) else lb_attempts env policy n' (S i) m2
  end.

(** The end of [DoLoadBalancing], once a token of the endpoint was received. *)
Definition DoLoadBalancing_admit (p : nat) (m : FM) : outcome FM :=
  match ep_heap m !! p with
  | None => Panic
  | Some e =>
      let m2 := update_ep p (set_flow (ue_tokens e) (i32 (ue_InFlight e + 1)) (ue_DrainingCallback e) e) m in
      Ok (IncrementRequestCountPerInstance p m2)
  end.

Definition DoLoadBalancing (env : lb_env) (policy : Z) : GoM FM (option nat) := fun m =>
  let m := update_stats IncrementQueueDepth m in
  r ← lb_attempts env policy loadBalancingRetries 0 m;
  let '(endpoint, m1) := (r : option nat * FM) in
  let m1 := update_stats DecrementQueueDepth m1 in
  match endpoint with
  | None => Ok (None, m1)
  | Some p => m2 ← DoLoadBalancing_admit p m1; Ok (Some p, m2)
  end.

(** [giveBackCCCapacity]: a send on a nil or full callback channel, or on a
    full throttler, blocks. *)
Definition giveBackCCCapacity (p : nat) (m : FM) : outcome FM :=
  match ep_heap m !! p with
  | None => Panic
  | Some e =>
      let inflight := i32 (ue_InFlight e - 1) in
      cb ← (if decide (ue_Drained e ≠ 0 /\ inflight = 0) then
              match ue_DrainingCallback e with
              | Some false => Ok (Some true)
              | _ => Blocked
              end
            else Ok (ue_DrainingCallback e));
      if decide (ue_tokens e < ue_cap e)
      then Ok (update_ep p (set_flow (ue_tokens e + 1) inflight cb e) m)
      else Blocked
  end.

(** ** Choosing an endpoint *)

Lemma least_loop_min counts l p0 v0 :
  v0 = AMC_Get counts p0 ->
  let p := least_loop counts l p0 v0 in
  (p = p0 \/ p ∈ l) /\ AMC_Get counts p <= v0 /\ (forall q, q ∈ l -> AMC_Get counts p <= AMC_Get counts q).
Proof.
  revert p0 v0. induction l as [|e l IH]; intros p0 v0 Hv; simpl.
  { split_and!; [by left|lia|by intros q Hq%elem_of_nil]. }
  case_decide as Hlt.
  - destruct (IH e (AMC_Get counts e) eq_refl) as (H1&H2&H3). split_and!.
    + right. destruct H1 as [->|]; [by left|by right].
    + lia.
    + intros q [->|Hq]%elem_of_cons; [lia|by apply H3].
  - destruct (IH p0 v0 Hv) as (H1&H2&H3). split_and!.
    + destruct H1; [by left|right; by right].
    + done.
    + intros q [->|Hq]%elem_of_cons; [lia|by apply H3].
Qed.

(** The least-processed policy always answers on a non-empty list and picks
    an endpoint of the function that has served no more requests than any
    other. *)
Theorem leastProcessed_minimal m :
  fm_upstreamEndpoints m ≠ [] ->
  exists p, leastProcessedLoadBalancing m = Ok (p, m) /\ p ∈ fm_upstreamEndpoints m /\
    forall q, q ∈ fm_upstreamEndpoints m -> GetLocalQueueLength m p <= GetLocalQueueLength m q.
Proof.
  intros Hne. unfold leastProcessedLoadBalancing.
  destruct (fm_upstreamEndpoints m) as [|p0 l] eqn:E; [done|]. cbn [go_index deref mbind outcome_bind].
  destruct (least_loop_min (fm_RequestCountPerInstance m) (p0 :: l) p0 _ eq_refl) as (H1&_&H3).
  eexists. split; [done|]. split; [|done].
  destruct H1 as [->|]; [by left|done].
Qed.

Definition example_two : FM :=
  match AddEndpoints example_endpoints (NewFunctionMetadata "f" "dp") with
  | Ok m => IncrementRequestCountPerInstance 0 m
  | _ => NewFunctionMetadata "f" "dp"
  end.

Lemma leastProcessed_minimal_witness :
  exists p, leastProcessedLoadBalancing example_two = Ok (p, example_two) /\ p ∈ [0; 1]%nat /\
    forall q, q ∈ [0; 1]%nat -> GetLocalQueueLength example_two p <= GetLocalQueueLength example_two q.
Proof. apply (leastProcessed_minimal example_two). discriminate. Defined.

Lemma generateTwo_distinct d1 d2 l :
  (2 <= length l)%nat ->
  exists i j e1 e2, i ≠ j /\ l !! i = Some e1 /\ l !! j = Some e2 /\
    generateTwoUniformRandomEndpoints d1 d2 l = Ok (e1, e2).
Proof.
  intros Hl. unfold generateTwoUniformRandomEndpoints.
  destruct (Intn_total d1 (Z.of_nat (length l))) as (r1&->&H1); [lia|]. cbn [mbind outcome_bind].
  destruct (Intn_total d2 (Z.of_nat (length l) - 1)) as (r2&->&H2); [lia|]. cbn [mbind outcome_bind].
  set (r2' := if decide (r1 <= r2) then r2 + 1 else r2).
  assert (Hr : 0 <= r2' < Z.of_nat (length l) /\ r2' ≠ r1) by (unfold r2'; case_decide; lia).
  destruct (lookup_lt_is_Some_2 l (Z.to_nat r1)) as [e1 He1]; [lia|].
  destruct (lookup_lt_is_Some_2 l (Z.to_nat r2')) as [e2 He2]; [lia|].
  exists (Z.to_nat r1), (Z.to_nat r2'), e1, e2. split_and!; [lia|done|done|].
  pose proof (go_index_lookup _ _ _ He1) as G1. pose proof (go_index_lookup _ _ _ He2) as G2.
  rewrite Z2Nat.id in G1, G2 by lia. by rewrite G1, G2.
Qed.

(** With unlimited concurrency and at least two endpoints the policy draws
    two distinct endpoints without ever leaving the list, and then takes the
    busier of the two: the comparison of the queue lengths is the wrong way
    round for a least-loaded choice. *)
Theorem bestOfTwoRandoms_takes_busier d1 d2 m :
  (2 <= length (fm_upstreamEndpoints m))%nat ->
  exists i j e1 e2 p, i ≠ j /\ fm_upstreamEndpoints m !! i = Some e1 /\
    fm_upstreamEndpoints m !! j = Some e2 /\ bestOfTwoRandoms d1 d2 m = Ok (p, m) /\
    (p = e1 \/ p = e2) /\
    GetLocalQueueLength m e1 <= GetLocalQueueLength m p /\
    GetLocalQueueLength m e2 <= GetLocalQueueLength m p.
Proof.
  intros Hl. destruct (generateTwo_distinct d1 d2 _ Hl) as (i&j&e1&e2&Hij&H1&H2&Hg).
  unfold bestOfTwoRandoms. rewrite decide_False by lia. rewrite Hg. cbn [mbind outcome_bind].
  exists i, j, e1, e2. eexists. split_and!; [done..| | |]; case_decide; auto; lia.
Qed.

Lemma bestOfTwoRandoms_takes_busier_witness :
  exists i j e1 e2 p, i ≠ j /\ fm_upstreamEndpoints example_two !! i = Some e1 /\
    fm_upstreamEndpoints example_two !! j = Some e2 /\
    bestOfTwoRandoms 0 0 example_two = Ok (p, example_two) /\
    (p = e1 \/ p = e2) /\
    GetLocalQueueLength example_two e1 <= GetLocalQueueLength example_two p /\
    GetLocalQueueLength example_two e2 <= GetLocalQueueLength example_two p.
Proof. apply (bestOfTwoRandoms_takes_busier 0 0 example_two). vm_compute. lia. Defined.

(** ** Round robin over endpoints with free capacity *)

Lemma mod_len_ok counter l :
  (0 < length l)%nat -> Z.of_nat (length l) < 2 ^ 32 ->
  mod_len counter l = Ok (counter mod Z.of_nat (length l)).
Proof.
  intros H1 H2. unfold mod_len. rewrite u32_id by (unfold is_u32; lia). by rewrite decide_False by lia.
Qed.

Lemma go_index_mod {A} (l : list A) c :
  (0 < length l)%nat ->
  exists x, go_index l (c mod Z.of_nat (length l)) = Ok x /\
            l !! Z.to_nat (c mod Z.of_nat (length l)) = Some x.
Proof.
  intros Hl. pose proof (Z.mod_pos_bound c (Z.of_nat (length l)) ltac:(lia)) as Hb.
  destruct (lookup_lt_is_Some_2 l (Z.to_nat (c mod Z.of_nat (length l)))) as [x Hx]; [lia|].
  exists x. split; [|done]. pose proof (go_index_lookup _ _ _ Hx) as G. by rewrite Z2Nat.id in G by lia.
Qed.

Section krr.
Context (m : FM).
Let l := fm_upstreamEndpoints m.
Let n := Z.of_nat (length l).
Let c := fm_KubernetesRoundRobinCounter m.
Context (Hl : (0 < length l)%nat) (Hc : 0 <= c) (Hwrap : c + n < 2 ^ 32).

(** The state after [k] increments of the counter. *)
Let at_ k := set_counters m (fm_RoundRobinCounter m) (c + k) (fm_RequestCountPerInstance m).

Lemma krr_counter k : 0 <= k -> GetKubernetesRoundRobinCounter (at_ k) = Ok ((c + k) mod n).
Proof.
  intros Hk. unfold GetKubernetesRoundRobinCounter. simpl. fold l. apply mod_len_ok; [done|].
  fold n. lia.
Qed.

Lemma krr_increment k : 0 <= k < n -> IncrementKubernetesRoundRobinCounter (at_ k) = at_ (k + 1).
Proof.
  intros Hk. unfold IncrementKubernetesRoundRobinCounter, at_, set_counters. simpl.
  rewrite u32_id by (unfold is_u32; lia). by rewrite Z.add_assoc.
Qed.

(** From [k] on: the loop stops at the first endpoint with capacity, or once
    around. *)
Lemma krr_loop_run fuel k :
  0 <= k < n -> n - k <= Z.of_nat fuel ->
  exists k', k <= k' <= n /\ krr_loop fuel (c mod n) (at_ k) = Ok (at_ k') /\
    (forall i p, k <= i < k' -> l !! Z.to_nat ((c + i) mod n) = Some p -> tokens_of m p = 0) /\
    (k' < n -> exists p, l !! Z.to_nat ((c + k') mod n) = Some p /\ tokens_of m p ≠ 0).
Proof.
  revert k. induction fuel as [|fuel IH]; intros k Hk Hf; [lia|].
  cbn [krr_loop]. rewrite krr_counter by lia. cbn [mbind outcome_bind].
  destruct (go_index_mod l (c + k) Hl) as (p&Hp&Hlp). fold n in Hp, Hlp.
  change (fm_upstreamEndpoints (at_ k)) with l. rewrite Hp. cbn [mbind outcome_bind].
  change (tokens_of (at_ k) p) with (tokens_of m p).
  destruct (decide (tokens_of m p = 0)) as [Ht|Ht].
  2:{ exists k. split_and!; [lia|lia|done| |eauto]. intros; lia. }
  rewrite krr_increment by lia. rewrite krr_counter by lia. cbn [mbind outcome_bind].
  assert (Hstep : forall i q, k <= i < k + 1 -> l !! Z.to_nat ((c + i) mod n) = Some q -> tokens_of m q = 0).
  { intros i q Hi Hq. replace i with k in Hq by lia. by simplify_eq. }
  destruct (decide (k + 1 = n)) as [Hn|Hn].
  - assert (Hmod : (c + (k + 1)) mod n = c mod n).
    { rewrite Hn. replace (c + n) with (c + 1 * n) by lia. apply Z_mod_plus_full. }
    rewrite decide_True by done. exists (k + 1). split_and!; [lia|lia|done|done|lia].
  - assert (Hmod : (c + (k + 1)) mod n ≠ c mod n).
    { intros Heq. pose proof (Z.div_mod (c + (k + 1)) n ltac:(lia)).
      pose proof (Z.div_mod c n ltac:(lia)).
      assert (k + 1 = n * ((c + (k + 1)) / n - c / n)) by lia.
      destruct (decide ((c + (k + 1)) / n - c / n <= 0)); nia. }
    rewrite decide_False by done.
    destruct (IH (k + 1)) as (k'&B&R&Z1&Z2); [lia|lia|].
    exists k'. split_and!; [lia|lia|done| |done].
    intros i q Hi Hq. destruct (decide (i < k + 1)); [apply (Hstep i q); [lia|done]|apply (Z1 i q); [lia|done]].
Qed.
End krr.

Definition has_capacity (m : FM) (p : nat) : Prop := 0 < tokens_of m p.
Definition tokens_nonneg (m : FM) : Prop := forall p, p ∈ fm_upstreamEndpoints m -> 0 <= tokens_of m p.

Lemma first_available_some m l q :
  q ∈ l -> has_capacity m q -> exists p, first_available m l = Some p /\ p ∈ l /\ has_capacity m p.
Proof.
  intros Hq Hcap. induction l as [|p l IH]; [by apply elem_of_nil in Hq|].
  simpl. case_decide as Hp; [exists p; split_and!; [done|by left|done]|].
  apply elem_of_cons in Hq as [->|Hq]; [done|]. destruct (IH Hq) as (p'&H1&H2&H3).
  exists p'. split_and!; [done|by right|done].
Qed.

(** A full turn of the counter reaches every index. *)
Lemma mod_reaches c i n : 0 <= i < n -> exists t, 0 <= t < n /\ (c + t) mod n = i.
Proof.
  intros Hi. exists ((i - c) mod n). split; [apply Z.mod_pos_bound; lia|].
  rewrite Zplus_mod_idemp_r. replace (c + (i - c)) with i by lia. by apply Z.mod_small.
Qed.

Lemma knative_chooses fuel d1 d2 m q :
  0 < fm_sandboxParallelism m -> tokens_nonneg m ->
  q ∈ fm_upstreamEndpoints m -> has_capacity m q ->
  (length (fm_upstreamEndpoints m) <= fuel)%nat ->
  0 <= fm_KubernetesRoundRobinCounter m ->
  fm_KubernetesRoundRobinCounter m + Z.of_nat (length (fm_upstreamEndpoints m)) < 2 ^ 32 ->
  exists p m', kubernetesNativeLoadBalancing fuel d1 d2 m = Ok (p, m') /\
    p ∈ fm_upstreamEndpoints m /\ has_capacity m p.
Proof.
  intros Hpar Hnn Hq Hcap Hf Hc Hw. unfold kubernetesNativeLoadBalancing.
  rewrite decide_False by (unfold UnlimitedConcurrency; lia). case_decide as Hsmall.
  - unfold kubernetesFirstAvailableLoadBalancing.
    destruct (first_available_some m _ q Hq Hcap) as (p&Hp&Hin&Hpc). rewrite Hp. eauto.
  - set (l := fm_upstreamEndpoints m) in *. set (c := fm_KubernetesRoundRobinCounter m) in *.
    set (n := Z.of_nat (length l)) in *.
    assert (Hl : (0 < length l)%nat) by (destruct l; [by apply elem_of_nil in Hq|simpl; lia]).
    unfold kubernetesRoundRobinLoadBalancing.
    pose proof (krr_loop_run m Hl Hc Hw fuel 0) as Hkrr. fold l c in Hkrr. fold n in Hkrr.
    destruct Hkrr as (k&Hk&Hrun&Hzero&Hstop); [lia|lia|].
    assert (Hm : set_counters m (fm_RoundRobinCounter m) (c + 0) (fm_RequestCountPerInstance m) = m)
      by (rewrite Z.add_0_r; by destruct m).
    rewrite Hm in Hrun.
    assert (G0 : GetKubernetesRoundRobinCounter m = Ok (c mod n)) by (apply mod_len_ok; fold l n; lia).
    rewrite G0. cbn [mbind outcome_bind]. rewrite Hrun. cbn [mbind outcome_bind].
    set (mk := set_counters m _ _ _).
    assert (G1 : GetKubernetesRoundRobinCounter mk = Ok ((c + k) mod n)) by (apply mod_len_ok; simpl; fold l n; lia).
    rewrite G1. cbn [mbind outcome_bind]. change (fm_upstreamEndpoints mk) with l.
    (* an endpoint with capacity was met before a full turn *)
    assert (Hkn : k < n).
    { destruct (decide (k < n)); [done|]. exfalso.
      apply list_elem_of_lookup in Hq as [i Hi]. pose proof (lookup_lt_Some _ _ _ Hi) as Hil.
      destruct (mod_reaches c (Z.of_nat i) n) as (t&Htb&Hmod); [lia|].
      specialize (Hzero t q ltac:(lia)). rewrite Hmod, Nat2Z.id in Hzero.
      specialize (Hzero Hi). unfold has_capacity in Hcap. lia. }
    destruct (Hstop Hkn) as (p&Hp&Hpt).
    pose proof (Z.mod_pos_bound (c + k) n ltac:(lia)).
    pose proof (go_index_lookup _ _ _ Hp) as G. rewrite Z2Nat.id in G by lia. rewrite G.
    cbn [mbind outcome_bind].
    assert (Hin : p ∈ l) by (by eapply list_elem_of_lookup_2).
    assert (Hpc : 0 < tokens_of m p) by (specialize (Hnn p Hin); lia).
    change (tokens_of mk p) with (tokens_of m p). rewrite decide_True by exact Hpc. eauto.
Qed.

(** Every policy returns an endpoint when all of them have a free slot. *)
Record balancer_ok (fuel : nat) (m : FM) : Prop := {
  bo_some : fm_upstreamEndpoints m ≠ [];
  bo_parallelism : 0 <= fm_sandboxParallelism m;
  bo_fuel : (length (fm_upstreamEndpoints m) <= fuel)%nat;
  bo_counter : 0 <= fm_KubernetesRoundRobinCounter m /\
    fm_KubernetesRoundRobinCounter m + Z.of_nat (length (fm_upstreamEndpoints m)) < 2 ^ 32;
}.

Lemma randomLoadBalancing_total d m :
  fm_upstreamEndpoints m ≠ [] -> exists p, randomLoadBalancing d m = Ok (p, m).
Proof.
  intros Hne. unfold randomLoadBalancing, randomEndpoint.
  assert (Hl : (0 < length (fm_upstreamEndpoints m))%nat) by (destruct (fm_upstreamEndpoints m); [done|cbn; lia]).
  destruct (Intn_total d (Z.of_nat (length (fm_upstreamEndpoints m)))) as (i&->&Hb); [lia|]. cbn [mbind outcome_bind].
  destruct (lookup_lt_is_Some_2 (fm_upstreamEndpoints m) (Z.to_nat i)) as [p Hp]; [lia|].
  pose proof (go_index_lookup _ _ _ Hp) as Hg. rewrite Z2Nat.id in Hg by lia. rewrite Hg. by exists p.
Qed.

Lemma runLoadBalancing_total fuel d1 d2 policy m :
  balancer_ok fuel m -> (forall p, p ∈ fm_upstreamEndpoints m -> has_capacity m p) ->
  exists p m', runLoadBalancingAlgorithm fuel d1 d2 policy m = Ok (Some p, m').
Proof.
  intros [Hne Hpar Hf [Hc Hw]] Hcap. unfold runLoadBalancingAlgorithm.
  assert (Hl : (0 < length (fm_upstreamEndpoints m))%nat) by (destruct (fm_upstreamEndpoints m); [done|cbn; lia]).
  rewrite decide_False by lia.
  destruct (lookup_lt_is_Some_2 (fm_upstreamEndpoints m) 0 Hl) as [q Hq].
  pose proof (go_index_lookup _ _ _ Hq) as Hq0. change (Z.of_nat 0) with 0 in Hq0.
  destruct (randomLoadBalancing_total d1 m Hne) as [pr Hrand].
  repeat case_decide.
  - rewrite Hrand. by eexists _, _.
  - unfold roundRobinLoadBalancing, GetRoundRobinCounter. rewrite mod_len_ok by lia. cbn [mbind outcome_bind].
    destruct (go_index_mod (fm_upstreamEndpoints m) (fm_RoundRobinCounter m) Hl) as (x&->&_). by eexists _, _.
  - unfold leastProcessedLoadBalancing. rewrite Hq0. by eexists _, _.
  - destruct (decide (fm_sandboxParallelism m = UnlimitedConcurrency)) as [Hu|Hu].
    + unfold kubernetesNativeLoadBalancing. rewrite decide_True by done. unfold bestOfTwoRandoms. case_decide.
      * rewrite Hq0. by eexists _, _.
      * destruct (generateTwo_distinct d1 d2 (fm_upstreamEndpoints m)) as (i&j&e1&e2&_&_&_&->); [lia|].
        by eexists _, _.
    + pose proof (list_elem_of_lookup_2 _ _ _ Hq) as Hqin.
      destruct (knative_chooses fuel d1 d2 m q) as (p&m'&->&_); try done.
      * unfold UnlimitedConcurrency in Hu. lia.
      * intros p Hp. specialize (Hcap p Hp). unfold has_capacity in Hcap. lia.
      * by apply Hcap.
      * by eexists _, _.
  - rewrite Hrand. by eexists _, _.
Qed.

(** C32: For bounded concurrency both Knative policies find free capacity
    whenever there is some: if an endpoint has a free slot then the endpoint
    chosen has one, for every random draw.  The scan of the round-robin
    variant terminates within one turn of the endpoints. *)
Theorem knative_finds_capacity fuel d1 d2 m q :
  0 < fm_sandboxParallelism m -> tokens_nonneg m ->
  q ∈ fm_upstreamEndpoints m -> has_capacity m q ->
  (length (fm_upstreamEndpoints m) <= fuel)%nat ->
  0 <= fm_KubernetesRoundRobinCounter m ->
  fm_KubernetesRoundRobinCounter m + Z.of_nat (length (fm_upstreamEndpoints m)) < 2 ^ 32 ->
  exists p m', kubernetesNativeLoadBalancing fuel d1 d2 m = Ok (p, m') /\
    p ∈ fm_upstreamEndpoints m /\ has_capacity m p.
Proof. exact (knative_chooses fuel d1 d2 m q). Qed.

Lemma knative_finds_capacity_witness :
  exists p m', kubernetesNativeLoadBalancing 4 0 0 example_two = Ok (p, m') /\
    p ∈ fm_upstreamEndpoints example_two /\ has_capacity example_two p.
Proof.
  apply (knative_finds_capacity 4 0 0 example_two 1).
  - reflexivity.
  - intros p Hp. change (p ∈ [0; 1]%nat) in Hp.
    apply elem_of_cons in Hp as [->|Hp]; [vm_compute; discriminate|].
    apply list_elem_of_singleton in Hp as ->. vm_compute; discriminate.
  - right. left.
  - reflexivity.
  - vm_compute. lia.
  - vm_compute. discriminate.
  - reflexivity.
Defined.

(** Load balancing dereferences a nil endpoint when the function has none:
    a request that passed the warm-start check just before the last endpoint
    was drained panics instead of being answered with "gone". *)
Theorem DoLoadBalancing_no_endpoint_panics env policy m :
  fm_upstreamEndpoints m = [] -> DoLoadBalancing env policy m = Panic.
Proof.
  intros Hm. unfold DoLoadBalancing, loadBalancingRetries, lb_attempts, runLoadBalancingAlgorithm.
  change (fm_upstreamEndpoints (update_stats IncrementQueueDepth m)) with (fm_upstreamEndpoints m).
  rewrite Hm. done.
Qed.

Lemma DoLoadBalancing_no_endpoint_panics_witness :
  DoLoadBalancing (mkLbEnv 1 (fun _ => 0) (fun _ => 0) (fun _ => true)) LOAD_BALANCING_RANDOM
    (NewFunctionMetadata "f" "dp") = Panic.
Proof. apply DoLoadBalancing_no_endpoint_panics. reflexivity. Defined.

(** ** The concurrency limit

    Requests in flight hold an endpoint.  The events of a function: endpoints
    are added, drained or dropped, a request is given an endpoint, a request
    completes. *)

Record flow : Type := mkFlow { fl_m : FM; fl_held : list nat }.

Inductive flow_event : Type :=
| FlAdd (eps : list EndpointInfo)
| FlDrain (eps : list EndpointInfo)
| FlRemoveAll
| FlAcquire (env : lb_env) (policy : Z)
| FlRelease (i : nat).

Definition flow_step (e : flow_event) (s : flow) : outcome flow :=
  match e with
  | FlAdd eps => m ← AddEndpoints eps (fl_m s); Ok (mkFlow m (fl_held s))
  | FlDrain eps => Ok (mkFlow (DrainEndpoints_mark eps (fl_m s)).2 (fl_held s))
  | FlRemoveAll => Ok (mkFlow (RemoveAllEndpoints (fl_m s)) (fl_held s))
  | FlAcquire env policy =>
      r ← DoLoadBalancing env policy (fl_m s);
      let '(endpoint, m) := (r : option nat * FM) in
      Ok (mkFlow m (match endpoint with Some p => p :: fl_held s | None => fl_held s end))
  | FlRelease i =>
      match fl_held s !! i with
      | Some p => m ← giveBackCCCapacity p (fl_m s); Ok (mkFlow m (delete i (fl_held s)))
      | None => Blocked
      end
  end.

Inductive flow_run : flow -> flow -> Prop :=
| flow_nil s : flow_run s s
| flow_cons s1 s2 s3 e : flow_run s1 s2 -> flow_step e s2 = Ok s3 -> flow_run s1 s3.

Definition held (p : nat) (l : list nat) : Z := Z.of_nat (length (filter (fun q => q = p) l)).

Definition ep_ok (par : Z) (l : list nat) (p : nat) (e : UpstreamEndpoint) : Prop :=
  ue_cap e = par /\ ue_InFlight e = held p l /\ ue_tokens e + ue_InFlight e = par /\ 0 <= ue_tokens e.

Record flow_ok (par : Z) (s : flow) : Prop := {
  fo_par : fm_sandboxParallelism (fl_m s) = par;
  fo_eps : forall p e, ep_heap (fl_m s) !! p = Some e ->
    (p < fm_next (fl_m s))%nat /\ ep_ok par (fl_held s) p e;
  fo_held : forall p, p ∈ fl_held s -> is_Some (ep_heap (fl_m s) !! p);
}.

Lemma held_cons p q l : held p (q :: l) = held p l + (if decide (q = p) then 1 else 0).
Proof. unfold held. rewrite filter_cons. repeat case_decide; simpl; try done; lia. Qed.
Lemma held_delete p q l i :
  l !! i = Some q -> held p l = held p (delete i l) + (if decide (q = p) then 1 else 0).
Proof.
  revert i. induction l as [|x l IH]; intros [|i] Hi; simpl in *; try done.
  - simplify_eq. apply held_cons.
  - rewrite !held_cons, (IH i Hi). lia.
Qed.
Lemma held_zero p l : p ∉ l -> held p l = 0.
Proof.
  induction l as [|x l IH]; intros Hp; [done|]. rewrite held_cons, IH by set_solver.
  rewrite decide_False by set_solver. lia.
Qed.

(** Every operation of the load balancer leaves the heap of endpoints alone
    until a token is received. *)
Definition same_eps (m m' : FM) : Prop :=
  ep_heap m' = ep_heap m /\ fm_next m' = fm_next m /\ fm_sandboxParallelism m' = fm_sandboxParallelism m /\
  fm_inflightRequests m' = fm_inflightRequests m /\ fm_statistics m' = fm_statistics m.

Lemma krr_loop_same fuel b m m' : krr_loop fuel b m = Ok m' -> same_eps m m'.
Proof.
  revert m. induction fuel as [|fuel IH]; intros m; [done|]. cbn [krr_loop].
  destruct (GetKubernetesRoundRobinCounter m); cbn; try done.
  destruct (go_index _ _); cbn; try done. case_decide; [|by intros [= <-]].
  destruct (GetKubernetesRoundRobinCounter _); cbn; try done. case_decide.
  - by intros [= <-].
  - intros Hrec%IH. exact Hrec.
Qed.

Lemma randomLoadBalancing_same r m p m' : randomLoadBalancing r m = Ok (p, m') -> m' = m.
Proof. unfold randomLoadBalancing. destruct (randomEndpoint _ _); cbn; try done. by intros [= _ <-]. Qed.

Lemma kubernetes_same fuel d1 d2 m p m' :
  kubernetesNativeLoadBalancing fuel d1 d2 m = Ok (p, m') -> same_eps m m'.
Proof.
  unfold kubernetesNativeLoadBalancing, bestOfTwoRandoms, kubernetesFirstAvailableLoadBalancing,
    kubernetesRoundRobinLoadBalancing.
  case_decide; [|case_decide].
  - case_decide.
    + destruct (go_index _ _); cbn; try done. by intros [= _ <-].
    + destruct (generateTwoUniformRandomEndpoints _ _ _) as [[]| | |]; cbn; try done. by intros [= _ <-].
  - destruct (first_available _ _); [by intros [= _ <-]|]. by intros ->%randomLoadBalancing_same.
  - destruct (GetKubernetesRoundRobinCounter m); cbn; try done.
    destruct (krr_loop _ _ _) as [m1| | |] eqn:E; cbn; try done. apply krr_loop_same in E.
    destruct (GetKubernetesRoundRobinCounter m1); cbn; try done.
    destruct (go_index _ _); cbn; try done. case_decide.
    + intros [= _ <-]. exact E.
    + by intros ->%randomLoadBalancing_same.
Qed.

Lemma runLoadBalancing_same fuel d1 d2 policy m r m' :
  runLoadBalancingAlgorithm fuel d1 d2 policy m = Ok (r, m') -> same_eps m m'.
Proof.
  unfold runLoadBalancingAlgorithm. case_decide; [by intros [= _ <-]|].
  match goal with |- context [mbind _ ?x] => destruct x as [[p m1]| | |] eqn:E end; cbn; try done.
  intros [= _ <-]. revert E. repeat case_decide.
  - by intros ->%randomLoadBalancing_same.
  - unfold roundRobinLoadBalancing. destruct (GetRoundRobinCounter m); cbn; try done.
    destruct (go_index _ _); cbn; try done. by intros [= _ <-].
  - unfold leastProcessedLoadBalancing. destruct (go_index _ _); cbn; try done. by intros [= _ <-].
  - apply kubernetes_same.
  - by intros ->%randomLoadBalancing_same.
Qed.

(** Getting an endpoint takes one token of it. *)
Lemma lb_attempts_run env policy n i m r m' :
  lb_attempts env policy n i m = Ok (r, m') ->
  fm_next m' = fm_next m /\ fm_sandboxParallelism m' = fm_sandboxParallelism m /\
  fm_inflightRequests m' = fm_inflightRequests m /\ fm_statistics m' = fm_statistics m /\
  match r with
  | None => ep_heap m' = ep_heap m
  | Some p => exists e, ep_heap m !! p = Some e /\ 0 < ue_tokens e /\
      ep_heap m' = <[p := set_flow (ue_tokens e - 1) (ue_InFlight e) (ue_DrainingCallback e) e]> (ep_heap m)
  end.
Proof.
  revert i m. induction n as [|n IH]; intros i m; cbn [lb_attempts]; [by intros [= <- <-]|].
  destruct (runLoadBalancingAlgorithm _ _ _ _ _) as [[ep m1]| | |] eqn:E; cbn; try done.
  apply runLoadBalancing_same in E as (E1&E2&E3&E4&E5).
  destruct ep as [p|]; cbn; [|done].
  unfold waitForCapacityOrDie. destruct (ep_heap m1 !! p) as [e|] eqn:Hp; cbn; [|done].
  destruct (lb_got env i).
  - case_decide; cbn; [|done]. intros [= <- <-]. simpl. split_and!; [done..|].
    rewrite E1 in *. eauto.
  - cbn. intros (H1&H2&H4&H5&H3)%IH. rewrite H1, H2, H4, H5, E2, E3, E4, E5. split_and!; [done..|].
    destruct r; [|congruence]. by rewrite E1 in H3.
Qed.

(** The queue of waiting requests is not touched. *)
Lemma krr_loop_queue fuel b m m' : krr_loop fuel b m = Ok m' -> fm_queue m' = fm_queue m.
Proof.
  revert m. induction fuel as [|fuel IH]; intros m; [done|]. cbn [krr_loop].
  destruct (GetKubernetesRoundRobinCounter m); cbn; try done.
  destruct (go_index _ _); cbn; try done. case_decide; [|by intros [= <-]].
  destruct (GetKubernetesRoundRobinCounter _); cbn; try done. case_decide; [by intros [= <-]|].
  by intros ->%IH.
Qed.
Lemma runLoadBalancing_queue fuel d1 d2 policy m r m' :
  runLoadBalancingAlgorithm fuel d1 d2 policy m = Ok (r, m') -> fm_queue m' = fm_queue m.
Proof.
  unfold runLoadBalancingAlgorithm. case_decide; [by intros [= _ <-]|].
  match goal with |- context [mbind _ ?x] => destruct x as [[p m1]| | |] eqn:E end; cbn; try done.
  intros [= _ <-]. revert E. repeat case_decide.
  - by intros ->%randomLoadBalancing_same.
  - unfold roundRobinLoadBalancing. destruct (GetRoundRobinCounter m); cbn; try done.
    destruct (go_index _ _); cbn; try done. by intros [= _ <-].
  - unfold leastProcessedLoadBalancing. destruct (go_index _ _); cbn; try done. by intros [= _ <-].
  - unfold kubernetesNativeLoadBalancing, bestOfTwoRandoms, kubernetesFirstAvailableLoadBalancing,
      kubernetesRoundRobinLoadBalancing. repeat case_decide.
    + destruct (go_index _ _); cbn; try done. by intros [= _ <-].
    + destruct (generateTwoUniformRandomEndpoints _ _ _) as [[]| | |]; cbn; try done. by intros [= _ <-].
    + destruct (first_available _ _); [by intros [= _ <-]|]. by intros ->%randomLoadBalancing_same.
    + destruct (GetKubernetesRoundRobinCounter m); cbn; try done.
      destruct (krr_loop _ _ _) as [m2| | |] eqn:E; cbn; try done. apply krr_loop_queue in E.
      destruct (GetKubernetesRoundRobinCounter m2); cbn; try done.
      destruct (go_index _ _); cbn; try done.
      case_decide; [by intros [= _ <-]|by intros ->%randomLoadBalancing_same].
  - by intros ->%randomLoadBalancing_same.
Qed.
Lemma lb_attempts_queue env policy n i m r m' :
  lb_attempts env policy n i m = Ok (r, m') -> fm_queue m' = fm_queue m.
Proof.
  revert i m. induction n as [|n IH]; intros i m; cbn [lb_attempts]; [by intros [= _ <-]|].
  destruct (runLoadBalancingAlgorithm _ _ _ _ _) as [[ep m1]| | |] eqn:E; cbn; try done.
  apply runLoadBalancing_queue in E. destruct ep as [p|]; cbn; [|done].
  unfold waitForCapacityOrDie. destruct (ep_heap m1 !! p) as [e|]; cbn; [|done].
  destruct (lb_got env i); cbn; [|intros ->%IH; done]. case_decide; cbn; [|done]. by intros [= _ <-].
Qed.

(** What load balancing does to the endpoints: the one it returns has one token
    less and one request more. *)
Lemma DoLoadBalancing_effect env policy m r m' :
  DoLoadBalancing env policy m = Ok (r, m') ->
  fm_queue m' = fm_queue m /\
  match r with
  | None => ep_heap m' = ep_heap m
  | Some p => exists e, ep_heap m !! p = Some e /\ 0 < ue_tokens e /\
      ep_heap m' = <[p := set_flow (ue_tokens e - 1) (i32 (ue_InFlight e + 1)) (ue_DrainingCallback e) e]> (ep_heap m)
  end.
Proof.
  unfold DoLoadBalancing. intros H. apply outcome_bind_Ok in H as ([q m1]&Hlb&H). 
  pose proof (lb_attempts_queue _ _ _ _ _ _ _ Hlb) as Hq. apply lb_attempts_run in Hlb as (_&_&_&_&Hheap).
  destruct q as [p|]; [|injection H as <- <-; done].
  apply outcome_bind_Ok in H as (m2&Ha&[= <- <-]). destruct Hheap as (e&He&Ht&Hh).
  unfold DoLoadBalancing_admit in Ha. cbn [ep_heap update_stats] in Ha. cbn in Ha, Hh, Hq, He. rewrite Hh, lookup_insert_eq in Ha.
  injection Ha as <-. cbn. split; [done|]. exists e. split_and!; [done..|].
  by rewrite Hh, insert_insert_eq.
Qed.

(** Giving back undoes it. *)
Lemma giveBackCCCapacity_effect p m m' e h :
  giveBackCCCapacity p m = Ok m' -> is_i32 (ue_InFlight e) ->
  ep_heap m = <[p := set_flow (ue_tokens e - 1) (i32 (ue_InFlight e + 1)) (ue_DrainingCallback e) e]> h ->
  fm_queue m' = fm_queue m /\
  exists cb, ep_heap m' = <[p := set_flow (ue_tokens e) (ue_InFlight e) cb e]> h /\
    (ue_Drained e = 0 -> cb = ue_DrainingCallback e).
Proof.
  unfold giveBackCCCapacity. intros H Hr Hh. rewrite Hh, lookup_insert_eq in H. cbn in H.
  apply outcome_bind_Ok in H as (cb&Hcb&H). destruct (decide (ue_tokens e - 1 < ue_cap e)); [|done]. injection H as <-. cbn.
  split; [done|]. exists cb. split.
  - rewrite Hh, insert_insert_eq. f_equal. unfold set_flow. cbn. f_equal; [lia|].
    unfold Z.sub. rewrite i32_add_l, <- Z.add_assoc, Z.add_0_r. by apply i32_id.
  - intros Hd. rewrite decide_False in Hcb by (rewrite Hd; tauto). by injection Hcb.
Qed.

Section flow_ok.
Context (par : Z) (Hpar : 0 <= par < 2 ^ 31).

Lemma ep_ok_inflight l p e : ep_ok par l p e -> 0 <= ue_InFlight e <= par.
Proof. intros (_&Hi&Ht&H0). unfold held in Hi. lia. Qed.

Lemma acquire_ok env policy s s' :
  flow_ok par s -> flow_step (FlAcquire env policy) s = Ok s' -> flow_ok par s'.
Proof.
  intros [F1 F2 F3]. simpl. unfold DoLoadBalancing, DoLoadBalancing_admit.
  set (m := update_stats IncrementQueueDepth (fl_m s)).
  destruct (lb_attempts _ _ _ _ m) as [[r m1]| | |] eqn:E; cbn; try done.
  apply lb_attempts_run in E as (E1&E2&_&_&E3). cbn in E1, E2, E3.
  destruct r as [p|]; cbn.
  2:{ intros [= <-]. split; cbn; [congruence| |by rewrite E3].
      intros p e He. rewrite E3 in He. rewrite E1. by apply F2. }
  destruct E3 as (e&He&Htok&E3). rewrite E3, lookup_insert_eq. cbn. intros [= <-].
  destruct (F2 p e He) as [Hlt Hok]. pose proof (ep_ok_inflight _ _ _ Hok) as Hi.
  destruct Hok as (C1&C2&C3&C4).
  split; cbn; [congruence| |].
  - intros q e' Hq. rewrite E1. rewrite lookup_insert in Hq. case_decide as Hpq.
    + subst q. injection Hq as <-. split; [done|]. unfold ep_ok; simpl.
      rewrite held_cons, decide_True by done. rewrite i32_id by (unfold is_i32; lia). lia.
    + rewrite E3, lookup_insert_ne in Hq by done. destruct (F2 q e' Hq) as [Hq1 Hq2]. split; [done|].
      destruct Hq2 as (D1&D2&D3&D4). unfold ep_ok. rewrite held_cons, decide_False by done. lia.
  - intros q [->|Hq]%elem_of_cons; [rewrite lookup_insert_eq; eauto|].
    rewrite lookup_insert. case_decide; [eauto|]. rewrite E3, lookup_insert_ne by done. by apply F3.
Qed.

Lemma release_ok i s s' :
  flow_ok par s -> flow_step (FlRelease i) s = Ok s' -> flow_ok par s'.
Proof.
  intros [F1 F2 F3]. simpl. destruct (fl_held s !! i) as [p|] eqn:Hi; [|done].
  unfold giveBackCCCapacity. destruct (ep_heap (fl_m s) !! p) as [e|] eqn:He; [|done].
  destruct (F2 p e He) as [Hlt (C1&C2&C3&C4)].
  set (cbm := if decide _ then _ else _). destruct cbm as [cb| | |]; cbn; try done.
  case_decide; cbn; [|done]. intros [= <-]. split; cbn; [done| |].
  - intros q e' Hq. rewrite lookup_insert in Hq. case_decide as Hpq.
    + subst q. injection Hq as <-. split; [done|]. unfold ep_ok; simpl.
      pose proof (held_delete p p _ _ Hi) as Hd. rewrite decide_True in Hd by done.
      unfold held in *. rewrite i32_id by (unfold is_i32; lia). lia.
    + destruct (F2 q e' Hq) as [Hq1 (D1&D2&D3&D4)]. split; [done|]. unfold ep_ok.
      pose proof (held_delete q p _ _ Hi) as Hd. rewrite decide_False in Hd by done. lia.
  - intros q Hq. rewrite lookup_insert. case_decide; [eauto|]. apply F3.
    eapply elem_of_submseteq; [exact Hq|]. apply sublist_submseteq, sublist_delete.
Qed.
End flow_ok.

(** Marking changes only the draining state of an endpoint. *)
Lemma mark_loop_frame ids l h bs h' :
  mark_loop ids l h = (bs, h') ->
  forall p, (h !! p = None /\ h' !! p = None) \/
    exists e d cb, h !! p = Some e /\ h' !! p = Some (set_drained d cb e).
Proof.
  revert h bs h'. induction l as [|q l IH]; intros h bs h' Hrun p; simpl in Hrun.
  { injection Hrun as <- <-. destruct (h !! p) as [e|] eqn:E; [right|by left].
    exists e, (ue_Drained e), (ue_DrainingCallback e). split; [done|]. by destruct e. }
  assert (Hset : forall d cb e bs0 h0, h !! q = Some e ->
    mark_loop ids l (<[q := set_drained d cb e]> h) = (bs0, h0) ->
    (h !! p = None /\ h0 !! p = None) \/
    exists e d cb, h !! p = Some e /\ h0 !! p = Some (set_drained d cb e)).
  { intros d cb e bs0 h0 He Hm. destruct (IH _ _ _ Hm p) as [[H1 H2]|(e0&d0&cb0&H1&H2)];
      rewrite lookup_insert in H1; case_decide; simplify_eq/=; [by left| |right; eauto 10].
    right. exists e, d0, cb0. split; [done|]. by rewrite H2. }
  destruct (h !! q) as [e|] eqn:Hq; [|by apply (IH _ _ _ Hrun)].
  destruct (decide _); [|by apply (IH _ _ _ Hrun)]. destruct (decide _).
  - destruct (mark_loop _ _ _) as [bs1 h1] eqn:Hm. injection Hrun as <- <-. by eapply Hset.
  - by eapply Hset.
Qed.

Section flow_inv.
Context (par : Z) (Hpar : 0 <= par < 2 ^ 31).

Lemma flow_ok_heap s m' :
  flow_ok par s -> fm_sandboxParallelism m' = fm_sandboxParallelism (fl_m s) ->
  fm_next m' = fm_next (fl_m s) ->
  (forall p, (ep_heap (fl_m s) !! p = None /\ ep_heap m' !! p = None) \/
     exists e d cb, ep_heap (fl_m s) !! p = Some e /\ ep_heap m' !! p = Some (set_drained d cb e)) ->
  flow_ok par (mkFlow m' (fl_held s)).
Proof.
  intros [F1 F2 F3] E1 E2 Hh. split; simpl; [congruence| |].
  - intros p e' He. destruct (Hh p) as [[_ Hn]|(e&d&cb&He0&He1)]; [congruence|].
    rewrite He in He1. injection He1 as ->. rewrite E2. apply (F2 _ _ He0).
  - intros p Hp. destruct (F3 p Hp) as [e He].
    destruct (Hh p) as [[Hn _]|(e0&d&cb&He0&He1)]; [congruence|eauto].
Qed.

Lemma add_list_ok data m l :
  flow_ok par (mkFlow m l) -> flow_ok par (mkFlow (addToEndpointList data m) l).
Proof.
  revert m. induction data as [|e data IH]; intros m Hm; simpl; [done|]. apply IH.
  destruct Hm as [F1 F2 F3]; simpl in *. split; simpl; [done| |].
  - intros p e' He. rewrite lookup_insert in He. case_decide as Hp.
    + subst p. injection He as <-. split; [lia|].
      assert (Hz : held (fm_next m) l = 0).
      { apply held_zero. intros Hin. destruct (F3 _ Hin) as [x Hx]. destruct (F2 _ _ Hx). lia. }
      unfold ep_ok; simpl. rewrite F1, Hz. lia.
    + destruct (F2 _ _ He). split; [lia|done].
  - intros p Hp. rewrite lookup_insert. case_decide; [eauto|by apply F3].
Qed.

Lemma flow_step_ok e s s' : flow_ok par s -> flow_step e s = Ok s' -> flow_ok par s'.
Proof.
  intros Hs Hstep. destruct e as [eps|eps| |env policy|i].
  - simpl in Hstep. unfold AddEndpoints in Hstep.
    pose proof (add_list_ok eps (fl_m s) (fl_held s)) as Ha.
    destruct s as [m l]; simpl in *. specialize (Ha Hs). revert Hstep. case_decide.
    + destruct (dequeue_all _ _); cbn; try done. intros [= <-]. destruct Ha. by split.
    + cbn. intros [= <-]. destruct Ha. by split.
  - injection Hstep as <-. unfold DrainEndpoints_mark, markEndpointsAsDraining.
    destruct (mark_loop _ _ _) as [bs h] eqn:E. simpl. apply flow_ok_heap; try done.
    by apply (mark_loop_frame _ _ _ _ _ E).
  - injection Hstep as <-. apply flow_ok_heap; try done. intros p. simpl.
    destruct (ep_heap (fl_m s) !! p) as [e|] eqn:E; [right|by left].
    exists e, (ue_Drained e), (ue_DrainingCallback e). split; [done|]. by destruct e.
  - by eapply acquire_ok.
  - by eapply release_ok.
Qed.

Lemma flow_run_ok s s' : flow_run s s' -> flow_ok par s -> flow_ok par s'.
Proof. induction 1; [done|]. intros Hs. eapply flow_step_ok; [by apply IHflow_run|done]. Qed.
End flow_inv.

Lemma NewFunctionMetadata_flow name dp : flow_ok 1 (mkFlow (NewFunctionMetadata name dp) []).
Proof. split; simpl; [done|done|]. intros p Hp. by apply elem_of_nil in Hp. Qed.

(** C8: The throttler enforces the concurrency limit: after any interleaving of
    endpoint additions, drains, removals, admissions and completions, every
    endpoint ever created has between 0 and [sandboxParallelism] requests in
    flight, exactly as many as requests hold it, and its free tokens and its
    requests in flight add up to the limit, so no capacity is lost or
    duplicated. *)
Theorem concurrency_limit name dp s p e :
  flow_run (mkFlow (NewFunctionMetadata name dp) []) s ->
  ep_heap (fl_m s) !! p = Some e ->
  ue_InFlight e = held p (fl_held s) /\
  0 <= ue_InFlight e <= fm_sandboxParallelism (fl_m s) /\
  ue_tokens e + ue_InFlight e = fm_sandboxParallelism (fl_m s).
Proof.
  intros Hr He. apply (flow_run_ok 1) in Hr; [|lia|apply NewFunctionMetadata_flow].
  destruct Hr as [F1 F2 F3]. destruct (F2 _ _ He) as [_ Hok].
  pose proof (ep_ok_inflight 1 _ _ _ Hok). destruct Hok as (_&H1&H2&_). rewrite F1.
  split; [done|]. split; [lia|done].
Qed.

Definition example_env_lb : lb_env := mkLbEnv 4 (fun _ => 0) (fun _ => 0) (fun _ => true).

Lemma concurrency_limit_witness :
  exists s e, flow_run (mkFlow (NewFunctionMetadata "f" "dp") []) s /\
    ep_heap (fl_m s) !! 0%nat = Some e /\ ue_InFlight e = held 0 (fl_held s) /\
    0 <= ue_InFlight e <= fm_sandboxParallelism (fl_m s) /\
    ue_tokens e + ue_InFlight e = fm_sandboxParallelism (fl_m s) /\ ue_InFlight e = 1.
Proof.
  destruct (flow_step (FlAdd example_endpoints) (mkFlow (NewFunctionMetadata "f" "dp") []))
    as [s1| | |] eqn:E1; try by vm_compute in E1.
  destruct (flow_step (FlAcquire example_env_lb LOAD_BALANCING_RANDOM) s1) as [s2| | |] eqn:E2;
    try (vm_compute in E1; injection E1 as <-; by vm_compute in E2).
  assert (Hr : flow_run (mkFlow (NewFunctionMetadata "f" "dp") []) s2)
    by (eapply flow_cons; [eapply flow_cons; [constructor|exact E1]|exact E2]).
  destruct (ep_heap (fl_m s2) !! 0%nat) as [e|] eqn:He.
  2:{ vm_compute in E1. injection E1 as <-. vm_compute in E2. injection E2 as <-. by vm_compute in He. }
  exists s2, e. split; [done|]. split; [done|].
  destruct (concurrency_limit "f" "dp" s2 0 e Hr He) as (H1&H2&H3). split_and!; try done; try lia.
  vm_compute in E1. injection E1 as <-. vm_compute in E2. injection E2 as <-. vm_compute in He.
  injection He as <-. reflexivity.
Defined.
