(* ===== verification/Draining.v ===== *)
(** * Draining endpoints

    What a drain of [function_metadata.go] promises about the requests of
    [load_balancing.go] and [proxy/utils.go].  First every operation is one
    step, as in [flow_step]; then the instructions of
    [markEndpointsAsDraining] and [giveBackCCCapacity] are the steps, one
    goroutine that drains against the goroutines of the requests in flight;
    last, a request that has chosen an endpoint and not yet received a token of
    it. *)
From Stdlib Require Import ZArith Lia.
From stdpp Require Import base tactics list gmap strings sets numbers.
From S2P Require Import Prelude Sync Core FunctionMetadata LoadBalancing.

Local Open Scope Z_scope.

(** ** The load balancer chooses a listed endpoint *)

Lemma go_index_elem {A} (l : list A) i x : go_index l i = Ok x -> x ∈ l.
Proof.
  unfold go_index. case_decide; [|done]. destruct (l !! _) eqn:E; [|done].
  intros [= <-]. by eapply list_elem_of_lookup_2.
Qed.

Lemma randomLoadBalancing_elem r m p m' :
  randomLoadBalancing r m = Ok (p, m') -> p ∈ fm_upstreamEndpoints m.
Proof.
  unfold randomLoadBalancing, randomEndpoint. destruct (Intn _ _); cbn; try done.
  destruct (go_index _ _) eqn:E; cbn; try done. intros [= <- _]. by eapply go_index_elem.
Qed.

Lemma least_loop_elem counts l p v (L : list nat) :
  p ∈ L -> l ⊆ L -> least_loop counts l p v ∈ L.
Proof.
  revert p v. induction l as [|q l IH]; intros p v Hp Hl; simpl; [done|].
  case_decide; apply IH; set_solver.
Qed.

Lemma first_available_elem m l p : first_available m l = Some p -> p ∈ l.
Proof.
  induction l as [|q l IH]; simpl; [done|]. case_decide; [intros [= <-]; left|].
  intros Hp. right. by apply IH.
Qed.

Lemma krr_loop_list fuel b m m' :
  krr_loop fuel b m = Ok m' -> fm_upstreamEndpoints m' = fm_upstreamEndpoints m.
Proof.
  revert m. induction fuel as [|fuel IH]; intros m; [done|]. cbn [krr_loop].
  destruct (GetKubernetesRoundRobinCounter m); cbn; try done.
  destruct (go_index _ _); cbn; try done. case_decide; [|by intros [= <-]].
  destruct (GetKubernetesRoundRobinCounter _); cbn; try done. case_decide.
  - by intros [= <-].
  - intros Hrec%IH. exact Hrec.
Qed.

Lemma generateTwo_elem d1 d2 l e1 e2 :
  generateTwoUniformRandomEndpoints d1 d2 l = Ok (e1, e2) -> e1 ∈ l /\ e2 ∈ l.
Proof.
  unfold generateTwoUniformRandomEndpoints. intros H.
  apply outcome_bind_Ok in H as (r1&_&H). apply outcome_bind_Ok in H as (r2&_&H).
  apply outcome_bind_Ok in H as (x&Hx&H). apply outcome_bind_Ok in H as (y&Hy&H).
  injection H as <- <-. split; by eapply go_index_elem.
Qed.

Lemma kubernetes_elem fuel d1 d2 m p m' :
  kubernetesNativeLoadBalancing fuel d1 d2 m = Ok (p, m') ->
  p ∈ fm_upstreamEndpoints m /\ fm_upstreamEndpoints m' = fm_upstreamEndpoints m.
Proof.
  unfold kubernetesNativeLoadBalancing, bestOfTwoRandoms, kubernetesFirstAvailableLoadBalancing,
    kubernetesRoundRobinLoadBalancing.
  case_decide; [|case_decide].
  - case_decide.
    + destruct (go_index _ _) eqn:E; cbn; try done. intros [= <- <-]. apply go_index_elem in E. done.
    + destruct (generateTwoUniformRandomEndpoints _ _ _) as [[e1 e2]| | |] eqn:E; cbn; try done.
      apply generateTwo_elem in E as [E1 E2]. intros [= <- <-]. split; [|done]. by case_decide.
  - destruct (first_available _ _) eqn:E.
    + intros [= <- <-]. by apply first_available_elem in E.
    + intros Hr. pose proof (randomLoadBalancing_same _ _ _ _ Hr) as ->.
      by apply randomLoadBalancing_elem in Hr.
  - destruct (GetKubernetesRoundRobinCounter m); cbn; try done.
    destruct (krr_loop _ _ _) as [m1| | |] eqn:E; cbn; try done. apply krr_loop_list in E.
    destruct (GetKubernetesRoundRobinCounter m1); cbn; try done.
    destruct (go_index _ _) eqn:Eg; cbn; try done. apply go_index_elem in Eg. case_decide.
    + intros [= <- <-]. simpl. by rewrite E in *.
    + intros Hr. pose proof (randomLoadBalancing_same _ _ _ _ Hr) as ->.
      apply randomLoadBalancing_elem in Hr. by rewrite E in *.
Qed.

Lemma runLoadBalancing_elem fuel d1 d2 policy m r m' :
  runLoadBalancingAlgorithm fuel d1 d2 policy m = Ok (r, m') ->
  (forall p, r = Some p -> p ∈ fm_upstreamEndpoints m) /\
  fm_upstreamEndpoints m' = fm_upstreamEndpoints m.
Proof.
  assert (Hrand : forall d q m1, randomLoadBalancing d m = Ok (q, m1) ->
            q ∈ fm_upstreamEndpoints m /\ fm_upstreamEndpoints m1 = fm_upstreamEndpoints m).
  { intros d q m1 Hr. pose proof (randomLoadBalancing_same _ _ _ _ Hr) as ->.
    by apply randomLoadBalancing_elem in Hr. }
  unfold runLoadBalancingAlgorithm. case_decide; [by intros [= <- <-]|].
  match goal with |- context [mbind _ ?x] => destruct x as [[q m1]| | |] eqn:E end; cbn; try done.
  intros [= <- <-].
  enough (q ∈ fm_upstreamEndpoints m /\ fm_upstreamEndpoints m1 = fm_upstreamEndpoints m)
    as [Hq Hl] by (split; [by intros ? [= <-]|done]).
  revert E. repeat case_decide.
  - apply Hrand.
  - unfold roundRobinLoadBalancing. destruct (GetRoundRobinCounter m); cbn; try done.
    destruct (go_index _ _) eqn:E; cbn; try done. intros [= <- <-]. by apply go_index_elem in E.
  - unfold leastProcessedLoadBalancing. destruct (go_index _ _) eqn:E; cbn; try done.
    intros [= <- <-]. apply go_index_elem in E. split; [|done]. by apply least_loop_elem.
  - apply kubernetes_elem.
  - apply Hrand.
Qed.

Lemma lb_attempts_elem env policy n i m r m' :
  lb_attempts env policy n i m = Ok (r, m') ->
  (forall p, r = Some p -> p ∈ fm_upstreamEndpoints m) /\
  fm_upstreamEndpoints m' = fm_upstreamEndpoints m.
Proof.
  revert i m. induction n as [|n IH]; intros i m; cbn [lb_attempts]; [by intros [= <- <-]|].
  destruct (runLoadBalancingAlgorithm _ _ _ _ _) as [[ep m1]| | |] eqn:E; cbn; try done.
  apply runLoadBalancing_elem in E as [E1 E2]. destruct ep as [p|]; cbn; [|done].
  unfold waitForCapacityOrDie. destruct (ep_heap m1 !! p) as [e|]; cbn; [|done].
  destruct (lb_got env i).
  - case_decide; cbn; [|done]. intros [= <- <-]. simpl. split; [|done]. intros q [= <-]. by apply E1.
  - cbn. intros [H1 H2]%IH. by rewrite H2, <- E2.
Qed.

(** ** What marking and removing do to the list and the heap *)

Lemma mark_loop_other ids l h bs h' p :
  mark_loop ids l h = (bs, h') -> p ∉ l -> h' !! p = h !! p.
Proof.
  revert h bs h'. induction l as [|q l IH]; intros h bs h' Hrun Hp; simpl in Hrun.
  { by injection Hrun as <- <-. }
  apply not_elem_of_cons in Hp as [Hq Hp].
  destruct (h !! q) as [e|]; [|by eapply IH]. case_decide; [|by eapply IH]. case_decide.
  - destruct (mark_loop _ _ _) as [bs1 h1] eqn:E. injection Hrun as <- <-.
    rewrite (IH _ _ _ E Hp). by rewrite lookup_insert_ne.
  - rewrite (IH _ _ _ Hrun Hp). by rewrite lookup_insert_ne.
Qed.

(** The barriers are the listed endpoints with a drained ID that were not yet
    draining, in the order of the list; each has a callback channel, signalled
    exactly when nothing is in flight. *)
Lemma mark_loop_barriers ids l h bs h' :
  NoDup l -> mark_loop ids l h = (bs, h') ->
  NoDup bs /\ forall p, p ∈ bs -> p ∈ l /\ exists e, h !! p = Some e /\ ue_ID e ∈ ids /\ ue_Drained e = 0 /\
    h' !! p = Some (set_drained 1 (Some (bool_decide (ue_InFlight e = 0))) e).
Proof.
  intros Hnd. revert h bs h'. induction Hnd as [|q l Hq Hnd IH]; intros h bs h' Hrun; simpl in Hrun.
  { injection Hrun as <- <-. split; [constructor|]. intros p Hp. by apply elem_of_nil in Hp. }
  assert (Hrest : forall h1 bs1, (forall p, p ≠ q -> h1 !! p = h !! p) -> mark_loop ids l h1 = (bs1, h') ->
    NoDup bs1 /\ forall p, p ∈ bs1 -> p ∈ l /\ exists e, h !! p = Some e /\ ue_ID e ∈ ids /\
      ue_Drained e = 0 /\ h' !! p = Some (set_drained 1 (Some (bool_decide (ue_InFlight e = 0))) e)).
  { intros h1 bs1 Hh Hm. destruct (IH _ _ _ Hm) as [H1 H2]. split; [done|]. intros p Hp.
    destruct (H2 p Hp) as [Hl (e&He&Hrest)]. split; [done|]. exists e. rewrite <- Hh; [done|by intros ->]. }
  assert (Hskip : forall h1, (forall p, p ≠ q -> h1 !! p = h !! p) -> mark_loop ids l h1 = (bs, h') ->
    NoDup bs /\ forall p, p ∈ bs -> p ∈ q :: l /\ exists e, h !! p = Some e /\ ue_ID e ∈ ids /\
      ue_Drained e = 0 /\ h' !! p = Some (set_drained 1 (Some (bool_decide (ue_InFlight e = 0))) e)).
  { intros h1 Hh Hm. destruct (Hrest _ _ Hh Hm) as [H1 H2]. split; [done|]. intros p Hp.
    destruct (H2 p Hp) as [Hl He]. split; [by right|done]. }
  destruct (h !! q) as [e|] eqn:He; [|by eapply Hskip]. case_decide; [|by eapply Hskip]. case_decide.
  - destruct (mark_loop _ _ _) as [bs1 h1] eqn:E. injection Hrun as <- <-.
    destruct (Hrest _ _ (fun p Hp => lookup_insert_ne h q p _ (not_eq_sym Hp)) E) as [H1 H2]. split.
    + constructor; [|done]. intros Hin. by apply H2 in Hin as [? _].
    + intros p [->|Hp]%elem_of_cons; [|destruct (H2 p Hp) as [Hl ?]; split; [by right|done]].
      split; [left|]. exists e. split_and!; [done..|].
      by rewrite (mark_loop_other _ _ _ _ _ _ E Hq), lookup_insert_eq.
  - eapply Hskip; [|exact Hrun]. intros p Hp. by rewrite lookup_insert_ne.
Qed.

Lemma mark_loop_in ids l h bs h' p e :
  NoDup l -> mark_loop ids l h = (bs, h') -> p ∈ l -> h !! p = Some e -> ue_ID e ∈ ids -> ue_Drained e = 0 ->
  p ∈ bs.
Proof.
  intros Hnd. revert h bs h'. induction Hnd as [|q l Hq Hnd IH]; intros h bs h' Hrun Hp He Hid Hd; simpl in Hrun.
  { by apply elem_of_nil in Hp. }
  apply elem_of_cons in Hp as [->|Hp].
  - rewrite He, !decide_True in Hrun by done. destruct (mark_loop _ _ _). injection Hrun as <- <-. left.
  - assert (Hpq : q ≠ p) by (by intros ->).
    destruct (h !! q) as [eq|]; [|by eapply IH]. case_decide; [|by eapply IH].
    destruct (decide (ue_Drained eq = 0)).
    + destruct (mark_loop _ _ _) eqn:E. injection Hrun as <- <-. right. eapply IH; try done.
      by rewrite lookup_insert_ne.
    + eapply IH; try done. by rewrite lookup_insert_ne.
Qed.

Lemma mark_loop_single l h bs h' p e :
  NoDup (id_of h <$> l) -> p ∈ l -> h !! p = Some e -> ue_Drained e = 0 ->
  mark_loop [ue_ID e] l h = (bs, h') ->
  bs = [p] /\ h' !! p = Some (set_drained 1 (Some (bool_decide (ue_InFlight e = 0))) e).
Proof.
  intros Hids Hp He Hd Hrun. pose proof (NoDup_fmap_1 _ _ Hids) as Hnd.
  pose proof (mark_loop_barriers _ _ _ _ _ Hnd Hrun) as [Hb1 Hb2].
  pose proof (mark_loop_in _ _ _ _ _ _ _ Hnd Hrun Hp He (list_elem_of_here _ _) Hd) as Hin.
  assert (Hall : forall q, q ∈ bs -> q = p).
  { intros q Hq. destruct (Hb2 q Hq) as [Hl (e'&He'&Hid%list_elem_of_singleton&_)].
    apply list_elem_of_lookup in Hl as [i Hi], Hp as [j Hj].
    assert (i = j) as ->; [|congruence]. eapply (NoDup_lookup _ _ _ (ue_ID e) Hids);
      rewrite list_lookup_fmap; [rewrite Hi|rewrite Hj]; cbn; unfold id_of; [rewrite He'|rewrite He]; cbn; congruence. }
  destruct (Hb2 p Hin) as [_ (e'&He'&_&_&Hh)]. rewrite He in He'. injection He' as <-. split; [|done].
  destruct bs as [|q [|q' bs]]; [by apply elem_of_nil in Hin|f_equal; apply Hall; left|].
  exfalso. apply list.NoDup_cons in Hb1 as [Hq _]. apply Hq.
  rewrite (Hall q), <- (Hall q'); set_solver.
Qed.

Lemma remove_first_url_sublist h url l : remove_first_url h url l `sublist_of` l.
Proof.
  induction l as [|q l IH]; simpl; [done|]. case_decide.
  - by apply sublist_cons.
  - by apply sublist_skip.
Qed.

Lemma foldl_remove_sublist h (eps : list EndpointInfo) l :
  foldl (fun l e => remove_first_url h (ei_URL e) l) l eps `sublist_of` l.
Proof.
  revert l. induction eps as [|e eps IH]; intros l; simpl; [done|].
  etrans; [apply IH|apply remove_first_url_sublist].
Qed.

Lemma remove_first_url_gone h url l p :
  NoDup (url_of h <$> l) -> url_of h p = url -> p ∉ remove_first_url h url l.
Proof.
  intros Hnd <-. induction l as [|q l IH]; simpl; [apply not_elem_of_nil|].
  cbn in Hnd. apply list.NoDup_cons in Hnd as [Hq Hnd]. case_decide as Hu.
  - intros Hin. apply Hq. rewrite <- Hu. by apply list_elem_of_fmap_2.
  - apply not_elem_of_cons. split; [congruence|by apply IH].
Qed.

Lemma foldl_remove_gone h (eps : list EndpointInfo) l p e :
  NoDup (url_of h <$> l) -> e ∈ eps -> url_of h p = ei_URL e ->
  p ∉ foldl (fun l e => remove_first_url h (ei_URL e) l) l eps.
Proof.
  revert l. induction eps as [|e0 eps IH]; intros l Hnd He Hu; [by apply elem_of_nil in He|]. simpl.
  assert (Hnd' : NoDup (url_of h <$> remove_first_url h (ei_URL e0) l)).
  { eapply sublist_NoDup; [exact Hnd|]. apply fmap_sublist, remove_first_url_sublist. }
  apply elem_of_cons in He as [->|He]; [|by apply IH].
  intros Hin. eapply (remove_first_url_gone h _ l p Hnd Hu).
  by eapply elem_of_sublist; [|apply foldl_remove_sublist].
Qed.

(** ** An endpoint that has left the list *)

(** It never comes back: the endpoints added later have other addresses. *)
Definition unlisted (p : nat) (m : FM) : Prop :=
  (p ∉ fm_upstreamEndpoints m) /\ (p < fm_next m)%nat.

(** An endpoint a drain has marked and removed: the callback channel is
    signalled exactly when nothing is in flight. *)
Definition retired (p : nat) (m : FM) : Prop :=
  unlisted p m /\ exists e, ep_heap m !! p = Some e /\ ue_Drained e ≠ 0 /\
    ue_DrainingCallback e = Some (bool_decide (ue_InFlight e = 0)).

Lemma retired_frame p m m' :
  unlisted p m' -> ep_heap m' !! p = ep_heap m !! p -> retired p m -> retired p m'.
Proof. intros Hu Hh [_ He]. split; [done|]. by rewrite Hh. Qed.

Lemma AddEndpoints_list eps m m' :
  AddEndpoints eps m = Ok m' ->
  fm_upstreamEndpoints m' = fm_upstreamEndpoints (addToEndpointList eps m) /\
  fm_next m' = fm_next (addToEndpointList eps m) /\ ep_heap m' = ep_heap (addToEndpointList eps m).
Proof.
  unfold AddEndpoints. case_decide; [|by intros [= <-]].
  destruct (dequeue_all _ _); cbn; try done. by intros [= <-].
Qed.

Lemma AddEndpoints_frame eps m m' p :
  AddEndpoints eps m = Ok m' -> unlisted p m ->
  unlisted p m' /\ ep_heap m' !! p = ep_heap m !! p.
Proof.
  intros Hrun [Hp Hlt]. destruct (addToEndpointList_run eps m) as (H1&H2&_).
  destruct (AddEndpoints_list _ _ _ Hrun) as (E1&E2&E3).
  set (m1 := addToEndpointList eps m) in *. clearbody m1. rewrite E3. split; [|by apply H2].
  split; rewrite ?E1, ?E2, H1; simpl; [|lia].
  rewrite elem_of_app. intros [?|Hs]; [done|]. apply elem_of_seq in Hs. lia.
Qed.

Lemma Drain_frame eps m p :
  unlisted p m ->
  unlisted p (DrainEndpoints_mark eps m).2 /\ ep_heap (DrainEndpoints_mark eps m).2 !! p = ep_heap m !! p.
Proof.
  intros [Hp Hlt]. unfold DrainEndpoints_mark, markEndpointsAsDraining.
  destruct (mark_loop _ _ _) as [bs h] eqn:E. simpl. split.
  - split; simpl; [|done]. intros Hin. apply Hp. eapply elem_of_sublist; [exact Hin|].
    apply foldl_remove_sublist.
  - by apply (mark_loop_other _ _ _ _ _ _ E).
Qed.

(** Admitting a request changes the endpoint it is given and no other; that
    one is listed. *)
Lemma DoLoadBalancing_frame env policy m r m' p :
  DoLoadBalancing env policy m = Ok (r, m') -> unlisted p m ->
  unlisted p m' /\ ep_heap m' !! p = ep_heap m !! p /\ r ≠ Some p.
Proof.
  intros Hrun [Hp Hlt]. unfold DoLoadBalancing in Hrun.
  apply outcome_bind_Ok in Hrun as ([q m1]&Hlb&Hrun).
  pose proof (lb_attempts_elem _ _ _ _ _ _ _ Hlb) as [El Eu].
  pose proof (lb_attempts_run _ _ _ _ _ _ _ Hlb) as (En&_&_&_&Eh). cbn in *.
  destruct q as [q|].
  - apply outcome_bind_Ok in Hrun as (m2&Hadm&[= <- <-]).
    assert (Hqp : q ≠ p) by (intros ->; by apply Hp, El).
    destruct Eh as (e&He&_&Eh). revert Hadm. unfold DoLoadBalancing_admit; cbn.
    rewrite Eh, lookup_insert_eq. intros [= <-]. cbn. split; [|split].
    + split; cbn; rewrite ?Eu, ?En; done.
    + by rewrite lookup_insert_ne, Eh, lookup_insert_ne.
    + congruence.
  - injection Hrun as <- <-. cbn. rewrite Eh. split; [|done]. split; cbn; rewrite ?Eu, ?En; done.
Qed.

Lemma flow_step_unlisted e s s' p :
  flow_step e s = Ok s' -> unlisted p (fl_m s) -> unlisted p (fl_m s').
Proof.
  intros Hstep Hp. destruct e as [eps|eps| |env policy|i]; cbn in Hstep.
  - apply outcome_bind_Ok in Hstep as (m&Hm&[= <-]). cbn. by apply (AddEndpoints_frame _ _ _ _ Hm).
  - injection Hstep as <-. cbn. by apply Drain_frame.
  - injection Hstep as <-. destruct Hp. split; cbn; [apply not_elem_of_nil|done].
  - apply outcome_bind_Ok in Hstep as ([r m]&Hm&[= <-]). cbn. by apply (DoLoadBalancing_frame _ _ _ _ _ _ Hm).
  - destruct (fl_held s !! i) as [q|]; [|done].
    apply outcome_bind_Ok in Hstep as (m&Hm&[= <-]). cbn. revert Hm. unfold giveBackCCCapacity.
    destruct (ep_heap _ !! q); [|done]. intros Hm. apply outcome_bind_Ok in Hm as (cb&_&Hm).
    revert Hm. case_decide; [|done]. by intros [= <-].
Qed.

Lemma flow_step_held e s s' p :
  flow_step e s = Ok s' -> unlisted p (fl_m s) -> p ∉ fl_held s -> p ∉ fl_held s'.
Proof.
  intros Hstep Hu Hp. destruct e as [eps|eps| |env policy|i]; cbn in Hstep.
  - by apply outcome_bind_Ok in Hstep as (m&Hm&[= <-]).
  - by injection Hstep as <-.
  - by injection Hstep as <-.
  - apply outcome_bind_Ok in Hstep as ([r m]&Hm&[= <-]).
    destruct (DoLoadBalancing_frame _ _ _ _ _ _ Hm Hu) as (_&_&Hr). destruct r as [q|]; [|done].
    apply not_elem_of_cons. split; [congruence|done].
  - destruct (fl_held s !! i) as [q|]; [|done].
    apply outcome_bind_Ok in Hstep as (m&_&[= <-]). cbn. intros Hin. apply Hp.
    eapply elem_of_sublist; [exact Hin|apply sublist_delete].
Qed.

Lemma flow_run_gone s s' p :
  flow_run s s' -> unlisted p (fl_m s) -> p ∉ fl_held s -> unlisted p (fl_m s') /\ p ∉ fl_held s'.
Proof.
  induction 1 as [|s1 s2 s3 e Hr IH Hstep]; [done|]. intros Hu Hp. destruct (IH Hu Hp) as [Hu2 Hp2].
  split; [by eapply flow_step_unlisted|by eapply flow_step_held].
Qed.

Section retired.
Context (par : Z) (Hpar : 0 <= par < 2 ^ 31).

Lemma release_retired i s s' p :
  flow_ok par s -> flow_step (FlRelease i) s = Ok s' -> retired p (fl_m s) -> retired p (fl_m s').
Proof.
  intros Hok Hstep Hp. pose proof (flow_step_unlisted _ _ _ p Hstep (proj1 Hp)) as Hu.
  cbn in Hstep. destruct (fl_held s !! i) as [q|] eqn:Hi; [|done].
  apply outcome_bind_Ok in Hstep as (m&Hm&[= <-]). cbn in *. revert Hm. unfold giveBackCCCapacity.
  destruct (ep_heap _ !! q) as [eq|] eqn:Hq; [|done]. intros Hm.
  apply outcome_bind_Ok in Hm as (cb&Hcb&Hm). destruct (decide (ue_tokens eq < ue_cap eq)); [|done].
  injection Hm as <-. destruct (decide (q = p)) as [->|Hqp].
  2:{ eapply retired_frame; [exact Hu| |exact Hp]. cbn. by rewrite lookup_insert_ne. }
  destruct Hp as [_ (e&He&Hd&Hc)]. rewrite He in Hq. injection Hq as <-.
  destruct (fo_eps _ _ Hok _ _ He) as [_ Hep]. pose proof (ep_ok_inflight _ _ _ _ Hep) as Hr.
  destruct Hep as (_&Hf&_). rewrite (held_delete _ _ _ _ Hi), decide_True in Hf by done.
  unfold held in Hf. rewrite i32_id in * by (unfold is_i32; lia).
  rewrite bool_decide_eq_false_2 in Hc by lia. rewrite Hc in Hcb.
  split; [done|]. cbn. rewrite lookup_insert_eq. eexists. split; [done|]. cbn. split; [done|].
  revert Hcb. case_decide as H0; intros [= <-].
  - rewrite bool_decide_eq_true_2; [done|]. by destruct H0.
  - rewrite bool_decide_eq_false_2; [done|]. intros Hz. apply H0. by split.
Qed.

Lemma flow_step_retired e s s' p :
  flow_ok par s -> flow_step e s = Ok s' -> retired p (fl_m s) -> retired p (fl_m s').
Proof.
  intros Hok Hstep Hp. pose proof (flow_step_unlisted _ _ _ p Hstep (proj1 Hp)) as Hu.
  destruct e as [eps|eps| |env policy|i]; [| | | |by eapply release_retired]; cbn in Hstep.
  - apply outcome_bind_Ok in Hstep as (m&Hm&[= <-]). cbn in *.
    eapply retired_frame; [done| |done]. by apply (AddEndpoints_frame _ _ _ _ Hm), Hp.
  - injection Hstep as <-. eapply retired_frame; [done| |done]. by apply Drain_frame, Hp.
  - injection Hstep as <-. by apply (retired_frame p (fl_m s)).
  - apply outcome_bind_Ok in Hstep as ([r m]&Hm&[= <-]). cbn in *.
    eapply retired_frame; [done| |done]. by apply (DoLoadBalancing_frame _ _ _ _ _ _ Hm), Hp.
Qed.

Lemma flow_run_retired s s' p :
  flow_run s s' -> flow_ok par s -> retired p (fl_m s) -> retired p (fl_m s').
Proof.
  induction 1 as [|s1 s2 s3 e Hr IH Hstep]; [done|]. intros Hok Hp.
  eapply flow_step_retired; [|done|by apply IH]. by eapply flow_run_ok.
Qed.
End retired.

(** The endpoints to drain name the listed endpoints by ID and by URL alike,
    and no two listed endpoints share a URL. *)
Definition names_match (eps : list EndpointInfo) (m : FM) : Prop :=
  NoDup (url_of (ep_heap m) <$> fm_upstreamEndpoints m) /\
  forall e p, e ∈ eps -> p ∈ fm_upstreamEndpoints m ->
    id_of (ep_heap m) p = ei_ID e -> url_of (ep_heap m) p = ei_URL e.

Lemma Drain_retires eps m bs m' :
  (forall p, p ∈ fm_upstreamEndpoints m -> (p < fm_next m)%nat) -> names_match eps m ->
  DrainEndpoints_mark eps m = (bs, m') -> NoDup bs /\ forall p, p ∈ bs -> retired p m'.
Proof.
  intros Hlt [Hnd Hurl] Hrun. unfold DrainEndpoints_mark, markEndpointsAsDraining in Hrun.
  destruct (mark_loop _ _ _) as [bs1 h] eqn:E. injection Hrun as <- <-.
  pose proof (mark_loop_barriers _ _ _ _ _ (NoDup_fmap_1 _ _ Hnd) E) as [Hb1 Hb2]. split; [done|].
  intros p Hp. destruct (Hb2 p Hp) as [Hl (e&He&Hid&Hd&Hh)].
  split; [split; cbn; [|by apply Hlt]|].
  - apply list_elem_of_fmap in Hid as (ei&Hid&Hei).
    assert (Hsame : forall q, url_of h q = url_of (ep_heap m) q).
    { intros q. unfold url_of. destruct (mark_loop_frame _ _ _ _ _ E q) as [[-> ->]|(x&d&cb&->&->)]; done. }
    eapply foldl_remove_gone; [|exact Hei|].
    + by rewrite (list_fmap_ext _ _ _ (fun _ q _ => Hsame q)).
    + rewrite Hsame. apply (Hurl ei p Hei Hl). unfold id_of. by rewrite He.
  - exists (set_drained 1 (Some (bool_decide (ue_InFlight e = 0))) e). cbn. by split_and!.
Qed.

Lemma DoLoadBalancing_list env policy m r m' :
  DoLoadBalancing env policy m = Ok (r, m') ->
  fm_upstreamEndpoints m' = fm_upstreamEndpoints m /\ fm_next m' = fm_next m.
Proof.
  unfold DoLoadBalancing. intros Hm. apply outcome_bind_Ok in Hm as ([q m1]&Hlb&Hm).
  pose proof (lb_attempts_elem _ _ _ _ _ _ _ Hlb) as [_ Eu].
  apply lb_attempts_run in Hlb as (En&_).
  assert (fm_upstreamEndpoints m' = fm_upstreamEndpoints m1 /\ fm_next m' = fm_next m1) as [-> ->]; [|done].
  destruct q as [q|]; [|by injection Hm as <- <-]. apply outcome_bind_Ok in Hm as (m2&Ha&[= <- <-]).
  revert Ha. unfold DoLoadBalancing_admit. destruct (_ !! q); [|done]. by intros [= <-].
Qed.

(** Listed endpoints are allocated. *)
Lemma flow_run_listed s s' :
  flow_run s s' -> (forall p, p ∈ fm_upstreamEndpoints (fl_m s) -> (p < fm_next (fl_m s))%nat) ->
  forall p, p ∈ fm_upstreamEndpoints (fl_m s') -> (p < fm_next (fl_m s'))%nat.
Proof.
  induction 1 as [|s1 s2 s3 e Hr IH Hstep]; [done|]. intros H0 p. specialize (IH H0). clear H0 Hr.
  destruct e as [eps|eps| |env policy|i]; cbn in Hstep.
  - apply outcome_bind_Ok in Hstep as (m&Hm&[= <-]). cbn.
    destruct (addToEndpointList_run eps (fl_m s2)) as (H1&_&_).
    destruct (AddEndpoints_list _ _ _ Hm) as (->&->&_).
    rewrite H1. cbn. rewrite elem_of_app, elem_of_seq. intros [Hp%IH|Hp]; lia.
  - injection Hstep as <-. unfold DrainEndpoints_mark, markEndpointsAsDraining.
    destruct (mark_loop _ _ _). cbn. intros Hp. apply IH.
    eapply elem_of_sublist; [exact Hp|apply foldl_remove_sublist].
  - injection Hstep as <-. intros Hp. by apply elem_of_nil in Hp.
  - apply outcome_bind_Ok in Hstep as ([r m]&Hm&[= <-]). cbn.
    destruct (DoLoadBalancing_list _ _ _ _ _ Hm) as [-> ->]. apply IH.
  - destruct (fl_held s2 !! i) as [q|]; [|done]. apply outcome_bind_Ok in Hstep as (m&Hm&[= <-]).
    revert Hm. unfold giveBackCCCapacity. destruct (ep_heap _ !! q); [|done]. intros Hm.
    apply outcome_bind_Ok in Hm as (cb&_&Hm). revert Hm. case_decide; [|done]. intros [= <-]. apply IH.
Qed.

(** The wait returns exactly when every barrier is signalled. *)
Lemma waitForDraining_signalled bs h :
  NoDup bs ->
  (exists h', waitForDrainingToComplete bs h = Ok h') <->
  forall p, p ∈ bs -> exists e, h !! p = Some e /\ ue_DrainingCallback e = Some true.
Proof.
  intros Hnd. revert h. induction Hnd as [|q bs Hq Hnd IH]; intros h; simpl.
  { split; [intros _ p Hp; by apply elem_of_nil in Hp|by exists h]. }
  split.
  - intros [h' Hrun]. destruct (h !! q) as [e|] eqn:He; [|done].
    destruct (ue_DrainingCallback e) as [[]|] eqn:Hc; try done.
    intros p [->|Hp]%elem_of_cons; [by exists e|].
    destruct (proj1 (IH _) (ex_intro _ h' Hrun) p Hp) as (e'&He'&Hc').
    rewrite lookup_insert_ne in He' by (by intros ->). by exists e'.
  - intros Hall. destruct (Hall q (list_elem_of_here _ _)) as (e&He&Hc). rewrite He, Hc. apply IH.
    intros p Hp. rewrite lookup_insert_ne by (by intros ->). apply Hall. by right.
Qed.

Lemma held_elem p l : held p l = 0 <-> p ∉ l.
Proof.
  split; [|apply held_zero]. intros Hz Hp. induction l as [|x l IH]; [by apply elem_of_nil in Hp|].
  rewrite held_cons in Hz. assert (0 <= held p l) by (unfold held; lia).
  apply elem_of_cons in Hp as [<-|Hp]; case_decide; try done; try lia. apply IH; [lia|done].
Qed.

Lemma retired_signalled s p :
  flow_ok 1 s -> retired p (fl_m s) ->
  (exists e, ep_heap (fl_m s) !! p = Some e /\ ue_DrainingCallback e = Some true) <-> p ∉ fl_held s.
Proof.
  intros Hok [_ (e&He&_&Hc)]. destruct (fo_eps _ _ Hok _ _ He) as [_ (_&Hf&_)].
  rewrite <- held_elem, <- Hf, He. split.
  - intros (e'&[= <-]&Hc'). rewrite Hc in Hc'. injection Hc' as Hc'. by apply bool_decide_eq_true in Hc'.
  - intros Hz. exists e. split; [done|]. rewrite Hc. by rewrite bool_decide_eq_true_2.
Qed.

(** C9: A drain is graceful, for endpoints that are named consistently: the
    addresses listed in the function are distinct, and a listed endpoint with
    the identifier of one to drain also has its address ([names_match]; an
    endpoint announced twice breaks it, [duplicate_endpoint_stays_listed]).
    When a drain marks endpoints in a reachable state of the function in which
    this holds, then in every state it can reach from there the drained
    endpoints are no longer listed, the wait of the drain returns exactly when
    no request holds a drained endpoint, and once it has returned no later
    request is ever given one of them, whatever is added, drained, dropped,
    admitted or completed in the meantime. *)
Theorem drain_waits_for_requests name dp s eps bs m s1 :
  flow_run (mkFlow (NewFunctionMetadata name dp) []) s -> names_match eps (fl_m s) ->
  DrainEndpoints_mark eps (fl_m s) = (bs, m) ->
  flow_run (mkFlow m (fl_held s)) s1 ->
  (forall p, p ∈ bs -> p ∉ fm_upstreamEndpoints (fl_m s1)) /\
  ((exists h, waitForDrainingToComplete bs (ep_heap (fl_m s1)) = Ok h) <->
   forall p, p ∈ bs -> p ∉ fl_held s1) /\
  forall h s2, waitForDrainingToComplete bs (ep_heap (fl_m s1)) = Ok h ->
    flow_run (mkFlow (set_endpoints (fl_m s1) h (fm_upstreamEndpoints (fl_m s1)) (fm_next (fl_m s1)))
                (fl_held s1)) s2 ->
    forall p, p ∈ bs -> p ∉ fl_held s2.
Proof.
  intros Hr Hn Hd Hr1.
  pose proof (flow_run_ok 1 ltac:(lia) _ _ Hr (NewFunctionMetadata_flow name dp)) as Hok.
  pose proof (flow_run_listed _ _ Hr) as Hlt. cbn in Hlt.
  destruct (Drain_retires _ _ _ _ (Hlt ltac:(intros p Hp; by apply elem_of_nil in Hp)) Hn Hd) as [Hnd Hret].
  assert (Hok1 : flow_ok 1 (mkFlow m (fl_held s))).
  { eapply (flow_step_ok 1 ltac:(lia) (FlDrain eps) s); [done|]. cbn. by rewrite Hd. }
  assert (Hret1 : forall p, p ∈ bs -> retired p (fl_m s1)).
  { intros p Hp. eapply (flow_run_retired 1 ltac:(lia)); [exact Hr1|done|by apply Hret]. }
  apply (flow_run_ok 1 ltac:(lia) _ _ Hr1) in Hok1.
  assert (Hwait : (exists h, waitForDrainingToComplete bs (ep_heap (fl_m s1)) = Ok h) <->
                  forall p, p ∈ bs -> p ∉ fl_held s1).
  { rewrite (waitForDraining_signalled _ _ Hnd). split; intros Hall p Hp.
    - by apply retired_signalled; auto.
    - apply retired_signalled; auto. }
  split; [intros p Hp; by apply (Hret1 p Hp)|]. split; [exact Hwait|].
  intros h s2 Hh Hr2 p Hp. eapply (flow_run_gone _ _ p Hr2).
  - destruct (Hret1 p Hp) as [[Hu1 Hu2] _]. by split.
  - apply (proj1 Hwait); [by exists h|done].
Qed.

(** One endpoint, one request on it, drained while the request is in flight;
    the request completes and the wait returns. *)
Definition example_flow (l : list flow_event) (s : flow) : outcome flow :=
  foldl (fun r e => s ← r; flow_step e s) (Ok s) l.

Lemma example_flow_run l s s' : example_flow l s = Ok s' -> flow_run s s'.
Proof.
  revert s'. induction l as [|e l IH] using rev_ind; intros s'; unfold example_flow in *.
  { intros [= <-]. constructor. }
  rewrite foldl_app. simpl. intros H. apply outcome_bind_Ok in H as (s1&H1&H2).
  eapply flow_cons; [by apply IH|exact H2].
Qed.

Lemma drain_waits_for_requests_witness :
  exists s bs m s1, bs ≠ [] /\
    (forall p, p ∈ bs -> p ∉ fm_upstreamEndpoints (fl_m s1)) /\
    ((exists h, waitForDrainingToComplete bs (ep_heap (fl_m s1)) = Ok h) <->
     forall p, p ∈ bs -> p ∉ fl_held s1) /\
    fl_held s = bs /\ DrainEndpoints_mark example_endpoints (fl_m s) = (bs, m).
Proof.
  destruct (example_flow [FlAdd (take 1 example_endpoints); FlAcquire example_env_lb LOAD_BALANCING_RANDOM]
              (mkFlow (NewFunctionMetadata "f" "dp") [])) as [s| | |] eqn:E1; try by vm_compute in E1.
  destruct (DrainEndpoints_mark example_endpoints (fl_m s)) as [bs m] eqn:E2.
  destruct (example_flow [FlRelease 0] (mkFlow m (fl_held s))) as [s1| | |] eqn:E3;
    try (vm_compute in E1; injection E1 as <-; vm_compute in E2; injection E2 as <- <-; by vm_compute in E3).
  destruct (drain_waits_for_requests "f" "dp" s example_endpoints bs m s1) as (H1&H2&_);
    [by apply (example_flow_run _ _ _ E1)| |exact E2|by apply (example_flow_run _ _ _ E3)|].
  - vm_compute in E1. injection E1 as <-. split.
    + vm_compute. apply NoDup_singleton.
    + intros e p He Hp. vm_compute in Hp. apply list_elem_of_singleton in Hp as ->. revert He.
      vm_compute. intros [->|[->|Hn%elem_of_nil]%elem_of_cons]%elem_of_cons; done.
  - exists s, bs, m, s1. split_and!; try done.
    + vm_compute in E1. injection E1 as <-. vm_compute in E2. by injection E2 as <- <-.
    + vm_compute in E1. injection E1 as <-. vm_compute in E2. by injection E2 as <- <-.
Defined.

(** Draining compares identifiers to mark and addresses to remove, and removes
    one entry per address: an endpoint that was announced twice is marked twice
    and removed once, so it is still listed when the drain completes. *)
Example duplicate_endpoint_stays_listed :
  let twice := take 1 example_endpoints ++ take 1 example_endpoints in
  match example_flow [FlAdd twice] (mkFlow (NewFunctionMetadata "f" "dp") []) with
  | Ok s => let '(bs, m) := DrainEndpoints_mark (take 1 example_endpoints) (fl_m s) in
            bs = [0; 1]%nat /\ fm_upstreamEndpoints m = [1]%nat
  | _ => False
  end.
Proof. vm_compute. split; reflexivity. Qed.

(** ** The instructions of a drain against those of the requests *)

Module Interleaving.

(** Where the draining goroutine is for one endpoint it was asked to drain: it
    holds the lock of the function up to [DrMustSend] and not from
    [DrWaiting] on. *)
Inductive drainer : Type :=
| DrStart                 (* before the compare-and-swap of [Drained] *)
| DrMarked                (* before [make(chan struct{}, 1)] *)
| DrMade                  (* before the load of [InFlight] *)
| DrMustSend              (* [InFlight] was 0: before the send *)
| DrWaiting               (* unlocked, before [<-endpointBarrier] *)
| DrDone.

(** Where the goroutine of a request is in [giveBackCCCapacity]. *)
Inductive request : Type :=
| RqInFlight              (* before the decrement *)
| RqLeft (inflight : Z)   (* before the load of [Drained] *)
| RqMustSend              (* before the send on [DrainingCallback] *)
| RqNilSend               (* in a send on a nil channel, for ever *)
| RqMustReturn            (* before the send on [Capacity] *)
| RqDone.

#[export] Instance drainer_eq : EqDecision drainer.
Proof. solve_decision. Defined.
#[export] Instance request_eq : EqDecision request.
Proof. solve_decision. Defined.

Record cell : Type := mkCell {
  c_ep : UpstreamEndpoint;
  c_drainer : drainer;
  c_requests : list request;
}.

Inductive actor : Type := Drainer | Request (i : nat).

Definition drainer_step (c : cell) : outcome cell :=
  let e := c_ep c in
  match c_drainer c with
  | DrStart =>
      if decide (ue_Drained e = 0)
      then Ok (mkCell (set_drained 1 (ue_DrainingCallback e) e) DrMarked (c_requests c))
      else Ok (mkCell (set_drained 1 (ue_DrainingCallback e) e) DrDone (c_requests c))
  | DrMarked => Ok (mkCell (set_drained (ue_Drained e) (Some false) e) DrMade (c_requests c))
  | DrMade => Ok (mkCell e (if decide (ue_InFlight e = 0) then DrMustSend else DrWaiting) (c_requests c))
  | DrMustSend =>
      match ue_DrainingCallback e with
      | Some false => Ok (mkCell (set_drained (ue_Drained e) (Some true) e) DrWaiting (c_requests c))
      | _ => Blocked
      end
  | DrWaiting =>
      match ue_DrainingCallback e with
      | Some true => Ok (mkCell (set_drained (ue_Drained e) (Some false) e) DrDone (c_requests c))
      | _ => Blocked
      end
  | DrDone => Blocked
  end.

Definition request_step (i : nat) (c : cell) : outcome cell :=
  let e := c_ep c in
  let goto e r := Ok (mkCell e (c_drainer c) (<[i := r]> (c_requests c))) in
  match c_requests c !! i with
  | Some RqInFlight =>
      let inflight := i32 (ue_InFlight e - 1) in
      goto (set_flow (ue_tokens e) inflight (ue_DrainingCallback e) e) (RqLeft inflight)
  | Some (RqLeft inflight) =>
      goto e (if decide (ue_Drained e ≠ 0 /\ inflight = 0) then RqMustSend else RqMustReturn)
  | Some RqMustSend =>
      match ue_DrainingCallback e with
      | None => goto e RqNilSend
      | Some false => goto (set_drained (ue_Drained e) (Some true) e) RqMustReturn
      | Some true => Blocked
      end
  | Some RqMustReturn =>
      if decide (ue_tokens e < ue_cap e)
      then goto (set_flow (ue_tokens e + 1) (ue_InFlight e) (ue_DrainingCallback e) e) RqDone
      else Blocked
  | Some RqNilSend | Some RqDone | None => Blocked
  end.

Definition step (a : actor) (c : cell) : outcome cell :=
  match a with Drainer => drainer_step c | Request i => request_step i c end.

Inductive run : cell -> cell -> Prop :=
| run_nil c : run c c
| run_snoc c1 c2 c3 a : run c1 c2 -> step a c2 = Ok c3 -> run c1 c3.

Definition stuck (c : cell) : Prop := forall a, step a c = Blocked.

(** [n] requests are in flight and the endpoint is not draining. *)
Definition start (e : UpstreamEndpoint) (n : nat) : cell := mkCell e DrStart (replicate n RqInFlight).

Definition busy (l : list request) : Z := Z.of_nat (length (filter (fun r => r = RqInFlight) l)).

(** The request whose decrement reached 0 has yet to look or to send. *)
Definition last_out (r : request) : Prop := r = RqLeft 0 \/ r = RqMustSend.

Definition signalled (c : cell) : Prop :=
  ue_DrainingCallback (c_ep c) = Some true \/ c_drainer c = DrMustSend \/ c_drainer c = DrDone.

Record inv (c : cell) : Prop := {
  i_busy : ue_InFlight (c_ep c) = busy (c_requests c);
  i_small : busy (c_requests c) < 2 ^ 31;
  i_signal : signalled c -> ue_InFlight (c_ep c) = 0;
  i_last : forall r, r ∈ c_requests c -> last_out r -> ue_InFlight (c_ep c) = 0;
  i_drained : c_drainer c ≠ DrStart -> ue_Drained (c_ep c) ≠ 0;
  i_undrained : c_drainer c = DrStart -> ue_Drained (c_ep c) = 0;
  i_chan : (c_drainer c = DrStart \/ c_drainer c = DrMarked) <-> ue_DrainingCallback (c_ep c) = None;
  i_owed : c_drainer c = DrWaiting -> ue_DrainingCallback (c_ep c) = Some true \/
    0 < ue_InFlight (c_ep c) \/ exists r, r ∈ c_requests c /\ last_out r;
}.

Lemma busy_cons x l : busy (x :: l) = busy l + (if decide (x = RqInFlight) then 1 else 0).
Proof. unfold busy. rewrite filter_cons. repeat case_decide; simpl; try done; lia. Qed.

Lemma busy_nonneg l : 0 <= busy l.
Proof. unfold busy. lia. Qed.

Lemma busy_replicate n : busy (replicate n RqInFlight) = Z.of_nat n.
Proof.
  induction n as [|n IH]; [done|]. cbn [replicate]. rewrite busy_cons, IH, decide_True by done. lia.
Qed.

Lemma busy_insert l i r r' :
  l !! i = Some r ->
  busy (<[i := r']> l) = busy l - (if decide (r = RqInFlight) then 1 else 0) + (if decide (r' = RqInFlight) then 1 else 0).
Proof.
  revert i. induction l as [|x l IH]; intros [|i] Hi; [done..| |].
  - injection Hi as ->. cbn. rewrite !busy_cons. lia.
  - change (<[Datatypes.S i := r']> (x :: l)) with (x :: <[i := r']> l). rewrite !busy_cons, (IH i Hi). lia.
Qed.

Lemma busy_pos l : 0 < busy l -> exists i, l !! i = Some RqInFlight.
Proof.
  intros Hb. destruct (decide (RqInFlight ∈ l)) as [Hin|Hin]; [by apply list_elem_of_lookup|].
  exfalso. revert Hb Hin. induction l as [|x l IH]; [done|]. rewrite busy_cons. intros Hb Hin.
  apply not_elem_of_cons in Hin as [Hx Hin]. rewrite decide_False in Hb by congruence. apply IH; [lia|done].
Qed.

Lemma start_inv e n :
  ue_Drained e = 0 -> ue_DrainingCallback e = None -> ue_InFlight e = Z.of_nat n -> Z.of_nat n < 2 ^ 31 ->
  inv (start e n).
Proof.
  intros Hd Hc Hi Hn. split; cbn [start c_ep c_drainer c_requests]; rewrite ?busy_replicate; try done.
  - intros [Hs|[Hs|Hs]]; cbn in Hs; congruence.
  - intros r Hr Hl. apply list_elem_of_lookup in Hr as [i Hr]. apply lookup_replicate in Hr as [-> _].
    by destruct Hl.
  - rewrite Hc. split; [done|by left].
Qed.

Lemma drainer_inv c c' : inv c -> drainer_step c = Ok c' -> inv c'.
Proof.
  destruct c as [e d l]. intros [I1 I2 I3 I4 I5 I6 I7 I8]. unfold drainer_step, signalled in *. cbn in *.
  pose proof (busy_nonneg l).
  destruct d; intros Hs.
  - rewrite I6, decide_True in Hs by done. injection Hs as <-.
    split; cbn; try done; [intros [Hs|[Hs|Hs]]; cbn in Hs; try done; apply I3; by left|].
    split; [by intros _; apply I7; left|by right].
  - injection Hs as <-. split; cbn; try done; [intros [Hs|[Hs|Hs]]; done|by intros _; apply I5|].
    split; [by intros [?|?]|done].
  - injection Hs as <-. split; unfold signalled; cbn; try done.
    + case_decide; [done|]. intros [Hs|[Hs|Hs]]; try done. apply I3. by left.
    + intros _. by apply I5.
    + intros Hd. by case_decide.
    + rewrite <- I7. case_decide; split; by intros [?|?].
    + case_decide; [done|]. intros _. right; left. lia.
  - destruct (ue_DrainingCallback e) as [[]|] eqn:Ec; try done. injection Hs as <-.
    split; unfold signalled; cbn; try done; [intros _; apply I3; auto|intros _; by apply I5| |by left].
    split; [by intros [?|?]|done].
  - destruct (ue_DrainingCallback e) as [[]|] eqn:Ec; try done. injection Hs as <-.
    split; unfold signalled; cbn; try done; [intros _; apply I3; auto|intros _; by apply I5|].
    split; [by intros [?|?]|done].
  - done.
Qed.

Lemma insert_elem (l : list request) i r' x : x ∈ <[i := r']> l -> x = r' \/ x ∈ l.
Proof.
  intros Hx. apply list_elem_of_lookup in Hx as [j Hx]. destruct (decide (i = j)) as [->|Hj].
  - apply list_lookup_insert_Some in Hx as [(_&<-&_)|[? _]]; [by left|done].
  - rewrite list_lookup_insert_ne in Hx by done. right. by eapply list_elem_of_lookup_2.
Qed.

Lemma insert_here (l : list request) i r r' : l !! i = Some r -> r' ∈ <[i := r']> l.
Proof.
  intros Hi. eapply list_elem_of_lookup_2. apply list_lookup_insert_eq. by eapply lookup_lt_Some.
Qed.

Lemma insert_keep (l : list request) i r r' x : l !! i = Some r -> x ∈ l -> x ≠ r -> x ∈ <[i := r']> l.
Proof.
  intros Hi Hx Hr. apply list_elem_of_lookup in Hx as [j Hx].
  apply (list_elem_of_lookup_2 _ j). rewrite list_lookup_insert_ne; [done|]. intros <-. congruence.
Qed.

(** The decrement of a request. *)
Lemma leave_inv i e d l :
  inv (mkCell e d l) -> l !! i = Some RqInFlight ->
  inv (mkCell (set_flow (ue_tokens e) (i32 (ue_InFlight e - 1)) (ue_DrainingCallback e) e) d
         (<[i := RqLeft (i32 (ue_InFlight e - 1))]> l)).
Proof.
  intros [I1 I2 I3 I4 I5 I6 I7 I8] Hi. unfold signalled in *. cbn in *.
  pose proof (busy_insert l i _ (RqLeft (i32 (ue_InFlight e - 1))) Hi) as Hb.
  rewrite decide_True in Hb by done. rewrite decide_False in Hb by done.
  pose proof (busy_nonneg (<[i := RqLeft (i32 (ue_InFlight e - 1))]> l)) as Hpos.
  assert (E : i32 (ue_InFlight e - 1) = ue_InFlight e - 1) by (apply i32_id; unfold is_i32; lia).
  rewrite E in *. split; unfold signalled; cbn; try done; [lia|lia|intros Hsig; specialize (I3 Hsig); lia| |].
  - intros x [->|Hx]%insert_elem Hl; [destruct Hl as [[= Hl]|]; [lia|done]|].
    specialize (I4 x Hx Hl). lia.
  - intros Hd. destruct (decide (ue_InFlight e - 1 = 0)) as [Hz|Hz]; [|right; left; lia].
    right; right. exists (RqLeft (ue_InFlight e - 1)). split; [by eapply insert_here|]. left. by rewrite Hz.
Qed.

(** Any other step of a request: it signals at most when nothing is in flight,
    and what it owed the drain it still owes or has sent. *)
Lemma goto_inv i e e' d l r r' :
  inv (mkCell e d l) -> l !! i = Some r -> r ≠ RqInFlight -> r' ≠ RqInFlight ->
  ue_InFlight e' = ue_InFlight e -> ue_Drained e' = ue_Drained e ->
  (ue_DrainingCallback e' = ue_DrainingCallback e \/
   ue_DrainingCallback e = Some false /\ ue_DrainingCallback e' = Some true /\ ue_InFlight e = 0) ->
  (last_out r' -> ue_InFlight e = 0) ->
  (d = DrWaiting -> last_out r -> last_out r' \/ ue_DrainingCallback e' = Some true) ->
  inv (mkCell e' d (<[i := r']> l)).
Proof.
  intros [I1 I2 I3 I4 I5 I6 I7 I8] Hi Hr Hr' Ef Ed Ec Hl' Howed. unfold signalled in *. cbn in *.
  assert (Hb : busy (<[i := r']> l) = busy l).
  { rewrite (busy_insert _ _ _ _ Hi), !decide_False by done. lia. }
  split; unfold signalled; cbn; rewrite ?Hb, ?Ef, ?Ed; try done.
  - destruct Ec as [->|(_&_&?)]; [done|done].
  - intros x [->|Hx]%insert_elem Hl; [by apply Hl'|by eapply I4].
  - rewrite I7. destruct Ec as [->|(->&->&_)]; done.
  - intros Hw. destruct (I8 Hw) as [Hc|[?|(x&Hx&Hl)]]; [|by auto|].
    + destruct Ec as [->|(?&?&_)]; [by left|congruence].
    + destruct (decide (x = r)) as [->|Hxr].
      * destruct (Howed Hw Hl) as [Hl2|?]; [|by left]. right; right. exists r'.
        split; [by eapply insert_here|done].
      * right; right. exists x. split; [by eapply insert_keep|done].
Qed.

Lemma request_inv i c c' : inv c -> request_step i c = Ok c' -> inv c'.
Proof.
  destruct c as [e d l]. intros Hinv. unfold request_step. cbn.
  destruct (l !! i) as [r|] eqn:Hi; [|done].
  pose proof (i_last _ Hinv r (list_elem_of_lookup_2 _ _ _ Hi)) as Hlast. cbn in Hlast.
  pose proof (i_drained _ Hinv) as Hd. pose proof (proj2 (i_chan _ Hinv)) as Hc. cbn in Hd, Hc.
  destruct r as [|v| | | |]; intros Hs; try done.
  - injection Hs as <-. by apply leave_inv.
  - injection Hs as <-. eapply goto_inv; try done; [by case_decide|by left| |].
    + case_decide as Hv; [|by intros [?|?]]. intros _. apply Hlast. left. by destruct Hv as [_ ->].
    + intros Hw [[= ->]|?]; [|done]. left. right. apply decide_True. split; [|done]. apply Hd. congruence.
  - assert (Hz : ue_InFlight e = 0) by (apply Hlast; by right).
    destruct (ue_DrainingCallback e) as [[]|] eqn:Ec; try done; injection Hs as <-.
    + eapply goto_inv; try done; [by right|by right].
    + eapply goto_inv; try done; [by left|]. intros ->. by destruct (Hc eq_refl).
  - revert Hs. case_decide; [|done]. intros [= <-].
    eapply goto_inv; try done; [by left|by intros [?|?]|by intros _ [?|?]].
Qed.

Lemma run_inv c c' : run c c' -> inv c -> inv c'.
Proof.
  induction 1 as [|c1 c2 c3 a Hr IH Hs]; [done|]. intros Hi. specialize (IH Hi).
  destruct a; [exact (drainer_inv _ _ IH Hs)|exact (request_inv _ _ _ IH Hs)].
Qed.

Lemma stuck_drainer c : inv c -> stuck c ->
  c_drainer c = DrDone \/ c_drainer c = DrMustSend /\ ue_DrainingCallback (c_ep c) = Some true.
Proof.
  intros [I1 I2 I3 I4 I5 I6 I7 I8] Hs. pose proof (Hs Drainer) as H0. cbn in H0. unfold drainer_step in H0.
  destruct c as [e d l]. cbn in *. destruct d; try done; [by case_decide| | |by left].
  - destruct (ue_DrainingCallback e) as [[]|] eqn:Ec; [by right|done|].
    destruct (proj2 I7 eq_refl); done.
  - exfalso. destruct (ue_DrainingCallback e) as [[]|] eqn:Ec; [done| |by destruct (proj2 I7 eq_refl)].
    destruct (I8 eq_refl) as [?|[Hpos|(r&Hr&Hl)]]; [done| |].
    + destruct (busy_pos l ltac:(lia)) as [i Hi]. specialize (Hs (Request i)). cbn in Hs.
      unfold request_step in Hs. cbn in Hs. by rewrite Hi in Hs.
    + apply list_elem_of_lookup in Hr as [i Hi]. specialize (Hs (Request i)). cbn in Hs.
      unfold request_step in Hs. cbn in Hs. rewrite Hi in Hs. destruct Hl as [->| ->]; [done|].
      by rewrite Ec in Hs.
Qed.

(** The request whose decrement reached 0, as long as it has not sent its
    signal; [RqNilSend] never will. *)
Definition owes (r : request) : Prop := last_out r \/ r = RqNilSend.
Lemma owes_cases r : owes r <-> r = RqLeft 0 \/ r = RqMustSend \/ r = RqNilSend.
Proof. unfold owes, last_out. tauto. Qed.
Definition unfinished (l : list request) : Z := Z.of_nat (length (filter (fun r => r ≠ RqDone) l)).

Lemma unfinished_insert l i r r' :
  l !! i = Some r ->
  unfinished (<[i := r']> l) = unfinished l - (if decide (r = RqDone) then 0 else 1) + (if decide (r' = RqDone) then 0 else 1).
Proof.
  intros Hi. unfold unfinished. rewrite (insert_take_drop l i r') by (by eapply lookup_lt_Some).
  rewrite <- (take_drop_middle l i r Hi) at 3. rewrite !list.filter_app, !length_app, !filter_cons.
  repeat case_decide; cbn; try tauto; lia.
Qed.

(** At most one request owes the signal, and none once it is on the channel,
    unless the drain itself has put it there; every unfinished request still
    has the token it took. *)
Record inv_last (c : cell) : Prop := {
  l_idle : forall r, r ∈ c_requests c -> owes r -> ue_InFlight (c_ep c) = 0;
  l_unique : forall i j r r', c_requests c !! i = Some r -> c_requests c !! j = Some r' ->
    owes r -> owes r' -> i = j;
  l_sent : c_drainer c ≠ DrWaiting -> ue_DrainingCallback (c_ep c) = Some true ->
    forall r, r ∈ c_requests c -> ¬ owes r;
  l_tokens : ue_tokens (c_ep c) + unfinished (c_requests c) <= ue_cap (c_ep c);
}.

Lemma start_last e n :
  ue_tokens e + Z.of_nat n <= ue_cap e -> ue_DrainingCallback e = None -> inv_last (start e n).
Proof.
  intros Ht Hc. split; cbn [start c_ep c_drainer c_requests].
  - intros r Hr Ho. apply list_elem_of_lookup in Hr as [i [-> _]%lookup_replicate].
    by apply owes_cases in Ho as [?|[?|?]].
  - intros i j r r' [-> _]%lookup_replicate _ Ho. by apply owes_cases in Ho as [?|[?|?]].
  - by rewrite Hc.
  - assert (E : unfinished (replicate n RqInFlight) = Z.of_nat n); [|lia]. unfold unfinished. f_equal.
    clear. induction n as [|n IH]; [done|]. cbn [replicate]. rewrite filter_cons, decide_True by done.
    cbn [length]. by rewrite IH.
Qed.

Lemma drainer_last c c' : inv c -> inv_last c -> drainer_step c = Ok c' -> inv_last c'.
Proof.
  destruct c as [e d l]. intros Hinv [L1 L2 L3 L4]. pose proof (proj1 (i_chan _ Hinv)) as Hnone.
  unfold drainer_step. cbn in *. destruct d; intros Hs.
  - case_decide; injection Hs as <-; split; cbn; try done; intros _ Hc; apply L3; done.
  - injection Hs as <-. by split.
  - injection Hs as <-. split; cbn; try done. intros _ Hc. apply L3; [done|exact Hc].
  - destruct (ue_DrainingCallback e) as [[]|]; try done. injection Hs as <-. by split.
  - destruct (ue_DrainingCallback e) as [[]|]; try done. injection Hs as <-. by split.
  - done.
Qed.

(** A step of request [i] to [r'], after which only [i] may owe more than
    before. *)
Lemma goto_last i e e' d l r r' :
  inv_last (mkCell e d l) -> l !! i = Some r ->
  (ue_InFlight e' = ue_InFlight e \/ forall x, x ∈ l -> ¬ owes x) ->
  (owes r' -> ue_InFlight e' = 0 /\ (owes r \/ forall x, x ∈ l -> ¬ owes x)) ->
  (d ≠ DrWaiting -> ue_DrainingCallback e' = Some true ->
     ¬ owes r' /\ (ue_DrainingCallback e = Some true \/ owes r)) ->
  ue_cap e' = ue_cap e ->
  ue_tokens e' + (if decide (r' = RqDone) then 0 else 1) <= ue_tokens e + (if decide (r = RqDone) then 0 else 1) ->
  inv_last (mkCell e' d (<[i := r']> l)).
Proof.
  intros [L1 L2 L3 L4] Hi Hf Ho Hsent Hcap Htok. cbn in *.
  assert (Hoth : forall j x, i ≠ j -> l !! j = Some x -> owes x -> owes r -> False).
  { intros j x Hj Hx Hox Hor. apply Hj. by eapply L2. }
  split; cbn.
  - intros x [->|Hx]%insert_elem Hox; [by apply Ho|]. destruct Hf as [->|Hno]; [by eapply L1|by apply Hno in Hox].
  - clear Htok. intros j k x x'. rewrite !list_lookup_insert. repeat case_decide; destruct_and?; subst; try done.
    + intros [= <-] Hx' Hx Hox'. destruct (Ho Hx) as [_ [Hor|Hno]]; exfalso.
      * eapply (Hoth k x'); [|done..]. intros ->. pose proof (lookup_lt_Some _ _ _ Hx'). tauto.
      * by eapply (Hno x'); [by eapply list_elem_of_lookup_2|].
    + intros Hx [= <-] Hox Hx'. destruct (Ho Hx') as [_ [Hor|Hno]]; exfalso.
      * eapply (Hoth j x); [|done..]. intros ->. pose proof (lookup_lt_Some _ _ _ Hx). tauto.
      * by eapply (Hno x); [by eapply list_elem_of_lookup_2|].
    + eauto.
  - clear Htok. intros Hd Hc x Hx Hox. destruct (Hsent Hd Hc) as [Hnr Hcase].
    apply list_elem_of_lookup in Hx as [j Hx]. rewrite list_lookup_insert in Hx. case_decide as Hij.
    { injection Hx as ->. done. }
    assert (Hj : i ≠ j) by (intros ->; apply Hij; split; [done|by eapply lookup_lt_Some]).
    destruct Hcase as [Ht|Hor]; [|by eapply Hoth].
    eapply (L3 Hd Ht x); [by eapply list_elem_of_lookup_2|done].
  - rewrite (unfinished_insert _ _ _ _ Hi), Hcap. lia.
Qed.

Lemma not_owes_InFlight : ¬ owes RqInFlight. Proof. by intros [?|[?|?]]%owes_cases. Qed.
Lemma not_owes_MustReturn : ¬ owes RqMustReturn. Proof. by intros [?|[?|?]]%owes_cases. Qed.
Lemma not_owes_Done : ¬ owes RqDone. Proof. by intros [?|[?|?]]%owes_cases. Qed.
Hint Resolve not_owes_InFlight not_owes_MustReturn not_owes_Done : core.

Lemma request_last i c c' : inv c -> inv_last c -> request_step i c = Ok c' -> inv_last c'.
Proof.
  destruct c as [e d l]. intros Hinv Hlast. unfold request_step. cbn.
  destruct (l !! i) as [r|] eqn:Hi; [|done]. pose proof (list_elem_of_lookup_2 _ _ _ Hi) as Hin.
  pose proof (i_chan _ Hinv) as Hchan. cbn in Hchan.
  destruct r as [|v| | | |]; intros Hs; try done.
  - injection Hs as <-.
    assert (Hpos : 0 < ue_InFlight e < 2 ^ 31).
    { pose proof (i_busy _ Hinv) as Hb. pose proof (i_small _ Hinv) as Hm. cbn in Hb, Hm.
      pose proof (busy_insert _ _ _ RqDone Hi) as Hx. rewrite decide_True, decide_False in Hx by done.
      pose proof (busy_nonneg (<[i := RqDone]> l)). lia. }
    assert (Hno : forall x, x ∈ l -> ¬ owes x).
    { intros x Hx Ho. pose proof (l_idle _ Hlast x Hx Ho) as Hz. cbn in Hz. lia. }
    assert (E : i32 (ue_InFlight e - 1) = ue_InFlight e - 1) by (apply i32_id; unfold is_i32; lia).
    rewrite E. eapply goto_last; [exact Hlast|exact Hi|by right| | |done|cbn; repeat case_decide; try done; lia].
    + intros [[= Hz]|[?|?]]%owes_cases; [|done..]. split; [done|by right].
    + intros Hd Hc. cbn in Hc. exfalso. pose proof (i_signal _ Hinv (or_introl Hc)) as Hz. cbn in Hz. lia.
  - injection Hs as <-. eapply goto_last; [exact Hlast|exact Hi|by left| | |done|].
    + case_decide as Hv; [|by intros Ho; apply not_owes_MustReturn in Ho].
      intros _. assert (Hl : owes (RqLeft v)) by (left; left; by destruct Hv as [_ ->]).
      split; [by eapply (l_idle _ Hlast)|by left].
    + intros Hd Hc. split; [|by left]. case_decide as Hv; [|done].
      intros _. eapply (l_sent _ Hlast Hd Hc _ Hin). left; left. by destruct Hv as [_ ->].
    + repeat case_decide; try done; lia.
  - assert (Hl : owes RqMustSend) by (left; by right).
    destruct (ue_DrainingCallback e) as [[]|] eqn:Ec; try done; injection Hs as <-.
    + eapply goto_last; [exact Hlast|exact Hi|by left|by intros Ho; apply not_owes_MustReturn in Ho| |done|cbn; repeat case_decide; try done; lia].
      intros _ _. split; [done|by right].
    + eapply goto_last; [exact Hlast|exact Hi|by left| | |done|cbn; repeat case_decide; try done; lia].
      * intros _. split; [by eapply (l_idle _ Hlast)|by left].
      * intros _ Hc. congruence.
  - revert Hs. case_decide as Ht; [|done]. intros [= <-].
    eapply goto_last; [exact Hlast|exact Hi|by left|by intros Ho; apply not_owes_Done in Ho| |done|cbn; repeat case_decide; try done; lia].
    intros Hd Hc. split; [done|by left].
Qed.

Lemma run_last c c' : run c c' -> inv c -> inv_last c -> inv_last c'.
Proof.
  induction 1 as [|c1 c2 c3 a Hr IH Hs]; [done|]. intros Hi Hl. specialize (IH Hi Hl).
  pose proof (run_inv _ _ Hr Hi) as Hi2.
  destruct a; [exact (drainer_last _ _ Hi2 IH Hs)|exact (request_last _ _ _ Hi2 IH Hs)].
Qed.

(** In a state in which nothing moves a request is through, or in the send on
    the nil channel. *)
Lemma stuck_request c r :
  inv c -> inv_last c -> stuck c -> r ∈ c_requests c -> r = RqDone \/ r = RqNilSend.
Proof.
  intros Hinv Hlast Hs Hr. pose proof (stuck_drainer c Hinv Hs) as Hd.
  assert (Hnw : c_drainer c ≠ DrWaiting) by (destruct Hd as [->|[-> _]]; done).
  pose proof Hr as (i&Hi)%list_elem_of_lookup. pose proof (Hs (Request i)) as Hb. cbn in Hb.
  unfold request_step in Hb. rewrite Hi in Hb. destruct r as [|v| | | |]; try done; [|by right| |by left].
  - exfalso. destruct (ue_DrainingCallback (c_ep c)) as [[]|] eqn:Ec; try done.
    eapply (l_sent _ Hlast Hnw Ec _ Hr). left. by right.
  - exfalso. revert Hb. case_decide as Ht; [done|]. intros _. apply Ht.
    pose proof (l_tokens _ Hlast) as Htok. pose proof (unfinished_insert _ _ _ RqDone Hi) as Hu.
    rewrite decide_False, decide_True in Hu by done.
    assert (0 <= unfinished (<[i := RqDone]> (c_requests c))) by (unfold unfinished; lia). lia.
Qed.

(** C10: In every interleaving of the instructions of a drain with those of the
    [n] requests in flight on the endpoint, each of which holds a token of its
    capacity: when the drain has returned, every request has left the endpoint.
    And the states in which no goroutine can move are exactly of three kinds:
    the drain has returned and every request is through; the drain has returned
    and one request, the last, sits for ever in a send on a nil channel, the
    others being through; or every request is through and the drain is about to
    send on the callback channel, which the last request has already filled,
    while it holds the lock of the function. *)
Theorem drain_interleavings e n c :
  ue_Drained e = 0 -> ue_DrainingCallback e = None -> ue_InFlight e = Z.of_nat n -> Z.of_nat n < 2 ^ 31 ->
  ue_tokens e + Z.of_nat n <= ue_cap e ->
  run (start e n) c ->
  (c_drainer c = DrDone -> ue_InFlight (c_ep c) = 0 /\ RqInFlight ∉ c_requests c) /\
  (stuck c <->
     c_drainer c = DrDone /\ Forall (eq RqDone) (c_requests c) \/
     c_drainer c = DrDone /\ (exists i, c_requests c !! i = Some RqNilSend /\
        forall j r, c_requests c !! j = Some r -> j ≠ i -> r = RqDone) \/
     c_drainer c = DrMustSend /\ ue_DrainingCallback (c_ep c) = Some true /\ Forall (eq RqDone) (c_requests c)).
Proof.
  intros Hd Hc Hi Hn Ht Hr. pose proof (start_inv _ _ Hd Hc Hi Hn) as H0.
  pose proof (run_inv _ _ Hr H0) as Hinv. pose proof (run_last _ _ Hr H0 (start_last _ _ Ht Hc)) as Hlast.
  split.
  - intros Hdone. assert (ue_InFlight (c_ep c) = 0) as Hz by (apply (i_signal _ Hinv); right; by right).
    split; [done|]. intros [j Hj]%list_elem_of_lookup. rewrite (i_busy _ Hinv) in Hz.
    pose proof (busy_insert _ _ _ RqDone Hj) as Hb. rewrite decide_True, decide_False in Hb by done.
    pose proof (busy_nonneg (<[j := RqDone]> (c_requests c))). lia.
  - split.
    + intros Hs. pose proof (fun r => stuck_request c r Hinv Hlast Hs) as Hreq.
      assert (Hnil : owes RqNilSend) by (by right).
      destruct (decide (RqNilSend ∈ c_requests c)) as [Hin|Hnin].
      * pose proof Hin as (i&Hni)%list_elem_of_lookup.
        destruct (stuck_drainer c Hinv Hs) as [Hdd|[Hdm Hcb]].
        -- right; left. split; [done|]. exists i. split; [done|]. intros j r Hj Hne.
           destruct (Hreq r (list_elem_of_lookup_2 _ _ _ Hj)) as [?| ->]; [done|].
           exfalso. apply Hne. by eapply (l_unique _ Hlast).
        -- exfalso. eapply (l_sent _ Hlast); [by rewrite Hdm|exact Hcb|exact Hin|exact Hnil].
      * assert (Hall : Forall (eq RqDone) (c_requests c)).
        { apply list.Forall_forall. intros r Hr'. destruct (Hreq r Hr') as [?| ->]; [done|done]. }
        destruct (stuck_drainer c Hinv Hs) as [?|[? ?]]; [by left|by right; right].
    + assert (Hall : Forall (fun r => r = RqDone \/ r = RqNilSend) (c_requests c) ->
        c_drainer c = DrDone \/ c_drainer c = DrMustSend /\ ue_DrainingCallback (c_ep c) = Some true -> stuck c).
      { intros Hf Hcase [|i]; cbn.
        - unfold drainer_step. destruct Hcase as [->|[-> ->]]; done.
        - unfold request_step. destruct (c_requests c !! i) as [r|] eqn:Ei; [|done].
          eapply list.Forall_lookup_1 in Hf; [|exact Ei]. by destruct Hf as [->| ->]. }
      intros [[H1 H2]|[[H1 (i&Hni&H2)]|(H1&H2&H3)]]; apply Hall; auto.
      * eapply list.Forall_impl; [exact H2|]. auto.
      * apply list.Forall_lookup_2. intros j r Hj. destruct (decide (j = i)) as [->|Hne]; [right; congruence|eauto].
      * eapply list.Forall_impl; [exact H3|]. auto.
Qed.

Definition schedule (l : list actor) (c : cell) : outcome cell :=
  foldl (fun r a => c ← r; step a c) (Ok c) l.

Lemma schedule_run l c c' : schedule l c = Ok c' -> run c c'.
Proof.
  revert c'. induction l as [|a l IH] using rev_ind; intros c'; unfold schedule in *.
  { intros [= <-]. constructor. }
  rewrite foldl_app. simpl. intros H. apply outcome_bind_Ok in H as (c1&H1&H2).
  eapply run_snoc; [by apply IH|exact H2].
Qed.

Definition example_busy : UpstreamEndpoint := mkUpstreamEndpoint "s1" "10.0.0.1:80" 1 0 0 None 1.

(** The drain before the last request: the drain returns. *)
Lemma drain_interleavings_witness :
  exists c, run (start example_busy 1) c /\ c_drainer c = DrDone /\ ue_InFlight (c_ep c) = 0.
Proof.
  destruct (schedule ([Drainer; Drainer; Drainer] ++ [Request 0; Request 0; Request 0; Request 0] ++ [Drainer])
              (start example_busy 1)) as [c| | |] eqn:E; try by vm_compute in E.
  assert (Hd : c_drainer c = DrDone) by (vm_compute in E; by injection E as <-).
  exists c. split; [by apply (schedule_run _ _ _ E)|]. split; [done|].
  apply (drain_interleavings example_busy 1 c); try reflexivity; [by apply (schedule_run _ _ _ E)|exact Hd].
Defined.

(** The stuck interleaving exists: the drain marks the endpoint and makes the
    channel, the last request completes and fills the channel, and the drain,
    which still holds the lock, reads that nothing is in flight and sends on
    the full channel.  Every later operation of the function that takes the
    lock waits for it. *)
Theorem drain_can_deadlock :
  exists c, run (start example_busy 1) c /\ c_drainer c = DrMustSend /\ c_requests c = [RqDone] /\ stuck c.
Proof.
  destruct (schedule ([Drainer; Drainer] ++ [Request 0; Request 0; Request 0; Request 0] ++ [Drainer])
              (start example_busy 1)) as [c| | |] eqn:E; try by vm_compute in E.
  exists c. split; [by apply (schedule_run _ _ _ E)|]. vm_compute in E. injection E as <-.
  split_and!; [done|done|]. by intros [|[|i]].
Qed.

(** A request that reads the mark before the channel is made sends on a nil
    channel and never returns its capacity, although the drain completes. *)
Theorem nil_callback_blocks_request :
  exists c, run (start example_busy 1) c /\ c_drainer c = DrDone /\ c_requests c = [RqNilSend] /\
    ue_tokens (c_ep c) = 0 /\ stuck c.
Proof.
  destruct (schedule ([Drainer; Request 0; Request 0; Request 0] ++ [Drainer; Drainer; Drainer; Drainer])
              (start example_busy 1)) as [c| | |] eqn:E; try by vm_compute in E.
  exists c. split; [by apply (schedule_run _ _ _ E)|]. vm_compute in E. injection E as <-.
  split_and!; [done|done|done|]. by intros [|[|i]].
Qed.
End Interleaving.

(** ** A request between its choice and its token *)

(** A request that has chosen an endpoint waits up to 250 ms for a token of it
    and is counted as in flight only then: when the endpoint is drained in
    between, the drain completes at once and the request is still given the
    endpoint. *)
Theorem late_admission_after_drain fuel d1 d2 policy m p m1 e :
  runLoadBalancingAlgorithm fuel d1 d2 policy m = Ok (Some p, m1) ->
  NoDup (id_of (ep_heap m) <$> fm_upstreamEndpoints m) ->
  ep_heap m !! p = Some e -> ue_Drained e = 0 -> ue_InFlight e = 0 -> 0 < ue_tokens e ->
  let '(bs, m2) := DrainEndpoints_mark [mkEndpointInfo (ue_ID e) (ue_URL e)] m1 in
  exists h m3 m4,
    waitForDrainingToComplete bs (ep_heap m2) = Ok h /\
    waitForCapacityOrDie true p (set_endpoints m2 h (fm_upstreamEndpoints m2) (fm_next m2)) = Ok (true, m3) /\
    DoLoadBalancing_admit p m3 = Ok m4 /\
    (ue_InFlight <$> ep_heap m4 !! p) = Some 1 /\ (ue_Drained <$> ep_heap m4 !! p) = Some 1.
Proof.
  intros Hrun Hids He Hd Hf Ht.
  pose proof (runLoadBalancing_elem _ _ _ _ _ _ _ Hrun) as [Hin Hl]. specialize (Hin p eq_refl).
  apply runLoadBalancing_same in Hrun as (Hh&_). rewrite <- Hh, <- Hl in *.
  unfold DrainEndpoints_mark, markEndpointsAsDraining. cbn [fmap list_fmap].
  destruct (mark_loop _ _ _) as [bs h1] eqn:E. cbn.
  destruct (mark_loop_single _ _ _ _ _ _ Hids Hin He Hd E) as [-> Hp].
  exists (<[p := set_drained 1 (Some false) e]> h1). rewrite Hf in Hp. cbn. rewrite Hp. cbn.
  unfold waitForCapacityOrDie, DoLoadBalancing_admit. cbn. rewrite lookup_insert_eq. cbn.
  rewrite decide_True by done. do 2 eexists. split; [done|]. split; [done|]. cbn.
  rewrite lookup_insert_eq. cbn. split; [done|]. cbn. rewrite lookup_insert_eq. cbn. by rewrite Hf.
Qed.
