(* ===== verification/Proxy.v ===== *)
(** * The proxies of the data plane

    [internal/data_plane/proxy]: the synchronous invocation handler
    ([sync_proxy_handler.go]), the asynchronous one with its retries, its
    responses and their garbage collection ([async_proxy_handler.go],
    [requests]), and [internal/data_plane/data_plane.go], the handlers of the
    calls of the control plane. *)
From Stdlib Require Import ZArith Lia.
From stdpp Require Import base tactics list gmap strings sets numbers.
From S2P Require Import Prelude Sync Autoscaling Core FunctionMetadata LoadBalancing Draining.

Local Open Scope Z_scope.

(** HTTP status codes *)
Definition StatusOK : Z := 200.
Definition StatusBadRequest : Z := 400.
Definition StatusNotFound : Z := 404.
Definition StatusGone : Z := 410.
Definition StatusInternalServerError : Z := 500.
Definition StatusGatewayTimeout : Z := 504.

(** ** One invocation

    [inv_wait c] is what happens between the enqueueing and the reception on
    the wait channel [c]: the environment of the handler. *)
Record invocation_env : Type := mkInvocationEnv {
  inv_lb : lb_env;
  inv_wait : nat -> GoM FM ColdStartOutcome;
}.

(** How far an invocation gets: its cold start is cancelled, the load
    balancing gives up, or the sandbox is reached, with a result. *)
Inductive routed (A : Type) : Type :=
| RCanceled
| RNoSandbox
| RReached (a : A).
Arguments RCanceled {A}.
Arguments RNoSandbox {A}.
Arguments RReached {A} a.

(** [TryWarmStart] with the wait for the cold start. *)
Definition cold_or_warm_start (env : invocation_env) : GoM FM (option ColdStartOutcome) := fun m =>
  let '(must_wait, m1) := TryWarmStart_load m in
  if must_wait then
    let '(c, m2) := TryWarmStart_enqueue m1 in
    r ← inv_wait env c m2;
    let '(o, m3) := (r : ColdStartOutcome * FM) in
    Ok (Some o, update_stats DecrementQueueDepth m3)
  else Ok (None, m1).

(** The deferred calls. *)
Definition end_invocation (m : FM) : FM := update_stats DecrementInflight (DecreaseInflight m).

(** The code the synchronous and the asynchronous handler have in common:
    cold or warm start, load balancing, the exchange with the sandbox and the
    deferred calls, which run on every path. *)
Definition with_endpoint {A} (env : invocation_env) (policy : Z) (exchange : GoM FM A)
  : GoM FM (routed A) := fun m =>
  r ← cold_or_warm_start env m;
  let '(o, m1) := (r : option ColdStartOutcome * FM) in
  if decide (o = Some CanceledColdStart) then Ok (RCanceled, end_invocation m1)
  else
    r ← DoLoadBalancing (inv_lb env) policy m1;
    let '(endpoint, m2) := (r : option nat * FM) in
    match endpoint with
    | None => Ok (RNoSandbox, end_invocation m2)
    | Some p =>
        r ← exchange m2;
        let '(a, m3) := (r : A * FM) in
        m4 ← giveBackCCCapacity p m3;
        Ok (RReached a, end_invocation m4)
    end.

(** The handler runs on the metadata of the service; [None] when it is not
    deployed. *)
Definition on_deployment {A} (serviceName : string) (f : GoM FM A) : GoM Deployments (option A) := fun d =>
  match GetDeployment serviceName d with
  | None => Ok (None, d)
  | Some m => r ← f m; let '(a, m') := (r : A * FM) in Ok (Some a, <[serviceName := m']> d)
  end.

(** [createInvocationHandler]: the status code of the answer, where
    [proxied] is the one the reverse proxy [next] writes. *)
Definition createInvocationHandler (env : invocation_env) (policy proxied : Z) (serviceName : string)
  : GoM Deployments Z :=
  r ← on_deployment serviceName
        (with_endpoint env policy
           (fun m => Ok (proxied, update_stats IncrementSuccessfulInvocations m)));
  mret match r with
       | None => StatusNotFound
       | Some RCanceled => StatusGatewayTimeout
       | Some RNoSandbox => StatusGone
       | Some (RReached status) => status
       end.

(** ** The handlers of the control plane's calls *)

Record Dataplane : Type := mkDataplane {
  dpl_deployments : Deployments;
  dpl_dataplaneID : string;
}.

(** [DeploymentEndpointPatch]: both fields may be nil. *)
Record DeploymentEndpointPatch : Type := mkPatch {
  patch_Service : option string;
  patch_Endpoints : option (list EndpointInfo);
}.

Definition Dataplane_AddDeployment (name : string) (d : Dataplane) : bool * Dataplane :=
  let '(ok, ds) := Deployments_Add name (dpl_dataplaneID d) (dpl_deployments d) in
  (ok, mkDataplane ds (dpl_dataplaneID d)).
Definition Dataplane_DeleteDeployment (name : string) (d : Dataplane) : bool * Dataplane :=
  let '(ok, ds) := Deployments_Delete name (dpl_deployments d) in
  (ok, mkDataplane ds (dpl_dataplaneID d)).

Definition cleanCache (d : Dataplane) : Dataplane :=
  mkDataplane (RemoveAllEndpoints <$> dpl_deployments d) (dpl_dataplaneID d).

Definition UpdateEndpointList (patch : DeploymentEndpointPatch) (d : Dataplane)
  : outcome (bool * go_error * Dataplane) :=
  match patch_Service patch, patch_Endpoints patch with
  | None, None => Ok (true, None, cleanCache d)
  | svc, eps =>
      let name := default EmptyString svc in
      match GetDeployment name (dpl_deployments d) with
      | None => Ok (false, Some "deployment does not exists on the data plane side", d)
      | Some m =>
          m' ← AddEndpoints (default [] eps) m;
          Ok (true, None, mkDataplane (<[name := m']> (dpl_deployments d)) (dpl_dataplaneID d))
      end
  end.

Definition Dataplane_DrainSandbox (patch : DeploymentEndpointPatch) (d : Dataplane)
  : outcome (bool * go_error * Dataplane) :=
  let name := default EmptyString (patch_Service patch) in
  match GetDeployment name (dpl_deployments d) with
  | None => Ok (false, Some "deployment does not exists on the data plane side", d)
  | Some m =>
      let '(bs, m1) := DrainEndpoints_mark (default [] (patch_Endpoints patch)) m in
      h ← waitForDrainingToComplete bs (ep_heap m1);
      let m2 := set_endpoints m1 h (fm_upstreamEndpoints m1) (fm_next m1) in
      Ok (true, None, mkDataplane (<[name := m2]> (dpl_deployments d)) (dpl_dataplaneID d))
  end.

(** [resp.Service] are the services the control plane listed. *)
Definition syncDeploymentCache (services : option (list string)) (d : Dataplane) : go_error * Dataplane :=
  match services with
  | None => (Some "initial deployment cache synchronization failed", d)
  | Some l => (None, foldl (fun d name => (Dataplane_AddDeployment name d).2) d l)
  end.

Definition parseLoadBalancingPolicy (policy : string) : Z :=
  if decide (policy = "random") then LOAD_BALANCING_RANDOM
  else if decide (policy = "round-robin") then LOAD_BALANCING_ROUND_ROBIN
  else if decide (policy = "least-processed") then LOAD_BALANCING_LEAST_PROCESSED
  else if decide (policy = "knative") then LOAD_BALANCING_KNATIVE
  else LOAD_BALANCING_RANDOM.

(** ** Accounting of requests *)

(** The counters that a request increments on arrival. *)
Definition in_system (m : FM) : Z * Z * Z :=
  (fm_inflightRequests m, st_Inflight (fm_statistics m), st_QueueDepth (fm_statistics m)).

Definition counters_in_range (m : FM) : Prop :=
  is_i32 (fm_inflightRequests m) /\ is_i64 (st_Inflight (fm_statistics m)) /\
  is_i64 (st_QueueDepth (fm_statistics m)).

(** One request more, or less, in the system and in the queue. *)
Definition in_system_plus (k : Z) (m : FM) : Z * Z * Z :=
  (i32 (fm_inflightRequests m + k), i64 (st_Inflight (fm_statistics m) + k),
   i64 (st_QueueDepth (fm_statistics m) + k)).

(** During the wait the rest of the system does what it does; the counter of
    requests stays an [int32]. *)
Definition int32_wait (wait : nat -> GoM FM ColdStartOutcome) : Prop :=
  forall c m o m', wait c m = Ok (o, m') -> is_i32 (fm_inflightRequests m').

Lemma i64_inc_dec a : is_i64 a -> i64 (i64 (a + 1) + -1) = a.
Proof. intros Ha. rewrite i64_add_l. rewrite <- Z.add_assoc, Z.add_0_r. by apply i64_id. Qed.
Lemma i32_inc_dec a : is_i32 a -> i32 (i32 (a + 1) - 1) = a.
Proof.
  intros Ha. unfold Z.sub. rewrite i32_add_l. rewrite <- Z.add_assoc, Z.add_0_r. by apply i32_id.
Qed.

(** What the counters are once the request is in, queue left again. *)
Definition entered (m m1 : FM) : Prop :=
  fm_inflightRequests m1 = i32 (fm_inflightRequests m + 1) /\
  st_Inflight (fm_statistics m1) = i64 (st_Inflight (fm_statistics m) + 1) /\
  st_QueueDepth (fm_statistics m1) = st_QueueDepth (fm_statistics m).

Lemma TryWarmStart_load_entered m b m1 :
  counters_in_range m -> TryWarmStart_load m = (b, m1) -> entered m m1.
Proof.
  intros (_&_&Hq) E. unfold TryWarmStart_load, triggerAutoscaling in E. simpl in E.
  case_decide; injection E as <- <-; unfold entered, IncrementInflight, add_statistics; simpl;
    rewrite ?Z.add_0_r; split_and!; try done; by apply i64_id.
Qed.

(** Past the start, the request is in: without it the counters would be what
    [end_invocation] leaves. *)
Lemma entered_end w : counters_in_range w -> entered (end_invocation w) w.
Proof.
  intros (R1&R2&R3). unfold entered, end_invocation. simpl. rewrite Z.add_0_r.
  rewrite (i64_id (st_QueueDepth _)) by done. unfold Z.sub. rewrite i32_add_l, i64_add_l.
  rewrite <- !Z.add_assoc. change (-1 + 1) with 0. rewrite !Z.add_0_r, i32_id, i64_id by done. done.
Qed.

Lemma end_invocation_in_range w : counters_in_range (end_invocation w).
Proof. unfold counters_in_range. simpl. split_and!; [apply i32_range|apply i64_range..]. Qed.

(** A warm start only counts the request; a cold start queues and counts it,
    waits, and takes it off the queue depth. *)
Lemma cold_or_warm_start_run env m o w :
  counters_in_range m -> cold_or_warm_start env m = Ok (o, w) ->
  match o with
  | None => entered m w /\ fm_queue w = fm_queue m
  | Some outcome => exists queued mw,
      fm_queue queued = fm_queue m ++ [fm_next m] /\ in_system queued = in_system_plus 1 m /\
      inv_wait env (fm_next m) queued = Ok (outcome, mw) /\ fm_queue w = fm_queue mw /\
      in_system (end_invocation w) = in_system_plus (-1) mw
  end.
Proof.
  intros Hr. unfold cold_or_warm_start. destruct (TryWarmStart_load m) as [b m0] eqn:E0.
  pose proof (TryWarmStart_load_entered m b m0 Hr E0) as He.
  assert (Hm0 : fm_queue m0 = fm_queue m /\ fm_next m0 = fm_next m).
  { unfold TryWarmStart_load, triggerAutoscaling in E0. cbn in E0. by case_decide; injection E0 as <- <-. }
  destruct Hm0 as [Hq0 Hn0]. destruct b; [|by intros [= <- <-]]. unfold TryWarmStart_enqueue.
  rewrite Hn0, Hq0. set (queued := update_stats _ _).
  destruct (inv_wait env (fm_next m) queued) as [[o' mw]| | |] eqn:Ew; cbn; try done.
  intros [= <- <-]. exists queued, mw. split_and!; try done.
  - destruct He as (H1&H2&H3). unfold queued, in_system, in_system_plus. simpl. rewrite H1, H2, H3, !Z.add_0_r.
    by rewrite (i64_id (i64 _)) by apply i64_range.
  - unfold in_system, in_system_plus. simpl. rewrite !Z.add_0_r, i64_add_l, (i64_id (i64 _)) by apply i64_range. done.
Qed.

Lemma cold_or_warm_start_in_range env m o w :
  int32_wait (inv_wait env) -> counters_in_range m -> cold_or_warm_start env m = Ok (o, w) -> counters_in_range w.
Proof.
  intros Hw Hr. unfold cold_or_warm_start. destruct (TryWarmStart_load m) as [b m0] eqn:E0.
  pose proof (TryWarmStart_load_entered m b m0 Hr E0) as (H1&H2&H3).
  destruct b; [|intros [= _ <-]; unfold counters_in_range; rewrite H1, H2, H3;
    destruct Hr as (_&_&?); split_and!; [apply i32_range|apply i64_range|done]].
  destruct (TryWarmStart_enqueue m0) as [c m2].
  destruct (inv_wait env c m2) as [[o' m3]| | |] eqn:Ew; cbn; try done. intros [= _ <-].
  apply Hw in Ew. unfold counters_in_range. simpl. split_and!; [done|apply i64_range..].
Qed.

Lemma end_invocation_in_system m m1 :
  counters_in_range m -> entered m m1 -> in_system (end_invocation m1) = in_system m.
Proof.
  intros (R1&R2&R3) (E1&E2&E3). unfold in_system, end_invocation. simpl.
  rewrite E1, E2, E3, Z.add_0_r, i32_inc_dec, i64_inc_dec, i64_id by done. done.
Qed.

(** The load balancer and the throttler leave the counters alone. *)
Lemma DoLoadBalancing_entered env policy m m1 r m2 :
  counters_in_range m -> entered m m1 ->
  DoLoadBalancing env policy m1 = Ok (r, m2) -> entered m m2.
Proof.
  intros (_&_&Hq) (E1&E2&E3). unfold DoLoadBalancing, DoLoadBalancing_admit.
  destruct (lb_attempts _ _ _ _ _) as [[ep m3]| | |] eqn:E; cbn; try done.
  apply lb_attempts_run in E as (_&_&I&T&_). simpl in I, T.
  assert (Hent : entered m (update_stats DecrementQueueDepth m3)).
  { unfold entered. simpl. rewrite I, T. simpl. rewrite E1, E2, E3, !Z.add_0_r.
    rewrite i64_inc_dec by done. rewrite !(i64_id (i64 _)) by apply i64_range. done. }
  destruct ep as [p|]; [|by intros [= _ <-]].
  simpl. destruct (ep_heap m3 !! p) as [e|]; [|done]. by intros [= _ <-].
Qed.

Lemma giveBack_counters p m m' :
  giveBackCCCapacity p m = Ok m' ->
  fm_inflightRequests m' = fm_inflightRequests m /\ fm_statistics m' = fm_statistics m.
Proof.
  unfold giveBackCCCapacity. destruct (ep_heap m !! p) as [e|]; [|done].
  set (cb := if decide _ then _ else _). destruct cb; cbn; try done.
  case_decide; cbn; [|done]. by intros [= <-].
Qed.

(** What an exchange with a sandbox may do to the metadata. *)
Definition keeps_in_system {A} (f : GoM FM A) : Prop :=
  forall m a m', counters_in_range m -> f m = Ok (a, m') -> in_system m' = in_system m.

Lemma entered_in_system m m1 m2 :
  entered m m1 -> in_system m2 = in_system m1 -> entered m m2.
Proof. unfold entered, in_system. intros (A&B&C) [= -> -> ->]. done. Qed.

Lemma entered_in_range m m1 : counters_in_range m -> entered m m1 -> counters_in_range m1.
Proof.
  intros (_&_&Hq) (A&B&C). unfold counters_in_range. rewrite A, B, C.
  split_and!; [apply i32_range|apply i64_range|done].
Qed.

Lemma warm_start_run env m :
  fm_activeEndpointCount m ≠ 0 -> exists w, cold_or_warm_start env m = Ok (None, w).
Proof.
  intros Ha. unfold cold_or_warm_start. destruct (TryWarmStart_load m) as [b m0] eqn:E0.
  assert (b = false) as ->; [|by eexists].
  unfold TryWarmStart_load, triggerAutoscaling in E0. cbn in E0.
  case_decide; injection E0 as <- <-; by apply bool_decide_eq_false.
Qed.

Lemma count_success_keeps (m : FM) :
  counters_in_range m -> in_system (update_stats IncrementSuccessfulInvocations m) = in_system m.
Proof.
  intros (_&H2&H3). unfold in_system. simpl. by rewrite !Z.add_0_r, !i64_id.
Qed.

Lemma count_success_exchange (proxied : Z) :
  keeps_in_system (fun m => Ok (proxied, update_stats IncrementSuccessfulInvocations m)).
Proof. intros ? ? ? ? [= <- <-]. by apply count_success_keeps. Qed.

(** No path of the common part leaks a count. *)
Lemma with_endpoint_balanced {A} env policy (exchange : GoM FM A) m res m' o w :
  keeps_in_system exchange -> cold_or_warm_start env m = Ok (o, w) -> counters_in_range w ->
  with_endpoint env policy exchange m = Ok (res, m') -> in_system m' = in_system (end_invocation w).
Proof.
  intros Hx E1 Hr. unfold with_endpoint. rewrite E1. cbn [mbind outcome_bind].
  destruct (decide _); [by intros [= _ <-]|].
  pose proof (entered_end w Hr) as H1. pose proof (end_invocation_in_range w) as Hr0.
  destruct (DoLoadBalancing (inv_lb env) policy w) as [[ep m2]| | |] eqn:E2; cbn [mbind outcome_bind]; try done.
  pose proof (DoLoadBalancing_entered _ _ _ _ _ _ Hr0 H1 E2) as H2.
  destruct ep as [p|]; [|intros [= _ <-]; by apply end_invocation_in_system].
  destruct (exchange m2) as [[a m3]| | |] eqn:E3; cbn [mbind outcome_bind]; try done.
  destruct (giveBackCCCapacity p m3) as [m4| | |] eqn:E4; cbn [mbind outcome_bind]; try done.
  intros [= _ <-]. apply end_invocation_in_system; [done|].
  apply giveBack_counters in E4 as [G1 G2]. eapply entered_in_system; [exact H2|].
  rewrite <- (Hx m2 a m3); [|by eapply entered_in_range|done]. unfold in_system. by rewrite G1, G2.
Qed.

(** A result is one of the exchange. *)
Lemma with_endpoint_result {A} env policy (exchange : GoM FM A) m a m' :
  with_endpoint env policy exchange m = Ok (RReached a, m') ->
  exists m1 m2, exchange m1 = Ok (a, m2).
Proof.
  unfold with_endpoint.
  destruct (cold_or_warm_start env m) as [[o m1]| | |]; cbn [mbind outcome_bind]; try done.
  destruct (decide _); [done|].
  destruct (DoLoadBalancing (inv_lb env) policy m1) as [[[p|] m2]| | |]; cbn [mbind outcome_bind]; try done.
  destruct (exchange m2) as [[a' m3]| | |] eqn:E3; cbn [mbind outcome_bind]; try done.
  destruct (giveBackCCCapacity p m3); cbn [mbind outcome_bind]; try done.
  intros [= <- _]. eauto.
Qed.

(** An endpoint a request can be admitted to. *)
Definition ready (m : FM) (p : nat) : Prop :=
  exists e, ep_heap m !! p = Some e /\ 0 < ue_tokens e <= ue_cap e /\ ue_Drained e = 0.

(** What is left of the capacity of an endpoint. *)
Definition capacity_of (m : FM) (q : nat) : option (Z * Z * Z * Z) :=
  (fun e => (ue_cap e, ue_tokens e, ue_InFlight e, ue_Drained e)) <$> ep_heap m !! q.
Definition endpoints_in_range (m : FM) : Prop :=
  forall q e, ep_heap m !! q = Some e -> is_i32 (ue_InFlight e).
(** An exchange with a sandbox leaves the endpoints and the queue alone. *)
Definition keeps_endpoints {A} (f : GoM FM A) : Prop :=
  forall m a m', f m = Ok (a, m') -> ep_heap m' = ep_heap m /\ fm_queue m' = fm_queue m.

(** From the state [w] in which the cold or warm start left the function, an
    invocation changes neither the queue nor the capacity of any endpoint. *)
Lemma with_endpoint_effect {A} env policy (exchange : GoM FM A) m res m' :
  keeps_endpoints exchange -> with_endpoint env policy exchange m = Ok (res, m') ->
  exists o w, cold_or_warm_start env m = Ok (o, w) /\ fm_queue m' = fm_queue w /\
    (endpoints_in_range w -> forall q, capacity_of m' q = capacity_of w q) /\
    (res = RCanceled <-> o = Some CanceledColdStart).
Proof.
  intros Hx. unfold with_endpoint.
  destruct (cold_or_warm_start env m) as [[o w]| | |]; cbn [mbind outcome_bind]; try done.
  intros H. exists o, w. split; [done|]. destruct (decide (o = Some CanceledColdStart)) as [Ho|Ho].
  { injection H as <- <-. done. }
  destruct (DoLoadBalancing (inv_lb env) policy w) as [[ep m2]| | |] eqn:E2; cbn [mbind outcome_bind] in H; try done.
  apply DoLoadBalancing_effect in E2 as [Hq Hh].
  destruct ep as [p|]; [|injection H as <- <-; unfold capacity_of; cbn; rewrite Hh; done].
  destruct Hh as (e&He&_&Hh).
  destruct (exchange m2) as [[a m3]| | |] eqn:E3; cbn [mbind outcome_bind] in H; try done.
  apply Hx in E3 as [Hh3 Hq3].
  destruct (giveBackCCCapacity p m3) as [m4| | |] eqn:E4; cbn [mbind outcome_bind] in H; try done.
  injection H as <- <-. split; [|split; [|done]].
  - cbn. transitivity (fm_queue m3); [|congruence]. revert E4. unfold giveBackCCCapacity.
    destruct (ep_heap m3 !! p); [|done]. intros E4. apply outcome_bind_Ok in E4 as (cb&_&E4).
    revert E4. case_decide; [|done]. by intros [= <-].
  - intros Hr q. apply (giveBackCCCapacity_effect p m3 m4 e (ep_heap w)) in E4 as [_ (cb&Hcb&_)];
      [|by eapply Hr|congruence].
    unfold capacity_of. cbn. rewrite Hcb. destruct (decide (p = q)) as [<-|Hne].
    + rewrite lookup_insert_eq, He. done.
    + by rewrite lookup_insert_ne.
Qed.

Lemma DoLoadBalancing_ready env policy m :
  balancer_ok (lb_fuel env) m -> (forall p, p ∈ fm_upstreamEndpoints m -> ready m p) ->
  lb_got env 0 = true ->
  exists p m', DoLoadBalancing env policy m = Ok (Some p, m') /\ p ∈ fm_upstreamEndpoints m.
Proof.
  intros Hok Hready Hgot. unfold DoLoadBalancing, loadBalancingRetries. cbn [lb_attempts].
  set (m0 := update_stats IncrementQueueDepth m).
  assert (Hok0 : balancer_ok (lb_fuel env) m0) by (by destruct Hok; split).
  assert (Hcap : forall p, p ∈ fm_upstreamEndpoints m0 -> has_capacity m0 p).
  { intros p Hp. destruct (Hready p Hp) as (e&He&Ht&_). unfold has_capacity, tokens_of. cbn. rewrite He. cbn. lia. }
  destruct (runLoadBalancing_total (lb_fuel env) (lb_d1 env 0) (lb_d2 env 0) policy m0 Hok0 Hcap) as (p&m1&Hrun).
  rewrite Hrun. cbn [mbind outcome_bind deref].
  pose proof (runLoadBalancing_elem _ _ _ _ _ _ _ Hrun) as [Hin _]. specialize (Hin p eq_refl).
  apply runLoadBalancing_same in Hrun as (Hh&_).
  destruct (Hready p Hin) as (e&He&Ht&Hd).
  unfold waitForCapacityOrDie. rewrite Hh. change (ep_heap m0) with (ep_heap m). rewrite He, Hgot.
  rewrite decide_True by lia. cbn [mbind outcome_bind].
  unfold DoLoadBalancing_admit. cbn. rewrite lookup_insert_eq. by eexists p, _.
Qed.

(** With a free slot on every endpoint a warm request reaches a sandbox, and
    gives the slot back. *)
Lemma with_endpoint_reached {A} env policy m (exchange : GoM FM A) :
  (forall m1, exists a m2, exchange m1 = Ok (a, m2)) -> keeps_endpoints exchange ->
  fm_activeEndpointCount m ≠ 0 -> balancer_ok (lb_fuel (inv_lb env)) m ->
  (forall p, p ∈ fm_upstreamEndpoints m -> ready m p) -> endpoints_in_range m -> lb_got (inv_lb env) 0 = true ->
  exists m1 a m2 m', exchange m1 = Ok (a, m2) /\
    with_endpoint env policy exchange m = Ok (RReached a, m') /\ ep_heap m' = ep_heap m /\ fm_queue m' = fm_queue m.
Proof.
  intros Hx Hk Ha Hok Hready Hr Hgot. unfold with_endpoint, cold_or_warm_start.
  destruct (TryWarmStart_load m) as [b m1] eqn:E.
  assert (Hm1 : b = false /\ ep_heap m1 = ep_heap m /\ fm_queue m1 = fm_queue m /\
            fm_upstreamEndpoints m1 = fm_upstreamEndpoints m /\ balancer_ok (lb_fuel (inv_lb env)) m1).
  { unfold TryWarmStart_load, triggerAutoscaling in E. cbn in E.
    case_decide; injection E as <- <-; cbn; split_and!; try done; try (by apply bool_decide_eq_false);
      destruct Hok; by split. }
  destruct Hm1 as (->&E1&E2&E3&Hok1). cbn [mbind outcome_bind]. rewrite decide_False by done.
  destruct (DoLoadBalancing_ready (inv_lb env) policy m1) as (p&m2&Hrun&Hin); [done| |done|].
  { intros p. rewrite E3. unfold ready. rewrite E1. apply Hready. }
  rewrite Hrun. cbn [mbind outcome_bind]. rewrite E3 in Hin.
  apply DoLoadBalancing_effect in Hrun as [Hq2 (e&He&Ht0&Hh2)]. rewrite E1 in He, Hh2. rewrite E2 in Hq2.
  destruct (Hx m2) as (a&m3&Hex). pose proof (Hk _ _ _ Hex) as [Hh3 Hq3].
  destruct (Hready p Hin) as (e'&He'&Ht&Hd). rewrite He in He'. injection He' as <-.
  assert (Hg : exists m4, giveBackCCCapacity p m3 = Ok m4).
  { unfold giveBackCCCapacity. rewrite Hh3, Hh2, lookup_insert_eq. cbn.
    rewrite decide_False by (rewrite Hd; tauto). cbn [mbind outcome_bind]. rewrite decide_True by lia. by eexists. }
  destruct Hg as [m4 Hg]. exists m2, a, m3. rewrite Hex. cbn [mbind outcome_bind]. rewrite Hg.
  apply (giveBackCCCapacity_effect p m3 m4 e (ep_heap m)) in Hg as [Hq4 (cb&Hcb&Hcb')];
    [|by eapply Hr|congruence].
  eexists. split; [done|]. split; [done|]. cbn. split; [|congruence].
  rewrite Hcb, (Hcb' Hd). apply insert_id. rewrite He. by destruct e.
Qed.

(** C35: A request to a function whose endpoints all have a free slot and are
    not being drained is served, under every load balancing policy: it does not
    wait, the handler returns the status the reverse proxy wrote, the capacity
    it took is returned (every endpoint is as it was before, tokens and requests in
    flight included), the queue is untouched and every counter of requests in
    the system is back at its value; a request to an unknown function is answered
    404 and changes nothing.  The token is received before its timer fires, and
    the counters are within their machine ranges. *)
Theorem warm_request_served env policy serviceName d m proxied :
  d !! serviceName = Some m -> counters_in_range m -> endpoints_in_range m -> fm_activeEndpointCount m ≠ 0 ->
  balancer_ok (lb_fuel (inv_lb env)) m -> (forall p, p ∈ fm_upstreamEndpoints m -> ready m p) ->
  lb_got (inv_lb env) 0 = true ->
  (forall other, d !! other = None ->
     createInvocationHandler env policy proxied other d = Ok (StatusNotFound, d)) /\
  exists m', createInvocationHandler env policy proxied serviceName d =
               Ok (proxied, <[serviceName := m']> d) /\
    in_system m' = in_system m /\ ep_heap m' = ep_heap m /\ fm_queue m' = fm_queue m.
Proof.
  intros Hd Hr Hre Ha Hok Hready Hgot. split.
  { intros other Ho. unfold createInvocationHandler, on_deployment, GetDeployment.
    unfold mbind, gom_bind. by rewrite Ho. }
  set (x := fun m => Ok (proxied, update_stats IncrementSuccessfulInvocations m)).
  destruct (with_endpoint_reached env policy m x) as (m1&a&m2&m'&[= <- _]&Hm'&Hh'&Hq'); try done.
  { intros m1. by eexists _, _. }
  { by intros m1 a m2 [= <- <-]. }
  exists m'. unfold createInvocationHandler, on_deployment, GetDeployment.
  unfold mbind, gom_bind. rewrite Hd. fold x. rewrite Hm'. cbn [mbind outcome_bind]. split; [done|].
  split; [|done]. destruct (warm_start_run env m Ha) as (w&Hw).
  pose proof (cold_or_warm_start_run _ _ _ _ Hr Hw) as [He _].
  rewrite (with_endpoint_balanced _ _ _ _ _ _ _ _ (count_success_exchange proxied) Hw
             (entered_in_range _ _ Hr He) Hm').
  by apply end_invocation_in_system.
Qed.

Definition example_wait : nat -> GoM FM ColdStartOutcome := fun _ => mret SuccessfulColdStart.

Lemma example_two_ready p : p ∈ fm_upstreamEndpoints example_two -> ready example_two p.
Proof.
  intros Hp. change (p ∈ [0; 1]%nat) in Hp. unfold ready.
  apply elem_of_cons in Hp as [->|Hp]; [|apply list_elem_of_singleton in Hp as ->];
    (eexists; split; [vm_compute; reflexivity|vm_compute; split_and!; (discriminate || reflexivity)]).
Qed.

Lemma warm_request_served_witness :
  let env := mkInvocationEnv example_env_lb example_wait in
  let d : Deployments := {[ "f" := example_two ]} in
  (forall other, d !! other = None ->
     createInvocationHandler env LOAD_BALANCING_KNATIVE 200 other d = Ok (StatusNotFound, d)) /\
  exists m', createInvocationHandler env LOAD_BALANCING_KNATIVE 200 "f" d = Ok (200, <["f" := m']> d) /\
    in_system m' = in_system example_two /\ ep_heap m' = ep_heap example_two /\ fm_queue m' = fm_queue example_two.
Proof.
  intros env d. apply (warm_request_served env LOAD_BALANCING_KNATIVE "f" d example_two 200).
  - reflexivity.
  - vm_compute. split_and!; discriminate || reflexivity.
  - intros q e He. assert (Hm : map_Forall (fun _ e => is_i32 (ue_InFlight e)) (ep_heap example_two)).
    { apply (bool_decide_unpack _). vm_compute. exact I. }
    exact (Hm q e He).
  - vm_compute. discriminate.
  - split; [vm_compute; discriminate|vm_compute; discriminate|vm_compute; lia|split; [vm_compute; discriminate|reflexivity]].
  - apply example_two_ready.
  - reflexivity.
Defined.



(** A cold start that is cancelled leaves its channel in the queue: when nothing
    else happens to the queue during the wait, the request is answered 504 and
    its entry is still there, and the next endpoints that are added are
    announced to it, although no one receives. *)
Theorem canceled_cold_start_stays_queued env policy proxied serviceName d m :
  d !! serviceName = Some m -> fm_activeEndpointCount m = 0 ->
  (forall c m1, exists m2, inv_wait env c m1 = Ok (CanceledColdStart, m2) /\ fm_queue m2 = fm_queue m1) ->
  exists m', createInvocationHandler env policy proxied serviceName d =
      Ok (StatusGatewayTimeout, <[serviceName := m']> d) /\ fm_queue m' = fm_queue m ++ [fm_next m].
Proof.
  intros Hd Ha Hw. unfold createInvocationHandler, on_deployment, GetDeployment, mbind, gom_bind. rewrite Hd.
  unfold with_endpoint, cold_or_warm_start. destruct (TryWarmStart_load m) as [b m0] eqn:E0.
  assert (Hm0 : b = true /\ fm_queue m0 = fm_queue m /\ fm_next m0 = fm_next m).
  { unfold TryWarmStart_load, triggerAutoscaling in E0. cbn in E0.
    case_decide; injection E0 as <- <-; cbn; (split; [by apply bool_decide_eq_true|done]). }
  destruct Hm0 as (->&Hq0&Hn0). unfold TryWarmStart_enqueue. rewrite Hn0, Hq0.
  match goal with |- context [inv_wait env ?c ?q] => destruct (Hw c q) as (m2&Hw2&Hq2); rewrite Hw2 end.
  cbn [mbind outcome_bind]. rewrite decide_True by done. cbn [mbind outcome_bind].
  eexists. split; [reflexivity|]. cbn. exact Hq2.
Qed.

(** ** The metrics page *)

(** [proxy/metrics.go]: status and body; [Marshal] is [json.Marshal] and [None]
    its error, [service] the query parameter. *)
Definition CreateMetricsHandler (Marshal : FunctionStatistics -> option string)
    (ord : range_order string FunctionMetadata) (service : string) (d : Deployments) : Z * string :=
  let page (statistics : FunctionStatistics) :=
    match Marshal statistics with
    | Some data => (StatusOK, data)
    | None => (StatusInternalServerError, EmptyString)
    end in
  if decide (service = EmptyString) then page (AggregateStatistics (ListDeployments ord d))
  else match GetDeployment service d with
       | None => (StatusBadRequest, EmptyString)
       | Some metadata => page (fm_statistics metadata)
       end.

Lemma ListDeployments_elements ord d : ListDeployments ord d = (ord d).*2.
Proof.
  unfold ListDeployments. enough (Hg : forall (l : list (string * FunctionMetadata)) acc,
    foldl (fun r kv => r ++ [kv.2]) acc l = acc ++ l.*2) by apply Hg.
  induction l as [|kv l IH]; intros acc; cbn; [by rewrite app_nil_r|]. by rewrite IH, <- app_assoc.
Qed.

(** The page does not depend on the order in which the deployments are
    visited. *)
Theorem metrics_order_independent Marshal ord ord' service d :
  valid_order ord -> valid_order ord' ->
  CreateMetricsHandler Marshal ord service d = CreateMetricsHandler Marshal ord' service d.
Proof.
  intros H1 H2. unfold CreateMetricsHandler. case_decide; [|done].
  rewrite !ListDeployments_elements.
  destruct (AggregateStatistics_sum (ord d).*2 (ord' d).*2) as [-> _]; [|done].
  apply fmap_Permutation. by rewrite (H1 d), (H2 d).
Qed.
