(* ===== verification/AsyncProxy.v ===== *)
(** * The asynchronous proxy of the data plane

    [internal/data_plane/proxy/async_proxy_handler.go], the buffered requests
    and responses ([proxy/requests]) and the layer that keeps them across a
    restart ([proxy/persistence]).  A request is answered at once with a code;
    a loop takes the buffered requests from a channel, sends each to a sandbox
    and records the response under its code, or puts the request back. *)
From Stdlib Require Import ZArith Lia.
From stdpp Require Import base tactics list gmap strings sets numbers.
From S2P Require Import Prelude Sync Autoscaling Core Persistence FunctionMetadata LoadBalancing Proxy.

Local Open Scope Z_scope.

(** ** Requests *)

(** [http.Header] and [url.Values] *)
Definition Values_map : Type := gmap string (list string).

(** The parts of a [url.URL]. *)
Record URL : Type := mkURL {
  url_Scheme : string;
  url_Host : string;
  url_Path : string;
  url_RawQuery : string;
}.

(** The fields of an [http.Request] the proxy copies; [Body] is the content of
    the stream, and of a multipart form the values. *)
Record http_Request : Type := mkHttpRequest {
  rq_Method : string;
  rq_URL : option URL;
  rq_Proto : string;
  rq_ProtoMajor : Z;
  rq_ProtoMinor : Z;
  rq_Header : Values_map;
  rq_Body : string;
  rq_ContentLength : Z;
  rq_TransferEncoding : list string;
  rq_Close : bool;
  rq_Host : string;
  rq_Form : option Values_map;
  rq_PostForm : option Values_map;
  rq_MultipartForm : option Values_map;
  rq_Trailer : Values_map;
  rq_RemoteAddr : string;
}.

Record BufferedRequest : Type := mkBufferedRequest {
  br_Method : string;
  br_URL : option URL;
  br_Proto : string;
  br_ProtoMajor : Z;
  br_ProtoMinor : Z;
  br_Header : Values_map;
  br_Body : string;
  br_ContentLength : Z;
  br_TransferEncoding : list string;
  br_Close : bool;
  br_Host : string;
  br_Form : option Values_map;
  br_PostForm : option Values_map;
  br_MultipartForm : option Values_map;
  br_Trailer : Values_map;
  br_RemoteAddr : string;
  br_Code : string;
  br_NumberTries : Z;
  br_Start : Z;
  br_SerializationDuration : Z;
  br_PersistenceDuration : Z;
}.

Record BufferedResponse : Type := mkBufferedResponse {
  bs_StatusCode : Z;
  bs_Body : string;
  bs_Timestamp : Z;
  bs_Code : string;
}.

(** The copies are field by field; the durations are not set. *)
Definition BufferedRequestFromRequest (now : Z) (request : http_Request) (code : string) : BufferedRequest := {|
  br_Method := rq_Method request;
  br_URL := rq_URL request;
  br_Proto := rq_Proto request;
  br_ProtoMajor := rq_ProtoMajor request;
  br_ProtoMinor := rq_ProtoMinor request;
  br_Header := rq_Header request;
  br_Body := rq_Body request;
  br_ContentLength := rq_ContentLength request;
  br_TransferEncoding := rq_TransferEncoding request;
  br_Close := rq_Close request;
  br_Host := rq_Host request;
  br_Form := rq_Form request;
  br_PostForm := rq_PostForm request;
  br_MultipartForm := rq_MultipartForm request;
  br_Trailer := rq_Trailer request;
  br_RemoteAddr := rq_RemoteAddr request;
  br_Code := code;
  br_NumberTries := 0;
  br_Start := now;
  br_SerializationDuration := 0;
  br_PersistenceDuration := 0;
|}.
Definition RequestFromBufferedRequest (b : BufferedRequest) : http_Request := {|
  rq_Method := br_Method b;
  rq_URL := br_URL b;
  rq_Proto := br_Proto b;
  rq_ProtoMajor := br_ProtoMajor b;
  rq_ProtoMinor := br_ProtoMinor b;
  rq_Header := br_Header b;
  rq_Body := br_Body b;
  rq_ContentLength := br_ContentLength b;
  rq_TransferEncoding := br_TransferEncoding b;
  rq_Close := br_Close b;
  rq_Host := br_Host b;
  rq_Form := br_Form b;
  rq_PostForm := br_PostForm b;
  rq_MultipartForm := br_MultipartForm b;
  rq_Trailer := br_Trailer b;
  rq_RemoteAddr := br_RemoteAddr b;
|}.
(** Assignments to the fields of a buffered request. *)
Definition set_tracking (tries start ser per : Z) (b : BufferedRequest) : BufferedRequest :=
  mkBufferedRequest (br_Method b) (br_URL b) (br_Proto b) (br_ProtoMajor b) (br_ProtoMinor b) (br_Header b)
    (br_Body b) (br_ContentLength b) (br_TransferEncoding b) (br_Close b) (br_Host b) (br_Form b)
    (br_PostForm b) (br_MultipartForm b) (br_Trailer b) (br_RemoteAddr b) (br_Code b) tries start ser per.

(** The request that is sent to a sandbox is the one that was received. *)
Lemma buffered_request_roundtrip now r code :
  RequestFromBufferedRequest (BufferedRequestFromRequest now r code) = r.
Proof. by destruct r. Qed.

(** The name of the service is the authority of the request. *)
Definition GetServiceName (r : http_Request) : string := rq_Host r.

(** ** The interface of the persistence layer *)

Class RequestPersistence (S : Type) : Type := {
  PersistBufferedRequest : BufferedRequest -> GoM S (go_error * Z * Z);
  PersistBufferedResponse : BufferedResponse -> GoM S go_error;
  ScanBufferedRequests : GoM S (string + list BufferedRequest);
  ScanBufferedResponses : GoM S (string + list BufferedResponse);
  DeleteBufferedRequest : string -> GoM S go_error;
}.

(** What the proxy relies on: the requests and the responses kept, by code. *)
Record kept : Type := mkKept {
  k_requests : gmap string BufferedRequest;
  k_responses : gmap string BufferedResponse;
}.

Definition keep_request (q : BufferedRequest) (k : kept) : kept :=
  mkKept (<[br_Code q := q]> (k_requests k)) (k_responses k).
Definition keep_response (r : BufferedResponse) (k : kept) : kept :=
  mkKept (k_requests k) (<[bs_Code r := r]> (k_responses k)).
Definition drop_request (c : string) (k : kept) : kept :=
  mkKept (delete c (k_requests k)) (k_responses k).

(** An operation that reports no error has taken effect, one that reports an
    error may have, and a scan returns exactly what is kept, in any order and
    possibly repeated. *)
Class RequestPersistenceSpec (S : Type) `{RequestPersistence S} (keeps : S -> kept -> Prop) : Prop := {
  rp_request : forall q s k e d1 d2 s', keeps s k ->
    PersistBufferedRequest q s = Ok (e, d1, d2, s') ->
    keeps s' (keep_request q k) \/ (e ≠ None /\ keeps s' k);
  rp_response : forall r s k e s', keeps s k ->
    PersistBufferedResponse r s = Ok (e, s') ->
    keeps s' (keep_response r k) \/ (e ≠ None /\ keeps s' k);
  rp_delete : forall c s k e s', keeps s k ->
    DeleteBufferedRequest c s = Ok (e, s') ->
    keeps s' (drop_request c k) \/ (e ≠ None /\ keeps s' k);
  rp_scan_requests : forall s k l s', keeps s k ->
    ScanBufferedRequests s = Ok (inr l, s') -> keeps s' k /\ values_of (k_requests k) l;
  rp_scan_responses : forall s k l s', keeps s k ->
    ScanBufferedResponses s = Ok (inr l, s') -> keeps s' k /\ values_of (k_responses k) l;
}.

(** [CreateEmptyRequestPersistence]: nothing is kept. *)
Definition emptyRequestPersistence : Type := unit.
#[export] Instance EmptyRequestPersistence : RequestPersistence emptyRequestPersistence := {
  PersistBufferedRequest _ := mret (None, 0, 0);
  PersistBufferedResponse _ := mret None;
  ScanBufferedRequests := mret (inr []);
  ScanBufferedResponses := mret (inr []);
  DeleteBufferedRequest _ := mret None;
}.

(** ** The layer on Redis *)

Section redis_requests.
Context {R : Type} `{RC : RedisClient R} `{CQ : Codec BufferedRequest, CR : Codec BufferedResponse}.
(** A bound on the number of [SCAN] calls, and the measured durations. *)
Context (scan_fuel : nat) (durations : Z * Z).

(** [HSet] of the JSON text; unlike the control plane it does not wait for
    replicas. *)
Definition put_record (key : string) (data : option string) : GoM R go_error :=
  match data with
  | None => mret (Some "marshal error"%string)
  | Some d => HSet key "data" d
  end.

Definition Redis_PersistBufferedRequest (q : BufferedRequest) : GoM R (go_error * Z * Z) :=
  err ← put_record (record_key "" bufferedRequestPrefix (br_Code q)) (Marshal q);
  mret match err with
       | Some e => (Some e, 0, 0)
       | None => (None, durations.1, durations.2)
       end.
Definition Redis_PersistBufferedResponse (r : BufferedResponse) : GoM R go_error :=
  put_record (record_key "" bufferedResponsePredix (bs_Code r)) (Marshal r).
Definition Redis_ScanBufferedRequests : GoM R (string + list BufferedRequest) :=
  get_records scan_fuel bufferedRequestPrefix.
Definition Redis_ScanBufferedResponses : GoM R (string + list BufferedResponse) :=
  get_records scan_fuel bufferedResponsePredix.
Definition Redis_DeleteBufferedRequest (code : string) : GoM R go_error :=
  Del [record_key "" bufferedRequestPrefix code; "data"%string].

Definition requestRedisClient : RequestPersistence R := {|
  PersistBufferedRequest := Redis_PersistBufferedRequest;
  PersistBufferedResponse := Redis_PersistBufferedResponse;
  ScanBufferedRequests := Redis_ScanBufferedRequests;
  ScanBufferedResponses := Redis_ScanBufferedResponses;
  DeleteBufferedRequest := Redis_DeleteBufferedRequest;
|}.
End redis_requests.

(** ** The service *)

(** The channel is unbuffered: [ap_RequestChannel] are the requests whose
    senders wait, oldest first. *)
Record AsyncProxyingService (S : Type) : Type := mkAsync {
  ap_Cache : Deployments;
  ap_LoadBalancingPolicy : Z;
  ap_RequestChannel : list BufferedRequest;
  ap_Responses : gmap string BufferedResponse;
  ap_Persistence : S;
  ap_AllowedRetries : Z;
}.
Arguments mkAsync {S} _ _ _ _ _ _.
Arguments ap_Cache {S} _.
Arguments ap_LoadBalancingPolicy {S} _.
Arguments ap_RequestChannel {S} _.
Arguments ap_Responses {S} _.
Arguments ap_Persistence {S} _.
Arguments ap_AllowedRetries {S} _.

(** The environment of one attempt: the clock, the invocation, and what the
    exchange over HTTP gives, an error or the body. *)
Record attempt_env : Type := mkAttemptEnv {
  at_now : Z;
  at_inv : invocation_env;
  at_exchange : string + string;
}.

Definition plain_response (code : Z) (body : string) : BufferedResponse :=
  mkBufferedResponse code body zero_time "".

Definition http_exchange (x : string + string) : GoM FM BufferedResponse := fun m =>
  match x with
  | inl err => Ok (plain_response StatusInternalServerError err, m)
  | inr body => Ok (plain_response StatusOK body, update_stats IncrementSuccessfulInvocations m)
  end.

(** [fireRequest] *)
Definition fireRequest (e : attempt_env) (policy : Z) (bufferedRequest : BufferedRequest)
  : GoM Deployments BufferedResponse :=
  let request := RequestFromBufferedRequest bufferedRequest in
  let serviceName := GetServiceName request in
  r ← on_deployment serviceName
        (with_endpoint (at_inv e) policy (http_exchange (at_exchange e)));
  mret match r with
       | None => plain_response StatusBadRequest
           ("Invocation for non-existing service " +:+ serviceName +:+ " has been dumped.")
       | Some RCanceled => plain_response StatusGatewayTimeout
           ("Invocation context canceled for " +:+ serviceName +:+ ".")
       | Some RNoSandbox => plain_response StatusGone
           ("Cold start passed, but no sandbox available for " +:+ serviceName +:+ ".")
       | Some (RReached response) => response
       end.

(** A response that ends the retries. *)
Definition acceptable (r : BufferedResponse) : Prop :=
  bs_StatusCode r = StatusOK \/ bs_StatusCode r = StatusBadRequest.
#[global] Instance acceptable_dec r : Decision (acceptable r).
Proof. unfold acceptable. apply _. Defined.

Definition failed_response : BufferedResponse :=
  plain_response StatusInternalServerError "Server failed many times".
Definition recorded (now : Z) (code : string) (r : BufferedResponse) : BufferedResponse :=
  mkBufferedResponse (bs_StatusCode r) (bs_Body r) now code.
Definition one_more_try (q : BufferedRequest) : BufferedRequest :=
  set_tracking (br_NumberTries q + 1) (br_Start q) (br_SerializationDuration q) (br_PersistenceDuration q) q.

(** [time.Time.Unix] and [time.Minute.Nanoseconds()]; times are nanoseconds. *)
Definition Unix (t : Z) : Z := t / 10 ^ 9.
Definition Minute_Nanoseconds : Z := 60 * 10 ^ 9.

(** The first [WriteHeader] of a response decides its status. *)
Definition WriteHeader (code : Z) (written : option Z) : option Z :=
  match written with Some c => Some c | None => Some code end.

Section async.
Context {S : Type} `{RP : RequestPersistence S}.
Abbreviation AP := (AsyncProxyingService S).

Definition with_response (code : string) (r : BufferedResponse) (s : AP) : AP :=
  mkAsync (ap_Cache s) (ap_LoadBalancingPolicy s) (ap_RequestChannel s) (<[code := r]> (ap_Responses s))
    (ap_Persistence s) (ap_AllowedRetries s).
Definition with_channel (l : list BufferedRequest) (s : AP) : AP :=
  mkAsync (ap_Cache s) (ap_LoadBalancingPolicy s) l (ap_Responses s) (ap_Persistence s)
    (ap_AllowedRetries s).
Definition with_persistence (p : S) (s : AP) : AP :=
  mkAsync (ap_Cache s) (ap_LoadBalancingPolicy s) (ap_RequestChannel s) (ap_Responses s) p
    (ap_AllowedRetries s).
Definition with_cache (d : Deployments) (s : AP) : AP :=
  mkAsync d (ap_LoadBalancingPolicy s) (ap_RequestChannel s) (ap_Responses s) (ap_Persistence s)
    (ap_AllowedRetries s).

Definition on_store {A} : GoM S A -> GoM AP A := zoom ap_Persistence with_persistence.
Definition on_cache {A} : GoM Deployments A -> GoM AP A := zoom ap_Cache with_cache.
Definition send_request (q : BufferedRequest) : GoM AP unit :=
  go_modify (fun s => with_channel (ap_RequestChannel s ++ [q]) s).

(** [NewAsyncProxyingService], with the persistence layer it has opened. *)
Definition NewAsyncProxyingService (cache : Deployments) (policy retries : Z) (p : S) : AP :=
  mkAsync cache policy [] ∅ p retries.

(** [createAsyncInvocationHandler], for the fresh code [code]: status and body
    of the answer. *)
Definition createAsyncInvocationHandler (now : Z) (code : string) (r : http_Request)
  : GoM AP (Z * string) :=
  let bufferedRequest := BufferedRequestFromRequest now r code in
  p ← on_store (PersistBufferedRequest bufferedRequest);
  let '(err, ser, per) := (p : go_error * Z * Z) in
  match err with
  | Some e => mret (StatusInternalServerError, e)
  | None =>
      send_request (set_tracking (br_NumberTries bufferedRequest) (br_Start bufferedRequest) ser per bufferedRequest) ;;
      mret (StatusOK, code)
  end.

(** The body of the goroutine of [asyncRequestHandler] for a request. *)
Definition handle_request (e : attempt_env) (q : BufferedRequest) : GoM AP unit :=
  s ← go_get;
  if decide (ap_AllowedRetries s <= br_NumberTries q) then
    go_modify (with_response (br_Code q) failed_response)
  else
    response ← on_cache (fireRequest e (ap_LoadBalancingPolicy s) q);
    if decide (acceptable response) then
      let response := recorded (at_now e) (br_Code q) response in
      go_modify (with_response (br_Code q) response) ;;
      on_store (PersistBufferedResponse response) ;;
      on_store (DeleteBufferedRequest (br_Code q)) ;;
      mret tt
    else send_request (one_more_try q).

(** One turn of the loop of [asyncRequestHandler]: it waits for a request, and
    the goroutine it starts runs to its end. *)
Definition asyncRequestHandler (e : attempt_env) : GoM AP unit :=
  s ← go_get;
  match ap_RequestChannel s with
  | [] => go_block
  | q :: rest => go_modify (with_channel rest) ;; handle_request e q
  end.

(** [createAsyncReadHandler]: the status and the body. *)
Definition FillResponseWithBufferedResponse (written : option Z) (r : BufferedResponse)
  : option Z * string := (WriteHeader (bs_StatusCode r) written, bs_Body r).
Definition StatusNoContent : Z := 204.
Definition createAsyncReadHandler (code : string) (s : AP) : option Z * string :=
  match ap_Responses s !! code with
  | Some val => FillResponseWithBufferedResponse (WriteHeader StatusOK None) val
  | None => (WriteHeader StatusNoContent None, ""%string)
  end.

(** One round of [startGarbageCollector]. *)
Definition garbage_collect (now : Z) (s : AP) : AP :=
  mkAsync (ap_Cache s) (ap_LoadBalancingPolicy s) (ap_RequestChannel s)
    (filter (fun kv => ¬ Minute_Nanoseconds < Unix now - Unix (bs_Timestamp kv.2)) (ap_Responses s))
    (ap_Persistence s) (ap_AllowedRetries s).

(** The recovery part of [StartProxyServer]. *)
Definition recover_responses : GoM AP unit :=
  r ← on_store ScanBufferedResponses;
  match r with
  | inl _ => go_fatal
  | inr responses => go_for responses (fun response => go_modify (with_response (bs_Code response) response))
  end.
Definition recover_requests : GoM AP unit :=
  r ← on_store ScanBufferedRequests;
  match r with
  | inl _ => go_fatal
  | inr bufferedRequests =>
      go_for bufferedRequests (fun request =>
        s ← go_get;
        match ap_Responses s !! br_Code request with
        | Some _ => mret tt
        | None => send_request request
        end)
  end.
Definition StartProxyServer : GoM AP unit := recover_responses ;; recover_requests.
End async.

(** ** The Redis layer keeps its promise *)

Section redis_requests_correct.
Context {R : Type} `{RC : RedisClient R} {content : R -> gmap string (gmap string string)}
  `{RS : !RedisSpec R content}.
Context `{CQ : Codec BufferedRequest, CQS : !CodecSpec BufferedRequest,
          CR : Codec BufferedResponse, CRS : !CodecSpec BufferedResponse}.
Context (scan_fuel : nat) (durations : Z * Z).

Definition redis_keeps (r : R) (k : kept) : Prop :=
  holds "" bufferedRequestPrefix (content r) (k_requests k) /\
  holds "" bufferedResponsePredix (content r) (k_responses k).

Lemma req_in_prefixes : bufferedRequestPrefix ∈ prefixes.
Proof. unfold prefixes. rewrite !elem_of_cons. auto. Qed.
Lemma res_in_prefixes : bufferedResponsePredix ∈ prefixes.
Proof. unfold prefixes. rewrite !elem_of_cons. auto 6. Qed.

Lemma put_record_content {A} `{CodecSpec A} key (a : A) e (r r' : R) :
  put_record key (Marshal a) r = Ok (e, r') ->
  (exists d, Marshal a = Some d /\
     content r' = <[key := <["data"%string := d]> (default ∅ (content r !! key))]> (content r)) \/
  (e ≠ None /\ content r' = content r).
Proof.
  destruct (Marshal a) as [d|] eqn:Hd; unfold put_record.
  - intros Hs. destruct e as [e|]; [|left; exists d; split; [done|by apply redis_hset]].
    apply redis_hset_err in Hs as [Hc|Hc]; [right; split; done|left; eauto].
  - intros [= <- <-]. by right.
Qed.

Lemma redis_requests_spec :
  @RequestPersistenceSpec R (requestRedisClient scan_fuel durations) redis_keeps.
Proof.
  pose proof req_in_prefixes as Hq. pose proof res_in_prefixes as Hr.
  split; cbn; unfold redis_keeps.
  - intros q s k e d1 d2 s' [H1 H2] Hs. apply gom_bind_ok in Hs as (e'&s1&Hp&Hret).
    apply put_record_content in Hp as [(d&Hd&Hc)|[He Hc]].
    + left. destruct e'; injection Hret as <- <- <- <-; rewrite Hc;
        (split; [by apply holds_insert|by apply holds_write_other]).
    + right. destruct e'; [|done]. injection Hret as <- <- <- <-. by rewrite Hc.
  - intros q s k e s' [H1 H2] Hp. apply put_record_content in Hp as [(d&Hd&Hc)|[He Hc]].
    + left. rewrite Hc. split; [by apply holds_write_other|by apply holds_insert].
    + right. by rewrite Hc.
  - intros c s k e s' [H1 H2] Hp.
    assert (Hdel : content s' = delete "data"%string (delete (record_key "" bufferedRequestPrefix c) (content s))
                   \/ (e ≠ None /\ content s' = content s)).
    { destruct e as [e|]; [apply redis_del_err in Hp as [Hc|Hc]; auto|].
      apply redis_del in Hp. auto. }
    destruct Hdel as [Hc|[He Hc]]; rewrite Hc; [left|by right].
    split; (apply holds_delete_other; [|by apply data_not_record]);
      [by apply holds_delete|by apply holds_erase_other].
  - intros s k l s' [H1 H2] Hs.
    destruct (get_records_content _ _ _ _ _ _ _ Hq H1 Hs) as [-> ?]. done.
  - intros s k l s' [H1 H2] Hs.
    destruct (get_records_content _ _ _ _ _ _ _ Hr H2 Hs) as [-> ?]. done.
Qed.
End redis_requests_correct.

(** ** Retries *)

Section retries.
Context {S : Type} `{RP : RequestPersistence S}.
Abbreviation AP := (AsyncProxyingService S).
(** The environment of each turn of the loop. *)
Context (envs : nat -> attempt_env).

(** Up to [n] turns of the request loop, from turn [i]; it stops early when
    nothing is left on the channel. *)
Fixpoint async_rounds (n i : nat) : GoM AP unit :=
  match n with
  | O => mret tt
  | Datatypes.S n' =>
      s ← go_get;
      match ap_RequestChannel s with
      | [] => mret tt
      | _ => asyncRequestHandler (envs i) ;; async_rounds n' (Datatypes.S i)
      end
  end.

(** The specification: a plain loop of at most [n] attempts that stops at the
    first acceptable response, and which attempt that was. *)
Fixpoint retry_loop (policy : Z) (q : BufferedRequest) (n i : nat)
  : GoM Deployments (option (nat * BufferedResponse)) :=
  match n with
  | O => mret None
  | Datatypes.S n' =>
      r ← fireRequest (envs i) policy q;
      if decide (acceptable r) then mret (Some (i, r)) else retry_loop policy q n' (Datatypes.S i)
  end.

Definition answer (code : string) (o : option (nat * BufferedResponse)) : BufferedResponse :=
  match o with
  | Some (i, r) => recorded (at_now (envs i)) code r
  | None => failed_response
  end.

(** The layer may report errors, but it returns. *)
Definition layer_returns : Prop :=
  (forall r s, returns (PersistBufferedResponse r) s) /\
  (forall c s, returns (DeleteBufferedRequest c) s).

(** The request is left when its retries are used up. *)
Lemma handle_request_exhausted e q s :
  ap_AllowedRetries s <= br_NumberTries q ->
  handle_request e q s = Ok (tt, with_response (br_Code q) failed_response s).
Proof. intros H. unfold handle_request, mbind, gom_bind. simpl. by rewrite decide_True. Qed.

(** An acceptable response is recorded and written, its request deleted. *)
Lemma handle_request_accepts e q s r d e1 p1 e2 p2 :
  br_NumberTries q < ap_AllowedRetries s ->
  fireRequest e (ap_LoadBalancingPolicy s) q (ap_Cache s) = Ok (r, d) -> acceptable r ->
  PersistBufferedResponse (recorded (at_now e) (br_Code q) r) (ap_Persistence s) = Ok (e1, p1) ->
  DeleteBufferedRequest (br_Code q) p1 = Ok (e2, p2) ->
  handle_request e q s =
    Ok (tt, with_persistence p2 (with_response (br_Code q) (recorded (at_now e) (br_Code q) r)
           (with_cache d s))).
Proof.
  intros Hlt Hf Ha H1 H2. unfold handle_request, mbind, gom_bind, on_cache, on_store, zoom.
  cbn [go_get]. rewrite decide_False by lia. rewrite Hf, decide_True by done.
  cbn [go_modify ap_Persistence with_response with_cache]. rewrite H1.
  cbn [ap_Persistence with_persistence]. rewrite H2. done.
Qed.

(** Otherwise it is sent, and answered or put back. *)
Lemma handle_request_fires e q s :
  layer_returns -> br_NumberTries q < ap_AllowedRetries s ->
  match fireRequest e (ap_LoadBalancingPolicy s) q (ap_Cache s) with
  | Ok (r, d) =>
      if decide (acceptable r) then
        exists p, handle_request e q s =
          Ok (tt, with_persistence p (with_response (br_Code q) (recorded (at_now e) (br_Code q) r)
                 (with_cache d s)))
      else handle_request e q s =
             Ok (tt, with_channel (ap_RequestChannel s ++ [one_more_try q]) (with_cache d s))
  | Panic => handle_request e q s = Panic
  | Fatal => handle_request e q s = Fatal
  | Blocked => handle_request e q s = Blocked
  end.
Proof.
  intros [Hp Hd] Hlt. destruct (fireRequest _ _ _ _) as [[r d]| | |] eqn:Hf.
  2-4: unfold handle_request, mbind, gom_bind, on_cache, zoom; cbn [go_get];
       by rewrite decide_False, Hf by lia.
  destruct (decide (acceptable r)) as [Hacc|Hacc].
  - destruct (Hp (recorded (at_now e) (br_Code q) r) (ap_Persistence s)) as (e1&p1&H1).
    destruct (Hd (br_Code q) p1) as (e2&p2&H2). exists p2. by eapply handle_request_accepts.
  - unfold handle_request, mbind, gom_bind, on_cache, zoom. cbn [go_get].
    by rewrite decide_False, Hf, decide_False by (done || lia).
Qed.

Lemma fireRequest_same_request e policy q q' :
  RequestFromBufferedRequest q' = RequestFromBufferedRequest q -> fireRequest e policy q' = fireRequest e policy q.
Proof. unfold fireRequest. by intros ->. Qed.

Lemma retry_loop_same_request policy q q' n i d :
  RequestFromBufferedRequest q' = RequestFromBufferedRequest q -> retry_loop policy q' n i d = retry_loop policy q n i d.
Proof.
  intros Hq. revert i d. induction n as [|n IH]; intros i d; [done|]. cbn [retry_loop].
  rewrite (fireRequest_same_request _ _ q q') by done. unfold mbind, gom_bind.
  destruct (fireRequest _ _ _ _) as [[r d']| | |]; try done. case_decide; [done|apply IH].
Qed.

Lemma async_round_run n i q s :
  ap_RequestChannel s = [q] ->
  async_rounds (Datatypes.S n) i s =
    (handle_request (envs i) q ;; async_rounds n (Datatypes.S i)) (with_channel [] s).
Proof.
  intros Hc. cbn [async_rounds]. unfold asyncRequestHandler, mbind, gom_bind. simpl.
  rewrite Hc. simpl. by rewrite Hc.
Qed.

Lemma async_rounds_idle n i s : ap_RequestChannel s = [] -> async_rounds n i s = Ok (tt, s).
Proof. intros Hc. destruct n; [done|]. simpl. unfold mbind, gom_bind. simpl. by rewrite Hc. Qed.

(** The loop over the channel does what the plain loop does. *)
Lemma async_rounds_refine k i q s :
  layer_returns -> ap_RequestChannel s = [q] ->
  Z.to_nat (ap_AllowedRetries s - br_NumberTries q) = k ->
  match retry_loop (ap_LoadBalancingPolicy s) q k i (ap_Cache s) with
  | Ok (o, d) => exists p, async_rounds (k + 1) i s =
      Ok (tt, mkAsync d (ap_LoadBalancingPolicy s) [] (<[br_Code q := answer (br_Code q) o]> (ap_Responses s))
                p (ap_AllowedRetries s))
  | Panic => async_rounds (k + 1) i s = Panic
  | Fatal => async_rounds (k + 1) i s = Fatal
  | Blocked => async_rounds (k + 1) i s = Blocked
  end.
Proof.
  intros Hl. revert i q s. induction k as [|k IH]; intros i q s Hc Hk.
  - exists (ap_Persistence s). change (0 + 1)%nat with 1%nat. rewrite (async_round_run 0 i q s Hc). unfold mbind at 1, gom_bind at 1.
    rewrite handle_request_exhausted by (simpl; lia). done.
  - change (Datatypes.S k + 1)%nat with (Datatypes.S (k + 1)).
    rewrite (async_round_run (k + 1) i q s Hc). cbn [retry_loop]. unfold mbind at 1, gom_bind at 1.
    pose proof (handle_request_fires (envs i) q (with_channel [] s) Hl) as Hh. simpl in Hh.
    specialize (Hh ltac:(lia)).
    destruct (fireRequest (envs i) _ q _) as [[r d]| | |];
      [|by unfold mbind, gom_bind; rewrite Hh..].
    case_decide.
    + destruct Hh as [p Hh]. exists p. unfold mbind, gom_bind. rewrite Hh.
      by rewrite async_rounds_idle.
    + set (s1 := with_channel [one_more_try q] (with_cache d s)) in *.
      unfold mbind, gom_bind. rewrite Hh. change (with_channel _ _) with s1.
      specialize (IH (Datatypes.S i) (one_more_try q) s1 eq_refl). simpl in IH.
      rewrite (retry_loop_same_request _ q) in IH by done.
      apply IH. lia.
Qed.
End retries.

(** C14: The request channel implements a bounded retry loop.  For a request that
    is alone on the channel, [AllowedRetries + 1] turns of the loop behave as a
    plain loop of at most [AllowedRetries] attempts that stops at the first
    acceptable response (a success or a bad request), for every behaviour of
    the sandboxes and of the persistence layer, which may report errors: the
    channel is empty, the function metadata is what the attempts leave, and the
    response under the code of the request is that response, or the failure
    response when every attempt failed, and no other response changes.  When an
    attempt does not return, neither do the turns. *)
Theorem async_refines_retry_loop {S} `{RequestPersistence S} envs (s : AsyncProxyingService S) q :
  layer_returns -> ap_RequestChannel s = [q] -> br_NumberTries q = 0 -> 0 <= ap_AllowedRetries s ->
  let n := Z.to_nat (ap_AllowedRetries s) in
  match retry_loop envs (ap_LoadBalancingPolicy s) q n 0 (ap_Cache s) with
  | Ok (o, d) => exists p, async_rounds envs (n + 1) 0 s =
      Ok (tt, mkAsync d (ap_LoadBalancingPolicy s) []
                (<[br_Code q := answer envs (br_Code q) o]> (ap_Responses s)) p (ap_AllowedRetries s))
  | Panic => async_rounds envs (n + 1) 0 s = Panic
  | Fatal => async_rounds envs (n + 1) 0 s = Fatal
  | Blocked => async_rounds envs (n + 1) 0 s = Blocked
  end.
Proof.
  intros Hl Hc Ht Ha n. apply (async_rounds_refine envs n 0 q s Hl Hc). unfold n. f_equal. lia.
Qed.

Definition example_http (host : string) : http_Request :=
  mkHttpRequest "POST" (Some (mkURL "http" host "/" "")) "HTTP/1.1" 1 1 ∅ "hi" 2 [] false host
    None None None ∅ "10.0.0.7:4000".

(** Two failed exchanges, then a success. *)
Definition example_attempts (i : nat) : attempt_env :=
  mkAttemptEnv 7 (mkInvocationEnv example_env_lb example_wait)
    (if decide (i < 2)%nat then inl "connection reset" else inr "hello").

Lemma async_refines_retry_loop_witness :
  let q := BufferedRequestFromRequest 1 (example_http "f") "c1" in
  let s : AsyncProxyingService unit :=
    mkAsync {[ "f" := example_two ]} LOAD_BALANCING_RANDOM [q] ∅ tt 3 in
  exists d p, async_rounds example_attempts 4 0 s =
    Ok (tt, mkAsync d LOAD_BALANCING_RANDOM [] {[ "c1" := mkBufferedResponse 200 "hello" 7 "c1" ]} p 3).
Proof.
  intros q s.
  assert (Hl : layer_returns (S := unit)) by (split; [intros r u|intros c u]; by eexists _, _).
  pose proof (async_refines_retry_loop example_attempts s q Hl eq_refl eq_refl ltac:(done)) as H.
  set (l := retry_loop example_attempts (ap_LoadBalancingPolicy s) q (Z.to_nat 3) 0 (ap_Cache s)) in *.
  assert (Hv : match l with Ok (o, _) => Some o | _ => None end = Some (Some (2%nat, plain_response 200 "hello")))
    by (vm_compute; reflexivity).
  change (retry_loop _ _ _ _ _ _) with l in H.
  destruct l as [[o d]| | |]; [|discriminate Hv..]. injection Hv as ->.
  destruct H as [p Hp]. exists d, p. exact Hp.
Defined.

(** ** Every request is answered *)

Section drain.
Context {S : Type} `{RP : RequestPersistence S}.
Abbreviation AP := (AsyncProxyingService S).
Context (envs : nat -> attempt_env).
(** The states of the functions in which every attempt returns. *)
Context (healthy : Deployments -> Prop).

(** The turns a request can still take. *)
Definition turns (retries : Z) (q : BufferedRequest) : nat :=
  Datatypes.S (Z.to_nat (retries - br_NumberTries q)).
Definition turns_left (s : AP) : nat :=
  sum_list_with (turns (ap_AllowedRetries s)) (ap_RequestChannel s).

(** Every code of [cs] has a response or is on the channel. *)
Definition accounted (s : AP) (c : string) : Prop :=
  is_Some (ap_Responses s !! c) \/ exists q, q ∈ ap_RequestChannel s /\ br_Code q = c.

Definition attempts_return : Prop :=
  forall e policy q d, healthy d -> exists r d', fireRequest e policy q d = Ok (r, d') /\ healthy d'.

Lemma accounted_next (s s' : AP) q rest c :
  ap_RequestChannel s = q :: rest -> accounted s c ->
  (forall c', is_Some (ap_Responses s !! c') -> is_Some (ap_Responses s' !! c')) ->
  accounted s' (br_Code q) -> rest ⊆ ap_RequestChannel s' -> accounted s' c.
Proof.
  intros Hc [Hr|(q'&Hq&<-)] Hresp Hcur Hsub; [left; auto|].
  rewrite Hc in Hq. apply elem_of_cons in Hq as [->|Hq]; [auto|]. right. eauto.
Qed.

Lemma responses_grow (m : gmap string BufferedResponse) code r c :
  is_Some (m !! c) -> is_Some (<[code := r]> m !! c).
Proof. intros ?. rewrite lookup_insert_is_Some. destruct (decide (code = c)); auto. Qed.

(** A turn takes one of the turns that are left and loses no request. *)
Lemma asyncRequestHandler_progress e (s : AP) q rest :
  layer_returns (S := S) -> attempts_return -> healthy (ap_Cache s) -> ap_RequestChannel s = q :: rest ->
  exists s', asyncRequestHandler e s = Ok (tt, s') /\ healthy (ap_Cache s') /\
    (turns_left s' < turns_left s)%nat /\ (forall c, accounted s c -> accounted s' c).
Proof.
  intros Hl Ha Hh Hc. unfold asyncRequestHandler, mbind, gom_bind. simpl. rewrite Hc.
  cbn [go_modify]. set (s1 := with_channel rest s).
  assert (Hturn : turns_left s = (turns (ap_AllowedRetries s) q + turns_left s1)%nat).
  { unfold turns_left. by rewrite Hc. }
  destruct (decide (ap_AllowedRetries s <= br_NumberTries q)) as [Hex|Hex].
  { rewrite handle_request_exhausted by done. eexists. split; [done|]. split; [done|]. split.
    - rewrite Hturn. unfold turns. change (turns_left (with_response _ _ s1)) with (turns_left s1). lia.
    - intros c Hcs. eapply accounted_next; [done|done| | |done].
      + intros c' ?. by apply responses_grow.
      + left. simpl. by rewrite lookup_insert_eq. }
  pose proof (handle_request_fires e q s1 Hl) as Hf. specialize (Hf ltac:(simpl; lia)).
  destruct (Ha e (ap_LoadBalancingPolicy s1) q (ap_Cache s1) Hh) as (r&d&Hr&Hd).
  rewrite Hr in Hf. case_decide.
  - destruct Hf as [p Hf]. rewrite Hf. eexists. split; [done|]. split; [done|]. split.
    + rewrite Hturn. unfold turns. change (turns_left (with_persistence _ _)) with (turns_left s1). lia.
    + intros c Hcs. eapply accounted_next; [done|done| | |done].
      * intros c' ?. by apply responses_grow.
      * left. simpl. by rewrite lookup_insert_eq.
  - rewrite Hf. eexists. split; [done|]. split; [done|]. split.
    + rewrite Hturn. unfold turns_left, turns. simpl. rewrite sum_list_with_app. simpl. lia.
    + intros c Hcs. eapply accounted_next; [done|done|done| |].
      * right. exists (one_more_try q). split; [|done]. simpl. apply elem_of_app. right. by left.
      * simpl. intros q' ?. apply elem_of_app. by left.
Qed.

Lemma async_rounds_drain n i (s : AP) :
  layer_returns (S := S) -> attempts_return -> healthy (ap_Cache s) -> (turns_left s <= n)%nat ->
  exists s', async_rounds envs n i s = Ok (tt, s') /\ ap_RequestChannel s' = [] /\
    (forall c, accounted s c -> accounted s' c).
Proof.
  intros Hl Ha. revert i s. induction n as [|n IH]; intros i s Hh Hn.
  { exists s. split; [done|]. split; [|done]. unfold turns_left in Hn.
    destruct (ap_RequestChannel s); [done|]. simpl in Hn. unfold turns in Hn. lia. }
  destruct (ap_RequestChannel s) as [|q rest] eqn:Hc.
  { exists s. split; [by apply async_rounds_idle|done]. }
  destruct (asyncRequestHandler_progress (envs i) s q rest Hl Ha Hh Hc) as (s1&H1&H2&H3&H4).
  destruct (IH (Datatypes.S i) s1 H2) as (s'&H5&H6&H7); [lia|].
  exists s'. split; [|split; [done|auto]]. cbn [async_rounds]. unfold mbind, gom_bind. simpl.
  by rewrite Hc, H1, H5.
Qed.
End drain.

(** Every buffered request is answered.  Whatever requests wait on the
    channel and however often each has been tried, as long as the attempts
    themselves return, the loop empties the channel within the turns that are
    left to its requests, at most [AllowedRetries + 1] each, and then every
    request has a response under its code; responses that were there stay
    there. *)
Theorem async_channel_drains {S} `{RequestPersistence S} envs healthy (s : AsyncProxyingService S) :
  layer_returns (S := S) -> attempts_return healthy -> healthy (ap_Cache s) ->
  exists s', async_rounds envs (turns_left s) 0 s = Ok (tt, s') /\ ap_RequestChannel s' = [] /\
    (forall q, q ∈ ap_RequestChannel s -> is_Some (ap_Responses s' !! br_Code q)) /\
    (forall c, is_Some (ap_Responses s !! c) -> is_Some (ap_Responses s' !! c)).
Proof.
  intros Hl Ha Hh.
  destruct (async_rounds_drain envs healthy (turns_left s) 0 s Hl Ha Hh (le_n _)) as (s'&H1&H2&H3).
  assert (Hall : forall c, accounted s c -> is_Some (ap_Responses s' !! c)).
  { intros c Hc. destruct (H3 c Hc) as [?|(q&Hq&_)]; [done|]. rewrite H2 in Hq. by apply elem_of_nil in Hq. }
  exists s'. split; [done|]. split; [done|]. split; intros; apply Hall; [right; eauto|by left].
Qed.

(** Requests for functions that are not deployed, one of them tried before. *)
Lemma async_channel_drains_witness :
  let q1 := BufferedRequestFromRequest 1 (example_http "f") "c1" in
  let q2 := one_more_try (BufferedRequestFromRequest 1 (example_http "g") "c2") in
  let s : AsyncProxyingService unit := mkAsync ∅ LOAD_BALANCING_RANDOM [q1; q2] ∅ tt 3 in
  exists s', async_rounds example_attempts 7 0 s = Ok (tt, s') /\ ap_RequestChannel s' = [] /\
    is_Some (ap_Responses s' !! "c1") /\ is_Some (ap_Responses s' !! "c2").
Proof.
  intros q1 q2 s.
  destruct (async_channel_drains example_attempts (fun d => d = ∅) s) as (s'&H1&H2&H3&_).
  - split; [intros r u|intros c u]; by eexists _, _.
  - intros e policy q d ->. eexists _, ∅. split; [reflexivity|reflexivity].
  - reflexivity.
  - exists s'. split; [exact H1|]. split; [exact H2|]. split; [apply (H3 q1)|apply (H3 q2)].
    + by left.
    + by right; left.
Defined.

(** ** Restarts *)

(** What happens to a running proxy: a client sends a request, the loop takes
    a turn, the collector runs. *)
Inductive async_op : Type :=
| AAccept (now : Z) (code : string) (r : http_Request)
| ATurn (e : attempt_env)
| ACollect (now : Z).

Definition op_code (o : async_op) : list string :=
  match o with AAccept _ code _ => [code] | _ => [] end.

Section restart.
Context {S : Type} `{RP : RequestPersistence S}.
Abbreviation AP := (AsyncProxyingService S).

(** The requests that were acknowledged, with their codes. *)
Definition async_run (o : async_op) : GoM AP (list (string * http_Request)) :=
  match o with
  | AAccept now code r =>
      a ← createAsyncInvocationHandler now code r;
      mret (if decide (a.1 = StatusOK) then [(code, r)] else [])
  | ATurn e => asyncRequestHandler e ;; mret []
  | ACollect now => go_modify (garbage_collect now) ;; mret []
  end.
Fixpoint async_history (ops : list async_op) : GoM AP (list (string * http_Request)) :=
  match ops with
  | [] => mret []
  | o :: ops' => a ← async_run o; b ← async_history ops'; mret (a ++ b)
  end.

Context {keeps : S -> kept -> Prop} `{RPS : !RequestPersistenceSpec S keeps}.

(** The records are filed under their codes. *)
Definition filed (k : kept) : Prop :=
  (forall c q, k_requests k !! c = Some q -> br_Code q = c) /\
  (forall c r, k_responses k !! c = Some r -> bs_Code r = c).

(** An acknowledged request is on record, or its response is. *)
Definition on_record (k : kept) (a : string * http_Request) : Prop :=
  is_Some (k_responses k !! a.1) \/
  exists q, k_requests k !! a.1 = Some q /\ RequestFromBufferedRequest q = a.2.

(** [r] is what an attempt to serve the acknowledged request [c] gave, with the
    time of the attempt. *)
Definition genuine (acked : list (string * http_Request)) (c : string) (r : BufferedResponse) : Prop :=
  exists e policy q d d' r0, (c, RequestFromBufferedRequest q) ∈ acked /\
    fireRequest e policy q d = Ok (r0, d') /\ acceptable r0 /\ r = recorded (at_now e) c r0.

Record safe_with (k : kept) (s : AP) (acked : list (string * http_Request)) : Prop := {
  sf_keeps : keeps (ap_Persistence s) k;
  sf_filed : filed k;
  sf_acked : forall a, a ∈ acked -> on_record k a;
  sf_channel : forall q, q ∈ ap_RequestChannel s -> (br_Code q, RequestFromBufferedRequest q) ∈ acked;
  sf_memory : forall c r, ap_Responses s !! c = Some r -> acceptable r -> k_responses k !! c = Some r;
  sf_genuine : forall c r, k_responses k !! c = Some r -> genuine acked c r;
}.
Definition safe (s : AP) (acked : list (string * http_Request)) : Prop := exists k, safe_with k s acked.

Lemma genuine_mono acked acked' c r :
  (forall a, a ∈ acked -> a ∈ acked') -> genuine acked c r -> genuine acked' c r.
Proof. intros Hs (e&policy&q&d&d'&r0&H&?). exists e, policy, q, d, d', r0. auto. Qed.
Lemma safe_same s acked acked' : (forall a, a ∈ acked <-> a ∈ acked') -> safe s acked -> safe s acked'.
Proof.
  intros Hs (k&[H1 H2 H3 H4 H5 H6]). exists k. split; try done.
  - intros a Ha. by apply H3, Hs.
  - intros q Hq. by apply Hs, H4.
  - intros c r Hr. eapply genuine_mono; [|by apply H6]. intros a. apply Hs.
Qed.

Definition responses_written : Prop :=
  forall r s e s', PersistBufferedResponse r s ≠ Ok (Some e, s').

Lemma filed_keep_request k q : filed k -> filed (keep_request q k).
Proof.
  intros [H1 H2]. split; [|done]. intros c q'. simpl. rewrite lookup_insert.
  case_decide; [by intros [= <-]|apply H1].
Qed.
Lemma filed_keep_response k r : filed k -> filed (keep_response r k).
Proof.
  intros [H1 H2]. split; [done|]. intros c r'. simpl. rewrite lookup_insert.
  case_decide; [by intros [= <-]|apply H2].
Qed.
Lemma filed_drop_request k c : filed k -> filed (drop_request c k).
Proof.
  intros [H1 H2]. split; [|done]. intros c' q. simpl. rewrite lookup_delete.
  case_decide; [done|apply H1].
Qed.

Lemma on_record_keep_response k r a : on_record k a -> on_record (keep_response r k) a.
Proof. intros [H|H]; [left; by apply responses_grow|by right]. Qed.
Lemma on_record_keep_request k q a :
  br_Code q ≠ a.1 -> on_record k a -> on_record (keep_request q k) a.
Proof. intros Hne [H|(q'&H&Hr)]; [by left|]. right. exists q'. simpl. by rewrite lookup_insert_ne. Qed.
Lemma on_record_drop_request k c a :
  is_Some (k_responses k !! c) -> on_record k a -> on_record (drop_request c k) a.
Proof.
  intros Hc [H|(q'&H&Hr)]; [by left|]. destruct (decide (c = a.1)) as [->|]; [by left|].
  right. exists q'. simpl. by rewrite lookup_delete_ne.
Qed.

(** The steps of the handlers, on the persistence layer. *)
Lemma accept_safe now code r (s s' : AP) x acked :
  safe s acked -> code ∉ acked.*1 -> createAsyncInvocationHandler now code r s = Ok (x, s') ->
  safe s' ((if decide (x.1 = StatusOK) then [(code, r)] else []) ++ acked).
Proof.
  intros (k&[Hk Hf Ha Hc Hm Hg]) Hnew H. unfold createAsyncInvocationHandler in H.
  apply gom_bind_ok in H as ([[err ser] per]&s1&H1&H2).
  unfold on_store, zoom in H1. destruct (PersistBufferedRequest _ _) as [[[[e d1] d2] p]| | |] eqn:Ep; try done.
  injection H1 as -> -> -> <-. set (q0 := BufferedRequestFromRequest now r code) in *.
  assert (Hq0 : RequestFromBufferedRequest q0 = r) by apply buffered_request_roundtrip.
  assert (Hother : forall a, a ∈ acked -> on_record (keep_request q0 k) a).
  { intros a Hin. apply on_record_keep_request; [|by apply Ha].
    intros Heq. simpl in Heq. apply Hnew. rewrite Heq. by apply list_elem_of_fmap_2. }
  destruct (rp_request _ _ _ _ _ _ _ Hk Ep) as [Hk'|[He Hk']].
  - exists (keep_request q0 k).
    destruct err as [e|]; injection H2 as <- <-; cbn; (split; cbn; try done; [by apply filed_keep_request|..]).
    + intros a [->|Hin]%elem_of_cons; [|by apply Hother]. right. exists q0. cbn. by rewrite lookup_insert_eq.
    + intros q [Hq| ->%list_elem_of_singleton]%elem_of_app; [apply (list_elem_of_further _ _ _ (Hc q Hq))|].
      rewrite decide_True by done. apply elem_of_cons. left. f_equal. exact Hq0.
    + intros c r' Hr'. eapply genuine_mono; [|by apply Hg]. intros a. by right.
  - destruct err as [e|]; [|done]. injection H2 as <- <-. exists k. by split.
Qed.

Lemma recorded_acceptable now c r : acceptable (recorded now c r) <-> acceptable r.
Proof. done. Qed.
Lemma failed_response_unacceptable : ¬ acceptable failed_response.
Proof. by intros [?|?]. Qed.

Lemma turn_safe e (s s' : AP) u acked :
  responses_written -> safe s acked -> asyncRequestHandler e s = Ok (u, s') -> safe s' acked.
Proof.
  intros Hw (k&[Hk Hf Ha Hc Hm Hg]) H. unfold asyncRequestHandler, mbind, gom_bind in H. simpl in H.
  destruct (ap_RequestChannel s) as [|q rest] eqn:Ec; [done|]. simpl in H.
  assert (Hq : (br_Code q, RequestFromBufferedRequest q) ∈ acked) by (apply Hc; by left).
  assert (Hrest : forall q', q' ∈ rest -> (br_Code q', RequestFromBufferedRequest q') ∈ acked)
    by (intros q' ?; apply Hc; by right).
  unfold handle_request, mbind, gom_bind in H. simpl in H. case_decide.
  { injection H as <- <-. exists k. split; try done. cbn. intros c r. rewrite lookup_insert_Some.
    intros [[_ <-]|[_ Hr]] Hacc; [by apply failed_response_unacceptable in Hacc|by apply Hm]. }
  unfold on_cache, zoom in H. simpl in H. destruct (fireRequest _ _ _ _) as [[r d]| | |] eqn:Ef; try done.
  case_decide as Hacc.
  2: { injection H as <- <-. exists k. split; try done. cbn. intros q'.
       rewrite elem_of_app, list_elem_of_singleton. intros [?| ->]; [by apply Hrest|exact Hq]. }
  simpl in H. unfold on_store, zoom in H. simpl in H. set (rr := recorded _ _ _) in H.
  destruct (PersistBufferedResponse rr _) as [[e1 p1]| | |] eqn:E1; try done.
  destruct (rp_response _ _ _ _ _ Hk E1) as [Hk1|[He _]];
    [|destruct e1; [by apply Hw in E1|done]].
  simpl in H. destruct (DeleteBufferedRequest _ _) as [[e2 p2]| | |] eqn:E2; try done.
  injection H as <- <-.
  assert (Hrec : forall a, a ∈ acked -> on_record (keep_response rr k) a)
    by (intros a Hin; by apply on_record_keep_response, Ha).
  assert (Hmem : forall c r', <[br_Code q := rr]> (ap_Responses s) !! c = Some r' -> acceptable r' ->
            <[br_Code q := rr]> (k_responses k) !! c = Some r').
  { intros c r'. rewrite !lookup_insert_Some. intros [?|[? Hr']] ?; [by left|]. right. split; [done|by apply Hm]. }
  assert (Hgen : forall c r', <[br_Code q := rr]> (k_responses k) !! c = Some r' -> genuine acked c r').
  { intros c r'. rewrite lookup_insert_Some. intros [[<- <-]|[_ Hr']]; [|by apply Hg].
    by exists e, (ap_LoadBalancingPolicy s), q, (ap_Cache s), d, r. }
  destruct (rp_delete _ _ _ _ _ Hk1 E2) as [Hk2|[_ Hk2]].
  - exists (drop_request (br_Code q) (keep_response rr k)). split; try done.
    + by apply filed_drop_request, filed_keep_response.
    + intros a Hin. apply on_record_drop_request; [|by apply Hrec]. simpl. by rewrite lookup_insert_eq.
  - exists (keep_response rr k). split; try done. by apply filed_keep_response.
Qed.

Lemma collect_safe now (s : AP) acked : safe s acked -> safe (garbage_collect now s) acked.
Proof.
  intros (k&[Hk Hf Ha Hc Hm Hg]). exists k. split; try done. cbn. intros c r [Hr _]%map_lookup_filter_Some. by apply Hm.
Qed.

Lemma async_history_safe ops (s s' : AP) acked new :
  responses_written -> NoDup (concat (op_code <$> ops)) ->
  (forall c, c ∈ concat (op_code <$> ops) -> c ∉ acked.*1) -> safe s acked ->
  async_history ops s = Ok (new, s') -> safe s' (new ++ acked).
Proof.
  intros Hw. revert s acked new. induction ops as [|o ops IH]; intros s acked new Hn Hfresh Hs H.
  { by injection H as <- <-. }
  cbn [async_history] in H. apply gom_bind_ok in H as (a&s1&H1&H2).
  apply gom_bind_ok in H2 as (b&s2&H2&H3). injection H3 as <- <-.
  cbn [fmap list_fmap concat] in Hn, Hfresh. apply list.NoDup_app in Hn as (_&Hd&Hn).
  assert (Hstep : safe s1 (a ++ acked) /\ (forall c, c ∈ a.*1 -> c ∈ op_code o)).
  { destruct o as [now code r|e|now]; cbn [async_run] in H1.
    - apply gom_bind_ok in H1 as (x&s3&H1&H4). injection H4 as <- <-. split.
      + eapply accept_safe; [done| |done]. apply Hfresh. apply elem_of_app. left. by left.
      + intros c. case_decide; [done|by intros ?%elem_of_nil].
    - apply gom_bind_ok in H1 as (x&s3&H1&H4). injection H4 as <- <-.
      split; [by eapply turn_safe|by intros c ?%elem_of_nil].
    - injection H1 as <- <-. split; [by apply collect_safe|by intros c ?%elem_of_nil]. }
  destruct Hstep as [Hs1 Hcodes].
  eapply (safe_same _ (b ++ a ++ acked)); [intros x; rewrite !elem_of_app; tauto|].
  eapply IH; [done| |done|done]. intros c Hc. rewrite fmap_app, elem_of_app. intros [Hin|Hin].
  - by apply (Hd c); [apply Hcodes|].
  - eapply Hfresh; [|done]. apply elem_of_app. by right.
Qed.

(** The two loops of the recovery. *)
Lemma load_responses_run (m : gmap string BufferedResponse) (l : list BufferedResponse) (s : AP) :
  (forall r, r ∈ l -> m !! bs_Code r = Some r) ->
  exists s', go_for l (fun r => go_modify (with_response (bs_Code r) r)) s = Ok (tt, s') /\
    ap_RequestChannel s' = ap_RequestChannel s /\ ap_Persistence s' = ap_Persistence s /\
    (forall c, ap_Responses s' !! c = if decide (c ∈ bs_Code <$> l) then m !! c else ap_Responses s !! c).
Proof.
  revert s. induction l as [|r l IH]; intros s Hm.
  { exists s. split; [done|]. do 2 (split; [done|]). intros c. by rewrite decide_False by apply not_elem_of_nil. }
  destruct (IH (with_response (bs_Code r) r s)) as (s'&H1&H2&H3&H4); [intros; apply Hm; by right|].
  exists s'. split; [done|]. do 2 (split; [done|]). intros c. rewrite H4. cbn. rewrite lookup_insert.
  destruct (decide (bs_Code r = c)) as [<-|Hne].
  - rewrite (decide_True (P := bs_Code r ∈ bs_Code r :: _)) by (by left).
    destruct (decide _); [done|]. symmetry. apply Hm. by left.
  - destruct (decide (c ∈ bs_Code <$> l)) as [Hin|Hnin].
    + by rewrite decide_True by (by right).
    + rewrite decide_False; [done|]. rewrite elem_of_cons. by intros [->|?].
Qed.

Lemma resend_requests_run (l : list BufferedRequest) (s : AP) :
  go_for l (fun q => s ← go_get; match ap_Responses s !! br_Code q with
                                 | Some _ => mret tt | None => send_request q end) s =
  Ok (tt, with_channel (ap_RequestChannel s ++
                          filter (fun q => ap_Responses s !! br_Code q = None) l) s).
Proof.
  revert s. induction l as [|q l IH]; intros s.
  { simpl. rewrite app_nil_r. by destruct s. }
  cbn [go_for]. unfold mbind at 1, gom_bind at 1. unfold mbind at 1, gom_bind at 1. cbn [go_get].
  rewrite filter_cons. destruct (ap_Responses s !! br_Code q) as [r|] eqn:E.
  - rewrite decide_False by done. cbn [mret gom_ret]. apply IH.
  - rewrite decide_True by done. unfold send_request, go_modify. rewrite IH. simpl.
    by rewrite <- app_assoc.
Qed.

(** A proxy that starts on the records of another one. *)
Lemma StartProxyServer_run (s : AP) k rs p1 qs p2 :
  keeps (ap_Persistence s) k -> filed k -> ap_RequestChannel s = [] -> ap_Responses s = ∅ ->
  ScanBufferedResponses (ap_Persistence s) = Ok (inr rs, p1) ->
  ScanBufferedRequests p1 = Ok (inr qs, p2) ->
  exists s', StartProxyServer s = Ok (tt, s') /\
    (forall c, ap_Responses s' !! c = k_responses k !! c) /\
    (forall q, q ∈ ap_RequestChannel s' <->
       k_requests k !! br_Code q = Some q /\ k_responses k !! br_Code q = None).
Proof.
  intros Hk [F1 F2] Hc Hr H1 H2.
  destruct (rp_scan_responses _ _ _ _ Hk H1) as [Hk1 Hv1].
  destruct (rp_scan_requests _ _ _ _ Hk1 H2) as [_ Hv2].
  destruct (load_responses_run (k_responses k) rs (with_persistence p1 s)) as (s1&L1&L2&L3&L4).
  { intros r Hin. apply Hv1 in Hin as [c Hin]. by rewrite (F2 _ _ Hin). }
  assert (Hresp : forall c, ap_Responses s1 !! c = k_responses k !! c).
  { intros c. rewrite L4. case_decide as Hin; [done|]. simpl. rewrite Hr, lookup_empty. symmetry.
    apply eq_None_not_Some. intros [r Hrc]. apply Hin. apply list_elem_of_fmap. exists r.
    split; [symmetry; by apply F2|]. apply Hv1. eauto. }
  exists (with_channel (ap_RequestChannel (with_persistence p2 s1) ++
            filter (fun q => ap_Responses (with_persistence p2 s1) !! br_Code q = None) qs)
            (with_persistence p2 s1)).
  split; [|split; [done|]].
  - unfold StartProxyServer, recover_responses, recover_requests, on_store.
    unfold mbind at 1, gom_bind at 1. unfold mbind at 1, gom_bind at 1. unfold zoom at 1.
    rewrite H1, L1. unfold mbind, gom_bind at 1. unfold zoom. rewrite L3. simpl ap_Persistence.
    rewrite H2. apply resend_requests_run.
  - intros q. simpl. rewrite L2. simpl. rewrite Hc. simpl. rewrite list_elem_of_filter.
    rewrite Hresp, (Hv2 q). split.
    + intros [Hn [c Hin]]. rewrite (F1 _ _ Hin) in Hn |- *. done.
    + intros [Hin Hn]. eauto.
Qed.

Lemma new_safe cache policy retries p :
  keeps p (mkKept ∅ ∅) -> safe (NewAsyncProxyingService cache policy retries p) [].
Proof. intros Hk. exists (mkKept ∅ ∅). split; try done; by intros a ?%elem_of_nil. Qed.
Lemma history_keeps cache policy retries p ops (s : AP) acked :
  responses_written -> NoDup (concat (op_code <$> ops)) -> keeps p (mkKept ∅ ∅) ->
  async_history ops (NewAsyncProxyingService cache policy retries p) = Ok (acked, s) ->
  exists k, keeps (ap_Persistence s) k.
Proof.
  intros Hw Hn Hk H. destruct (async_history_safe ops (NewAsyncProxyingService cache policy retries p) s [] acked)
    as (k&Hs); try done.
  - intros c _. apply not_elem_of_nil.
  - by apply new_safe.
  - exists k. apply Hs.
Qed.
End restart.

(** The contract of the layer is enough for a proxy to recover. *)
Lemma restart_recovers {S} `{RP : RequestPersistence S} (keeps : S -> kept -> Prop)
    `{RPS : !RequestPersistenceSpec S keeps} cache policy retries p ops acked s cache' policy' retries' rs p1 qs p2 :
  responses_written (S := S) -> NoDup (concat (op_code <$> ops)) -> keeps p (mkKept ∅ ∅) ->
  async_history ops (NewAsyncProxyingService cache policy retries p) = Ok (acked, s) ->
  ScanBufferedResponses (ap_Persistence s) = Ok (inr rs, p1) ->
  ScanBufferedRequests p1 = Ok (inr qs, p2) ->
  exists s', StartProxyServer (NewAsyncProxyingService cache' policy' retries' (ap_Persistence s)) = Ok (tt, s') /\
    (forall c r, (c, r) ∈ acked -> is_Some (ap_Responses s' !! c) \/
       exists q, q ∈ ap_RequestChannel s' /\ br_Code q = c /\ RequestFromBufferedRequest q = r) /\
    (forall c r, ap_Responses s' !! c = Some r -> genuine acked c r) /\
    (forall c r, ap_Responses s !! c = Some r -> acceptable r -> ap_Responses s' !! c = Some r) /\
    (forall q, q ∈ ap_RequestChannel s' -> ap_Responses s' !! br_Code q = None).
Proof.
  intros Hw Hn Hk H Hs1 Hs2.
  assert (H0 : safe (keeps := keeps) (NewAsyncProxyingService cache policy retries p) []).
  { by apply new_safe. }
  assert (Hnil : forall c, c ∈ concat (op_code <$> ops) -> c ∉ ([] : list (string * http_Request)).*1)
    by (intros c _; apply not_elem_of_nil).
  pose proof (async_history_safe ops _ s [] acked Hw Hn Hnil H0 H) as Hsafe. clear H.
  rewrite app_nil_r in Hsafe. destruct Hsafe as (k&[Hk' Hf Ha Hc Hm Hg]).
  destruct (StartProxyServer_run (NewAsyncProxyingService cache' policy' retries' (ap_Persistence s))
              k rs p1 qs p2) as (s'&R1&R2&R3); try done.
  exists s'. split; [done|]. split; [|split; [|split]].
  - intros c r Hin. rewrite R2. destruct (Ha _ Hin) as [Hr|(q&Hq&Hr)]; [by left|].
    destruct (k_responses k !! c) as [x|] eqn:Ex; [by left|].
    right. exists q. simpl in Hq, Hr. assert (br_Code q = c) as <- by (by eapply (proj1 Hf)).
    split; [|done]. by apply R3.
  - intros c r. rewrite R2. apply Hg.
  - intros c r. rewrite R2. apply Hm.
  - intros q Hq. apply R3 in Hq as [_ Hq]. by rewrite R2.
Qed.


(** A concrete encoder and the layer on one map, for the examples. *)
Module AsyncExample.
Import Persistence.Example.
#[global] Instance URL_eq_dec : EqDecision URL.
Proof. solve_decision. Defined.
#[global] Instance URL_countable : Countable URL.
Proof.
  refine (inj_countable' (fun u => (url_Scheme u, url_Host u, url_Path u, url_RawQuery u))
    (fun '(a, b, c, d) => mkURL a b c d) _). by intros [].
Defined.
#[global] Instance http_Request_eq_dec : EqDecision http_Request.
Proof. solve_decision. Defined.
(** The fields are encoded one by one: pairs nested sixteen deep would make
    the code exponentially long. *)
#[global] Instance http_Request_countable : Countable http_Request.
Proof.
  refine (inj_countable
    (fun r => [encode (rq_Method r); encode (rq_URL r); encode (rq_Proto r);
              encode (rq_ProtoMajor r); encode (rq_ProtoMinor r); encode (rq_Header r);
              encode (rq_Body r); encode (rq_ContentLength r); encode (rq_TransferEncoding r);
              encode (rq_Close r); encode (rq_Host r); encode (rq_Form r);
              encode (rq_PostForm r); encode (rq_MultipartForm r); encode (rq_Trailer r);
              encode (rq_RemoteAddr r)])
    (fun t => match t with
       | [a; b; c; d; e; f; g; h; i; j; k; l; m; n; o; p] =>
           a' ← decode a; b' ← decode b; c' ← decode c; d' ← decode d; e' ← decode e;
           f' ← decode f; g' ← decode g; h' ← decode h; i' ← decode i; j' ← decode j;
           k' ← decode k; l' ← decode l; m' ← decode m; n' ← decode n; o' ← decode o;
           p' ← decode p;
           Some (mkHttpRequest a' b' c' d' e' f' g' h' i' j' k' l' m' n' o' p')
       | _ => None
       end) _).
  intros []. cbn. by rewrite !decode_encode.
Defined.
#[global] Instance BufferedRequest_eq_dec : EqDecision BufferedRequest.
Proof. solve_decision. Defined.
(** A buffered request is its request and its tracking fields. *)
Definition join_request (r : http_Request) (t : string * Z * Z * Z * Z) : BufferedRequest :=
  let '(code, tries, start, ser, per) := t in
  set_tracking tries start ser per (BufferedRequestFromRequest start r code).
#[global] Instance BufferedRequest_countable : Countable BufferedRequest.
Proof.
  refine (inj_countable'
    (fun q => (RequestFromBufferedRequest q, (br_Code q, br_NumberTries q, br_Start q, br_SerializationDuration q,
               br_PersistenceDuration q)))
    (fun '(a, b) => join_request a b) _). by intros [].
Defined.
#[global] Instance BufferedResponse_eq_dec : EqDecision BufferedResponse.
Proof. solve_decision. Defined.
#[global] Instance BufferedResponse_countable : Countable BufferedResponse.
Proof.
  refine (inj_countable' (fun r => (bs_StatusCode r, bs_Body r, bs_Timestamp r, bs_Code r))
    (fun '(a, b, c, d) => mkBufferedResponse a b c d) _). by intros [].
Defined.
#[export] Instance request_codec : Codec BufferedRequest := Example.count_codec _.
#[export] Instance request_codec_spec : CodecSpec BufferedRequest := Example.count_codec_spec _.
#[export] Instance response_codec : Codec BufferedResponse := Example.count_codec _.
#[export] Instance response_codec_spec : CodecSpec BufferedResponse := Example.count_codec_spec _.

#[export] Instance Map_requests : RequestPersistence Example.Map := requestRedisClient 2 (3, 5).
#[export] Instance Map_requests_spec :
  @RequestPersistenceSpec Example.Map Map_requests (redis_keeps (content := fun r => r)) :=
  redis_requests_spec 2 (3, 5).

(** Two requests are accepted, one is taken (its function is not deployed). *)
Definition ops : list async_op :=
  [AAccept 1 "c1" (example_http "f"); AAccept 2 "c2" (example_http "g");
   ATurn (example_attempts 0); ACollect 9].
Definition start : AsyncProxyingService Example.Map :=
  NewAsyncProxyingService ∅ LOAD_BALANCING_RANDOM 3 (∅ : Example.Map).
End AsyncExample.
Import Persistence.Example AsyncExample.


(** ** Responses that are lost, kept and reported *)

(** A response that cannot be written is lost with its request.  The handler
    only logs a failed write of the response, and then deletes the request: if
    the write had no effect and the deletion succeeds, then a proxy that starts
    on the records neither has the response of the acknowledged request nor
    sends it again. *)
Theorem unwritten_response_loses_request {S} `{RP : RequestPersistence S} (keeps : S -> kept -> Prop)
    e (s : AsyncProxyingService S) q rest k r d err p1 p2 p3 rs qs p4 :
  RequestPersistenceSpec S keeps -> keeps (ap_Persistence s) k -> filed k ->
  k_responses k !! br_Code q = None ->
  ap_RequestChannel s = q :: rest -> br_NumberTries q < ap_AllowedRetries s ->
  fireRequest e (ap_LoadBalancingPolicy s) q (ap_Cache s) = Ok (r, d) -> acceptable r ->
  PersistBufferedResponse (recorded (at_now e) (br_Code q) r) (ap_Persistence s) = Ok (Some err, p1) ->
  keeps p1 k -> DeleteBufferedRequest (br_Code q) p1 = Ok (None, p2) ->
  ScanBufferedResponses p2 = Ok (inr rs, p3) -> ScanBufferedRequests p3 = Ok (inr qs, p4) ->
  exists s1 s', asyncRequestHandler e s = Ok (tt, s1) /\ ap_Persistence s1 = p2 /\
    StartProxyServer (NewAsyncProxyingService d (ap_LoadBalancingPolicy s) (ap_AllowedRetries s)
                        (ap_Persistence s1)) = Ok (tt, s') /\
    ¬ accounted s' (br_Code q).
Proof.
  intros RPS Hk Hf Hnone Hc Ht Hfire Hacc Hp Hk1 Hd Hs1 Hs2.
  assert (Hk2 : keeps p2 (drop_request (br_Code q) k)).
  { by destruct (rp_delete _ _ _ _ _ Hk1 Hd) as [?|[? _]]. }
  eexists. destruct (StartProxyServer_run (NewAsyncProxyingService d (ap_LoadBalancingPolicy s)
    (ap_AllowedRetries s) p2) (drop_request (br_Code q) k) rs p3 qs p4) as (s'&R1&R2&R3); try done.
  { by apply filed_drop_request. }
  exists s'. split.
  { unfold asyncRequestHandler, mbind, gom_bind. simpl. rewrite Hc. simpl.
    by eapply (handle_request_accepts e q (with_channel rest s)). }
  split; [done|]. split; [done|]. intros [Hx|(q'&Hq'&Heq)].
  - rewrite R2 in Hx. simpl in Hx. rewrite Hnone in Hx. by destruct Hx.
  - apply R3 in Hq' as [Hq' _]. simpl in Hq'. rewrite Heq, lookup_delete_eq in Hq'. done.
Qed.

(** A database that accepts no response. *)
Definition readonly_requests : RequestPersistence Persistence.Example.Map := {|
  PersistBufferedRequest := Redis_PersistBufferedRequest (3, 5);
  PersistBufferedResponse _ := fun r => Ok (Some "READONLY"%string, r);
  ScanBufferedRequests := Redis_ScanBufferedRequests 2;
  ScanBufferedResponses := Redis_ScanBufferedResponses 2;
  DeleteBufferedRequest := Redis_DeleteBufferedRequest;
|}.
Lemma readonly_requests_spec :
  @RequestPersistenceSpec Persistence.Example.Map readonly_requests (redis_keeps (content := fun r => r)).
Proof.
  destruct AsyncExample.Map_requests_spec as [H1 H2 H3 H4 H5]. split; [exact H1| |exact H3|exact H4|exact H5].
  intros r s k e s' Hk [= <- <-]. by right.
Qed.

Lemma unwritten_response_loses_request_witness :
  let q := BufferedRequestFromRequest 1 (example_http "f") "c1" in
  let s := mkAsync ∅ LOAD_BALANCING_RANDOM [q] ∅ (∅ : Persistence.Example.Map) 3 in
  exists s1 s', asyncRequestHandler (RP := readonly_requests) (example_attempts 0) s = Ok (tt, s1) /\
    StartProxyServer (RP := readonly_requests)
      (NewAsyncProxyingService ∅ LOAD_BALANCING_RANDOM 3 (ap_Persistence s1)) = Ok (tt, s') /\
    ¬ accounted s' "c1".
Proof.
  intros q s.
  destruct (unwritten_response_loses_request (RP := readonly_requests) (redis_keeps (content := fun r => r))
    (example_attempts 0) s q [] (mkKept ∅ ∅)
    (plain_response StatusBadRequest "Invocation for non-existing service f has been dumped.") ∅ "READONLY"
    ∅ ∅ ∅ [] [] ∅) as (s1&s'&H1&_&H2&H3).
  - apply readonly_requests_spec.
  - split; (split; [done|intros k [? ?]; done]).
  - by split.
  - reflexivity.
  - reflexivity.
  - simpl. lia.
  - reflexivity.
  - by right.
  - reflexivity.
  - split; (split; [done|intros k [? ?]; done]).
  - vm_compute. reflexivity.
  - vm_compute. reflexivity.
  - vm_compute. reflexivity.
  - exists s1, s'. split; [exact H1|]. split; [exact H2|exact H3].
Defined.

(** The garbage collector compares a difference in seconds with a minute in
    nanoseconds.  A response recorded with its time survives for about 1900
    years (it is never collected while the clock is within 6 * 10^10 s of its
    time), whereas a failure response, which has no time, is collected at the
    next round in this century, however recent it is. *)
Theorem garbage_collection_units {S} `{RequestPersistence S} now (s : AsyncProxyingService S) code r :
  ap_Responses s !! code = Some r ->
  (0 <= now - bs_Timestamp r < 6 * 10 ^ 19 - 10 ^ 9 ->
     ap_Responses (garbage_collect now s) !! code = Some r) /\
  (bs_Timestamp r = zero_time -> 0 <= now ->
     ap_Responses (garbage_collect now s) !! code = None).
Proof.
  intros Hl. unfold garbage_collect, Unix, Minute_Nanoseconds. simpl. split.
  - intros Hnow. apply map_lookup_filter_Some_2; [done|]. simpl.
    pose proof (Z.div_mod now (10 ^ 9) ltac:(lia)). pose proof (Z.mod_pos_bound now (10 ^ 9) ltac:(lia)).
    pose proof (Z.div_mod (bs_Timestamp r) (10 ^ 9) ltac:(lia)).
    pose proof (Z.mod_pos_bound (bs_Timestamp r) (10 ^ 9) ltac:(lia)). lia.
  - intros Hz Hnow. apply map_lookup_filter_None_2. right. intros x Hx. simplify_eq. simpl.
    rewrite Hz. pose proof (Z.div_pos now (10 ^ 9) Hnow ltac:(lia)).
    change (zero_time / 10 ^ 9) with (-62135596800). intros Hn. apply Hn. lia.
Qed.

Lemma garbage_collection_units_witness :
  let t0 := 1700000000 * 10 ^ 9 in
  let s : AsyncProxyingService unit :=
    mkAsync ∅ 0 [] {[ "ok" := mkBufferedResponse 200 "x" t0 "ok"; "bad" := failed_response ]} tt 3 in
  ap_Responses (garbage_collect (t0 + 3600 * 10 ^ 9) s) !! "ok" = Some (mkBufferedResponse 200 "x" t0 "ok") /\
  ap_Responses (garbage_collect (t0 + 3600 * 10 ^ 9) s) !! "bad" = None.
Proof.
  intros t0 s. split.
  - apply (garbage_collection_units (t0 + 3600 * 10 ^ 9) s "ok" (mkBufferedResponse 200 "x" t0 "ok"));
      [reflexivity|simpl; lia].
  - apply (garbage_collection_units (t0 + 3600 * 10 ^ 9) s "bad" failed_response);
      [reflexivity|reflexivity|unfold t0; lia].
Defined.

(** A client that reads a response always sees the status 200: the status of
    the response is written after the header has been sent. *)
Theorem read_handler_status {S} `{RequestPersistence S} code (s : AsyncProxyingService S) :
  createAsyncReadHandler code s =
    match ap_Responses s !! code with
    | Some r => (Some StatusOK, bs_Body r)
    | None => (Some StatusNoContent, ""%string)
    end.
Proof. unfold createAsyncReadHandler. by destruct (ap_Responses s !! code). Qed.
