(* ===== verification/Tracing.v ===== *)
(** * Traces

    [pkg/tracing]: the services that write one line per cold start and per
    proxied request.  A service is a bounded channel, the goroutine that
    receives from it and the file it appends to; the file system is the content
    of the files and the failures the environment decides. *)
From Stdlib Require Import ZArith Lia Ascii.
From stdpp Require Import base tactics list gmap strings sets numbers pretty.
From S2P Require Import Prelude Core Net.

Local Open Scope Z_scope.

(** ** Entries *)

(** A duration of a message may be nil, which [AsDuration] reads as 0. *)
Record SandboxCreationBreakdown : Type := mkBreakdown {
  bd_Total : option Z;
  bd_ImageFetch : option Z;
  bd_SandboxCreate : option Z;
  bd_NetworkSetup : option Z;
  bd_SandboxStart : option Z;
  bd_Iptables : option Z;
  bd_ReadinessProbing : option Z;
  bd_DataplanePropagation : option Z;
  bd_SnapshotCreation : option Z;
  bd_ConfigureMonitoring : option Z;
  bd_FindSnapshot : option Z;
}.
Definition AsDuration (d : option Z) : Z := default 0 d.

Record ColdStartLogEntry : Type := mkColdStartLogEntry {
  cs_ServiceName : string;
  cs_ContainerID : string;
  cs_Success : bool;
  cs_PersistenceCost : Z;
  cs_LatencyBreakdown : option SandboxCreationBreakdown;
}.

Record ProxyLogEntry : Type := mkProxyLogEntry {
  pl_ServiceName : string;
  pl_ContainerID : string;
  pl_Total : Z;
  pl_GetMetadata : Z;
  pl_AddDeployment : Z;
  pl_ColdStart : Z;
  pl_LoadBalancing : Z;
  pl_CCThrottling : Z;
  pl_Proxying : Z;
  pl_PersistenceLayer : Z;
  pl_Serialization : Z;
}.

(** ** Lines *)

Definition newline : ascii := ascii_of_nat 10.
Definition comma : ascii := ","%char.

Fixpoint join (c : ascii) (l : list string) : string :=
  match l with
  | [] => ""
  | [s] => s
  | s :: l' => s +:+ String c (join c l')
  end.
(** A format of comma separated verbs that ends in a newline. *)
Definition csv_line (fields : list string) : string := join comma fields +:+ String newline "".

Definition coldStartColumns : list string :=
  ["time"; "service_name"; "container_id"; "success"; "image_fetch"; "sandbox_create"; "sandbox_start";
   "network_setup"; "iptables"; "readiness_probe"; "data_plane_propagation"; "snapshot_creation";
   "configure_monitoring"; "find_snapshot"; "db"; "other_worker_node"]%string.
Definition proxyColumns : list string :=
  ["time"; "service_name"; "container_id"; "get_metadata"; "add_deployment"; "cold_start"; "load_balancing";
   "cc_throttling"; "proxying"; "serialization"; "persistence_layer"; "other"]%string.
Definition coldStartLogHeader : string := csv_line coldStartColumns.
Definition proxyLogHeader : string := csv_line proxyColumns.

(** [Duration.Microseconds], the [%d] and the [%t] verb. *)
Definition Microseconds (d : Z) : Z := Z.quot d 1000.
Definition fmt_us (d : Z) : string := Itoa (Microseconds d).
Definition fmt_bool (b : bool) : string := if b then "true" else "false".

(** The part of a creation the columns before it do not explain. *)
Definition cold_other (b : SandboxCreationBreakdown) : Z :=
  i64 (AsDuration (bd_Total b) -
       i64 (AsDuration (bd_ImageFetch b) + AsDuration (bd_SandboxCreate b) + AsDuration (bd_SandboxStart b) +
            AsDuration (bd_NetworkSetup b) + AsDuration (bd_Iptables b) + AsDuration (bd_ReadinessProbing b) +
            AsDuration (bd_SnapshotCreation b) + AsDuration (bd_ConfigureMonitoring b) +
            AsDuration (bd_FindSnapshot b))).

(** The fields of a line; [None] is a nil [LatencyBreakdown]. *)
Definition cold_fields (now : Z) (msg : ColdStartLogEntry) : outcome (list string) :=
  b ← deref (cs_LatencyBreakdown msg);
  Ok [Itoa now; cs_ServiceName msg; cs_ContainerID msg; fmt_bool (cs_Success msg);
      fmt_us (AsDuration (bd_ImageFetch b)); fmt_us (AsDuration (bd_SandboxCreate b));
      fmt_us (AsDuration (bd_SandboxStart b)); fmt_us (AsDuration (bd_NetworkSetup b));
      fmt_us (AsDuration (bd_Iptables b)); fmt_us (AsDuration (bd_ReadinessProbing b));
      fmt_us (AsDuration (bd_DataplanePropagation b)); fmt_us (AsDuration (bd_SnapshotCreation b));
      fmt_us (AsDuration (bd_ConfigureMonitoring b)); fmt_us (AsDuration (bd_FindSnapshot b));
      fmt_us (cs_PersistenceCost msg); fmt_us (cold_other b)].

Definition proxy_other (msg : ProxyLogEntry) : Z :=
  i64 (pl_Total msg -
       i64 (pl_GetMetadata msg + pl_AddDeployment msg + pl_ColdStart msg + pl_LoadBalancing msg +
            pl_CCThrottling msg + pl_Proxying msg + pl_PersistenceLayer msg + pl_Serialization msg)).
Definition proxy_fields (now : Z) (msg : ProxyLogEntry) : outcome (list string) :=
  Ok [Itoa now; pl_ServiceName msg; pl_ContainerID msg; fmt_us (pl_GetMetadata msg);
      fmt_us (pl_AddDeployment msg); fmt_us (pl_ColdStart msg); fmt_us (pl_LoadBalancing msg);
      fmt_us (pl_CCThrottling msg); fmt_us (pl_Proxying msg); fmt_us (pl_Serialization msg);
      fmt_us (pl_PersistenceLayer msg); fmt_us (proxy_other msg)].

(** ** Files *)

(** What the operating system answers. *)
Record fs_env : Type := mkFsEnv {
  fe_dir_missing : bool;          (* [os.IsNotExist] of [os.Stat] *)
  fe_mkdir : go_error;
  fe_create : go_error;
  fe_open : go_error;
  fe_close : go_error;
  fe_written : option nat;        (* bytes written before an error *)
}.
Abbreviation files := (gmap string string).

(** [f.WriteString] on a file opened for appending. *)
Definition WriteString (fe : fs_env) (path s : string) : GoM files unit :=
  go_modify (fun fs => <[path := default "" (fs !! path) +:+
    match fe_written fe with None => s | Some n => String.substring 0 n s end]> fs).

Definition fatal_if (e : go_error) : GoM files unit :=
  match e with Some _ => go_fatal | None => mret tt end.

Definition CreateFileIfNotExist (fe : fs_env) (path : string) : GoM files unit :=
  (if fe_dir_missing fe then fatal_if (fe_mkdir fe) else mret tt) ;;
  go_modify (delete path) ;;
  fatal_if (fe_create fe) ;;
  go_modify (<[path := ""]>).

Definition coldStartWriteFunction (now : Z) (fe : fs_env) (path : string) (msg : ColdStartLogEntry) : GoM files unit :=
  l ← go_lift (cold_fields now msg); WriteString fe path (csv_line l).
Definition proxyWriteFunction (now : Z) (fe : fs_env) (path : string) (msg : ProxyLogEntry) : GoM files unit :=
  l ← go_lift (proxy_fields now msg); WriteString fe path (csv_line l).

Definition concat_all (l : list string) : string := foldr String.append EmptyString l.

Lemma string_app_nil_r (s : string) : s +:+ EmptyString = s.
Proof. induction s as [|c s IH]; [done|]. change (String c (s +:+ EmptyString) = String c s). by rewrite IH. Qed.

(** ** The service *)

Record TracingService (T : Type) : Type := mkTracingService {
  ts_OutputFile : string;
  ts_InputChannel : list T;
  ts_closed : bool;
  ts_Header : string;
  ts_WriteFunction : Z -> fs_env -> string -> T -> GoM files unit;
}.
Arguments mkTracingService {T} _ _ _ _ _.
Arguments ts_OutputFile {T} _.
Arguments ts_InputChannel {T} _.
Arguments ts_closed {T} _.
Arguments ts_Header {T} _.
Arguments ts_WriteFunction {T} _.

Definition channel_size : Z := 10000.
Definition NewColdStartTracingService (outputFile : string) : TracingService ColdStartLogEntry :=
  mkTracingService outputFile [] false coldStartLogHeader coldStartWriteFunction.
Definition NewProxyTracingService (outputFile : string) : TracingService ProxyLogEntry :=
  mkTracingService outputFile [] false proxyLogHeader proxyWriteFunction.

Section service.
Context {T : Type}.
Implicit Types (ts : TracingService T).

Definition with_channel (l : list T) (closed : bool) ts : TracingService T :=
  mkTracingService (ts_OutputFile ts) l closed (ts_Header ts) (ts_WriteFunction ts).

(** [StartTracingService] before its loop, which is also
    [ResetTracingService]: errors of writing the header are ignored. *)
Definition ResetTracingService (fe : fs_env) ts : GoM files unit :=
  CreateFileIfNotExist fe (ts_OutputFile ts) ;; WriteString fe (ts_OutputFile ts) (ts_Header ts).

(** The loop body for a received message. *)
Definition trace_message (now : Z) (fe : fs_env) ts (msg : T) : GoM files unit :=
  fatal_if (fe_open fe) ;;
  ts_WriteFunction ts now fe (ts_OutputFile ts) msg ;;
  fatal_if (fe_close fe).

(** What happens to a running service: an entry is sent, the channel is closed,
    the goroutine takes one turn of its loop, the trace is reset. *)
Inductive trace_event : Type :=
| TraceSend (msg : T)
| TraceClose
| TraceTurn (now : Z) (fe : fs_env)
| TraceReset (fe : fs_env).

Definition trace_step (ev : trace_event) : GoM (TracingService T * files) unit := fun s =>
  let '(ts, fs) := s in
  match ev with
  | TraceSend msg =>
      if ts_closed ts then Panic
      else if decide (Z.of_nat (length (ts_InputChannel ts)) < channel_size)
      then Ok (tt, (with_channel (ts_InputChannel ts ++ [msg]) false ts, fs))
      else Blocked
  | TraceClose => if ts_closed ts then Panic else Ok (tt, (with_channel (ts_InputChannel ts) true ts, fs))
  | TraceTurn now fe =>
      match ts_InputChannel ts with
      | msg :: l =>
          r ← trace_message now fe ts msg fs;
          Ok (tt, (with_channel l (ts_closed ts) ts, r.2))
      | [] => if ts_closed ts then Ok (tt, s) else Blocked      (* [break] *)
      end
  | TraceReset fe => r ← ResetTracingService fe ts fs; Ok (tt, (ts, r.2))
  end.

Fixpoint trace_run (evs : list trace_event) : GoM (TracingService T * files) unit :=
  match evs with
  | [] => mret tt
  | ev :: evs' => trace_step ev ;; trace_run evs'
  end.

(** The disk is writable. *)
Definition fs_ok (fe : fs_env) : Prop := fe_written fe = None.
Definition event_ok (ev : trace_event) : Prop :=
  match ev with TraceTurn _ fe => fs_ok fe | TraceReset _ => False | _ => True end.
Definition sends (evs : list trace_event) : list T :=
  omap (fun ev => match ev with TraceSend msg => Some msg | _ => None end) evs.

(** ** Every entry is one line, in order *)

Context (fields : Z -> T -> outcome (list string)).
Definition row (w : Z * T) : string := match fields w.1 w.2 with Ok l => csv_line l | _ => EmptyString end.
Definition writes_rows ts : Prop :=
  forall now fe path msg fs u fs', fs_ok fe -> ts_WriteFunction ts now fe path msg fs = Ok (u, fs') ->
    exists l, fields now msg = Ok l /\ fs' = <[path := default "" (fs !! path) +:+ csv_line l]> fs.

(** The file holds the header and one line for each entry written, and the
    entries written and those in the channel are the entries sent. *)
Definition trace_inv (ts0 : TracingService T) (sent : list T) (s : TracingService T * files) : Prop :=
  exists written,
    s.1 = with_channel (ts_InputChannel s.1) (ts_closed s.1) ts0 /\
    sent = written.*2 ++ ts_InputChannel s.1 /\
    s.2 !! ts_OutputFile ts0 = Some (ts_Header ts0 +:+ concat_all (row <$> written)) /\
    Forall (fun w => exists l, fields w.1 w.2 = Ok l) written.

Lemma row_ok now msg l : fields now msg = Ok l -> row (now, msg) = csv_line l.
Proof. unfold row. cbn. by intros ->. Qed.

Lemma concat_snoc l s : concat_all (l ++ [s]) = concat_all l +:+ s.
Proof.
  induction l as [|x l IH]; cbn; [exact (string_app_nil_r s)|].
  unfold concat_all in IH. by rewrite IH, string_app_assoc.
Qed.

Lemma trace_step_inv ts0 sent ev s s' :
  writes_rows ts0 -> event_ok ev -> trace_inv ts0 sent s -> trace_step ev s = Ok (tt, s') ->
  trace_inv ts0 (sent ++ sends [ev]) s'.
Proof.
  intros Hw Hev (written&E1&E2&E3&E4) H. destruct s as [ts fs]. cbn in E1, E2, E3.
  destruct ev as [msg| |now fe|fe]; [..|done]; cbn in H |- *; rewrite ?app_nil_r.
  - destruct (ts_closed ts); [done|]. case_decide; [|done]. injection H as <-. exists written. cbn.
    rewrite E1, E2. cbn. split_and!; [done|by rewrite <- app_assoc|done|done].
  - destruct (ts_closed ts); [done|]. injection H as <-. exists written. cbn. rewrite E1. cbn. by rewrite E2.
  - destruct (ts_InputChannel ts) as [|msg l] eqn:El.
    { destruct (ts_closed ts) eqn:Ec; [|done]. injection H as <-. exists written. cbn. by rewrite El, Ec, E2. }
    apply outcome_bind_Ok in H as ([u fs']&Hm&[= <-]). unfold trace_message in Hm.
    apply gom_bind_ok in Hm as (u1&fs1&Hm1&Hm). apply gom_bind_ok in Hm as (u2&fs2&Hm2&Hm3).
    assert (fs1 = fs) as -> by (unfold fatal_if in Hm1; by destruct (fe_open fe); [|injection Hm1 as _ <-]).
    assert (fs2 = fs') as -> by (unfold fatal_if in Hm3; by destruct (fe_close fe); [|injection Hm3 as _ <-]).
    rewrite E1 in Hm2. cbn in Hm2. destruct (Hw _ _ _ _ _ _ _ Hev Hm2) as (x&Hx&->).
    exists (written ++ [(now, msg)]). cbn. rewrite E1. cbn. split_and!; [done| | |].
    + rewrite E2, fmap_app. cbn. by rewrite <- app_assoc.
    + rewrite lookup_insert_eq, E3. cbn. f_equal. rewrite fmap_app. cbn. rewrite concat_snoc.
      by rewrite string_app_assoc, (row_ok _ _ _ Hx).
    + apply Forall_app. split; [done|]. constructor; [by exists x|constructor].
Qed.

Lemma trace_run_inv ts0 sent evs s s' :
  writes_rows ts0 -> Forall event_ok evs -> trace_inv ts0 sent s -> trace_run evs s = Ok (tt, s') ->
  trace_inv ts0 (sent ++ sends evs) s'.
Proof.
  intros Hw Hevs. revert sent s. induction Hevs as [|ev evs Hev Hevs IH]; intros sent s Hi.
  { intros [= <-]. cbn. by rewrite app_nil_r. }
  cbn [trace_run]. intros H. apply gom_bind_ok in H as ([]&s1&H1&H2).
  pose proof (IH _ _ (trace_step_inv _ _ _ _ _ Hw Hev Hi H1) H2) as Hr.
  unfold sends in *. cbn [omap list_omap] in *. rewrite <- app_assoc in Hr. by destruct ev.
Qed.

(** A reset starts the file anew: of the entries sent only those still in the
    channel are to be written to it. *)
Lemma reset_inv ts0 ts fe fs u fs' :
  ts = with_channel (ts_InputChannel ts) (ts_closed ts) ts0 -> fs_ok fe ->
  ResetTracingService fe ts fs = Ok (u, fs') -> trace_inv ts0 (ts_InputChannel ts) (ts, fs').
Proof.
  intros Hts Hfe H. exists []. cbn. unfold ResetTracingService in H. apply gom_bind_ok in H as (u1&fs1&H1&H2).
  unfold CreateFileIfNotExist in H1. do 3 (apply gom_bind_ok in H1 as (?&?&?&H1)). injection H1 as _ <-.
  injection H2 as _ <-. rewrite Hts. cbn. rewrite !lookup_insert_eq. cbn. rewrite Hfe.
  split_and!; [done|done|by rewrite string_app_nil_r|constructor].
Qed.

(** Whatever fails, entries leave the channel in the order in which they were
    sent, and nothing else of the service changes. *)
Definition drained (ts0 : TracingService T) (sent : list T) (ts : TracingService T) : Prop :=
  ts = with_channel (ts_InputChannel ts) (ts_closed ts) ts0 /\
  exists gone, sent = gone ++ ts_InputChannel ts.
Lemma trace_step_drained ts0 sent ev s s' :
  drained ts0 sent s.1 -> trace_step ev s = Ok (tt, s') -> drained ts0 (sent ++ sends [ev]) s'.1.
Proof.
  destruct s as [ts fs]. intros [E1 [gone E2]] H. cbn in E1, E2.
  destruct ev as [msg| |now fe|fe]; cbn in H |- *; rewrite ?app_nil_r.
  - destruct (ts_closed ts); [done|]. case_decide; [|done]. injection H as <-. split; [by rewrite E1|].
    exists gone. cbn. by rewrite E2, <- app_assoc.
  - destruct (ts_closed ts); [done|]. injection H as <-. split; [by rewrite E1|]. by exists gone.
  - destruct (ts_InputChannel ts) as [|msg l] eqn:El.
    { destruct (ts_closed ts) eqn:Ec; [|done]. injection H as <-. cbn. split; [by rewrite El, Ec|].
      exists gone. by rewrite El. }
    apply outcome_bind_Ok in H as ([u fs']&_&[= <-]). split; [by rewrite E1|].
    exists (gone ++ [msg]). cbn. by rewrite E2, <- app_assoc.
  - apply outcome_bind_Ok in H as ([u fs']&_&[= <-]). split; [done|]. by exists gone.
Qed.
Lemma trace_run_drained ts0 sent evs s s' :
  drained ts0 sent s.1 -> trace_run evs s = Ok (tt, s') -> drained ts0 (sent ++ sends evs) s'.1.
Proof.
  revert sent s. induction evs as [|ev evs IH]; intros sent s Hi.
  { intros [= <-]. cbn. by rewrite app_nil_r. }
  cbn [trace_run]. intros H. apply gom_bind_ok in H as ([]&s1&H1&H2).
  pose proof (IH _ _ (trace_step_drained _ _ _ _ _ Hi H1) H2) as Hr.
  unfold sends in *. cbn [omap list_omap] in *. rewrite <- app_assoc in Hr. by destruct ev.
Qed.

Lemma trace_run_app evs1 evs2 s s' :
  trace_run (evs1 ++ evs2) s = Ok (tt, s') ->
  exists s1, trace_run evs1 s = Ok (tt, s1) /\ trace_run evs2 s1 = Ok (tt, s').
Proof.
  revert s. induction evs1 as [|ev evs1 IH]; intros s H; [by exists s|]. cbn [app trace_run] in H |- *.
  apply gom_bind_ok in H as ([]&s1&H1&H2). destruct (IH _ H2) as (s2&H3&H4). exists s2. split; [|done].
  by erewrite gom_bind_run; [|exact H1].
Qed.
End service.

(** ** Reading a trace back *)

Fixpoint split_on (c : ascii) (s : string) : list string :=
  match s with
  | EmptyString => [EmptyString]
  | String c' s' =>
      if decide (c' = c) then EmptyString :: split_on c s'
      else match split_on c s' with
           | x :: l => String c' x :: l
           | [] => [String c' EmptyString]
           end
  end.
Definition read_csv (s : string) : list (list string) :=
  split_on comma <$> take (length (split_on newline s) - 1) (split_on newline s).

Definition plain (s : string) : Prop := mentions comma s = false /\ mentions newline s = false.

Lemma split_on_plain c s : mentions c s = false -> split_on c s = [s].
Proof.
  induction s as [|c' s IH]; [done|]. cbn. intros [Hc Hs]%orb_false_iff.
  apply bool_decide_eq_false in Hc. rewrite decide_False by done. by rewrite IH.
Qed.
Lemma split_on_sep c a b : mentions c a = false -> split_on c (a +:+ String c b) = a :: split_on c b.
Proof.
  induction a as [|c' a IH]; intros Ha.
  - change (split_on c (String c b) = EmptyString :: split_on c b). cbn [split_on]. by rewrite decide_True.
  - cbn in Ha. apply orb_false_iff in Ha as [Hc Hs]. apply bool_decide_eq_false in Hc.
    change (String c' a +:+ String c b) with (String c' (a +:+ String c b)). cbn [split_on].
    rewrite decide_False by done. by rewrite IH.
Qed.
Lemma split_on_join c l :
  l ≠ [] -> Forall (fun s => mentions c s = false) l -> split_on c (join c l) = l.
Proof.
  induction l as [|s [|s' l] IH]; intros Hne Hl; [done| |].
  - apply split_on_plain. by apply list.Forall_cons in Hl as [? _].
  - apply list.Forall_cons in Hl as [Hs Hl]. cbn [join]. rewrite split_on_sep by done. f_equal. by apply IH.
Qed.

Lemma mentions_join c d l :
  c ≠ d -> Forall (fun s => mentions c s = false) l -> mentions c (join d l) = false.
Proof.
  intros Hcd. induction l as [|s [|s' l] IH]; intros Hl; [done| |].
  - by apply list.Forall_cons in Hl as [? _].
  - apply list.Forall_cons in Hl as [Hs Hl]. cbn [join]. rewrite mentions_app, Hs. cbn.
    rewrite bool_decide_eq_false_2 by done. by apply IH.
Qed.

Lemma split_lines rows :
  Forall (Forall plain) rows ->
  split_on newline (concat_all (csv_line <$> rows)) = (join comma <$> rows) ++ [EmptyString].
Proof.
  induction rows as [|r rows IH]; intros Hr; [done|]. apply list.Forall_cons in Hr as [Hr Hrs].
  cbn [fmap list_fmap concat_all foldr]. unfold csv_line at 1. rewrite string_app_assoc.
  change (String newline "" +:+ foldr String.append EmptyString (csv_line <$> rows))
    with (String newline (concat_all (csv_line <$> rows))).
  rewrite split_on_sep; [|apply mentions_join; [done|]; eapply list.Forall_impl; [exact Hr|by intros s [_ ?]]].
  cbn [app]. f_equal. by apply IH.
Qed.

(** What is written is read back: the format loses nothing. *)
Lemma read_csv_lines rows :
  Forall (fun r => r ≠ [] /\ Forall plain r) rows -> read_csv (concat_all (csv_line <$> rows)) = rows.
Proof.
  intros Hr. unfold read_csv. rewrite split_lines by (eapply list.Forall_impl; [exact Hr|by intros r [_ ?]]).
  rewrite length_app. cbn. rewrite Nat.add_sub, take_app_length.
  induction Hr as [|r rows [Hne Hp] Hr IH]; [done|]. cbn. rewrite IH, split_on_join; [done|done|].
  eapply list.Forall_impl; [exact Hp|by intros s [? _]].
Qed.

Lemma Itoa_plain z : plain (Itoa z).
Proof.
  assert (Hd : forall p, plain (Itoa (Zpos p))).
  { intros p. destruct (Itoa_digits (Zpos p)) as [Hd _]; [lia|].
    split; apply all_digits_mentions; try done; set_solver. }
  destruct z as [|p|p]; [done|apply Hd|]. destruct (Hd p) as [H1 H2].
  change (Itoa (Zneg p)) with ("-" +:+ Itoa (Zpos p))%string. split; rewrite mentions_app; [by rewrite H1|by rewrite H2].
Qed.
Lemma fmt_us_plain d : plain (fmt_us d).
Proof. apply Itoa_plain. Qed.
Lemma fmt_bool_plain b : plain (fmt_bool b).
Proof. by destruct b. Qed.

Definition plain_entry (msg : ColdStartLogEntry) : Prop := plain (cs_ServiceName msg) /\ plain (cs_ContainerID msg).

Lemma cold_fields_plain now msg l :
  plain_entry msg -> cold_fields now msg = Ok l -> l ≠ [] /\ Forall plain l.
Proof.
  intros [H1 H2] H. unfold cold_fields in H. apply outcome_bind_Ok in H as (b&_&[= <-]). split; [done|].
  repeat apply list.Forall_cons_2; try apply list.Forall_nil_2; auto using Itoa_plain, fmt_us_plain, fmt_bool_plain.
Qed.

Lemma cold_writes_rows path : writes_rows cold_fields (NewColdStartTracingService path).
Proof.
  intros now fe p msg fs u fs' Hfe H. cbn in H. unfold coldStartWriteFunction in H.
  apply gom_bind_ok in H as (l&fs1&H1&H2). unfold go_lift in H1. destruct (cold_fields now msg) as [l'| | |]; try done.
  injection H1 as <- <-. injection H2 as _ <-. exists l'. split; [done|]. by rewrite Hfe.
Qed.

Lemma written_rows written :
  Forall (fun w : Z * ColdStartLogEntry => exists l, cold_fields w.1 w.2 = Ok l) written ->
  exists rows, (row cold_fields <$> written) = (csv_line <$> rows) /\
    Forall2 (fun w r => cold_fields w.1 w.2 = Ok r) written rows.
Proof.
  induction 1 as [|[now msg] written [l Hl] _ (rows&Hr&Hf)]; [by exists []|]. exists (l :: rows). cbn.
  rewrite Hr, (row_ok cold_fields now msg l Hl). by repeat constructor.
Qed.

Lemma sends_app {T} (l1 l2 : list (trace_event (T := T))) : sends (l1 ++ l2) = sends l1 ++ sends l2.
Proof. apply omap_app. Qed.
Lemma rows_plain written rows :
  Forall2 (fun (w : Z * ColdStartLogEntry) r => cold_fields w.1 w.2 = Ok r) written rows ->
  Forall plain_entry written.*2 -> Forall (fun r => r ≠ [] /\ Forall plain r) rows.
Proof.
  induction 1 as [|[now msg] r written rows Hr _ IH]; [constructor|]. cbn.
  intros [Hp Hps]%list.Forall_cons. constructor; [by eapply cold_fields_plain|by apply IH].
Qed.
Lemma rows_describe written rows :
  Forall2 (fun (w : Z * ColdStartLogEntry) r => cold_fields w.1 w.2 = Ok r) written rows ->
  Forall2 (fun r msg => (exists now, cold_fields now msg = Ok r) /\ length r = length coldStartColumns /\
             r !! 1%nat = Some (cs_ServiceName msg) /\ r !! 2%nat = Some (cs_ContainerID msg) /\
             r !! 3%nat = Some (fmt_bool (cs_Success msg)))
    rows written.*2.
Proof.
  induction 1 as [|[now msg] r written rows Hr _ IH]; [constructor|]. cbn in Hr |- *. constructor; [|done].
  split; [by exists now|]. revert Hr. unfold cold_fields. destruct (cs_LatencyBreakdown msg); [|done].
  by intros [= <-].
Qed.

(** C24: The trace of the cold starts can be read back and loses only what a
    reset removes.  Take any history of the service, entries sent, turns of its
    goroutine, resets and the closing of the channel, that ends in a reset of
    the file (starting the service is one) and the events [evs2] after it, in
    which there is no other reset; a turn writes its line without a reset in
    between, the disk can be written to from the reset on, and the names of
    services and containers contain neither a comma nor a newline.  Reading the
    file as comma separated values then yields the column names and one row
    for each entry written since the reset, in the order of sending, with as
    many fields as there are columns and with the service, the container and
    the outcome of the entry.  The entries sent are the ones written before the
    reset, then the ones of the rows, then the ones waiting in the channel:
    none is skipped or written twice. *)
Theorem cold_start_trace_roundtrip path fs evs1 fe evs2 s :
  fs_ok fe -> Forall event_ok evs2 -> Forall plain_entry (sends (evs1 ++ evs2)) ->
  trace_run (evs1 ++ TraceReset fe :: evs2) (NewColdStartTracingService path, fs) = Ok (tt, s) ->
  exists s1 before content rows written,
    trace_run evs1 (NewColdStartTracingService path, fs) = Ok (tt, s1) /\
    sends evs1 = before ++ ts_InputChannel s1.1 /\
    ts_InputChannel s1.1 ++ sends evs2 = written ++ ts_InputChannel s.1 /\
    s.2 !! path = Some content /\ read_csv content = coldStartColumns :: rows /\
    Forall2 (fun r msg => (exists now, cold_fields now msg = Ok r) /\ length r = length coldStartColumns /\
               r !! 1%nat = Some (cs_ServiceName msg) /\ r !! 2%nat = Some (cs_ContainerID msg) /\
               r !! 3%nat = Some (fmt_bool (cs_Success msg)))
      rows written.
Proof.
  intros Hfe Hevs Hplain Hrun. set (ts0 := NewColdStartTracingService path) in *.
  destruct (trace_run_app _ _ _ _ Hrun) as ([ts1 fs1]&Hrun1&Hrun2). cbn [trace_run] in Hrun2.
  apply gom_bind_ok in Hrun2 as ([]&s2&Hreset&Hrun2). cbn in Hreset.
  apply outcome_bind_Ok in Hreset as ([u fs2]&Hreset&[= <-]). cbn [snd] in Hrun2.
  destruct (trace_run_drained ts0 [] evs1 (ts0, fs) (ts1, fs1)) as [Hts [before Hbefore]];
    [split; [done|by exists []]|done|]. cbn in Hts, Hbefore.
  pose proof (reset_inv cold_fields ts0 ts1 fe fs1 u fs2 Hts Hfe Hreset) as Hi.
  destruct (trace_run_inv _ _ _ _ _ _ (cold_writes_rows path) Hevs Hi Hrun2) as (written&_&Hs&Hc&Hok). cbn in Hs, Hc.
  destruct (written_rows written) as (rows&Hrows&Hfs); [done|]. rewrite Hrows in Hc.
  exists (ts1, fs1), before, (coldStartLogHeader +:+ concat_all (csv_line <$> rows)), rows, written.*2.
  assert (Hw : Forall plain_entry written.*2).
  { rewrite sends_app, Hbefore, <- app_assoc in Hplain. apply Forall_app in Hplain as [_ Hplain].
    rewrite Hs in Hplain. by apply Forall_app in Hplain as [? _]. }
  split_and!; [done..| |by apply rows_describe].
  change (coldStartLogHeader +:+ concat_all (csv_line <$> rows))
    with (concat_all (csv_line <$> coldStartColumns :: rows)).
  apply read_csv_lines. constructor; [split; [done|]; by repeat apply list.Forall_cons_2|].
  by eapply rows_plain.
Qed.

(** A name with a comma: the writer does not quote it, and its row is read back
    with one field more than there are columns.  Registration accepts every
    name that is not empty. *)
Theorem comma_name_breaks_row now msg x y l :
  cs_ServiceName msg = x +:+ String comma y -> plain x -> plain y -> plain (cs_ContainerID msg) ->
  cold_fields now msg = Ok l ->
  exists r, read_csv (csv_line l) = [r] /\ length r = Datatypes.S (length coldStartColumns).
Proof.
  intros Hn Hx Hy Hc H. unfold cold_fields in H. apply outcome_bind_Ok in H as (b&_&[= <-]). rewrite Hn.
  set (rest := cs_ContainerID msg :: _). exists (Itoa now :: x :: y :: rest). split; [|done].
  replace (csv_line (Itoa now :: (x +:+ String comma y) :: rest)) with (concat_all (csv_line <$> [Itoa now :: x :: y :: rest])).
  - apply read_csv_lines. constructor; [|constructor]. split; [done|].
    repeat apply list.Forall_cons_2; try apply list.Forall_nil_2; auto using Itoa_plain, fmt_us_plain, fmt_bool_plain.
  - cbn [fmap list_fmap concat_all foldr]. rewrite string_app_nil_r. unfold csv_line. f_equal.
    unfold rest. cbn [join]. rewrite !string_app_assoc. done.
Qed.

(** One creation before a reset of the trace, one after it. *)
Lemma cold_start_trace_roundtrip_witness :
  exists s content,
    trace_run ([TraceReset (mkFsEnv false None None None None None);
                TraceSend (mkColdStartLogEntry "f" "c1" true 0 (Some (mkBreakdown (Some 5000) None None None None None None None None None None)));
                TraceTurn 1 (mkFsEnv false None None None None None)] ++
               TraceReset (mkFsEnv false None None None None None) ::
               [TraceSend (mkColdStartLogEntry "f" "c2" true 0 (Some (mkBreakdown None None None None None None None None None None None)));
                TraceTurn 2 (mkFsEnv false None None None None None)])
      (NewColdStartTracingService "t.csv", ∅) = Ok (tt, s) /\
    s.2 !! "t.csv"%string = Some content /\ exists rows, read_csv content = coldStartColumns :: rows.
Proof.
  set (evs1 := [_; _; _]). set (evs2 := [_; _]). set (fe := mkFsEnv _ _ _ _ _ _).
  assert (Hok : match trace_run (evs1 ++ TraceReset fe :: evs2) (NewColdStartTracingService "t.csv", ∅)
                with Ok _ => true | _ => false end = true) by (vm_compute; reflexivity).
  destruct (trace_run (evs1 ++ TraceReset fe :: evs2) (NewColdStartTracingService "t.csv", ∅))
    as [[[] s]| | |] eqn:E; [|discriminate Hok..].
  exists s.
  destruct (cold_start_trace_roundtrip "t.csv" ∅ evs1 fe evs2 s) as (s1&before&content&rows&w&_&_&_&H1&H2&_).
  - reflexivity.
  - repeat apply list.Forall_cons_2; try apply list.Forall_nil_2; reflexivity || exact I.
  - repeat apply list.Forall_cons_2; try apply list.Forall_nil_2; by split.
  - exact E.
  - exists content. split; [reflexivity|]. split; [exact H1|]. exists rows. exact H2.
Defined.
