(* ===== verification/CpApi.v ===== *)
(** * The API of the replicated control plane

    [api/control_plane_api_server.go]: every replica serves the interface of
    the control plane; a replica that is not the leader forwards a call to the
    one it believes to be.  [cmd/master_node/state_management]: what a replica
    does when leadership changes.  [registration_server]: the HTTP front end
    through which functions are registered.

    The replicas are one table, by identifier; a remote call runs the handler
    of the replica it is addressed to. *)
From Stdlib Require Import ZArith Lia.
From stdpp Require Import base tactics list gmap strings sets numbers pretty.
From S2P Require Import Prelude Sync Autoscaling Controller Core Net Placement Persistence ScalingLoop ControlPlane LeaderElection LeaderSafety HAProxy Tracing.

Local Open Scope Z_scope.

(** ** State *)

(** The tracing service is a field of the control plane in the code; its channel
    and the files it writes are kept here, next to the rest. *)
Record CpApiServer (S P C : Type) : Type := mkCpApiServer {
  ca_LeaderElectionServer : LeaderElectionServer Z;  (* a client is the replica it connects to *)
  ca_ControlPlane : ControlPlane S P;
  ca_HAProxyAPI : API C;
  ca_ColdStartTracing : TracingService ColdStartLogEntry;
  ca_files : files;
}.
Arguments mkCpApiServer {S P C} _ _ _ _ _.
Arguments ca_LeaderElectionServer {S P C} _.
Arguments ca_ControlPlane {S P C} _.
Arguments ca_HAProxyAPI {S P C} _.
Arguments ca_ColdStartTracing {S P C} _.
Arguments ca_files {S P C} _.

Section setters.
Context {S P C : Type}.
Implicit Types (r : CpApiServer S P C).
Definition set_les (x : LeaderElectionServer Z) r : CpApiServer S P C :=
  mkCpApiServer x (ca_ControlPlane r) (ca_HAProxyAPI r) (ca_ColdStartTracing r) (ca_files r).
Definition set_ControlPlane (x : ControlPlane S P) r : CpApiServer S P C :=
  mkCpApiServer (ca_LeaderElectionServer r) x (ca_HAProxyAPI r) (ca_ColdStartTracing r) (ca_files r).
Definition set_HAProxyAPI (x : API C) r : CpApiServer S P C :=
  mkCpApiServer (ca_LeaderElectionServer r) (ca_ControlPlane r) x (ca_ColdStartTracing r) (ca_files r).
Definition set_files (x : files) r : CpApiServer S P C :=
  mkCpApiServer (ca_LeaderElectionServer r) (ca_ControlPlane r) (ca_HAProxyAPI r) (ca_ColdStartTracing r) x.
End setters.

(** The calls of the interface that are forwarded. *)
Inductive api_request : Type :=
| AOnMetricsReceive (metric : AutoscalingMetric)
| AListServices
| ARegisterNode (info : NodeInfo)
| ADeregisterNode (info : NodeInfo)
| ANodeHeartbeat (info : NodeHeartbeatMessage)
| ARegisterService (info : ServiceInfo)
| ADeregisterService (info : ServiceInfo)
| ARegisterDataplane (info : DataplaneInfo)
| ADeregisterDataplane (info : DataplaneInfo)
| AResetMeasurements
| AReportFailure (failure : Failure).

(** What a handler returns: a pointer to its message, nil on a remote call that
    failed, and an error. *)
Abbreviation reply A := (option A * go_error)%type.
Inductive api_reply : Type :=
| RStatus (status : reply ActionStatus)
| RServices (services : reply (list string)).

(** What surrounds a call: the environment of the control plane, the order in
    which peers are visited, the errors of remote calls between replicas, the
    bound and the random numbers of the load balancer's revisions, and the
    answers of the file system. *)
Record api_env : Type := mkApiEnv {
  ae_cp : cp_env;
  ae_peer_ord : gmap Z Z -> list (Z * Z);
  ae_call : Z -> Z -> go_error;
  ae_lb_fuel : nat;
  ae_rnd : nat -> nat -> Z;
  ae_fs : fs_env;
}.

Section api.
Context {S P C : Type} `{PL : PersistenceLayer S} `{PP : PlacementPolicy P} `{HC : HAProxyClient C}.
Context (cfg : ControlPlaneConfig) (env : api_env).
Abbreviation Replica := (CpApiServer S P C).
Abbreviation Replicas := (gmap Z (CpApiServer S P C)).
Abbreviation M := (GoM Replicas).

(** ** Access to one replica *)

Definition on_replica {A} (i : Z) (f : GoM Replica A) : M A := fun c =>
  match c !! i with
  | None => Panic
  | Some r =>
      match f r with
      | Ok (a, r') => Ok (a, <[i := r']> c)
      | Panic => Panic
      | Fatal => Fatal
      | Blocked => Blocked
      end
  end.
Definition on_cp {A} (f : GoM (ControlPlane S P) A) : GoM Replica A := zoom ca_ControlPlane set_ControlPlane f.
Definition on_lb {A} (f : GoM (API C) A) : GoM Replica A := zoom ca_HAProxyAPI set_HAProxyAPI f.
Definition on_files {A} (f : GoM files A) : GoM Replica A := zoom ca_files set_files f.
Definition is_leader (r : Replica) : bool := IsLeader (les_cm (ca_LeaderElectionServer r)).

(** ** The load balancers of the cluster *)

(** [haproxy.DisseminateHAProxyConfig]: a call to every peer; errors are
    logged. *)
Definition DisseminateHAProxyConfig (i : Z) : M unit :=
  config ← on_replica i (on_cp (GetHAProxyConfig cfg (ae_cp env)));
  les ← on_replica i (go_gets ca_LeaderElectionServer);
  go_for (ae_peer_ord env (les_peerClients les)) (fun peer =>
    match ae_call env i peer.2 with
    | Some _ => mret tt
    | None =>
        on_replica peer.2 (on_lb (ReviseHAProxyConfiguration (ae_lb_fuel env) (ae_rnd env) config)) ;;
        mret tt
    end).

(** ** The handlers

    The interface of a replica, as its eleven handlers that may be forwarded. *)
Record CpiInterfaceServer : Type := mkCpiInterfaceServer {
  sv_OnMetricsReceive : AutoscalingMetric -> M (reply ActionStatus);
  sv_ListServices : M (reply (list string));
  sv_RegisterNode : NodeInfo -> M (reply ActionStatus);
  sv_DeregisterNode : NodeInfo -> M (reply ActionStatus);
  sv_NodeHeartbeat : NodeHeartbeatMessage -> M (reply ActionStatus);
  sv_RegisterService : ServiceInfo -> M (reply ActionStatus);
  sv_DeregisterService : ServiceInfo -> M (reply ActionStatus);
  sv_RegisterDataplane : DataplaneInfo -> M (reply ActionStatus);
  sv_DeregisterDataplane : DataplaneInfo -> M (reply ActionStatus);
  sv_ResetMeasurements : M (reply ActionStatus);
  sv_ReportFailure : Failure -> M (reply ActionStatus);
}.

(** A remote call of replica [i] to replica [j]: the stub returns a nil message
    with every error, one of the handler included.  (The library prefixes the
    text of such an error, which nothing here reads.) *)
Definition wire {A} (r : reply A) : reply A :=
  match r.2 with Some e => (None, Some e) | None => r end.
Definition remote {A} (i j : Z) (call : M (reply A)) : M (reply A) :=
  match ae_call env i j with
  | Some e => mret (None, Some e)
  | None => r ← call; mret (wire r)
  end.

(** How every handler starts: a replica that does not lead forwards the call
    through the client of the leader it knows, or returns. *)
Definition unless_leader {A} (i : Z) (forward : Z -> M (reply A)) (otherwise : reply A) (serve : M (reply A))
  : M (reply A) :=
  r ← on_replica i go_get;
  if negb (is_leader r) then
    leader ← go_lift (GetLeader (ca_LeaderElectionServer r));
    match leader with
    | Some j => remote i j (forward j)
    | None => mret otherwise
    end
  else serve.
Definition not_served : reply ActionStatus := (Some status_failed, None).

Section handlers.
(** The other replicas, and the replica that serves. *)
Context (server : Z -> CpiInterfaceServer) (i : Z).

Definition api_OnMetricsReceive (metric : AutoscalingMetric) : M (reply ActionStatus) :=
  unless_leader i (fun leader => sv_OnMetricsReceive (server leader) metric) not_served (
    s ← on_replica i (on_cp (OnMetricsReceive metric)); mret (Some s, None)).

Definition api_ListServices : M (reply (list string)) :=
  unless_leader i (fun leader => sv_ListServices (server leader)) (Some [], None) (
    l ← on_replica i (on_cp (ListServices (ae_cp env))); mret (Some l, None)).

Definition api_RegisterNode (info : NodeInfo) : M (reply ActionStatus) :=
  unless_leader i (fun leader => sv_RegisterNode (server leader) info) not_served (
    r ← on_replica i (on_cp (RegisterNode (ae_cp env) info)); mret (Some r.1, r.2)).

Definition api_DeregisterNode (info : NodeInfo) : M (reply ActionStatus) :=
  unless_leader i (fun leader => sv_DeregisterNode (server leader) info) not_served (
    r ← on_replica i (on_cp (DeregisterNode (ae_cp env) info)); mret (Some r.1, r.2)).

Definition api_NodeHeartbeat (info : NodeHeartbeatMessage) : M (reply ActionStatus) :=
  unless_leader i (fun leader => sv_NodeHeartbeat (server leader) info) not_served (
    s ← on_replica i (on_cp (NodeHeartbeat (ae_cp env) info)); mret (Some s, None)).

Definition api_RegisterService (serviceInfo : ServiceInfo) : M (reply ActionStatus) :=
  unless_leader i (fun leader => sv_RegisterService (server leader) serviceInfo) not_served (
    r ← on_replica i (on_cp (RegisterService cfg (ae_cp env) serviceInfo)); mret (Some r.1, r.2)).

Definition api_DeregisterService (serviceInfo : ServiceInfo) : M (reply ActionStatus) :=
  unless_leader i (fun leader => sv_DeregisterService (server leader) serviceInfo) not_served (
    r ← on_replica i (on_cp (DeregisterService (ae_cp env) serviceInfo)); mret (Some r.1, r.2)).

Definition api_RegisterDataplane (info : DataplaneInfo) : M (reply ActionStatus) :=
  unless_leader i (fun leader => sv_RegisterDataplane (server leader) info) not_served (
    r ← on_replica i (on_cp (RegisterDataplane (ae_cp env) info));
    let '(status, err, isHeartbeat) := (r : ActionStatus * go_error * bool) in
    (if as_Success status && bool_decide (err = None) && negb isHeartbeat then
       on_replica i (on_lb (AddDataplane (ae_rnd env 0 0) (di_IP info) (di_ProxyPort info) true)) ;;
       DisseminateHAProxyConfig i
     else mret tt) ;;
    mret (Some status, err)).

Definition api_DeregisterDataplane (info : DataplaneInfo) : M (reply ActionStatus) :=
  unless_leader i (fun leader => sv_DeregisterDataplane (server leader) info) not_served (
    r ← on_replica i (on_cp (DeregisterDataplane (ae_cp env) info));
    let '(status, err) := (r : ActionStatus * go_error) in
    (if as_Success status && bool_decide (err = None) then
       on_replica i (on_lb (RemoveDataplane (di_IP info) (di_ProxyPort info) true)) ;;
       DisseminateHAProxyConfig i
     else mret tt) ;;
    mret (Some status, err)).

Definition api_ResetMeasurements : M (reply ActionStatus) :=
  unless_leader i (fun leader => sv_ResetMeasurements (server leader)) not_served (
    r ← on_replica i go_get;
    on_replica i (on_files (ResetTracingService (ae_fs env) (ca_ColdStartTracing r))) ;;
    mret (Some status_ok, None)).

Definition api_ReportFailure (failure : Failure) : M (reply ActionStatus) :=
  unless_leader i (fun leader => sv_ReportFailure (server leader) failure) not_served (
    b ← on_replica i (on_cp (HandleFailure (ae_cp env) [failure]));
    mret (Some (mkActionStatus b ""), None)).
End handlers.

(** The interface of replica [i].  At most [fuel] replicas are visited: more
    forwards than that do not return here. *)
Fixpoint cpi_server (fuel : nat) (i : Z) : CpiInterfaceServer :=
  match fuel with
  | O =>
      mkCpiInterfaceServer (fun _ => go_block) go_block (fun _ => go_block) (fun _ => go_block)
        (fun _ => go_block) (fun _ => go_block) (fun _ => go_block) (fun _ => go_block)
        (fun _ => go_block) go_block (fun _ => go_block)
  | Datatypes.S fuel' =>
      let server := cpi_server fuel' in
      mkCpiInterfaceServer (api_OnMetricsReceive server i) (api_ListServices server i)
        (api_RegisterNode server i) (api_DeregisterNode server i) (api_NodeHeartbeat server i)
        (api_RegisterService server i) (api_DeregisterService server i) (api_RegisterDataplane server i)
        (api_DeregisterDataplane server i) (api_ResetMeasurements server i) (api_ReportFailure server i)
  end.

(** The call a request names. *)
Definition serve_request (sv : CpiInterfaceServer) (rq : api_request) : M api_reply :=
  match rq with
  | AOnMetricsReceive metric => r ← sv_OnMetricsReceive sv metric; mret (RStatus r)
  | AListServices => r ← sv_ListServices sv; mret (RServices r)
  | ARegisterNode info => r ← sv_RegisterNode sv info; mret (RStatus r)
  | ADeregisterNode info => r ← sv_DeregisterNode sv info; mret (RStatus r)
  | ANodeHeartbeat info => r ← sv_NodeHeartbeat sv info; mret (RStatus r)
  | ARegisterService info => r ← sv_RegisterService sv info; mret (RStatus r)
  | ADeregisterService info => r ← sv_DeregisterService sv info; mret (RStatus r)
  | ARegisterDataplane info => r ← sv_RegisterDataplane sv info; mret (RStatus r)
  | ADeregisterDataplane info => r ← sv_DeregisterDataplane sv info; mret (RStatus r)
  | AResetMeasurements => r ← sv_ResetMeasurements sv; mret (RStatus r)
  | AReportFailure failure => r ← sv_ReportFailure sv failure; mret (RStatus r)
  end.
Definition api_call (fuel : nat) (i : Z) (rq : api_request) : M api_reply :=
  serve_request (cpi_server fuel i) rq.

(** ** What each call is for

    The operation of the control plane of replica [i] that a request asks for:
    what the call has to do when [i] leads.  A change of the data planes is
    passed on to the load balancers. *)
Definition status_reply (r : ActionStatus * go_error) : api_reply := RStatus (Some r.1, r.2).
Definition leader_handle (i : Z) (rq : api_request) : M api_reply :=
  match rq with
  | AOnMetricsReceive metric =>
      s ← on_replica i (on_cp (OnMetricsReceive metric)); mret (status_reply (s, None))
  | AListServices =>
      l ← on_replica i (on_cp (ListServices (ae_cp env))); mret (RServices (Some l, None))
  | ARegisterNode info =>
      r ← on_replica i (on_cp (RegisterNode (ae_cp env) info)); mret (status_reply r)
  | ADeregisterNode info =>
      r ← on_replica i (on_cp (DeregisterNode (ae_cp env) info)); mret (status_reply r)
  | ANodeHeartbeat info =>
      s ← on_replica i (on_cp (NodeHeartbeat (ae_cp env) info)); mret (status_reply (s, None))
  | ARegisterService info =>
      r ← on_replica i (on_cp (RegisterService cfg (ae_cp env) info)); mret (status_reply r)
  | ADeregisterService info =>
      r ← on_replica i (on_cp (DeregisterService (ae_cp env) info)); mret (status_reply r)
  | ARegisterDataplane info =>
      r ← on_replica i (on_cp (RegisterDataplane (ae_cp env) info));
      (if as_Success r.1.1 && bool_decide (r.1.2 = None) && negb r.2 then
         on_replica i (on_lb (AddDataplane (ae_rnd env 0 0) (di_IP info) (di_ProxyPort info) true)) ;;
         DisseminateHAProxyConfig i
       else mret tt) ;;
      mret (status_reply r.1)
  | ADeregisterDataplane info =>
      r ← on_replica i (on_cp (DeregisterDataplane (ae_cp env) info));
      (if as_Success r.1 && bool_decide (r.2 = None) then
         on_replica i (on_lb (RemoveDataplane (di_IP info) (di_ProxyPort info) true)) ;;
         DisseminateHAProxyConfig i
       else mret tt) ;;
      mret (status_reply r)
  | AResetMeasurements =>
      r ← on_replica i go_get;
      on_replica i (on_files (ResetTracingService (ae_fs env) (ca_ColdStartTracing r))) ;;
      mret (status_reply (status_ok, None))
  | AReportFailure failure =>
      b ← on_replica i (on_cp (HandleFailure (ae_cp env) [failure]));
      mret (status_reply (mkActionStatus b "", None))
  end.

(** The answer of a replica that knows no leader: an empty list of services, or
    a failure; in both cases without an error. *)
Definition no_leader (rq : api_request) : api_reply :=
  match rq with
  | AListServices => RServices (Some [], None)
  | _ => status_reply (status_failed, None)
  end.
(** A reply as it arrives at a remote caller. *)
Definition wire_reply (r : api_reply) : api_reply :=
  match r with RStatus r => RStatus (wire r) | RServices r => RServices (wire r) end.

(** Calls of the leader election and of the load balancer stay where they
    are. *)
Definition api_RequestVote (now : Z) (i : Z) (args : RequestVoteArgs) : M (option RequestVoteReply) :=
  on_replica i (fun r =>
    let les := ca_LeaderElectionServer r in
    let '(reply, cm) := RequestVote now args (les_cm les) in
    Ok (reply, set_les (mkLeaderElectionServer cm (les_peerClients les)) r)).
Definition api_AppendEntries (now : Z) (i : Z) (args : AppendEntriesArgs) : M (option AppendEntriesReply) :=
  on_replica i (fun r =>
    let les := ca_LeaderElectionServer r in
    let '(reply, cm) := AppendEntries now args (les_cm les) in
    Ok (reply, set_les (mkLeaderElectionServer cm (les_peerClients les)) r)).
Definition api_ReviseHAProxyConfiguration (i : Z) (args : HAProxyConfig) : M (ActionStatus * go_error) :=
  on_replica i (on_lb (ReviseHAProxyConfiguration (ae_lb_fuel env) (ae_rnd env) args)).
End api.

(** ** Changes of leadership

    [CurrentState]: the channel to the node monitor and whether this replica
    led before.  The channel is unbuffered and has one receiver, the monitor,
    which closes it: [MonitorRuns stuck] is a channel with a running monitor,
    [stuck] when the monitor never comes back to its [select]. *)
Inductive monitor : Type :=
| MonitorNil
| MonitorRuns (stuck : bool)
| MonitorClosed.

Record CurrentState (R : Type) : Type := mkCurrentState {
  cs_cpApiServer : R;
  cs_stopNodeMonitoring : monitor;
  cs_wasLeaderBefore : bool;
}.
Arguments mkCurrentState {R} _ _ _.
Arguments cs_cpApiServer {R} _.
Arguments cs_stopNodeMonitoring {R} _.
Arguments cs_wasLeaderBefore {R} _.

Definition NewElectionState {R} (api : R) : CurrentState R := mkCurrentState api MonitorNil false.

Section leadership.
Context {S P C : Type} `{PL : PersistenceLayer S} `{PP : PlacementPolicy P} `{HC : HAProxyClient C}.
Context (cfg : ControlPlaneConfig) (env : api_env).
(** The orders in which reconstruction starts its goroutines. *)
Context (ord_s : list ServiceInfo -> list ServiceInfo) (ord_e : list proto_Endpoint -> list proto_Endpoint).
Abbreviation Replica := (CpApiServer S P C).
Abbreviation M := (GoM (CurrentState (CpApiServer S P C))).

Definition on_api {A} (f : GoM Replica A) : M A :=
  zoom cs_cpApiServer (fun x st => mkCurrentState x (cs_stopNodeMonitoring st) (cs_wasLeaderBefore st)) f.
Definition set_monitor (m : monitor) : M unit :=
  go_modify (fun st => mkCurrentState (cs_cpApiServer st) m (cs_wasLeaderBefore st)).
Definition set_was_leader (b : bool) : M unit :=
  go_modify (fun st => mkCurrentState (cs_cpApiServer st) (cs_stopNodeMonitoring st) b).

(** [CleanControlPlaneInMemoryData]: the persistence layer, the placement policy
    and the output file are those of the creation arguments. *)
Definition CleanControlPlaneInMemoryData : GoM Replica unit :=
  on_cp (StopAllScalingLoops (ae_cp env)) ;;
  go_modify (fun r => mkCpApiServer (ca_LeaderElectionServer r)
    (NewControlPlane (cp_PlacementPolicy (ca_ControlPlane r)) (cp_PersistenceLayer (ca_ControlPlane r)))
    (ca_HAProxyAPI r) (NewColdStartTracingService (ts_OutputFile (ca_ColdStartTracing r))) (ca_files r)).

(** [StartNodeMonitoringLoop]: nil unless still the leader. *)
Definition StartNodeMonitoringLoop : GoM Replica monitor :=
  r ← go_get; mret (if is_leader r then MonitorRuns false else MonitorNil).

(** [CpApiServer.ReconstructState]: the reconstruction of the control plane calls
    back the load balancer of the replica. *)
Definition api_ReconstructState : GoM Replica go_error :=
  r ← go_get;
  if is_leader r then
    res ← ReconstructState_in cfg (ae_cp env) (fun A => on_cp (A := A))
      (HAProxyReconstructionCallback (fun A => on_lb (A := A)) (ae_lb_fuel env) (ae_rnd env)
         (cfg_RegistrationServer cfg) (cfg_RegistrationServerReplicas cfg)
         (ReviseDataplanesInLB (ae_cp env) (fun A => on_cp (A := A))))
      ord_s ord_e;
    mret (res : go_error * list WorkerNode).1
  else mret (Some ("cannot request cluster state reconstruction if not the leader. " +:+
    "Perhaps the leader has changed in the meanwhile")%string).

Definition destroyStateFromPreviousElectionTerm : M unit :=
  m ← go_gets cs_stopNodeMonitoring;
  match m with
  | MonitorNil => mret tt
  | MonitorRuns true => go_block
  | MonitorRuns false => set_monitor MonitorClosed
  | MonitorClosed => go_panic
  end ;;
  on_api CleanControlPlaneInMemoryData.

Definition reconstructControlPlaneState : M unit :=
  err ← on_api api_ReconstructState;
  match err with Some _ => go_fatal | None => mret tt end.

Definition SetCurrentControlPlaneLeader : M unit :=
  destroyStateFromPreviousElectionTerm ;;
  reconstructControlPlaneState ;;
  m ← on_api StartNodeMonitoringLoop;
  set_monitor m ;;
  set_was_leader true.

Definition UpdateLeadership (leadership : AnnounceLeadership) : M unit :=
  was ← go_gets cs_wasLeaderBefore;
  if al_IsLeader leadership && negb was then SetCurrentControlPlaneLeader
  else
    (if was then destroyStateFromPreviousElectionTerm ;; set_monitor MonitorNil else mret tt) ;;
    set_was_leader false.
End leadership.

(** ** Registration over HTTP *)

Record http_reply : Type := mkHttpReply { hr_status : Z; hr_body : string }.
(** [http.Error] *)
Definition newline : string := String (Ascii.ascii_of_nat 10) EmptyString.
Definition http_Error (msg : string) (code : Z) : http_reply := mkHttpReply code (msg +:+ newline).
(** A handler that returns without writing anything has answered 200. *)
Definition silent_reply : http_reply := mkHttpReply 200 "".

(** [strconv.ParseBool] *)
Definition ParseBool (s : string) : option bool :=
  if decide (s ∈ ["1"; "t"; "T"; "TRUE"; "true"; "True"]%string) then Some true
  else if decide (s ∈ ["0"; "f"; "F"; "FALSE"; "false"; "False"]%string) then Some false
  else None.

Definition Form : Type := gmap string (list string).
(** [r.FormValue]: the first value, or the empty string. *)
Definition FormValue (f : Form) (k : string) : string :=
  match f !! k with Some (v :: _) => v | _ => "" end.

(** The two optional bounds of the autoscaler. *)
Definition with_upper (b : Z) (c : AutoscalingConfiguration) : AutoscalingConfiguration :=
  mkAutoscalingConfiguration b (ScalingLowerBound c) (PanicThresholdPercentage c) (MaxScaleUpRate c)
    (MaxScaleDownRate c) (ContainerConcurrency c) (ContainerConcurrencyTargetPercentage c)
    (StableWindowWidthSeconds c) (PanicWindowWidthSeconds c) (ScalingPeriodSeconds c) (ScalingMethod c).
Definition with_lower (b : Z) (c : AutoscalingConfiguration) : AutoscalingConfiguration :=
  mkAutoscalingConfiguration (ScalingUpperBound c) b (PanicThresholdPercentage c) (MaxScaleUpRate c)
    (MaxScaleDownRate c) (ContainerConcurrency c) (ContainerConcurrencyTargetPercentage c)
    (StableWindowWidthSeconds c) (PanicWindowWidthSeconds c) (ScalingPeriodSeconds c) (ScalingMethod c).

(** Checks of a request: an answer that ends the handler, or a value. *)
Definition checked (A : Type) : Type := outcome (http_reply + A).
Definition accept {A} (x : A) : checked A := Ok (inr x).
Definition reject {A} (msg : string) : checked A := Ok (inl (http_Error msg 400)).
Definition check_bind {A B} (m : checked A) (f : A -> checked B) : checked B :=
  match m with
  | Ok (inr x) => f x
  | Ok (inl e) => Ok (inl e)
  | Panic => Panic
  | Fatal => Fatal
  | Blocked => Blocked
  end.
Declare Scope http_scope.
Notation "x <~ m ; k" := (check_bind m (fun x => k))
  (at level 100, m at next level, right associativity) : http_scope.
Local Open Scope http_scope.

Definition required (v msg : string) : checked string :=
  if decide (v = ""%string) then reject msg else accept v.
Definition number (v msg : string) : checked Z :=
  match Atoi v with None => reject msg | Some n => accept n end.
(** [vs[i]] *)
Definition value_at (vs : list string) (i : Z) : checked string :=
  match go_index vs i with Ok v => accept v | _ => Panic end.
(** An optional number of the form: [r.Form[key][0]]. *)
Definition optional_number (f : Form) (key : string) (dflt : Z) (msg : string) : checked Z :=
  match f !! key with
  | None => accept dflt
  | Some vs => v <~ value_at vs 0; number v msg
  end.
Definition optional_bound (f : Form) (key : string)
    (set : Z -> AutoscalingConfiguration -> AutoscalingConfiguration) (msg : string)
    (c : AutoscalingConfiguration) : checked AutoscalingConfiguration :=
  if decide (FormValue f key = ""%string) then accept c
  else n <~ number (FormValue f key) msg; accept (set (i32 n) c).
Definition protocol_of (v : string) : checked L4Protocol :=
  if decide (v = "tcp"%string) then accept TCP
  else if decide (v = "udp"%string) then accept UDP
  else reject "Invalid port forwarding protocol.".
Definition cold_start_sweep (f : Form) : checked bool :=
  match f !! "cold_start_sweep"%string with
  | None => accept false
  | Some vs =>
      v <~ value_at vs 0;
      match ParseBool v with None => reject "Invalid cold start sweep value" | Some b => accept b end
  end.

(** The first half of [registrationHandler]: the service the form describes,
    or the answer to a bad request. *)
Definition parse_service (method : string) (form : option Form) : checked ServiceInfo :=
  if negb (bool_decide (method = "POST"%string)) then Ok (inl (http_Error "Method not allowed." 405)) else
  f <~ match form with
       | None => reject "Invalid parsing service registration request."
       | Some f => accept f
       end;
  name <~ required (FormValue f "name") "Invalid function name.";
  image <~ required (FormValue f "image") "Invalid function image.";
  let portForwarding := default [] (f !! "port_forwarding"%string) in
  if decide (portForwarding = [])
  then reject "No port forwarding specified. Function cannot communicate with the outside world." else
  port <~ value_at portForwarding 0;
  guestPort <~ number port "Invalid guest port specified.";
  protocol <~ value_at portForwarding 1;
  l4 <~ protocol_of protocol;
  cpu <~ optional_number f "requested_cpu" 1 "Invalid CPU value";
  memory <~ optional_number f "requested_memory" 1 "Invalid memory value";
  sweep <~ cold_start_sweep f;
  c <~ optional_bound f "scaling_upper_bound" with_upper "Invalid scaling upper bound."
         (NewDefaultAutoscalingMetadata sweep);
  c <~ optional_bound f "scaling_lower_bound" with_lower "Invalid scaling lower bound." c;
  accept (mkServiceInfo name image (u64 cpu) (u64 memory) (mkPortMapping 0 (i32 guestPort) l4) c).

Section registration.
Context {S P C : Type} `{PL : PersistenceLayer S} `{PP : PlacementPolicy P} `{HC : HAProxyClient C}.
Context (cfg : ControlPlaneConfig) (env : api_env).
Abbreviation M := (GoM (gmap Z (CpApiServer S P C))).

(** [GetLoadBalancerAddress]: the address of the load balancer, or without one
    the list of the data planes. *)
Fixpoint join_endpoints (conns : list (string * DataPlaneConnectionInfo)) (cnt len : Z) (acc : string) : string :=
  match conns with
  | [] => acc
  | (_, conn) :: conns' =>
      let delimiter := if decide (cnt ≠ len - 1) then ";"%string else ""%string in
      join_endpoints conns' (cnt + 1) len (acc +:+ dp_IP conn +:+ ":" +:+ dp_ProxyPort conn +:+ delimiter)
  end.
Definition registration_GetLoadBalancerAddress : GoM (CpApiServer S P C) string :=
  r ← go_get;
  if decide (GetLoadBalancerAddress (ca_HAProxyAPI r) = ""%string) then
    if decide (les_peerClients (ca_LeaderElectionServer r) ≠ ∅) then go_fatal
    else
      on_cp (
        on_dp RLock ;;
        m ← on_dp GetMap;
        let l := join_endpoints (e_dp_ord (ae_cp env) m) 0 (Z.of_nat (size m)) "" in
        on_dp RUnlock ;;
        mret l)
  else mret (GetLoadBalancerAddress (ca_HAProxyAPI r)).

(** [registrationHandler] of replica [i].  A leader serves the request itself, a
    follower calls the leader's API; a call on a nil client panics, and so does
    reading a nil answer. *)
Definition registrationHandler (fuel : nat) (i : Z) (method : string) (form : option Form) : M http_reply :=
  p ← go_lift (parse_service method form);
  match p with
  | inl reply => mret reply
  | inr info =>
      r ← on_replica i go_get;
      service ← (if is_leader (r : CpApiServer S P C) then sv_RegisterService (cpi_server cfg env fuel i) info
                 else
                   leader ← go_lift (GetLeader (ca_LeaderElectionServer r));
                   j ← go_lift (deref leader);
                   remote env i j (sv_RegisterService (cpi_server cfg env fuel j) info));
      match service with
      | (_, Some _) => mret silent_reply
      | (status, None) =>
          status ← go_lift (deref status);
          if as_Success status then
            body ← on_replica i registration_GetLoadBalancerAddress;
            mret (mkHttpReply 200 body)
          else mret (http_Error "Failed to register service." 409)
      end
  end.
End registration.

(** ** Forwarding *)

Section forwarding.
Context {S P C : Type} `{PL : PersistenceLayer S} `{PP : PlacementPolicy P} `{HC : HAProxyClient C}.
Context (cfg : ControlPlaneConfig) (env : api_env).
Abbreviation Replicas := (gmap Z (CpApiServer S P C)).

(** Replica [i] forwards to [j]. *)
Definition forwards (c : Replicas) (i j : Z) : Prop :=
  exists r, c !! i = Some r /\ is_leader r = false /\
    les_peerClients (ca_LeaderElectionServer r) !! GetLeaderID (les_cm (ca_LeaderElectionServer r)) = Some j /\
    ae_call env i j = None.

(** From [i], [n] forwards lead to the leader [k]. *)
Inductive leads_to (c : Replicas) : Z -> nat -> Z -> Prop :=
| leads_here i r : c !! i = Some r -> is_leader r = true -> leads_to c i 0 i
| leads_on i j n k : forwards c i j -> leads_to c j n k -> leads_to c i (Datatypes.S n) k.

Lemma on_replica_get (c : Replicas) i r : c !! i = Some r -> on_replica i go_get c = Ok (r, c).
Proof. intros H. unfold on_replica, go_get. rewrite H. by rewrite insert_id. Qed.

Lemma unless_leader_serves {A} (c : Replicas) i r (f : Z -> GoM Replicas (reply A)) o serve :
  c !! i = Some r -> is_leader r = true -> unless_leader env i f o serve c = serve c.
Proof.
  intros Hr Hl. unfold unless_leader. erewrite gom_bind_run; [|by apply on_replica_get]. by rewrite Hl.
Qed.
Lemma unless_leader_forwards {A} (c : Replicas) i j (f : Z -> GoM Replicas (reply A)) o serve :
  forwards c i j -> unless_leader env i f o serve c = (r ← f j; mret (wire r)) c.
Proof.
  intros (r&Hr&Hl&Hj&He). unfold unless_leader. erewrite gom_bind_run; [|by apply on_replica_get].
  rewrite Hl. unfold GetLeader. unfold is_leader in Hl. rewrite Hl. cbn [negb].
  erewrite gom_bind_run; [|reflexivity]. rewrite Hj. unfold remote. by rewrite He.
Qed.
Lemma unless_leader_alone {A} (c : Replicas) i r (f : Z -> GoM Replicas (reply A)) o serve :
  c !! i = Some r -> is_leader r = false ->
  les_peerClients (ca_LeaderElectionServer r) !! GetLeaderID (les_cm (ca_LeaderElectionServer r)) = None ->
  unless_leader env i f o serve c = Ok (o, c).
Proof.
  intros Hr Hl Hj. unfold unless_leader. erewrite gom_bind_run; [|by apply on_replica_get].
  rewrite Hl. unfold GetLeader. unfold is_leader in Hl. rewrite Hl. cbn [negb].
  erewrite gom_bind_run; [|reflexivity]. by rewrite Hj.
Qed.

Ltac api_case rq :=
  unfold api_call; destruct rq; cbn [serve_request leader_handle cpi_server sv_OnMetricsReceive sv_ListServices
    sv_RegisterNode sv_DeregisterNode sv_NodeHeartbeat sv_RegisterService sv_DeregisterService
    sv_RegisterDataplane sv_DeregisterDataplane sv_ResetMeasurements sv_ReportFailure].

(** Each handler, at a replica that forwards, at one that leads and at one that
    knows no leader. *)
Lemma api_call_forward fuel i j rq (c : Replicas) :
  forwards c i j ->
  api_call cfg env (Datatypes.S fuel) i rq c = (r ← api_call cfg env fuel j rq; mret (wire_reply r)) c.
Proof.
  intros Hf. api_case rq;
    (etrans; [apply gom_bind_run_eq; by apply unless_leader_forwards|]); rewrite !gom_bind_assoc;
    apply gom_bind_ext; done.
Qed.
Lemma api_call_leader fuel i r rq (c : Replicas) :
  c !! i = Some r -> is_leader r = true ->
  api_call cfg env (Datatypes.S fuel) i rq c = leader_handle cfg env i rq c.
Proof.
  intros Hr Hl. api_case rq;
    (etrans; [apply gom_bind_run_eq; by apply (unless_leader_serves _ _ r)|]); rewrite !gom_bind_assoc;
    apply gom_bind_ext; intros x c'; try done.
  - destruct x as [[status err] hb]. rewrite gom_bind_assoc. by apply gom_bind_ext.
  - destruct x as [status err]. rewrite gom_bind_assoc. by apply gom_bind_ext.
  - rewrite gom_bind_assoc. by apply gom_bind_ext.
Qed.
Lemma api_call_alone fuel i r rq (c : Replicas) :
  c !! i = Some r -> is_leader r = false ->
  les_peerClients (ca_LeaderElectionServer r) !! GetLeaderID (les_cm (ca_LeaderElectionServer r)) = None ->
  api_call cfg env (Datatypes.S fuel) i rq c = Ok (no_leader rq, c).
Proof.
  intros Hr Hl Hj. api_case rq; (erewrite gom_bind_run; [|by apply (unless_leader_alone _ _ r)]); done.
Qed.

(** Over [n] forwards an answer passes the wire at most once: once is as good as
    [n] times. *)
Lemma wire_reply_twice r : wire_reply (wire_reply r) = wire_reply r.
Proof. by destruct r as [[m [e|]]|[m [e|]]]. Qed.
Definition arrives (n : nat) (r : api_reply) : api_reply :=
  match n with O => r | Datatypes.S _ => wire_reply r end.

Lemma api_call_leads fuel i n k rq (c : Replicas) :
  leads_to c i n k -> (n < fuel)%nat ->
  api_call cfg env fuel i rq c = (a ← leader_handle cfg env k rq; mret (arrives n a)) c.
Proof.
  intros Hp. revert fuel. induction Hp as [i r Hr Hl|i j n k Hf _ IH]; intros fuel Hn.
  - destruct fuel as [|fuel]; [lia|]. rewrite (api_call_leader _ _ r) by done.
    unfold mbind, gom_bind. by destruct (leader_handle _ _ _ _ _) as [[? ?]| | |].
  - destruct fuel as [|fuel]; [lia|]. rewrite (api_call_forward fuel i j) by done.
    etrans; [apply gom_bind_run_eq, IH; lia|]. rewrite gom_bind_assoc. apply gom_bind_ext. intros a c'.
    erewrite gom_bind_run; [|reflexivity]. destruct n; cbn [arrives]; by rewrite ?wire_reply_twice.
Qed.

(** A set of replicas that forward to one another and none of which leads. *)
Lemma api_call_circular (X : Z -> Prop) c fuel i rq :
  (forall i, X i -> exists j, X j /\ forwards c i j) -> X i ->
  api_call cfg env fuel i rq c = Blocked.
Proof.
  intros HX. revert i. induction fuel as [|fuel IH]; intros i Hi; [by destruct rq|].
  destruct (HX i Hi) as (j&Hj&Hf). rewrite (api_call_forward fuel i j) by done.
  unfold mbind, gom_bind. by rewrite IH.
Qed.
End forwarding.


(** The clients of a full mesh of the three replicas. *)
Definition mesh (v : Z) : gmap Z Z := list_to_map ((fun p => (p, p)) <$> peers_of three v).

(** Replica 0 leads term 1 and is heard by replica 1; replica 1 leads term 2
    and is heard by replica 0; replica 2 starts an election and its request
    makes replica 1 step down. *)
Definition stale_belief_run : list raft_event :=
  [EvTimer 0 0 200 200; EvDeliverVote 0 200; EvVoteReply 0 201;
   EvHeartbeats 0; EvDeliverHb 0 202; EvHbReply 0 203;
   EvTimer 1 1 200 500; EvDeliverVote 3 501; EvVoteReply 3 502;
   EvHeartbeats 1; EvDeliverHb 2 503; EvHbReply 2 504;
   EvTimer 2 2 200 900; EvDeliverVote 5 901].

(** Between two leaders calls can be forwarded in a circle.  A replica that
    steps down keeps the leader it last heard of, and a follower keeps the
    leader that has stepped down: there is a run of the election, with no late
    callback, after which no replica leads and replicas 0 and 1 take each other
    for the leader.  A call to either is then forwarded between the two for
    ever, whatever the call and the state of the control planes. *)
Theorem stale_belief_forwarding_loop {S P C} `{PersistenceLayer S} `{PlacementPolicy P} `{HAProxyClient C}
    cfg env :
  exists rc, raft_run timely (new_cluster three) rc /\
    (forall v cm, modules rc !! v = Some cm -> cm_state cm ≠ Leader) /\
    forall (c : gmap Z (CpApiServer S P C)),
      (forall v, v ∈ three -> exists r, c !! v = Some r /\
         modules rc !! v = Some (les_cm (ca_LeaderElectionServer r)) /\
         les_peerClients (ca_LeaderElectionServer r) = mesh v) ->
      ae_call env 0 1 = None -> ae_call env 1 0 = None ->
      forall fuel rq, api_call cfg env fuel 0 rq c = Blocked /\ api_call cfg env fuel 1 rq c = Blocked.
Proof.
  assert (Hv : (fun rc => (forallb (fun kv => negb (IsLeader kv.2)) (map_to_list (modules rc)),
                           GetLeaderID <$> modules rc !! 0, GetLeaderID <$> modules rc !! 1)) <$>
               raft_exec stale_belief_run (new_cluster three) = Some (true, Some 1, Some 0))
    by (vm_compute; reflexivity).
  destruct (raft_exec stale_belief_run (new_cluster three)) as [rc|] eqn:He; [|done].
  injection Hv as Hno Hb0 Hb1. exists rc.
  assert (Hnl : forall v cm, modules rc !! v = Some cm -> IsLeader cm = false).
  { intros v cm Hv. rewrite forallb_forall in Hno. apply negb_true_iff.
    apply (Hno (v, cm)), list_elem_of_In, elem_of_map_to_list. done. }
  split; [|split].
  { apply (raft_exec_run timely stale_belief_run (new_cluster three)); [constructor|reflexivity|done]. }
  { intros v cm Hv Hl. apply Hnl in Hv. unfold IsLeader in Hv. by rewrite Hl in Hv. }
  intros c Hc H01 H10 fuel rq.
  assert (Hf : forall i j, i ∈ three -> GetLeaderID <$> modules rc !! i = Some j -> mesh i !! j = Some j ->
    ae_call env i j = None -> forwards env c i j).
  { intros i j Hi Hb Hm He'. destruct (Hc i Hi) as (r&Hr&Hmod&Hcl). rewrite Hmod in Hb. injection Hb as Hb.
    exists r. split; [done|]. split; [exact (Hnl i _ Hmod)|]. rewrite Hcl, Hb. split; [exact Hm|exact He']. }
  assert (F01 : forwards env c 0 1) by (apply Hf; [by left|done|reflexivity|done]).
  assert (F10 : forwards env c 1 0) by (apply Hf; [by right; left|done|reflexivity|done]).
  split; apply (api_call_circular cfg env (fun v => v = 0 \/ v = 1)); auto;
    intros v [->| ->]; eauto.
Qed.

(** ** Leadership as announced and as followed *)

Definition last_leads (l : list AnnounceLeadership) : bool :=
  match list.last l with Some a => al_IsLeader a | None => false end.

(** Leadership is never announced twice in a row. *)
Fixpoint no_repeat (was : bool) (l : list AnnounceLeadership) : bool :=
  match l with
  | [] => true
  | a :: l' => negb (was && al_IsLeader a) && no_repeat (al_IsLeader a) l'
  end.

Lemma last_leads_snoc l a : last_leads (l ++ [a]) = al_IsLeader a.
Proof. unfold last_leads. by rewrite last_snoc. Qed.
Lemma no_repeat_snoc was l a :
  no_repeat was (l ++ [a]) =
  no_repeat was l && negb ((if decide (l = []) then was else last_leads l) && al_IsLeader a).
Proof.
  revert was. induction l as [|b l IH]; intros was; [simpl; by rewrite andb_true_r|].
  cbn [no_repeat app]. rewrite IH, andb_assoc. do 3 f_equal.
  rewrite (decide_False (P := b :: l = [])) by done. by destruct l.
Qed.

(** What the announcements of a module say about its state. *)
Definition ann_ok (cm : ConsensusModule) : Prop :=
  no_repeat false (announced cm) = true /\
  (cm_state cm = Leader -> last_leads (announced cm) = true) /\
  (cm_state cm = Follower \/ cm_state cm = Candidate -> last_leads (announced cm) = false).

(** From one state of a module to a later one: announcements are only added,
    and they keep describing the state. *)
Definition ann_ext (cm cm' : ConsensusModule) : Prop :=
  announced cm `prefix_of` announced cm' /\ (ann_ok cm -> ann_ok cm').
Lemma ann_ext_refl cm : ann_ext cm cm.
Proof. by split. Qed.
Lemma ann_ext_trans cm1 cm2 cm3 : ann_ext cm1 cm2 -> ann_ext cm2 cm3 -> ann_ext cm1 cm3.
Proof. intros [P1 A1] [P2 A2]. split; [by trans (announced cm2)|auto]. Qed.
Lemma ann_ext_same cm cm' :
  announced cm' = announced cm -> cm_state cm' = cm_state cm -> ann_ext cm cm'.
Proof. intros E1 E2. split; [by rewrite E1|]. unfold ann_ok. by rewrite E1, E2. Qed.
Lemma becomeFollower_ann now term cm : ann_ext cm (becomeFollower now term cm).
Proof.
  split; [by exists [mkAnnounceLeadership false (cm_currentTerm cm)]|].
  intros (H1&_&_). unfold ann_ok, becomeFollower, announce. simpl.
  rewrite no_repeat_snoc, last_leads_snoc, H1. simpl. rewrite andb_false_r. done.
Qed.
Lemma startLeader_ann cm : cm_state cm = Candidate -> ann_ext cm (startLeader cm).
Proof.
  intros Hc. split; [by exists [mkAnnounceLeadership true (cm_currentTerm cm)]|].
  intros (H1&_&H3). unfold ann_ok, startLeader, announce. simpl.
  rewrite no_repeat_snoc, last_leads_snoc, H1, H3 by auto.
  split_and!; [by case_decide|done|by intros [?|?]].
Qed.
Lemma RequestVote_ann now args cm : ann_ext cm (RequestVote now args cm).2.
Proof.
  unfold RequestVote. case_decide; [apply ann_ext_refl|].
  set (cm1 := if decide (cm_currentTerm cm < _) then _ else _).
  assert (H1 : ann_ext cm cm1) by (unfold cm1; case_decide; [apply becomeFollower_ann|apply ann_ext_refl]).
  case_decide; simpl; [|done]. eapply ann_ext_trans; [exact H1|by apply ann_ext_same].
Qed.
Lemma AppendEntries_ann now args cm : ann_ext cm (AppendEntries now args cm).2.
Proof.
  unfold AppendEntries. case_decide; [apply ann_ext_refl|].
  set (cm1 := if decide (cm_currentTerm cm < _) then _ else _).
  assert (H1 : ann_ext cm (set_leaderID (ae_LeaderID args) cm1)).
  { apply (ann_ext_trans _ cm1); [|by apply ann_ext_same].
    unfold cm1. case_decide; [apply becomeFollower_ann|apply ann_ext_refl]. }
  case_decide; simpl; [|done]. set (cm2 := if decide (_ ≠ Follower) then _ else _).
  apply (ann_ext_trans _ cm2); [|by apply ann_ext_same]. eapply ann_ext_trans; [exact H1|].
  unfold cm2. case_decide; [apply becomeFollower_ann|apply ann_ext_refl].
Qed.
Lemma onVoteReply_ann now saved reply votes cm : ann_ext cm (onVoteReply now saved reply votes cm).2.
Proof.
  unfold onVoteReply. case_decide as Hs; [apply ann_ext_refl|].
  case_decide; [apply becomeFollower_ann|]. case_decide; [|apply ann_ext_refl].
  destruct (rvr_VoteGranted reply); [|apply ann_ext_refl].
  case_decide; [apply startLeader_ann; by destruct (decide (cm_state cm = Candidate))|apply ann_ext_refl].
Qed.

Lemma set_module_ann (m : gmap Z ConsensusModule) id cm0 cm1 v cm' :
  m !! id = Some cm0 -> ann_ext cm0 cm1 -> <[id := cm1]> m !! v = Some cm' ->
  exists cm, m !! v = Some cm /\ ann_ext cm cm'.
Proof.
  intros H0 He. rewrite lookup_insert. case_decide; [|by eauto using ann_ext_refl]. intros [= <-]. subst. eauto.
Qed.

Lemma raft_step_ann ev c c' v cm' :
  raft_step ev c = Some c' -> modules c' !! v = Some cm' ->
  exists cm, modules c !! v = Some cm /\ ann_ext cm cm'.
Proof.
  destruct ev; cbn [raft_step]; intros Hs.
  - destruct (modules c !! id) as [cm|] eqn:Hm; [|done]. cbn [mbind option_bind] in Hs.
    destruct (electionTimerTick _ _ _ _) eqn:Ht; try (injection Hs as <-; by eauto using ann_ext_refl).
    injection Hs as <-. intros Hv. eapply set_module_ann; [exact Hm| |exact Hv]. split; [done|]. intros (H1&_&H3).
    split; [done|]. split; [done|]. intros _. simpl. apply H3. unfold electionTimerTick in Ht.
    destruct (cm_state cm); auto; by rewrite decide_True in Ht.
  - destruct (vote_rpcs c !! k) as [r|]; [|done]. cbn [mbind option_bind] in Hs.
    destruct (vr_stage r); try done. destruct (elections c !! vr_el r) as [el|]; [|done].
    destruct (modules c !! vr_peer r) as [cm|] eqn:Hm; [|done]. cbn [mbind option_bind] in Hs.
    pose proof (RequestVote_ann now (mkRequestVoteArgs (el_term el) (el_cand el)) cm) as Hok.
    destruct (RequestVote _ _ _) as [reply cm1]. injection Hs as <-. intros Hv. by eapply set_module_ann.
  - destruct (vote_rpcs c !! k) as [r|]; [|done]. cbn [mbind option_bind] in Hs.
    destruct (vr_stage r) as [|reply|]; try done. destruct (elections c !! vr_el r) as [el|]; [|done].
    cbn [mbind option_bind] in Hs.
    destruct (modules c !! el_cand el) as [cm|] eqn:Hm; [|done]. cbn [mbind option_bind] in Hs.
    pose proof (onVoteReply_ann now (el_term el) reply (el_votes el) cm) as Hok.
    destruct (onVoteReply _ _ _ _ _) as [votes cm1]. injection Hs as <-. intros Hv. by eapply set_module_ann.
  - destruct (modules c !! id) as [cm|]; [|done]. cbn [mbind option_bind] in Hs.
    destruct (leaderSendHeartbeats cm); [|done]. injection Hs as <-. eauto using ann_ext_refl.
  - destruct (hb_rpcs c !! k) as [r|]; [|done]. cbn [mbind option_bind] in Hs.
    destruct (hb_st r); try done. destruct (modules c !! hb_peer r) as [cm|] eqn:Hm; [|done].
    cbn [mbind option_bind] in Hs.
    pose proof (AppendEntries_ann now (mkAppendEntriesArgs (hb_term r) (hb_src r)) cm) as Hok.
    destruct (AppendEntries _ _ _) as [reply cm1]. injection Hs as <-. intros Hv. by eapply set_module_ann.
  - destruct (hb_rpcs c !! k) as [r|]; [|done]. cbn [mbind option_bind] in Hs.
    destruct (hb_st r) as [|reply|]; try done. destruct (modules c !! hb_src r) as [cm|] eqn:Hm; [|done].
    injection Hs as <-. intros Hv. eapply set_module_ann; [exact Hm| |exact Hv]. unfold onHeartbeatReply.
    case_decide; [apply becomeFollower_ann|apply ann_ext_refl].
  - destruct (modules c !! id) as [cm|] eqn:Hm; [|done]. injection Hs as <-. intros Hv.
    eapply set_module_ann; [exact Hm| |exact Hv]. split; [done|]. intros (H1&_&_). split; [done|]. split; [done|].
    by intros [?|?].
Qed.

Lemma raft_run_ext ok c c' v cm' :
  raft_run ok c c' -> modules c' !! v = Some cm' -> exists cm, modules c !! v = Some cm /\ ann_ext cm cm'.
Proof.
  intros Hr. revert cm'. induction Hr as [c|c1 c2 c3 ev _ IH _ Hs]; intros cm' Hv; [eauto using ann_ext_refl|].
  destruct (raft_step_ann _ _ _ _ _ Hs Hv) as (cm2&H2&He2). destruct (IH _ H2) as (cm1&H1&He1).
  exists cm1. split; [done|]. by eapply ann_ext_trans.
Qed.
Lemma raft_run_trans ok c1 c2 c3 : raft_run ok c1 c2 -> raft_run ok c2 c3 -> raft_run ok c1 c3.
Proof.
  intros H1 H2. induction H2 as [|c2 c3 c4 ev _ IH Hok Hs]; [done|]. eapply run_step; [by apply IH|done|done].
Qed.

Lemma raft_run_ann ok ids c v cm :
  raft_run ok (new_cluster ids) c -> modules c !! v = Some cm -> ann_ok cm.
Proof.
  intros Hr Hv. destruct (raft_run_ext _ _ _ _ _ Hr Hv) as (cm0&H0&_&Hok). apply Hok.
  unfold new_cluster in H0. simpl in H0. apply elem_of_list_to_map_2 in H0.
  apply list_elem_of_fmap in H0 as (id&[= -> ->]&_). unfold NewConsensusModule.
  case_decide; repeat split; try done; intros [?|?]; done.
Qed.

Section following.
Context {S P C : Type} `{PL : PersistenceLayer S} `{PP : PlacementPolicy P} `{HC : HAProxyClient C}.
Context (cfg : ControlPlaneConfig).
(** Which events of the election are allowed, the replica that is followed, and
    what the handlers, the scaling loops and the monitor of a leading replica
    do to its control plane. *)
Context (ok : raft_event -> cluster -> bool) (v : Z) (serve : ControlPlane S P -> ControlPlane S P -> Prop).
Abbreviation State := (CurrentState (CpApiServer S P C)).

(** The database is shared: other replicas change it. *)
Definition set_database (s : S) (c : ControlPlane S P) : ControlPlane S P :=
  mkControlPlane (DataPlaneConnections c) (NIStorage c) (SIStorage c) (ss_heap c) (cp_PlacementPolicy c) s
    (cp_rpcs c) (cp_endpoints c) (cp_tasks c) (cp_loops c).
Definition evolves (c c' : ControlPlane S P) : Prop := serve c c' \/ exists s, c' = set_database s c.

Definition with_api (f : CpApiServer S P C -> CpApiServer S P C) (st : State) : State :=
  mkCurrentState (f (cs_cpApiServer st)) (cs_stopNodeMonitoring st) (cs_wasLeaderBefore st).
Definition module_of (st : State) : ConsensusModule := les_cm (ca_LeaderElectionServer (cs_cpApiServer st)).
Definition set_cm (cm : ConsensusModule) (r : CpApiServer S P C) : CpApiServer S P C :=
  set_les (mkLeaderElectionServer cm (les_peerClients (ca_LeaderElectionServer r))) r.
Definition plane_of (st : State) : ControlPlane S P := ca_ControlPlane (cs_cpApiServer st).

(** Replica [v] within the election: the cluster, the announcements it has
    handled and its state.  Its consensus module is the one of the cluster.
    It handles the announcements of its module in order, each some time after
    it was made; the control plane changes while the replica leads, and, by
    what is still running, until it has handled that it does not; the monitor
    may get stuck; the load balancer is changed by anyone. *)
Inductive replica_run (ids : list Z) : cluster -> list AnnounceLeadership -> State -> Prop :=
| rr_start api policy s cm :
    modules (new_cluster ids) !! v = Some cm -> les_cm (ca_LeaderElectionServer api) = cm ->
    ca_ControlPlane api = NewControlPlane policy s ->
    replica_run ids (new_cluster ids) [] (NewElectionState api)
| rr_election c c' cm l st :
    replica_run ids c l st -> raft_run ok c c' -> modules c' !! v = Some cm ->
    replica_run ids c' l (with_api (set_cm cm) st)
| rr_announcement c l a p st env ord_s ord_e st' :
    replica_run ids c l st -> announced (module_of st) = l ++ a :: p ->
    UpdateLeadership cfg env ord_s ord_e a st = Ok (tt, st') ->
    replica_run ids c (l ++ [a]) st'
| rr_serve c l st c' :
    replica_run ids c l st -> IsLeader (module_of st) = true \/ cs_wasLeaderBefore st = true ->
    serve (plane_of st) c' -> replica_run ids c l (with_api (set_ControlPlane c') st)
| rr_database c l st s :
    replica_run ids c l st -> replica_run ids c l (with_api (fun r => set_ControlPlane (set_database s (ca_ControlPlane r)) r) st)
| rr_balancer c l st lb :
    replica_run ids c l st -> replica_run ids c l (with_api (set_HAProxyAPI lb) st)
| rr_stuck c l api flag :
    replica_run ids c l (mkCurrentState api (MonitorRuns false) flag) ->
    replica_run ids c l (mkCurrentState api (MonitorRuns true) flag).

(** The state of a replica that leads: its control plane comes from a
    reconstruction that started from an empty one, and its monitor runs. *)
Definition leads_term (st : State) : Prop :=
  (exists b, cs_stopNodeMonitoring st = MonitorRuns b) /\
  exists env ord_s ord_e r0 r1 policy s,
    ca_ControlPlane r0 = NewControlPlane policy s /\
    api_ReconstructState cfg env ord_s ord_e r0 = Ok (None, r1) /\
    rtc evolves (ca_ControlPlane r1) (plane_of st).
(** The state of one that does not: an empty control plane and no monitor. *)
Definition is_idle (st : State) : Prop :=
  cs_stopNodeMonitoring st = MonitorNil /\ exists policy s, plane_of st = NewControlPlane policy s.

(** ** What one announcement does *)

(** What does not touch the leader election. *)
Definition keeps {A} (m : GoM (CpApiServer S P C) A) : Prop :=
  forall r a r', m r = Ok (a, r') -> ca_LeaderElectionServer r' = ca_LeaderElectionServer r.
Lemma keeps_bind {A B} (m : GoM (CpApiServer S P C) A) (f : A -> GoM (CpApiServer S P C) B) :
  keeps m -> (forall a, keeps (f a)) -> keeps (m ≫= f).
Proof. intros Hm Hf r b r' H. apply gom_bind_ok in H as (a&r1&H1&H2). etrans; [by eapply Hf|by eapply Hm]. Qed.
Lemma keeps_ret {A} (a : A) : keeps (mret a).
Proof. intros r b r' H. by injection H as _ <-. Qed.
Lemma keeps_cp {A} (f : GoM (ControlPlane S P) A) : keeps (on_cp f).
Proof. intros r a r' H. apply zoom_ok in H as (x&_&->). done. Qed.
Lemma keeps_lb {A} (f : GoM (API C) A) : keeps (on_lb f).
Proof. intros r a r' H. apply zoom_ok in H as (x&_&->). done. Qed.
Ltac keeps_tac :=
  repeat first
    [apply keeps_cp | apply keeps_lb | apply keeps_ret | apply keeps_bind; [|intros]
    | match goal with
      | |- keeps (match ?x with _ => _ end) => destruct x
      | |- keeps (if ?x then _ else _) => destruct x
      end].

Lemma reconstruct_keeps env ord_s ord_e (r r' : CpApiServer S P C) :
  api_ReconstructState cfg env ord_s ord_e r = Ok (None, r') ->
  is_leader r = true /\ ca_LeaderElectionServer r' = ca_LeaderElectionServer r.
Proof.
  intros H. unfold api_ReconstructState in H. apply gom_bind_ok in H as (r0&r1&H0&H). injection H0 as <- <-.
  destruct (is_leader r); [|done]. split; [done|]. revert H. generalize (None : go_error). intros e H. revert r e r' H.
  match goal with |- forall r a r', ?m r = Ok (a, r') -> _ => change (keeps m) end.
  apply keeps_bind; [|intros; apply keeps_ret].
  unfold ReconstructState_in, HAProxyReconstructionCallback, ReviseDataplanesInLB. keeps_tac.
Qed.

Lemma clean_fresh env (r r' : CpApiServer S P C) u :
  CleanControlPlaneInMemoryData env r = Ok (u, r') ->
  ca_LeaderElectionServer r' = ca_LeaderElectionServer r /\
  exists policy s, ca_ControlPlane r' = NewControlPlane policy s.
Proof.
  intros H. unfold CleanControlPlaneInMemoryData in H. apply gom_bind_ok in H as (u1&r1&H1&H2).
  injection H2 as _ <-. apply keeps_cp in H1. cbn. by eauto.
Qed.

Lemma destroy_fresh env (st st' : State) u :
  destroyStateFromPreviousElectionTerm env st = Ok (u, st') ->
  cs_wasLeaderBefore st' = cs_wasLeaderBefore st /\ module_of st' = module_of st /\
  exists policy s, plane_of st' = NewControlPlane policy s.
Proof.
  intros H. unfold destroyStateFromPreviousElectionTerm in H.
  apply gom_bind_ok in H as (m&st1&Hm&H). injection Hm as <- <-. apply gom_bind_ok in H as (u1&st1&H1&H2).
  assert (E : cs_cpApiServer st1 = cs_cpApiServer st /\ cs_wasLeaderBefore st1 = cs_wasLeaderBefore st)
    by (destruct (cs_stopNodeMonitoring st) as [|[]|]; try done; by injection H1 as _ <-).
  destruct E as [E1 E2]. unfold on_api in H2. apply zoom_ok in H2 as (r&H2&->).
  apply clean_fresh in H2 as [H2 Hf]. unfold module_of, plane_of. cbn. by rewrite H2, E1, E2.
Qed.

Lemma step_down env ord_s ord_e a (st st' : State) u :
  cs_wasLeaderBefore st = true ->
  UpdateLeadership cfg env ord_s ord_e a st = Ok (u, st') ->
  cs_wasLeaderBefore st' = false /\ module_of st' = module_of st /\ is_idle st'.
Proof.
  intros Hw H. unfold UpdateLeadership in H. apply gom_bind_ok in H as (w&st1&H1&H). injection H1 as <- <-.
  rewrite Hw, andb_false_r in H. apply gom_bind_ok in H as (u1&st1&H1&H). injection H as _ <-.
  apply gom_bind_ok in H1 as (u2&st2&H2&H1). injection H1 as _ <-.
  apply destroy_fresh in H2 as (_&Hm&Hf). by repeat split.
Qed.

Lemma step_up env ord_s ord_e a (st st' : State) u :
  cs_wasLeaderBefore st = false -> al_IsLeader a = true ->
  UpdateLeadership cfg env ord_s ord_e a st = Ok (u, st') ->
  cs_wasLeaderBefore st' = true /\ module_of st' = module_of st /\ leads_term st'.
Proof.
  intros Hw Ha H. unfold UpdateLeadership in H. apply gom_bind_ok in H as (w&st1&H1&H). injection H1 as <- <-.
  rewrite Hw, Ha in H. cbn [andb negb] in H. unfold SetCurrentControlPlaneLeader in H.
  apply gom_bind_ok in H as (u1&st1&H1&H). apply destroy_fresh in H1 as (_&Hm1&policy&s&Hf).
  apply gom_bind_ok in H as (u2&st2&H2&H). unfold reconstructControlPlaneState in H2.
  apply gom_bind_ok in H2 as (err&st3&H2&H3). destruct err; [done|]. injection H3 as _ <-.
  unfold on_api in H2. apply zoom_ok in H2 as (r1&H2&->).
  destruct (reconstruct_keeps env ord_s ord_e _ _ H2) as [Hl Hk].
  apply gom_bind_ok in H as (m&st4&H4&H). unfold on_api in H4. apply zoom_ok in H4 as (r2&H4&->). cbn in H4.
  injection H4 as <- <-. apply gom_bind_ok in H as (u5&st5&H5&H). injection H5 as _ <-. injection H as _ <-.
  unfold module_of, leads_term, plane_of. cbn. rewrite Hk. split; [done|]. split; [exact Hm1|].
  replace (is_leader r1) with true by (unfold is_leader in *; by rewrite Hk, Hl).
  split; [by exists false|]. exists env, ord_s, ord_e, (cs_cpApiServer st1), r1, policy, s. by repeat split.
Qed.

Lemma stay_down env ord_s ord_e a (st st' : State) u :
  cs_wasLeaderBefore st = false -> al_IsLeader a = false ->
  UpdateLeadership cfg env ord_s ord_e a st = Ok (u, st') -> st' = st.
Proof.
  intros Hw Ha H. unfold UpdateLeadership in H. apply gom_bind_ok in H as (w&st1&H1&H). injection H1 as <- <-.
  rewrite Hw, Ha in H. by injection H as _ <-; destruct st; cbn in *; subst.
Qed.

(** ** The invariant *)

Record follow_inv (ids : list Z) (c : cluster) (l : list AnnounceLeadership) (st : State) : Prop := {
  fi_run : raft_run ok (new_cluster ids) c;
  fi_cm : modules c !! v = Some (module_of st);
  fi_handled : l `prefix_of` announced (module_of st);
  fi_flag : cs_wasLeaderBefore st = last_leads l;
  fi_leads : cs_wasLeaderBefore st = true -> leads_term st;
  fi_monitor : cs_wasLeaderBefore st = false -> cs_stopNodeMonitoring st = MonitorNil;
  (* unless leadership is still to be handled *)
  fi_empty : cs_wasLeaderBefore st = false ->
    forall p, announced (module_of st) = l ++ p -> Forall (fun a => al_IsLeader a = false) p ->
    exists policy s, plane_of st = NewControlPlane policy s;
}.

Lemma no_repeat_prefix was l1 l2 : no_repeat was (l1 ++ l2) = true -> no_repeat was l1 = true.
Proof.
  revert was. induction l1 as [|a l1 IH]; intros was; [done|]. cbn [no_repeat app].
  intros [H1 H2]%andb_true_iff. by rewrite H1, (IH _ H2).
Qed.
Lemma last_leads_app l p : p ≠ [] -> last_leads (l ++ p) = last_leads p.
Proof.
  destruct p as [|a p _] using rev_ind; [done|]. intros _. by rewrite app_assoc, !last_leads_snoc.
Qed.
Lemma last_leads_none p : Forall (fun a => al_IsLeader a = false) p -> last_leads p = false.
Proof.
  destruct p as [|a p _] using rev_ind; [done|]. intros [_ H]%Forall_app. rewrite last_leads_snoc.
  by inversion H.
Qed.

Lemma leads_term_evolves st st' :
  leads_term st -> (cs_stopNodeMonitoring st' = cs_stopNodeMonitoring st) ->
  rtc evolves (plane_of st) (plane_of st') -> leads_term st'.
Proof.
  intros [[b Hb] (env&os&oe&r0&r1&policy&s&H1&H2&H3)] Hm Hr. split; [exists b; by rewrite Hm|].
  exists env, os, oe, r0, r1, policy, s. split_and!; [done..|]. by etrans.
Qed.

Lemma follow_announcement ids c l a p st st' env ord_s ord_e :
  follow_inv ids c l st -> announced (module_of st) = l ++ a :: p ->
  UpdateLeadership cfg env ord_s ord_e a st = Ok (tt, st') -> follow_inv ids c (l ++ [a]) st'.
Proof.
  intros [Hr Hm Hh Hf Hl Hmon He] Ha Hu. destruct (raft_run_ann _ _ _ _ _ Hr Hm) as (Hn&_&_).
  rewrite Ha in Hn. change (a :: p) with ([a] ++ p) in Hn. rewrite app_assoc in Hn. apply no_repeat_prefix in Hn.
  rewrite no_repeat_snoc in Hn. apply andb_true_iff in Hn as [_ Hn].
  assert (Hp : l ++ [a] `prefix_of` announced (module_of st)) by (exists p; by rewrite Ha, <- app_assoc).
  destruct (cs_wasLeaderBefore st) eqn:Hw.
  - destruct (step_down _ _ _ _ _ _ _ Hw Hu) as (Hw'&Hm'&[Hi1 Hi2]). assert (Haf : al_IsLeader a = false).
    { rewrite <- Hf in Hn. case_decide; [by subst|]. cbn in Hn. by destruct (al_IsLeader a). }
    split; rewrite ?Hm', ?Hw', ?last_leads_snoc; auto; done.
  - destruct (al_IsLeader a) eqn:Hal.
    + destruct (step_up _ _ _ _ _ _ _ Hw Hal Hu) as (Hw'&Hm'&Hlt).
      split; rewrite ?Hm', ?Hw', ?last_leads_snoc, ?Hal; auto; done.
    + apply (stay_down _ _ _ _ _ _ _ Hw Hal) in Hu as ->. split; rewrite ?Hw, ?last_leads_snoc; try done.
      intros _ p' Hp' Hpf. eapply He; [done|exact Ha|]. rewrite Ha in Hp'. rewrite <- app_assoc in Hp'.
      apply app_inv_head in Hp'. injection Hp' as <-. by constructor.
Qed.

Lemma follow_change ids c l (st : State) f :
  follow_inv ids c l st -> (forall r, ca_LeaderElectionServer (f r) = ca_LeaderElectionServer r) ->
  rtc evolves (plane_of st) (plane_of (with_api f st)) ->
  (IsLeader (module_of st) = true \/ cs_wasLeaderBefore st = true \/
   forall policy s, plane_of st = NewControlPlane policy s -> exists s', plane_of (with_api f st) = NewControlPlane policy s') ->
  follow_inv ids c l (with_api f st).
Proof.
  intros [Hr Hm Hh Hf Hl Hmon He] Hles Hev Hc.
  assert (Em : module_of (with_api f st) = module_of st) by (unfold module_of; cbn; by rewrite Hles).
  split; rewrite ?Em; try done.
  { intros Hw. eapply leads_term_evolves; [by apply Hl|done|done]. }
  intros Hw p Hp Hpf. cbn in Hw. destruct Hc as [Hc|[Hc|Hc]]; [|by rewrite Hw in Hc|].
  - destruct (raft_run_ann _ _ _ _ _ Hr Hm) as (_&Hlead&_). rewrite Hp in Hlead. exfalso.
    assert (cm_state (module_of st) = Leader) as E by (unfold IsLeader in Hc; by destruct (cm_state _)).
    specialize (Hlead E). destruct (decide (p = [])) as [->|Hne].
    + by rewrite app_nil_r, <- Hf, Hw in Hlead.
    + by rewrite last_leads_app, last_leads_none in Hlead.
  - destruct (He Hw p Hp Hpf) as (policy&s&E). destruct (Hc _ _ E) as [s' E']. eauto.
Qed.

Lemma follow_run ids c l st : replica_run ids c l st -> follow_inv ids c l st.
Proof.
  induction 1 as [api policy s cm Hm Hcm Hcp|c c' cm l st _ IH Hr Hm|c l a p st env os oe st' _ IH Ha Hu
    |c l st c' _ IH Hc Hs|c l st s _ IH|c l st lb _ IH|c l api flag _ IH].
  - split; try done; [constructor|unfold module_of; cbn; by rewrite Hcm|apply prefix_nil|]. cbn. by eauto.
  - destruct IH as [Hr0 Hm0 Hh Hf Hl Hmon He]. destruct (raft_run_ext _ _ _ _ _ Hr Hm) as (cm0&H0&[k Hk]&_).
    rewrite Hm0 in H0. injection H0 as E0. subst cm0. split; try done.
    + by eapply raft_run_trans.
    + change (l `prefix_of` announced cm). rewrite Hk. by apply prefix_app_r.
    + intros Hw p Hp Hpf. change (announced cm = l ++ p) in Hp. destruct Hh as [p0 Hp0].
      rewrite Hk, Hp0, <- app_assoc in Hp. apply app_inv_head in Hp. subst p. apply Forall_app in Hpf as [Hpf _].
      exact (He Hw p0 Hp0 Hpf).
  - by eapply follow_announcement.
  - apply follow_change; [done|done|apply rtc_once; by left|tauto].
  - apply follow_change; [done|done|apply rtc_once; right; by exists s|]. right. right.
    intros policy s0 E. exists s. unfold plane_of in *. cbn. by rewrite E.
  - apply follow_change; [done|done|apply rtc_refl|]. right. right. eauto.
  - destruct IH as [Hr0 Hm0 Hh Hf Hl Hmon He]. split; try done.
    + intros Hw. destruct (Hl Hw) as [_ Hx]. split; [by exists true|exact Hx].
    + intros Hw. by specialize (Hmon Hw).
Qed.
End following.

(** C18: A replica acts as leader exactly when it leads.  Take a replica in any
    run of the election, late callbacks and stops included, that handles the
    announcements of its module in order, each some time later, while its
    control plane is changed by whatever runs as long as it leads or has not
    yet handled that it no longer does.  Once it has handled all of them: if
    its module is the leader, its control plane stems from one reconstruction
    that started on an empty control plane, and its monitor runs; if the
    module is a follower or a candidate, its control plane is an empty one and
    there is no monitor. *)
Theorem leadership_followed {S P C} `{PersistenceLayer S} `{PlacementPolicy P} `{HAProxyClient C}
    cfg ok v serve ids c (st : CurrentState (CpApiServer S P C)) :
  replica_run cfg ok v serve ids c (announced (module_of st)) st ->
  modules c !! v = Some (module_of st) /\
  (cm_state (module_of st) = Leader -> cs_wasLeaderBefore st = true /\ leads_term cfg serve st) /\
  (cm_state (module_of st) = Follower \/ cm_state (module_of st) = Candidate ->
   cs_wasLeaderBefore st = false /\ is_idle st).
Proof.
  intros Hr. destruct (follow_run _ _ _ _ _ _ _ _ Hr) as [Hrun Hm _ Hf Hl Hmon He].
  destruct (raft_run_ann _ _ _ _ _ Hrun Hm) as (_&A2&A3). split; [done|]. split.
  - intros E. rewrite (A2 E) in Hf. auto.
  - intros E. rewrite (A3 E) in Hf. split; [done|]. split; [by apply Hmon|].
    apply (He Hf []); [by rewrite app_nil_r|constructor].
Qed.

(** ** Registration *)

(** The form a client sends for a service. *)
Definition protocol_name (p : L4Protocol) : string := match p with TCP => "tcp" | UDP => "udp" end.
Definition form_of (info : ServiceInfo) (sweep : bool) : Form :=
  list_to_map
    [("name"%string, [si_Name info]); ("image"%string, [si_Image info]);
     ("port_forwarding"%string, [Itoa (pm_GuestPort (si_PortForwarding info));
                                 protocol_name (pm_Protocol (si_PortForwarding info))]);
     ("requested_cpu"%string, [Itoa (si_RequestedCpu info)]);
     ("requested_memory"%string, [Itoa (si_RequestedMemory info)]);
     ("cold_start_sweep"%string, [if sweep then "true" else "false"]%string);
     ("scaling_upper_bound"%string, [Itoa (ScalingUpperBound (si_AutoscalingConfig info))]);
     ("scaling_lower_bound"%string, [Itoa (ScalingLowerBound (si_AutoscalingConfig info))])].

(** What can be said in a form: the rest of the configuration is the default
    one. *)
Definition registrable (info : ServiceInfo) (sweep : bool) : Prop :=
  let c := si_AutoscalingConfig info in
  si_Name info ≠ ""%string /\ si_Image info ≠ ""%string /\
  0 <= si_RequestedCpu info < 2 ^ 63 /\ 0 <= si_RequestedMemory info < 2 ^ 63 /\
  pm_HostPort (si_PortForwarding info) = 0 /\ 0 <= pm_GuestPort (si_PortForwarding info) < 2 ^ 31 /\
  0 <= ScalingUpperBound c < 2 ^ 31 /\ 0 <= ScalingLowerBound c < 2 ^ 31 /\
  c = with_lower (ScalingLowerBound c) (with_upper (ScalingUpperBound c) (NewDefaultAutoscalingMetadata sweep)).

Lemma number_Itoa z msg : 0 <= z < 2 ^ 63 -> number (Itoa z) msg = accept z.
Proof. intros Hz. unfold number. by rewrite Atoi_Itoa. Qed.
Lemma Itoa_nonempty z : 0 <= z -> Itoa z ≠ ""%string.
Proof. intros Hz. by destruct (Itoa_digits z Hz) as (_&?&_). Qed.

Lemma required_ok v msg : v ≠ ""%string -> required v msg = accept v.
Proof. intros. unfold required. by rewrite decide_False. Qed.
Lemma parse_form info sweep :
  registrable info sweep -> parse_service "POST" (Some (form_of info sweep)) = Ok (inr info).
Proof.
  intros (Hn&Hi&Hcpu&Hmem&Hhp&Hport&Hu&Hl&Hc).
  unfold parse_service. rewrite bool_decide_true by done. cbn [negb check_bind accept].
  change (FormValue (form_of info sweep) "name") with (si_Name info).
  change (FormValue (form_of info sweep) "image") with (si_Image info).
  rewrite required_ok by done. cbn [check_bind accept]. rewrite required_ok by done. cbn [check_bind accept].
  set (pf := [Itoa (pm_GuestPort (si_PortForwarding info));
              protocol_name (pm_Protocol (si_PortForwarding info))]).
  change (default [] (form_of info sweep !! "port_forwarding"%string)) with pf.
  rewrite decide_False by done. cbn [check_bind accept value_at go_index pf].
  change (value_at pf 0) with (accept (Itoa (pm_GuestPort (si_PortForwarding info)))).
  change (value_at pf 1) with (accept (protocol_name (pm_Protocol (si_PortForwarding info)))).
  cbn [check_bind accept]. rewrite number_Itoa by lia. cbn [check_bind accept].
  assert (Hp : protocol_of (protocol_name (pm_Protocol (si_PortForwarding info))) =
               accept (pm_Protocol (si_PortForwarding info)))
    by (by destruct (pm_Protocol (si_PortForwarding info))).
  rewrite Hp. cbn [check_bind accept].
  change (optional_number (form_of info sweep) "requested_cpu" 1 "Invalid CPU value")
    with (number (Itoa (si_RequestedCpu info)) "Invalid CPU value").
  change (optional_number (form_of info sweep) "requested_memory" 1 "Invalid memory value")
    with (number (Itoa (si_RequestedMemory info)) "Invalid memory value").
  rewrite !number_Itoa by lia. cbn [check_bind accept].
  assert (Hs : cold_start_sweep (form_of info sweep) = accept sweep) by (by destruct sweep).
  rewrite Hs. cbn [check_bind accept].
  unfold optional_bound.
  change (FormValue (form_of info sweep) "scaling_upper_bound")
    with (Itoa (ScalingUpperBound (si_AutoscalingConfig info))).
  change (FormValue (form_of info sweep) "scaling_lower_bound")
    with (Itoa (ScalingLowerBound (si_AutoscalingConfig info))).
  rewrite decide_False by (apply Itoa_nonempty; lia). rewrite !number_Itoa by lia. cbn [check_bind accept].
  rewrite decide_False by (apply Itoa_nonempty; lia). cbn [check_bind accept].
  rewrite !i32_id, !u64_id by (unfold is_i32, is_u64; lia). rewrite <- Hc.
  destruct info as [n i cpu mem [hp gp pr] c]. simpl in *. by subst hp.
Qed.

(** C23: What a client asks for is what is registered.  For every service that a
    form can describe, the handler reads from its form exactly that service:
    name, image, port and protocol, resources and scaling bounds. *)
Theorem registration_form_roundtrip info sweep :
  registrable info sweep -> parse_service "POST" (Some (form_of info sweep)) = Ok (inr info).
Proof. apply parse_form. Qed.

(** A registration that fails with an error on the leader, for instance because
    the node that was to prepare the image is lost, is answered 200 with an
    empty body: the client takes the service for registered. *)
Theorem registration_error_answered_ok {S P C} `{PersistenceLayer S} `{PlacementPolicy P} `{HAProxyClient C}
    cfg env (c c' : gmap Z (CpApiServer S P C)) i r info sweep status e fuel :
  registrable info sweep -> c !! i = Some r -> is_leader r = true ->
  leader_handle cfg env i (ARegisterService info) c = Ok (RStatus (status, Some e), c') ->
  registrationHandler cfg env (Datatypes.S fuel) i "POST" (Some (form_of info sweep)) c = Ok (silent_reply, c').
Proof.
  intros Hi Hr Hl Hh. unfold registrationHandler.
  erewrite gom_bind_run; [|unfold go_lift; by rewrite (parse_form info sweep)].
  cbn beta iota. erewrite gom_bind_run; [|by apply on_replica_get]. rewrite Hl.
  cbn [leader_handle] in Hh. apply gom_bind_ok in Hh as (x&c1&H1'&[= <- Hx <-]).
  cbn [cpi_server sv_RegisterService]. unfold api_RegisterService.
  erewrite gom_bind_run.
  2: { rewrite (unless_leader_serves _ _ _ r) by done. by erewrite gom_bind_run; [|exact H1']. }
  by rewrite Hx.
Qed.

(** A port without a protocol stops the handler. *)
Lemma one_valued_port_panics f port n :
  FormValue f "name" ≠ ""%string -> FormValue f "image" ≠ ""%string ->
  f !! "port_forwarding"%string = Some [port] -> Atoi port = Some n ->
  parse_service "POST" (Some f) = Panic.
Proof.
  intros Hn Hi Hp Ha. unfold parse_service. rewrite bool_decide_true by done. cbn [negb check_bind accept].
  rewrite required_ok by done. cbn [check_bind accept]. rewrite required_ok by done.
  cbn [check_bind accept]. rewrite Hp. cbn [default from_option id]. rewrite decide_False by done.
  change (value_at [port] 0) with (accept port). cbn [check_bind accept]. unfold number. rewrite Ha.
  done.
Qed.

(** ** Examples *)

Import LbExample.
Module ApiExample.
Definition member (cm : ConsensusModule) (clients : gmap Z Z) : CpApiServer EmptyPersistence Random Ex :=
  mkCpApiServer (mkLeaderElectionServer cm clients) (ex_cp 1 zero_time) (start 0)
    (NewColdStartTracingService "cold_start.csv") ∅.
Definition pair_cluster : gmap Z (CpApiServer EmptyPersistence Random Ex) :=
  <[0 := member (set_leaderID 1 (NewConsensusModule 0 [1])) {[1 := 1]}]>
    {[1 := member (set_state Leader (NewConsensusModule 1 [0])) {[0 := 0]}]}.
Definition env : api_env := mkApiEnv ex_env map_to_list (fun _ _ => None) 10 (fun _ => draws)
  (mkFsEnv false None None None None None).
(** Replica 0 before the election, as the winner of [election_run], and after
    it has handled its announcement. *)
Definition newcomer : CpApiServer EmptyPersistence Random Ex :=
  mkCpApiServer (mkLeaderElectionServer (NewConsensusModule 0 (peers_of three 0)) {[1 := 1; 2 := 2]})
    (NewControlPlane (tt : Random) (tt : EmptyPersistence)) (start 0)
    (NewColdStartTracingService "cold_start.csv") ∅.
Definition winner (c : cluster) : CurrentState (CpApiServer EmptyPersistence Random Ex) :=
  with_api (set_cm (default (NewConsensusModule 0 []) (modules c !! 0))) (NewElectionState newcomer).
Definition promoted (c : cluster) : outcome (unit * CurrentState (CpApiServer EmptyPersistence Random Ex)) :=
  UpdateLeadership ex_cfg env (fun l => l) (fun l => l) (mkAnnounceLeadership true 1) (winner c).
End ApiExample.


Lemma registration_form_roundtrip_witness :
  parse_service "POST" (Some (form_of ex_service false)) = Ok (inr ex_service).
Proof.
  apply (registration_form_roundtrip ex_service false).
  repeat split; try discriminate; try reflexivity; vm_compute; discriminate.
Defined.

Lemma leadership_followed_witness :
  exists c st, raft_exec election_run (new_cluster three) = Some c /\
    ApiExample.promoted c = Ok (tt, st) /\ cs_wasLeaderBefore st = true /\
    leads_term ex_cfg (fun _ _ => False) st.
Proof.
  assert (Hv : (c ← raft_exec election_run (new_cluster three); cm ← modules c !! 0;
                match ApiExample.promoted c with
                | Ok (_, st) => Some (announced cm, announced (module_of st), cm_state (module_of st))
                | _ => None
                end) = Some ([mkAnnounceLeadership true 1], [mkAnnounceLeadership true 1], Leader))
    by (vm_compute; reflexivity).
  destruct (raft_exec election_run (new_cluster three)) as [c|] eqn:He; [|discriminate Hv].
  cbn [mbind option_bind] in Hv.
  destruct (modules c !! 0) as [cm|] eqn:Hcm; [|discriminate Hv]. cbn [mbind option_bind] in Hv.
  destruct (ApiExample.promoted c) as [[[] st]| | |] eqn:Hp; try discriminate Hv.
  injection Hv as Ha Ha' Hl. exists c, st. split; [reflexivity|]. split; [exact Hp|].
  apply (leadership_followed ex_cfg timely 0 (fun _ _ => False) three c st); [|exact Hl].
  rewrite Ha'. apply (rr_announcement ex_cfg timely 0 _ three c [] (mkAnnounceLeadership true 1) []
    (ApiExample.winner c) ApiExample.env (fun l => l) (fun l => l)); [| |exact Hp].
  - unfold ApiExample.winner. rewrite Hcm. apply (rr_election ex_cfg timely 0 _ three (new_cluster three)).
    + eapply rr_start; [vm_compute; reflexivity|reflexivity|reflexivity].
    + apply (raft_exec_run timely election_run (new_cluster three)); [constructor|reflexivity|exact He].
    + exact Hcm.
  - unfold ApiExample.winner. rewrite Hcm. exact Ha.
Defined.
