(* ===== verification/WorkerManagers.v ===== *)
(** * The managers of a worker node

    [internal/worker_node/managers]: the lock-free counters that hand out
    addresses and interface names, the host ports, the table of sandboxes, the
    monitor of processes, and the readiness probe with its exponential
    back-off. *)
From Stdlib Require Import ZArith Lia Ascii.
From Stdlib Require Import Floats.SpecFloat.
From stdpp Require Import base tactics list gmap strings sets numbers pretty.
From S2P Require Import Prelude Sync Float64 Core Net.

Local Open Scope Z_scope.

(** ** Lock-free counters

    Both counters are advanced by a loop: load the value, compute the next one,
    compare and swap, start again when another goroutine was faster.  A loop in
    progress is a thread; [next] gives the new value, or ends the process. *)
Section cas_counter.
Context (next : Z -> outcome Z).

Inductive cas_pc : Type :=
| CasLoad
| CasSwap (old new : Z)
| CasDone (result : Z).

(** [cas_results] lists the results in the order of the successful swaps. *)
Record cas_state : Type := mkCas {
  cas_counter : Z;
  cas_threads : list cas_pc;
  cas_results : list Z;
}.

Definition cas_step (i : nat) (s : cas_state) : outcome cas_state :=
  match cas_threads s !! i with
  | Some CasLoad =>
      new ← next (cas_counter s);
      Ok (mkCas (cas_counter s) (<[i := CasSwap (cas_counter s) new]> (cas_threads s)) (cas_results s))
  | Some (CasSwap old new) =>
      if decide (cas_counter s = old)
      then Ok (mkCas new (<[i := CasDone old]> (cas_threads s)) (cas_results s ++ [old]))
      else Ok (mkCas (cas_counter s) (<[i := CasLoad]> (cas_threads s)) (cas_results s))
  | _ => Ok s
  end.

(** The goroutines take steps in the order [sched]. *)
Fixpoint cas_run (sched : list nat) (s : cas_state) : outcome cas_state :=
  match sched with
  | [] => Ok s
  | i :: sched' => s' ← cas_step i s; cas_run sched' s'
  end.
Definition cas_start (c : Z) (k : nat) : cas_state := mkCas c (replicate k CasLoad) [].

(** A call that is not disturbed. *)
Definition cas_call : GoM Z Z := fun c => new ← next c; Ok (c, new).
Fixpoint cas_calls (n : nat) : GoM Z (list Z) :=
  match n with
  | O => mret []
  | S n' => l ← cas_calls n'; v ← cas_call; mret (l ++ [v])
  end.
End cas_counter.

(** ** Addresses *)

Record IPManager : Type := mkIPManager {
  ipm_networkPrefix : string;
  ipm_allocationCounter : Z;
}.
Definition NewIPManager (networkPrefix : string) : IPManager := mkIPManager networkPrefix 0.

Definition ip_next (oldValue : Z) : outcome Z :=
  if decide (65536 <= oldValue) then Fatal else Ok (u32 (oldValue + 1)).
Definition getUniqueCounterValue : GoM IPManager Z :=
  zoom ipm_allocationCounter (fun c ipm => mkIPManager (ipm_networkPrefix ipm) c) (cas_call ip_next).

Definition extractThirdField (counterValue : Z) : Z := counterValue / 256.
Definition extractFourthField (counterValue : Z) : Z := counterValue mod 256.

Definition generateRawGatewayIP : GoM IPManager (Z * Z) :=
  val ← getUniqueCounterValue;
  let thirdField := extractThirdField val in
  let fourthField := extractFourthField val in
  if decide (255 < thirdField \/ 255 < fourthField) then mret (256, 256)
  else mret (thirdField, fourthField).

(** The loop of [GenerateSingleIP] skips the fourth fields 0 and 255. *)
Fixpoint single_ip_loop (fuel : nat) : GoM IPManager (Z * Z) :=
  match fuel with
  | O => go_block
  | S fuel' =>
      r ← generateRawGatewayIP;
      let '(c, d) := (r : Z * Z) in
      if decide (d = 0 \/ d = 255) then single_ip_loop fuel' else mret (c, d)
  end.
Definition dotted (c d : Z) : string := (Itoa c +:+ "." +:+ Itoa d)%string.
Definition GenerateSingleIP : GoM IPManager string :=
  r ← single_ip_loop 3;
  let '(c, d) := (r : Z * Z) in
  ipm ← go_get;
  mret (ipm_networkPrefix ipm +:+ "." +:+ dotted c d)%string.
Definition GenerateIPMACPair : GoM IPManager (string * string) :=
  r ← generateRawGatewayIP;
  let '(c, d) := (r : Z * Z) in
  ipm ← go_get;
  mret ((ipm_networkPrefix ipm +:+ "." +:+ dotted c d +:+ ".1")%string,
        (ipm_networkPrefix ipm +:+ "." +:+ dotted c d +:+ ".2")%string).

(** ** Names of interfaces: the counter advances by two *)

Definition veth_next (oldValue : Z) : outcome Z := Ok (i32 (oldValue + 2)).
Definition NewVETHNameGenerator : Z := 0.
Definition VETH_Generate : GoM Z Z := cas_call veth_next.

(** ** Host ports

    [portsInUse] is shared by all sandboxes of the process; [draw k] is the
    [k]-th random number.  The loop holds the mutex until it finds a free port:
    at most [fuel] draws here. *)
Fixpoint assign_loop (fuel : nat) (draw : nat -> Z) : GoM (gset Z) Z :=
  match fuel with
  | O => go_block
  | S fuel' =>
      n ← go_lift (Intn (draw O) 64000);
      inUse ← go_get;
      if decide (1024 + n ∈ inUse) then assign_loop fuel' (fun k => draw (S k))
      else go_put ({[1024 + n]} ∪ inUse) ;; mret (1024 + n)
  end.
Definition AssignRandomPort := assign_loop.
Definition UnassignPort (port : Z) : GoM (gset Z) unit := go_modify (fun inUse => inUse ∖ {[port]}).
Definition validatePort (port : Z) : bool := negb (bool_decide (port <= 0 \/ 65536 <= port)).
Definition l4ProtocolToString (protocol : L4Protocol) : string :=
  match protocol with UDP => "udp" | TCP => "tcp" end.

(** ** The table of sandboxes *)

Record Metadata (R : Type) : Type := mkMetadata {
  md_ServiceName : string;
  md_RuntimeMetadata : R;
  md_HostPort : Z;
  md_IP : string;
  md_GuestPort : Z;
  md_NetNs : string;
  md_ExitStatusChannel : nat;
}.
Arguments mkMetadata {R} _ _ _ _ _ _ _.
Arguments md_ServiceName {R} _.
Arguments md_RuntimeMetadata {R} _.
Arguments md_HostPort {R} _.
Arguments md_IP {R} _.
Arguments md_GuestPort {R} _.
Arguments md_NetNs {R} _.
Arguments md_ExitStatusChannel {R} _.

Record SandboxManager (R : Type) : Type := mkSandboxManager {
  sm_Metadata : gmap string (Metadata R);
  sm_nodeName : string;
}.
Arguments mkSandboxManager {R} _ _.
Arguments sm_Metadata {R} _.
Arguments sm_nodeName {R} _.

Section sandboxes.
Context {R : Type}.
Definition NewSandboxManager (nodeName : string) : SandboxManager R := mkSandboxManager ∅ nodeName.
Definition AddSandbox (key : string) (metadata : Metadata R) : GoM (SandboxManager R) unit :=
  go_modify (fun m => mkSandboxManager (AM_Set key metadata (sm_Metadata m)) (sm_nodeName m)).
Definition SM_DeleteSandbox (key : string) : GoM (SandboxManager R) (option (Metadata R)) :=
  m ← go_get;
  match AM_Get (sm_Metadata m) key with
  | None => mret None
  | Some res =>
      go_put (mkSandboxManager (AM_RemoveKey key (sm_Metadata m)) (sm_nodeName m)) ;;
      mret (Some res)
  end.
Definition endpoint_of (nodeName key : string) (v : Metadata R) : proto_Endpoint :=
  mkProtoEndpoint key (md_IP v) nodeName (md_ServiceName v) (i32 (md_HostPort v)).
Definition SM_ListEndpoints (ord : range_order string (Metadata R)) (m : SandboxManager R)
  : list proto_Endpoint :=
  let '(keys, values) := AM_KeyValues ord (sm_Metadata m) in
  zip_with (endpoint_of (sm_nodeName m)) keys values.
End sandboxes.

(** ** Exits of sandboxes

    The process monitor sends the exit code of a process on the channel that is
    registered for its PID; a goroutine per sandbox, [WatchExitChannel],
    receives one value from it and reports a failure to the control plane.  The
    channels are unbuffered: a send waits for its receiver, and when the
    receiver has returned it waits for ever. *)
Record ProcessMonitor : Type := mkProcessMonitor {
  pm_NotifyChannels : gmap Z nat;
  pm_lock : rw_state;
}.
Inductive pcn_event : Type :=
| PcnExit (pid exitCode : Z)
| PcnOther (pid : Z).
Definition event_Pid (e : pcn_event) : Z := match e with PcnExit p _ | PcnOther p => p end.
Definition extractExitCode (e : pcn_event) : Z :=
  match e with PcnExit _ code => u32 (code + 128) | PcnOther _ => 255 end.

(** The goroutines that still wait, by channel, with the name of their service
    and of their sandbox; the failures reported so far. *)
Record exit_state : Type := mkExitState {
  es_monitor : ProcessMonitor;
  es_watchers : gmap nat (string * string);
  es_channels : nat;            (* channels made so far *)
  es_reports : list Failure;
}.
Definition PCNStartupTries : nat := 10.
(** [dial i] is the error of the [i]-th attempt to connect to the kernel. *)
Definition NewProcessMonitor (dial : nat -> go_error) : outcome ProcessMonitor :=
  if existsb (fun i => bool_decide (dial i = None)) (seq 1 PCNStartupTries)
  then Ok (mkProcessMonitor ∅ Unlocked) else Fatal.
Definition new_exit_state (pm : ProcessMonitor) : exit_state := mkExitState pm ∅ O [].

Definition on_monitor_lock (m : GoM rw_state unit) : GoM exit_state unit :=
  zoom (fun s => pm_lock (es_monitor s))
    (fun l s => mkExitState (mkProcessMonitor (pm_NotifyChannels (es_monitor s)) l) (es_watchers s)
                  (es_channels s) (es_reports s)) m.
Definition on_notify (f : gmap Z nat -> gmap Z nat) : GoM exit_state unit :=
  go_modify (fun s => mkExitState (mkProcessMonitor (f (pm_NotifyChannels (es_monitor s))) (pm_lock (es_monitor s)))
                        (es_watchers s) (es_channels s) (es_reports s)).
Definition AddChannel (PID : Z) (notifyChannel : nat) : GoM exit_state unit :=
  on_monitor_lock rw_Lock ;; on_notify (insert PID notifyChannel) ;; on_monitor_lock rw_Unlock.
Definition RemoveChannel (PID : Z) : GoM exit_state unit :=
  on_monitor_lock rw_Lock ;; on_notify (delete PID) ;; on_monitor_lock rw_Unlock.
Definition make_channel : GoM exit_state nat := fun s =>
  Ok (es_channels s, mkExitState (es_monitor s) (es_watchers s) (S (es_channels s)) (es_reports s)).
(** [go WatchExitChannel(...)]: the goroutine waits on its channel. *)
Definition watch (ch : nat) (service sandbox : string) : GoM exit_state unit :=
  go_modify (fun s => mkExitState (es_monitor s) (<[ch := (service, sandbox)]> (es_watchers s))
                        (es_channels s) (es_reports s)).

Definition SIGKILL : Z := 137.
(** What [WatchExitChannel] does with the code it receives. *)
Definition WatchExitChannel (exitCode : Z) (service sandbox : string) : list Failure :=
  if decide (exitCode = SIGKILL) then [] else [mkFailure SANDBOX_FAILURE service [sandbox]].

Definition deliver (event : pcn_event) : GoM exit_state unit := fun s =>
  match pm_NotifyChannels (es_monitor s) !! event_Pid event with
  | None => Ok (tt, s)
  | Some ch =>
      match es_watchers s !! ch with
      | None => Blocked
      | Some (service, sandbox) =>
          Ok (tt, mkExitState (es_monitor s) (delete ch (es_watchers s)) (es_channels s)
                    (es_reports s ++ WatchExitChannel (extractExitCode event) service sandbox))
      end
  end.
(** One round of [internalEventHandler]. *)
Definition internalEventHandler (events : list pcn_event) : GoM exit_state unit :=
  if decide (events = []) then mret tt
  else on_monitor_lock rw_RLock ;; go_for events deliver ;; on_monitor_lock rw_RUnlock.

(** ** Readiness *)

(** [math.Pow] for a finite positive base and an integral exponent that is not
    negative, the only ones that occur; a fractional exponent goes through
    [Exp] and [Log] and is not modelled (the result here is not a number). *)
Definition f64_half : float64 := f64_div (f64_of_Z 1) (f64_of_Z 2).
Fixpoint pow_loop (fuel : nat) (i : Z) (x1 : float64) (xe : Z) (a1 : float64) (ae : Z) : float64 * Z :=
  match fuel with
  | O => (a1, ae)
  | S fuel' =>
      if decide (i = 0) then (a1, ae)
      else if decide (xe < - 4096 \/ 4096 < xe) then (a1, ae + xe)
      else
        let '(a1', ae') := if decide (i mod 2 = 1) then (f64_mul a1 x1, ae + xe) else (a1, ae) in
        let x1' := f64_mul x1 x1 in
        if f64_ltb x1' f64_half
        then pow_loop fuel' (i / 2) (f64_add x1' x1') (2 * xe - 1) a1' ae'
        else pow_loop fuel' (i / 2) x1' (2 * xe) a1' ae'
  end.
Definition Pow (x y : float64) : float64 :=
  if f64_is_zero y || f64_eqb x (f64_of_Z 1) then f64_of_Z 1
  else if f64_eqb y (f64_of_Z 1) then x
  else match f64_trunc_Z y with
       | Some i =>
           if f64_eqb (f64_of_Z i) y && bool_decide (0 <= i) then
             let '(x1, xe) := SFfrexp f64_prec f64_emax x in
             let '(a1, ae) := pow_loop 64 i x1 xe (f64_of_Z 1) 0 in
             SFldexp f64_prec f64_emax a1 ae
           else S754_nan
       | None => S754_nan
       end.

Record ExponentialBackoff : Type := mkExponentialBackoff {
  eb_Interval : float64;
  eb_ExponentialRate : float64;
  eb_RetryNumber : float64;
  eb_MaxDifference : float64;
}.
Definition eb_calculate (eb : ExponentialBackoff) (retry : float64) : float64 :=
  f64_mul (eb_Interval eb) (Pow (eb_ExponentialRate eb) retry).
Definition eb_retried (eb : ExponentialBackoff) : ExponentialBackoff :=
  mkExponentialBackoff (eb_Interval eb) (eb_ExponentialRate eb)
    (f64_add (eb_RetryNumber eb) (f64_of_Z 1)) (eb_MaxDifference eb).
Definition Next : GoM ExponentialBackoff float64 := fun eb =>
  if f64_is_zero (eb_RetryNumber eb) then Ok (eb_calculate eb (f64_of_Z 0), eb_retried eb)
  else
    let oldValue := eb_calculate eb (eb_RetryNumber eb) in
    let newValue := eb_calculate eb (f64_add (eb_RetryNumber eb) (f64_of_Z 1)) in
    Ok (if f64_ltb (eb_MaxDifference eb) (f64_abs (f64_sub newValue oldValue))
        then f64_of_Z (-1) else newValue, eb_retried eb).

(** [SendReadinessProbe]: [healthy k] is whether the [k]-th request is answered
    200.  Returns whether the probe passed, the number of requests and the
    milliseconds slept; [oob] is the value of a conversion out of range. *)
Section probe.
Context (oob : Z) (healthy : nat -> bool).
Fixpoint probe_loop (fuel : nat) (k : nat) (slept : Z) (eb : ExponentialBackoff) : outcome (bool * nat * Z) :=
  match fuel with
  | O => Blocked
  | S fuel' =>
      if healthy k then Ok (true, S k, slept)
      else
        r ← Next eb;
        let '(toSleep, eb') := (r : float64 * ExponentialBackoff) in
        if f64_ltb toSleep (f64_of_Z 0) then Ok (false, S k, slept)
        else probe_loop fuel' (S k) (slept + f64_to_int oob (f64_mul toSleep (f64_of_Z 1000))) eb'
  end.
Definition probe_backoff : ExponentialBackoff :=
  mkExponentialBackoff (f64_div (f64_of_Z 1) (f64_of_Z 100)) (f64_div (f64_of_Z 135) (f64_of_Z 100))
    (f64_of_Z 0) (f64_of_Z 2).
Definition SendReadinessProbe (fuel : nat) : outcome (bool * nat * Z) := probe_loop fuel 0 0 probe_backoff.
End probe.

(** ** Counters: every interleaving is a sequence of undisturbed calls *)

Definition cas_result (t : cas_pc) : option Z := match t with CasDone v => Some v | _ => None end.

Lemma omap_insert_none {A B} (f : A -> option B) (l : list A) i x y :
  l !! i = Some x -> f x = None -> omap f (<[i := y]> l) ≡ₚ option_list (f y) ++ omap f l.
Proof.
  intros Hl Hx. rewrite insert_take_drop by (by eapply lookup_lt_Some).
  rewrite <- (take_drop_middle l i x Hl) at 3. rewrite !omap_app. cbn [omap list_omap].
  rewrite Hx. destruct (f y) as [b|]; simpl; [|done]. by rewrite Permutation_middle.
Qed.

Section cas_lemmas.
Context (next : Z -> outcome Z) (c0 : Z).

Record cas_inv (s : cas_state) : Prop := {
  inv_calls : cas_calls next (length (cas_results s)) c0 = Ok (cas_results s, cas_counter s);
  inv_swaps : forall i old new, cas_threads s !! i = Some (CasSwap old new) -> next old = Ok new;
  inv_done : omap cas_result (cas_threads s) ≡ₚ cas_results s;
}.

Lemma cas_start_inv k : cas_inv (cas_start c0 k).
Proof.
  split; simpl; [done| |].
  - intros i old new H. apply lookup_replicate in H as [? _]. done.
  - by induction k.
Qed.

Lemma cas_step_inv i s s' : cas_inv s -> cas_step next i s = Ok s' -> cas_inv s'.
Proof.
  intros [Hc Hs Hd]. unfold cas_step. destruct (cas_threads s !! i) as [[|old new|v]|] eqn:Ht.
  - destruct (next (cas_counter s)) as [new| | |] eqn:Hn; try done. intros [= <-]. split; simpl; [done| |].
    + intros j o n. rewrite list_lookup_insert. case_decide as Hij; [|apply Hs].
      intros [= <- <-]. done.
    + by rewrite (omap_insert_none cas_result _ i CasLoad).
  - case_decide as Hold; intros [= <-]; split; simpl.
    + rewrite length_app, Nat.add_comm. cbn [length Nat.add cas_calls].
      erewrite gom_bind_run; [|exact Hc]. unfold cas_call, mbind, gom_bind, outcome_bind.
      rewrite Hold, (Hs i old new Ht). done.
    + intros j o n. rewrite list_lookup_insert. case_decide; [done|apply Hs].
    + rewrite (omap_insert_none cas_result _ i (CasSwap old new)) by done. simpl.
      rewrite Hd. apply Permutation_cons_append.
    + done.
    + intros j o n. rewrite list_lookup_insert. case_decide; [done|apply Hs].
    + by rewrite (omap_insert_none cas_result _ i (CasSwap old new)).
  - by intros [= <-].
  - by intros [= <-].
Qed.

Lemma cas_run_inv sched s s' : cas_inv s -> cas_run next sched s = Ok s' -> cas_inv s'.
Proof.
  revert s. induction sched as [|i sched IH]; intros s Hs; simpl; [by intros [= <-]|].
  destruct (cas_step next i s) as [s1| | |] eqn:E; try done. apply IH. by eapply cas_step_inv.
Qed.
End cas_lemmas.

Lemma ip_calls n : Z.of_nat n <= 65536 -> cas_calls ip_next n 0 = Ok (seqZ 0 (Z.of_nat n), Z.of_nat n).
Proof.
  induction n as [|n IH]; intros Hn; [done|]. cbn [cas_calls]. erewrite gom_bind_run; [|apply IH; lia].
  unfold cas_call, ip_next, mbind, gom_bind, outcome_bind. rewrite decide_False by lia.
  unfold mret, gom_ret. rewrite u32_id by (unfold is_u32; lia).
  rewrite Nat2Z.inj_succ. rewrite <- Z.add_1_r, seqZ_app by lia. done.
Qed.
Lemma ip_calls_fatal n : 65536 < Z.of_nat n -> cas_calls ip_next n 0 = Fatal.
Proof.
  intros Hn. induction n as [|n IH]; [lia|]. cbn [cas_calls]. unfold mbind at 1, gom_bind.
  destruct (decide (Z.of_nat n = 65536)) as [Hz|].
  - rewrite ip_calls by lia. unfold cas_call, ip_next, mbind, gom_bind, outcome_bind.
    by rewrite decide_True by lia.
  - by rewrite IH by lia.
Qed.

Lemma extract_fields v : 0 <= v < 65536 ->
  0 <= extractThirdField v <= 255 /\ 0 <= extractFourthField v <= 255 /\
  v = 256 * extractThirdField v + extractFourthField v.
Proof.
  intros Hv. unfold extractThirdField, extractFourthField.
  pose proof (Z.div_mod v 256 ltac:(lia)). pose proof (Z.mod_pos_bound v 256 ltac:(lia)).
  assert (v / 256 < 256) by (apply Z.div_lt_upper_bound; lia).
  assert (0 <= v / 256) by (apply Z.div_pos; lia). lia.
Qed.

(** C22: Concurrent allocations never collide.  Let any number of goroutines
    allocate addresses at the same time, their loads and compare-and-swaps
    interleaved in any order: the values returned are those of as many
    undisturbed calls one after the other, namely 0, 1, 2, ..., each exactly
    once.  Each value gives two fields of an address, both at most 255, and
    different values give different fields. *)
Theorem allocation_linearizable prefix k sched s :
  cas_run ip_next sched (cas_start 0 k) = Ok s ->
  exists n : nat,
    Z.of_nat n <= 65536 /\ cas_results s = seqZ 0 (Z.of_nat n) /\
    omap cas_result (cas_threads s) ≡ₚ seqZ 0 (Z.of_nat n) /\
    (forall v ipm, v ∈ cas_results s -> ipm = mkIPManager prefix v ->
       exists c d, generateRawGatewayIP ipm = Ok ((c, d), mkIPManager prefix (v + 1)) /\
         0 <= c <= 255 /\ 0 <= d <= 255 /\ v = 256 * c + d).
Proof.
  intros Hr. destruct (cas_run_inv ip_next 0 sched _ s (cas_start_inv ip_next 0 k) Hr) as [Hc _ Hd].
  exists (length (cas_results s)).
  assert (Hn : Z.of_nat (length (cas_results s)) <= 65536).
  { destruct (decide (Z.of_nat (length (cas_results s)) <= 65536)) as [|Hgt]; [done|].
    rewrite ip_calls_fatal in Hc by lia. done. }
  rewrite ip_calls in Hc by done. injection Hc as Hres Hcnt. rewrite <- Hres in Hd |- *.
  rewrite length_seqZ. split; [lia|]. rewrite !Nat2Z.id. split; [done|]. split; [done|].
  intros v ipm Hv ->. apply elem_of_seqZ in Hv.
  destruct (extract_fields v) as (H3&H4&Hv'); [lia|].
  exists (extractThirdField v), (extractFourthField v). split; [|done].
  unfold generateRawGatewayIP, getUniqueCounterValue, zoom, cas_call, ip_next, mbind, gom_bind, outcome_bind.
  cbn [ipm_allocationCounter]. rewrite decide_False by lia. rewrite u32_id by (unfold is_u32; lia).
  rewrite decide_False by lia. done.
Qed.

Lemma allocation_linearizable_witness :
  exists s, cas_run ip_next [0; 1; 1; 2; 0; 2; 0; 0]%nat (cas_start 0 3) = Ok s /\
    omap cas_result (cas_threads s) ≡ₚ [0; 1; 2].
Proof.
  destruct (cas_run ip_next [0; 1; 1; 2; 0; 2; 0; 0]%nat (cas_start 0 3)) as [s| | |] eqn:E;
    [|vm_compute in E; discriminate E..].
  exists s. split; [reflexivity|].
  destruct (allocation_linearizable "10" 3 [0; 1; 1; 2; 0; 2; 0; 0]%nat s E) as (n&_&Hres&H&_).
  assert (Hlen : length (cas_results s) = 3%nat) by (vm_compute in E; injection E as <-; reflexivity).
  assert (Hn : n = 3%nat) by (rewrite Hres, length_seqZ in Hlen; lia).
  rewrite Hn in H. exact H.
Defined.

(** ** Addresses as text *)

Lemma split_first_digits s t : all_digits s -> split_first "."%char (s +:+ String "."%char t) = Some (s, t).
Proof.
  induction s as [|c s IH]; intros Hs; simpl; [done|]. destruct Hs as [Hc Hs].
  rewrite decide_False by (intros ->; rewrite !elem_of_cons, elem_of_nil in Hc; by destruct_or!).
  by rewrite IH.
Qed.
Lemma Itoa_inj a b : 0 <= a -> 0 <= b -> Itoa a = Itoa b -> a = b.
Proof.
  intros Ha Hb H. destruct (Itoa_digits a Ha) as (_&_&Va). destruct (Itoa_digits b Hb) as (_&_&Vb).
  rewrite H, Vb in Va. by injection Va.
Qed.
Lemma dotted_inj c d c' d' :
  0 <= c -> 0 <= d -> 0 <= c' -> 0 <= d' -> dotted c d = dotted c' d' -> c = c' /\ d = d'.
Proof.
  intros Hc Hd Hc' Hd' H. apply (f_equal (split_first "."%char)) in H.
  change (dotted c d) with (Itoa c +:+ String "."%char (Itoa d))%string in H.
  change (dotted c' d') with (Itoa c' +:+ String "."%char (Itoa d'))%string in H.
  rewrite !split_first_digits in H by (by apply Itoa_digits). injection H as H1 H2.
  split; by apply Itoa_inj.
Qed.

(** The address with counter value [v]. *)
Definition ip_text (prefix : string) (v : Z) : string :=
  (prefix +:+ "." +:+ dotted (extractThirdField v) (extractFourthField v))%string.
Lemma ip_text_inj prefix v w :
  0 <= v < 65536 -> 0 <= w < 65536 -> ip_text prefix v = ip_text prefix w -> v = w.
Proof.
  intros Hv Hw H. apply string_app_inj_l in H. apply (string_app_inj_l ".") in H.
  destruct (extract_fields v Hv) as (?&?&?), (extract_fields w Hw) as (?&?&?).
  apply dotted_inj in H as [Hthird Hfourth]; lia.
Qed.

Lemma generateRaw_run ipm :
  0 <= ipm_allocationCounter ipm ->
  generateRawGatewayIP ipm =
  if decide (65536 <= ipm_allocationCounter ipm) then Fatal
  else Ok ((extractThirdField (ipm_allocationCounter ipm), extractFourthField (ipm_allocationCounter ipm)),
           mkIPManager (ipm_networkPrefix ipm) (ipm_allocationCounter ipm + 1)).
Proof.
  destruct ipm as [p v]. cbn [ipm_allocationCounter ipm_networkPrefix]. intros Hv.
  unfold generateRawGatewayIP, getUniqueCounterValue, zoom, cas_call, ip_next, mbind, gom_bind, outcome_bind.
  cbn [ipm_allocationCounter ipm_networkPrefix]. case_decide; [done|].
  destruct (extract_fields v) as (?&?&?); [lia|].
  rewrite u32_id by (unfold is_u32; lia). by rewrite decide_False by lia.
Qed.

(** One allocation of an exposed address: it is a new one, or there is none
    left and the process ends; three turns of the loop are enough. *)
Lemma GenerateSingleIP_run ipm :
  0 <= ipm_allocationCounter ipm ->
  GenerateSingleIP ipm = Fatal \/
  exists v, ipm_allocationCounter ipm <= v < 65536 /\ 0 < extractFourthField v < 255 /\
    GenerateSingleIP ipm = Ok (ip_text (ipm_networkPrefix ipm) v, mkIPManager (ipm_networkPrefix ipm) (v + 1)).
Proof.
  intros Hv. unfold GenerateSingleIP, mbind, gom_bind.
  assert (Hloop : forall fuel p v, 0 <= v ->
    (fuel = 3%nat \/ (fuel = 2%nat /\ extractFourthField v ≠ 255) \/
     (fuel = 1%nat /\ extractFourthField v ≠ 255 /\ extractFourthField v ≠ 0)) ->
    single_ip_loop fuel (mkIPManager p v) = Fatal \/
    exists w, v <= w < 65536 /\ 0 < extractFourthField w < 255 /\
      single_ip_loop fuel (mkIPManager p v) =
      Ok ((extractThirdField w, extractFourthField w), mkIPManager p (w + 1))).
  { intros fuel p. induction fuel as [|fuel IH]; intros v Hv' Hf; [lia|]. cbn [single_ip_loop].
    unfold mbind, gom_bind. rewrite generateRaw_run by done. cbn [ipm_allocationCounter ipm_networkPrefix].
    case_decide; [by left|]. destruct (extract_fields v) as (?&?&?); [lia|].
    case_decide as Hd; [|right; exists v; split; [lia|]; split; [lia|done]].
    destruct (decide (v + 1 < 65536)) as [Hlt|].
    - destruct (extract_fields (v + 1)) as (?&?&?); [lia|].
      destruct (IH (v + 1)) as [->|(w&Hw&Hd'&->)]; [lia| |by left|].
      + destruct Hf as [Hf|[Hf|Hf]]; [right|right; right|]; lia.
      + right. exists w. split; [lia|done].
    - left. destruct fuel as [|fuel]; [lia|]. cbn [single_ip_loop]. unfold mbind, gom_bind.
      rewrite generateRaw_run by (simpl; lia). cbn [ipm_allocationCounter]. by rewrite decide_True by lia. }
  destruct ipm as [p v]. cbn [ipm_allocationCounter ipm_networkPrefix] in *.
  destruct (Hloop 3%nat p v Hv) as [->|(w&Hw&Hd&->)]; [by left|by left|]. right. exists w. done.
Qed.

(** ** Ports *)

Lemma assign_loop_ok fuel draw inUse port inUse' :
  assign_loop fuel draw inUse = Ok (port, inUse') ->
  1024 <= port < 65024 /\ (port ∉ inUse) /\ inUse' = {[port]} ∪ inUse.
Proof.
  revert draw inUse. induction fuel as [|fuel IH]; intros draw inUse H; [done|]. cbn [assign_loop] in H.
  apply gom_bind_ok in H as (n&s1&H1&H). unfold go_lift in H1.
  destruct (Intn (draw O) 64000) as [v| | |] eqn:Hi; try done. injection H1 as <- <-. apply Intn_range in Hi.
  apply gom_bind_ok in H as (u&s2&[= <- <-]&H). case_decide as Hu; [by eapply IH|].
  injection H as <- <-. split; [lia|]. done.
Qed.
(** A free port is found as soon as one is drawn. *)
Lemma assign_loop_finds fuel draw inUse k :
  (k < fuel)%nat -> (1024 + (draw k) mod 64000) ∉ inUse -> exists port inUse', assign_loop fuel draw inUse = Ok (port, inUse').
Proof.
  revert draw fuel. induction k as [|k IH]; intros draw fuel Hk Hfree;
    (destruct fuel as [|fuel]; [lia|]); cbn [assign_loop];
    (erewrite gom_bind_run; [|reflexivity]); (erewrite gom_bind_run; [|reflexivity]); case_decide as Hu; eauto.
  - done.
  - apply (IH (fun k => draw (S k)) fuel); [lia|done].
Qed.

(** ** Exits are reported *)

(** Every registered channel has its receiver. *)
Definition watched (s : exit_state) (events : list pcn_event) : Prop :=
  NoDup (omap (fun e => pm_NotifyChannels (es_monitor s) !! event_Pid e) events) /\
  forall e ch, e ∈ events -> pm_NotifyChannels (es_monitor s) !! event_Pid e = Some ch ->
    is_Some (es_watchers s !! ch).

(** The failures the events stand for. *)
Definition failures_of (s : exit_state) (events : list pcn_event) : list Failure :=
  e ← events;
  match pm_NotifyChannels (es_monitor s) !! event_Pid e ≫= (es_watchers s !!.) with
  | Some (service, sandbox) => WatchExitChannel (extractExitCode e) service sandbox
  | None => []
  end.

Lemma list_bind_ext_in {A B} (f g : A -> list B) (l : list A) :
  (forall x, x ∈ l -> f x = g x) -> l ≫= f = l ≫= g.
Proof.
  induction l as [|x l IH]; intros H; [done|]. cbn [mbind list_bind]. rewrite (H x) by (by left).
  f_equal. apply IH. intros y Hy. apply H. by right.
Qed.

Lemma deliver_all s events :
  watched s events ->
  exists s', go_for events deliver s = Ok (tt, s') /\ es_monitor s' = es_monitor s /\
    es_channels s' = es_channels s /\ es_reports s' = es_reports s ++ failures_of s events.
Proof.
  revert s. induction events as [|e events IH]; intros s [Hnd Hw].
  { exists s. unfold failures_of. simpl. by rewrite app_nil_r. }
  cbn [go_for]. cbn [omap list_omap] in Hnd.
  destruct (pm_NotifyChannels (es_monitor s) !! event_Pid e) as [ch|] eqn:Hch.
  - destruct (Hw e ch) as [[service sandbox] Hs]; [by left|done|]. apply list.NoDup_cons in Hnd as [Hn Hnd].
    set (s1 := mkExitState (es_monitor s) (delete ch (es_watchers s)) (es_channels s)
      (es_reports s ++ WatchExitChannel (extractExitCode e) service sandbox)).
    erewrite gom_bind_run; [|unfold deliver; rewrite Hch, Hs; reflexivity].
    assert (Hother : forall e' ch', e' ∈ events -> pm_NotifyChannels (es_monitor s) !! event_Pid e' = Some ch' ->
      ch' ≠ ch).
    { intros e' ch' He' Hc' ->. apply Hn. apply list_elem_of_omap. eauto. }
    destruct (IH s1) as (s'&Hr&Hm&Hc&Hrep).
    { split; [done|]. intros e' ch' He' Hc'. simpl. rewrite lookup_delete_ne by (symmetry; eauto).
      apply (Hw e'); [by right|done]. }
    exists s'. split; [exact Hr|]. split; [done|]. split; [done|]. rewrite Hrep. simpl.
    unfold failures_of at 2. cbn [mbind list_bind]. rewrite Hch. cbn [mbind option_bind]. rewrite Hs.
    rewrite <- app_assoc. do 2 f_equal. apply list_bind_ext_in.
    intros e' He'. simpl. destruct (pm_NotifyChannels (es_monitor s) !! event_Pid e') as [ch'|] eqn:Hc'; [|done].
    simpl. rewrite lookup_delete_ne by (symmetry; eauto). done.
  - erewrite gom_bind_run; [|unfold deliver; rewrite Hch; reflexivity]. destruct (IH s) as (s'&Hr&Hm&Hc&Hrep).
    { split; [done|]. intros e' ch' He'. apply Hw. by right. }
    exists s'. split; [exact Hr|]. split; [done|]. split; [done|]. rewrite Hrep.
    unfold failures_of at 2. cbn [mbind list_bind]. by rewrite Hch.
Qed.

(** Every exit of a watched sandbox is reported exactly once.  When each
    registered process of a batch of events has its goroutine waiting, the
    monitor handles the whole batch and releases its lock, and the control
    plane receives one failure per exit, in order, naming service and sandbox;
    an exit by SIGKILL, which is how sandboxes are deleted, is not reported, and
    processes that are not registered are ignored. *)
Theorem exits_reported_once s events :
  pm_lock (es_monitor s) = Unlocked -> watched s events ->
  exists s', internalEventHandler events s = Ok (tt, s') /\ es_monitor s' = es_monitor s /\
    es_reports s' = es_reports s ++ failures_of s events.
Proof.
  intros Hl Hw. unfold internalEventHandler. case_decide as He.
  { subst. exists s. unfold failures_of. simpl. by rewrite app_nil_r. }
  destruct s as [[chs lk] ws n rep]. simpl in Hl. subst lk.
  set (s1 := mkExitState (mkProcessMonitor chs (RLocked 0)) ws n rep).
  erewrite gom_bind_run; [|reflexivity]. fold s1.
  destruct (deliver_all s1 events Hw) as ([[chs' lk'] ws' n' rep']&Hr&Hm&_&Hrep). go_run Hr.
  injection Hm as -> ->. simpl in Hrep. subst rep'. eexists. split; [reflexivity|]. done.
Qed.

Lemma exits_reported_once_witness :
  exists s', internalEventHandler [PcnExit 5 9; PcnExit 6 1; PcnExit 7 1]
      (mkExitState (mkProcessMonitor {[5 := O; 6 := 1%nat]} Unlocked)
         {[O := ("f", "a")%string; 1%nat := ("g", "b")%string]} 2 []) = Ok (tt, s') /\
    es_reports s' = [mkFailure SANDBOX_FAILURE "g" ["b"%string]].
Proof.
  destruct (exits_reported_once
    (mkExitState (mkProcessMonitor {[5 := O; 6 := 1%nat]} Unlocked)
       {[O := ("f", "a")%string; 1%nat := ("g", "b")%string]} 2 [])
    [PcnExit 5 9; PcnExit 6 1; PcnExit 7 1]) as (s'&H&_&Hr); [reflexivity| |].
  - split; [apply (bool_decide_unpack _); vm_compute; reflexivity|].
    intros e ch He Hch. rewrite !elem_of_cons, elem_of_nil in He.
    destruct He as [->|[->|[->|[]]]]; vm_compute in Hch; try discriminate Hch; injection Hch as <-;
      vm_compute; eauto.
  - exists s'. split; [exact H|]. rewrite Hr. vm_compute. reflexivity.
Defined.

(** A reused process identifier stops the worker node.  Channels are never
    removed from the monitor.  Once the exit of a sandbox has been delivered its
    goroutine has returned; the next exit of any process with the same PID makes
    the monitor wait on the channel for ever.  It holds the lock meanwhile, so
    no channel can be added any more, which every creation of a sandbox does. *)
Theorem pid_reuse_hangs_monitor s s1 e e' rest :
  pm_lock (es_monitor s) = Unlocked ->
  is_Some (pm_NotifyChannels (es_monitor s) !! event_Pid e) ->
  internalEventHandler [e] s = Ok (tt, s1) -> event_Pid e' = event_Pid e ->
  internalEventHandler (e' :: rest) s1 = Blocked /\
  exists s2, on_monitor_lock rw_RLock s1 = Ok (tt, s2) /\ go_for (e' :: rest) deliver s2 = Blocked /\
    forall PID ch, AddChannel PID ch s2 = Blocked.
Proof.
  intros Hl [ch Hch] Hrun Hpid. destruct s as [[chs lk] ws n rep]. simpl in Hl, Hch. subst lk.
  unfold internalEventHandler in Hrun. rewrite decide_False in Hrun by done. go_inv.
  destruct (ws !! ch) as [[service sandbox]|] eqn:Hw.
  2:{ exfalso. match goal with H : on_monitor_lock rw_RLock _ = Ok _ |- _ => injection H as <- <- end.
      match goal with H : go_for [e] deliver _ = Ok _ |- _ =>
        apply gom_bind_ok in H as (?&?&H&_); unfold deliver in H; simpl in H; by rewrite Hch, Hw in H end. }
  match goal with H : on_monitor_lock rw_RLock _ = Ok _ |- _ => injection H as <- <- end.
  match goal with H : go_for [e] deliver _ = Ok _ |- _ =>
    apply gom_bind_ok in H as (?&?&H&H'); injection H' as <- <-;
    unfold deliver in H; simpl in H; rewrite Hch, Hw in H; injection H as <- <- end.
  injection Hrun as <-.
  assert (Hblock : forall lk, go_for (e' :: rest) deliver
    (mkExitState (mkProcessMonitor chs lk) (delete ch ws) n
       (rep ++ WatchExitChannel (extractExitCode e) service sandbox)) = Blocked).
  { intros lk. cbn [go_for]. apply gom_bind_blocked. unfold deliver. simpl.
    by rewrite Hpid, Hch, lookup_delete_eq. }
  split.
  - unfold internalEventHandler. rewrite decide_False by done. erewrite gom_bind_run; [|reflexivity].
    apply gom_bind_blocked. apply Hblock.
  - eexists. split; [reflexivity|]. split; [apply Hblock|]. done.
Qed.

Lemma pid_reuse_hangs_monitor_witness :
  match internalEventHandler [PcnExit 5 9]
      (mkExitState (mkProcessMonitor {[5 := O]} Unlocked) {[O := ("f", "a")%string]} 1 []) with
  | Ok (_, s1) => internalEventHandler [PcnExit 5 0] s1 = Blocked
  | _ => False
  end.
Proof.
  destruct (internalEventHandler [PcnExit 5 9]
    (mkExitState (mkProcessMonitor {[5 := O]} Unlocked) {[O := ("f", "a")%string]} 1 []))
    as [[[] s1]| | |] eqn:E; [|vm_compute in E; discriminate E..].
  apply (pid_reuse_hangs_monitor
    (mkExitState (mkProcessMonitor {[5 := O]} Unlocked) {[O := ("f", "a")%string]} 1 []) s1
    (PcnExit 5 9) (PcnExit 5 0) []); [reflexivity|vm_compute; eauto|exact E|reflexivity].
Defined.

(** ** The readiness probe ends *)

(** The milliseconds slept after each failed request; then the probe fails. *)
Definition probe_delays : list Z :=
  [10; 18; 24; 33; 44; 60; 81; 110; 148; 201; 271; 366; 494; 667; 901; 1217; 1643; 2218; 2994; 4042; 5457; 7367].
Fixpoint sleeps (oob : Z) (eb : ExponentialBackoff) (ds : list Z) : bool :=
  match Next eb with
  | Ok (toSleep, eb') =>
      match ds with
      | [] => f64_ltb toSleep (f64_of_Z 0)
      | d :: ds' =>
          negb (f64_ltb toSleep (f64_of_Z 0)) &&
          bool_decide (f64_to_int oob (f64_mul toSleep (f64_of_Z 1000)) = d) && sleeps oob eb' ds'
      end
  | _ => false
  end.

Lemma probe_loop_sleeps oob healthy ds fuel k slept eb :
  sleeps oob eb ds = true -> (length ds < fuel)%nat ->
  exists passed j, (j <= length ds)%nat /\
    probe_loop oob healthy fuel k slept eb = Ok (passed, S (k + j), slept + foldr Z.add 0 (take j ds)) /\
    (forall i, (i < j)%nat -> healthy (k + i)%nat = false) /\ healthy (k + j)%nat = passed /\
    (passed = false -> j = length ds).
Proof.
  revert fuel k slept eb. induction ds as [|d ds IH]; intros fuel k slept eb Hs Hf;
    (destruct fuel as [|fuel]; [simpl in Hf; lia|]); cbn [probe_loop].
  - exists (healthy k), O. rewrite Nat.add_0_r, Z.add_0_r. split; [simpl; lia|].
    split; [|by split; [intros; lia|]]. destruct (healthy k); [done|]. cbn [sleeps] in Hs.
    destruct (Next eb) as [[v eb']| | |]; try done. cbn [mbind outcome_bind]. by rewrite Hs.
  - destruct (healthy k) eqn:Hk.
    { exists true, O. rewrite Nat.add_0_r. cbn [take foldr]. rewrite Z.add_0_r.
      split; [lia|]. split; [done|]. split; [intros; lia|done]. }
    cbn [sleeps] in Hs. destruct (Next eb) as [[v eb']| | |]; try done. cbn [mbind outcome_bind].
    apply andb_true_iff in Hs as [[Hn Hd]%andb_true_iff Hs]. apply negb_true_iff in Hn. rewrite Hn.
    apply bool_decide_eq_true in Hd. rewrite Hd.
    destruct (IH fuel (S k) (slept + d) eb' Hs) as (passed&j&Hj&Hr&Hb&Hp&He); [simpl in Hf; lia|].
    exists passed, (S j). cbn [length take foldr].
    replace (k + S j)%nat with (S k + j)%nat by lia. split; [lia|]. split; [|split; [|split]].
    + rewrite Hr. f_equal. f_equal. lia.
    + intros [|i] Hi; [by rewrite Nat.add_0_r|]. replace (k + S i)%nat with (S k + i)%nat by lia.
      apply Hb. lia.
    + done.
    + intros H. by rewrite (He H).
Qed.

Lemma foldr_take_le (ds : list Z) j :
  Forall (fun d => 0 <= d) ds -> 0 <= foldr Z.add 0 (take j ds) <= foldr Z.add 0 ds.
Proof.
  intros Hds. revert j. induction Hds as [|d ds Hd _ IH]; intros j; [by destruct j|].
  destruct j as [|j]; cbn [take foldr].
  - specialize (IH O). simpl in IH. lia.
  - specialize (IH j). lia.
Qed.

(** C33: The readiness probe always ends, after at most 23 requests and 28.366
    seconds of sleep.  It passes exactly when one of the first 23 requests is
    answered with success, and then at the first such request; the delays grow
    exponentially, in double precision, as the code computes them. *)
Theorem readiness_probe_bounded oob healthy fuel :
  (23 <= fuel)%nat ->
  exists passed tries slept, SendReadinessProbe oob healthy fuel = Ok (passed, tries, slept) /\
    (1 <= tries <= 23)%nat /\ 0 <= slept <= 28366 /\
    (passed = true <-> exists k, (k < 23)%nat /\ healthy k = true) /\
    (passed = true -> healthy (tries - 1)%nat = true /\ forall j, (j < tries - 1)%nat -> healthy j = false).
Proof.
  intros Hf.
  assert (Hs : sleeps oob probe_backoff probe_delays = true) by (vm_compute; reflexivity).
  destruct (probe_loop_sleeps oob healthy probe_delays fuel 0 0 probe_backoff Hs) as (passed&j&Hj&Hr&Hb&Hp&He);
    [simpl; lia|].
  assert (Hsum : 0 <= foldr Z.add 0 (take j probe_delays) <= 28366).
  { change 28366 with (foldr Z.add 0 probe_delays). apply foldr_take_le.
    apply (bool_decide_unpack _). vm_compute. reflexivity. }
  change (length probe_delays) with 22%nat in Hj, He.
  exists passed, (S j), (foldr Z.add 0 (take j probe_delays)). simpl in Hb, Hp. split; [exact Hr|].
  clear Hs Hr. split; [lia|]. split; [exact Hsum|]. replace (S j - 1)%nat with j by lia.
  split; [|intros ->; split; [exact Hp|exact Hb]].
  split.
  - intros ->. exists j. split; [lia|exact Hp].
  - intros (k&Hk&Hhk). destruct passed; [reflexivity|]. rewrite (He eq_refl) in Hb, Hp.
    destruct (decide (k = 22)%nat) as [->|]; [congruence|]. rewrite Hb in Hhk by lia. discriminate Hhk.
Qed.

Lemma readiness_probe_bounded_witness :
  exists slept, SendReadinessProbe 0 (fun k => Nat.eqb k 3) 23 = Ok (true, 4%nat, slept) /\ 0 <= slept <= 28366.
Proof.
  destruct (readiness_probe_bounded 0 (fun k => Nat.eqb k 3) 23) as (p&t&sl&H&_&Hs&_); [lia|].
  exists sl. split; [|exact Hs]. rewrite H. vm_compute in H. injection H as <- <- <-. reflexivity.
Defined.
