(* ===== verification/Networks.v ===== *)
(** * Networks of virtual machines

    [sandbox/firecracker/networking.go]: the pool of network namespaces in
    which virtual machines run, built with commands of the host; and
    [managers/iptables_manager.go], the forwarding rules of sandboxes.

    The host is a parameter: running a command changes it and may fail. *)
From Stdlib Require Import ZArith Lia Ascii.
From stdpp Require Import base tactics list gmap strings sets numbers pretty.
From S2P Require Import Prelude Core Net WorkerManagers.

Local Open Scope Z_scope.

(** ** The host *)

Class HostCommands (H : Type) : Type := {
  (* [exec.Command(args...).Run()] *)
  run_command : list string -> H -> go_error * H;
  (* [iptables.Append], [AppendUnique] and [Delete]: table, chain, rule *)
  ipt_Append : string -> string -> list string -> H -> go_error * H;
  ipt_AppendUnique : string -> string -> list string -> H -> go_error * H;
  ipt_Delete : string -> string -> list string -> H -> go_error * H;
}.

Section forwarding_rules.
Context {H : Type} `{HostCommands H}.

Definition prerouting_rule (sourcePort : Z) (destIP : string) (destPort : Z) : list string :=
  ["-p"; "tcp"; "--dport"; Itoa sourcePort; "-j"; "DNAT"; "--to-destination"; host_port destIP destPort]%string.
Definition output_rule (sourcePort : Z) (destIP : string) (destPort : Z) : list string :=
  ["-p"; "tcp"; "-o"; "lo"; "--dport"; Itoa sourcePort; "-j"; "DNAT"; "--to-destination";
   host_port destIP destPort]%string.
(** Errors are logged. *)
Definition AddRules (sourcePort : Z) (destIP : string) (destPort : Z) (h : H) : H :=
  let h := (ipt_Append "nat" "PREROUTING" (prerouting_rule sourcePort destIP destPort) h).2 in
  let h := (ipt_Append "nat" "OUTPUT" (output_rule sourcePort destIP destPort) h).2 in
  let h := (ipt_AppendUnique "nat" "POSTROUTING" ["-j"; "MASQUERADE"]%string h).2 in
  (run_command ["sudo"; "iptables"; "-P"; "FORWARD"; "ACCEPT"]%string h).2.
Definition DeleteRules (sourcePort : Z) (destIP : string) (destPort : Z) (h : H) : H :=
  let h := (ipt_Delete "nat" "PREROUTING" (prerouting_rule sourcePort destIP destPort) h).2 in
  (ipt_Delete "nat" "OUTPUT" (output_rule sourcePort destIP destPort) h).2.
End forwarding_rules.

(** ** The pool *)

Record NetworkConfig : Type := mkNetworkConfig {
  nc_NetNS : string;
  nc_TapDeviceName : string;
  nc_TapMAC : string;
  nc_TapExternalIP : string;
  nc_TapInternalIP : string;
  nc_VETHHostName : string;
  nc_VETHInternalIP : string;
  nc_VETHExternalIP : string;
  nc_ExposedIP : string;
}.

(** [np_repopulations]: calls of [populate] that were started as goroutines and
    have not run yet. *)
Record NetworkPoolManager (H : Type) : Type := mkNetworkPoolManager {
  np_InternalIPManager : IPManager;
  np_ExposedIPManager : IPManager;
  np_InterfaceNameGenerator : Z;
  np_MaxNetworkPoolSize : Z;
  np_pool : list (option NetworkConfig);
  np_repopulations : nat;
  np_host : H;
}.
Arguments mkNetworkPoolManager {H} _ _ _ _ _ _ _.
Arguments np_InternalIPManager {H} _.
Arguments np_ExposedIPManager {H} _.
Arguments np_InterfaceNameGenerator {H} _.
Arguments np_MaxNetworkPoolSize {H} _.
Arguments np_pool {H} _.
Arguments np_repopulations {H} _.
Arguments np_host {H} _.

Section pool.
Context {H : Type} `{HC : HostCommands H}.
Abbreviation NP := (NetworkPoolManager H).
Abbreviation M := (GoM (NetworkPoolManager H)).

Definition np_with_internal (i : IPManager) (np : NP) : NP :=
  mkNetworkPoolManager i (np_ExposedIPManager np) (np_InterfaceNameGenerator np) (np_MaxNetworkPoolSize np)
    (np_pool np) (np_repopulations np) (np_host np).
Definition np_with_exposed (i : IPManager) (np : NP) : NP :=
  mkNetworkPoolManager (np_InternalIPManager np) i (np_InterfaceNameGenerator np) (np_MaxNetworkPoolSize np)
    (np_pool np) (np_repopulations np) (np_host np).
Definition np_with_names (n : Z) (np : NP) : NP :=
  mkNetworkPoolManager (np_InternalIPManager np) (np_ExposedIPManager np) n (np_MaxNetworkPoolSize np)
    (np_pool np) (np_repopulations np) (np_host np).
Definition np_with_pool (p : list (option NetworkConfig)) (np : NP) : NP :=
  mkNetworkPoolManager (np_InternalIPManager np) (np_ExposedIPManager np) (np_InterfaceNameGenerator np)
    (np_MaxNetworkPoolSize np) p (np_repopulations np) (np_host np).
Definition np_with_repopulations (n : nat) (np : NP) : NP :=
  mkNetworkPoolManager (np_InternalIPManager np) (np_ExposedIPManager np) (np_InterfaceNameGenerator np)
    (np_MaxNetworkPoolSize np) (np_pool np) n (np_host np).
Definition np_with_host (h : H) (np : NP) : NP :=
  mkNetworkPoolManager (np_InternalIPManager np) (np_ExposedIPManager np) (np_InterfaceNameGenerator np)
    (np_MaxNetworkPoolSize np) (np_pool np) (np_repopulations np) h.

(** ** Commands *)

Definition command (args : list string) : M go_error := fun np =>
  let '(err, h) := run_command args (np_host np) in Ok (err, np_with_host h np).
Definition deleteNetworkNamespaceByName (name : string) : M unit :=
  command ["sudo"; "ip"; "netns"; "delete"; name]%string ;; mret tt.
Definition deleteDeviceByName (name : string) : M unit :=
  command ["sudo"; "ip"; "link"; "del"; name]%string ;; mret tt.
(** In the namespace [ns]. *)
Definition in_netns (ns : string) (args : list string) : list string :=
  ["sudo"; "ip"; "netns"; "exec"; ns]%string ++ args.
(** Run a command; when it fails clean up and return the error. *)
Definition try_command {A} (args : list string) (cleanup : M unit) (k : M (string + A)) : M (string + A) :=
  err ← command args;
  match err with
  | Some e => cleanup ;; mret (inl e)
  | None => k
  end.

Definition vethPrefix : string := "fc-".
Definition vethSuffix : string := "-veth".
Definition veth_name (id : Z) : string := (vethPrefix +:+ Itoa id +:+ vethSuffix)%string.

(** The commands that create and configure the pair; the network is removed when
    one of them fails. *)
Definition configure_pair (ns guestTAP guestSidePairName hostSidePairName hostSideIpAddress workloadIpAddress
    exposedIP : string) : M (string + (string * string * string * string)) :=
  let hostSideIpAddressWithMask := (hostSideIpAddress +:+ "/24")%string in
  let workloadIpAddressWithMask := (workloadIpAddress +:+ "/24")%string in
  let drop_ns := deleteNetworkNamespaceByName ns in
  let drop_both := drop_ns ;; deleteDeviceByName hostSidePairName in
  try_command (in_netns ns ["ip"; "link"; "add"; hostSidePairName; "type"; "veth"; "peer"; "name";
                            guestSidePairName]%string) drop_ns (
  try_command (in_netns ns ["ip"; "link"; "set"; hostSidePairName; "netns"; "1"]%string) drop_ns (
  try_command (in_netns ns ["ip"; "addr"; "add"; workloadIpAddressWithMask; "dev"; guestSidePairName]%string) drop_ns (
  try_command (in_netns ns ["ip"; "link"; "set"; "dev"; guestSidePairName; "up"]%string) drop_ns (
  try_command ["sudo"; "ip"; "addr"; "add"; hostSideIpAddressWithMask; "dev"; hostSidePairName]%string drop_both (
  try_command ["sudo"; "ip"; "link"; "set"; "dev"; hostSidePairName; "up"]%string drop_both (
  try_command (in_netns ns ["ip"; "route"; "add"; "default"; "via"; hostSideIpAddress]%string) drop_both (
  try_command (in_netns ns ["iptables"; "-t"; "nat"; "-A"; "POSTROUTING"; "-o"; guestSidePairName; "-s"; guestTAP;
                            "-j"; "SNAT"; "--to"; exposedIP]%string) drop_both (
  try_command (in_netns ns ["iptables"; "-t"; "nat"; "-A"; "PREROUTING"; "-i"; guestSidePairName; "-d"; exposedIP;
                            "-j"; "DNAT"; "--to"; guestTAP]%string) drop_both (
  try_command ["sudo"; "ip"; "route"; "add"; exposedIP; "via"; workloadIpAddress]%string drop_both (
  mret (inr (hostSidePairName, exposedIP, hostSideIpAddress, workloadIpAddress)))))))))))).

(** The name of the host side and the three addresses, or an error. *)
Definition createVETHPair (ns guestTAP : string) : M (string + (string * string * string * string)) :=
  id ← zoom np_InterfaceNameGenerator np_with_names VETH_Generate;
  pair ← zoom np_InternalIPManager np_with_internal GenerateIPMACPair;
  let '(hostSideIpAddress, workloadIpAddress) := (pair : string * string) in
  exposedIP ← zoom np_ExposedIPManager np_with_exposed GenerateSingleIP;
  configure_pair ns guestTAP (veth_name id) (veth_name (i32 (id + 1))) hostSideIpAddress workloadIpAddress exposedIP.

Definition gatewayIP : string := "169.254.0.1".
Definition vmip : string := "169.254.0.2".
Definition tap_mac : string := "02:FC:00:00:00:00".
Definition tap_dev : string := "fc-tap".
Definition netns_name (rnd : Z) : string := ("firecracker-" +:+ Itoa rnd)%string.

(** [rnd] is the random number in the name of the namespace. *)
Definition createNetwork (rnd : Z) : M (string + NetworkConfig) :=
  let ns := netns_name rnd in
  let drop_ns := deleteNetworkNamespaceByName ns in
  try_command ["sudo"; "ip"; "netns"; "add"; ns]%string (mret tt) (
  try_command (in_netns ns ["ip"; "tuntap"; "add"; "dev"; tap_dev; "mode"; "tap"]%string) drop_ns (
  try_command (in_netns ns ["ip"; "addr"; "add"; (gatewayIP +:+ "/30"); "dev"; tap_dev]%string) drop_ns (
  try_command (in_netns ns ["ip"; "link"; "set"; "dev"; tap_dev; "up"]%string) drop_ns (
  r ← createVETHPair ns vmip;
  match r with
  | inl e => mret (inl e)
  | inr (hostName, exposedIP, vethInternalIP, vethExternalIP) =>
      mret (inr (mkNetworkConfig ns tap_dev tap_mac gatewayIP vmip hostName vethInternalIP vethExternalIP exposedIP))
  end)))).

(** ** Operations of the pool *)

(** The pool grows by one entry per turn, [nil] when the network could not be
    created, until it is full: [populate_loop] takes the number of turns. *)
Fixpoint populate_loop (n : nat) (rnd : nat -> Z) : M unit :=
  match n with
  | O => mret tt
  | S n' =>
      r ← createNetwork (rnd O);
      let config := match r with inl _ => None | inr c => Some c end in
      go_modify (fun np => np_with_pool (np_pool np ++ [config]) np) ;;
      populate_loop n' (fun k => rnd (S k))
  end.
Definition populate (rnd : nat -> Z) : M unit :=
  np ← go_get;
  populate_loop (Z.to_nat (np_MaxNetworkPoolSize np - Z.of_nat (length (np_pool np)))) rnd.

Definition pool_size (networkPoolSize : Z) : Z :=
  let n := networkPoolSize - Z.rem networkPoolSize 16 in if decide (n < 16) then 16 else n.
Definition NewNetworkPoolManager (internalPrefix externalPrefix : string) (networkPoolSize : Z)
    (rnd : nat -> Z) (h : H) : outcome NP :=
  let np := mkNetworkPoolManager (NewIPManager internalPrefix) (NewIPManager externalPrefix)
              NewVETHNameGenerator (pool_size networkPoolSize) [] O h in
  match populate rnd np with
  | Ok (_, np') => Ok np'
  | Panic => Panic
  | Fatal => Fatal
  | Blocked => Blocked
  end.

Definition GiveUpNetwork (config : NetworkConfig) : M unit :=
  np ← go_get;
  if decide (Z.of_nat (length (np_pool np)) < np_MaxNetworkPoolSize np)
  then go_put (np_with_pool (np_pool np ++ [Some config]) np)
  else deleteNetworkNamespaceByName (nc_NetNS config) ;; deleteDeviceByName (nc_VETHHostName config).

Definition start_repopulation : M unit :=
  go_modify (fun np => np_with_repopulations (S (np_repopulations np)) np).
Definition GetOneConfig (rnd : Z) : M (option NetworkConfig) :=
  np ← go_get;
  match np_pool np with
  | [] =>
      r ← createNetwork rnd;
      match r with
      | inl _ => mret None
      | inr config => start_repopulation ;; mret (Some config)
      end
  | cfg :: rest =>
      (if decide (Z.of_nat (length (np_pool np)) = Z.quot (np_MaxNetworkPoolSize np) 4)
       then start_repopulation else mret tt) ;;
      go_modify (np_with_pool rest) ;; mret cfg
  end.
(** A goroutine that was started runs. *)
Definition run_repopulation (rnd : nat -> Z) : M unit :=
  np ← go_get;
  match np_repopulations np with
  | O => mret tt
  | S n => go_put (np_with_repopulations n np) ;; populate rnd
  end.

(** [DeleteUnusedNetworkDevices]: [devices] are the interfaces of the host, or
    the error of listing them. *)
Definition has_suffix (suffix s : string) : bool :=
  bool_decide (String.substring (String.length s - String.length suffix) (String.length suffix) s = suffix).
Definition DeleteUnusedNetworkDevices (devices : string + list string) (h : H) : go_error * H :=
  match devices with
  | inl e => (Some e, h)
  | inr names =>
      let delete_device (h : H) (name : string) : H :=
        if String.prefix vethPrefix name && has_suffix vethSuffix name
        then (run_command ["sudo"; "ip"; "link"; "del"; name]%string h).2 else h in
      run_command ["sudo"; "ip"; "-all"; "netns"; "delete"]%string (foldl delete_device h names)
  end.
End pool.

(** ** Addresses and names are never handed out twice *)

Section allocation.
Context {H : Type} `{HC : HostCommands H}.
Implicit Types np : NetworkPoolManager H.
Abbreviation M := (GoM (NetworkPoolManager H)).

Abbreviation internal_count np := (ipm_allocationCounter (np_InternalIPManager np)).
Abbreviation exposed_count np := (ipm_allocationCounter (np_ExposedIPManager np)).
Abbreviation internal_prefix np := (ipm_networkPrefix (np_InternalIPManager np)).
Abbreviation exposed_prefix np := (ipm_networkPrefix (np_ExposedIPManager np)).

(** A name of an interface and an internal address are made together. *)
Record counters_ok np : Prop := {
  co_internal : 0 <= internal_count np;
  co_exposed : 0 <= exposed_count np;
  co_names : np_InterfaceNameGenerator np = 2 * internal_count np;
}.

(** A network whose identifiers were made before the present state. *)
Definition minted np (c : NetworkConfig) : Prop :=
  exists v w, 0 <= v < internal_count np /\ v < 65536 /\ 0 <= w < exposed_count np /\ w < 65536 /\
    nc_VETHHostName c = veth_name (2 * v + 1) /\
    nc_VETHInternalIP c = (ip_text (internal_prefix np) v +:+ ".1")%string /\
    nc_ExposedIP c = ip_text (exposed_prefix np) w.

(** Later states: the counters only grow. *)
Record later np np' : Prop := {
  la_internal : internal_count np <= internal_count np';
  la_exposed : exposed_count np <= exposed_count np';
  la_prefixes : internal_prefix np' = internal_prefix np /\ exposed_prefix np' = exposed_prefix np;
  la_max : np_MaxNetworkPoolSize np' = np_MaxNetworkPoolSize np;
}.
Lemma later_refl np : later np np.
Proof. split; lia || done. Qed.
Lemma later_trans np1 np2 np3 : later np1 np2 -> later np2 np3 -> later np1 np3.
Proof.
  intros [A1 A2 [A3 A4] A5] [B1 B2 [B3 B4] B5].
  split; [lia|lia|split; congruence|congruence].
Qed.
Lemma later_host h np np' : later (np_with_host h np) np' -> later np np'.
Proof. intros [A1 A2 A3 A4]. by split. Qed.
Lemma minted_later np np' c : later np np' -> minted np c -> minted np' c.
Proof.
  intros [A1 A2 [A3 A4] _] (v&w&?&?&?&?&?&?&?). exists v, w. rewrite A3, A4. repeat split; lia || done.
Qed.

(** A computation that only runs commands, and whose result, if it is not an
    error, is [x]. *)
Definition yields {A} (x : A) (m : M (string + A)) : Prop :=
  forall np, exists r h, m np = Ok (r, np_with_host h np) /\ forall y, r = inr y -> y = x.
Definition cleans (m : M unit) : Prop := forall np, exists h, m np = Ok (tt, np_with_host h np).

Lemma command_run args np : exists err h, command args np = Ok (err, np_with_host h np).
Proof. unfold command. destruct (run_command args (np_host np)) as [err h]. eauto. Qed.
Lemma cleans_ret : cleans (mret tt).
Proof. intros np. exists (np_host np). by destruct np. Qed.
Lemma cleans_bind m1 m2 : cleans m1 -> cleans m2 -> cleans (m1 ;; m2).
Proof.
  intros H1 H2 np. destruct (H1 np) as [h Hr]. go_run Hr. destruct (H2 (np_with_host h np)) as [h' Hr'].
  exists h'. exact Hr'.
Qed.
Lemma cleans_command args : cleans (command args ;; mret tt).
Proof. intros np. destruct (command_run args np) as (err&h&Hr). go_run Hr. by exists h. Qed.
Lemma yields_ret {A} (x : A) : yields x (mret (inr x)).
Proof. intros np. exists (inr x), (np_host np). split; [by destruct np|]. by intros y [= <-]. Qed.
Lemma yields_try {A} (x : A) args cleanup k : cleans cleanup -> yields x k -> yields x (try_command args cleanup k).
Proof.
  intros Hc Hk np. unfold try_command. destruct (command_run args np) as (err&h&Hr). go_run Hr.
  destruct err as [e|].
  - destruct (Hc (np_with_host h np)) as [h' Hr']. go_run Hr'. exists (inl e), h'. done.
  - destruct (Hk (np_with_host h np)) as (r&h'&Hr'&Hy). exists r, h'. done.
Qed.

Lemma yields_run {A} (x : A) (m : M (string + A)) np (Q : string + A -> NetworkPoolManager H -> Prop) :
  yields x m -> (forall r h, (forall y, r = inr y -> y = x) -> Q r (np_with_host h np)) ->
  exists r np', m np = Ok (r, np') /\ Q r np'.
Proof. intros Hy HQ. destruct (Hy np) as (r&h&Hr&Hx). eauto. Qed.

Lemma GenerateIPMACPair_run ipm :
  0 <= ipm_allocationCounter ipm ->
  GenerateIPMACPair ipm =
  if decide (65536 <= ipm_allocationCounter ipm) then Fatal
  else Ok (((ip_text (ipm_networkPrefix ipm) (ipm_allocationCounter ipm) +:+ ".1")%string,
            (ip_text (ipm_networkPrefix ipm) (ipm_allocationCounter ipm) +:+ ".2")%string),
           mkIPManager (ipm_networkPrefix ipm) (ipm_allocationCounter ipm + 1)).
Proof.
  intros Hv. unfold GenerateIPMACPair, mbind, gom_bind. rewrite generateRaw_run by done.
  case_decide; [done|]. unfold go_get, mret, gom_ret, ip_text. cbn [ipm_networkPrefix].
  by rewrite !string_app_assoc.
Qed.

Lemma createVETHPair_alloc ns tap np :
  counters_ok np ->
  createVETHPair ns tap np = Fatal \/
  exists r np', createVETHPair ns tap np = Ok (r, np') /\ counters_ok np' /\ later np np' /\
    np_pool np' = np_pool np /\
    forall name exp hin hex, r = inr (name, exp, hin, hex) ->
      exists v w, internal_count np <= v < internal_count np' /\ v < 65536 /\
        exposed_count np <= w < exposed_count np' /\ w < 65536 /\
        name = veth_name (2 * v + 1) /\ hin = (ip_text (internal_prefix np) v +:+ ".1")%string /\
        exp = ip_text (exposed_prefix np) w.
Proof.
  destruct np as [[pi v] [pe e] g mx pl rp h]. intros [Hv He Hg]. simpl in Hv, He, Hg. subst g.
  unfold createVETHPair. erewrite gom_bind_run; [|reflexivity].
  pose proof (GenerateIPMACPair_run (mkIPManager pi v) Hv) as Hpair. cbn in Hpair. case_decide.
  { left. apply gom_bind_fatal, zoom_fatal. exact Hpair. }
  erewrite gom_bind_run; [|apply zoom_run; exact Hpair].
  destruct (GenerateSingleIP_run (mkIPManager pe e) He) as [Hs|(w&Hw&_&Hs)].
  { left. apply gom_bind_fatal, zoom_fatal. exact Hs. }
  right. erewrite gom_bind_run; [|apply zoom_run; exact Hs].
  cbn [ipm_networkPrefix ipm_allocationCounter np_with_exposed np_with_names np_with_internal
       np_InternalIPManager np_ExposedIPManager np_InterfaceNameGenerator np_MaxNetworkPoolSize
       np_pool np_repopulations np_host] in *.
  apply (yields_run (veth_name (i32 (2 * v + 1)), ip_text pe w, (ip_text pi v +:+ ".1")%string,
                     (ip_text pi v +:+ ".2")%string)).
  { repeat first [apply yields_try | apply yields_ret | apply cleans_bind | apply cleans_command]. }
  intros r h' Hx.
  assert (Hi : i32 (2 * v + 1) = 2 * v + 1) by (apply i32_id; unfold is_i32; lia).
  assert (Hi2 : i32 (2 * v + 2) = 2 * v + 2) by (apply i32_id; unfold is_i32; lia).
  split; [|split; [|split; [done|]]].
  - split; simpl; lia.
  - split; simpl; lia || done.
  - intros name exp hin hex ->. specialize (Hx _ eq_refl). injection Hx as -> -> -> ->.
    exists v, w. simpl. rewrite Hi. repeat split; lia || done.
Qed.

(** A computation that creates at most one network, with identifiers that no
    network of [np] has. *)
Definition creates np (m : outcome ((string + NetworkConfig) * NetworkPoolManager H)) : Prop :=
  m = Fatal \/
  exists r np', m = Ok (r, np') /\ counters_ok np' /\ later np np' /\ np_pool np' = np_pool np /\
    forall c, r = inr c -> minted np' c /\
      forall c', minted np c' -> nc_VETHHostName c ≠ nc_VETHHostName c' /\
        nc_VETHInternalIP c ≠ nc_VETHInternalIP c' /\ nc_ExposedIP c ≠ nc_ExposedIP c'.

Lemma creates_try np args cleanup (k : M (string + NetworkConfig)) :
  counters_ok np -> cleans cleanup -> (forall h, creates np (k (np_with_host h np))) ->
  forall h, creates np (try_command args cleanup k (np_with_host h np)).
Proof.
  intros Hc Hcl Hk h. unfold try_command.
  destruct (command_run args (np_with_host h np)) as (err&h'&Hr). go_run Hr.
  destruct err as [e|]; [|apply (Hk h')]. right.
  destruct (Hcl (np_with_host h' (np_with_host h np))) as [h'' Hr']. go_run Hr'.
  exists (inl e), (np_with_host h'' np). split; [done|]. split; [by destruct Hc; split|].
  split; [by split; simpl; lia || done|]. done.
Qed.

Lemma createNetwork_alloc rnd np : counters_ok np -> creates np (createNetwork rnd np).
Proof.
  intros Hc. cut (forall h, creates np (createNetwork rnd (np_with_host h np))).
  { intros HG. specialize (HG (np_host np)). by destruct np. }
  apply creates_try; [done|apply cleans_ret|].
  do 3 (apply creates_try; [done|apply cleans_command|]). intros h.
  assert (Hc' : counters_ok (np_with_host h np)) by (destruct Hc; by split).
  destruct (createVETHPair_alloc (netns_name rnd) vmip (np_with_host h np) Hc')
    as [Hr|(r&np'&Hr&Hc2&Hl&Hp&Hx)]; [left; by apply gom_bind_fatal|]. right. go_run Hr.
  destruct r as [e|[[[name exp] hin] hex]].
  { exists (inl e), np'. split; [done|]. split; [done|]. split; [by eapply later_host|]. done. }
  destruct (Hx name exp hin hex eq_refl) as (v&w&Hv&Hv'&Hw&Hw'&->&->&->). simpl in Hv, Hw.
  eexists _, np'. split; [reflexivity|]. split; [done|]. split; [by eapply later_host|]. split; [done|].
  intros c [= <-]. destruct Hl as [_ _ [Hpi Hpe] _]. simpl in Hpi, Hpe. destruct Hc. split.
  - exists v, w. simpl. rewrite Hpi, Hpe. repeat split; lia || done.
  - intros c' (v'&w'&Hv2&Hv2'&Hw2&Hw2'&->&->&->). simpl. split; [|split]; intros Heq.
    + apply string_app_inj_l, string_app_inj_r in Heq. apply Itoa_inj in Heq; lia.
    + apply string_app_inj_r, ip_text_inj in Heq; lia.
    + apply ip_text_inj in Heq; lia.
Qed.

(** ** The inventory

    The networks of the pool and those in use, [used], carry different names
    and addresses. *)
Definition inventory np (used : list NetworkConfig) : list NetworkConfig := omap id (np_pool np) ++ used.

Record distinct_networks (l : list NetworkConfig) : Prop := {
  dn_names : NoDup (nc_VETHHostName <$> l);
  dn_internal : NoDup (nc_VETHInternalIP <$> l);
  dn_exposed : NoDup (nc_ExposedIP <$> l);
}.
Record net_inv np (used : list NetworkConfig) : Prop := {
  ni_counters : counters_ok np;
  ni_minted : Forall (minted np) (inventory np used);
  ni_distinct : distinct_networks (inventory np used);
  ni_size : Z.of_nat (length (np_pool np)) <= np_MaxNetworkPoolSize np;
}.

#[global] Instance distinct_networks_perm : Proper ((≡ₚ) ==> iff) distinct_networks.
Proof.
  intros l1 l2 Hl. split; intros [A1 A2 A3]; split; by rewrite ?Hl in * || by rewrite <- ?Hl in *.
Qed.
Lemma distinct_networks_cons c l :
  distinct_networks l ->
  (forall c', c' ∈ l -> nc_VETHHostName c ≠ nc_VETHHostName c' /\
     nc_VETHInternalIP c ≠ nc_VETHInternalIP c' /\ nc_ExposedIP c ≠ nc_ExposedIP c') ->
  distinct_networks (c :: l).
Proof.
  intros [A1 A2 A3] Hne.
  assert (Hc : forall f : NetworkConfig -> string, (forall c', c' ∈ l -> f c ≠ f c') -> f c ∉ f <$> l).
  { intros f Hf (c'&Heq&Hin)%list_elem_of_fmap. by apply (Hf c'). }
  split; rewrite fmap_cons; apply list.NoDup_cons; (split; [|done]); apply Hc; intros c' Hin; by apply Hne.
Qed.

Lemma NoDup_part {A} (l k : list A) : l ⊆+ k -> NoDup k -> NoDup l.
Proof. intros [k' ->]%submseteq_Permutation Hn. by apply list.NoDup_app in Hn as [? _]. Qed.

(** Moving networks between pool and users, and forgetting some. *)
Lemma net_inv_move np np' used used' :
  net_inv np used -> counters_ok np' -> later np np' ->
  Z.of_nat (length (np_pool np')) <= np_MaxNetworkPoolSize np ->
  inventory np' used' ⊆+ inventory np used -> net_inv np' used'.
Proof.
  intros [B1 B2 [A1 A2 A3] B4] Hc Hl Hs Hsub. split; [done| | |].
  - apply list.Forall_forall. intros c Hin. apply (minted_later np); [done|].
    rewrite list.Forall_forall in B2. apply B2. by eapply elem_of_submseteq.
  - split; (eapply NoDup_part; [by apply fmap_submseteq|done]).
  - destruct Hl. lia.
Qed.
Lemma net_inv_new np np' used used' c :
  net_inv np used -> counters_ok np' -> later np np' -> minted np' c ->
  (forall c', minted np c' -> nc_VETHHostName c ≠ nc_VETHHostName c' /\
     nc_VETHInternalIP c ≠ nc_VETHInternalIP c' /\ nc_ExposedIP c ≠ nc_ExposedIP c') ->
  Z.of_nat (length (np_pool np')) <= np_MaxNetworkPoolSize np ->
  inventory np' used' ≡ₚ c :: inventory np used -> net_inv np' used'.
Proof.
  intros [B1 B2 B3 B4] Hc Hl Hm Hne Hs Hp. rewrite list.Forall_forall in B2. split; [done| | |].
  - rewrite Hp. apply list.Forall_cons. split; [done|]. apply list.Forall_forall. intros c' Hin.
    apply (minted_later np); auto.
  - rewrite Hp. apply distinct_networks_cons; [done|]. auto.
  - destruct Hl. lia.
Qed.

(** The operations of the pool keep the inventory, whoever uses networks. *)
Lemma net_inv_host np used h : net_inv np used -> net_inv (np_with_host h np) used.
Proof.
  intros Hi. eapply net_inv_move; [exact Hi| | | |]; [by destruct Hi as [[] _ _ _]; split|
    by split; simpl; lia || done|apply Hi|done].
Qed.
Lemma cleans_inv m np used u np' :
  cleans m -> net_inv np used -> m np = Ok (u, np') -> net_inv np' used.
Proof. intros Hm Hi Hr. destruct (Hm np) as [h Hr']. rewrite Hr' in Hr. injection Hr as <- <-. by apply net_inv_host. Qed.

Lemma populate_loop_inv n rnd np used u np' :
  net_inv np used -> Z.of_nat (length (np_pool np) + n) <= np_MaxNetworkPoolSize np ->
  populate_loop n rnd np = Ok (u, np') ->
  net_inv np' used /\ np_MaxNetworkPoolSize np' = np_MaxNetworkPoolSize np /\
  length (np_pool np') = (length (np_pool np) + n)%nat.
Proof.
  revert rnd np. induction n as [|n IH]; intros rnd np Hi Hn Hr.
  { injection Hr as <- <-. split; [done|]. split; [done|lia]. }
  cbn [populate_loop] in Hr. go_inv. rename x into r, x0 into np1.
  match goal with H : createNetwork _ _ = _ |- _ => rename H into Hc end.
  destruct (createNetwork_alloc (rnd O) np (ni_counters _ _ Hi)) as [Hf|(r'&np''&Hr'&Hco&Hl&Hp&Hm)];
    [congruence|]. rewrite Hc in Hr'. injection Hr' as <- <-.
  set (config := match r with inl _ => None | inr c => Some c end) in Hr.
  assert (Hlen : (length (np_pool np ++ [config]) = S (length (np_pool np)))%nat)
    by (rewrite length_app; simpl; lia).
  assert (Hi1 : net_inv (np_with_pool (np_pool np1 ++ [config]) np1) used).
  { destruct r as [e|c].
    - eapply net_inv_move; [exact Hi|by destruct Hco; split|by destruct Hl; split| |].
      + simpl. rewrite Hp, Hlen. lia.
      + unfold inventory. simpl. rewrite Hp, omap_app. simpl. by rewrite app_nil_r.
    - destruct (Hm c eq_refl) as [Hm1 Hm2].
      eapply (net_inv_new np _ used); [exact Hi|by destruct Hco; split|by destruct Hl; split| exact Hm1|exact Hm2| |].
      + simpl. rewrite Hp, Hlen. lia.
      + unfold inventory. simpl. rewrite Hp, omap_app. simpl. rewrite <- app_assoc. simpl. by rewrite Permutation_middle. }
  apply IH in Hr; [|done|].
  - destruct Hr as (?&Hmax&Hl2). split; [done|]. rewrite Hmax, Hl2. simpl. rewrite Hp, Hlen.
    destruct Hl. split; [done|lia].
  - simpl. rewrite Hp, Hlen. destruct Hl. lia.
Qed.

Lemma populate_inv rnd np used u np' :
  net_inv np used -> populate rnd np = Ok (u, np') ->
  net_inv np' used /\ Z.of_nat (length (np_pool np')) = np_MaxNetworkPoolSize np'.
Proof.
  intros Hi Hr. pose proof (ni_size _ _ Hi). unfold populate in Hr. go_inv.
  match goal with H : go_get _ = _ |- _ => injection H as <- <- end.
  apply (populate_loop_inv _ _ _ used) in Hr; [|done|lia]. destruct Hr as (?&->&->). split; [done|lia].
Qed.

Lemma run_repopulation_inv rnd np used u np' :
  net_inv np used -> run_repopulation rnd np = Ok (u, np') -> net_inv np' used.
Proof.
  intros Hi Hr. unfold run_repopulation in Hr. apply gom_bind_ok in Hr as (?&?&[= <- <-]&Hr).
  destruct (np_repopulations np) as [|n]; [by injection Hr as <- <-|].
  apply gom_bind_ok in Hr as (?&?&[= <- <-]&Hr).
  eapply populate_inv; [|exact Hr]. eapply net_inv_move; [exact Hi| | | |];
    [by destruct Hi as [[] _ _ _]; split|by split; simpl; lia || done|apply Hi|done].
Qed.

Lemma GetOneConfig_inv rnd np used r np' :
  net_inv np used -> GetOneConfig rnd np = Ok (r, np') -> net_inv np' (option_list r ++ used).
Proof.
  intros Hi Hr. unfold GetOneConfig in Hr. apply gom_bind_ok in Hr as (?&?&[= <- <-]&Hr).
  pose proof (ni_size _ _ Hi) as Hs.
  destruct (np_pool np) as [|cfg rest] eqn:Hpool.
  - apply gom_bind_ok in Hr as (r1&np1&Hc&Hr).
    destruct (createNetwork_alloc rnd np (ni_counters _ _ Hi)) as [Hf|(r'&np''&Hr'&Hco&Hl&Hp&Hm)]; [congruence|].
    rewrite Hc in Hr'. injection Hr' as <- <-. destruct r1 as [e|c].
    + injection Hr as <- <-. eapply net_inv_move; [exact Hi|done|done|rewrite Hp, Hpool; done|].
      unfold inventory. by rewrite Hp.
    + apply gom_bind_ok in Hr as (?&?&[= <- <-]&[= <- <-]). destruct (Hm c eq_refl) as [Hm1 Hm2].
      eapply (net_inv_new np _ used); [exact Hi|by destruct Hco; split|by destruct Hl; split|exact Hm1|exact Hm2| |].
      * simpl. by rewrite Hp, Hpool.
      * unfold inventory. simpl. by rewrite Hp, Hpool.
  - apply gom_bind_ok in Hr as (?&np1&Hs1&Hr). apply gom_bind_ok in Hr as (?&?&[= <- <-]&[= <- <-]).
    assert (Hsame : exists n, np1 = np_with_repopulations n np).
    { case_decide; [injection Hs1 as <- <-; eauto|]. injection Hs1 as <- <-.
      exists (np_repopulations np). by destruct np. }
    destruct Hsame as [n ->]. eapply net_inv_move; [exact Hi| | | |].
    + by destruct Hi as [[] _ _ _]; split.
    + by split; simpl; lia || done.
    + simpl. simpl in Hs. lia.
    + unfold inventory. simpl. rewrite Hpool. destruct cfg as [c|]; simpl; [|done].
      by rewrite Permutation_middle.
Qed.

Lemma GiveUpNetwork_inv c np used u np' :
  net_inv np (c :: used) -> GiveUpNetwork c np = Ok (u, np') -> net_inv np' used.
Proof.
  intros Hi Hr. unfold GiveUpNetwork in Hr. apply gom_bind_ok in Hr as (?&?&[= <- <-]&Hr).
  case_decide as Hlt.
  - injection Hr as <- <-. eapply net_inv_move; [exact Hi| | | |].
    + by destruct Hi as [[] _ _ _]; split.
    + by split; simpl; lia || done.
    + simpl. rewrite length_app. simpl. lia.
    + unfold inventory. simpl. rewrite omap_app, <- app_assoc. done.
  - eapply (cleans_inv _ np used); [apply cleans_bind; apply cleans_command| |exact Hr].
    eapply net_inv_move; [exact Hi|apply Hi|apply later_refl|apply Hi|].
    unfold inventory. apply submseteq_skips_l, submseteq_cons. done.
Qed.

Lemma NewNetworkPoolManager_inv pi pe size rnd h np :
  NewNetworkPoolManager pi pe size rnd h = Ok np ->
  net_inv np [] /\ Z.of_nat (length (np_pool np)) = np_MaxNetworkPoolSize np.
Proof.
  unfold NewNetworkPoolManager. intros Hr.
  destruct (populate rnd _) as [[u np']| | |] eqn:Hp in Hr; try done. injection Hr as <-.
  eapply populate_inv; [|exact Hp]. split; simpl.
  - by split.
  - constructor.
  - split; constructor.
  - unfold pool_size. case_decide; lia.
Qed.
End allocation.

(** ** Namespaces and devices of the host

    What the commands do to the network namespaces of the host and to the
    devices of its root namespace.  A device is listed with the namespace of
    its peer: deleting a namespace destroys the devices in it, and destroying
    one end of a pair destroys the other.  Commands that configure addresses,
    routes and rules create and delete nothing.  Every command may fail, and one
    that fails has no effect. *)
Definition quiet (args : list string) : Prop :=
  (exists n rest, args = in_netns n rest /\ forall d, rest ≠ ["ip"; "link"; "set"; d; "netns"; "1"]%string) \/
  (exists rest, args = "sudo"%string :: "ip"%string :: "addr"%string :: rest) \/
  (exists rest, args = "sudo"%string :: "ip"%string :: "route"%string :: rest) \/
  (exists rest, args = "sudo"%string :: "ip"%string :: "link"%string :: "set"%string :: rest) \/
  (exists rest, args = "sudo"%string :: "iptables"%string :: rest).

Class HostSpec (H : Type) `{HostCommands H}
    (namespaces : H -> gset string) (devices : H -> gmap string string) : Prop := {
  hs_netns_add n h err h' :
    run_command ["sudo"; "ip"; "netns"; "add"; n]%string h = (err, h') ->
    devices h' = devices h /\
    (err = None -> (n ∉ namespaces h) /\ namespaces h' = {[n]} ∪ namespaces h) /\
    (err ≠ None -> namespaces h' = namespaces h);
  hs_netns_delete n h err h' :
    run_command ["sudo"; "ip"; "netns"; "delete"; n]%string h = (err, h') ->
    (err = None -> namespaces h' = namespaces h ∖ {[n]} /\ devices h' = filter (fun kv => kv.2 ≠ n) (devices h)) /\
    (err ≠ None -> namespaces h' = namespaces h /\ devices h' = devices h);
  hs_link_del d h err h' :
    run_command ["sudo"; "ip"; "link"; "del"; d]%string h = (err, h') ->
    namespaces h' = namespaces h /\
    (err = None -> devices h' = delete d (devices h)) /\ (err ≠ None -> devices h' = devices h);
  hs_move n d h err h' :
    run_command (in_netns n ["ip"; "link"; "set"; d; "netns"; "1"]%string) h = (err, h') ->
    namespaces h' = namespaces h /\
    (err = None -> devices h !! d = None /\ devices h' = <[d := n]> (devices h)) /\
    (err ≠ None -> devices h' = devices h);
  hs_quiet args h err h' :
    quiet args -> run_command args h = (err, h') -> namespaces h' = namespaces h /\ devices h' = devices h;
  hs_Append t c r h err h' :
    ipt_Append t c r h = (err, h') -> namespaces h' = namespaces h /\ devices h' = devices h;
  hs_AppendUnique t c r h err h' :
    ipt_AppendUnique t c r h = (err, h') -> namespaces h' = namespaces h /\ devices h' = devices h;
  hs_Delete t c r h err h' :
    ipt_Delete t c r h = (err, h') -> namespaces h' = namespaces h /\ devices h' = devices h;
}.

(** The devices of a consistent host: every peer is in a namespace. *)
Definition peers_in (N : gset string) (D : gmap string string) : Prop :=
  forall d n, D !! d = Some n -> n ∈ N.
(** A host that refuses no deletion of a namespace. *)
Definition deletions_succeed {H} `{HostCommands H} (namespaces : H -> gset string) : Prop :=
  forall n h, n ∈ namespaces h -> (run_command ["sudo"; "ip"; "netns"; "delete"; n]%string h).1 = None.

Section host_accounting.
Context {H : Type} `{HC : HostCommands H} (namespaces : H -> gset string) (devices : H -> gmap string string).
Context `{HS : !HostSpec H namespaces devices}.
(** When nothing is left behind. *)
Context (exact : Prop) (Hexact : exact -> deletions_succeed namespaces).
Implicit Types np : NetworkPoolManager H.
Abbreviation M := (GoM (NetworkPoolManager H)).

(** A host with the namespaces [N] and the devices [D]. *)
Definition host_is (N : gset string) (D : gmap string string) (h : H) : Prop :=
  namespaces h = N /\ devices h = D.
(** A consistent host with at least these, and if [exact] with no other. *)
Definition host_has (N : gset string) (D : gmap string string) (h : H) : Prop :=
  N ⊆ namespaces h /\ D ⊆ devices h /\ peers_in (namespaces h) (devices h) /\ (exact -> host_is N D h).

Lemma host_is_has N D h : peers_in N D -> host_is N D h -> host_has N D h.
Proof. intros Hp [HN HD]. unfold host_has, host_is. by rewrite HN, HD. Qed.
Lemma host_has_less N D N0 D0 h :
  N ⊆ N0 -> D ⊆ D0 -> (exact -> N0 = N /\ D0 = D) -> host_has N0 D0 h -> host_has N D h.
Proof.
  intros HN HD HE (A1&A2&A3&A4). split; [by trans N0|]. split; [by trans D0|]. split; [done|].
  intros E. destruct (HE E) as [<- <-]. by apply A4.
Qed.

(** From hosts in [Q], [m] fails and leaves [N] and [D], or returns with [R]. *)
Definition no_leak {A} (N : gset string) (D : gmap string string) (Q : H -> Prop) (m : M (string + A))
    (R : A -> H -> Prop) : Prop :=
  forall np r np', Q (np_host np) -> m np = Ok (r, np') ->
    match r with inl _ => host_has N D (np_host np') | inr x => R x (np_host np') end.
Definition restores (N : gset string) (D : gmap string string) (Q : H -> Prop) (m : M unit) : Prop :=
  forall np u np', Q (np_host np) -> m np = Ok (u, np') -> host_has N D (np_host np').

Lemma command_host args np err np' :
  command args np = Ok (err, np') -> run_command args (np_host np) = (err, np_host np').
Proof. unfold command. destruct (run_command args (np_host np)) as [e h]. by intros [= <- <-]. Qed.

Lemma no_leak_try {A} N D N' D' args cleanup (k : M (string + A)) R :
  quiet args -> restores N D (host_is N' D') cleanup -> no_leak N D (host_is N' D') k R ->
  no_leak N D (host_is N' D') (try_command args cleanup k) R.
Proof.
  intros Hq Hcl Hk np r np' [HN HD] Hr. unfold try_command in Hr. apply gom_bind_ok in Hr as (err&np1&H1&Hr).
  apply command_host in H1. apply hs_quiet in H1 as [E1 E2]; [|done].
  assert (HQ : host_is N' D' (np_host np1)) by (split; congruence).
  destruct err as [e|]; [|by eapply Hk].
  apply gom_bind_ok in Hr as (u&np2&H2&[= <- <-]). by eapply Hcl.
Qed.
Lemma restores_delete N D D' n :
  n ∉ N -> filter (fun kv => kv.2 ≠ n) D' = D -> peers_in N D -> peers_in ({[n]} ∪ N) D' ->
  restores N D (host_is ({[n]} ∪ N) D') (deleteNetworkNamespaceByName n).
Proof.
  intros Hn HD Hp Hp' np u np' [HN HD'] Hr. apply gom_bind_ok in Hr as (err&np1&H1&[= <- <-]).
  apply command_host in H1. pose proof H1 as H2. apply hs_netns_delete in H2 as [E1 E2]. destruct err as [e|].
  - destruct (E2 ltac:(done)) as [E3 E4]. rewrite HN in E3. rewrite HD' in E4. unfold host_has. rewrite E3, E4.
    split; [set_solver|]. split; [rewrite <- HD; apply map_filter_subseteq|]. split; [done|].
    intros E. exfalso. pose proof (Hexact E n (np_host np)) as He. rewrite H1 in He.
    assert (n ∈ namespaces (np_host np)) as Hin by (rewrite HN; set_solver). by specialize (He Hin).
  - destruct (E1 eq_refl) as [E3 E4]. apply host_is_has; [done|]. split; [rewrite E3, HN; set_solver|].
    by rewrite E4, HD'.
Qed.
Lemma restores_device N D Q m d :
  D !! d = None -> restores N D Q m -> restores N D Q (m ;; deleteDeviceByName d).
Proof.
  intros Hd Hm np u np' HQ Hr. apply gom_bind_ok in Hr as (u1&np1&H1&Hr).
  apply Hm in H1 as (A1&A2&A3&A4); [|done].
  apply gom_bind_ok in Hr as (err&np2&H2&[= <- <-]). apply command_host, hs_link_del in H2 as (E3&E4&E5).
  unfold host_has, host_is. rewrite E3. destruct err as [e|]; [rewrite E5 by done; done|]. rewrite E4 by done.
  split; [done|]. split; [|split].
  - apply map_subseteq_spec. intros k x Hk. rewrite lookup_delete_ne by congruence. by eapply lookup_weaken.
  - intros k n [_ Hk]%lookup_delete_Some. by eapply A3.
  - intros E. destruct (A4 E) as [-> ->]. by rewrite delete_id.
Qed.

Lemma filter_peers N D n : peers_in N D -> n ∉ N -> filter (fun kv => kv.2 ≠ n) D = D.
Proof. intros Hp Hn. apply map_filter_id. intros d n' Hd. simpl. intros ->. by apply Hn, (Hp d). Qed.
Lemma filter_peers_insert N D d n :
  peers_in N D -> n ∉ N -> D !! d = None -> filter (fun kv => kv.2 ≠ n) (<[d := n]> D) = D.
Proof.
  intros Hp Hn Hd. rewrite map_filter_insert_False by (simpl; tauto).
  rewrite delete_id by done. by eapply filter_peers.
Qed.

Lemma peers_add N D n : peers_in N D -> peers_in ({[n]} ∪ N) D.
Proof. intros Hp d m Hd. apply Hp in Hd. set_solver. Qed.
Lemma peers_insert N D d n : peers_in N D -> peers_in ({[n]} ∪ N) (<[d := n]> D).
Proof. intros Hp d' m [[_ <-]|[_ Hd]]%lookup_insert_Some; [set_solver|]. apply Hp in Hd. set_solver. Qed.

Ltac quiet_command :=
  solve [left; eexists _, _; split; [reflexivity|intros ? ?; congruence]
        |right; left; eexists; reflexivity|right; right; left; eexists; reflexivity
        |right; right; right; left; eexists; reflexivity].

Lemma configure_pair_no_leak N D n tap g d hin hex exp :
  peers_in N D -> n ∉ N -> g ≠ "netns"%string ->
  no_leak N D (host_is ({[n]} ∪ N) D) (configure_pair n tap g d hin hex exp)
    (fun x h => x = (d, exp, hin, hex) /\ D !! d = None /\ host_is ({[n]} ∪ N) (<[d := n]> D) h).
Proof.
  intros Hp Hn Hg. unfold configure_pair. apply no_leak_try; [quiet_command| |].
  { apply restores_delete; [done|by eapply filter_peers|done|by apply peers_add]. }
  intros np r np' [HN HD] Hr. unfold try_command at 1 in Hr. apply gom_bind_ok in Hr as (err&np1&H1&Hr).
  apply command_host, hs_move in H1 as (E1&E2&E3). destruct err as [e|].
  { apply gom_bind_ok in Hr as (u&np2&H2&[= <- <-]).
    eapply restores_delete; [exact Hn| |exact Hp| | |exact H2]; [by eapply filter_peers|by apply peers_add|].
    split; [congruence|]. by rewrite E3. }
  destruct (E2 eq_refl) as [Hd HD']. rewrite HD in Hd, HD'.
  assert (HQ : host_is ({[n]} ∪ N) (<[d := n]> D) (np_host np1)) by (split; congruence). clear HN HD E1 E2 E3 HD'.
  assert (Hns : restores N D (host_is ({[n]} ∪ N) (<[d := n]> D)) (deleteNetworkNamespaceByName n))
    by (apply restores_delete; [done|by eapply filter_peers_insert|done|by apply peers_insert]).
  revert np1 r np' HQ Hr. clear np.
  refine (_ : no_leak N D (host_is ({[n]} ∪ N) (<[d := n]> D)) _
    (fun x h => x = (d, exp, hin, hex) /\ D !! d = None /\ host_is ({[n]} ∪ N) (<[d := n]> D) h)).
  repeat (apply no_leak_try; [quiet_command|first [exact Hns|by apply restores_device]|]).
  intros np1 r np' HQ [= <- <-]. done.
Qed.

Lemma createVETHPair_no_leak N D n tap :
  peers_in N D -> n ∉ N ->
  no_leak N D (host_is ({[n]} ∪ N) D) (createVETHPair n tap)
    (fun x h => D !! x.1.1.1 = None /\ host_is ({[n]} ∪ N) (<[x.1.1.1 := n]> D) h).
Proof.
  intros Hp Hn np r np' HQ Hr. unfold createVETHPair in Hr.
  apply gom_bind_ok in Hr as (id&np1&H1&Hr). unfold zoom in H1. injection H1 as <- <-.
  apply gom_bind_ok in Hr as ([hin hex]&np2&H2&Hr). unfold zoom in H2.
  destruct (GenerateIPMACPair _) as [[? ?]| | |] in H2; try done. injection H2 as -> <-.
  apply gom_bind_ok in Hr as (exp&np3&H3&Hr). unfold zoom in H3.
  destruct (GenerateSingleIP _) as [[? ?]| | |] in H3; try done. injection H3 as -> <-.
  eapply configure_pair_no_leak in Hr; [|done|done|discriminate|exact HQ].
  destruct r as [e|x]; [done|]. by destruct Hr as (->&?&?).
Qed.

Lemma createNetwork_no_leak N D rnd :
  peers_in N D ->
  no_leak N D (host_is N D) (createNetwork rnd)
    (fun c h => (nc_NetNS c ∉ N) /\ D !! nc_VETHHostName c = None /\
                host_is ({[nc_NetNS c]} ∪ N) (<[nc_VETHHostName c := nc_NetNS c]> D) h).
Proof.
  intros Hp np r np' [HN HD] Hr. unfold createNetwork in Hr. unfold try_command at 1 in Hr.
  apply gom_bind_ok in Hr as (err&np1&H1&Hr). apply command_host, hs_netns_add in H1 as (E1&E2&E3).
  destruct err as [e|].
  { injection Hr as <- <-. apply host_is_has; [done|]. split; [by rewrite E3|congruence]. }
  destruct (E2 eq_refl) as [Hn HN']. rewrite HN in Hn, HN'.
  assert (HQ : host_is ({[netns_name rnd]} ∪ N) D (np_host np1)) by (split; congruence).
  clear HN HD E1 E2 E3 HN'. revert np1 r np' HQ Hr.
  assert (Hns : restores N D (host_is ({[netns_name rnd]} ∪ N) D) (deleteNetworkNamespaceByName (netns_name rnd)))
    by (apply restores_delete; [done|by eapply filter_peers|done|by apply peers_add]).
  refine (_ : no_leak N D (host_is ({[netns_name rnd]} ∪ N) D) _
    (fun c h => (nc_NetNS c ∉ N) /\ D !! nc_VETHHostName c = None /\
                host_is ({[nc_NetNS c]} ∪ N) (<[nc_VETHHostName c := nc_NetNS c]> D) h)).
  do 3 (apply no_leak_try; [quiet_command|exact Hns|]).
  intros np1 r np' HQ Hr. apply gom_bind_ok in Hr as (r1&np2&H2&Hr).
  eapply createVETHPair_no_leak in H2; [|done|done|exact HQ].
  destruct r1 as [e|[[[name exp] hin] hex]]; injection Hr as <- <-; [done|]. simpl in *. tauto.
Qed.
(** ** The host has the networks of the inventory *)

Definition device_of (c : NetworkConfig) : string * string := (nc_VETHHostName c, nc_NetNS c).
Abbreviation netns_of l := (list_to_set (nc_NetNS <$> l) : gset string).
Abbreviation devices_of l := (list_to_map (device_of <$> l) : gmap string string).
Record accounts (l : list NetworkConfig) (h : H) : Prop := {
  ac_netns : NoDup (nc_NetNS <$> l);
  ac_names : NoDup (nc_VETHHostName <$> l);
  ac_host : host_has (netns_of l) (devices_of l) h;
}.

Lemma device_names l : (device_of <$> l).*1 = nc_VETHHostName <$> l.
Proof. by rewrite <- list_fmap_compose. Qed.
Lemma accounts_peers l : peers_in (netns_of l) (devices_of l).
Proof.
  intros d n Hd. apply elem_of_list_to_map_2, list_elem_of_fmap in Hd as (c&[= -> ->]&Hc).
  apply elem_of_list_to_set, list_elem_of_fmap. eauto.
Qed.
Lemma accounts_perm l l' h : l ≡ₚ l' -> accounts l h -> accounts l' h.
Proof.
  intros Hl [A1 A2 A3].
  assert (E : devices_of l' = devices_of l).
  { symmetry. apply list_to_map_proper; [by rewrite device_names|]. by rewrite Hl. }
  assert (E' : netns_of l' = netns_of l) by (apply leibniz_equiv; by rewrite Hl).
  rewrite Hl in A1, A2. split; [done|done|]. by rewrite E, E'.
Qed.
Lemma device_absent l d : d ∉ nc_VETHHostName <$> l -> devices_of l !! d = None.
Proof. intros Hd. apply not_elem_of_list_to_map_1. by rewrite device_names. Qed.

Lemma accounts_new l c h h' :
  accounts l h -> (nc_NetNS c ∉ namespaces h) -> devices h !! nc_VETHHostName c = None ->
  host_is ({[nc_NetNS c]} ∪ namespaces h) (<[nc_VETHHostName c := nc_NetNS c]> (devices h)) h' ->
  accounts (c :: l) h'.
Proof.
  intros [A1 A2 (B1&B2&B3&B4)] Hn Hd Hh. split; rewrite ?fmap_cons.
  - apply list.NoDup_cons. split; [|done]. intros Hin. apply Hn, B1. by apply elem_of_list_to_set.
  - apply list.NoDup_cons. split; [|done]. intros Hin. apply list_elem_of_fmap in Hin as (c'&E&Hc).
    assert (Hl : devices_of l !! nc_VETHHostName c = Some (nc_NetNS c')).
    { apply elem_of_list_to_map_1; [by rewrite device_names|]. apply list_elem_of_fmap. exists c'.
      unfold device_of. by rewrite E. }
    by rewrite (lookup_weaken _ _ _ _ Hl B2) in Hd.
  - apply host_is_has in Hh; [|by apply peers_insert]. eapply host_has_less; [| | |exact Hh]; cbn.
    + by apply union_mono_l.
    + by apply insert_mono.
    + intros E. by destruct (B4 E) as [-> ->].
Qed.

Lemma createNetwork_accounts rnd np l r np' :
  accounts l (np_host np) -> createNetwork rnd np = Ok (r, np') ->
  match r with inl _ => accounts l (np_host np') | inr c => accounts (c :: l) (np_host np') end.
Proof.
  intros Ha Hr. destruct (ac_host _ _ Ha) as (B1&B2&B3&B4).
  apply (createNetwork_no_leak _ _ rnd B3) in Hr; [|done].
  destruct r as [e|c]; [|destruct Hr as (?&?&?); by eapply accounts_new].
  destruct Ha as [A1 A2 _]. split; [done|done|]. by eapply host_has_less.
Qed.

Lemma drop_network_accounts c l np u np' :
  accounts (c :: l) (np_host np) ->
  (deleteNetworkNamespaceByName (nc_NetNS c) ;; deleteDeviceByName (nc_VETHHostName c)) np = Ok (u, np') ->
  accounts l (np_host np').
Proof.
  intros [A1 A2 (B1&B2&B3&B4)] Hr. rewrite fmap_cons in A1, A2.
  apply list.NoDup_cons in A1 as [C1 C2], A2 as [C3 C4]. split; [done|done|].
  set (h := np_host np) in *. set (n := nc_NetNS c) in *. set (d := nc_VETHHostName c) in *.
  assert (Hnl : n ∉ netns_of l) by (by rewrite elem_of_list_to_set).
  assert (Hd : devices h !! d = Some n) by (eapply lookup_weaken; [apply lookup_insert_eq|exact B2]).
  assert (Hun : {[n]} ∪ namespaces h ∖ {[n]} = namespaces h).
  { apply leibniz_equiv. assert (n ∈ namespaces h) by (apply B1; cbn; set_solver).
    intros x. destruct (decide (x = n)); set_solver. }
  eapply (restores_device (namespaces h ∖ {[n]}) (filter (fun kv => kv.2 ≠ n) (devices h))
            (host_is (namespaces h) (devices h))) in Hr; [| | |done].
  - eapply host_has_less; [| | |exact Hr].
    + intros x Hx. apply elem_of_difference. split; [apply B1; cbn; set_solver|]. set_solver.
    + apply map_subseteq_spec. intros k x Hk. apply map_lookup_filter_Some. split.
      * eapply lookup_weaken; [|exact B2]. cbn. rewrite lookup_insert_ne; [done|]. intros <-.
        by rewrite device_absent in Hk.
      * cbn. intros ->. by apply Hnl, (accounts_peers l k).
    + intros E. destruct (B4 E) as [-> ->]. cbn. split; [set_solver|].
      apply (filter_peers_insert (netns_of l)); [apply accounts_peers|done|by apply device_absent].
  - apply map_lookup_filter_None. right. intros x Hx. cbn. rewrite Hd in Hx. intros Hne. by injection Hx as <-.
  - rewrite <- Hun at 2. apply restores_delete; [set_solver|done| |by rewrite Hun].
    intros k x [Hk Hx]%map_lookup_filter_Some. cbn in Hx. apply B3 in Hk. set_solver.
Qed.

(** ** Operations keep the account *)

Definition node_inv np (used : list NetworkConfig) : Prop :=
  net_inv np used /\ accounts (inventory np used) (np_host np).

Lemma createNetwork_pool rnd np used r np' :
  net_inv np used -> createNetwork rnd np = Ok (r, np') -> np_pool np' = np_pool np.
Proof.
  intros Hi Hr. destruct (createNetwork_alloc rnd np (ni_counters _ _ Hi)) as [Hf|(?&?&Hr'&_&_&Hp&_)];
    [congruence|]. rewrite Hr in Hr'. by injection Hr' as <- <-.
Qed.

Lemma populate_loop_node n rnd np used u np' :
  node_inv np used -> Z.of_nat (length (np_pool np) + n) <= np_MaxNetworkPoolSize np ->
  populate_loop n rnd np = Ok (u, np') -> accounts (inventory np' used) (np_host np').
Proof.
  revert rnd np. induction n as [|n IH]; intros rnd np [Hi Ha] Hn Hr; [by injection Hr as <- <-|].
  assert (Hone : populate_loop 1 rnd np = (r ← createNetwork (rnd O);
    go_modify (fun np => np_with_pool (np_pool np ++ [match r with inl _ => None | inr c => Some c end]) np)) np).
  { cbn [populate_loop]. unfold mbind, gom_bind. by destruct (createNetwork (rnd O) np) as [[r np1]| | |]. }
  cbn [populate_loop] in Hr. apply gom_bind_ok in Hr as (r&np1&Hc&Hr).
  apply gom_bind_ok in Hr as (?&np2&[= <- <-]&Hr).
  pose proof (createNetwork_pool _ _ _ _ _ Hi Hc) as Hp.
  rewrite (gom_bind_run _ _ _ _ _ Hc) in Hone.
  apply (populate_loop_inv _ _ _ used) in Hone as (Hi2&Hmax&Hlen); [|done|lia].
  eapply IH; [split; [exact Hi2|]| |exact Hr]; [|rewrite Hmax, Hlen; lia].
  pose proof (createNetwork_accounts _ _ _ _ _ Ha Hc) as Ha2. unfold inventory in *. simpl. rewrite Hp, omap_app.
  destruct r as [e|c]; simpl; [by rewrite app_nil_r|]. rewrite <- app_assoc. simpl.
  eapply accounts_perm; [|exact Ha2]. by rewrite Permutation_middle.
Qed.

Lemma populate_node rnd np used u np' :
  node_inv np used -> populate rnd np = Ok (u, np') -> node_inv np' used.
Proof.
  intros Hn Hr. split; [eapply populate_inv; [apply Hn|done]|].
  unfold populate in Hr. apply gom_bind_ok in Hr as (?&?&[= <- <-]&Hr).
  pose proof (ni_size _ _ (proj1 Hn)). eapply populate_loop_node; [exact Hn| |exact Hr]. lia.
Qed.
Lemma run_repopulation_node rnd np used u np' :
  node_inv np used -> run_repopulation rnd np = Ok (u, np') -> node_inv np' used.
Proof.
  intros Hn Hr. unfold run_repopulation in Hr. apply gom_bind_ok in Hr as (?&?&[= <- <-]&Hr).
  destruct (np_repopulations np) as [|n]; [by injection Hr as <- <-|].
  apply gom_bind_ok in Hr as (?&?&[= <- <-]&Hr). eapply populate_node; [|exact Hr].
  destruct Hn as [Hi Ha]. split; [|exact Ha]. eapply net_inv_move; [exact Hi| | | |];
    [by destruct Hi as [[] _ _ _]; split|by split; simpl; lia || done|apply Hi|done].
Qed.

Lemma GetOneConfig_node rnd np used r np' :
  node_inv np used -> GetOneConfig rnd np = Ok (r, np') -> node_inv np' (option_list r ++ used).
Proof.
  intros [Hi Ha] Hr. split; [by eapply GetOneConfig_inv|].
  unfold GetOneConfig in Hr. apply gom_bind_ok in Hr as (?&?&[= <- <-]&Hr).
  destruct (np_pool np) as [|cfg rest] eqn:Hpool.
  - apply gom_bind_ok in Hr as (r1&np1&Hc&Hr). pose proof (createNetwork_pool _ _ _ _ _ Hi Hc) as Hp.
    pose proof (createNetwork_accounts _ _ _ _ _ Ha Hc) as Ha2.
    unfold inventory in *. rewrite Hpool in Ha2, Hp. destruct r1 as [e|c].
    + injection Hr as <- <-. by rewrite Hp.
    + apply gom_bind_ok in Hr as (?&?&[= <- <-]&[= <- <-]). simpl. by rewrite Hp.
  - apply gom_bind_ok in Hr as (?&np1&Hs1&Hr). apply gom_bind_ok in Hr as (?&?&[= <- <-]&[= <- <-]).
    assert (Hh : np_host np1 = np_host np) by (case_decide; by injection Hs1 as <- <-).
    simpl. rewrite Hh. eapply accounts_perm; [|exact Ha]. unfold inventory. simpl. rewrite Hpool.
    destruct cfg as [c|]; simpl; [|done]. by rewrite Permutation_middle.
Qed.

Lemma GiveUpNetwork_node c np used u np' :
  node_inv np (c :: used) -> GiveUpNetwork c np = Ok (u, np') -> node_inv np' used.
Proof.
  intros [Hi Ha] Hr. split; [by eapply GiveUpNetwork_inv|].
  unfold GiveUpNetwork in Hr. apply gom_bind_ok in Hr as (?&?&[= <- <-]&Hr). case_decide.
  - injection Hr as <- <-. simpl. unfold inventory in *. simpl. rewrite omap_app, <- app_assoc. exact Ha.
  - assert (Hpool : np_pool np' = np_pool np).
    { destruct (cleans_bind _ _ (cleans_command ["sudo"; "ip"; "netns"; "delete"; nc_NetNS c]%string)
        (cleans_command ["sudo"; "ip"; "link"; "del"; nc_VETHHostName c]%string) np) as [h Hr'].
      unfold deleteNetworkNamespaceByName, deleteDeviceByName in Hr. rewrite Hr' in Hr. by injection Hr as <- <-. }
    unfold inventory. rewrite Hpool. eapply drop_network_accounts; [|exact Hr].
    eapply accounts_perm; [|exact Ha]. unfold inventory. by rewrite Permutation_middle.
Qed.

(** ** All states of the pool

    From the host [h0]: networks are taken from the pool and given back, and the
    goroutines that refill it run at any time. *)
Inductive pool_reach (h0 : H) : NetworkPoolManager H -> list NetworkConfig -> Prop :=
| reach_new pi pe size rnd np :
    NewNetworkPoolManager pi pe size rnd h0 = Ok np -> pool_reach h0 np []
| reach_get np used rnd r np' :
    pool_reach h0 np used -> GetOneConfig rnd np = Ok (r, np') -> pool_reach h0 np' (option_list r ++ used)
| reach_give_up np used c used' u np' :
    pool_reach h0 np used -> used ≡ₚ c :: used' -> GiveUpNetwork c np = Ok (u, np') -> pool_reach h0 np' used'
| reach_refill np used rnd u np' :
    pool_reach h0 np used -> run_repopulation rnd np = Ok (u, np') -> pool_reach h0 np' used.

Lemma node_inv_perm np used used' : used ≡ₚ used' -> node_inv np used -> node_inv np used'.
Proof.
  intros Hu [Hi Ha]. assert (Hp : inventory np used ≡ₚ inventory np used') by (unfold inventory; by rewrite Hu).
  split; [|by eapply accounts_perm]. eapply net_inv_move; [exact Hi|apply Hi|apply later_refl|apply Hi|by rewrite Hp].
Qed.

Lemma pool_reach_node h0 np used :
  peers_in (namespaces h0) (devices h0) -> (exact -> host_is ∅ ∅ h0) -> pool_reach h0 np used -> node_inv np used.
Proof.
  intros Hh0 Hclean. induction 1 as [pi pe size rnd np Hnew|np used rnd r np' _ IH Hr|
    np used c used' u np' _ IH Hu Hr|np used rnd u np' _ IH Hr].
  - split; [by eapply NewNetworkPoolManager_inv|]. unfold NewNetworkPoolManager in Hnew.
    destruct (populate rnd _) as [[u np']| | |] eqn:Hp in Hnew; try done. injection Hnew as <-.
    eapply populate_node; [|exact Hp]. split.
    + split; simpl; [by split|constructor|by split; constructor|]. unfold pool_size. case_decide; lia.
    + split; simpl; [constructor|constructor|]. split; [set_solver|]. split; [apply map_empty_subseteq|]. done.
  - by eapply GetOneConfig_node.
  - eapply GiveUpNetwork_node; [|exact Hr]. by eapply node_inv_perm.
  - by eapply run_repopulation_node.
Qed.
End host_accounting.

(** C21: No two networks share an identifier, and none is lost while the host
    deletes what it is told to.  On a consistent host, however networks are
    taken, given back and created in the background and whatever commands fail
    on the way: the networks in the pool and in use carry different interface
    names, internal addresses, exposed addresses and namespaces, the namespace
    and the interface of each of them exist on the host, and the pool never
    exceeds its size.  If moreover the host was without networks at the start
    and refuses no deletion of a namespace, its namespaces and interfaces are
    exactly those of these networks: a creation that fails half-way leaves
    nothing behind. *)
Theorem networks_unique_and_accounted {H} `{HostCommands H} namespaces devices
    `{!HostSpec H namespaces devices} h0 np used :
  peers_in (namespaces h0) (devices h0) -> pool_reach h0 np used ->
  let l := inventory np used in
  NoDup (nc_VETHHostName <$> l) /\ NoDup (nc_VETHInternalIP <$> l) /\ NoDup (nc_ExposedIP <$> l) /\
  NoDup (nc_NetNS <$> l) /\
  (forall c, c ∈ l -> nc_NetNS c ∈ namespaces (np_host np) /\
     devices (np_host np) !! nc_VETHHostName c = Some (nc_NetNS c)) /\
  Z.of_nat (length (np_pool np)) <= np_MaxNetworkPoolSize np /\
  (host_is namespaces devices ∅ ∅ h0 -> deletions_succeed namespaces ->
   namespaces (np_host np) = list_to_set (nc_NetNS <$> l) /\
   devices (np_host np) = list_to_map (device_of <$> l)).
Proof.
  intros Hh0 Hr l.
  destruct (pool_reach_node namespaces devices (host_is namespaces devices ∅ ∅ h0 /\ deletions_succeed namespaces)
    ltac:(tauto) h0 np used Hh0 ltac:(tauto) Hr) as [[_ _ [A1 A2 A3] A4] [B1 B2 (B3&B4&_&B6)]].
  split_and!; try done; [|intros Hc Hd; exact (B6 (conj Hc Hd))]. intros c Hc. split.
  - apply B3, elem_of_list_to_set, list_elem_of_fmap. eauto.
  - eapply lookup_weaken; [|exact B4]. apply elem_of_list_to_map_1; [by rewrite device_names|].
    apply list_elem_of_fmap. by exists c.
Qed.

(** A refused deletion: the namespace of a network that is given up while the
    pool is full stays, and no network knows it any more. *)
Lemma refused_deletion_leaks {H} `{HostCommands H} namespaces devices `{!HostSpec H namespaces devices}
    c np u np' :
  np_MaxNetworkPoolSize np <= Z.of_nat (length (np_pool np)) -> nc_NetNS c ∈ namespaces (np_host np) ->
  (forall h, (run_command ["sudo"; "ip"; "netns"; "delete"; nc_NetNS c]%string h).1 ≠ None) ->
  GiveUpNetwork c np = Ok (u, np') ->
  np_pool np' = np_pool np /\ nc_NetNS c ∈ namespaces (np_host np').
Proof.
  intros Hfull Hin Href Hr. unfold GiveUpNetwork in Hr. apply gom_bind_ok in Hr as (?&?&[= <- <-]&Hr).
  rewrite decide_False in Hr by lia. apply gom_bind_ok in Hr as (u1&np1&H1&Hr).
  apply gom_bind_ok in H1 as (e1&np2&H1&[= <- <-]). apply gom_bind_ok in Hr as (e2&np3&H2&[= <- <-]).
  assert (Hp : np_pool np3 = np_pool np).
  { unfold command in H1, H2. destruct (run_command _ (np_host np)) as [x1 h1], (run_command _ (np_host np2)) as [x2 h2].
    injection H1 as <- <-. by injection H2 as <- <-. }
  split; [done|]. apply command_host in H1, H2. pose proof (Href (np_host np)) as Hne. rewrite H1 in Hne. cbn in Hne.
  apply (hs_netns_delete (devices := devices)) in H1 as [_ E1]. apply (hs_link_del (devices := devices)) in H2 as [E2 _].
  destruct (E1 Hne) as [E3 _]. by rewrite E2, E3.
Qed.

Lemma populate_loop_app n rnd (H : Type) `{HostCommands H} (np : NetworkPoolManager H) u np' :
  populate_loop n rnd np = Ok (u, np') -> counters_ok np -> exists more, np_pool np' = np_pool np ++ more.
Proof.
  revert rnd np. induction n as [|n IH]; intros rnd np Hr Hc.
  { injection Hr as <- <-. exists []. by rewrite app_nil_r. }
  cbn [populate_loop] in Hr. apply gom_bind_ok in Hr as (r&np1&H1&Hr).
  destruct (createNetwork_alloc (rnd O) np Hc) as [Hf|(?&?&Hr'&Hco&_&Hp&_)]; [congruence|].
  rewrite H1 in Hr'. injection Hr' as <- <-. apply gom_bind_ok in Hr as (?&?&[= <- <-]&Hr).
  apply IH in Hr as [more Hm]; [|by destruct Hco; split]. simpl in Hm. rewrite Hp, <- app_assoc in Hm. eauto.
Qed.

(** A creation that fails while the pool is filled leaves a nil entry in it:
    the request that takes the entry later fails although the host has
    recovered and a network could be created. *)
Theorem failed_creation_poisons_pool {H} `{HostCommands H} (np np' : NetworkPoolManager H) rnd e np1 u :
  counters_ok np -> np_pool np = [] -> 0 < np_MaxNetworkPoolSize np ->
  createNetwork (rnd O) np = Ok (inl e, np1) -> populate rnd np = Ok (u, np') ->
  forall r h, exists np'', GetOneConfig r (np_with_host h np') = Ok (None, np'').
Proof.
  intros Hc Hpool Hmax Hcr Hr r h. unfold populate in Hr. apply gom_bind_ok in Hr as (?&?&[= <- <-]&Hr).
  rewrite Hpool, Z.sub_0_r in Hr. destruct (Z.to_nat (np_MaxNetworkPoolSize np)) as [|n] eqn:Hn; [lia|].
  cbn [populate_loop] in Hr. rewrite (gom_bind_run _ _ _ _ _ Hcr) in Hr.
  apply gom_bind_ok in Hr as (?&?&[= <- <-]&Hr).
  destruct (createNetwork_alloc (rnd O) np Hc) as [Hf|(?&?&Hr'&Hco&_&Hp&_)]; [congruence|].
  rewrite Hcr in Hr'. injection Hr' as <- <-.
  apply populate_loop_app in Hr as [more Hm]; [|by destruct Hco; split]. simpl in Hm. rewrite Hp, Hpool in Hm.
  unfold GetOneConfig. erewrite gom_bind_run; [|reflexivity]. simpl. rewrite Hm. simpl.
  case_decide; (erewrite gom_bind_run; [|reflexivity]); (erewrite gom_bind_run; [|reflexivity]); eexists; reflexivity.
Qed.

(** ** A host

    Commands that mention a word of [broken] fail without effect. *)
Module HostExample.
Record Host (broken : list string) : Type := mkHost {
  xh_namespaces : gset string;
  xh_devices : gmap string string;
}.
Arguments mkHost {broken} _ _.
Arguments xh_namespaces {broken} _.
Arguments xh_devices {broken} _.
Section host.
Context {broken : list string}.
Abbreviation HostB := (Host broken).
Definition fails (args : list string) : bool := existsb (fun a => bool_decide (a ∈ broken)) args.
Definition plain (args : list string) (h : HostB) : go_error * HostB :=
  (if fails args then Some "failed"%string else None, h).
Definition run (args : list string) (h : HostB) : go_error * HostB :=
  match args with
  | [a; b; c; d; n] =>
      if fails args then (Some "failed"%string, h)
      else if decide ([a; b; c; d] = ["sudo"; "ip"; "netns"; "add"]%string) then
        if decide (n ∈ xh_namespaces h) then (Some "exists"%string, h)
        else (None, mkHost ({[n]} ∪ xh_namespaces h) (xh_devices h))
      else if decide ([a; b; c; d] = ["sudo"; "ip"; "netns"; "delete"]%string) then
        if decide (n ∈ xh_namespaces h)
        then (None, mkHost (xh_namespaces h ∖ {[n]}) (filter (fun kv => kv.2 ≠ n) (xh_devices h)))
        else (Some "missing"%string, h)
      else if decide ([a; b; c; d] = ["sudo"; "ip"; "link"; "del"]%string) then
        (None, mkHost (xh_namespaces h) (delete n (xh_devices h)))
      else (None, h)
  | [a; b; c; e; n; i; l; s; d; t; o] =>
      if decide ([a; b; c; e; i; l; s; t; o] =
                 ["sudo"; "ip"; "netns"; "exec"; "ip"; "link"; "set"; "netns"; "1"]%string) then
        if decide (is_Some (xh_devices h !! d)) then (Some "exists"%string, h)
        else if fails args then (Some "failed"%string, h)
        else (None, mkHost (xh_namespaces h) (<[d := n]> (xh_devices h)))
      else plain args h
  | _ => plain args h
  end.
Definition rule (table chain : string) (r : list string) (h : HostB) : go_error * HostB :=
  plain (table :: chain :: r) h.

#[export] Instance host_commands : HostCommands HostB := {
  run_command := run;
  ipt_Append := rule;
  ipt_AppendUnique := rule;
  ipt_Delete := rule;
}.

Lemma run_quiet args h : quiet args -> (run args h).2 = h.
Proof.
  intros [(n&rest&->&Hm)|[(r&->)|[(r&->)|[(r&->)|(r&->)]]]]; unfold in_netns; cbn [app run].
  - destruct rest as [|i [|l [|s [|d [|t [|o [|]]]]]]]; cbn [run]; try first [done|by destruct (fails _)].
    rewrite decide_False; [done|]. intros [= -> -> -> -> ->]. by apply (Hm d).
  - destruct r as [|? [|? [|? [|? [|? [|? [|? [|? [|]]]]]]]]]; cbn [run]; first [done|by destruct (fails _)].
  - destruct r as [|? [|? [|? [|? [|? [|? [|? [|? [|]]]]]]]]]; cbn [run]; first [done|by destruct (fails _)].
  - destruct r as [|? [|? [|? [|? [|? [|? [|? [|]]]]]]]]; cbn [run]; first [done|by destruct (fails _)].
  - destruct r as [|? [|? [|? [|? [|? [|? [|? [|? [|? [|]]]]]]]]]]; cbn [run]; first [done|by destruct (fails _)].
Qed.

#[export] Instance host_spec : HostSpec HostB xh_namespaces xh_devices.
Proof.
  split.
  - intros n h err h'. cbn [run_command host_commands run]. destruct (fails _); [by intros [= <- <-]|].
    rewrite decide_True by done. case_decide; by intros [= <- <-].
  - intros n h err h'. cbn [run_command host_commands run]. destruct (fails _); [by intros [= <- <-]|].
    rewrite decide_False, decide_True by done. case_decide; by intros [= <- <-].
  - intros d h err h'. cbn [run_command host_commands run]. destruct (fails _); [by intros [= <- <-]|].
    rewrite !decide_False, decide_True by done. by intros [= <- <-].
  - intros n d h err h'. cbn [run_command host_commands run in_netns app]. rewrite decide_True by done.
    case_decide as Hd; [by intros [= <- <-]|]. destruct (fails _); intros [= <- <-]; [done|].
    split; [done|]. split; [|done]. split; [|done]. by apply eq_None_not_Some.
  - intros args h err h' Hq Hr. apply (run_quiet args h) in Hq. cbn [run_command host_commands] in Hr.
    by rewrite Hr in Hq; simpl in Hq; subst.
  - by intros t c r h err h' [= <- <-].
  - by intros t c r h err h' [= <- <-].
  - by intros t c r h err h' [= <- <-].
Qed.

Definition empty_host : HostB := mkHost ∅ ∅.
Lemma empty_host_consistent : peers_in (xh_namespaces empty_host) (xh_devices empty_host).
Proof. intros d n Hd. cbn in Hd. by rewrite lookup_empty in Hd. Qed.
End host.

(** The host on which nothing fails. *)
Lemma sound_host_deletes : deletions_succeed (H := Host []) xh_namespaces.
Proof.
  intros n h Hn. cbn [run_command host_commands run]. change (fails _) with false. cbv iota.
  by rewrite decide_False, !decide_True by done.
Qed.
Definition start : outcome (NetworkPoolManager (Host [])) :=
  NewNetworkPoolManager "10.1" "172.17" 20 Z.of_nat empty_host.
End HostExample.
Import HostExample.

Lemma networks_unique_and_accounted_witness :
  exists np c np', HostExample.start = Ok np /\ GetOneConfig 77 np = Ok (Some c, np') /\
    NoDup (nc_ExposedIP <$> inventory np' [c]) /\
    xh_namespaces (np_host np') = list_to_set (nc_NetNS <$> inventory np' [c]).
Proof.
  assert (Hv : match HostExample.start with
               | Ok np => match GetOneConfig 77 np with Ok (Some _, _) => true | _ => false end
               | _ => false
               end = true) by (vm_compute; reflexivity).
  destruct HostExample.start as [np| | |] eqn:Hs; try discriminate Hv.
  destruct (GetOneConfig 77 np) as [[[c|] np']| | |] eqn:Hg; try discriminate Hv.
  exists np, c, np'. split; [reflexivity|]. split; [exact Hg|].
  destruct (networks_unique_and_accounted HostExample.xh_namespaces HostExample.xh_devices
    HostExample.empty_host np' [c]) as (_&_&H1&_&_&_&H2).
  - apply HostExample.empty_host_consistent.
  - apply (reach_get _ np [] 77 (Some c) np'); [|exact Hg]. exact (reach_new _ "10.1" "172.17" 20 Z.of_nat np Hs).
  - split; [exact H1|]. apply H2; [split; reflexivity|apply HostExample.sound_host_deletes].
Defined.
