(* ===== verification/Sandboxes.v ===== *)
(** * Sandboxes of a worker node

    [sandbox/runtime_interface.go]: what a sandbox runtime offers to the worker
    daemon, and its contract.  [sandbox/firecracker] (virtual machines),
    [sandbox/containerd] (containers) and [sandbox/fake_snapshot] implement it;
    [worker_node.go] uses it.

    Containerd, the CNI plugin, the Firecracker SDK and the kernel are the
    environment: an environment of a call tells what each of their calls
    returns. *)
From Stdlib Require Import ZArith Lia Ascii.
From stdpp Require Import base tactics list gmap strings sets numbers pretty.
From S2P Require Import Prelude Sync Core Net WorkerManagers Networks.

Local Open Scope Z_scope.

(** ** The interface *)

Class RuntimeInterface (S E : Type) : Type := {
  rt_CreateSandbox : E -> ServiceInfo -> GoM S (SandboxCreationStatus * go_error);
  rt_DeleteSandbox : E -> string -> GoM S (ActionStatus * go_error);
  rt_ListEndpoints : E -> GoM S (list proto_Endpoint);
  rt_ValidateHostConfig : E -> bool;
  (* the keys of the table of sandboxes, which the daemon shares *)
  rt_keys : E -> S -> list string;
  (* a goroutine that the runtime has started runs; not a method *)
  rt_background : E -> GoM S unit;
}.

(** What a runtime promises: it knows the sandboxes that are alive, by name,
    with their service and host port.  A successful creation adds one, under a
    name and a port nobody has; a failed one adds none; a deletion removes the
    sandbox, known or not; a listing tells all of them; what runs in the
    background changes none of this.  [SandboxSpec] proves it of the runtimes
    with virtual machines and with containers.  The runtime of measurements has
    no sandboxes and does not keep it ([fake_runtime_no_contract]). *)
Class RuntimeSpec (S E : Type) `{RuntimeInterface S E} (node : S -> string)
    (alive : S -> gmap string (string * Z)) (rt_ok : S -> Prop) (fresh : E -> S -> Prop) (ordered : E -> Prop)
    : Prop := {
  rs_create e i s st err s' :
    rt_ok s -> fresh e s -> rt_CreateSandbox e i s = Ok ((st, err), s') ->
    rt_ok s' /\ node s' = node s /\
    (if scs_Success st && bool_decide (err = None) then
       alive s !! scs_ID st = None /\
       (forall id x, alive s !! id = Some x -> x.2 ≠ pm_HostPort (scs_PortMappings st)) /\
       alive s' = <[scs_ID st := (si_Name i, pm_HostPort (scs_PortMappings st))]> (alive s)
     else alive s' = alive s);
  rs_delete e id s st err s' :
    rt_ok s -> rt_DeleteSandbox e id s = Ok ((st, err), s') ->
    rt_ok s' /\ node s' = node s /\ alive s' = delete id (alive s);
  rs_list e s l s' :
    rt_ok s -> ordered e -> rt_ListEndpoints e s = Ok (l, s') ->
    s' = s /\ ((fun p => (pe_SandboxID p, (pe_ServiceName p, pe_HostPort p))) <$> l ≡ₚ map_to_list (alive s)) /\
    Forall (fun p => pe_NodeName p = node s) l;
  rs_keys e s : rt_ok s -> ordered e -> rt_keys e s ≡ₚ (map_to_list (alive s)).*1;
  rs_background e s u s' :
    rt_ok s -> rt_background e s = Ok (u, s') -> rt_ok s' /\ node s' = node s /\ alive s' = alive s;
}.

Definition creation_failed (id : string) : SandboxCreationStatus :=
  mkSandboxCreationStatus false id (mkPortMapping 0 0 TCP).
Definition with_host_port (p : Z) (m : PortMapping) : PortMapping :=
  mkPortMapping p (pm_GuestPort m) (pm_Protocol m).

(** ** Firecracker *)

Record SnapshotMetadata : Type := mkSnapshotMetadata {
  ss_MemoryPath : string;
  ss_SnapshotPath : string;
}.
(** [firecracker.Config], as far as it is set. *)
Record FirecrackerConfig : Type := mkFirecrackerConfig {
  fcc_SocketPath : string;
  fcc_KernelImagePath : string;
  fcc_KernelArgs : string;
  fcc_LogPath : string;
  fcc_LogLevel : string;
  fcc_DrivePath : string;
  fcc_HostDevName : string;
  fcc_MacAddress : string;
  fcc_NetNS : string;
}.
Record VMControlStructure : Type := mkVMControlStructure {
  vm_NetworkConfiguration : NetworkConfig;
  vm_SandboxID : string;
  vm_KernelPath : string;
  vm_FileSystemPath : string;
}.

(** What surrounds one call: the results of the SDK and of the kernel. *)
Record vm_env : Type := mkVmEnv {
  ve_tmp : string;                                    (* os.TempDir() *)
  ve_id : Z;                                          (* the random number of the sandbox *)
  ve_netns : Z;                                       (* the random number of a new namespace *)
  ve_refill : nat -> Z;                               (* those of a refill of the pool *)
  ve_draw : nat -> Z;                                 (* the draws of AssignRandomPort *)
  ve_draws : nat;                                     (* how many of them are waited for *)
  ve_NewMachine : FirecrackerConfig -> option SnapshotMetadata -> go_error;
  ve_Start : go_error;
  ve_ResumeSnapshot : go_error;
  ve_PID : string + Z;
  ve_healthy : nat -> bool;                           (* the answers to the readiness probe *)
  ve_PauseVM : go_error;
  ve_MkdirAll : go_error;
  ve_CreateSnapshot : go_error;
  ve_ResumeVM : go_error;
  ve_stop_PID : string + Z;
  ve_Kill : go_error;
  ve_kvm : go_error;                                  (* unix.Access *)
  ve_order : range_order string (Metadata VMControlStructure);
}.

(** [fc_portsInUse] is the variable of the package [containerd]; [fc_running]
    are the virtual machines whose process runs, with their network. *)
Record Runtime (H : Type) : Type := mkRuntime {
  fc_NetworkManager : NetworkPoolManager H;
  fc_SandboxManager : SandboxManager VMControlStructure;
  fc_exits : exit_state;
  fc_SnapshotManager : gmap string SnapshotMetadata;
  fc_portsInUse : gset Z;
  fc_running : gmap string NetworkConfig;
  fc_VMDebugMode : bool;
  fc_UseSnapshots : bool;
  fc_KernelPath : string;
  fc_FileSystemPath : string;
}.
Arguments mkRuntime {H} _ _ _ _ _ _ _ _ _ _.
Arguments fc_NetworkManager {H} _.
Arguments fc_SandboxManager {H} _.
Arguments fc_exits {H} _.
Arguments fc_SnapshotManager {H} _.
Arguments fc_portsInUse {H} _.
Arguments fc_running {H} _.
Arguments fc_VMDebugMode {H} _.
Arguments fc_UseSnapshots {H} _.
Arguments fc_KernelPath {H} _.
Arguments fc_FileSystemPath {H} _.

Section firecracker.
Context {H : Type} `{HC : HostCommands H}.
Abbreviation RT := (Runtime H).
Abbreviation M := (GoM (Runtime H)).

Definition fc_with_np (x : NetworkPoolManager H) (r : RT) : RT :=
  mkRuntime x (fc_SandboxManager r) (fc_exits r) (fc_SnapshotManager r) (fc_portsInUse r) (fc_running r)
    (fc_VMDebugMode r) (fc_UseSnapshots r) (fc_KernelPath r) (fc_FileSystemPath r).
Definition fc_with_sm (x : SandboxManager VMControlStructure) (r : RT) : RT :=
  mkRuntime (fc_NetworkManager r) x (fc_exits r) (fc_SnapshotManager r) (fc_portsInUse r) (fc_running r)
    (fc_VMDebugMode r) (fc_UseSnapshots r) (fc_KernelPath r) (fc_FileSystemPath r).
Definition fc_with_exits (x : exit_state) (r : RT) : RT :=
  mkRuntime (fc_NetworkManager r) (fc_SandboxManager r) x (fc_SnapshotManager r) (fc_portsInUse r) (fc_running r)
    (fc_VMDebugMode r) (fc_UseSnapshots r) (fc_KernelPath r) (fc_FileSystemPath r).
Definition fc_with_snapshots (x : gmap string SnapshotMetadata) (r : RT) : RT :=
  mkRuntime (fc_NetworkManager r) (fc_SandboxManager r) (fc_exits r) x (fc_portsInUse r) (fc_running r)
    (fc_VMDebugMode r) (fc_UseSnapshots r) (fc_KernelPath r) (fc_FileSystemPath r).
Definition fc_with_ports (x : gset Z) (r : RT) : RT :=
  mkRuntime (fc_NetworkManager r) (fc_SandboxManager r) (fc_exits r) (fc_SnapshotManager r) x (fc_running r)
    (fc_VMDebugMode r) (fc_UseSnapshots r) (fc_KernelPath r) (fc_FileSystemPath r).
Definition fc_with_running (x : gmap string NetworkConfig) (r : RT) : RT :=
  mkRuntime (fc_NetworkManager r) (fc_SandboxManager r) (fc_exits r) (fc_SnapshotManager r) (fc_portsInUse r) x
    (fc_VMDebugMode r) (fc_UseSnapshots r) (fc_KernelPath r) (fc_FileSystemPath r).
Definition on_np {A} : GoM (NetworkPoolManager H) A -> M A := zoom fc_NetworkManager fc_with_np.
Definition on_sm {A} : GoM (SandboxManager VMControlStructure) A -> M A := zoom fc_SandboxManager fc_with_sm.
Definition on_exits {A} : GoM exit_state A -> M A := zoom fc_exits fc_with_exits.
Definition on_ports {A} : GoM (gset Z) A -> M A := zoom fc_portsInUse fc_with_ports.
Definition on_host (f : H -> H) : M unit := on_np (go_modify (fun np => np_with_host (f (np_host np)) np)).

(** *** Snapshots *)

Definition Exists (serviceName : string) (r : RT) : bool := bool_decide (is_Some (AM_Get (fc_SnapshotManager r) serviceName)).
Definition AddSnapshot (serviceID : string) (metadata : SnapshotMetadata) : M unit :=
  go_modify (fun r => fc_with_snapshots (AM_LoadOrStore serviceID metadata (fc_SnapshotManager r)) r).
Definition FindSnapshot (serviceName : string) (r : RT) : option SnapshotMetadata :=
  AM_Get (fc_SnapshotManager r) serviceName.

(** *** Virtual machines *)

Definition noDebugKernelArgs : string :=
  "panic=1 pci=off nomodule reboot=k tsc=reliable quiet i8042.nokbd i8042.noaux 8250.nr_uarts=0 ipv6.disable=1".
Definition debugKernelArgs : string :=
  "panic=1 pci=off nomodule reboot=k tsc=reliable quiet i8042.noaux ipv6.disable=1 console=ttyS0 random.trust_cpu=on".
(** [filepath.Join] of two parts that need no cleaning. *)
Definition path_join (a b : string) : string := (a +:+ "/" +:+ b)%string.
Definition makeSocketPath (tmp vmmID : string) : string := path_join tmp vmmID.
Definition makeFirecrackerConfig (tmp : string) (vmcs : VMControlStructure) (vmDebugMode : bool) : FirecrackerConfig :=
  let net := vm_NetworkConfiguration vmcs in
  let kernelArgs := if vmDebugMode then debugKernelArgs else noDebugKernelArgs in
  mkFirecrackerConfig (makeSocketPath tmp (vm_SandboxID vmcs)) (vm_KernelPath vmcs)
    (kernelArgs +:+ " ip=" +:+ nc_TapInternalIP net +:+ "::" +:+ nc_TapExternalIP net +:+ ":255.255.255.252::eth0:off")
    ("/tmp/" +:+ vm_SandboxID vmcs +:+ ".log") "Info" (vm_FileSystemPath vmcs)
    (nc_TapDeviceName net) (nc_TapMAC net) ("/var/run/netns/" +:+ nc_NetNS net).
(** The configuration of a machine that is restored from a snapshot. *)
Definition restored_config (c : FirecrackerConfig) : FirecrackerConfig :=
  mkFirecrackerConfig (fcc_SocketPath c) "" "" "" (fcc_LogLevel c) (fcc_DrivePath c) (fcc_HostDevName c)
    (fcc_MacAddress c) (fcc_NetNS c).

Definition createVMCS (env : vm_env) (net : NetworkConfig) (r : RT) : VMControlStructure :=
  mkVMControlStructure net ("firecracker-" +:+ Itoa (ve_id env)) (fc_KernelPath r) (fc_FileSystemPath r).
Definition vm_started (vmcs : VMControlStructure) : M unit :=
  go_modify (fun r => fc_with_running (<[vm_SandboxID vmcs := vm_NetworkConfiguration vmcs]> (fc_running r)) r).
Definition vm_killed (vmcs : VMControlStructure) : M unit :=
  go_modify (fun r => fc_with_running (delete (vm_SandboxID vmcs) (fc_running r)) r).

(** The control structure with its network, or an error. *)
Definition StartFirecrackerVM (env : vm_env) (snapshot : option SnapshotMetadata) : M (string + VMControlStructure) :=
  net ← on_np (GetOneConfig (ve_netns env));
  match net with
  | None => mret (inl "error getting a network interface"%string)
  | Some config =>
      r ← go_get;
      let vmcs := createVMCS env config r in
      let cfg := makeFirecrackerConfig (ve_tmp env) vmcs (fc_VMDebugMode r) in
      let cfg := match snapshot with Some _ => restored_config cfg | None => cfg end in
      match ve_NewMachine env cfg snapshot with
      | Some e => on_np (GiveUpNetwork config) ;; mret (inl e)
      | None =>
          match ve_Start env with
          | Some e => on_np (GiveUpNetwork config) ;; mret (inl e)
          | None =>
              vm_started vmcs ;;
              match snapshot, ve_ResumeSnapshot env with
              | Some _, Some e => on_np (GiveUpNetwork config) ;; mret (inl e)
              | _, _ => mret (inr vmcs)
              end
          end
      end
  end.
Definition StopFirecrackerVM (env : vm_env) (vmcs : VMControlStructure) : M go_error :=
  match ve_stop_PID env with
  | inl e => mret (Some e)
  | inr _ =>
      match ve_Kill env with
      | Some e => mret (Some e)
      | None => vm_killed vmcs ;; mret None
      end
  end.

Definition CreateVMSnapshot (env : vm_env) (vmcs : VMControlStructure) : bool * option SnapshotMetadata :=
  match ve_PauseVM env, ve_MkdirAll env, ve_CreateSnapshot env with
  | None, None, None =>
      let dir := path_join (ve_tmp env) "snapshots" in
      (true, Some (mkSnapshotMetadata (path_join dir ("memory-firecracker-" +:+ vm_SandboxID vmcs))
                     (path_join dir ("snapshot-firecracker-" +:+ vm_SandboxID vmcs))))
  | _, _, _ => (false, None)
  end.

(** *** Sandboxes *)

Definition createMetadata (i : ServiceInfo) (vmcs : VMControlStructure) (ch : nat) : Metadata VMControlStructure :=
  mkMetadata (si_Name i) vmcs 0 (nc_TapInternalIP (vm_NetworkConfiguration vmcs))
    (pm_GuestPort (si_PortForwarding i)) "" ch.

Definition fc_DeleteSandbox (env : vm_env) (id : string) : M (ActionStatus * go_error) :=
  o ← on_sm (SM_DeleteSandbox id);
  match o with
  | None => mret (status_failed, None)
  | Some metadata =>
      let vmcs := md_RuntimeMetadata metadata in
      on_host (DeleteRules (md_HostPort metadata) (md_IP metadata) (md_GuestPort metadata)) ;;
      on_ports (UnassignPort (md_HostPort metadata)) ;;
      StopFirecrackerVM env vmcs ;;
      on_np (GiveUpNetwork (vm_NetworkConfiguration vmcs)) ;;
      mret (status_ok, None)
  end.

(** The steps after the machine runs and its PID is known: readiness, snapshot,
    answer. *)
Definition await_ready (env : vm_env) (i : ServiceInfo) (vmcs : VMControlStructure) (hostPort : Z)
  : M (SandboxCreationStatus * go_error) :=
  p ← go_lift (SendReadinessProbe 0 (ve_healthy env) 23);
  let passed := p.1.1 in
  r ← go_get;
  passed ← (if passed && fc_UseSnapshots r && negb (Exists (si_Image i) r) then
              match CreateVMSnapshot env vmcs with
              | (true, Some paths) => AddSnapshot (si_Image i) paths
              | _ => mret tt
              end ;;
              mret (bool_decide (ve_ResumeVM env = None))
            else mret passed);
  if (passed : bool)
  then mret (mkSandboxCreationStatus true (vm_SandboxID vmcs) (with_host_port (i32 hostPort) (si_PortForwarding i)), None)
  else fc_DeleteSandbox env (vm_SandboxID vmcs) ;; mret (creation_failed (vm_SandboxID vmcs), None).

Definition fc_CreateSandbox (env : vm_env) (i : ServiceInfo) : M (SandboxCreationStatus * go_error) :=
  snapshot ← go_gets (FindSnapshot (si_Image i));
  v ← StartFirecrackerVM env snapshot;
  match v with
  | inl e => mret (creation_failed "", Some e)
  | inr vmcs =>
      ch ← on_exits make_channel;
      hostPort ← on_ports (AssignRandomPort (ve_draws env) (ve_draw env));
      match ve_PID env with
      | inl e =>
          on_np (GiveUpNetwork (vm_NetworkConfiguration vmcs)) ;;
          on_ports (UnassignPort hostPort) ;;
          mret (creation_failed "", Some e)
      | inr vmPID =>
          let m := createMetadata i vmcs ch in
          let ip := nc_ExposedIP (vm_NetworkConfiguration vmcs) in
          let metadata := mkMetadata (md_ServiceName m) (md_RuntimeMetadata m) hostPort ip (md_GuestPort m)
                            (md_NetNs m) ch in
          on_sm (AddSandbox (vm_SandboxID vmcs) metadata) ;;
          on_exits (AddChannel (u32 vmPID) ch) ;;
          on_host (AddRules hostPort ip (md_GuestPort m)) ;;
          on_exits (watch ch (si_Name i) (vm_SandboxID vmcs)) ;;
          await_ready env i vmcs hostPort
      end
  end.

Definition fc_ListEndpoints (env : vm_env) : M (list proto_Endpoint) :=
  go_gets (fun r => SM_ListEndpoints (ve_order env) (fc_SandboxManager r)).
Definition fc_ValidateHostConfig (env : vm_env) : bool := bool_decide (ve_kvm env = None).

(** The constructor: devices of an earlier run are removed first; [devices] are
    the interfaces of the host, [ipt] and [dial] the errors of iptables and of
    the connection to the kernel. *)
Definition NewFirecrackerRuntime (sandboxManager : SandboxManager VMControlStructure)
    (kernelPath fileSystemPath internalIPPrefix externalIPPrefix : string) (vmDebugMode useSnapshots : bool)
    (networkPoolSize : Z) (devices : string + list string) (ipt : go_error) (dial : nat -> go_error)
    (rnd : nat -> Z) (h : H) : outcome RT :=
  let h := (DeleteUnusedNetworkDevices devices h).2 in
  match ipt with
  | Some _ => Fatal
  | None =>
      np ← NewNetworkPoolManager internalIPPrefix externalIPPrefix networkPoolSize rnd h;
      pm ← NewProcessMonitor dial;
      Ok (mkRuntime np sandboxManager (new_exit_state pm) ∅ ∅ ∅ vmDebugMode useSnapshots kernelPath fileSystemPath)
  end.
End firecracker.

#[export] Instance firecracker_runtime {H} `{HostCommands H} : RuntimeInterface (Runtime H) vm_env := {
  rt_CreateSandbox := fc_CreateSandbox;
  rt_DeleteSandbox := fc_DeleteSandbox;
  rt_ListEndpoints := fc_ListEndpoints;
  rt_ValidateHostConfig := fc_ValidateHostConfig;
  rt_keys env r := AM_Keys (ve_order env) (sm_Metadata (fc_SandboxManager r));
  rt_background env := on_np (run_repopulation (ve_refill env));
}.

(** ** Containerd *)

(** A container and its task: the name of the container. *)
Record ContainerdMetadata : Type := mkContainerdMetadata { cm_Container : string }.

(** What containerd and the CNI plugin return: an image for an URL, a container,
    a task with its PID, address and network namespace; and the errors of a
    deletion. *)
Record cr_env : Type := mkCrEnv {
  ce_Pull : string -> string + string;
  ce_name : Z;                                        (* the random number of the container *)
  ce_NewContainer : string -> go_error;
  ce_StartContainer : string + (Z * string * string); (* PID, address, namespace *)
  ce_draw : nat -> Z;
  ce_draws : nat;
  ce_Remove : go_error;
  ce_KillTask : go_error;
  ce_DeleteTask : go_error;
  ce_DeleteContainer : go_error;
  ce_order : range_order string (Metadata ContainerdMetadata);
}.

Record ContainerdRuntime (H : Type) : Type := mkContainerdRuntime {
  cr_host : H;
  cr_ImageManager : gmap string string;
  cr_SandboxManager : SandboxManager ContainerdMetadata;
  cr_exits : exit_state;
  cr_portsInUse : gset Z;
}.
Arguments mkContainerdRuntime {H} _ _ _ _ _.
Arguments cr_host {H} _.
Arguments cr_ImageManager {H} _.
Arguments cr_SandboxManager {H} _.
Arguments cr_exits {H} _.
Arguments cr_portsInUse {H} _.

Section containerd.
Context {H : Type} `{HC : HostCommands H}.
Abbreviation CR := (ContainerdRuntime H).
Abbreviation M := (GoM (ContainerdRuntime H)).

Definition cr_with_host (x : H) (r : CR) : CR :=
  mkContainerdRuntime x (cr_ImageManager r) (cr_SandboxManager r) (cr_exits r) (cr_portsInUse r).
Definition cr_with_images (x : gmap string string) (r : CR) : CR :=
  mkContainerdRuntime (cr_host r) x (cr_SandboxManager r) (cr_exits r) (cr_portsInUse r).
Definition cr_with_sm (x : SandboxManager ContainerdMetadata) (r : CR) : CR :=
  mkContainerdRuntime (cr_host r) (cr_ImageManager r) x (cr_exits r) (cr_portsInUse r).
Definition cr_with_exits (x : exit_state) (r : CR) : CR :=
  mkContainerdRuntime (cr_host r) (cr_ImageManager r) (cr_SandboxManager r) x (cr_portsInUse r).
Definition cr_with_ports (x : gset Z) (r : CR) : CR :=
  mkContainerdRuntime (cr_host r) (cr_ImageManager r) (cr_SandboxManager r) (cr_exits r) x.
Definition cr_on_sm {A} : GoM (SandboxManager ContainerdMetadata) A -> M A := zoom cr_SandboxManager cr_with_sm.
Definition cr_on_exits {A} : GoM exit_state A -> M A := zoom cr_exits cr_with_exits.
Definition cr_on_ports {A} : GoM (gset Z) A -> M A := zoom cr_portsInUse cr_with_ports.
Definition cr_on_host (f : H -> H) : M unit := go_modify (fun r => cr_with_host (f (cr_host r)) r).

(** Images are fetched once. *)
Definition GetImage (env : cr_env) (url : string) : M (string + string) :=
  images ← go_gets cr_ImageManager;
  match AM_Get images url with
  | Some image => mret (inr image)
  | None =>
      match ce_Pull env url with
      | inl e => mret (inl e)
      | inr image => go_modify (cr_with_images (AM_Set url image images)) ;; mret (inr image)
      end
  end.

Definition workload_name (env : cr_env) : string := ("workload-" +:+ Itoa (ce_name env))%string.
Definition cr_CreateSandbox (env : cr_env) (i : ServiceInfo) : M (SandboxCreationStatus * go_error) :=
  image ← GetImage env (si_Image i);
  match image with
  | inl e => mret (creation_failed "", Some e)
  | inr _ =>
      let container := workload_name env in
      match ce_NewContainer env container with
      | Some e => mret (creation_failed "", Some e)
      | None =>
          match ce_StartContainer env with
          | inl e => mret (creation_failed "", Some e)
          | inr (pid, ip, netNs) =>
              hostPort ← cr_on_ports (AssignRandomPort (ce_draws env) (ce_draw env));
              ch ← cr_on_exits make_channel;
              let guestPort := pm_GuestPort (si_PortForwarding i) in
              let metadata := mkMetadata (si_Name i) (mkContainerdMetadata container) hostPort ip guestPort netNs ch in
              cr_on_exits (AddChannel (u32 pid) ch) ;;
              cr_on_sm (AddSandbox container metadata) ;;
              cr_on_host (AddRules hostPort ip guestPort) ;;
              cr_on_exits (watch ch (si_Name i) container) ;;
              mret (mkSandboxCreationStatus true container (with_host_port (i32 hostPort) (si_PortForwarding i)), None)
          end
      end
  end.

(** The first error of the four calls. *)
Definition DeleteContainer (env : cr_env) : go_error :=
  match ce_Remove env, ce_KillTask env, ce_DeleteTask env with
  | Some e, _, _ => Some e
  | None, Some e, _ => Some e
  | None, None, Some e => Some e
  | None, None, None => ce_DeleteContainer env
  end.
Definition cr_DeleteSandbox (env : cr_env) (id : string) : M (ActionStatus * go_error) :=
  o ← cr_on_sm (SM_DeleteSandbox id);
  match o with
  | None => mret (status_failed, None)
  | Some metadata =>
      cr_on_host (DeleteRules (md_HostPort metadata) (md_IP metadata) (md_GuestPort metadata)) ;;
      cr_on_ports (UnassignPort (md_HostPort metadata)) ;;
      match DeleteContainer env with
      | Some e => mret (status_failed, Some e)
      | None => mret (status_ok, None)
      end
  end.
Definition cr_ListEndpoints (env : cr_env) : M (list proto_Endpoint) :=
  go_gets (fun r => SM_ListEndpoints (ce_order env) (cr_SandboxManager r)).
Definition cr_ValidateHostConfig (_ : cr_env) : bool := true.

(** The constructor: [clients] is the error of connecting to containerd and to
    the CNI plugin, [ipt] and [dial] those of iptables and of the connection to
    the kernel.  Errors of fetching the two images in advance are logged. *)
Definition NewContainerdRuntime (env : cr_env) (prefetchImage : bool)
    (sandboxManager : SandboxManager ContainerdMetadata) (clients ipt : go_error) (dial : nat -> go_error) (h : H)
  : outcome CR :=
  match clients, ipt with
  | None, None =>
      pm ← NewProcessMonitor dial;
      let r := mkContainerdRuntime h ∅ sandboxManager (new_exit_state pm) ∅ in
      if prefetchImage then
        x ← (GetImage env "docker.io/cvetkovic/dirigent_empty_function:latest" ;;
             GetImage env "docker.io/cvetkovic/dirigent_trace_function:latest") r;
        Ok x.2
      else Ok r
  | _, _ => Fatal
  end.
End containerd.

#[export] Instance containerd_runtime {H} `{HostCommands H} : RuntimeInterface (ContainerdRuntime H) cr_env := {
  rt_CreateSandbox := cr_CreateSandbox;
  rt_DeleteSandbox := cr_DeleteSandbox;
  rt_ListEndpoints := cr_ListEndpoints;
  rt_ValidateHostConfig := cr_ValidateHostConfig;
  rt_keys env r := AM_Keys (ce_order env) (sm_Metadata (cr_SandboxManager r));
  rt_background _ := mret tt;
}.

(** ** The runtime of measurements

    It has no sandboxes: [rand] is the random number in the name it answers. *)
Definition fake_CreateSandbox (rand : Z) (_ : ServiceInfo) : GoM unit (SandboxCreationStatus * go_error) :=
  mret (mkSandboxCreationStatus true ("dummy-sandbox-" +:+ Itoa rand) (mkPortMapping 80 80 TCP), None).
Definition fake_DeleteSandbox (_ : Z) (_ : string) : GoM unit (ActionStatus * go_error) := mret (status_ok, None).
Definition fake_ListEndpoints (_ : Z) : GoM unit (list proto_Endpoint) := mret [].
#[export] Instance fake_runtime : RuntimeInterface unit Z := {
  rt_CreateSandbox := fake_CreateSandbox;
  rt_DeleteSandbox := fake_DeleteSandbox;
  rt_ListEndpoints := fake_ListEndpoints;
  rt_ValidateHostConfig _ := true;
  rt_keys _ _ := [];
  rt_background _ := mret tt;
}.
