(* ===== verification/SandboxSpec.v ===== *)
(** * The runtimes keep the contract

    The firecracker and the containerd runtime of [Sandboxes] satisfy
    [RuntimeSpec] from their construction on: the table of sandboxes, the host
    ports and, for virtual machines, the networks are in step.  The fake runtime
    of measurements does not ([fake_runtime_no_contract]). *)
From Stdlib Require Import ZArith Lia Ascii.
From stdpp Require Import base tactics list gmap strings sets numbers pretty.
From S2P Require Import Prelude Sync Core Net WorkerManagers Networks Sandboxes.

Local Open Scope Z_scope.

(** ** Tables of sandboxes and their ports *)

Section tables.
Context {R : Type}.
Implicit Types (t : gmap string (Metadata R)) (m : Metadata R).

Definition entry_of m : string * Z := (md_ServiceName m, md_HostPort m).
Definition alive_of t : gmap string (string * Z) := entry_of <$> t.
Definition metadata_of t : list (Metadata R) := (map_to_list t).*2.

Record ports_ok t (ports : gset Z) : Prop := {
  po_distinct : NoDup (md_HostPort <$> metadata_of t);
  po_exact : ports = list_to_set (md_HostPort <$> metadata_of t);
  po_range : Forall (fun m => 1024 <= md_HostPort m < 65024) (metadata_of t);
}.

Lemma metadata_of_insert t id m : t !! id = None -> metadata_of (<[id := m]> t) ≡ₚ m :: metadata_of t.
Proof. intros Hn. unfold metadata_of. by rewrite map_to_list_insert. Qed.
Lemma metadata_of_delete t id m : t !! id = Some m -> metadata_of t ≡ₚ m :: metadata_of (delete id t).
Proof. intros Hs. unfold metadata_of. by rewrite <- (map_to_list_delete t id m). Qed.
Lemma metadata_of_elem t id m : t !! id = Some m -> m ∈ metadata_of t.
Proof. intros Hs. apply list_elem_of_fmap. exists (id, m). by rewrite elem_of_map_to_list. Qed.

Lemma ports_ok_empty : ports_ok ∅ ∅.
Proof. unfold metadata_of. split; rewrite ?map_to_list_empty; constructor || done. Qed.

Lemma ports_ok_add t ports id m :
  ports_ok t ports -> t !! id = None -> (md_HostPort m ∉ ports) -> 1024 <= md_HostPort m < 65024 ->
  ports_ok (<[id := m]> t) ({[md_HostPort m]} ∪ ports).
Proof.
  intros [A1 A2 A3] Hid Hport Hrange. pose proof (metadata_of_insert t id m Hid) as Hp.
  rewrite A2, elem_of_list_to_set in Hport. split.
  - rewrite Hp. apply list.NoDup_cons. done.
  - rewrite A2. apply leibniz_equiv. rewrite Hp. done.
  - rewrite Hp. by apply list.Forall_cons.
Qed.
Lemma ports_ok_delete t ports id m :
  ports_ok t ports -> t !! id = Some m -> ports_ok (delete id t) (ports ∖ {[md_HostPort m]}).
Proof.
  intros [A1 A2 A3] Hid. pose proof (metadata_of_delete t id m Hid) as Hp.
  rewrite Hp in A1, A3. rewrite fmap_cons in A1. apply list.NoDup_cons in A1 as [B1 B2].
  apply list.Forall_cons in A3 as [_ A3]. split; [done| |done].
  rewrite A2. apply leibniz_equiv. rewrite Hp, fmap_cons. simpl.
  assert (md_HostPort m ∉ (list_to_set (md_HostPort <$> metadata_of (delete id t)) : gset Z))
    by (by rewrite elem_of_list_to_set). set_solver.
Qed.
Lemma ports_ok_used t ports id x : ports_ok t ports -> alive_of t !! id = Some x -> x.2 ∈ ports.
Proof.
  intros [_ -> _] Hx. apply lookup_fmap_Some in Hx as (m&<-&Hm). apply elem_of_list_to_set, list_elem_of_fmap.
  exists m. split; [done|]. by eapply metadata_of_elem.
Qed.

Lemma listing_alive ord t node :
  valid_order ord -> Forall (fun m => 1024 <= md_HostPort m < 65024) (metadata_of t) ->
  let l := SM_ListEndpoints ord (mkSandboxManager t node) in
  ((fun p => (pe_SandboxID p, (pe_ServiceName p, pe_HostPort p))) <$> l ≡ₚ map_to_list (alive_of t)) /\
  Forall (fun p => pe_NodeName p = node) l.
Proof.
  intros Hord Hrange. unfold SM_ListEndpoints. rewrite AM_KeyValues_zip. cbn [sm_Metadata sm_nodeName].
  assert (Hz : forall l : list (string * Metadata R), zip_with (endpoint_of node) l.*1 l.*2 =
    (fun kv => endpoint_of node kv.1 kv.2) <$> l) by (induction l as [|[k v] l IH]; [done|]; cbn; f_equal; exact IH).
  cbn zeta. rewrite Hz. split.
  - unfold alive_of. rewrite map_to_list_fmap, <- list_fmap_compose, (Hord t).
    match goal with |- ?a ≡ₚ ?b => enough (a = b) as -> by done end.
    apply list_fmap_ext. intros i [k m] Hk. simpl. unfold entry_of. do 2 f_equal.
    apply i32_id. rewrite list.Forall_forall in Hrange.
    assert (Hm : m ∈ metadata_of t).
    { apply list_elem_of_fmap. exists (k, m). split; [done|]. by eapply list_elem_of_lookup_2. }
    apply Hrange in Hm. unfold is_i32. lia.
  - apply list.Forall_fmap, list.Forall_forall. done.
Qed.
Lemma keys_alive ord t : valid_order ord -> AM_Keys ord t ≡ₚ (map_to_list (alive_of t)).*1.
Proof.
  intros Hord. rewrite AM_Keys_fst. unfold alive_of. by rewrite map_to_list_fmap, <- list_fmap_compose, (Hord t).
Qed.
End tables.

(** ** Containers *)

Lemma SM_DeleteSandbox_run {R} id (s : SandboxManager R) :
  SM_DeleteSandbox id s =
  Ok (sm_Metadata s !! id, mkSandboxManager (delete id (sm_Metadata s)) (sm_nodeName s)).
Proof.
  unfold SM_DeleteSandbox, AM_Get, AM_RemoveKey. erewrite gom_bind_run; [|reflexivity].
  destruct (sm_Metadata s !! id) as [m|] eqn:Hm; [reflexivity|]. rewrite delete_id by done. by destruct s.
Qed.

Section containerd_spec.
Context {H : Type} `{HC : HostCommands H}.
Implicit Types r : ContainerdRuntime H.

Definition cr_table r := sm_Metadata (cr_SandboxManager r).
Definition cr_alive r : gmap string (string * Z) := alive_of (cr_table r).
Definition cr_node r : string := sm_nodeName (cr_SandboxManager r).
Definition cr_ok r : Prop := ports_ok (cr_table r) (cr_portsInUse r).
Definition cr_fresh (env : cr_env) r : Prop := cr_table r !! workload_name env = None.
Definition cr_ordered (env : cr_env) : Prop := valid_order (ce_order env).

Lemma GetImage_same env url r x r' :
  GetImage env url r = Ok (x, r') -> exists im, r' = cr_with_images im r.
Proof.
  unfold GetImage. intros Hr. apply gom_bind_ok in Hr as (im&?&[= <- <-]&Hr).
  assert (Hid : r = cr_with_images (cr_ImageManager r) r) by (by destruct r).
  destruct (AM_Get _ url) as [i|]; [injection Hr as <- <-; eauto|].
  destruct (ce_Pull env url) as [e|i]; [injection Hr as <- <-; eauto|].
  apply gom_bind_ok in Hr as (?&?&[= <- <-]&[= <- <-]). eauto.
Qed.

Lemma cr_create_spec env i r st err r' :
  cr_ok r -> cr_fresh env r -> cr_CreateSandbox env i r = Ok ((st, err), r') ->
  cr_ok r' /\ cr_node r' = cr_node r /\
  (if scs_Success st && bool_decide (err = None) then
     cr_alive r !! scs_ID st = None /\
     (forall id x, cr_alive r !! id = Some x -> x.2 ≠ pm_HostPort (scs_PortMappings st)) /\
     cr_alive r' = <[scs_ID st := (si_Name i, pm_HostPort (scs_PortMappings st))]> (cr_alive r)
   else cr_alive r' = cr_alive r).
Proof.
  intros Hok Hfresh Hr. unfold cr_CreateSandbox in Hr. apply gom_bind_ok in Hr as (im&r1&Hi&Hr).
  apply GetImage_same in Hi as [imgs ->].
  destruct im as [e|image]; [by injection Hr as <- <- <-|].
  destruct (ce_NewContainer env _) as [e|]; [by injection Hr as <- <- <-|].
  destruct (ce_StartContainer env) as [e|[[pid ip] ns]]; [by injection Hr as <- <- <-|].
  apply gom_bind_ok in Hr as (port&r2&Hp&Hr). apply zoom_ok in Hp as (ports&Hp&->).
  apply assign_loop_ok in Hp as (Hrange&Hfree&->).
  apply gom_bind_ok in Hr as (ch&r3&Hc&Hr). apply zoom_ok in Hc as (es&_&->).
  apply gom_bind_ok in Hr as (?&r4&Hc&Hr). apply zoom_ok in Hc as (es'&_&->).
  apply gom_bind_ok in Hr as (?&r5&Ha&Hr). apply zoom_ok in Ha as (sm&[= <- <-]&->).
  apply gom_bind_ok in Hr as (?&r6&[= <- <-]&Hr).
  apply gom_bind_ok in Hr as (?&r7&Hw&Hr). apply zoom_ok in Hw as (es''&_&->).
  injection Hr as <- <- <-. simpl. rewrite i32_id by (unfold is_i32; lia).
  split; [|split; [done|split; [|split]]].
  - apply (ports_ok_add (cr_table r) _ _
      (mkMetadata (si_Name i) (mkContainerdMetadata (workload_name env)) port ip _ ns ch)); done.
  - unfold cr_alive, alive_of. rewrite lookup_fmap, Hfresh. done.
  - intros id y Hy <-. apply Hfree. by eapply ports_ok_used.
  - unfold cr_alive, alive_of, cr_table, AM_Set. simpl. by rewrite fmap_insert.
Qed.

Lemma cr_delete_spec env id r st err r' :
  cr_ok r -> cr_DeleteSandbox env id r = Ok ((st, err), r') ->
  cr_ok r' /\ cr_node r' = cr_node r /\ cr_alive r' = delete id (cr_alive r).
Proof.
  intros Hok Hr. unfold cr_DeleteSandbox in Hr. apply gom_bind_ok in Hr as (o&r1&Hd&Hr).
  apply zoom_ok in Hd as (sm&Hd&->). rewrite SM_DeleteSandbox_run in Hd. injection Hd as <- <-.
  assert (Hal : alive_of (delete id (cr_table r)) = delete id (cr_alive r)) by apply fmap_delete.
  destruct (sm_Metadata (cr_SandboxManager r) !! id) as [m|] eqn:Hm.
  - apply gom_bind_ok in Hr as (?&r2&[= <- <-]&Hr). apply gom_bind_ok in Hr as (?&r3&Hp&Hr).
    apply zoom_ok in Hp as (ports&[= <- <-]&->).
    assert (Hr' : r' = cr_with_ports (cr_portsInUse r ∖ {[md_HostPort m]})
      (cr_with_host (DeleteRules (md_HostPort m) (md_IP m) (md_GuestPort m) (cr_host r))
        (cr_with_sm (mkSandboxManager (delete id (cr_table r)) (cr_node r)) r)))
      by (destruct (DeleteContainer env); by injection Hr as <- <- <-).
    subst r'. split; [|split; [done|exact Hal]]. exact (ports_ok_delete _ _ _ _ Hok Hm).
  - injection Hr as <- <- <-. split; [|split; [done|exact Hal]]. unfold cr_ok, cr_table. simpl. by rewrite delete_id.
Qed.

#[export] Instance containerd_spec :
  RuntimeSpec (ContainerdRuntime H) cr_env cr_node cr_alive cr_ok cr_fresh cr_ordered.
Proof.
  split.
  - exact cr_create_spec.
  - exact cr_delete_spec.
  - intros env r l r' Hok Hord [= <- <-]. split; [done|].
    assert (Hs : cr_SandboxManager r = mkSandboxManager (cr_table r) (cr_node r))
      by (unfold cr_table, cr_node; by destruct (cr_SandboxManager r)).
    rewrite Hs. apply listing_alive; [done|]. apply Hok.
  - intros env r Hok Hord. by apply keys_alive.
  - by intros env r u r' Hok [= <- <-].
Qed.

Lemma new_containerd_ok env prefetch node clients ipt dial (h : H) r :
  NewContainerdRuntime env prefetch (NewSandboxManager node) clients ipt dial h = Ok r ->
  cr_ok r /\ cr_alive r = ∅ /\ cr_node r = node.
Proof.
  unfold NewContainerdRuntime. intros Hr. destruct clients, ipt; try done.
  destruct (NewProcessMonitor dial) as [pm| | |]; try done. cbn [mbind outcome_bind] in Hr.
  assert (Hx : exists im, r = cr_with_images im (mkContainerdRuntime h ∅ (NewSandboxManager node) (new_exit_state pm) ∅)).
  { destruct prefetch; [|injection Hr as <-; by exists ∅]. apply outcome_bind_Ok in Hr as ([x r']&Hr&[= <-]).
    apply gom_bind_ok in Hr as (y&r1&H1&H2). apply GetImage_same in H1 as [im1 ->], H2 as [im2 ->]. by exists im2. }
  destruct Hx as [im ->]. split; [apply ports_ok_empty|]. split; [apply fmap_empty|done].
Qed.
End containerd_spec.

(** ** Virtual machines *)

Section firecracker_spec.
Context {H : Type} `{HC : HostCommands H} (namespaces : H -> gset string) (devices : H -> gmap string string).
Context `{HS : !HostSpec H namespaces devices}.
Context (exact : Prop) (Hexact : exact -> deletions_succeed namespaces).
Implicit Types r : Runtime H.

Definition fc_table r := sm_Metadata (fc_SandboxManager r).
Definition fc_alive r : gmap string (string * Z) := alive_of (fc_table r).
Definition fc_node r : string := sm_nodeName (fc_SandboxManager r).
Definition network_of (m : Metadata VMControlStructure) : NetworkConfig :=
  vm_NetworkConfiguration (md_RuntimeMetadata m).
Definition networks_of (t : gmap string (Metadata VMControlStructure)) : list NetworkConfig :=
  network_of <$> metadata_of t.
(** The networks in use are those of the sandboxes. *)
Record fc_ok r : Prop := {
  fo_ports : ports_ok (fc_table r) (fc_portsInUse r);
  fo_networks : node_inv namespaces devices exact (fc_NetworkManager r) (networks_of (fc_table r));
}.
Definition fc_name (env : vm_env) : string := ("firecracker-" +:+ Itoa (ve_id env))%string.
Definition fc_fresh (env : vm_env) r : Prop := fc_table r !! fc_name env = None.
Definition fc_ordered (env : vm_env) : Prop := valid_order (ve_order env).

(** The table of sandboxes and the ports stay as they are. *)
Definition same_tables r r' : Prop :=
  fc_SandboxManager r' = fc_SandboxManager r /\ fc_portsInUse r' = fc_portsInUse r.

Abbreviation networks r used := (node_inv namespaces devices exact (fc_NetworkManager r) used).

Lemma GiveUp_networks config r used u r' :
  networks r (config :: used) -> on_np (GiveUpNetwork config) r = Ok (u, r') ->
  networks r' used /\ same_tables r r'.
Proof.
  intros Hn Hr. apply zoom_ok in Hr as (np&Hr&->). split; [|done].
  by eapply (GiveUpNetwork_node namespaces devices exact).
Qed.

Lemma rules_networks f r used :
  (forall h, namespaces (f h) = namespaces h /\ devices (f h) = devices h) ->
  networks r used -> networks (fc_with_np (np_with_host (f (np_host (fc_NetworkManager r))) (fc_NetworkManager r)) r) used.
Proof.
  intros Hf [Hi [A1 A2 A3]]. split; [by apply net_inv_host|]. split; [done|done|].
  destruct (Hf (np_host (fc_NetworkManager r))) as [E1 E2]. unfold host_has, host_is in *. simpl.
  by rewrite E1, E2.
Qed.
Lemma AddRules_quiet p ip g h :
  namespaces (AddRules p ip g h) = namespaces h /\ devices (AddRules p ip g h) = devices h.
Proof.
  unfold AddRules.
  destruct (ipt_Append "nat" "PREROUTING" _ h) as [e1 h1] eqn:E1. apply hs_Append in E1 as [A1 B1]. simpl.
  destruct (ipt_Append "nat" "OUTPUT" _ h1) as [e2 h2] eqn:E2. apply hs_Append in E2 as [A2 B2]. simpl.
  destruct (ipt_AppendUnique _ _ _ h2) as [e3 h3] eqn:E3. apply hs_AppendUnique in E3 as [A3 B3]. simpl.
  destruct (run_command _ h3) as [e4 h4] eqn:E4. apply hs_quiet in E4 as [A4 B4];
    [|do 4 right; eexists; reflexivity]. simpl. split; congruence.
Qed.
Lemma DeleteRules_quiet p ip g h :
  namespaces (DeleteRules p ip g h) = namespaces h /\ devices (DeleteRules p ip g h) = devices h.
Proof.
  unfold DeleteRules.
  destruct (ipt_Delete "nat" "PREROUTING" _ h) as [e1 h1] eqn:E1. apply hs_Delete in E1 as [A1 B1]. simpl.
  destruct (ipt_Delete "nat" "OUTPUT" _ h1) as [e2 h2] eqn:E2. apply hs_Delete in E2 as [A2 B2]. simpl.
  split; congruence.
Qed.

(** A machine that starts holds a network; one that does not holds none. *)
Lemma StartFirecrackerVM_spec env snapshot r used v r' :
  networks r used -> StartFirecrackerVM env snapshot r = Ok (v, r') ->
  same_tables r r' /\
  match v with
  | inl _ => networks r' used
  | inr vmcs => networks r' (vm_NetworkConfiguration vmcs :: used) /\ vm_SandboxID vmcs = fc_name env
  end.
Proof.
  intros Hn Hr. unfold StartFirecrackerVM in Hr. apply gom_bind_ok in Hr as (net&r1&Hg&Hr).
  apply zoom_ok in Hg as (np&Hg&->). apply (GetOneConfig_node namespaces devices exact Hexact _ _ used) in Hg; [|done].
  destruct net as [config|]; [|by injection Hr as <- <-].
  apply gom_bind_ok in Hr as (r2&?&[= <- <-]&Hr). simpl in Hg.
  assert (Hgive : forall r3 e, (on_np (GiveUpNetwork config) ;; mret (inl e)) r3 = Ok (v, r') ->
    fc_NetworkManager r3 = np -> same_tables r r3 ->
    same_tables r r' /\ match v with inl _ => networks r' used
      | inr vmcs => networks r' (vm_NetworkConfiguration vmcs :: used) /\ vm_SandboxID vmcs = fc_name env end).
  { intros r3 e Hr3 Hnp [T1 T2]. apply gom_bind_ok in Hr3 as (u&r4&Hg4&[= <- <-]).
    apply (GiveUp_networks _ _ used) in Hg4 as [Hn4 [T3 T4]]; [|by rewrite Hnp].
    split; [split; congruence|done]. }
  destruct (ve_NewMachine env _ snapshot) as [e|]; [by apply (Hgive _ e Hr)|].
  destruct (ve_Start env) as [e|]; [by apply (Hgive _ e Hr)|].
  apply gom_bind_ok in Hr as (?&r4&[= <- <-]&Hr).
  destruct snapshot as [s|]; [destruct (ve_ResumeSnapshot env) as [e|]; [by apply (Hgive _ e Hr)|]|];
    injection Hr as <- <-; (split; [done|]); (split; [exact Hg|done]).
Qed.

Lemma StopFirecrackerVM_same env vmcs r e r' :
  StopFirecrackerVM env vmcs r = Ok (e, r') ->
  same_tables r r' /\ fc_NetworkManager r' = fc_NetworkManager r.
Proof.
  unfold StopFirecrackerVM. intros Hr. destruct (ve_stop_PID env); [by injection Hr as <- <-|].
  destruct (ve_Kill env); [by injection Hr as <- <-|]. by apply gom_bind_ok in Hr as (?&?&[= <- <-]&[= <- <-]).
Qed.

Lemma networks_of_insert t id m :
  t !! id = None -> networks_of (<[id := m]> t) ≡ₚ network_of m :: networks_of t.
Proof. intros Hid. unfold networks_of. by rewrite metadata_of_insert. Qed.
Lemma networks_of_delete t id m :
  t !! id = Some m -> networks_of t ≡ₚ network_of m :: networks_of (delete id t).
Proof. intros Hid. unfold networks_of. by rewrite (metadata_of_delete t id m). Qed.

Lemma fc_delete_spec env id r st err r' :
  fc_ok r -> fc_DeleteSandbox env id r = Ok ((st, err), r') ->
  fc_ok r' /\ fc_node r' = fc_node r /\ fc_alive r' = delete id (fc_alive r).
Proof.
  intros [Hp Hn] Hr. unfold fc_DeleteSandbox in Hr. apply gom_bind_ok in Hr as (o&r1&Hd&Hr).
  apply zoom_ok in Hd as (sm&Hd&->). rewrite SM_DeleteSandbox_run in Hd. injection Hd as <- <-.
  assert (Hal : alive_of (delete id (fc_table r)) = delete id (fc_alive r)) by apply fmap_delete.
  destruct (sm_Metadata (fc_SandboxManager r) !! id) as [m|] eqn:Hm.
  - apply gom_bind_ok in Hr as (?&r2&Hh&Hr). apply zoom_ok in Hh as (np&[= <- <-]&->).
    apply gom_bind_ok in Hr as (?&r3&Hu&Hr). apply zoom_ok in Hu as (ports&[= <- <-]&->).
    apply gom_bind_ok in Hr as (e&r4&Hs&Hr). apply StopFirecrackerVM_same in Hs as [[T1 T2] T3].
    apply gom_bind_ok in Hr as (?&r5&Hg&Hr). injection Hr as <- <- <-.
    eapply (GiveUp_networks _ _ (networks_of (delete id (fc_table r)))) in Hg as [Hn5 [T4 T5]].
    2:{ rewrite T3. eapply node_inv_perm; [by apply (networks_of_delete (fc_table r) id m)|].
        exact (rules_networks _ r _ (DeleteRules_quiet _ _ _) Hn). }
    assert (Hsm : fc_SandboxManager r5 = mkSandboxManager (delete id (fc_table r)) (fc_node r)) by (by rewrite T4, T1).
    assert (Hpo : fc_portsInUse r5 = fc_portsInUse r ∖ {[md_HostPort m]}) by (by rewrite T5, T2).
    unfold fc_alive, fc_node, fc_table. rewrite Hsm. split; [|done].
    split; unfold fc_table; rewrite Hsm; [|exact Hn5]. rewrite Hpo. exact (ports_ok_delete _ _ _ _ Hp Hm).
  - injection Hr as <- <- <-. split; [|split; [done|exact Hal]].
    split; unfold fc_table; simpl; by rewrite delete_id.
Qed.
Lemma fc_ok_same r r' :
  fc_ok r -> same_tables r r' -> fc_NetworkManager r' = fc_NetworkManager r -> fc_ok r'.
Proof. intros [A1 A2] [T1 T2] T3. split; unfold fc_table; rewrite T1, ?T2, ?T3; done. Qed.

Lemma await_ready_spec env i vmcs port r st err r' :
  fc_ok r -> await_ready env i vmcs port r = Ok ((st, err), r') ->
  fc_ok r' /\ fc_node r' = fc_node r /\ err = None /\
  (st = mkSandboxCreationStatus true (vm_SandboxID vmcs) (with_host_port (i32 port) (si_PortForwarding i)) /\
     fc_alive r' = fc_alive r \/
   st = creation_failed (vm_SandboxID vmcs) /\ fc_alive r' = delete (vm_SandboxID vmcs) (fc_alive r)).
Proof.
  intros Hok Hr. unfold await_ready in Hr. apply gom_bind_ok in Hr as (p&r1&Hp&Hr).
  assert (r1 = r) as -> by (unfold go_lift in Hp; destruct (SendReadinessProbe _ _ _); by simplify_eq).
  apply gom_bind_ok in Hr as (?&?&[= <- <-]&Hr). apply gom_bind_ok in Hr as (passed&r2&Hs&Hr).
  assert (Hsame : same_tables r r2 /\ fc_NetworkManager r2 = fc_NetworkManager r).
  { destruct (_ && _ && _); [|by injection Hs as <- <-]. apply gom_bind_ok in Hs as (?&r3&Ha&[= <- <-]).
    destruct (CreateVMSnapshot env vmcs) as [[] [paths|]]; by injection Ha as <- <-. }
  destruct Hsame as [[T1 T2] T3].
  assert (Hok2 : fc_ok r2) by (by eapply fc_ok_same).
  assert (Hn2 : fc_node r2 = fc_node r) by (unfold fc_node; by rewrite T1).
  assert (Ha2 : fc_alive r2 = fc_alive r) by (unfold fc_alive, fc_table; by rewrite T1).
  destruct passed.
  - injection Hr as <- <- <-. split; [done|]. split; [done|]. split; [done|]. left. done.
  - apply gom_bind_ok in Hr as ([st' err']&r3&Hd&[= <- <- <-]).
    apply fc_delete_spec in Hd as (A1&A2&A3); [|done]. split; [done|]. split; [congruence|]. split; [done|].
    right. split; [done|]. congruence.
Qed.

Lemma fc_create_spec env i r st err r' :
  fc_ok r -> fc_fresh env r -> fc_CreateSandbox env i r = Ok ((st, err), r') ->
  fc_ok r' /\ fc_node r' = fc_node r /\
  (if scs_Success st && bool_decide (err = None) then
     fc_alive r !! scs_ID st = None /\
     (forall id x, fc_alive r !! id = Some x -> x.2 ≠ pm_HostPort (scs_PortMappings st)) /\
     fc_alive r' = <[scs_ID st := (si_Name i, pm_HostPort (scs_PortMappings st))]> (fc_alive r)
   else fc_alive r' = fc_alive r).
Proof.
  intros [Hp Hn] Hfresh Hr. unfold fc_CreateSandbox in Hr. apply gom_bind_ok in Hr as (sn&?&[= <- <-]&Hr).
  apply gom_bind_ok in Hr as (v&r1&Hv&Hr).
  eapply StartFirecrackerVM_spec in Hv as [[T1 T2] Hv]; [|exact Hn].
  assert (Hsame : forall r2, same_tables r1 r2 -> networks r2 (networks_of (fc_table r)) -> fc_ok r2 /\
    fc_node r2 = fc_node r /\ fc_alive r2 = fc_alive r).
  { intros r2 [T3 T4] Hn2. unfold fc_node, fc_alive, fc_table. rewrite T3, T1. split; [|done].
    split; unfold fc_table; rewrite T3, ?T4, T1, ?T2; done. }
  destruct v as [e|vmcs]; [injection Hr as <- <- <-; simpl; by apply Hsame|]. destruct Hv as [Hv Hid].
  apply gom_bind_ok in Hr as (ch&r2&Hc&Hr). apply zoom_ok in Hc as (es&_&->).
  apply gom_bind_ok in Hr as (port&r3&Ha&Hr). apply zoom_ok in Ha as (ports&Ha&->).
  apply assign_loop_ok in Ha as (Hrange&Hfree&->). simpl in Hfree, Hr. rewrite T2 in Hfree, Hr.
  destruct (ve_PID env) as [e|pid].
  { apply gom_bind_ok in Hr as (?&r4&Hg&Hr). apply (GiveUp_networks _ _ (networks_of (fc_table r))) in Hg as [Hn4 [T3 T4]];
      [|exact Hv]. apply gom_bind_ok in Hr as (?&r5&Hu&Hr). apply zoom_ok in Hu as (ps&[= <- <-]&->).
    injection Hr as <- <- <-. simpl. apply Hsame; [|exact Hn4]. split; [exact T3|]. simpl. rewrite T4, T2. simpl.
    set_solver. }
  set (m := mkMetadata (si_Name i) vmcs port (nc_ExposedIP (vm_NetworkConfiguration vmcs))
              (pm_GuestPort (si_PortForwarding i)) "" ch).
  apply gom_bind_ok in Hr as (?&r4&Hadd&Hr). apply zoom_ok in Hadd as (sm&[= <- <-]&->).
  apply gom_bind_ok in Hr as (?&r5&Hc&Hr). apply zoom_ok in Hc as (es'&_&->).
  apply gom_bind_ok in Hr as (?&r6&Hrules&Hr). apply zoom_ok in Hrules as (np&[= <- <-]&->).
  apply gom_bind_ok in Hr as (?&r7&Hw&Hr). apply zoom_ok in Hw as (es''&_&->).
  assert (Htable : fc_table r1 = fc_table r) by (unfold fc_table; by rewrite T1).
  assert (Hid' : fc_table r !! vm_SandboxID vmcs = None) by (by rewrite Hid).
  eapply await_ready_spec in Hr as (Hok&Hnode&->&Hres).
  2:{ split.
      - unfold fc_table, AM_Set. simpl. rewrite T1. exact (ports_ok_add (fc_table r) _ _ m Hp Hid' Hfree Hrange).
      - unfold fc_table, AM_Set. simpl. rewrite T1.
        eapply node_inv_perm; [symmetry; by apply (networks_of_insert (fc_table r) _ m)|].
        exact (rules_networks _ r1 _ (AddRules_quiet _ _ _) Hv). }
  assert (Halive : forall f, fc_alive r' = f (alive_of (<[vm_SandboxID vmcs := m]> (fc_table r))) ->
    fc_alive r' = f (<[vm_SandboxID vmcs := (si_Name i, port)]> (fc_alive r))).
  { intros f ->. unfold alive_of. by rewrite fmap_insert. }
  unfold fc_alive at 2 4, fc_table, AM_Set in Hres. simpl in Hres. rewrite T1 in Hres.
  unfold fc_node in Hnode. simpl in Hnode. rewrite T1 in Hnode. split; [done|]. split; [exact Hnode|].
  assert (Hnone : fc_alive r !! vm_SandboxID vmcs = None) by (unfold fc_alive, alive_of; by rewrite lookup_fmap, Hid').
  destruct Hres as [[-> Hres]|[-> Hres]]; simpl.
  - rewrite i32_id by (unfold is_i32; lia). split; [done|]. split.
    + intros id y Hy <-. apply Hfree. by eapply ports_ok_used.
    + exact (Halive (fun t => t) Hres).
  - rewrite (Halive (delete (vm_SandboxID vmcs)) Hres). by rewrite delete_insert_id.
Qed.

Lemma firecracker_spec :
  RuntimeSpec (Runtime H) vm_env fc_node fc_alive fc_ok fc_fresh fc_ordered.
Proof.
  split.
  - exact fc_create_spec.
  - exact fc_delete_spec.
  - intros env r l r' Hok Hord [= <- <-]. split; [done|].
    assert (Hs : fc_SandboxManager r = mkSandboxManager (fc_table r) (fc_node r))
      by (unfold fc_table, fc_node; by destruct (fc_SandboxManager r)).
    rewrite Hs. apply listing_alive; [done|]. apply Hok.
  - intros env r Hok Hord. by apply keys_alive.
  - intros env r u r' [Hp Hn] Hr. apply zoom_ok in Hr as (np&Hr&->). split; [|done]. split; [done|].
    by eapply (run_repopulation_node namespaces devices exact).
Qed.

(** A new runtime satisfies the contract on a consistent host. *)
Lemma new_firecracker_ok node kernel fs pi pe debug snapshots size devs ipt dial rnd h r :
  let h0 := (DeleteUnusedNetworkDevices devs h).2 in
  peers_in (namespaces h0) (devices h0) -> (exact -> host_is namespaces devices ∅ ∅ h0) ->
  NewFirecrackerRuntime (NewSandboxManager node) kernel fs pi pe debug snapshots size devs ipt dial rnd h = Ok r ->
  fc_ok r /\ fc_alive r = ∅ /\ fc_node r = node.
Proof.
  intros h0 Hh He Hr. unfold NewFirecrackerRuntime in Hr. destruct ipt; [done|]. fold h0 in Hr.
  destruct (NewNetworkPoolManager _ _ _ _ _) as [np| | |] eqn:Hnp; try done. cbn [mbind outcome_bind] in Hr.
  destruct (NewProcessMonitor dial); try done. injection Hr as <-. split; [|split; [apply fmap_empty|done]].
  split; simpl.
  - apply ports_ok_empty.
  - unfold networks_of, metadata_of, fc_table. simpl. rewrite map_to_list_empty. simpl.
    eapply (pool_reach_node namespaces devices exact); [done..|]. by eapply reach_new.
Qed.
End firecracker_spec.

(** ** The runtime of measurements

    It answers creations with success and remembers nothing. *)
Lemma fake_runtime_no_contract node alive rt_ok fresh ordered rand (i : ServiceInfo) :
  RuntimeSpec unit Z node alive rt_ok fresh ordered -> rt_ok tt -> fresh rand tt -> False.
Proof.
  intros RS Hok Hf.
  assert (Hr : rt_CreateSandbox rand i tt = Ok (mkSandboxCreationStatus true ("dummy-sandbox-" +:+ Itoa rand)
    (mkPortMapping 80 80 TCP), None, tt)) by reflexivity.
  apply (rs_create (alive := alive)) in Hr as (_&_&H1&_&H2); [|done|done].
  cbn [scs_ID] in *. rewrite H2, lookup_insert_eq in H1. done.
Qed.
