(* ===== verification/WorkerNode.v ===== *)
(** * The worker daemon

    [internal/worker_node/worker_node.go] and [api/worker_node_api_server.go],
    over any sandbox runtime: registration with the control plane, heartbeats,
    the calls of the control plane and the shutdown.  The lemmas are proved
    against the contract of a runtime; the theorems are about nodes started with
    the firecracker or the containerd runtime, which meet it. *)
From Stdlib Require Import ZArith Lia Ascii.
From stdpp Require Import base tactics list gmap strings sets numbers pretty.
From S2P Require Import Prelude Sync Autoscaling Core Net WorkerManagers Networks Sandboxes SandboxSpec.

Local Open Scope Z_scope.

(** ** State and environment *)

(** The answer of the control plane to one attempt: an error, no message, or
    the field [Success]. *)
Inductive cp_answer : Type :=
| AnswerError (e : string)
| AnswerNil
| AnswerStatus (success : bool).

(** A client of the control plane is the replica it is connected to. *)
Record WorkerDaemon (S : Type) : Type := mkWorkerDaemon {
  wd_cpApi : Z;
  wd_SandboxRuntime : S;
  wd_Name : string;
}.
Arguments mkWorkerDaemon {S} _ _ _.
Arguments wd_cpApi {S} _.
Arguments wd_SandboxRuntime {S} _.
Arguments wd_Name {S} _.

Inductive node_action : Type := RegisterAction | DeregisterAction.
(** The configuration of the node and what [pkg/hardware] reports. *)
Record node_config : Type := mkNodeConfig {
  cfg_WorkerNodeIP : string;
  cfg_Port : Z;
  hw_cpus : Z;
  hw_memory : Z;
}.

(** [config.CRIType] *)
Inductive cri_type : Type := CRIContainerd | CRIFirecracker | CRIScalabilityTest.
Definition select_runtime (CRIType : string) : outcome cri_type :=
  if decide (CRIType = "containerd"%string) then Ok CRIContainerd
  else if decide (CRIType = "firecracker"%string) then Ok CRIFirecracker
  else if decide (CRIType = "scalability_test"%string) then Ok CRIScalabilityTest
  else Fatal.

Section daemon.
Context {S E : Type} `{RT : RuntimeInterface S E}.
Abbreviation M := (GoM (WorkerDaemon S)).

Definition on_runtime {A} : GoM S A -> M A :=
  zoom wd_SandboxRuntime (fun s w => mkWorkerDaemon (wd_cpApi w) s (wd_Name w)).

(** [make nodeName] creates the runtime that was selected. *)
Definition NewWorkerNode (env : E) (cpApi : Z) (hostName : string) (name : list string) (rnd uid : Z)
    (make : string -> outcome S) : outcome (WorkerDaemon S) :=
  let hostName := default hostName (head name) in
  let nodeName := (hostName +:+ "-" +:+ Itoa rnd)%string in
  if decide (uid = 0) then
    runtime ← make nodeName;
    if rt_ValidateHostConfig env then Ok (mkWorkerDaemon cpApi runtime nodeName) else Fatal
  else Fatal.

(** ** The control plane *)

(** [wait.PollUntilContextCancel], with a condition that never fails: the
    condition is tried at once and then after every interval; [answers] are the
    attempts before the context expires. *)
Fixpoint poll_instruction (answers : list cp_answer) : bool :=
  match answers with
  | [] => false
  | AnswerStatus true :: _ => true
  | _ :: answers' => poll_instruction answers'
  end.
Definition node_info (c : node_config) (w : WorkerDaemon S) : NodeInfo :=
  mkNodeInfo (wd_Name w) (cfg_WorkerNodeIP c) (i32 (cfg_Port c)) (hw_cpus c) (hw_memory c).
Definition sendInstructionToControlPlane (c : node_config) (action : node_action)
    (cpi : node_action -> NodeInfo -> list cp_answer) : M unit :=
  w ← go_get;
  if poll_instruction (cpi action (node_info c w)) then mret tt else go_fatal.
Definition RegisterNodeWithControlPlane (c : node_config) := sendInstructionToControlPlane c RegisterAction.
Definition DeregisterNodeFromControlPlane (c : node_config) := sendInstructionToControlPlane c DeregisterAction.

(** The condition of the heartbeat ends the poll on an error. *)
Fixpoint poll_heartbeat (answers : list cp_answer) : go_error :=
  match answers with
  | [] => Some "context deadline exceeded"%string
  | AnswerStatus true :: _ => None
  | AnswerError e :: _ => Some e
  | _ :: answers' => poll_heartbeat answers'
  end.
Definition getWorkerStatistics (cpuUsage memoryUsage : Z) (w : WorkerDaemon S) : NodeHeartbeatMessage :=
  mkNodeHeartbeatMessage (wd_Name w) cpuUsage memoryUsage.
(** [reconnect]: the result of [NewControlPlaneConnection]. *)
Definition sendHeartbeatLoop (cpuUsage memoryUsage : Z) (cpi : NodeHeartbeatMessage -> list cp_answer)
    (reconnect : string + Z) : M unit :=
  w ← go_get;
  match poll_heartbeat (cpi (getWorkerStatistics cpuUsage memoryUsage w)) with
  | None => mret tt
  | Some _ =>
      match reconnect with
      | inl _ => go_fatal
      | inr cpApi => go_modify (fun w => mkWorkerDaemon cpApi (wd_SandboxRuntime w) (wd_Name w))
      end
  end.

(** ** Shutdown *)

Definition CleanResources (env : E) : M unit :=
  w ← go_get;
  go_for (rt_keys env (wd_SandboxRuntime w)) (fun key =>
    on_runtime (rt_DeleteSandbox env key) ;; mret tt).
Definition StopWorkerNode (env : E) (c : node_config) (cpi : node_action -> NodeInfo -> list cp_answer) : M unit :=
  CleanResources env ;; DeregisterNodeFromControlPlane c cpi.

(** ** The interface of the daemon *)

Definition wn_CreateSandbox (env : E) (i : ServiceInfo) : M (SandboxCreationStatus * go_error) :=
  on_runtime (rt_CreateSandbox env i).
Definition wn_DeleteSandbox (env : E) (id : string) : M (ActionStatus * go_error) :=
  on_runtime (rt_DeleteSandbox env id).
Definition wn_ListEndpoints (env : E) : M (list proto_Endpoint) := on_runtime (rt_ListEndpoints env).
End daemon.

(** ** What the control plane was told

    A history of calls to the daemon, with the sandboxes the control plane knows
    from the answers: those whose creation was answered with success and that it
    has not asked to delete.  Goroutines of the runtime run between the calls. *)
Section history.
Context {S E : Type} `{RT : RuntimeInterface S E} (fresh : E -> S -> Prop).
Implicit Types (w : WorkerDaemon S) (told : gmap string (string * Z)).

Definition learn (i : ServiceInfo) (answer : SandboxCreationStatus * go_error) told : gmap string (string * Z) :=
  if scs_Success answer.1 && bool_decide (answer.2 = None)
  then <[scs_ID answer.1 := (si_Name i, pm_HostPort (scs_PortMappings answer.1))]> told else told.

Inductive wn_history (w0 : WorkerDaemon S) : gmap string (string * Z) -> WorkerDaemon S -> Prop :=
| wh_start : wn_history w0 ∅ w0
| wh_create told w env i answer w' :
    wn_history w0 told w -> fresh env (wd_SandboxRuntime w) ->
    wn_CreateSandbox env i w = Ok (answer, w') -> wn_history w0 (learn i answer told) w'
| wh_delete told w env id answer w' :
    wn_history w0 told w -> wn_DeleteSandbox env id w = Ok (answer, w') ->
    wn_history w0 (delete id told) w'
| wh_heartbeat told w cpu mem cpi reconnect u w' :
    wn_history w0 told w -> sendHeartbeatLoop cpu mem cpi reconnect w = Ok (u, w') -> wn_history w0 told w'
| wh_background told w env u w' :
    wn_history w0 told w -> on_runtime (rt_background env) w = Ok (u, w') -> wn_history w0 told w'.
End history.

Section against_the_contract.
Context {S E : Type} `{RT : RuntimeInterface S E}.
Context (node : S -> string) (alive : S -> gmap string (string * Z)) (rt_ok : S -> Prop).
Context (fresh : E -> S -> Prop) (ordered : E -> Prop).
Context `{RS : !RuntimeSpec S E node alive rt_ok fresh ordered}.
Implicit Types (w : WorkerDaemon S) (told : gmap string (string * Z)).

Definition distinct_ports (t : gmap string (string * Z)) : Prop :=
  forall id id' x x', t !! id = Some x -> t !! id' = Some x' -> x.2 = x'.2 -> id = id'.

Lemma wn_history_alive w0 told w :
  rt_ok (wd_SandboxRuntime w0) -> alive (wd_SandboxRuntime w0) = ∅ -> wn_history fresh w0 told w ->
  rt_ok (wd_SandboxRuntime w) /\ alive (wd_SandboxRuntime w) = told /\ distinct_ports told /\
  node (wd_SandboxRuntime w) = node (wd_SandboxRuntime w0).
Proof.
  intros H0 He. induction 1 as [|told w env i [st err] w' _ IH Hf Hr|told w env id [st err] w' _ IH Hr|
    told w cpu mem cpi reconnect u w' _ IH Hr|told w env u w' _ IH Hr].
  - split; [done|]. split; [done|]. split; [|done]. intros id id' x x' Hx. by rewrite lookup_empty in Hx.
  - destruct IH as (Hok&Ha&Hd&Hn). apply zoom_ok in Hr as (s&Hr&->).
    apply (rs_create (alive := alive)) in Hr as (Hok'&Hn'&Hr); [|done|done]. simpl. unfold learn. simpl.
    split; [done|]. destruct (scs_Success st && bool_decide (err = None)); [|by rewrite Hn', Hr].
    destruct Hr as (_&Hp&Hr). rewrite Ha in Hr, Hp. rewrite Hr, Hn'. split; [done|]. split; [|done].
    intros id id' x x'. rewrite !lookup_insert_Some. intros [[<- <-]|[Hne Hx]] [[<- <-]|[Hne' Hx']] Heq; simpl in *;
      [done|by apply Hp in Hx'|by apply Hp in Hx|by eapply Hd].
  - destruct IH as (Hok&Ha&Hd&Hn). apply zoom_ok in Hr as (s&Hr&->).
    apply (rs_delete (alive := alive)) in Hr as (Hok'&Hn'&Hr); [|done]. simpl. rewrite Hr, Ha, Hn'.
    split; [done|]. split; [done|]. split; [|done]. intros id1 id2 x x'. rewrite !lookup_delete_Some.
    intros [_ Hx] [_ Hx']. by apply Hd.
  - unfold sendHeartbeatLoop in Hr. apply gom_bind_ok in Hr as (?&?&[= <- <-]&Hr).
    destruct (poll_heartbeat _); [|by injection Hr as <- <-].
    destruct reconnect; [done|]. injection Hr as <- <-. done.
  - destruct IH as (Hok&Ha&Hd&Hn). apply zoom_ok in Hr as (s&Hr&->).
    apply (rs_background (alive := alive)) in Hr as (Hok'&Hn'&Hr); [|done]. simpl. by rewrite Hr, Hn'.
Qed.

Lemma delete_all_keys env keys w u w' :
  rt_ok (wd_SandboxRuntime w) ->
  go_for keys (fun key => on_runtime (rt_DeleteSandbox env key) ;; mret tt) w = Ok (u, w') ->
  rt_ok (wd_SandboxRuntime w') /\ wd_Name w' = wd_Name w /\ wd_cpApi w' = wd_cpApi w /\
  forall id, alive (wd_SandboxRuntime w') !! id =
    if decide (id ∈ keys) then None else alive (wd_SandboxRuntime w) !! id.
Proof.
  revert w. induction keys as [|key keys IH]; intros w Hok Hr; simpl in Hr.
  { injection Hr as <- <-. done. }
  apply gom_bind_ok in Hr as (?&w1&Hd&Hr). apply gom_bind_ok in Hd as ([st err]&w2&Hd&[= <- <-]).
  apply zoom_ok in Hd as (s&Hd&->). apply (rs_delete (alive := alive)) in Hd as (Hok'&_&Ha); [|done].
  apply IH in Hr as (?&?&?&Hal); [|done]. split; [done|]. split; [done|]. split; [done|].
  intros id. rewrite Hal. simpl. rewrite Ha. destruct (decide (id ∈ keys)) as [Hin|Hin].
  - by rewrite decide_True by (by right).
  - destruct (decide (id = key)) as [->|Hne].
    + rewrite decide_True by (by left). by rewrite lookup_delete_eq.
    + rewrite decide_False by (rewrite elem_of_cons; tauto). by rewrite lookup_delete_ne.
Qed.

(** What a listing has to say: the sandboxes of [told], on the node [name]. *)
Definition lists_exactly (name : string) told (l : list proto_Endpoint) : Prop :=
  ((fun p => (pe_SandboxID p, (pe_ServiceName p, pe_HostPort p))) <$> l ≡ₚ map_to_list told) /\
  Forall (fun p => pe_NodeName p = name) l /\ distinct_ports told.

Lemma history_listing w0 told w env l w' :
  rt_ok (wd_SandboxRuntime w0) -> alive (wd_SandboxRuntime w0) = ∅ -> wn_history fresh w0 told w ->
  ordered env -> wn_ListEndpoints env w = Ok (l, w') ->
  w' = w /\ lists_exactly (node (wd_SandboxRuntime w0)) told l.
Proof.
  intros H0 He Hh Ho Hr. destruct (wn_history_alive w0 told w H0 He Hh) as (Hok&Ha&Hd&Hn).
  apply zoom_ok in Hr as (s&Hr&->). apply (rs_list (alive := alive)) in Hr as (->&Hl&Hf); [|done|done].
  rewrite Ha in Hl. rewrite Hn in Hf. split; [by destruct w|]. done.
Qed.

(** A daemon that stops leaves no sandbox behind.  Stopping deletes every
    sandbox of the node, whatever errors the single deletions report, before it
    takes leave of the control plane. *)
Theorem stopping_cleans_node w env c cpi u w' :
  rt_ok (wd_SandboxRuntime w) -> ordered env -> StopWorkerNode env c cpi w = Ok (u, w') ->
  alive (wd_SandboxRuntime w') = ∅ /\ rt_ok (wd_SandboxRuntime w') /\
  poll_instruction (cpi DeregisterAction (node_info c w)) = true.
Proof.
  intros Hok Ho Hr. unfold StopWorkerNode in Hr. apply gom_bind_ok in Hr as (?&w1&Hc&Hr).
  unfold CleanResources in Hc. apply gom_bind_ok in Hc as (?&?&[= <- <-]&Hc).
  apply delete_all_keys in Hc as (Hok1&Hname&_&Ha); [|done].
  unfold DeregisterNodeFromControlPlane, sendInstructionToControlPlane in Hr.
  apply gom_bind_ok in Hr as (?&?&[= <- <-]&Hr). unfold node_info in *. rewrite Hname in Hr.
  destruct (poll_instruction _); [|done]. injection Hr as <- <-. split; [|done].
  apply map_empty. intros id. rewrite Ha. case_decide as Hin; [done|].
  rewrite (rs_keys (alive := alive)) in Hin by done.
  destruct (alive (wd_SandboxRuntime w) !! id) as [y|] eqn:Hy; [|done]. exfalso. apply Hin.
  apply list_elem_of_fmap. exists (id, y). by rewrite elem_of_map_to_list.
Qed.
End against_the_contract.

(** ** The two runtimes *)

(** C19: A node can always tell what it was asked for.  Take a node that was just
    started, with virtual machines or with containers, and any history of
    creations, deletions and heartbeats one after the other, successful or not,
    with refills of the network pool in between; names that the node draws for
    new sandboxes are not those of sandboxes it has.  The sandboxes it lists are
    exactly those whose creation it answered with success and that it was not
    asked to delete, each with the service and the host port of that answer;
    their host ports are pairwise different.  A control plane that lost its
    memory therefore recovers the endpoints it had announced. *)
Theorem listing_matches_answers {H} `{HostCommands H} namespaces devices `{!HostSpec H namespaces devices} :
  (forall name kernel fs pi pe debug snapshots size devs ipt dial rnd h r0 cpApi told
     (w : WorkerDaemon (Runtime H)) env l w',
     let h0 := (DeleteUnusedNetworkDevices devs h).2 in
     peers_in (namespaces h0) (devices h0) ->
     NewFirecrackerRuntime (NewSandboxManager name) kernel fs pi pe debug snapshots size devs ipt dial rnd h = Ok r0 ->
     wn_history fc_fresh (mkWorkerDaemon cpApi r0 name) told w -> fc_ordered env ->
     wn_ListEndpoints env w = Ok (l, w') -> w' = w /\ lists_exactly name told l) /\
  (forall name env0 prefetch clients ipt dial (h : H) r0 cpApi told
     (w : WorkerDaemon (ContainerdRuntime H)) env l w',
     NewContainerdRuntime env0 prefetch (NewSandboxManager name) clients ipt dial h = Ok r0 ->
     wn_history cr_fresh (mkWorkerDaemon cpApi r0 name) told w -> cr_ordered env ->
     wn_ListEndpoints env w = Ok (l, w') -> w' = w /\ lists_exactly name told l).
Proof.
  split.
  - intros name kernel fs pi pe debug snapshots size devs ipt dial rnd h r0 cpApi told w env l w' h0 Hh0 Hnew Hh Ho Hl.
    destruct (new_firecracker_ok namespaces devices False ltac:(done) _ _ _ _ _ _ _ _ _ _ _ _ _ _ Hh0 ltac:(done) Hnew)
      as (Hok&He&Hn).
    pose proof (firecracker_spec namespaces devices False ltac:(done)) as Hspec. rewrite <- Hn.
    exact (history_listing fc_node fc_alive (fc_ok namespaces devices False) fc_fresh fc_ordered
      (mkWorkerDaemon cpApi r0 name) told w env l w' Hok He Hh Ho Hl).
  - intros name env0 prefetch clients ipt dial h r0 cpApi told w env l w' Hnew Hh Ho Hl.
    destruct (new_containerd_ok _ _ _ _ _ _ _ _ Hnew) as (Hok&He&Hn). rewrite <- Hn.
    exact (history_listing cr_node cr_alive cr_ok cr_fresh cr_ordered
      (mkWorkerDaemon cpApi r0 name) told w env l w' Hok He Hh Ho Hl).
Qed.

(** C20: Sandboxes never share a host port or a network.  Take a node with
    virtual machines, just started on a consistent host, and any history of
    creations, failed or not, and deletions one after the other, with refills of
    the network pool in between and whatever commands of the host fail.
    Different sandboxes of its table have different host ports and different
    networks: interface, internal and exposed address and namespace, and these
    are not those of a network in the pool either; the namespace of each exists;
    the ports in use are exactly those of the sandboxes.  If the host had no
    networks when the pool was made and refuses no deletion of a namespace,
    every namespace of the host belongs to a sandbox or is in the pool. *)
Theorem sandboxes_isolated {H} `{HostCommands H} namespaces devices `{!HostSpec H namespaces devices}
    name kernel fs pi pe debug snapshots size devs ipt dial rnd h r0 cpApi told (w : WorkerDaemon (Runtime H)) :
  let h0 := (DeleteUnusedNetworkDevices devs h).2 in
  peers_in (namespaces h0) (devices h0) ->
  NewFirecrackerRuntime (NewSandboxManager name) kernel fs pi pe debug snapshots size devs ipt dial rnd h = Ok r0 ->
  wn_history fc_fresh (mkWorkerDaemon cpApi r0 name) told w ->
  let r := wd_SandboxRuntime w in
  let sandboxes := metadata_of (fc_table r) in
  let networks := omap id (np_pool (fc_NetworkManager r)) ++ (network_of <$> sandboxes) in
  NoDup (md_HostPort <$> sandboxes) /\ fc_portsInUse r = list_to_set (md_HostPort <$> sandboxes) /\
  NoDup (nc_VETHHostName <$> networks) /\ NoDup (nc_VETHInternalIP <$> networks) /\
  NoDup (nc_ExposedIP <$> networks) /\ NoDup (nc_NetNS <$> networks) /\
  (forall c, c ∈ networks -> nc_NetNS c ∈ namespaces (np_host (fc_NetworkManager r))) /\
  (host_is namespaces devices ∅ ∅ h0 -> deletions_succeed namespaces ->
   namespaces (np_host (fc_NetworkManager r)) = list_to_set (nc_NetNS <$> networks)).
Proof.
  intros h0 Hh0 Hnew Hh.
  set (exact := host_is namespaces devices ∅ ∅ h0 /\ deletions_succeed namespaces).
  destruct (new_firecracker_ok namespaces devices exact ltac:(unfold exact; tauto) _ _ _ _ _ _ _ _ _ _ _ _ _ _ Hh0
    ltac:(unfold exact; tauto) Hnew) as (Hok&He&_).
  pose proof (firecracker_spec namespaces devices exact ltac:(unfold exact; tauto)) as Hspec.
  destruct (wn_history_alive fc_node fc_alive (fc_ok namespaces devices exact) fc_fresh fc_ordered
    (mkWorkerDaemon cpApi r0 name) told w Hok He Hh)
    as ([[A1 A2 _] [[_ _ [B1 B2 B3] _] [C1 _ (C3&_&_&C4)]]]&_).
  split_and!; try done.
  - intros c Hc. apply C3, elem_of_list_to_set, list_elem_of_fmap. eauto.
  - intros Hc Hd. exact (proj1 (C4 (conj Hc Hd))).
Qed.

(** A machine restored from a snapshot that cannot be resumed keeps running,
    but its network goes back to the pool: the next sandbox gets the network of
    a running machine. *)
Theorem failed_resume_shares_network {H} `{HostCommands H} env snapshot (r r' : Runtime H) c rest e x :
  np_pool (fc_NetworkManager r) = Some c :: rest ->
  Z.of_nat (length (np_pool (fc_NetworkManager r))) <= np_MaxNetworkPoolSize (fc_NetworkManager r) ->
  (forall cfg s, ve_NewMachine env cfg s = None) -> ve_Start env = None -> ve_ResumeSnapshot env = Some e ->
  StartFirecrackerVM env (Some snapshot) r = Ok (x, r') ->
  x = inl e /\ np_pool (fc_NetworkManager r') = rest ++ [Some c] /\ fc_running r' !! fc_name env = Some c.
Proof.
  intros Hp Hl Hm Hs Hre Hr. unfold StartFirecrackerVM in Hr. apply gom_bind_ok in Hr as (net&r1&Hg&Hr).
  apply zoom_ok in Hg as (np&Hg&->). unfold GetOneConfig in Hg. apply gom_bind_ok in Hg as (?&?&[= <- <-]&Hg).
  rewrite Hp in Hg. apply gom_bind_ok in Hg as (?&np1&Hg1&Hg). apply gom_bind_ok in Hg as (?&?&[= <- <-]&[= <- <-]).
  assert (Hnp : np_MaxNetworkPoolSize np1 = np_MaxNetworkPoolSize (fc_NetworkManager r))
    by (case_decide; by injection Hg1 as <- <-).
  apply gom_bind_ok in Hr as (?&?&[= <- <-]&Hr). rewrite Hm, Hs, Hre in Hr.
  apply gom_bind_ok in Hr as (?&?&[= <- <-]&Hr). apply gom_bind_ok in Hr as (?&r2&Hgive&[= <- <-]).
  apply zoom_ok in Hgive as (np2&Hgive&->). unfold GiveUpNetwork in Hgive. simpl in Hgive.
  apply gom_bind_ok in Hgive as (?&?&[= <- <-]&Hgive). rewrite Hp in Hl. simpl in Hl, Hgive.
  rewrite decide_True in Hgive by lia. injection Hgive as <- <-. split; [done|]. split; [done|].
  apply lookup_insert_eq.
Qed.

(** ** Examples *)

Import HostExample.
Module NodeExample.
Definition service : ServiceInfo :=
  mkServiceInfo "f" "image" 1 1 (mkPortMapping 0 80 TCP) (Autoscaling.NewDefaultAutoscalingMetadata false).
Definition exits : exit_state := new_exit_state (mkProcessMonitor ∅ Unlocked).

(** A node with containers. *)
Definition containers : WorkerDaemon (ContainerdRuntime (Host [])) :=
  mkWorkerDaemon 0 (mkContainerdRuntime empty_host ∅ (NewSandboxManager "n1") exits ∅) "n1".
Definition container_env (k : Z) : cr_env :=
  mkCrEnv (fun url => inr url) k (fun _ => None) (inr (100 + k, "10.0.0.5"%string, "ns"%string))
    (fun j => k + Z.of_nat j) 10 None None None None map_to_list.

Definition leave : node_config := mkNodeConfig "10.0.0.3" 10010 8 64.
Definition leaving (_ : node_action) (_ : NodeInfo) : list cp_answer := [AnswerError "down"; AnswerStatus true].

(** A node with virtual machines. *)
Definition machine_env (k : Z) : vm_env :=
  mkVmEnv "/tmp" k (1000 + k) (fun j => 2000 + k + Z.of_nat j) (fun j => k + Z.of_nat j) 10 (fun _ _ => None) None None (inr (100 + k))
    (fun j => Nat.eqb j 2) None None None None (inr (100 + k)) None None map_to_list.
Definition machines : outcome (Runtime (Host [])) :=
  NewFirecrackerRuntime (NewSandboxManager "n1") "kernel" "rootfs" "10.1" "172.17" false true 16
    (inr []) None (fun _ => None) Z.of_nat empty_host.
End NodeExample.
Import NodeExample.

(** Two containers are created and one of them is deleted; and the same with
    virtual machines. *)
Definition two_and_one {S E} `{RuntimeInterface S E} (e1 e2 e3 : E) (id : string) (w0 : WorkerDaemon S)
  : outcome (gmap string (string * Z) * WorkerDaemon S) :=
  a1 ← wn_CreateSandbox e1 service w0;
  a2 ← wn_CreateSandbox e2 service a1.2;
  a3 ← wn_DeleteSandbox e3 id a2.2;
  Ok (delete id (learn service a2.1 (learn service a1.1 ∅)), a3.2).
Lemma two_and_one_history {S E} `{RuntimeInterface S E} (fresh : E -> S -> Prop) e1 e2 e3 id w0 told w :
  fresh e1 (wd_SandboxRuntime w0) ->
  (forall a w1, wn_CreateSandbox e1 service w0 = Ok (a, w1) -> fresh e2 (wd_SandboxRuntime w1)) ->
  two_and_one e1 e2 e3 id w0 = Ok (told, w) -> wn_history fresh w0 told w.
Proof.
  intros H1 H2 Hr. unfold two_and_one in Hr. apply outcome_bind_Ok in Hr as ([a1 w1]&R1&Hr).
  apply outcome_bind_Ok in Hr as ([a2 w2]&R2&Hr). apply outcome_bind_Ok in Hr as ([a3 w3]&R3&[= <- <-]).
  eapply wh_delete; [|exact R3]. eapply wh_create; [|by eapply H2|exact R2].
  eapply wh_create; [apply wh_start|exact H1|exact R1].
Qed.

Lemma listing_matches_answers_witness :
  exists told w l w',
    two_and_one (container_env 7) (container_env 8) (container_env 0) "workload-7" containers = Ok (told, w) /\
    wn_ListEndpoints (container_env 0) w = Ok (l, w') /\
    ((fun p => (pe_SandboxID p, (pe_ServiceName p, pe_HostPort p))) <$> l ≡ₚ
     [("workload-8"%string, ("f"%string, 1032))]).
Proof.
  assert (Hv : match two_and_one (container_env 7) (container_env 8) (container_env 0) "workload-7" containers with
               | Ok (told, w) => match wn_ListEndpoints (container_env 0) w with
                                 | Ok (l, _) => map_to_list told = [("workload-8"%string, ("f"%string, 1032))]
                                 | _ => False
                                 end
               | _ => False
               end) by (vm_compute; reflexivity).
  destruct (two_and_one (container_env 7) (container_env 8) (container_env 0) "workload-7" containers)
    as [[told w]| | |] eqn:Hc; [|destruct Hv..].
  destruct (wn_ListEndpoints (container_env 0) w) as [[l w']| | |] eqn:Hl; [|destruct Hv..].
  exists told, w, l, w'. split; [reflexivity|]. split; [exact Hl|]. rewrite <- Hv.
  apply (proj2 (listing_matches_answers (H := Host []) xh_namespaces xh_devices) "n1"%string (container_env 0) false
    None None (fun _ => None) empty_host (wd_SandboxRuntime containers) 0 told w (container_env 0) l w').
  - reflexivity.
  - apply (two_and_one_history cr_fresh _ _ _ _ _ _ _) with (3 := Hc); [reflexivity|].
    intros a w1 H1. vm_compute in H1. injection H1 as _ <-. reflexivity.
  - apply map_to_list_valid.
  - exact Hl.
Defined.

Lemma stopping_cleans_node_witness :
  match wn_CreateSandbox (container_env 7) service containers with
  | Ok (_, w) => match StopWorkerNode (container_env 0) leave leaving w with
                 | Ok (_, w') => cr_alive (wd_SandboxRuntime w') = ∅
                 | _ => False
                 end
  | _ => False
  end.
Proof.
  assert (Hv : match wn_CreateSandbox (container_env 7) service containers with
               | Ok (_, w) => match StopWorkerNode (container_env 0) leave leaving w with
                              | Ok _ => True | _ => False end
               | _ => False end) by (vm_compute; exact I).
  destruct (wn_CreateSandbox (container_env 7) service containers) as [[answer w]| | |] eqn:Hc; [|destruct Hv..].
  destruct (StopWorkerNode (container_env 0) leave leaving w)
    as [[u w']| | |] eqn:Hs; [|destruct Hv..].
  apply (stopping_cleans_node cr_node cr_alive cr_ok cr_fresh cr_ordered w (container_env 0)
    leave leaving u w'); [|apply map_to_list_valid|exact Hs].
  apply (wn_history_alive cr_node cr_alive cr_ok cr_fresh cr_ordered containers (learn service answer ∅) w);
    [apply ports_ok_empty|reflexivity|].
  refine (wh_create _ _ ∅ containers (container_env 7) service answer w (wh_start _ _) _ Hc). reflexivity.
Defined.

Lemma sandboxes_isolated_witness :
  match machines with
  | Ok r => match wn_CreateSandbox (machine_env 7) service (mkWorkerDaemon 0 r "n1") with
            | Ok (answer, w) => scs_Success answer.1 = true /\
                NoDup (md_HostPort <$> metadata_of (fc_table (wd_SandboxRuntime w)))
            | _ => False
            end
  | _ => False
  end.
Proof.
  assert (Hv : match machines with
               | Ok r => match wn_CreateSandbox (machine_env 7) service (mkWorkerDaemon 0 r "n1") with
                         | Ok (answer, w) => scs_Success answer.1 = true | _ => False end
               | _ => False end) by (vm_compute; reflexivity).
  assert (Hf : match machines with Ok r => fc_fresh (machine_env 7) r | _ => False end) by (vm_compute; reflexivity).
  destruct machines as [r| | |] eqn:Hm; [|destruct Hv..].
  destruct (wn_CreateSandbox (machine_env 7) service (mkWorkerDaemon 0 r "n1")) as [[answer w]| | |] eqn:Hc;
    [|destruct Hv..].
  split; [exact Hv|].
  apply (sandboxes_isolated xh_namespaces xh_devices "n1" "kernel" "rootfs" "10.1" "172.17" false true 16
    (inr []) None (fun _ => None) Z.of_nat empty_host r 0 (learn service answer ∅) w).
  - intros d n Hd. vm_compute in Hd. discriminate Hd.
  - exact Hm.
  - exact (wh_create _ _ ∅ _ (machine_env 7) service answer w (wh_start _ _) Hf Hc).
Defined.
