(* ===== verification/DataPlaneDaemon.v ===== *)
(** * The data plane daemon

    What a data plane does besides serving requests: it connects to a replica of
    the control plane ([pkg/grpc_helpers]), registers, copies the list of
    services, sends heartbeats and takes leave ([internal/data_plane/data_plane.go]),
    and answers the calls of the control plane ([api/data_plane_api_server.go]).

    The control plane is used through the interface [CpiInterface]; [Cluster]
    instantiates it with the handlers of the control plane.  Dialing a replica
    is an oracle. *)
From Stdlib Require Import ZArith Lia Ascii.
From stdpp Require Import base tactics list gmap strings sets numbers pretty.
From S2P Require Import Prelude Sync Core Net FunctionMetadata LoadBalancing Proxy.

Local Open Scope Z_scope.

(** [config.DataPlaneConfig], the fields the daemon reads. *)
Record DataPlaneConfig : Type := mkDataPlaneConfig {
  dc_DataPlaneIp : string;
  dc_ControlPlaneAddress : list string;
  dc_PortProxy : string;
  dc_PortGRPC : string;
  dc_LoadBalancingPolicy : string;
}.

(** [rnd] is the value of [rand.Int()]. *)
Definition NewDataplane (hostName : string) (rnd : Z) : Dataplane :=
  mkDataplane ∅ (hostName +:+ "-" +:+ Itoa rnd)%string.

(** ** Connections *)

(** The random draw and the result of the [n]-th dial. *)
Record dial_env : Type := mkDialEnv {
  de_draw : nat -> Z;
  de_dial : nat -> string -> bool;
}.

(** [EstablishGRPCConnectionPoll]: an error of the dial ends the poll, and the
    loop draws an address again; there is no bound on the attempts.  [Blocked]
    after [fuel] attempts stands for a loop that is still trying. *)
Fixpoint establish_loop (env : dial_env) (addresses : list string) (n fuel : nat) : outcome string :=
  match fuel with
  | O => Blocked
  | S fuel' =>
      i ← Intn (de_draw env n) (Z.of_nat (length addresses));
      addr ← go_index addresses i;
      if de_dial env n addr then Ok addr else establish_loop env addresses (S n) fuel'
  end.
Definition EstablishGRPCConnectionPoll (env : dial_env) (fuel : nat) (addresses : list string) : outcome string :=
  establish_loop env addresses 0 fuel.

(** The connection is never nil and the error never set. *)
Definition NewControlPlaneConnection (env : dial_env) (fuel : nat) (addresses : list string) : outcome string :=
  EstablishGRPCConnectionPoll env fuel addresses.

(** ** The control plane, as a data plane sees it *)

(** A client is named by the address it is connected to; every call changes the
    state [C] of the rest of the system. *)
Class CpiInterface (C : Type) : Type := {
  cpi_RegisterDataplane : string -> DataplaneInfo -> GoM C (ActionStatus * go_error);
  cpi_DeregisterDataplane : string -> DataplaneInfo -> GoM C (ActionStatus * go_error);
  cpi_ListServices : string -> GoM C (list string * go_error);
}.

Section daemon.
Context {C : Type} `{CPI : CpiInterface C}.
Context (cfg : DataPlaneConfig).

(** [int32] of what [strconv.Atoi] returns; its error is dropped. *)
Definition port_of (s : string) : Z := i32 (default 0 (Atoi s)).
Definition dataplane_info : DataplaneInfo :=
  mkDataplaneInfo (dc_DataPlaneIp cfg) (port_of (dc_PortGRPC cfg)) (port_of (dc_PortProxy cfg)).

(** The status of the answer is not read. *)
Definition registerDataPlane (cpApiServer : string) : GoM C go_error :=
  r ← cpi_RegisterDataplane cpApiServer dataplane_info; mret r.2.

(** ** Heartbeats *)

(** The part of a proxy the daemon uses.  [AsyncProxy None] is the nil pointer
    [NewAsyncProxyingService] returns when its database cannot be reached: as a
    [proxy.Proxy] it differs from nil. *)
Record proxy_service : Type := mkProxyService {
  ps_Port : string;
  ps_CPInterface : string;
  ps_LoadBalancingPolicy : Z;
}.
Inductive proxy : Type :=
| SyncProxy (s : proxy_service)
| AsyncProxy (s : option proxy_service).

Definition GetCpApiServer (p : proxy) : outcome string :=
  match p with
  | SyncProxy s | AsyncProxy (Some s) => Ok (ps_CPInterface s)
  | AsyncProxy None => Panic
  end.
Definition SetCpApiServer (client : string) (p : proxy) : outcome proxy :=
  let set s := mkProxyService (ps_Port s) client (ps_LoadBalancingPolicy s) in
  match p with
  | SyncProxy s => Ok (SyncProxy (set s))
  | AsyncProxy (Some s) => Ok (AsyncProxy (Some (set s)))
  | AsyncProxy None => Panic
  end.

(** [attempts]: the environments of the dials of the attempts before the
    context expires.  The result is the error of the poll and the proxy. *)
Fixpoint heartbeat_poll (attempts : list (dial_env * nat)) (p : option proxy) : GoM C (go_error * option proxy) :=
  match attempts with
  | [] => mret (Some "context deadline exceeded"%string, p)
  | (env, fuel) :: attempts' =>
      match p with
      | None => mret (Some "proxy is null"%string, None)
      | Some q =>
          cpApiServer ← go_lift (GetCpApiServer q);
          err ← registerDataPlane cpApiServer;
          match err with
          | None => mret (None, Some q)
          | Some _ =>
              client ← go_lift (NewControlPlaneConnection env fuel (dc_ControlPlaneAddress cfg));
              q' ← go_lift (SetCpApiServer client q);
              heartbeat_poll attempts' (Some q')
          end
      end
  end.
(** The error of the poll is logged. *)
Definition dp_sendHeartbeatLoop (attempts : list (dial_env * nat)) (p : option proxy) : GoM C (option proxy) :=
  r ← heartbeat_poll attempts p; mret r.2.

(** ** Start and end *)

(** The deployments of this process in the state of the system. *)
Context (on_own : forall A, (Dataplane -> A * Dataplane) -> GoM C A).

(** [database]: whether the asynchronous proxy reached its database. *)
Definition GetProxyServer (env : dial_env) (fuel : nat) (async database : bool) : GoM C (go_error * option proxy) :=
  cpApi ← go_lift (NewControlPlaneConnection env fuel (dc_ControlPlaneAddress cfg));
  err ← registerDataPlane cpApi;
  match err with
  | Some e => mret (Some e, None)
  | None =>
      l ← cpi_ListServices cpApi;
      err ← on_own _ (syncDeploymentCache (match l.2 with None => Some l.1 | Some _ => None end));
      match err with
      | Some e => mret (Some e, None)
      | None =>
          let s := mkProxyService (dc_PortProxy cfg) cpApi (parseLoadBalancingPolicy (dc_LoadBalancingPolicy cfg)) in
          mret (None, Some (if async then AsyncProxy (if database then Some s else None) else SyncProxy s))
      end
  end.

(** [net.JoinHostPort] with the port in decimal. *)
Definition JoinHostPort (host : string) (port : Z) : string :=
  if mentions ":"%char host then ("[" +:+ host +:+ "]:" +:+ Itoa port)%string else host_port host port.
(** The loop connects to every replica in turn and keeps the last client. *)
Fixpoint connect_replicas (dials : string -> dial_env * nat) (addresses : list string) (cpApi : option string)
  : outcome (option string) :=
  match addresses with
  | [] => Ok cpApi
  | rawAddr :: addresses' =>
      hp ← SplitAddress rawAddr;
      let addr := JoinHostPort hp.1 hp.2 in
      conn ← EstablishGRPCConnectionPoll (dials addr).1 (dials addr).2 [addr];
      connect_replicas dials addresses' (Some conn)
  end.
(** [grpc_helpers.DeregisterControlPlaneConnection] *)
Definition DeregisterControlPlaneConnection (dials : string -> dial_env * nat) : GoM C go_error :=
  cpApi ← go_lift (connect_replicas dials (dc_ControlPlaneAddress cfg) None);
  match cpApi with
  | None => mret (Some "error deregistering control plane"%string)
  | Some client =>
      r ← cpi_DeregisterDataplane client dataplane_info;
      if bool_decide (r.2 = None) && as_Success r.1 then mret None else go_fatal
  end.
(** [Dataplane.DeregisterControlPlaneConnection]: the error is logged. *)
Definition Dataplane_Deregister (dials : string -> dial_env * nat) : GoM C unit :=
  DeregisterControlPlaneConnection dials ;; mret tt.
End daemon.

(** ** Dialing *)

(** The loop ends as soon as a dial succeeds, at that address. *)
Lemma establish_first env addresses n fuel k :
  addresses ≠ [] -> (n <= k < n + fuel)%nat ->
  (forall addr, addr ∈ addresses -> de_dial env k addr = true) ->
  exists addr, establish_loop env addresses n fuel = Ok addr /\ addr ∈ addresses.
Proof.
  intros Hne. revert n. induction fuel as [|fuel IH]; intros n Hk Hd; [lia|].
  cbn [establish_loop]. set (z := Z.of_nat (length addresses)).
  destruct (Intn_total (de_draw env n) z) as (i&Hi&Hr); [destruct addresses; [done|simpl in z; lia]|].
  rewrite Hi. cbn [mbind outcome_bind].
  destruct (proj1 (go_index_range addresses i) Hr) as [addr Ha]. rewrite Ha. cbn [mbind outcome_bind].
  assert (Hin : addr ∈ addresses).
  { unfold go_index in Ha. case_decide; [|done]. destruct (addresses !! Z.to_nat i) eqn:E; [|done].
    injection Ha as ->. by eapply list_elem_of_lookup_2. }
  destruct (de_dial env n addr) eqn:Ed; [eauto|].
  apply IH; [|done]. destruct (decide (n = k)) as [->|]; [|lia]. rewrite Hd in Ed; done.
Qed.

(** One address that never answers keeps the loop busy for ever. *)
Lemma establish_unreachable env addr n fuel :
  (forall k, de_dial env k addr = false) -> establish_loop env [addr] n fuel = Blocked.
Proof.
  intros Hd. revert n. induction fuel as [|fuel IH]; intros n; [done|]. cbn [establish_loop length].
  unfold Intn. rewrite decide_False by lia. cbn [mbind outcome_bind].
  replace (de_draw env n mod Z.of_nat 1) with 0 by (by rewrite Z.mod_1_r). simpl. by rewrite Hd, IH.
Qed.

(** A single address is dialed until it answers. *)
Lemma establish_single env addr n fuel :
  establish_loop env [addr] n fuel = Ok addr \/ establish_loop env [addr] n fuel = Blocked.
Proof.
  revert n. induction fuel as [|fuel IH]; intros n; [by right|]. cbn [establish_loop length].
  unfold Intn. rewrite decide_False by lia. cbn [mbind outcome_bind].
  replace (de_draw env n mod Z.of_nat 1) with 0 by (by rewrite Z.mod_1_r). simpl.
  destruct (de_dial env n addr); [by left|apply IH].
Qed.

(** ** The shutdown waits for every replica *)

Lemma JoinHostPort_split h p :
  plain_host h = true -> 0 <= p < 2 ^ 63 ->
  SplitAddress (host_port h p) = Ok (h, p) /\ JoinHostPort h p = host_port h p.
Proof.
  intros Hh Hp. split; [by apply SplitAddress_host_port|]. unfold JoinHostPort.
  unfold plain_host in Hh. by destruct (mentions ":"%char h).
Qed.

Lemma connect_replicas_blocked dials (l : list (string * Z)) cpApi h p :
  Forall (fun hp => plain_host hp.1 = true /\ 0 <= hp.2 < 2 ^ 63) l -> (h, p) ∈ l ->
  (forall k, de_dial (dials (host_port h p)).1 k (host_port h p) = false) ->
  connect_replicas dials ((fun hp => host_port hp.1 hp.2) <$> l) cpApi = Blocked.
Proof.
  intros Hl Hin Hd. revert cpApi. induction Hl as [|[h' p'] l [Hh Hp] Hl IH]; intros cpApi;
    [by apply elem_of_nil in Hin|].
  cbn [fmap list_fmap connect_replicas fst snd]. destruct (JoinHostPort_split h' p' Hh Hp) as [E1 E2].
  rewrite E1. cbn [mbind outcome_bind fst snd]. rewrite E2. unfold EstablishGRPCConnectionPoll.
  apply elem_of_cons in Hin as [[= <- <-]|Hin]; [by rewrite establish_unreachable by done|].
  destruct (establish_single (dials (host_port h' p')).1 (host_port h' p') 0 (dials (host_port h' p')).2)
    as [-> | ->]; [|done]. cbn [mbind outcome_bind]. by apply IH.
Qed.

(** C39: A replica that is down keeps data planes from stopping.  On
    termination a data plane connects to all configured replicas of the control
    plane one after the other before it deregisters.  If one of them does not
    answer, the shutdown is still dialing after any number of attempts, nothing
    is sent to the replicas that do answer, and the control plane keeps the
    data plane. *)
Theorem down_replica_blocks_shutdown {C} `{CpiInterface C} cfg dials (l : list (string * Z)) h p (c : C) :
  Forall (fun hp => plain_host hp.1 = true /\ 0 <= hp.2 < 2 ^ 63) l ->
  dc_ControlPlaneAddress cfg = ((fun hp => host_port hp.1 hp.2) <$> l) -> (h, p) ∈ l ->
  (forall k, de_dial (dials (host_port h p)).1 k (host_port h p) = false) ->
  Dataplane_Deregister cfg dials c = Blocked.
Proof.
  intros Hl Hcfg Hin Hd. unfold Dataplane_Deregister. apply gom_bind_blocked.
  unfold DeregisterControlPlaneConnection. apply gom_bind_blocked.
  unfold go_lift. by rewrite Hcfg, (connect_replicas_blocked dials l None h p).
Qed.

(** A control plane that accepts everything. *)
Definition accepting : CpiInterface unit := {|
  cpi_RegisterDataplane _ _ := mret (status_ok, None);
  cpi_DeregisterDataplane _ _ := mret (status_ok, None);
  cpi_ListServices _ := mret ([], None);
|}.

Lemma down_replica_blocks_shutdown_witness :
  let up := mkDialEnv (fun _ => 0) (fun _ a => bool_decide (a ≠ "10.0.0.2:9090"%string)) in
  Dataplane_Deregister (CPI := accepting)
    (mkDataPlaneConfig "10.0.0.9" ["10.0.0.1:9090"; "10.0.0.2:9090"]%string "8080" "8081" "random")
    (fun _ => (up, 100%nat)) tt = Blocked.
Proof.
  intros up. apply (down_replica_blocks_shutdown (H := accepting) _ _
    [("10.0.0.1"%string, 9090); ("10.0.0.2"%string, 9090)] "10.0.0.2"%string 9090).
  - repeat constructor; by vm_compute.
  - by vm_compute.
  - right. by left.
  - intros k. by vm_compute.
Defined.
