(* ===== verification/Cluster.v ===== *)
(** * Control plane and data planes together

    The handlers of the control plane and the daemons of the data planes as one
    system: a remote call the control plane makes to a data plane ([cp_rpcs]) is
    carried out by the process at that address when it succeeds, and may or may
    not be when it fails; the calls of the data planes are served by the handlers
    of the control plane when the replica they reach leads or forwards them to
    the leader, and answered as [CpApi] says when it knows none.  The second
    part is the heartbeats of the worker nodes against the node monitor, in
    time. *)
From Stdlib Require Import ZArith Lia.
From stdpp Require Import base tactics list gmap strings sets numbers.
From S2P Require Import Prelude Sync Autoscaling Controller Core Placement Persistence ScalingLoop ControlPlane.
From S2P Require Import Net FunctionMetadata LoadBalancing Proxy DataPlaneDaemon.

Local Open Scope Z_scope.

(** ** The system *)

(** The control plane that leads, and the data plane processes by address. *)
Record cluster (S P : Type) : Type := mkCluster {
  cl_cp : ControlPlane S P;
  cl_dps : gmap string Dataplane;
}.
Arguments mkCluster {S P} _ _.
Arguments cl_cp {S P} _.
Arguments cl_dps {S P} _.

(** The interface of a data plane ([api/data_plane_api_server.go]): each call is
    passed on to the data plane.  Calls to worker nodes do not concern it. *)
Definition dp_serve (r : rpc) (d : Dataplane) : outcome Dataplane :=
  match r with
  | RpcAddDeployment _ service => Ok (Dataplane_AddDeployment service d).2
  | RpcDeleteDeployment _ service => Ok (Dataplane_DeleteDeployment service d).2
  | RpcUpdateEndpointList _ service endpoints =>
      x ← UpdateEndpointList (mkPatch (Some service) (Some endpoints)) d; Ok x.2
  | RpcDrainSandbox _ service endpoints =>
      x ← Dataplane_DrainSandbox (mkPatch (Some service) (Some endpoints)) d; Ok x.2
  | _ => Ok d
  end.
Definition rpc_target (r : rpc) : option string :=
  match r with
  | RpcAddDeployment ip _ | RpcDeleteDeployment ip _
  | RpcUpdateEndpointList ip _ _ | RpcDrainSandbox ip _ _ => Some ip
  | _ => None
  end.
(** A call to an address where no process runs has no effect. *)
Definition dp_deliver (r : rpc) (dps : gmap string Dataplane) : outcome (gmap string Dataplane) :=
  match rpc_target r with
  | None => Ok dps
  | Some ip =>
      match dps !! ip with
      | None => Ok dps
      | Some d => d' ← dp_serve r d; Ok (<[ip := d']> dps)
      end
  end.
Fixpoint dp_deliver_all (rs : list rpc) (dps : gmap string Dataplane) : outcome (gmap string Dataplane) :=
  match rs with
  | [] => Ok dps
  | r :: rs' => dps' ← dp_deliver r dps; dp_deliver_all rs' dps'
  end.

(** A replica of the control plane, as a data plane sees it: it serves the call,
    itself or by forwarding it; it knows no leader; or it cannot be reached. *)
Inductive replica_state : Type :=
| ReplicaServes
| ReplicaLeaderless
| ReplicaDown (e : string).

(** What surrounds an event: the environment of the control plane, which of its
    calls reach a data plane although they fail, and the replicas. *)
Record cl_env : Type := mkClEnv {
  ce_cp : cp_env;
  ce_reached : nat -> bool;
  ce_replica : string -> replica_state;
}.

Section system.
Context {S P : Type} `{PL : PersistenceLayer S} `{PP : PlacementPolicy P}.
Context (cfg : ControlPlaneConfig) (env : cl_env).
Abbreviation CL := (cluster S P).

(** The [k]-th call of the control plane is carried out. *)
Definition delivered (k : nat) : bool :=
  match e_err (ce_cp env) k with None => true | Some _ => ce_reached env k end.
Fixpoint reaching (k : nat) (rs : list rpc) : list rpc :=
  match rs with
  | [] => []
  | r :: rs' => if delivered k then r :: reaching (Datatypes.S k) rs' else reaching (Datatypes.S k) rs'
  end.

(** Run a handler of the control plane; its calls go to the data planes. *)
Definition on_cp {A} (m : GoM (ControlPlane S P) A) : GoM CL A := fun c =>
  match m (cl_cp c) with
  | Ok (a, cp') =>
      let sent := length (cp_rpcs (cl_cp c)) in
      dps ← dp_deliver_all (reaching sent (drop sent (cp_rpcs cp'))) (cl_dps c);
      Ok (a, mkCluster cp' dps)
  | Panic => Panic
  | Fatal => Fatal
  | Blocked => Blocked
  end.
Definition on_process (ip : string) : forall A, (Dataplane -> A * Dataplane) -> GoM CL A := fun A f c =>
  d ← deref (cl_dps c !! ip);
  let '(a, d') := f d in Ok (a, mkCluster (cl_cp c) (<[ip := d']> (cl_dps c))).

#[local] Instance cluster_cpi : CpiInterface CL := {|
  cpi_RegisterDataplane replica i :=
    match ce_replica env replica with
    | ReplicaServes => on_cp (r ← RegisterDataplane (ce_cp env) i; mret r.1)
    | ReplicaLeaderless => mret (status_failed, None)
    | ReplicaDown e => mret (status_failed, Some e)
    end;
  cpi_DeregisterDataplane replica i :=
    match ce_replica env replica with
    | ReplicaServes => on_cp (DeregisterDataplane (ce_cp env) i)
    | ReplicaLeaderless => mret (status_failed, None)
    | ReplicaDown e => mret (status_failed, Some e)
    end;
  cpi_ListServices replica :=
    match ce_replica env replica with
    | ReplicaServes => on_cp (l ← ListServices (ce_cp env); mret (l, None))
    | ReplicaLeaderless => mret ([], None)
    | ReplicaDown e => mret ([], Some e)
    end;
|}.

Definition set_process (ip : string) (d : option Dataplane) : GoM CL unit :=
  go_modify (fun c => mkCluster (cl_cp c) (partial_alter (fun _ => d) ip (cl_dps c))).

(** What happens in the system. *)
Inductive cl_event : Type :=
| EvRegisterService (i : ServiceInfo)
| EvDeregisterService (i : ServiceInfo)
| EvStart (dc : DataPlaneConfig) (hostName : string) (rnd : Z) (dial : dial_env) (fuel : nat) (async database : bool)
| EvHeartbeat (dc : DataPlaneConfig) (attempts : list (dial_env * nat)) (p : option proxy)
| EvStop (dc : DataPlaneConfig) (dials : string -> dial_env * nat).

(** [main] of a data plane terminates when [GetProxyServer] fails. *)
Definition cl_handle (ev : cl_event) : GoM CL unit :=
  match ev with
  | EvRegisterService i => on_cp (RegisterService cfg (ce_cp env) i) ;; mret tt
  | EvDeregisterService i => on_cp (DeregisterService (ce_cp env) i) ;; mret tt
  | EvStart dc hostName rnd dial fuel async database =>
      set_process (dc_DataPlaneIp dc) (Some (NewDataplane hostName rnd)) ;;
      r ← GetProxyServer dc (on_process (dc_DataPlaneIp dc)) dial fuel async database;
      match r.1 with
      | None => mret tt
      | Some _ => set_process (dc_DataPlaneIp dc) None
      end
  | EvHeartbeat dc attempts p => dp_sendHeartbeatLoop dc attempts p ;; mret tt
  | EvStop dc dials => Dataplane_Deregister dc dials ;; set_process (dc_DataPlaneIp dc) None
  end.

Lemma reaching_all k rs : (forall j, delivered j = true) -> reaching k rs = rs.
Proof. intros H. revert k. induction rs as [|r rs IH]; intros k; cbn; [done|]. by rewrite H, IH. Qed.
Lemma delivered_ok : (forall k, e_err (ce_cp env) k = None) -> forall k, delivered k = true.
Proof. intros H k. unfold delivered. by rewrite H. Qed.
End system.

(** Compute the fields of a state that was updated field by field. *)
Ltac cp_norm H :=
  cbn [DataPlaneConnections NIStorage SIStorage ss_heap cp_PlacementPolicy cp_PersistenceLayer cp_rpcs
       cp_endpoints cp_tasks cp_loops InternalMap internalLock] in H.
Ltac cp_run H := erewrite gom_bind_run in H; [|reflexivity]; cp_norm H.

(** ** What a call does to the services a data plane knows *)

Definition known (d : Dataplane) : gset string := dom (dpl_deployments d).

Definition rpc_effect (ip : string) (X : gset string) (r : rpc) : gset string :=
  match r with
  | RpcAddDeployment ip' s => if decide (ip' = ip) then {[s]} ∪ X else X
  | RpcDeleteDeployment ip' s => if decide (ip' = ip) then X ∖ {[s]} else X
  | _ => X
  end.

Lemma known_add s d : known (Dataplane_AddDeployment s d).2 = {[s]} ∪ known d.
Proof.
  unfold Dataplane_AddDeployment, Deployments_Add, known. destruct (dpl_deployments d !! s) eqn:E; simpl.
  - apply elem_of_dom_2 in E. set_solver.
  - exact (dom_insert_L (M:=gmap string) _ _ _).
Qed.
Lemma known_delete s d : known (Dataplane_DeleteDeployment s d).2 = known d ∖ {[s]}.
Proof.
  unfold Dataplane_DeleteDeployment, Deployments_Delete, known. destruct (dpl_deployments d !! s) eqn:E; simpl.
  - exact (dom_delete_L (M:=gmap string) _ _).
  - apply not_elem_of_dom_2 in E. set_solver.
Qed.

(** Updates of the endpoints concern deployments that exist. *)
Lemma dp_serve_effect r d d' ip :
  dp_serve r d = Ok d' -> rpc_target r = Some ip -> known d' = rpc_effect ip (known d) r.
Proof.
  destruct r; simpl; try done; intros H [= <-].
  - injection H as <-. rewrite decide_True by done. apply known_add.
  - injection H as <-. rewrite decide_True by done. apply known_delete.
  - unfold UpdateEndpointList in H. simpl in H. unfold GetDeployment in H.
    destruct (dpl_deployments d !! service) as [m|] eqn:E; simpl in H; [|by injection H as <-].
    destruct (AddEndpoints endpoints m); simpl in H; try done. injection H as <-. unfold known. simpl.
    apply (dom_insert_lookup_L (M:=gmap string)). eauto.
  - unfold Dataplane_DrainSandbox in H. simpl in H. unfold GetDeployment in H.
    destruct (dpl_deployments d !! service) as [m|] eqn:E; simpl in H; [|by injection H as <-].
    destruct (DrainEndpoints_mark endpoints m) as [bs m1].
    destruct (waitForDrainingToComplete bs (ep_heap m1)); simpl in H; try done. injection H as <-.
    unfold known. simpl. apply (dom_insert_lookup_L (M:=gmap string)). eauto.
Qed.

Lemma rpc_effect_other r ip X : rpc_target r ≠ Some ip -> rpc_effect ip X r = X.
Proof. destruct r; simpl; intros; rewrite ?decide_False by congruence; done. Qed.

(** Delivered calls change the processes they are addressed to. *)
Lemma dp_deliver_all_known rs dps dps' ip :
  dp_deliver_all rs dps = Ok dps' ->
  known <$> dps' !! ip = (fun d => foldl (rpc_effect ip) (known d) rs) <$> dps !! ip.
Proof.
  revert dps. induction rs as [|r rs IH]; intros dps; cbn [dp_deliver_all].
  { intros [= <-]. done. }
  unfold dp_deliver. destruct (rpc_target r) as [ip'|] eqn:Et; cbn [mbind outcome_bind].
  2: { intros H. apply IH in H. rewrite H. destruct (dps !! ip); [|done]. simpl.
       by rewrite rpc_effect_other by (by rewrite Et). }
  destruct (dps !! ip') as [d|] eqn:Ed; cbn [mbind outcome_bind].
  - destruct (dp_serve r d) as [d'| | |] eqn:Es; cbn [mbind outcome_bind]; try done.
    intros H. apply IH in H. rewrite H, lookup_insert. case_decide as Hi; [subst|].
    + rewrite Ed. simpl. by rewrite (dp_serve_effect r d d' ip Es Et).
    + destruct (dps !! ip); [|done]. simpl. by rewrite rpc_effect_other by congruence.
  - intros H. apply IH in H. rewrite H. destruct (dps !! ip) eqn:E; [|done]. simpl.
    rewrite rpc_effect_other; congruence.
Qed.

(** The announcement and the removal of a service reach everybody. *)
Lemma effect_add_all ip s (l : list (string * DataPlaneConnectionInfo)) X :
  foldl (rpc_effect ip) X ((fun kv => RpcAddDeployment kv.1 s) <$> l) =
  if decide (ip ∈ l.*1) then {[s]} ∪ X else X.
Proof.
  revert X. induction l as [|[k d] l IH]; intros X; [done|].
  cbn [fmap list_fmap foldl rpc_effect fst]. rewrite IH.
  case_decide as H1; case_decide as H2; case_decide as H3; set_solver.
Qed.
Lemma effect_delete_all ip s (l : list (string * DataPlaneConnectionInfo)) X :
  foldl (rpc_effect ip) X ((fun kv => RpcDeleteDeployment kv.1 s) <$> l) =
  if decide (ip ∈ l.*1) then X ∖ {[s]} else X.
Proof.
  revert X. induction l as [|[k d] l IH]; intros X; [done|].
  cbn [fmap list_fmap foldl rpc_effect fst]. rewrite IH.
  case_decide as H1; case_decide as H2; case_decide as H3; set_solver.
Qed.

(** ** What the handlers tell the data planes *)

Section told.
Context {S P : Type} `{PL : PersistenceLayer S} `{PP : PlacementPolicy P}.
Context (cfg : ControlPlaneConfig) (env : cp_env).
Implicit Types (c : ControlPlane S P).

Abbreviation dp_table c := (InternalMap (DataPlaneConnections c)).
Abbreviation si_table c := (InternalMap (SIStorage c)).

(** No lock is held, the data planes are connected, and every service object is
    filed under its name. *)
Record settled c : Prop := {
  st_dp : internalLock (DataPlaneConnections c) = Unlocked;
  st_si : internalLock (SIStorage c) = Unlocked;
  st_conn : forall k d, dp_table c !! k = Some d -> dp_connected d = true;
  st_name : forall k a, si_table c !! k = Some a ->
    exists ss, ss_heap c !! a = Some ss /\ si_Name (ss_ServiceInfo ss) = k;
}.

Lemma settled_quiet c : settled c -> quiet c.
Proof. intros [H1 H2 H3 _]. by split. Qed.

(** A new service object. *)
Lemma settled_names_insert (sim : gmap string nat) h ss :
  (forall k a, sim !! k = Some a -> exists ss, h !! a = Some ss /\ si_Name (ss_ServiceInfo ss) = k) ->
  forall k a, <[si_Name (ss_ServiceInfo ss) := length h]> sim !! k = Some a ->
    exists ss', (h ++ [ss]) !! a = Some ss' /\ si_Name (ss_ServiceInfo ss') = k.
Proof.
  intros Hn k a. rewrite lookup_insert. case_decide as Hk.
  - intros [= <-]. exists ss. by rewrite list_lookup_middle.
  - intros Ha. destruct (Hn k a Ha) as (ss'&Hs&He). exists ss'. split; [|done]. by apply lookup_app_l_Some.
Qed.

Lemma RegisterService_told i c r c' :
  settled c -> valid_order (e_dp_ord env) -> RegisterService cfg env i c = Ok (r, c') ->
  settled c' /\ DataPlaneConnections c' = DataPlaneConnections c /\
  ((cp_rpcs c' = cp_rpcs c /\ dom (si_table c') = dom (si_table c)) \/
   (cp_rpcs c' = cp_rpcs c ++ ((fun kv => RpcAddDeployment kv.1 (si_Name i)) <$> e_dp_ord env (dp_table c)) /\
    dom (si_table c') = {[si_Name i]} ∪ dom (si_table c))).
Proof.
  intros [Hdp Hsi Hcn Hnm] Hord H. destruct c as [[dpm l1] ni [sim l2] h pol per rpcs n ts ls].
  simpl in *. subst l1 l2. unfold RegisterService in H. do 2 cp_run H.
  cbn [InternalMap SIStorage] in H. destruct (sim !! si_Name i) as [a|] eqn:Es.
  { injection H as <- <-. simpl. split_and!; [by split|done|by left]. }
  apply gom_bind_ok in H as (r1&c1&H&Hu). apply gom_bind_ok in H as (e&c2&Hp&H).
  apply zoom_ok in Hp as (s'&Hp&->). cp_norm Hp. cp_norm H. destruct e as [e|]; [discriminate H|].
  erewrite gom_bind_run in H; [|apply (notify_run env i false dpm ni sim WLocked h pol s' rpcs n ts ls); done].
  destruct (cfg_PrecreateSnapshots cfg); [discriminate H|].
  injection H as <- <-. injection Hu as <- <-. simpl. split; [|split; [done|right; by rewrite dom_insert_L]].
  split; try done. simpl. apply (settled_names_insert sim h (new_service zero_time i) Hnm).
Qed.

(** The calls of a removal, up to the first error. *)
Lemma delete_deployments_told name l c r c' :
  Forall (fun kv => dp_connected kv.2 = true) l -> (forall k, e_err env k = None) ->
  delete_deployments env name l c = Ok (r, c') ->
  r = None /\ on_dp Unlock (with_rpcs ((fun kv => RpcDeleteDeployment kv.1 name) <$> l) c) = Ok (tt, c').
Proof.
  intros Hl He. revert c. induction Hl as [|[ip d] l Hd Hl IH]; intros c; cbn [delete_deployments].
  - rewrite with_rpcs_nil. intros H. apply gom_bind_ok in H as ([]&c1&H1&[= <- <-]). done.
  - intros H. apply gom_bind_ok in H as (e&c1&H1&H). unfold dp_call, call in H1. simpl in Hd. rewrite Hd, He in H1.
    injection H1 as <- <-. apply IH in H as [-> H]. split; [done|]. rewrite <- H. f_equal.
    unfold with_rpcs, with_rpc. simpl. by rewrite <- app_assoc.
Qed.

Lemma dp_unlock_ok c u c' :
  on_dp Unlock c = Ok (u, c') ->
  c' = mkControlPlane (mkStructure (dp_table c) Unlocked) (NIStorage c) (SIStorage c) (ss_heap c)
         (cp_PlacementPolicy c) (cp_PersistenceLayer c) (cp_rpcs c) (cp_endpoints c) (cp_tasks c) (cp_loops c).
Proof.
  intros H. apply zoom_ok in H as (t&Ht&->). destruct c as [[m lk] ? ? ? ? ? ? ? ? ?]. cbn in *.
  destruct lk; cbv in Ht; try done. by injection Ht as _ <-.
Qed.

Lemma heap_insert_name (h : list ServiceInfoStorage) (sim : gmap string nat) a ss ss' :
  h !! a = Some ss -> ss_ServiceInfo ss' = ss_ServiceInfo ss ->
  (forall k b, sim !! k = Some b -> exists s, h !! b = Some s /\ si_Name (ss_ServiceInfo s) = k) ->
  forall k b, sim !! k = Some b -> exists s, <[a := ss']> h !! b = Some s /\ si_Name (ss_ServiceInfo s) = k.
Proof.
  intros Ha Hi Hn k b Hb. destruct (Hn k b Hb) as (s&Hs&Hk). destruct (decide (a = b)) as [->|Hne].
  - exists ss'. rewrite list_lookup_insert_eq by (by eapply lookup_lt_Some). split; [done|]. rewrite Hi.
    by simplify_eq.
  - exists s. by rewrite list_lookup_insert_ne.
Qed.

Lemma DeregisterService_told i c r c' :
  settled c -> valid_order (e_dp_ord env) -> (forall k, e_err env k = None) ->
  DeregisterService env i c = Ok (r, c') ->
  settled c' /\ DataPlaneConnections c' = DataPlaneConnections c /\
  ((cp_rpcs c' = cp_rpcs c /\ dom (si_table c') = dom (si_table c)) \/
   (cp_rpcs c' = cp_rpcs c ++ ((fun kv => RpcDeleteDeployment kv.1 (si_Name i)) <$> e_dp_ord env (dp_table c)) /\
    dom (si_table c') = dom (si_table c) ∖ {[si_Name i]})).
Proof.
  intros [Hdp Hsi Hcn Hnm] Hord Herr H. destruct c as [[dpm l1] ni [sim l2] h pol per rpcs n ts ls].
  simpl in *. subst l1 l2. unfold DeregisterService in H. do 2 cp_run H.
  cbn [InternalMap SIStorage] in H. destruct (sim !! si_Name i) as [a|] eqn:Es.
  2: { injection H as <- <-. simpl. split_and!; [by split|done|by left]. }
  apply gom_bind_ok in H as (r1&c1&H&Hu). apply gom_bind_ok in H as (e&c2&Hp&H).
  apply zoom_ok in Hp as (s'&Hp&->). cp_norm Hp. cp_norm H. destruct e as [e|].
  { injection H as <- <-. injection Hu as <- <-. simpl. split_and!; [by split|done|by left]. }
  apply gom_bind_ok in H as (e&c3&Hr&H). unfold removeServiceFromDataplane in Hr.
  do 2 cp_run Hr. cbn [InternalMap DataPlaneConnections] in Hr.
  apply delete_deployments_told in Hr as [-> Hr]; [|apply list.Forall_forall; intros [k d] Hk;
    rewrite valid_order_elem in Hk by done; by eapply Hcn|done].
  apply dp_unlock_ok in Hr. cbn in Hr. subst c3.
  apply gom_bind_ok in H as ([]&c4&Hc&H). unfold close_desired in Hc.
  destruct (Hnm _ _ Es) as (ss&Hs&Hk). erewrite gom_bind_run in Hc; [|apply ss_deref_run; exact Hs].
  cbv zeta in Hc. destruct (DesiredStateClosed _); [discriminate Hc|].
  erewrite ss_modify_run in Hc; [|exact Hs]. injection Hc as <-. injection H as <- <-.
  injection Hu as <- <-. simpl. split; [|split; [done|right; by rewrite dom_delete_L]].
  split; try done. simpl. intros k b [_ Hb]%lookup_delete_Some. revert k b Hb.
  by apply (heap_insert_name h sim a ss).
Qed.
(** The announcement of the services to a new data plane. *)
Definition announcement (key : string) (names : list string) (r : rpc) : Prop :=
  (exists n, n ∈ names /\ r = RpcAddDeployment key n) \/ exists ip s eps, r = RpcUpdateEndpointList ip s eps.

Lemma dp_get_run key c : on_dp (Get key) c = Ok (dp_table c !! key, c).
Proof. by destruct c as [[] ?]. Qed.
Lemma dp_map_run c : on_dp GetMap c = Ok (dp_table c, c).
Proof. by destruct c as [[] ?]. Qed.

Lemma update_told a eps ss c :
  valid_order (e_dp_ord env) -> (forall k d, dp_table c !! k = Some d -> dp_connected d = true) ->
  ss_heap c !! a = Some ss ->
  singlethreadUpdateEndpoints env a eps c =
    Ok (tt, with_rpcs ((fun kv => RpcUpdateEndpointList kv.1 (si_Name (ss_ServiceInfo ss)) eps)
              <$> e_dp_ord env (dp_table c)) c).
Proof.
  intros Hord Hcn Hs. unfold singlethreadUpdateEndpoints.
  erewrite gom_bind_run; [|apply ss_deref_run; exact Hs]. go_run (dp_map_run c).
  apply (go_for_calls env (fun kv => dp_connected kv.2)). apply list.Forall_forall. intros [k d] Hk.
  rewrite valid_order_elem in Hk by done. by eapply Hcn.
Qed.

Lemma announce_told key l c :
  valid_order (e_dp_ord env) -> (forall k d, dp_table c !! k = Some d -> dp_connected d = true) ->
  (forall k, e_err env k = None) -> is_Some (dp_table c !! key) ->
  (forall k a, (k, a) ∈ l -> exists ss, ss_heap c !! a = Some ss /\ si_Name (ss_ServiceInfo ss) = k) ->
  exists new, announce_services env key l c = Ok (status_ok, None, false, with_rpcs new c) /\
    Forall (announcement key l.*1) new.
Proof.
  intros Hord Hcn Herr [d Hd] Hnm. revert c Hcn Hd Hnm.
  induction l as [|[k a] l IH]; intros c Hcn Hd Hnm; cbn [announce_services].
  { exists []. split; [by rewrite with_rpcs_nil|done]. }
  destruct (Hnm k a) as (ss&Hs&Hk); [by left|].
  erewrite gom_bind_run; [|apply ss_deref_run; exact Hs]. go_run (dp_get_run key c).
  erewrite gom_bind_run; [|unfold go_lift; rewrite Hd; reflexivity].
  pose proof (Hcn _ _ Hd) as Hdc. unfold dp_call, call. rewrite Hdc. erewrite gom_bind_run; [|reflexivity].
  rewrite Herr. erewrite gom_bind_run; [|by apply (update_told a _ ss)]. cbv beta.
  destruct (IH (with_rpcs ((fun kv => RpcUpdateEndpointList kv.1 (si_Name (ss_ServiceInfo ss))
      (prepareCurrentEndpointInfoList ss)) <$> e_dp_ord env (dp_table c))
      (with_rpc (RpcAddDeployment key (si_Name (ss_ServiceInfo ss))) c))) as (new&Hr&Hn); try done.
  { intros k' a' Hin. apply Hnm. by right. }
  eexists. split.
  - etransitivity; [exact Hr|]. do 2 f_equal. unfold with_rpcs, with_rpc. simpl. rewrite <- !app_assoc.
    cbn [app]. reflexivity.
  - constructor; [left; exists k; split; [by left|by rewrite Hk]|]. apply Forall_app. split.
    + apply list.Forall_forall. intros x Hx. apply list_elem_of_fmap in Hx as (kv&->&_). right. eauto.
    + eapply list.Forall_impl; [exact Hn|]. intros x [(n&Hin&->)|Hx]; [left|by right]. exists n. split; [by right|done].
Qed.

Lemma RegisterDataplane_told i c r c' :
  settled c -> valid_order (e_dp_ord env) -> valid_order (e_si_ord env) -> (forall k, e_err env k = None) ->
  RegisterDataplane env i c = Ok (r, c') ->
  settled c' /\ SIStorage c' = SIStorage c /\
  (exists new, cp_rpcs c' = cp_rpcs c ++ new /\ Forall (announcement (di_IP i) (elements (dom (si_table c)))) new) /\
  dom (dp_table c) ⊆ dom (dp_table c') /\ (r.1.2 = None -> di_IP i ∈ dom (dp_table c')).
Proof.
  intros [Hdp Hsi Hcn Hnm] Hord Hos Herr H. destruct c as [[dpm l1] ni [sim l2] h pol per rpcs n ts ls].
  simpl in *. subst l1 l2. unfold RegisterDataplane in H. cbv zeta in H.
  do 3 cp_run H. cbn [InternalMap DataPlaneConnections] in H.
  apply gom_bind_ok in H as (r1&c1&H&Hu). destruct (dpm !! di_IP i) as [d|] eqn:Ed.
  { injection H as <- <-. injection Hu as <- <-. simpl. split_and!; try done.
    - split; try done. simpl. intros k d'. rewrite lookup_insert. case_decide; [|apply Hcn].
      intros [= <-]. apply (Hcn _ _ Ed).
    - exists []. by rewrite app_nil_r.
    - set_solver.
    - set_solver. }
  apply gom_bind_ok in H as (e&c2&Hp&H). apply zoom_ok in Hp as (s'&Hp&->). cp_norm Hp. cp_norm H. destruct e as [e|].
  { injection H as <- <-. injection Hu as <- <-. simpl. rewrite delete_id by done. split_and!; try done.
    exists []. by rewrite app_nil_r. }
  destruct (e_dial env _) as [e|].
  { injection H as <- <-. injection Hu as <- <-. simpl. rewrite delete_id by done. split_and!; try done.
    exists []. by rewrite app_nil_r. }
  do 2 cp_run H. cbn [InternalMap SIStorage] in H.
  match type of H with announce_services _ _ _ ?cc = _ => set (c2 := cc) in H end.
  destruct (announce_told (di_IP i) (e_si_ord env sim) c2) as (new&Hr&Hn); [exact Hord| |exact Herr| | |].
  - intros k d. cbn. rewrite lookup_insert. case_decide; [by intros [= <-]|apply Hcn].
  - cbn. rewrite lookup_insert_eq. eauto.
  - intros k a Hin. apply (valid_order_elem _ sim) in Hin; [|done]. by apply Hnm.
  - rewrite Hr in H. injection H as <- <-. injection Hu as <- <-. cbn. split_and!; try done.
    + split; try done. cbn. intros k d. rewrite lookup_insert. case_decide; [by intros [= <-]|apply Hcn].
    + exists new. split; [done|]. eapply list.Forall_impl; [exact Hn|]. intros x [(k&Hin&->)|Hx]; [left|by right].
      exists k. split; [|done]. apply elem_of_elements. rewrite (Hos sim) in Hin.
      apply list_elem_of_fmap in Hin as ([k' a]&->&Hin). apply elem_of_map_to_list in Hin.
      by apply elem_of_dom_2 in Hin.
    + set_solver.
    + set_solver.
Qed.

Lemma DeregisterDataplane_told i c r c' :
  settled c -> DeregisterDataplane env i c = Ok (r, c') ->
  settled c' /\ SIStorage c' = SIStorage c /\ cp_rpcs c' = cp_rpcs c /\
  (forall k, k ≠ di_IP i -> dp_table c' !! k = dp_table c !! k).
Proof.
  intros [Hdp Hsi Hcn Hnm] H. destruct c as [[dpm l1] ni [sim l2] h pol per rpcs n ts ls].
  simpl in *. subst l1 l2. unfold DeregisterDataplane in H. cbv zeta in H.
  do 3 cp_run H. cbn [InternalMap DataPlaneConnections] in H.
  apply gom_bind_ok in H as (r1&c1&H&Hu). destruct (dpm !! _) as [d|] eqn:Ed.
  2: { injection H as <- <-. injection Hu as <- <-. split_and!; try done. }
  apply gom_bind_ok in H as (e&c2&Hp&H). apply zoom_ok in Hp as (s'&Hp&->). cp_norm Hp. cp_norm H. destruct e as [e|].
  { injection H as <- <-. injection Hu as <- <-. split_and!; try done. }
  apply gom_bind_ok in H as (m&c3&[= <- <-]&H). apply gom_bind_ok in H as (u&c4&Hf&H).
  eapply (go_for_inv (fun c => DataPlaneConnections c = mkStructure dpm WLocked /\
    SIStorage c = mkStructure sim WLocked /\ cp_rpcs c = rpcs /\
    (forall k a, sim !! k = Some a -> exists ss, ss_heap c !! a = Some ss /\ si_Name (ss_ServiceInfo ss) = k)))
    in Hf as (E1&E2&E3&E4).
  - destruct c4 as [dp' ni' si' h' pol' per' rpcs' n' ts' ls']. simpl in *. subst dp' si' rpcs'.
    injection H as <- <-. injection Hu as <- <-. simpl. split_and!; try done.
    + split; try done. simpl. intros k d'. rewrite lookup_delete_Some. intros [_ Hk]. by eapply Hcn.
    + intros k Hk. by apply lookup_delete_ne.
  - intros kv c5 u5 c6 _ (E1&E2&E3&E4) Hb. unfold ss_modify in Hb. apply gom_bind_ok in Hb as (ss&c7&Hd&Hb).
    unfold ss_deref in Hd. destruct (ss_heap c5 !! kv.2) as [ss'|] eqn:Es; [|done]. injection Hd as <- <-.
    injection Hb as <- <-. simpl. split_and!; try done. by apply (heap_insert_name _ sim _ ss').
  - done.
Qed.

Lemma ListServices_told c l c' :
  settled c -> valid_order (e_si_ord env) -> ListServices env c = Ok (l, c') ->
  c' = c /\ forall k, k ∈ l <-> k ∈ dom (si_table c).
Proof.
  intros [Hdp Hsi Hcn Hnm] Hos H. destruct c as [dp ni [sim l2] h pol per rpcs n ts ls].
  simpl in *. subst l2. injection H as <- <-. split; [done|]. intros k.
  rewrite elem_of_dom. by apply Keys_spec.
Qed.
End told.

(** ** Data planes know the registered services *)

Lemma announcement_effect key names new ip X :
  Forall (announcement key names) new ->
  let Y := foldl (rpc_effect ip) X new in
  X ⊆ Y /\ (ip ≠ key -> Y = X) /\ (forall s, s ∈ Y -> s ∈ X \/ s ∈ names).
Proof.
  intros Hn. revert X. induction Hn as [|r new Hr Hn IH]; intros X; cbn; [set_solver|].
  destruct (IH (rpc_effect ip X r)) as (H1&H2&H3). destruct Hr as [(n&Hin&->)|(ip'&s&eps&->)]; cbn in *; [|done].
  case_decide as Hk; [|done]. split_and!; [set_solver|intros ?; congruence|]. intros s Hs.
  destruct (H3 s Hs) as [Hs'|]; [|by right]. apply elem_of_union in Hs' as [?%elem_of_singleton|?]; [|by left].
  subst. by right.
Qed.

Section in_step.
Context {S P : Type} `{PL : PersistenceLayer S} `{PP : PlacementPolicy P}.
Context (cfg : ControlPlaneConfig).
Implicit Types (c : cluster S P).

Abbreviation dp_table c := (InternalMap (DataPlaneConnections (cl_cp c))).
Abbreviation services c := (dom (InternalMap (SIStorage (cl_cp c)))).

(** The calls of the control plane succeed and it visits whole maps. *)
Record calls_succeed (env : cl_env) : Prop := {
  cs_dp : valid_order (e_dp_ord (ce_cp env));
  cs_si : valid_order (e_si_ord (ce_cp env));
  cs_err : forall k, e_err (ce_cp env) k = None;
}.
(** A data plane that starts is not answered by a replica that knows no leader. *)
Definition start_served (env : cl_env) (ev : cl_event) : Prop :=
  match ev with EvStart _ _ _ _ _ _ _ => forall replica, ce_replica env replica ≠ ReplicaLeaderless | _ => True end.

(** Every process but the one at [ex] is registered and knows exactly the
    services; that one, when there is one, knows some of them. *)
Record in_step_but (ex : option string) c : Prop := {
  is_cp : settled (cl_cp c);
  is_dps : forall ip d, cl_dps c !! ip = Some d -> ex ≠ Some ip -> ip ∈ dom (dp_table c) /\ known d = services c;
  is_ex : forall ip d, cl_dps c !! ip = Some d -> ex = Some ip -> known d ⊆ services c;
}.
Abbreviation in_step := (in_step_but None).

Lemma on_cp_ok {A} env (m : GoM (ControlPlane S P) A) c a c' :
  (forall k, e_err (ce_cp env) k = None) -> on_cp env m c = Ok (a, c') ->
  m (cl_cp c) = Ok (a, cl_cp c') /\
  forall new, cp_rpcs (cl_cp c') = cp_rpcs (cl_cp c) ++ new ->
    forall ip, known <$> cl_dps c' !! ip = (fun d => foldl (rpc_effect ip) (known d) new) <$> cl_dps c !! ip.
Proof.
  intros He. unfold on_cp. destruct (m (cl_cp c)) as [[a' cp']| | |] eqn:E; try done. cbv zeta.
  rewrite reaching_all by (by apply delivered_ok).
  destruct (dp_deliver_all _ (cl_dps c)) as [dps| | |] eqn:Ed; try done. intros [= <- <-]. split; [done|].
  intros new Hn ip. simpl in Hn. rewrite Hn, drop_app_length in Ed. by apply dp_deliver_all_known.
Qed.

Lemma known_lookup {B} (o : option Dataplane) (o' : option B) (f : B -> gset string) d :
  o = Some d -> known <$> o = f <$> o' -> exists b, o' = Some b /\ known d = f b.
Proof. intros ->. destruct o' as [b|]; simpl; [|done]. intros [= ->]. eauto. Qed.

Lemma register_in_step env ex client i r c c' :
  calls_succeed env -> in_step_but ex c ->
  cpi_RegisterDataplane (CpiInterface := cluster_cpi env) client i c = Ok (r, c') ->
  in_step_but ex c' /\ services c' = services c /\
  (ce_replica env client ≠ ReplicaLeaderless -> r.2 = None -> ce_replica env client = ReplicaServes /\
     di_IP i ∈ dom (dp_table c')) /\
  (forall ip, is_Some (cl_dps c' !! ip) <-> is_Some (cl_dps c !! ip)).
Proof.
  intros [Ho Hos He] Hs H. cbn in H. destruct (ce_replica env client); [|by injection H as <- <-..].
  destruct Hs as [Hcp Hd Hex]. apply on_cp_ok in H as [H Hk]; [|done].
  apply gom_bind_ok in H as ([[st er] b]&cp1&H&[= <- Ecp]). subst cp1.
  destruct (RegisterDataplane_told (ce_cp env) i _ _ _ Hcp Ho Hos He H) as (Hcp'&Hsi&(new&Hn&Ha)&Hsub&Hin).
  specialize (Hk _ Hn). split; [|split; [by rewrite Hsi|split; [by intros _ ?; split; [|apply Hin]|]]].
  - split; [done| |]; intros ip d' Hd' Hx; rewrite Hsi;
      destruct (known_lookup _ _ _ _ Hd' (Hk ip)) as (d&Hl&Ek);
      destruct (announcement_effect _ _ _ ip (known d) Ha) as (A1&A2&A3); rewrite Ek.
    + destruct (Hd ip d Hl Hx) as [H1 H2]. split; [set_solver|]. rewrite H2 in *. set_solver.
    + pose proof (Hex ip d Hl Hx). set_solver.
  - intros ip. specialize (Hk ip). destruct (cl_dps c' !! ip), (cl_dps c !! ip); simpl in Hk; naive_solver.
Qed.

Lemma sync_known services d :
  known (syncDeploymentCache (Some services) d).2 = list_to_set services ∪ known d.
Proof.
  simpl. revert d. induction services as [|s l IH]; intros d; simpl; [set_solver|].
  rewrite IH, known_add. set_solver.
Qed.

Lemma list_in_step env ex client c r c' :
  calls_succeed env -> in_step_but ex c -> ce_replica env client = ReplicaServes ->
  cpi_ListServices (CpiInterface := cluster_cpi env) client c = Ok (r, c') ->
  c' = c /\ r.2 = None /\ list_to_set r.1 = services c.
Proof.
  intros [Ho Hos He] [Hcp Hd Hex] Hr H. cbn in H. rewrite Hr in H. unfold on_cp in H.
  destruct ((l ← ListServices (ce_cp env); mret (l, (None : go_error))) (cl_cp c)) as [[r' cp']| | |] eqn:E; try done.
  apply gom_bind_ok in E as (l&cp1&E&[= <- <-]). apply ListServices_told in E as [-> Hl]; [|done|done].
  cbv zeta in H. rewrite drop_all in H. injection H as <- <-. split; [by destruct c|]. split; [done|]. set_solver.
Qed.

Lemma heartbeat_in_step env dc attempts p r c c' :
  calls_succeed env -> in_step c ->
  heartbeat_poll (CPI := cluster_cpi env) dc attempts p c = Ok (r, c') -> in_step c'.
Proof.
  intros He. revert p c. induction attempts as [|[de fuel] attempts IH]; intros p c Hs; cbn [heartbeat_poll].
  { intros [= <- <-]. done. }
  destruct p as [q|]; [|by intros [= <- <-]]. intros H.
  apply gom_bind_ok in H as (cl&c1&H1&H). assert (c1 = c) as ->.
  { unfold go_lift in H1. by destruct (GetCpApiServer q); simplify_eq. }
  apply gom_bind_ok in H as (err&c2&H2&H). unfold registerDataPlane in H2.
  apply gom_bind_ok in H2 as (a&c3&H2&[= <- <-]). apply (register_in_step env None) in H2 as (Hs'&_); [|done..].
  destruct (a.2); [|by injection H as <- <-].
  apply gom_bind_ok in H as (x&c4&H4&H). apply gom_bind_ok in H as (y&c5&H5&H).
  assert (c5 = c3) as ->. { unfold go_lift in H4, H5. repeat case_match; simplify_eq; done. }
  by apply (IH _ _ Hs') in H.
Qed.

Lemma set_process_but ip d c :
  in_step c -> known d = ∅ -> in_step_but (Some ip) (mkCluster (cl_cp c) (<[ip := d]> (cl_dps c))).
Proof.
  intros [Hcp Hd _] Hk. split; [done| |]; simpl; intros ip' d'; rewrite lookup_insert; case_decide.
  - intros _ Hx. congruence.
  - intros Hl _. by apply Hd.
  - intros [= <-] _. set_solver.
  - intros _ Hx. congruence.
Qed.
Lemma drop_process ip c :
  in_step_but (Some ip) c -> in_step (mkCluster (cl_cp c) (delete ip (cl_dps c))).
Proof.
  intros [Hcp Hd _]. split; [done| |done]. simpl. intros ip' d' [Hne Hl]%lookup_delete_Some _.
  apply Hd; [done|congruence].
Qed.

Lemma start_in_step env dc hostName rnd dial fuel async database u c c' :
  calls_succeed env -> (forall replica, ce_replica env replica ≠ ReplicaLeaderless) -> in_step c ->
  cl_handle cfg env (EvStart dc hostName rnd dial fuel async database) c = Ok (u, c') -> in_step c'.
Proof.
  intros He Hlead Hs H. cbn [cl_handle] in H. erewrite gom_bind_run in H; [|reflexivity].
  apply gom_bind_ok in H as (r&c2&H&Hend). set (ip := dc_DataPlaneIp dc) in *.
  assert (H1 : in_step_but (Some ip) (mkCluster (cl_cp c) (<[ip := NewDataplane hostName rnd]> (cl_dps c))))
    by (by apply set_process_but).
  assert (Hin : is_Some (cl_dps (mkCluster (cl_cp c) (<[ip := NewDataplane hostName rnd]> (cl_dps c))) !! ip))
    by (simpl; rewrite lookup_insert_eq; eauto).
  unfold insert, map_insert in H1, Hin. set (c1 := mkCluster _ _) in *. clearbody c1.
  unfold GetProxyServer in H. apply gom_bind_ok in H as (cl&c3&H2&H). assert (c3 = c1) as ->.
  { unfold go_lift in H2. repeat case_match; simplify_eq; done. }
  apply gom_bind_ok in H as (err&c4&H4&H). unfold registerDataPlane in H4.
  apply gom_bind_ok in H4 as (a&c5&H4&[= <- <-]).
  apply (register_in_step env (Some ip)) in H4 as (Hs4&Hsv&Hreg&Hal); [|done..].
  destruct (a.2) as [e|] eqn:Ea.
  { injection H as <- <-. injection Hend as <- <-. by apply drop_process. }
  destruct (Hreg (Hlead cl) eq_refl) as [Hserves Hregd].
  apply gom_bind_ok in H as (l&c6&H6&H). apply (list_in_step env (Some ip)) in H6 as (->&El&Hl); [|done..].
  apply gom_bind_ok in H as (e&c7&H7&H). rewrite El in H7. unfold on_process in H7.
  destruct (proj2 (Hal ip) Hin) as [d Hd]. rewrite Hd in H7. cbn [deref mbind outcome_bind] in H7.
  pose proof (sync_known (l.1) d) as Hk. set (sy := syncDeploymentCache _ d) in *.
  assert (Ee : sy.1 = None) by done. destruct sy as [e0 d0] eqn:Esy. simpl in Hk, Ee. subst e0.
  injection H7 as <- <-. injection H as <- <-. injection Hend as <- <-.
  destruct Hs4 as [Hcp Hdp Hex]. split; [done| |done]. simpl. intros ip' d'. rewrite lookup_insert. case_decide as Hi.
  - intros [= <-] _. subst ip'. split; [done|]. rewrite Hk, Hl.
    pose proof (Hex ip d Hd eq_refl). set_solver.
  - intros Hl' _. apply Hdp; [done|congruence].
Qed.

Lemma stop_in_step env dc dials u c c' :
  calls_succeed env -> in_step c -> cl_handle cfg env (EvStop dc dials) c = Ok (u, c') -> in_step c'.
Proof.
  intros He [Hcp Hd Hex] H. cbn [cl_handle] in H. apply gom_bind_ok in H as (v&c1&H&Hend).
  injection Hend as <- <-. unfold Dataplane_Deregister in H. apply gom_bind_ok in H as (e&c2&H&[= <- <-]).
  unfold DeregisterControlPlaneConnection in H. apply gom_bind_ok in H as (o&c3&H1&H). assert (c3 = c) as ->.
  { unfold go_lift in H1. repeat case_match; simplify_eq; done. }
  destruct o as [cl|].
  - apply gom_bind_ok in H as (a&c4&H4&H). assert (c2 = c4) as ->. { case_match; [by injection H as <- <-|discriminate H]. }
    cbn in H4. destruct (ce_replica env cl).
    2,3: injection H4 as <- <-; apply drop_process; split; [done| |];
      intros ip d Hl Hx; destruct (Hd ip d Hl ltac:(done)); [done|set_solver].
    apply on_cp_ok in H4 as [H4 Hk]; [|apply He]. apply DeregisterDataplane_told in H4 as (Hcp'&Hsi&Hr&Hdp); [|done].
    apply drop_process. split; [done| |]; intros ip d' Hd' Hx; rewrite Hsi;
      destruct (known_lookup _ _ _ _ Hd' (Hk [] ltac:(by rewrite app_nil_r) ip)) as (d&Hl&Ek);
      destruct (Hd ip d Hl ltac:(done)) as [H1' H2']; simpl in Ek; rewrite Ek, H2'; [|done].
    split; [|done]. rewrite elem_of_dom, Hdp by (cbn; congruence). by apply elem_of_dom.
  - injection H as <- <-. apply drop_process. split; [done| |]; intros ip d Hl Hx; destruct (Hd ip d Hl ltac:(done)); [done|set_solver].
Qed.

Lemma service_in_step c c' new (X : gset string) :
  in_step c -> settled (cl_cp c') -> DataPlaneConnections (cl_cp c') = DataPlaneConnections (cl_cp c) ->
  cp_rpcs (cl_cp c') = cp_rpcs (cl_cp c) ++ new ->
  (forall n, cp_rpcs (cl_cp c') = cp_rpcs (cl_cp c) ++ n ->
    forall ip, known <$> cl_dps c' !! ip = (fun d => foldl (rpc_effect ip) (known d) n) <$> cl_dps c !! ip) ->
  services c' = X -> (forall ip, ip ∈ dom (dp_table c) -> foldl (rpc_effect ip) (services c) new = X) ->
  in_step c'.
Proof.
  intros [Hcp Hd _] Hs Hdp Hr Hk HX He. split; [done| |done]. intros ip d' Hd' _.
  destruct (known_lookup _ _ _ _ Hd' (Hk _ Hr ip)) as (d&Hl&Ek). destruct (Hd ip d Hl ltac:(done)) as [H1 H2].
  rewrite Hdp, HX, Ek, H2. split; [done|by apply He].
Qed.

Lemma dom_ord (ord : range_order string DataPlaneConnectionInfo) m ip :
  valid_order ord -> ip ∈ (ord m).*1 <-> ip ∈ dom m.
Proof.
  intros Ho. rewrite (Ho m), list_elem_of_fmap, elem_of_dom. split.
  - intros ([k d]&->&Hin). apply elem_of_map_to_list in Hin. eauto.
  - intros [d Hd]. exists (ip, d). split; [done|]. by apply elem_of_map_to_list.
Qed.

Lemma cl_handle_in_step env ev u c c' :
  calls_succeed env -> start_served env ev -> in_step c -> cl_handle cfg env ev c = Ok (u, c') -> in_step c'.
Proof.
  intros He Hst Hs H. pose proof He as [Ho _ Herr]. destruct ev as [i|i| | |]; [| |by eapply start_in_step| |by eapply stop_in_step].
  - apply gom_bind_ok in H as (r&c1&H&[= <- <-]). apply on_cp_ok in H as [H Hk]; [|done].
    apply RegisterService_told in H as (Hs'&Hdp&[[Hr Hi]|[Hr Hi]]); [| |apply Hs|done].
    + eapply (service_in_step c c1 []); eauto. by rewrite app_nil_r.
    + eapply (service_in_step c c1); eauto. intros ip Hip. rewrite effect_add_all.
      rewrite decide_True; [done|]. by apply dom_ord.
  - apply gom_bind_ok in H as (r&c1&H&[= <- <-]). apply on_cp_ok in H as [H Hk]; [|done].
    apply DeregisterService_told in H as (Hs'&Hdp&[[Hr Hi]|[Hr Hi]]); [| |apply Hs|done|done].
    + eapply (service_in_step c c1 []); eauto. by rewrite app_nil_r.
    + eapply (service_in_step c c1); eauto. intros ip Hip. rewrite effect_delete_all.
      rewrite decide_True; [done|]. by apply dom_ord.
  - apply gom_bind_ok in H as (r&c1&H&[= <- <-]). unfold dp_sendHeartbeatLoop in H.
    apply gom_bind_ok in H as (x&c2&H&[= <- <-]). by eapply heartbeat_in_step.
Qed.

(** Histories of the system.  Besides the events, the process of a data plane may
    end, a data plane may do anything to the functions it knows (serve requests, receive endpoints), and the
    control plane anything that leaves data planes and services registered as
    they are (nodes come and go, services scale). *)
Inductive cl_history : cluster S P -> Prop :=
| clh_start policy db : cl_history (mkCluster (NewControlPlane policy db) ∅)
| clh_event env ev u c c' :
    cl_history c -> calls_succeed env -> start_served env ev -> cl_handle cfg env ev c = Ok (u, c') -> cl_history c'
| clh_crash c ip : cl_history c -> cl_history (mkCluster (cl_cp c) (delete ip (cl_dps c)))
| clh_serve c ip d d' :
    cl_history c -> cl_dps c !! ip = Some d -> known d' = known d ->
    cl_history (mkCluster (cl_cp c) (<[ip := d']> (cl_dps c)))
| clh_work c cp' :
    cl_history c -> settled cp' ->
    dom (InternalMap (DataPlaneConnections cp')) = dom (dp_table c) ->
    dom (InternalMap (SIStorage cp')) = services c -> cl_history (mkCluster cp' (cl_dps c)).

Lemma cl_history_in_step c : cl_history c -> in_step c.
Proof.
  induction 1 as [policy db|env ev u c c' _ IH He Hst H|c ip _ IH|c ip d d' _ IH Hl Hk|c cp' _ IH Hs Hdp Hsi].
  - split; [|done|done]. by split.
  - by eapply cl_handle_in_step.
  - destruct IH as [Hcp Hd Hex]. split; [done| |done]. simpl. intros ip' d [_ Hl]%lookup_delete_Some Hx. by apply Hd.
  - destruct IH as [Hcp Hd Hex]. split; [done| |done]. simpl. intros ip' d0. rewrite lookup_insert. case_decide.
    + intros [= <-] Hx. subst. rewrite Hk. by apply Hd.
    + apply Hd.
  - destruct IH as [Hcp Hd Hex]. split; [done| |done]. simpl. intros ip d Hl Hx. rewrite Hdp, Hsi. by apply Hd.
Qed.
End in_step.


(** A data plane that starts while the replica it reaches knows no leader: the
    answers carry no error, so it runs, but it is not registered and knows no
    service. *)
Theorem leaderless_start_unregistered {S P} `{PersistenceLayer S} `{PlacementPolicy P} cfg env
    dc hostName rnd dial fuel async database u (c c' : cluster S P) :
  (forall replica, ce_replica env replica = ReplicaLeaderless) ->
  cl_handle cfg env (EvStart dc hostName rnd dial fuel async database) c = Ok (u, c') ->
  cl_cp c' = cl_cp c /\ exists d, cl_dps c' !! dc_DataPlaneIp dc = Some d /\ known d = ∅.
Proof.
  intros Hl H'. cbn [cl_handle] in H'. erewrite gom_bind_run in H'; [|reflexivity].
  apply gom_bind_ok in H' as (r&c2&Hp&Hend). unfold GetProxyServer in Hp. apply gom_bind_ok in Hp as (cl&c3&H2&Hp).
  unfold go_lift in H2. destruct (NewControlPlaneConnection _ _ _) as [cl'| | |]; try done. injection H2 as <- <-.
  apply gom_bind_ok in Hp as (err&c3&H3&Hp). unfold registerDataPlane in H3.
  apply gom_bind_ok in H3 as (a&c4&H4&[= <- <-]). cbn in H4. rewrite Hl in H4. injection H4 as <- <-.
  cbn [snd] in Hp. apply gom_bind_ok in Hp as (l&c5&H5&Hp). cbn in H5. rewrite Hl in H5. injection H5 as <- <-.
  apply gom_bind_ok in Hp as (e&c6&H6&Hp). unfold on_process in H6. cbn [cl_dps] in H6.
  rewrite lookup_partial_alter_eq in H6. injection H6 as <- <-.
  injection Hp as <- <-. injection Hend as <- <-. split; [done|]. eexists. cbn. rewrite lookup_insert_eq. split; [done|].
  unfold known. cbn. apply (dom_empty_L (M := gmap string)).
Qed.

(** ** Heartbeats in time *)

(** The heartbeat loop of a worker node ([worker_node.SetupHeartbeatLoop]): a
    round that starts at [t] is received by the control plane [rd_arrive] later
    and ends [rd_end] after its start; then the node sleeps
    [HeartbeatInterval].  The poll of a round is cut off after five seconds. *)
Record round : Type := mkRound { rd_arrive : Z; rd_end : Z }.
Definition pollTimeout : Z := 5 * Second.
Definition round_ok (r : round) : Prop := 0 <= rd_arrive r <= rd_end r /\ rd_end r <= pollTimeout.

Section heartbeat_loop.
Context (first : Z) (rounds : nat -> round).
Fixpoint round_start (k : nat) : Z :=
  match k with
  | O => first
  | S k' => round_start k' + rd_end (rounds k') + HeartbeatInterval
  end.
Definition arrival (k : nat) : Z := round_start k + rd_arrive (rounds k).

(** The time the monitor tolerates is just enough for two successful rounds in
    a row, however slow. *)
Lemma arrival_gap k :
  (forall k, round_ok (rounds k)) ->
  arrival k <= arrival (S k) <= arrival k + TolerateHeartbeatMisses * HeartbeatInterval.
Proof.
  intros Hr. destruct (Hr k) as [H1 H2], (Hr (S k)) as [H3 H4].
  unfold arrival, pollTimeout, TolerateHeartbeatMisses, HeartbeatInterval in *. cbn [round_start].
  unfold HeartbeatInterval. lia.
Qed.
End heartbeat_loop.

Section timed.
Context {S P : Type} `{PL : PersistenceLayer S} `{PP : PlacementPolicy P}.
Context (env_at : Z -> cp_env).
(** For every node: when it was registered, when its loop starts, its rounds. *)
Context (registered loop_start : string -> Z) (rounds : string -> nat -> round).
Implicit Types (c : ControlPlane S P) (k : string -> nat).

Abbreviation node_table c := (InternalMap (NIStorage c)).

(** When the next heartbeat of a node arrives, and when the last one did. *)
Definition next_beat k name : Z := arrival (loop_start name) (rounds name) (k name).
Definition last_beat k name : Z :=
  match k name with
  | O => registered name
  | Datatypes.S j => arrival (loop_start name) (rounds name) j
  end.
Definition beat k name : string -> nat := fun n => if decide (n = name) then Datatypes.S (k n) else k n.

(** Activity that leaves the nodes registered as they are, with their last
    heartbeats. *)
Definition same_nodes c c' : Prop :=
  internalLock (NIStorage c') = Unlocked /\
  forall name, wn_LastHeartbeat <$> node_table c' !! name = wn_LastHeartbeat <$> node_table c !! name.

(** Runs of the system in time: [k] counts the heartbeats that have arrived.  A
    step happens at a time at which no heartbeat is overdue. *)
Inductive timed_run c0 : ControlPlane S P -> (string -> nat) -> Prop :=
| tr_start : timed_run c0 c0 (fun _ => O)
| tr_heartbeat c c' k name t cpu mem st :
    timed_run c0 c k -> is_Some (node_table c !! name) -> t = next_beat k name ->
    NodeHeartbeat (env_at t) (mkNodeHeartbeatMessage name cpu mem) c = Ok (st, c') ->
    timed_run c0 c' (beat k name)
| tr_monitor c c' k t u :
    timed_run c0 c k -> (forall name, is_Some (node_table c !! name) -> t <= next_beat k name) ->
    CheckPeriodicallyWorkerNodes_tick (env_at t) c = Ok (u, c') -> timed_run c0 c' k
| tr_other c c' k : timed_run c0 c k -> same_nodes c c' -> timed_run c0 c' k.
End timed.

(** A pass over nodes none of which is late. *)
Lemma check_nodes_alive {S P} env l dp nim si h pol per rpcs n ts ls :
  Forall (fun kv => e_now env - wn_LastHeartbeat kv.2 <= TolerateHeartbeatMisses * HeartbeatInterval) l ->
  check_nodes env l [] (mkControlPlane dp (mkStructure nim WLocked) si h pol per rpcs n ts ls : ControlPlane S P) =
  Ok ([], mkControlPlane dp
    (mkStructure (foldl (fun m kv => <[kv.1 := SetSchedulability true kv.2]> m) nim l) WLocked)
    si h pol per rpcs n ts ls).
Proof.
  intros Hl. revert nim. induction Hl as [|[name wn] l Hw Hl IH]; intros nim; cbn [check_nodes]; [done|].
  cbv zeta. erewrite gom_bind_run; [|reflexivity]. rewrite decide_False by (simpl in Hw; lia). apply IH.
Qed.

Lemma foldl_set_lookup {A} (f : A -> A) (l : list (string * A)) (m : gmap string A) k :
  NoDup l.*1 -> foldl (fun m kv => <[kv.1 := f kv.2]> m) m l !! k =
  match list_to_map (M := gmap string A) l !! k with Some v => Some (f v) | None => m !! k end.
Proof.
  revert m. induction l as [|[k' v] l IH]; intros m Hnd; simpl; [by rewrite lookup_empty|].
  apply list.NoDup_cons in Hnd as [Hn Hnd]. rewrite IH by done. rewrite !lookup_insert.
  case_decide as Hk; [|done]. subst. by rewrite not_elem_of_list_to_map_1.
Qed.

(** One pass of the monitor over a healthy table. *)
Lemma monitor_healthy {S P} `{PL : PersistenceLayer S} env (c : ControlPlane S P) :
  internalLock (NIStorage c) = Unlocked -> valid_order (e_ni_ord env) ->
  (forall name wn, InternalMap (NIStorage c) !! name = Some wn ->
     e_now env - wn_LastHeartbeat wn <= TolerateHeartbeatMisses * HeartbeatInterval) ->
  CheckPeriodicallyWorkerNodes_tick env c =
    Ok (tt, mkControlPlane (DataPlaneConnections c)
      (mkStructure (SetSchedulability true <$> InternalMap (NIStorage c)) Unlocked) (SIStorage c) (ss_heap c)
      (cp_PlacementPolicy c) (cp_PersistenceLayer c) (cp_rpcs c) (cp_endpoints c) (cp_tasks c) (cp_loops c)).
Proof.
  intros Hl Hord Hh. destruct c as [dp [nim lk] si h pol per rpcs n ts ls]. simpl in *. subst lk.
  assert (Hm : foldl (fun m kv => <[kv.1 := SetSchedulability true kv.2]> m) nim (e_ni_ord env nim) =
      SetSchedulability true <$> nim).
  { apply map_eq. intros k. rewrite (foldl_set_lookup (SetSchedulability true)) by (by apply valid_order_NoDup_fst).
    rewrite lookup_fmap, (list_to_map_proper (M:=gmap string) _ (map_to_list nim));
      [|by apply valid_order_NoDup_fst|apply Hord].
    rewrite list_to_map_to_list. by destruct (nim !! k). }
  unfold CheckPeriodicallyWorkerNodes_tick. do 2 (erewrite gom_bind_run; [|reflexivity]).
  cbn [InternalMap NIStorage]. erewrite gom_bind_run; [|apply check_nodes_alive].
  2: { apply list.Forall_forall. intros [name wn] Hin. rewrite valid_order_elem in Hin by done. by eapply Hh. }
  rewrite Hm. reflexivity.
Qed.

Section healthy.
Context {S P : Type} `{PL : PersistenceLayer S} `{PP : PlacementPolicy P}.
Context (env_at : Z -> cp_env) (registered loop_start : string -> Z) (rounds : string -> nat -> round).
Implicit Types (c : ControlPlane S P) (k : string -> nat).

(** The clock of the environment, rounds that succeed, and loops that start
    soon after the registration. *)
Record on_time : Prop := {
  ot_now : forall t, e_now (env_at t) = t;
  ot_ord : forall t, valid_order (e_ni_ord (env_at t));
  ot_rounds : forall name j, round_ok (rounds name j);
  ot_start : forall name, registered name <= loop_start name <= registered name + 2 * HeartbeatInterval;
}.
(** The table right after the registrations. *)
Definition registered_at c : Prop :=
  internalLock (NIStorage c) = Unlocked /\
  forall name wn, InternalMap (NIStorage c) !! name = Some wn -> wn_LastHeartbeat wn = registered name.

Lemma beat_due k name :
  on_time -> next_beat loop_start rounds k name <=
    last_beat registered loop_start rounds k name + TolerateHeartbeatMisses * HeartbeatInterval.
Proof.
  intros H. unfold next_beat, last_beat. destruct (k name) as [|j].
  - pose proof (ot_start H name). destruct (ot_rounds H name 0) as [H1 H2].
    unfold arrival, round_start, pollTimeout, TolerateHeartbeatMisses, HeartbeatInterval in *. lia.
  - apply arrival_gap. apply (ot_rounds H name).
Qed.

Lemma in_time c0 c k t name wn :
  on_time ->
  (forall n, wn_LastHeartbeat <$> InternalMap (NIStorage c) !! n =
     (fun _ => last_beat registered loop_start rounds k n) <$> InternalMap (NIStorage c0) !! n) ->
  (forall n, is_Some (InternalMap (NIStorage c) !! n) -> t <= next_beat loop_start rounds k n) ->
  InternalMap (NIStorage c) !! name = Some wn ->
  e_now (env_at t) - wn_LastHeartbeat wn <= TolerateHeartbeatMisses * HeartbeatInterval.
Proof.
  intros Ht Hi Hd Hw. rewrite (ot_now Ht). pose proof (beat_due k name Ht). specialize (Hd name ltac:(eauto)).
  specialize (Hi name). rewrite Hw in Hi. destruct (InternalMap (NIStorage c0) !! name); [|done].
  injection Hi as ->. lia.
Qed.

Lemma timed_run_beats c0 c k :
  on_time -> registered_at c0 -> timed_run env_at loop_start rounds c0 c k ->
  internalLock (NIStorage c) = Unlocked /\
  forall name, wn_LastHeartbeat <$> InternalMap (NIStorage c) !! name =
    (fun _ => last_beat registered loop_start rounds k name) <$> InternalMap (NIStorage c0) !! name.
Proof.
  intros Ht [Hl0 H0]. induction 1 as [|c c' k name t cpu mem st _ [IHl IH] [wn Hw] -> Hb
    |c c' k t u _ [IHl IH] Hd Hm|c c' k _ [IHl IH] [Hl Hs]].
  - split; [done|]. intros name. destruct (InternalMap (NIStorage c0) !! name) eqn:E; [|done]. simpl. by rewrite (H0 name _ E).
  - unfold NodeHeartbeat in Hb. destruct c as [dp [nim lk] si h pol per rpcs n ts ls]. simpl in *. subst lk.
    erewrite gom_bind_run in Hb; [|reflexivity]. cbn [InternalMap hb_NodeID NIStorage] in Hb. rewrite Hw in Hb.
    injection Hb as <- <-. simpl. split; [done|]. intros name'. rewrite lookup_insert. unfold last_beat, beat.
    case_decide as Hn.
    + subst name'. rewrite decide_True by done. specialize (IH name). rewrite Hw in IH.
      destruct (InternalMap (NIStorage c0) !! name); [|done]. simpl. by rewrite (ot_now Ht).
    + rewrite decide_False by congruence. apply IH.
  - rewrite monitor_healthy in Hm; [|done|apply (ot_ord Ht)|intros; by eapply in_time].
    injection Hm as <- <-. simpl. split; [done|]. intros name. rewrite <- IH, lookup_fmap.
    by destruct (InternalMap (NIStorage c) !! name).
  - split; [done|]. intros name. by rewrite Hs.
Qed.
End healthy.

(** C25: A worker node that keeps sending heartbeats is never taken for dead.
    Let every heartbeat round of the nodes succeed, each within the five seconds
    the node allows it, however slow the calls are, and start within ten seconds
    of the registration.  Then, in any interleaving with the passes of the node
    monitor and with other activity, a pass of the monitor returns, reports no
    failure, touches no service and calls nobody, and leaves every node
    schedulable. *)
Theorem healthy_nodes_stay {S P} `{PersistenceLayer S} `{PlacementPolicy P} env_at registered loop_start rounds
    (c0 c : ControlPlane S P) k t :
  on_time env_at registered loop_start rounds -> registered_at registered c0 ->
  timed_run env_at loop_start rounds c0 c k ->
  (forall name, is_Some (InternalMap (NIStorage c) !! name) -> t <= next_beat loop_start rounds k name) ->
  exists c', CheckPeriodicallyWorkerNodes_tick (env_at t) c = Ok (tt, c') /\
    InternalMap (NIStorage c') = SetSchedulability true <$> InternalMap (NIStorage c) /\
    internalLock (NIStorage c') = Unlocked /\ SIStorage c' = SIStorage c /\ ss_heap c' = ss_heap c /\
    DataPlaneConnections c' = DataPlaneConnections c /\ cp_rpcs c' = cp_rpcs c /\ cp_tasks c' = cp_tasks c.
Proof.
  intros Ht Hreg Hr Hd. destruct (timed_run_beats _ _ _ _ c0 c k Ht Hreg Hr) as [Hl Hb].
  eexists. split; [apply monitor_healthy; [done|apply (ot_ord _ _ _ _ Ht)|]|done].
  intros name wn Hw. by eapply (in_time env_at registered loop_start rounds c0 c k t).
Qed.

(** ** Concrete runs *)

Module ClusterExample.
Definition dial : dial_env := mkDialEnv (fun _ => 0) (fun _ _ => true).
Definition conf : DataPlaneConfig :=
  mkDataPlaneConfig "10.0.0.9" ["10.0.0.1:9090"; "10.0.0.2:9090"]%string "8080" "8081" "knative".
Definition env : cl_env := mkClEnv ex_env (fun _ => false) (fun _ => ReplicaServes).
Definition start : cl_event := EvStart conf "host" 7 dial 1 false true.
Definition announce : cl_event := EvRegisterService ex_service.

(** A data plane starts and a service is registered. *)
Definition small : outcome (cluster EmptyPersistence Random) :=
  match cl_handle ex_cfg env start (mkCluster (NewControlPlane tt tt) ∅) with
  | Ok (_, c1) => match cl_handle ex_cfg env announce c1 with Ok (_, c2) => Ok c2 | _ => Panic end
  | _ => Panic
  end.

Lemma ex_calls : calls_succeed env.
Proof. split; [apply map_to_list_valid|apply map_to_list_valid|done]. Qed.

(** A data plane cannot be reached while a service is registered. *)
Definition unreachable : cl_env :=
  mkClEnv (mkCpEnv 0 map_to_list map_to_list map_to_list map_to_list elements (fun _ => example_env) (fun _ => 0)
             (fun _ => Some "unavailable"%string) ex_created (fun _ => []) (fun _ => None))
    (fun _ => false) (fun _ => ReplicaServes).
Definition missed : outcome (option ActionStatus * option (gset string) * gset string) :=
  match cl_handle ex_cfg env start (mkCluster (NewControlPlane (tt : Random) (tt : EmptyPersistence)) ∅) with
  | Ok (_, c1) =>
      match on_cp unreachable (RegisterService ex_cfg (ce_cp unreachable) ex_service) c1 with
      | Ok ((status, _), c2) =>
          Ok (Some status, known <$> cl_dps c2 !! "10.0.0.9"%string, dom (InternalMap (SIStorage (cl_cp c2))))
      | _ => Panic
      end
  | _ => Panic
  end.

(** One node, registered at time 0, whose rounds take as long as they may. *)
Definition slow (_ : string) (j : nat) : round :=
  if decide (j = 0%nat) then mkRound 0 pollTimeout else mkRound pollTimeout pollTimeout.
Definition env_at (t : Z) : cp_env :=
  mkCpEnv t map_to_list map_to_list map_to_list map_to_list elements
    (fun _ => example_env) (fun _ => 0) (fun _ => None) ex_created (fun _ => []) (fun _ => None).
Definition one_node : ControlPlane EmptyPersistence Random :=
  mkControlPlane NewControlPlaneSyncStructure
    (mkStructure {[ "n1" := SetSchedulability true (NewWorkerNode 0 (node_configuration ex_node_info)) ]}%string Unlocked)
    NewControlPlaneSyncStructure [] tt tt [] 0 [] [].
End ClusterExample.
Import ClusterExample.


(** The announcement of a service to a data plane fails: the error is only
    logged, the registration is answered with success, and the running data
    plane does not know the service. *)
Lemma lost_announcement_unknown_service :
  missed = Ok (Some status_ok, Some ∅, {[ "f"%string ]}).
Proof. vm_compute. reflexivity. Qed.

Lemma healthy_nodes_stay_witness :
  exists c c', timed_run env_at (fun _ => 0) slow one_node c (beat (fun _ => 0%nat) "n1"%string) /\
    CheckPeriodicallyWorkerNodes_tick (env_at (15 * Second)) c = Ok (tt, c') /\
    wn_Schedulable <$> InternalMap (NIStorage c') !! "n1"%string = Some true.
Proof.
  assert (Hb : exists c st, NodeHeartbeat (env_at 0) (mkNodeHeartbeatMessage "n1" 10 20) one_node = Ok (st, c) /\
    dom (InternalMap (NIStorage c)) = {[ "n1"%string ]}).
  { eexists _, _. split; [reflexivity|]. by vm_compute. }
  destruct Hb as (c&st&Hb&Hdom).
  assert (Hr : timed_run env_at (fun _ => 0) slow one_node c (beat (fun _ => 0%nat) "n1"%string)).
  { eapply tr_heartbeat; [apply tr_start|by eexists|reflexivity|exact Hb]. }
  destruct (healthy_nodes_stay env_at (fun _ => 0) (fun _ => 0) slow one_node c _ (15 * Second)
    ltac:(split; [done|intros; apply map_to_list_valid| |intros; unfold HeartbeatInterval, Second; lia];
          intros n j; unfold slow, round_ok, pollTimeout, Second; case_decide; simpl; lia)
    ltac:(split; [done|intros n wn; cbn [one_node NIStorage InternalMap];
          intros [_ <-]%lookup_singleton_Some; reflexivity])
    Hr) as (c'&Hm&Hn&_).
  { intros n Hi. apply elem_of_dom in Hi. rewrite Hdom in Hi. apply elem_of_singleton in Hi as ->. by vm_compute. }
  exists c, c'. split; [exact Hr|]. split; [exact Hm|]. rewrite Hn, lookup_fmap.
  destruct (InternalMap (NIStorage c) !! "n1"%string) eqn:E; [done|].
  apply not_elem_of_dom_2 in E. rewrite Hdom in E. set_solver.
Defined.
