(* ===== verification/Recovery.v ===== *)
(** * Endpoints after a change of leadership

    The control plane does not store endpoints: a new leader asks the worker
    nodes for their sandboxes and rebuilds the endpoint lists of the services
    ([reconstructEndpointsState], in [ControlPlane]).  Here the rebuilt lists are
    characterised, first against what the nodes answer and then against the
    daemons of the nodes ([WorkerNode]). *)
From Stdlib Require Import ZArith Lia.
From stdpp Require Import base tactics list gmap strings sets numbers.
From S2P Require Import Prelude Sync Autoscaling Controller Core Placement Persistence ScalingLoop ControlPlane.
From S2P Require Import WorkerManagers Networks Sandboxes SandboxSpec WorkerNode Cluster.

Local Open Scope Z_scope.

(** What an endpoint is about, besides the identity of the object. *)
Definition sandbox_of (e : Endpoint) : string * string * option string * Z :=
  (SandboxID e, URL e, Node e, HostPort e).

(** Read the parts of a state that is given by its fields. *)
Ltac red_state :=
  cbn [InternalMap internalLock NIStorage SIStorage DataPlaneConnections ss_heap with_new_endpoint with_heap
       cp_PlacementPolicy cp_PersistenceLayer cp_rpcs cp_endpoints cp_tasks cp_loops].

Section recovery.
Context {S P : Type} `{PL : PersistenceLayer S} `{PP : PlacementPolicy P}.
Context (env : cp_env).
Implicit Types (c : ControlPlane S P) (e : proto_Endpoint) (ss : ServiceInfoStorage).

(** The service object an answer of a node belongs to, when node and service
    are known. *)
Definition rec_target c e : option nat :=
  match InternalMap (NIStorage c) !! pe_NodeName e with
  | None => None
  | Some _ => InternalMap (SIStorage c) !! pe_ServiceName e
  end.
(** The sandbox as the control plane describes it. *)
Definition rec_sandbox c e : string * string * option string * Z :=
  let ip := default EmptyString (wn_IP <$> InternalMap (NIStorage c) !! pe_NodeName e) in
  (pe_SandboxID e, (ip +:+ ":" +:+ Itoa (pe_HostPort e))%string, Some (pe_NodeName e), pe_HostPort e).
Definition of_service c (a : nat) (l : list proto_Endpoint) : list proto_Endpoint :=
  filter (fun e => rec_target c e = Some a) l.

(** No lock is held and the table of services leads to objects. *)
Record recovering c : Prop := {
  rc_ready : cp_ready c;
  rc_lock : internalLock (SIStorage c) = Unlocked;
  rc_addr : forall k a, InternalMap (SIStorage c) !! k = Some a ->
    exists ss, ss_heap c !! a = Some ss /\ si_Name (ss_ServiceInfo ss) = k;
  rc_heap : forall a ss, ss_heap c !! a = Some ss -> ss_EndpointLock ss = Unlocked /\ is_i64 (ss_scale ss);
}.

Definition in_panic ss : bool := InPanicMode (ScalingMetadata (ss_Controller ss)).
(** A service object after the endpoints [l] of it were added. *)
Record rebuilt c (l : list proto_Endpoint) ss ss' : Prop := {
  rb_info : ss_ServiceInfo ss' = ss_ServiceInfo ss;
  rb_endpoints : sandbox_of <$> ss_Endpoints ss' = (sandbox_of <$> ss_Endpoints ss) ++ (rec_sandbox c <$> l);
  rb_scale : ss_scale ss' = i64 (ss_scale ss + Z.of_nat (length l));
  rb_panic : in_panic ss' = in_panic ss || negb (bool_decide (l = []));
}.
Record after c (l : list proto_Endpoint) c' : Prop := {
  af_rec : recovering c';
  af_si : SIStorage c' = SIStorage c;
  af_ip : forall name, wn_IP <$> InternalMap (NIStorage c') !! name = wn_IP <$> InternalMap (NIStorage c) !! name;
  af_db : cp_PersistenceLayer c' = cp_PersistenceLayer c;
  af_heap : forall a ss, ss_heap c !! a = Some ss ->
    exists ss', ss_heap c' !! a = Some ss' /\ rebuilt c (of_service c a l) ss ss';
}.

Lemma rebuilt_refl c ss : is_i64 (ss_scale ss) -> rebuilt c [] ss ss.
Proof. intros Hs. split; [done|by rewrite app_nil_r| |by rewrite orb_false_r].
  rewrite Z.add_0_r. by rewrite i64_id. Qed.

(** What an answer means depends on the nodes and services only. *)
Lemma rec_target_after c l c' e : after c l c' -> rec_target c' e = rec_target c e.
Proof.
  intros H. unfold rec_target. rewrite (af_si _ _ _ H). pose proof (af_ip _ _ _ H (pe_NodeName e)) as Hi.
  destruct (InternalMap (NIStorage c') !! _), (InternalMap (NIStorage c) !! _); done.
Qed.
Lemma rec_sandbox_after c l c' e : after c l c' -> rec_sandbox c' e = rec_sandbox c e.
Proof. intros H. unfold rec_sandbox. by rewrite (af_ip _ _ _ H (pe_NodeName e)). Qed.

Lemma after_refl c : recovering c -> after c [] c.
Proof.
  intros H. split; try done. intros a ss Ha. exists ss. split; [done|]. apply rebuilt_refl. by eapply rc_heap.
Qed.
Lemma after_trans c l1 c1 l2 c2 : after c l1 c1 -> after c1 l2 c2 -> after c (l1 ++ l2) c2.
Proof.
  intros H1 H2. split.
  - apply H2.
  - rewrite (af_si _ _ _ H2). apply H1.
  - intros name. rewrite (af_ip _ _ _ H2). apply H1.
  - rewrite (af_db _ _ _ H2). apply H1.
  - intros a ss Ha. destruct (af_heap _ _ _ H1 a ss Ha) as (s1&Hs1&R1).
    destruct (af_heap _ _ _ H2 a s1 Hs1) as (s2&Hs2&R2). exists s2. split; [done|].
    assert (Ef : of_service c1 a l2 = of_service c a l2).
    { apply filter_ext_in. intros e _. by rewrite (rec_target_after c l1 c1). }
    rewrite Ef in R2. unfold of_service in *. rewrite list.filter_app.
    destruct R1 as [A1 B1 C1 D1], R2 as [A2 B2 C2 D2]. split.
    + congruence.
    + rewrite B2, B1, fmap_app, <- app_assoc. do 2 f_equal. apply list_fmap_ext. intros i e _.
      by apply (rec_sandbox_after c l1 c1).
    + rewrite C2, C1, i64_add_l, length_app. f_equal. lia.
    + rewrite D2, D1, <- orb_assoc. f_equal.
      by destruct (filter _ l1).
Qed.

(** The object of a service whose endpoint was found. *)
Definition with_endpoint (cpe : Endpoint) ss : ServiceInfoStorage :=
  let s1 := set_lock Unlocked (set_endpoints (ss_Endpoints ss ++ [cpe]) (set_lock WLocked ss)) in
  let s2 := add_scale 1 (with_metadata (fun m => set_panic true (e_now env) (MaxPanicPods m) m) s1) in
  set_controller (Start_cas (ss_Controller s2)).2 s2.

Lemma Start_cas_metadata k : ScalingMetadata (Start_cas k).2 = ScalingMetadata k.
Proof. unfold Start_cas. by case_decide. Qed.
Lemma rebuilt_one c e cpe ss :
  sandbox_of cpe = rec_sandbox c e -> rebuilt c [e] ss (with_endpoint cpe ss).
Proof.
  intros Hs. split; unfold with_endpoint, in_panic, ss_scale, set_controller; cbn -[Start_cas]; rewrite ?Start_cas_metadata.
  - done.
  - by rewrite fmap_app, <- Hs.
  - done.
  - by rewrite orb_true_r.
Qed.

(** The goroutine of an endpoint whose node and service are known. *)
Lemma reconstruct_endpoint_known e a ss wn c :
  recovering c -> valid_order (e_dp_ord env) ->
  InternalMap (NIStorage c) !! pe_NodeName e = Some wn -> InternalMap (SIStorage c) !! pe_ServiceName e = Some a ->
  ss_heap c !! a = Some ss ->
  exists cpe em new, sandbox_of cpe = rec_sandbox c e /\ internalLock em = Unlocked /\
    reconstruct_endpoint env e c = Ok (tt, mkControlPlane (DataPlaneConnections c)
      (mkStructure (<[pe_NodeName e := SetEndpointMap em wn]> (InternalMap (NIStorage c))) Unlocked) (SIStorage c)
      (<[a := with_endpoint cpe ss]> (ss_heap c)) (cp_PlacementPolicy c) (cp_PersistenceLayer c) (cp_rpcs c ++ new)
      (cp_endpoints c + 1)%nat (cp_tasks c) (cp_loops c)).
Proof.
  intros [Hrd Hsl Had Hhp] Hord Hn Hsi Hs. destruct (rd_nodes _ Hrd _ _ Hn) as (Hnm&Hcn&Hem).
  pose proof (rd_ni _ Hrd) as Hni. pose proof (rd_dp _ Hrd) as Hdl. pose proof (rd_dps _ Hrd) as Hdc.
  destruct (Hhp _ _ Hs) as [Hel _].
  destruct c as [[dpm l1] [nim l2] [sim l3] h pol per rpcs n ts ls]. simpl in *. subst l1 l2 l3.
  destruct (wn_endpointMap wn) as [emm l4] eqn:Eem. simpl in Hem. subst l4.
  set (cpe := mkEndpoint n (pe_SandboxID e) (wn_IP wn +:+ ":" +:+ Itoa (pe_HostPort e))%string
    (Some (pe_NodeName e)) (pe_HostPort e)).
  exists cpe, (mkStructure (<[cpe := si_Name (ss_ServiceInfo ss)]> emm) Unlocked). eexists.
  split; [unfold rec_sandbox, sandbox_of, cpe; simpl; by rewrite Hn|]. split; [done|].
  unfold reconstruct_endpoint. do 3 (erewrite gom_bind_run; [|reflexivity]; red_state).
  cbn [InternalMap NIStorage]. rewrite Hn. do 5 (erewrite gom_bind_run; [|reflexivity]; red_state).
  red_state. rewrite Hsi. erewrite gom_bind_run; [|apply ss_deref_run; exact Hs].
  erewrite gom_bind_run; [|apply ni_get_run; reflexivity]. red_state. rewrite Hnm, Hn.
  erewrite gom_bind_run; [|reflexivity]. rewrite Eem. do 2 (erewrite gom_bind_run; [|reflexivity]; red_state).
  erewrite gom_bind_run; [|apply (EndpointLock_Lock_run a ss); [exact Hs|exact Hel]]. red_state.
  assert (Hlt : (a < length h)%nat) by (by eapply lookup_lt_Some).
  erewrite gom_bind_run; [|apply ss_deref_run; cbn; by apply list_lookup_insert_eq]. red_state.
  erewrite gom_bind_run; [|apply ss_modify_run; cbn; by apply list_lookup_insert_eq]. red_state.
  erewrite gom_bind_run; [|eapply EndpointLock_Unlock_run; [cbn; apply list_lookup_insert_eq; by rewrite length_insert|done]]. red_state.
  cbn [ss_Endpoints set_lock]. unfold updateEndpoints.
  erewrite gom_bind_run; [|erewrite gom_bind_run; [|reflexivity];
    erewrite gom_bind_run; [|eapply update_told; [exact Hord|exact Hdc|
      cbn; apply list_lookup_insert_eq; by rewrite !length_insert]]; reflexivity]. red_state.
  do 2 (erewrite gom_bind_run; [|apply ss_modify_run; cbn; apply list_lookup_insert_eq; by rewrite !length_insert]; red_state).
  erewrite ss_modify_run; [|cbn; apply list_lookup_insert_eq; by rewrite !length_insert].
  cbn. rewrite !list_insert_insert_eq. reflexivity.
Qed.

Lemma recovering_step a cpe em ss wn name c rpcs n :
  recovering c -> InternalMap (NIStorage c) !! name = Some wn -> internalLock em = Unlocked ->
  ss_heap c !! a = Some ss ->
  recovering (mkControlPlane (DataPlaneConnections c)
    (mkStructure (<[name := SetEndpointMap em wn]> (InternalMap (NIStorage c))) Unlocked) (SIStorage c)
    (<[a := with_endpoint cpe ss]> (ss_heap c)) (cp_PlacementPolicy c) (cp_PersistenceLayer c) rpcs n
    (cp_tasks c) (cp_loops c)).
Proof.
  intros [Hrd Hsl Had Hhp] Hn Hem Hs. split; red_state; [|done| |].
  - split; red_state; [done| |apply Hrd|apply Hrd]. intros name' wn'. rewrite lookup_insert_Some.
    intros [[<- <-]|[_ Hw]]; [|by eapply rd_nodes]. destruct (rd_nodes _ Hrd _ _ Hn) as (H1&H2&_). by destruct wn.
  - by apply (heap_insert_name (ss_heap c) (InternalMap (SIStorage c)) a ss).
  - intros b x. rewrite list_lookup_insert_Some. intros [(<-&<-&_)|[_ Hx]]; [|by apply (Hhp b)].
    split; [done|]. unfold ss_scale, with_endpoint, set_controller. cbn -[Start_cas]. rewrite Start_cas_metadata.
    apply i64_range.
Qed.

Lemma reconstruct_endpoint_after e c :
  recovering c -> valid_order (e_dp_ord env) ->
  exists c', reconstruct_endpoint env e c = Ok (tt, c') /\ after c [e] c'.
Proof.
  intros Hrc Hord. pose proof Hrc as [Hrd Hsl Had Hhp].
  assert (Hnone : rec_target c e = None -> forall c', recovering c' -> NIStorage c' = NIStorage c ->
    SIStorage c' = SIStorage c -> ss_heap c' = ss_heap c -> cp_PersistenceLayer c' = cp_PersistenceLayer c ->
    after c [e] c').
  { intros Ht c' Hrc' E1 E2 E3 E4. split; try done; [by rewrite E1|]. intros a ss Ha. exists ss. rewrite E3.
    split; [done|]. unfold of_service. rewrite filter_cons, Ht, decide_False by done. apply rebuilt_refl.
    by eapply Hhp. }
  unfold rec_target in Hnone. destruct (InternalMap (NIStorage c) !! pe_NodeName e) as [wn|] eqn:En.
  2: { exists c. split; [|by apply Hnone]. unfold reconstruct_endpoint. pose proof (rd_ni _ Hrd) as Hl.
       destruct c as [dp [nim l2] si h pol per rpcs n ts ls]. simpl in *. subst l2.
       do 3 (erewrite gom_bind_run; [|reflexivity]). red_state. by rewrite En. }
  destruct (InternalMap (SIStorage c) !! pe_ServiceName e) as [a|] eqn:Ea.
  2: { exists (with_new_endpoint c). split; [|apply Hnone; try done; destruct Hrc as [[] ? ? ?]; by split].
       unfold reconstruct_endpoint. pose proof (rd_ni _ Hrd) as Hl.
       destruct c as [dp [nim l2] [sim l3] h pol per rpcs n ts ls]. simpl in *. subst l2 l3.
       do 3 (erewrite gom_bind_run; [|reflexivity]). red_state. rewrite En.
       do 5 (erewrite gom_bind_run; [|reflexivity]). red_state. by rewrite Ea. }
  destruct (Had _ _ Ea) as (ss&Hs&_).
  destruct (reconstruct_endpoint_known e a ss wn c Hrc Hord En Ea Hs) as (cpe&em&new&Hk&Hem&Hr).
  eexists. split; [exact Hr|]. split; red_state; [by apply recovering_step|done| |done|].
  - intros name. rewrite lookup_insert. case_decide; [|done]. subst. by rewrite En.
  - intros b sb Hb. unfold of_service. rewrite filter_cons, filter_nil.
    assert (Ht : rec_target c e = Some a) by (unfold rec_target; by rewrite En).
    destruct (decide (a = b)) as [<-|Hne].
    + rewrite Hs in Hb. injection Hb as <-. exists (with_endpoint cpe ss). split; [apply list_lookup_insert_eq; by eapply lookup_lt_Some|].
      rewrite decide_True by done. by apply rebuilt_one.
    + exists sb. split; [by rewrite list_lookup_insert_ne|]. rewrite decide_False by congruence.
      apply rebuilt_refl. by eapply Hhp.
Qed.

Lemma reconstruct_all l c :
  recovering c -> valid_order (e_dp_ord env) ->
  exists c', go_for l (reconstruct_endpoint env) c = Ok (tt, c') /\ after c l c'.
Proof.
  intros Hrc Hord. revert c Hrc. induction l as [|e l IH]; intros c Hrc; cbn [go_for].
  { exists c. split; [done|by apply after_refl]. }
  destruct (reconstruct_endpoint_after e c Hrc Hord) as (c1&H1&A1). go_run H1.
  destruct (IH c1 (af_rec _ _ _ A1)) as (c2&H2&A2). exists c2. split; [exact H2|].
  by apply (after_trans c [e] c1 l).
Qed.

(** The answers of the nodes, in the order in which they are asked. *)
Definition answers (n : nat) (nodes : list (string * WorkerNode)) : list (list proto_Endpoint) :=
  (fun j => e_listed env (n + j)%nat) <$> seq 0 (length nodes).

Lemma list_endpoints_run nodes acc c :
  Forall (fun kv => wn_connected kv.2 = true) nodes -> (forall k, e_err env k = None) ->
  list_endpoints env nodes acc c =
    Ok (acc ++ concat (answers (length (cp_rpcs c)) nodes), with_rpcs ((fun kv => RpcListEndpoints kv.1) <$> nodes) c).
Proof.
  intros Hl He. revert acc c. induction Hl as [|[name wn] nodes Hw Hl IH]; intros acc c; cbn [list_endpoints].
  { unfold answers. simpl. rewrite app_nil_r, with_rpcs_nil. done. }
  simpl in Hw. rewrite Hw. erewrite gom_bind_run; [|reflexivity]. unfold wn_call, call. rewrite Hw.
  erewrite gom_bind_run; [|reflexivity]. rewrite He, IH. unfold answers. cbn [length seq fmap list_fmap concat].
  rewrite <- fmap_S_seq, <- list_fmap_compose, Nat.add_0_r, <- app_assoc. do 2 f_equal.
  - unfold with_rpc. red_state. rewrite length_app. cbn [length]. do 3 f_equal. apply list_fmap_ext. intros i j _.
    cbn [compose]. f_equal. lia.
  - unfold with_rpcs, with_rpc. red_state. by rewrite <- app_assoc.
Qed.
End recovery.

(** ** The daemons answer *)

Section daemons.
Context {S P : Type} `{PL : PersistenceLayer S} `{PP : PlacementPolicy P}.
Context {R E : Type} `{RT : RuntimeInterface R E}.
Context (node : R -> string) (alive : R -> gmap string (string * Z)) (rt_ok : R -> Prop).
Context (fresh : E -> R -> Prop) (ordered : E -> Prop).
Context `{RS : !RuntimeSpec R E node alive rt_ok fresh ordered}.
Context (env : cp_env).
(** For every node: its daemon, its environment, and the sandboxes it has
    announced in its answers to former leaders and was not asked to delete. *)
Context (daemon : string -> WorkerDaemon R) (wenv : string -> E) (told : string -> gmap string (string * Z)).
Implicit Types (c : ControlPlane S P).

(** The [n]-th remote call is answered by the daemon of the node, which has had
    any history. *)
Definition answered_by (name : string) (n : nat) : Prop :=
  exists w0 w', rt_ok (wd_SandboxRuntime w0) /\ alive (wd_SandboxRuntime w0) = ∅ /\
    node (wd_SandboxRuntime w0) = name /\ wn_history fresh w0 (told name) (daemon name) /\ ordered (wenv name) /\
    wn_ListEndpoints (wenv name) (daemon name) = Ok (e_listed env n, w').

(** The sandboxes of a service a node has announced, as endpoints. *)
Definition announced (k name ip : string) : list (string * string * option string * Z) :=
  (fun x : string * (string * Z) => (x.1, (ip +:+ ":" +:+ Itoa x.2.2)%string, Some name, x.2.2)) <$>
  filter (fun x => x.2.1 = k) (map_to_list (told name)).

Lemma node_listing c k a name wn l :
  recovering c -> InternalMap (NIStorage c) !! name = Some wn -> InternalMap (SIStorage c) !! k = Some a ->
  Forall (fun e => pe_NodeName e = name) l ->
  rec_sandbox c <$> of_service c a l =
  (fun x : string * (string * Z) => (x.1, (wn_IP wn +:+ ":" +:+ Itoa x.2.2)%string, Some name, x.2.2)) <$>
    filter (fun x => x.2.1 = k) ((fun p => (pe_SandboxID p, (pe_ServiceName p, pe_HostPort p))) <$> l).
Proof.
  intros Hrc Hn Hk Hl. unfold of_service. induction Hl as [|e l He Hl IH]; [done|].
  rewrite filter_cons. cbn [fmap list_fmap]. rewrite filter_cons. cbn [fst snd].
  assert (Hiff : rec_target c e = Some a <-> pe_ServiceName e = k).
  { unfold rec_target. rewrite He, Hn. split; [|by intros ->]. intros Ha.
    destruct (rc_addr _ Hrc _ _ Ha) as (s1&Hs1&E1), (rc_addr _ Hrc _ _ Hk) as (s2&Hs2&E2). congruence. }
  case_decide as H1; case_decide as H2; try tauto. cbn [fmap list_fmap].
  f_equal; [|exact IH]. unfold rec_sandbox. by rewrite He, Hn.
Qed.

Lemma answers_announced c k a nodes n :
  recovering c -> InternalMap (SIStorage c) !! k = Some a ->
  (forall j name wn, nodes !! j = Some (name, wn) -> InternalMap (NIStorage c) !! name = Some wn /\ answered_by name (n + j)) ->
  rec_sandbox c <$> of_service c a (concat (answers env n nodes)) ≡ₚ
  nodes ≫= (fun kv => announced k kv.1 (wn_IP kv.2)).
Proof.
  intros Hrc Hk. revert n. induction nodes as [|[name wn] nodes IH]; intros n Hj; [done|].
  unfold answers. cbn [length seq fmap list_fmap concat mbind list_bind]. unfold of_service.
  rewrite list.filter_app, fmap_app. f_equiv.
  - destruct (Hj 0%nat name wn eq_refl) as [Hn (w0&w'&Hok&He&Hnm&Hh&Ho&Hr)].
    destruct (wn_history_alive node alive rt_ok fresh ordered w0 (told name) (daemon name) Hok He Hh) as (Hok'&Ha&_&Hn').
    apply zoom_ok in Hr as (s&Hr&_). apply (rs_list (alive := alive)) in Hr as (_&Hl&Hf); [|done|done].
    fold (of_service c a (e_listed env (n + 0))). erewrite node_listing; try done; [|by rewrite Hn', Hnm in Hf].
    unfold announced. by rewrite Hl, Ha.
  - rewrite <- fmap_S_seq, <- list_fmap_compose.
    assert (Es : (fun j => e_listed env (n + j)%nat) ∘ Datatypes.S <$> seq 0 (length nodes) =
      answers env (Datatypes.S n) nodes).
    { unfold answers. apply list_fmap_ext. intros i j _. cbn [compose]. f_equal. lia. }
    rewrite Es. apply IH. intros j name' wn' Hl. destruct (Hj (Datatypes.S j) name' wn' Hl) as [H1 H2].
    split; [done|]. by replace (Datatypes.S n + j)%nat with (n + Datatypes.S j)%nat by lia.
Qed.
End daemons.

(** C2: A new leader recovers every sandbox that was announced.  Let the worker
    nodes have had any history of creations, deletions and heartbeats under
    former leaders.  Once a new leader is connected to them and has recovered its
    services, rebuilding the endpoints returns without error, and the endpoints
    of every service are exactly the sandboxes of that service whose creation
    some node answered with success and that no leader asked to delete, each with
    its node and host port, in any order of the goroutines; the scale recorded
    for the service is their number. *)
Theorem endpoints_recovered {S P} `{PersistenceLayer S} `{PlacementPolicy P} {R E} `{RuntimeInterface R E}
    node alive rt_ok fresh ordered `{!RuntimeSpec R E node alive rt_ok fresh ordered}
    env daemon wenv told ord (c : ControlPlane S P) :
  recovering c -> valid_order (e_dp_ord env) -> valid_order (e_ni_ord env) -> (forall l, ord l ≡ₚ l) ->
  (forall k, e_err env k = None) ->
  (forall j name wn, e_ni_ord env (InternalMap (NIStorage c)) !! j = Some (name, wn) ->
     answered_by node alive rt_ok fresh ordered env daemon wenv told name (length (cp_rpcs c) + j)) ->
  exists c', reconstructEndpointsState env ord c = Ok (None, c') /\ recovering c' /\ SIStorage c' = SIStorage c /\
    forall k a ss, InternalMap (SIStorage c) !! k = Some a -> ss_heap c !! a = Some ss ->
      ss_Endpoints ss = [] -> ss_scale ss = 0 ->
      exists ss', ss_heap c' !! a = Some ss' /\ ss_ServiceInfo ss' = ss_ServiceInfo ss /\
        sandbox_of <$> ss_Endpoints ss' ≡ₚ
          map_to_list (InternalMap (NIStorage c)) ≫= (fun kv => announced told k kv.1 (wn_IP kv.2)) /\
        ss_scale ss' = i64 (Z.of_nat (length (ss_Endpoints ss'))).
Proof.
  intros Hrc Hod Hon Hord Herr Hans. unfold reconstructEndpointsState.
  assert (Hmap : on_ni GetMap c = Ok (InternalMap (NIStorage c), c)) by (by destruct c as [? [] ?]).
  go_run Hmap. set (nodes := e_ni_ord env (InternalMap (NIStorage c))) in *.
  assert (Hnodes : forall kv, kv ∈ nodes -> InternalMap (NIStorage c) !! kv.1 = Some kv.2).
  { intros [name wn] Hin. by apply (valid_order_elem (e_ni_ord env)) in Hin. }
  erewrite gom_bind_run; [|apply list_endpoints_run; [|done]].
  2: { apply list.Forall_forall. intros kv Hin.
       apply (rd_nodes _ (rc_ready _ Hrc) kv.1). by apply Hnodes. }
  cbn [app]. set (eps := concat _). set (c1 := with_rpcs _ c).
  assert (Hrc1 : recovering c1) by (destruct Hrc as [[] ? ? ?]; by split).
  destruct (reconstruct_all env (ord eps) c1 Hrc1 Hod) as (c'&Hr&Ha). go_run Hr.
  exists c'. split; [done|]. split; [apply Ha|]. split; [apply (af_si _ _ _ Ha)|].
  intros k a ss Hk Hs Hnil Hz. destruct (af_heap _ _ _ Ha a ss Hs) as (ss'&Hs'&[R1 R2 R3 _]).
  exists ss'. split; [done|]. split; [done|]. rewrite Hnil in R2. cbn [fmap list_fmap app] in R2. split.
  - rewrite R2. change (rec_sandbox c1) with (rec_sandbox c). change (of_service c1 a) with (of_service c a).
    unfold of_service at 1. rewrite (Hord eps), <- (Hon (InternalMap (NIStorage c))).
    apply (answers_announced node alive rt_ok fresh ordered env daemon wenv told); [done|done|].
    intros j name wn Hj. split; [|by apply (Hans j name wn)]. apply (Hnodes (name, wn)). by eapply list_elem_of_lookup_2.
  - rewrite R3, Hz, Z.add_0_l. apply (f_equal length) in R2. rewrite !length_fmap in R2. by rewrite R2.
Qed.

(** The nodes are connected in the background and nobody waits for them: when
    the endpoints are rebuilt before the first connection is up, no node is
    asked and every service starts without endpoints, whatever is running. *)
Theorem late_nodes_not_asked {S P} `{PersistenceLayer S} env ord (c : ControlPlane S P) :
  InternalMap (NIStorage c) = ∅ -> valid_order (e_ni_ord env) -> (forall l, ord l ≡ₚ l) ->
  reconstructEndpointsState env ord c = Ok (None, c).
Proof.
  intros Hni Hon Hord. unfold reconstructEndpointsState.
  assert (Hmap : on_ni GetMap c = Ok (∅, c)) by (rewrite <- Hni; by destruct c as [? [] ?]). go_run Hmap.
  assert (En : e_ni_ord env ∅ = []) by (apply Permutation_nil_r; by rewrite (Hon ∅), map_to_list_empty).
  rewrite En. erewrite gom_bind_run; [|reflexivity].
  assert (Eo : ord [] = []) by (by apply Permutation_nil_r). by rewrite Eo.
Qed.

(** ** A concrete recovery *)

Module RecoveryExample.
(** A leader that is connected to the node and has recovered its service. *)
Definition leader : ControlPlane EmptyPersistence Random :=
  mkControlPlane NewControlPlaneSyncStructure
    (mkStructure {[ "n1" := ConnectToWorker true (Core.NewWorkerNode 0 (node_configuration ex_node_info)) ]}%string Unlocked)
    (mkStructure {[ "f" := 0%nat ]}%string Unlocked) [new_service 0 ex_service] tt tt [] 0 [] [].
Definition listing_env (l : list proto_Endpoint) : cp_env :=
  mkCpEnv 0 map_to_list map_to_list map_to_list map_to_list elements (fun _ => example_env) (fun _ => 0)
    (fun _ => None) ex_created (fun _ => l) (fun _ => None).
End RecoveryExample.
Import HostExample NodeExample RecoveryExample.

Lemma leader_recovering : recovering leader.
Proof.
  split.
  - split; [done| |done|done]. intros name wn. cbn [leader NIStorage InternalMap].
    intros [<- <-]%lookup_singleton_Some. done.
  - done.
  - intros k a. cbn [leader SIStorage InternalMap]. intros [<- <-]%lookup_singleton_Some. eexists. done.
  - intros [|a] ss; [|done]. intros [= <-]. split; [done|]. by vm_compute.
Qed.

Lemma endpoints_recovered_witness :
  exists answer w l w' c' ss', wn_CreateSandbox (container_env 7) service containers = Ok (answer, w) /\
    wn_ListEndpoints (container_env 0) w = Ok (l, w') /\
    reconstructEndpointsState (listing_env l) (fun l => l) leader = Ok (None, c') /\
    ss_heap c' !! 0%nat = Some ss' /\
    sandbox_of <$> ss_Endpoints ss' ≡ₚ [("workload-7"%string, "10.0.0.1:1031"%string, Some "n1"%string, 1031)].
Proof.
  destruct (wn_CreateSandbox (container_env 7) service containers) as [[answer w]| | |] eqn:Hc; [|by vm_compute in Hc..].
  destruct (wn_ListEndpoints (container_env 0) w) as [[l w']| | |] eqn:Hl;
    [|vm_compute in Hc; injection Hc as _ <-; by vm_compute in Hl..].
  destruct (endpoints_recovered cr_node cr_alive cr_ok cr_fresh cr_ordered (listing_env l) (fun _ => w)
    (fun _ => container_env 0) (fun _ => learn service answer ∅) (fun l => l) leader) as (c'&Hr&_&_&Hs).
  - apply leader_recovering.
  - apply map_to_list_valid.
  - apply map_to_list_valid.
  - reflexivity.
  - reflexivity.
  - intros j name wn Hj. cbn [leader NIStorage InternalMap listing_env e_ni_ord] in Hj.
    rewrite map_to_list_singleton in Hj. destruct j as [|j]; [|done]. injection Hj as <- <-.
    exists containers, w'. split; [apply ports_ok_empty|]. split; [reflexivity|]. split; [reflexivity|]. split.
    + refine (wh_create _ _ ∅ containers (container_env 7) service answer w (wh_start _ _) _ Hc). reflexivity.
    + split; [apply map_to_list_valid|exact Hl].
  - destruct (Hs "f"%string 0%nat (new_service 0 ex_service)) as (ss'&Hss&_&He&_); [reflexivity..|].
    exists answer, w, l, w', c', ss'. split; [reflexivity|]. split; [exact Hl|]. split; [exact Hr|]. split; [exact Hss|].
    etransitivity; [exact He|]. cbn [leader NIStorage InternalMap]. rewrite map_to_list_singleton.
    cbn [mbind list_bind fst snd]. rewrite app_nil_r. unfold announced.
    assert (Ht : map_to_list (learn service answer ∅) = [("workload-7"%string, ("f"%string, 1031))])
      by (vm_compute in Hc; injection Hc as <- _; vm_compute; reflexivity).
    rewrite Ht. reflexivity.
Defined.
