(* ===== verification/Routing.v ===== *)
(** * Routing tables under scaling

    The endpoints a data plane forwards the requests of a service to, against
    the endpoints the control plane keeps for it, while the scaling loop
    creates sandboxes, takes sandboxes out of service and drains and deletes
    them in the background ([scaling_loop.go] on one side,
    [function_metadata.go] on the other), with requests being admitted and
    completed in between. *)
From Stdlib Require Import ZArith Lia.
From stdpp Require Import base tactics list gmap strings sets numbers pretty.
From S2P Require Import Prelude Sync Autoscaling Controller Core Placement Persistence ScalingLoop ControlPlane.
From S2P Require Import Net FunctionMetadata LoadBalancing Draining Proxy DataPlaneDaemon Cluster.

Local Open Scope Z_scope.

(** ** The routes of a data plane *)

Abbreviation route := (string * string)%type.

Definition routes (m : FM) : list route :=
  (fun p => (id_of (ep_heap m) p, url_of (ep_heap m) p)) <$> fm_upstreamEndpoints m.
Definition info_route (e : EndpointInfo) : route := (ei_ID e, ei_URL e).
Definition endpoint_route (e : Endpoint) : route := (SandboxID e, URL e).

(** Listed endpoints are allocated. *)
Definition listed_ok (m : FM) : Prop := forall p, p ∈ fm_upstreamEndpoints m -> (p < fm_next m)%nat.

(** Two states with the same list and the same names of endpoints. *)
Definition same_names (m m' : FM) : Prop :=
  fm_upstreamEndpoints m' = fm_upstreamEndpoints m /\ fm_next m' = fm_next m /\
  forall p, id_of (ep_heap m') p = id_of (ep_heap m) p /\ url_of (ep_heap m') p = url_of (ep_heap m) p.

Lemma same_names_routes m m' : same_names m m' -> routes m' = routes m /\ (listed_ok m -> listed_ok m').
Proof.
  intros (E1&E2&E3). unfold routes, listed_ok. rewrite E1, E2. split; [|done].
  apply list_fmap_ext. intros _ p _. destruct (E3 p) as [-> ->]. done.
Qed.

Lemma names_insert (h : gmap nat UpstreamEndpoint) p e e' :
  h !! p = Some e -> ue_ID e' = ue_ID e -> ue_URL e' = ue_URL e ->
  forall q, id_of (<[p := e']> h) q = id_of h q /\ url_of (<[p := e']> h) q = url_of h q.
Proof.
  intros He Ei Eu q. unfold id_of, url_of. rewrite lookup_insert. case_decide; [|done]. subst q.
  rewrite He. by simpl.
Qed.

Lemma DoLoadBalancing_names env policy m r m' :
  DoLoadBalancing env policy m = Ok (r, m') -> same_names m m'.
Proof.
  intros Hrun. pose proof (DoLoadBalancing_list _ _ _ _ _ Hrun) as [El En]. split; [done|]. split; [done|].
  unfold DoLoadBalancing in Hrun. apply outcome_bind_Ok in Hrun as ([q m1]&Hlb&Hrun).
  apply lb_attempts_run in Hlb as (_&_&_&_&Eh). cbn in Eh.
  destruct q as [q|]; [|injection Hrun as <- <-; cbn; by rewrite Eh].
  apply outcome_bind_Ok in Hrun as (m2&Hadm&[= <- <-]). destruct Eh as (e&He&_&Eh). revert Hadm.
  unfold DoLoadBalancing_admit. cbn. rewrite Eh, lookup_insert_eq. intros [= <-]. cbn.
  rewrite Eh, insert_insert_eq. by apply (names_insert _ _ e).
Qed.

Lemma giveBack_names p m m' : giveBackCCCapacity p m = Ok m' -> same_names m m'.
Proof.
  unfold giveBackCCCapacity. destruct (ep_heap m !! p) as [e|] eqn:He; [|done]. intros H.
  apply outcome_bind_Ok in H as (cb&_&H). revert H. case_decide; [|done]. intros [= <-].
  split; [done|]. split; [done|]. by apply (names_insert _ _ e).
Qed.

(** New endpoints are appended. *)
Lemma AddEndpoints_routes eps m m' :
  listed_ok m -> AddEndpoints eps m = Ok m' ->
  listed_ok m' /\ routes m' = routes m ++ (info_route <$> eps).
Proof.
  intros Hok Hrun. destruct (addToEndpointList_run eps m) as (H1&H2&H3).
  destruct (AddEndpoints_list _ _ _ Hrun) as (E1&E2&E3). set (m1 := addToEndpointList eps m) in *.
  unfold listed_ok, routes. rewrite E1, E2, E3. rewrite H1. cbn. split.
  - intros p. rewrite elem_of_app, elem_of_seq. intros [Hp%Hok|Hp]; lia.
  - rewrite fmap_app. f_equal.
    + apply list_fmap_ext. intros i p Hp. apply list_elem_of_lookup_2, Hok in Hp.
      unfold id_of, url_of. by rewrite H2.
    + apply list_eq. intros i. rewrite !list_lookup_fmap. destruct (eps !! i) as [e|] eqn:He.
      * rewrite lookup_seq_lt by (by apply lookup_lt_Some in He). cbn. unfold id_of, url_of.
        by rewrite (H3 _ _ He).
      * rewrite lookup_seq_ge by (by apply lookup_ge_None). done.
Qed.

(** ** Drained endpoints are taken off *)

Lemma list_filter_id {A} (Q : A -> Prop) `{!forall x, Decision (Q x)} (l : list A) :
  (forall x, x ∈ l -> Q x) -> filter Q l = l.
Proof.
  induction l as [|x l IH]; intros Hall; [done|]. rewrite filter_cons_True; [|apply Hall; left].
  f_equal. apply IH. intros y Hy. apply Hall. by right.
Qed.
Lemma list_filter_nil {A} (Q : A -> Prop) `{!forall x, Decision (Q x)} (l : list A) :
  (forall x, x ∈ l -> ¬ Q x) -> filter Q l = [].
Proof.
  induction l as [|x l IH]; intros Hall; [done|]. rewrite filter_cons_False; [|apply Hall; left].
  apply IH. intros y Hy. apply Hall. by right.
Qed.

Lemma remove_first_url_filter h url l :
  NoDup (url_of h <$> l) -> remove_first_url h url l = filter (fun p => url_of h p ≠ url) l.
Proof.
  induction l as [|q l IH]; [done|]. intros Hnd. cbn in Hnd. apply list.NoDup_cons in Hnd as [Hq Hnd].
  cbn [remove_first_url]. rewrite filter_cons. case_decide as Hu.
  - rewrite decide_False by congruence. symmetry. apply list_filter_id. intros p Hp Hpu. apply Hq.
    rewrite <- Hu, <- Hpu. by apply list_elem_of_fmap_2.
  - rewrite decide_True by congruence. f_equal. by apply IH.
Qed.

Lemma foldl_remove_filter h (eps : list EndpointInfo) l :
  NoDup (url_of h <$> l) ->
  foldl (fun l e => remove_first_url h (ei_URL e) l) l eps =
  filter (fun p => url_of h p ∉ ei_URL <$> eps) l.
Proof.
  revert l. induction eps as [|e eps IH]; intros l Hnd; cbn [foldl].
  { symmetry. apply list_filter_id. intros p _. apply not_elem_of_nil. }
  rewrite IH.
  - rewrite remove_first_url_filter, list_filter_filter by done. apply list_filter_iff. intros p.
    cbn. rewrite not_elem_of_cons. tauto.
  - eapply sublist_NoDup; [exact Hnd|]. apply fmap_sublist, remove_first_url_sublist.
Qed.

Lemma wait_names bs h h' :
  waitForDrainingToComplete bs h = Ok h' ->
  forall p, id_of h' p = id_of h p /\ url_of h' p = url_of h p.
Proof.
  revert h. induction bs as [|q bs IH]; intros h; simpl; [by intros [= <-]|].
  destruct (h !! q) as [e|] eqn:He; [|done]. destruct (ue_DrainingCallback e) as [[]|]; try done.
  intros Hr p. destruct (IH _ Hr p) as [-> ->]. by apply (names_insert _ _ e).
Qed.

Lemma mark_names ids l h bs h' :
  mark_loop ids l h = (bs, h') -> forall p, id_of h' p = id_of h p /\ url_of h' p = url_of h p.
Proof.
  intros Hm p. unfold id_of, url_of. by destruct (mark_loop_frame _ _ _ _ _ Hm p) as [[-> ->]|(e&d&cb&->&->)].
Qed.

Lemma Drain_routes eps m bs m1 h :
  listed_ok m -> NoDup (routes m).*2 ->
  DrainEndpoints_mark eps m = (bs, m1) -> waitForDrainingToComplete bs (ep_heap m1) = Ok h ->
  let m2 := set_endpoints m1 h (fm_upstreamEndpoints m1) (fm_next m1) in
  listed_ok m2 /\ routes m2 = filter (fun r => r.2 ∉ ei_URL <$> eps) (routes m).
Proof.
  intros Hok Hnd Hmark Hwait m2. unfold DrainEndpoints_mark, markEndpointsAsDraining in Hmark.
  destruct (mark_loop _ _ _) as [bs0 h0] eqn:Em. injection Hmark as <- <-. cbn in Hwait.
  assert (Hn : forall p, id_of h p = id_of (ep_heap m) p /\ url_of h p = url_of (ep_heap m) p).
  { intros p. destruct (wait_names _ _ _ Hwait p) as [-> ->]. apply (mark_names _ _ _ _ _ Em). }
  assert (Hu : url_of h0 <$> fm_upstreamEndpoints m = (routes m).*2).
  { unfold routes. rewrite <- list_fmap_compose. apply list_fmap_ext. intros _ p _. cbn.
    by destruct (mark_names _ _ _ _ _ Em p). }
  unfold m2, listed_ok, routes. cbn. rewrite foldl_remove_filter by (by rewrite Hu). split.
  - intros p Hp. apply list_elem_of_filter in Hp as [_ Hp]. by apply Hok.
  - pose proof (mark_names _ _ _ _ _ Em) as Hn0. clear Em Hu Hnd Hok Hwait m2.
    induction (fm_upstreamEndpoints m) as [|p l IH]; [done|]. cbn [fmap list_fmap].
    rewrite !filter_cons. destruct (Hn p) as [Hi Hup]. destruct (Hn0 p) as [_ Hup0].
    rewrite (decide_ext (url_of h0 p ∉ ei_URL <$> eps)
      ((id_of (ep_heap m) p, url_of (ep_heap m) p).2 ∉ ei_URL <$> eps)) by (by rewrite Hup0).
    case_decide; [|exact IH]. cbn [fmap list_fmap]. rewrite Hi, Hup. f_equal. exact IH.
Qed.

(** ** What a process is told *)

Fixpoint serve_all (rs : list rpc) (d : Dataplane) : outcome Dataplane :=
  match rs with
  | [] => Ok d
  | r :: rs' => d' ← dp_serve r d; serve_all rs' d'
  end.

Lemma deliver_all_at rs dps dps' ip d :
  dp_deliver_all rs dps = Ok dps' -> dps !! ip = Some d ->
  exists d', dps' !! ip = Some d' /\ serve_all (filter (fun r => rpc_target r = Some ip) rs) d = Ok d'.
Proof.
  revert dps d. induction rs as [|r rs IH]; intros dps d; cbn [dp_deliver_all].
  { intros [= <-] Hd. by exists d. }
  intros H Hd. apply outcome_bind_Ok in H as (dps1&H1&H2). revert H1. unfold dp_deliver.
  rewrite filter_cons. destruct (rpc_target r) as [ip'|] eqn:Et.
  2: { intros [= <-]. rewrite decide_False by done. by eapply IH. }
  destruct (decide (ip' = ip)) as [->|Hne].
  - rewrite Hd, decide_True by done. intros H1. apply outcome_bind_Ok in H1 as (d1&Hs&[= <-]).
    destruct (IH _ _ H2 (lookup_insert_eq _ _ _)) as (d'&Hd'&Hr). exists d'. split; [done|]. cbn. by rewrite Hs.
  - rewrite decide_False by congruence. intros H1. eapply IH; [exact H2|].
    destruct (dps !! ip') as [d2|]; [|by injection H1 as <-].
    apply outcome_bind_Ok in H1 as (d1&Hs&[= <-]). by rewrite lookup_insert_ne.
Qed.

(** One call per data plane: each process is told once. *)
Lemma told_once (g : string * DataPlaneConnectionInfo -> rpc) l ip dp :
  (forall kv, rpc_target (g kv) = Some kv.1) -> NoDup l.*1 -> (ip, dp) ∈ l ->
  filter (fun r => rpc_target r = Some ip) (g <$> l) = [g (ip, dp)].
Proof.
  intros Hg Hnd Hin. induction l as [|kv l IH]; [by apply elem_of_nil in Hin|].
  cbn in Hnd. apply list.NoDup_cons in Hnd as [Hk Hnd]. cbn [fmap list_fmap]. rewrite filter_cons, Hg.
  apply elem_of_cons in Hin as [<-|Hin].
  - rewrite decide_True by done. f_equal. apply list_filter_nil. intros r Hr Ht.
    apply list_elem_of_fmap in Hr as (kv'&->&Hkv). rewrite Hg in Ht. injection Ht as Ht. apply Hk.
    cbn. rewrite <- Ht. by apply list_elem_of_fmap_2.
  - rewrite decide_False; [by apply IH|]. intros [= Heq]. apply Hk. rewrite Heq.
    apply (list_elem_of_fmap_2 fst _ _ Hin).
Qed.

(** A data plane that has the service, with these routes. *)
Definition routes_to (s : string) (d : Dataplane) (l : list route) : Prop :=
  exists m, dpl_deployments d !! s = Some m /\ listed_ok m /\ routes m ≡ₚ l.

Lemma serve_update ip s eps d d' l :
  dp_serve (RpcUpdateEndpointList ip s eps) d = Ok d' -> routes_to s d l ->
  routes_to s d' (l ++ (info_route <$> eps)).
Proof.
  intros H (m&Hm&Hok&Hl). cbn in H. apply outcome_bind_Ok in H as (x&Hx&[= <-]). revert Hx.
  unfold UpdateEndpointList, GetDeployment. cbn. rewrite Hm. intros Hx.
  apply outcome_bind_Ok in Hx as (m'&Ha&[= <-]). destruct (AddEndpoints_routes _ _ _ Hok Ha) as [Hok' Hr].
  exists m'. cbn. split; [exact (lookup_insert_eq (M:=gmap string) _ _ _)|]. split; [done|].
  by rewrite Hr, Hl.
Qed.

Lemma serve_drain ip s eps d d' l :
  dp_serve (RpcDrainSandbox ip s eps) d = Ok d' -> NoDup l.*2 -> routes_to s d l ->
  routes_to s d' (filter (fun r => r.2 ∉ ei_URL <$> eps) l).
Proof.
  intros H Hnd (m&Hm&Hok&Hl). cbn in H. apply outcome_bind_Ok in H as (x&Hx&[= <-]). revert Hx.
  unfold Dataplane_DrainSandbox, GetDeployment. cbn [patch_Service patch_Endpoints default]. cbn. rewrite Hm.
  destruct (DrainEndpoints_mark eps m) as [bs m1] eqn:Ed. intros Hx.
  apply outcome_bind_Ok in Hx as (h&Hw&[= <-]).
  destruct (Drain_routes _ _ _ _ _ Hok ltac:(by rewrite Hl) Ed Hw) as [Hok' Hr].
  eexists. cbn. split; [exact (lookup_insert_eq (M:=gmap string) _ _ _)|]. split; [done|].
  rewrite Hr. by rewrite Hl.
Qed.

(** ** What the control plane tells *)

Section told.
Context {S P : Type} `{PL : PersistenceLayer S} `{PP : PlacementPolicy P}.
Context (cfg : ControlPlaneConfig) (env : cp_env).
Implicit Types (c : ControlPlane S P) (ss : ServiceInfoStorage).

(** The calls [new] were made; services, tasks and data planes are as before. *)
Record told (new : list rpc) c c' : Prop := {
  td_rpcs : cp_rpcs c' = cp_rpcs c ++ new;
  td_heap : ss_heap c' = ss_heap c;
  td_tasks : cp_tasks c' = cp_tasks c;
  td_dps : InternalMap (DataPlaneConnections c') = InternalMap (DataPlaneConnections c);
}.

Lemma told_refl c : told [] c c.
Proof. split; [by rewrite app_nil_r|done..]. Qed.
Lemma told_trans l1 l2 c1 c2 c3 : told l1 c1 c2 -> told l2 c2 c3 -> told (l1 ++ l2) c1 c3.
Proof. intros [] []. split; [rewrite app_assoc|..]; congruence. Qed.

Lemma go_lift_ok {A} (o : outcome A) c x c' : go_lift o c = Ok (x, c') -> o = Ok x /\ c' = c.
Proof. unfold go_lift. destruct o; try done. by intros [= <- <-]. Qed.

Lemma call_told b r c e c' : call env b r c = Ok (e, c') -> told [r] c c'.
Proof. unfold call. destruct b; [|done]. by intros [= <- <-]. Qed.

Lemma calls_told {A} (f : A -> bool) (g : A -> rpc) l c u c' :
  go_for l (fun x => call env (f x) (g x) ;; mret tt) c = Ok (u, c') -> told (g <$> l) c c'.
Proof.
  revert c. induction l as [|x l IH]; intros c; cbn [go_for].
  { intros [= <- <-]. apply told_refl. }
  intros H. apply gom_bind_ok in H as (u1&c1&H1&H2). apply gom_bind_ok in H1 as (e&c2&H1&[= <- <-]).
  apply call_told in H1. apply IH in H2. exact (told_trans [g x] _ _ _ _ H1 H2).
Qed.

Lemma dp_op_told {A} (m : GoM (Structure string DataPlaneConnectionInfo) A) c r c' :
  (forall t t' x, m t = Ok (x, t') -> InternalMap t' = InternalMap t) ->
  on_dp m c = Ok (r, c') -> told [] c c'.
Proof.
  intros Hm H. apply zoom_ok in H as (t&Ht&->). apply Hm in Ht. split; cbn; [by rewrite app_nil_r|done..].
Qed.
Lemma Lock_map {K V} `{Countable K} (t t' : Structure K V) x : Lock t = Ok (x, t') -> InternalMap t' = InternalMap t.
Proof. destruct t as [mp lk]. destruct lk; cbv; try done. by intros [= <- <-]. Qed.
Lemma Unlock_map {K V} `{Countable K} (t t' : Structure K V) x : Unlock t = Ok (x, t') -> InternalMap t' = InternalMap t.
Proof. destruct t as [mp lk]. destruct lk; cbv; try done. by intros [= <- <-]. Qed.

Lemma updateEndpoints_told a ss eps c u c' :
  ss_heap c !! a = Some ss -> updateEndpoints env a eps c = Ok (u, c') ->
  told ((fun kv => RpcUpdateEndpointList kv.1 (si_Name (ss_ServiceInfo ss)) eps)
          <$> e_dp_ord env (InternalMap (DataPlaneConnections c))) c c'.
Proof.
  intros Hs H. unfold updateEndpoints in H. apply gom_bind_ok in H as (u1&c1&H1&H).
  apply (dp_op_told _ _ _ _ Lock_map) in H1. apply gom_bind_ok in H as (u2&c2&H2&H3).
  apply (dp_op_told _ _ _ _ Unlock_map) in H3. unfold singlethreadUpdateEndpoints in H2.
  rewrite <- (td_heap _ _ _ H1) in Hs. erewrite gom_bind_run in H2; [|by apply ss_deref_run].
  apply gom_bind_ok in H2 as (m&c3&Hm&H2). destruct c1 as [[dm lk] ? ? ? ? ? ? ? ? ?]. injection Hm as <- <-.
  apply (calls_told (fun kv => dp_connected kv.2)) in H2. cbn in H2. rewrite <- (td_dps _ _ _ H1). cbn.
  pose proof (told_trans _ _ _ _ _ H1 (told_trans _ _ _ _ _ H2 H3)) as Ht. by rewrite app_nil_r in Ht.
Qed.

(** The last part of the goroutine of a creation: the endpoint is appended and
    the data planes are told. *)
Definition record_endpoint (a : nat) (e : Endpoint) : GoM (ControlPlane S P) up_pc :=
  pc ← up_read a e; up_step cfg env 0 a pc.

Lemma record_endpoint_told a ss e c u c' :
  ss_heap c !! a = Some ss -> record_endpoint a e c = Ok (u, c') ->
  ss_heap c' !! a = Some (ScalingLoop.set_endpoints (ss_Endpoints ss ++ [e]) ss) /\ cp_tasks c' = cp_tasks c /\
  InternalMap (DataPlaneConnections c') = InternalMap (DataPlaneConnections c) /\
  cp_rpcs c' = cp_rpcs c ++
    ((fun kv => RpcUpdateEndpointList kv.1 (si_Name (ss_ServiceInfo ss)) (prepareEndpointInfo [e]))
       <$> e_dp_ord env (InternalMap (DataPlaneConnections c))).
Proof.
  intros Hs H. unfold record_endpoint, up_read in H.
  erewrite gom_bind_run in H; [|go_run (ss_deref_run _ _ _ Hs); reflexivity].
  cbn [up_step] in H. unfold up_store in H. erewrite gom_bind_run in H; [|by apply ss_modify_run].
  apply gom_bind_ok in H as (u1&c1&H1&[= <- <-]).
  assert (Hh : ss_heap (with_heap (<[a := ScalingLoop.set_endpoints (ss_Endpoints ss ++ [e]) ss]> (ss_heap c)) c) !! a =
            Some (ScalingLoop.set_endpoints (ss_Endpoints ss ++ [e]) ss)).
  { cbn. apply list_lookup_insert_eq. by eapply lookup_lt_Some. }
  pose proof (updateEndpoints_told _ _ _ _ _ _ Hh H1) as [T1 T2 T3 T4]. cbn in *.
  split_and!; [by rewrite T2|done..].
Qed.

(** Deleting sandboxes tells no data plane anything. *)
Lemma delete_told l c u c' :
  go_for l (fun victim => deleteSandbox env victim ;; removeEndpointFromWNStruct victim) c = Ok (u, c') ->
  exists new, told new c c' /\ Forall (fun r => rpc_target r = None) new.
Proof.
  revert c. induction l as [|x l IH]; intros c; cbn [go_for].
  { intros [= <- <-]. exists []. split; [apply told_refl|constructor]. }
  intros H. apply gom_bind_ok in H as (u1&c1&H1&H2). apply gom_bind_ok in H1 as (u2&c2&H1&H3).
  destruct (IH _ H2) as (new&Hn&Hf).
  assert (Hd : exists n, told n c c2 /\ Forall (fun r => rpc_target r = None) n).
  { revert H1. unfold deleteSandbox. destruct (Node x) as [nm|].
    - intros H1. apply gom_bind_ok in H1 as (e&c3&H1&[= <- <-]). apply call_told in H1.
      eexists. split; [exact H1|]. by constructor.
    - intros [= <- <-]. exists []. split; [apply told_refl|constructor]. }
  destruct Hd as (n1&Hn1&Hf1).
  assert (Hr : told [] c2 c1).
  { revert H3. unfold removeEndpointFromWNStruct. destruct (Node x) as [nm|]; [|intros [= <- <-]; apply told_refl].
    intros H3. apply gom_bind_ok in H3 as (m&c3&Hm&H3). apply zoom_ok in Hm as (t&[= <- <-]&->).
    do 4 (apply gom_bind_ok in H3 as (?&?&?H3&H3)).
    apply zoom_ok in H3 as (t&_&->).
    repeat match goal with Hl : go_lift _ _ = Ok _ |- _ =>
      apply go_lift_ok in Hl as [_ ->] end.
    split; cbn; [by rewrite app_nil_r|done..]. }
  exists (n1 ++ ([] ++ new)). split; [eapply told_trans; [exact Hn1|eapply told_trans; [exact Hr|exact Hn]]|].
  by apply Forall_app.
Qed.
End told.

(** ** The system around one service *)

Section system.
Context {S P : Type} `{PL : PersistenceLayer S} `{PP : PlacementPolicy P}.
Context (cfg : ControlPlaneConfig) (a : nat) (service : string).
Abbreviation CL := (cluster S P).

(** What happens to the service stored at [a]: a created sandbox is recorded,
    the scaling loop takes sandboxes out of service, a background task drains
    and deletes them, and at any data plane a request is admitted or
    completed. *)
Inductive rt_event : Type :=
| RtCreated (e : Endpoint)
| RtDownscale (actualScale desiredCount : Z)
| RtTask
| RtAdmit (ip : string) (lb : lb_env) (policy : Z)
| RtComplete (ip : string) (p : nat).

Definition on_function (ip : string) (f : FM -> outcome FM) : GoM CL unit := fun c =>
  d ← deref (cl_dps c !! ip);
  m ← deref (dpl_deployments d !! service);
  m' ← f m;
  Ok (tt, mkCluster (cl_cp c)
            (<[ip := mkDataplane (<[service := m']> (dpl_deployments d)) (dpl_dataplaneID d)]> (cl_dps c))).

Definition rt_handle (env : cl_env) (ev : rt_event) : GoM CL unit :=
  match ev with
  | RtCreated e => on_cp env (record_endpoint cfg (ce_cp env) a e) ;; mret tt
  | RtDownscale actualScale desiredCount => on_cp env (doDownscaling (ce_cp env) a actualScale desiredCount)
  | RtTask => on_cp env (run_task (ce_cp env))
  | RtAdmit ip lb policy => on_function ip (fun m => r ← DoLoadBalancing lb policy m; Ok r.2)
  | RtComplete ip p => on_function ip (giveBackCCCapacity p)
  end.

(** The sandboxes that exist: in service, or waiting to be drained. *)
Definition waiting (tasks : list (nat * gset Endpoint)) : list Endpoint :=
  tasks ≫= fun t => elements t.2.
Definition live (c : CL) : list Endpoint :=
  match ss_heap (cl_cp c) !! a with
  | Some ss => ss_Endpoints ss ++ waiting (cp_tasks (cl_cp c))
  | None => []
  end.

(** A new sandbox has an address no existing sandbox has. *)
Definition rt_allowed (ev : rt_event) (c : CL) : Prop :=
  match ev with RtCreated e => URL e ∉ URL <$> live c | _ => True end.

(** Maps are visited whole, and every call to a data plane arrives: it succeeds,
    or only its answer is lost. *)
Record rt_env_ok (env : cl_env) : Prop := {
  ro_dp : valid_order (e_dp_ord (ce_cp env));
  ro_evict : forall X, e_evict_ord (ce_cp env) X ≡ₚ elements X;
  ro_arrive : forall k, delivered env k = true;
}.

Inductive rt_run (c0 : CL) : CL -> Prop :=
| rt_start : rt_run c0 c0
| rt_event_step c c' env ev :
    rt_run c0 c -> rt_env_ok env -> rt_allowed ev c -> rt_handle env ev c = Ok (tt, c') -> rt_run c0 c'.

(** Every registered data plane routes to exactly the sandboxes that exist. *)
Record mirrored (c : CL) : Prop := {
  mi_service : exists ss, ss_heap (cl_cp c) !! a = Some ss /\ si_Name (ss_ServiceInfo ss) = service;
  mi_tasks : Forall (fun t => t.1 = a) (cp_tasks (cl_cp c));
  mi_urls : NoDup (URL <$> live c);
  mi_routes : forall ip, is_Some (InternalMap (DataPlaneConnections (cl_cp c)) !! ip) ->
    exists d, cl_dps c !! ip = Some d /\ routes_to service d (endpoint_route <$> live c);
}.

Lemma on_cp_delivers {A} env (m : GoM (ControlPlane S P) A) c x c' new :
  (forall k, delivered env k = true) -> on_cp env m c = Ok (x, c') -> (forall cp', m (cl_cp c) = Ok (x, cp') -> cp_rpcs cp' = cp_rpcs (cl_cp c) ++ new) ->
  m (cl_cp c) = Ok (x, cl_cp c') /\ dp_deliver_all new (cl_dps c) = Ok (cl_dps c').
Proof.
  intros Ha. unfold on_cp. destruct (m (cl_cp c)) as [[x1 cp']| | |] eqn:E; try done. cbv zeta.
  rewrite reaching_all by done. intros H Hn.
  apply outcome_bind_Ok in H as (dps&Hd&[= -> <-]). rewrite (Hn _ eq_refl), drop_app_length in Hd. done.
Qed.

Lemma info_route_map l : info_route <$> prepareEndpointInfo l = endpoint_route <$> l.
Proof. rewrite prepareEndpointInfo_map, <- list_fmap_compose. done. Qed.
Lemma routes_urls l : (endpoint_route <$> l).*2 = URL <$> l.
Proof. by rewrite <- list_fmap_compose. Qed.

(** Taking the drained addresses off leaves the other sandboxes. *)
Lemma drained_left env E (l1 l2 : list Endpoint) :
  (forall X, e_evict_ord env X ≡ₚ elements X) ->
  NoDup (URL <$> elements E ++ l1 ++ l2) ->
  filter (fun r : route => r.2 ∉ ei_URL <$> prepareEndpointInfo (e_evict_ord env E))
    (endpoint_route <$> l1 ++ elements E ++ l2) ≡ₚ endpoint_route <$> l1 ++ l2.
Proof.
  intros Hev Hnd.
  assert (Hurl : ei_URL <$> prepareEndpointInfo (e_evict_ord env E) ≡ₚ URL <$> elements E).
  { rewrite prepareEndpointInfo_map, <- list_fmap_compose. by rewrite <- Hev. }
  rewrite (Permutation_app_swap_app l1 (elements E) l2), fmap_app, list.filter_app.
  rewrite list_filter_nil, list_filter_id; [done| |].
  - intros r Hr. apply list_elem_of_fmap in Hr as (x&->&Hx). cbn. rewrite Hurl. intros Hin.
    rewrite fmap_app in Hnd. apply list.NoDup_app in Hnd as (_&Hdis&_). apply (Hdis _ Hin).
    by apply list_elem_of_fmap_2.
  - intros r Hr. apply list_elem_of_fmap in Hr as (x&->&Hx). cbn. rewrite Hurl. intros Hn. apply Hn.
    by apply list_elem_of_fmap_2.
Qed.

Lemma created_mirrored env e c c' :
  rt_env_ok env -> URL e ∉ URL <$> live c -> mirrored c ->
  rt_handle env (RtCreated e) c = Ok (tt, c') -> mirrored c'.
Proof.
  intros [Hord _ Har] Hfresh [(ss&Hs&Hn) Ht Hu Hr] H. cbn in H. apply gom_bind_ok in H as (pc&c1&H&[= <-]).
  apply on_cp_delivers with (new := (fun kv => RpcUpdateEndpointList kv.1 service (prepareEndpointInfo [e]))
       <$> e_dp_ord (ce_cp env) (InternalMap (DataPlaneConnections (cl_cp c)))) in H as [Hcp Hd]; [|done|].
  2: { intros cp' Hcp. rewrite <- Hn. by apply (record_endpoint_told _ _ _ _ _ _ _ _ Hs Hcp). }
  destruct (record_endpoint_told _ _ _ _ _ _ _ _ Hs Hcp) as (E1&E2&E3&_).
  assert (Hl : live c1 ≡ₚ live c ++ [e]).
  { unfold live. rewrite E1, E2, Hs. cbn. rewrite <- !app_assoc. apply Permutation_app_head, Permutation_app_comm. }
  split.
  - eexists. split; [exact E1|done].
  - by rewrite E2.
  - rewrite Hl, fmap_app. apply list.NoDup_app. split_and!; [done| |apply NoDup_singleton].
    intros u Hu1 Hu2. cbn in Hu2. apply list_elem_of_singleton in Hu2 as ->. done.
  - intros ip Hip. rewrite E3 in Hip. destruct (Hr ip Hip) as (d&Hdp&Hrt). destruct Hip as [dp Hip].
    destruct (deliver_all_at _ _ _ _ _ Hd Hdp) as (d'&Hd'&Hsv). exists d'. split; [done|].
    rewrite (told_once _ _ ip dp) in Hsv; [|done|by apply valid_order_NoDup_fst|by apply valid_order_elem].
    cbn [serve_all] in Hsv. apply outcome_bind_Ok in Hsv as (d1&Hsv&[= <-]).
    apply (serve_update _ _ _ _ _ _ Hsv) in Hrt. rewrite info_route_map in Hrt.
    destruct Hrt as (m&?&?&Hm). exists m. split_and!; [done..|]. by rewrite Hm, Hl, fmap_app.
Qed.

Lemma downscale_mirrored env n k c c' :
  rt_env_ok env -> mirrored c -> rt_handle env (RtDownscale n k) c = Ok (tt, c') -> mirrored c'.
Proof.
  intros [_ _ Har] [(ss&Hs&Hn) Ht Hu Hr] H. cbn in H. unfold live in Hu, Hr. rewrite Hs in Hu, Hr.
  assert (Hnd : NoDup (ss_Endpoints ss)).
  { apply (NoDup_fmap_1 URL). rewrite fmap_app in Hu. by apply list.NoDup_app in Hu as [? _]. }
  destruct (doDownscaling_run (ce_cp env) a ss n k (cl_cp c) Hs Hnd) as (E&Hrun&Hin&_).
  apply on_cp_delivers with (new := []) in H as [Hcp [= Hd]]; [|done|].
  2: { intros cp' Hcp. rewrite Hrun in Hcp. injection Hcp as <-. by rewrite app_nil_r. }
  rewrite Hrun in Hcp. injection Hcp as Hcp.
  assert (Hl : live c' ≡ₚ ss_Endpoints ss ++ waiting (cp_tasks (cl_cp c))).
  { unfold live. rewrite <- Hcp. cbn. rewrite list_lookup_insert_eq by (by eapply lookup_lt_Some). cbn.
    unfold waiting. rewrite bind_app. cbn. rewrite app_nil_r, (Permutation_app_comm (cp_tasks _ ≫= _)), app_assoc.
    apply Permutation_app_tail. rewrite <- (filter_app_complement (fun e => e ∉ E) (ss_Endpoints ss)) at 2.
    apply Permutation_app_head. apply NoDup_Permutation; [apply NoDup_elements|by apply list.NoDup_filter|].
    intros x. rewrite elem_of_elements, list_elem_of_filter. split; [intros Hx; split; [tauto|by apply Hin]|].
    intros [Hx _]. by destruct (decide (x ∈ E)). }
  split.
  - exists (ScalingLoop.set_endpoints (filter (fun e => e ∉ E) (ss_Endpoints ss)) ss). rewrite <- Hcp. cbn.
    by rewrite list_lookup_insert_eq by (by eapply lookup_lt_Some).
  - rewrite <- Hcp. cbn. apply Forall_app. by split; [|constructor].
  - by rewrite Hl.
  - intros ip Hip. rewrite <- Hcp in Hip. cbn in Hip. destruct (Hr ip Hip) as (d&Hdp&m&?&?&Hm).
    exists d. rewrite <- Hd. split; [done|]. exists m. split_and!; [done..|]. by rewrite Hm, Hl.
Qed.

(** The sandboxes of the task leave the routing tables before they are
    deleted. *)
Lemma evict_told env E (ss : ServiceInfoStorage) (c : ControlPlane S P) u c' :
  ss_heap c !! a = Some ss -> evict_task env a E c = Ok (u, c') ->
  exists deletions, Forall (fun r => rpc_target r = None) deletions /\
    told (((fun kv => RpcDrainSandbox kv.1 (si_Name (ss_ServiceInfo ss)) (prepareEndpointInfo (e_evict_ord env E)))
             <$> e_dp_ord env (InternalMap (DataPlaneConnections c))) ++ deletions) c c'.
Proof.
  intros Hs H. unfold evict_task in H. apply gom_bind_ok in H as (u1&c1&H1&H2).
  destruct (delete_told _ _ _ _ _ H2) as (del&Hdel&Hf). exists del. split; [done|].
  unfold drainSandbox in H1. erewrite gom_bind_run in H1; [|by apply ss_deref_run].
  apply gom_bind_ok in H1 as (u2&c2&Hl&H1). apply (dp_op_told _ _ _ _ Lock_map) in Hl.
  apply gom_bind_ok in H1 as (m&c3&Hm&H1). apply zoom_ok in Hm as (t&[= <- <-]&Hc3).
  apply gom_bind_ok in H1 as (u3&c4&Hul&H1). apply (dp_op_told _ _ _ _ Unlock_map) in Hul.
  apply (calls_told _ (fun kv => dp_connected kv.2)) in H1.
  assert (Hc : told [] c2 c3) by (subst c3; split; cbn; [by rewrite app_nil_r|done..]).
  rewrite (td_dps _ _ _ Hl) in H1.
  exact (told_trans _ _ _ _ _ Hl (told_trans _ _ _ _ _ Hc (told_trans _ _ _ _ _ Hul (told_trans _ _ _ _ _ H1 Hdel)))).
Qed.

Lemma serve_all_app l1 l2 d : serve_all (l1 ++ l2) d = d' ← serve_all l1 d; serve_all l2 d'.
Proof.
  revert d. induction l1 as [|r l1 IH]; intros d; cbn; [done|]. destruct (dp_serve r d); cbn; try done.
Qed.

Lemma task_mirrored env c c' :
  rt_env_ok env -> mirrored c -> rt_handle env RtTask c = Ok (tt, c') -> mirrored c'.
Proof.
  intros [Hord Hev Har] Hc H. cbn in H. destruct (cp_tasks (cl_cp c)) as [|[b E] ts] eqn:Ets.
  { assert (Hrun : run_task (ce_cp env) (cl_cp c) = Ok (tt, cl_cp c)).
    { unfold run_task. erewrite gom_bind_run; [|reflexivity]. by rewrite Ets. }
    apply on_cp_delivers with (new := []) in H as [Hcp [= Hd]]; [|done|]; rewrite Hrun in *.
    - injection Hcp as Hcp. destruct c as [cp dps], c' as [cp' dps']. cbn in *. by subst.
    - intros cp' [= <-]. by rewrite app_nil_r. }
  destruct Hc as [(ss&Hs&Hn) Ht Hu Hr]. rewrite Ets in Ht. apply list.Forall_cons in Ht as [Hb Ht]. cbn in Hb. subst b.
  set (cp1 := with_tasks ts (cl_cp c)).
  assert (Hrun : run_task (ce_cp env) (cl_cp c) = evict_task (ce_cp env) a E cp1).
  { unfold run_task. erewrite gom_bind_run; [|reflexivity]. rewrite Ets. by erewrite gom_bind_run; [|reflexivity]. }
  unfold on_cp in H. rewrite Hrun in H.
  destruct (evict_task (ce_cp env) a E cp1) as [[u cp']| | |] eqn:Ecp; try done. cbv zeta in H.
  rewrite reaching_all in H by done. apply outcome_bind_Ok in H as (dps&Hd&[= -> <-]).
  destruct (evict_told (ce_cp env) E ss cp1 _ _ Hs Ecp) as (del&Hdel&[T1 T2 T3 T4]). cbn in T1, T2, T3, T4.
  rewrite T1, drop_app_length, Hn in Hd.
  assert (Hl0 : live c = ss_Endpoints ss ++ elements E ++ waiting ts).
  { unfold live. rewrite Hs, Ets. done. }
  assert (Hl : live (mkCluster cp' dps) = ss_Endpoints ss ++ waiting ts).
  { unfold live. cbn. by rewrite T2, T3, Hs. }
  rewrite Hl0 in Hu.
  assert (Hnd : NoDup (URL <$> elements E ++ ss_Endpoints ss ++ waiting ts)).
  { by rewrite Permutation_app_swap_app. }
  split; cbn; rewrite ?T2, ?T3, ?T4; try done.
  - by exists ss.
  - rewrite Hl. rewrite fmap_app in Hnd. by apply list.NoDup_app in Hnd as (_&_&?).
  - intros ip Hip. destruct (Hr ip Hip) as (d&Hdp&Hrt). destruct Hip as [dp Hip].
    destruct (deliver_all_at _ _ _ _ _ Hd Hdp) as (d'&Hd'&Hsv). exists d'. split; [done|].
    rewrite list.filter_app, (told_once _ _ ip dp) in Hsv;
      [|done|by apply valid_order_NoDup_fst|by apply valid_order_elem].
    rewrite (list_filter_nil _ del) in Hsv.
    2: { intros r Hin. rewrite list.Forall_forall in Hdel. by rewrite (Hdel r Hin). }
    cbn [app serve_all] in Hsv. apply outcome_bind_Ok in Hsv as (d1&Hsv&[= <-]).
    apply (serve_drain _ _ _ _ _ _ Hsv) in Hrt; [|by rewrite routes_urls, Hl0].
    destruct Hrt as (m&?&?&Hm). exists m. split_and!; [done..|]. rewrite Hm, Hl, Hl0. by apply drained_left.
Qed.

(** A request at a data plane does not change its routes. *)
Lemma local_mirrored ip (f : FM -> outcome FM) c c' :
  (forall m m', f m = Ok m' -> same_names m m') ->
  mirrored c -> on_function ip f c = Ok (tt, c') -> mirrored c'.
Proof.
  intros Hf [(ss&Hs&Hn) Ht Hu Hr] H. unfold on_function in H.
  apply outcome_bind_Ok in H as (d&Hd&H). apply outcome_bind_Ok in H as (m&Hm&H).
  apply outcome_bind_Ok in H as (m'&Hm'&[= <-]).
  split; cbn; try done; [by exists ss|]. intros ip' Hip. destruct (Hr ip' Hip) as (d1&Hd1&Hrt).
  rewrite lookup_insert. case_decide as Heq; [|by exists d1]. subst ip'. eexists. split; [done|].
  rewrite Hd1 in Hd. injection Hd as <-. destruct Hrt as (m1&Hm1&Hok&Hl). rewrite Hm1 in Hm. injection Hm as <-.
  exists m'. cbn. destruct (same_names_routes _ _ (Hf _ _ Hm')) as [Hr' Hok'].
  split; [exact (lookup_insert_eq (M:=gmap string) _ _ _)|]. split; [by apply Hok'|]. by rewrite Hr'.
Qed.

Lemma event_mirrored env ev c c' :
  rt_env_ok env -> rt_allowed ev c -> mirrored c -> rt_handle env ev c = Ok (tt, c') -> mirrored c'.
Proof.
  intros He Ha Hc H. destruct ev as [e|n k| |ip lb policy|ip p].
  - by eapply created_mirrored.
  - by eapply downscale_mirrored.
  - by eapply task_mirrored.
  - cbn [rt_handle] in H. eapply local_mirrored; [|exact Hc|exact H]. intros m m' Hm.
    apply outcome_bind_Ok in Hm as ([r m1]&Hm&[= <-]). exact (DoLoadBalancing_names _ _ _ _ _ Hm).
  - eapply local_mirrored; [|exact Hc|exact H]. intros m m'. apply giveBack_names.
Qed.

Lemma run_mirrored c0 c : rt_run c0 c -> mirrored c0 -> mirrored c.
Proof. induction 1; [done|]. intros Hm0. eapply event_mirrored; eauto. Qed.

End system.

(** ** Concrete runs *)

Module RoutingExample.
Abbreviation CL := (cluster EmptyPersistence Random).

(** One data plane that knows the service, no sandbox yet. *)
Definition start : CL :=
  mkCluster (ex_cp 0 0)
    {[ "10.0.0.9"%string := (Dataplane_AddDeployment "f" (NewDataplane "host" 7)).2 ]}.
Definition sandbox (k : nat) : Endpoint :=
  mkEndpoint k ("sb" +:+ pretty k)%string ("10.0.0.1:" +:+ pretty k)%string (Some "n1"%string) (Z.of_nat k).

Fixpoint handle_all (l : list rt_event) (c : CL) : outcome CL :=
  match l with
  | [] => Ok c
  | ev :: l' => x ← rt_handle ex_cfg 0 "f" ClusterExample.env ev c; handle_all l' x.2
  end.

(** Every event of the list is allowed when it happens. *)
Definition allowedb (ev : rt_event) (c : CL) : bool :=
  match ev with RtCreated e => bool_decide (URL e ∉ URL <$> live 0 c) | _ => true end.
Fixpoint all_allowed (l : list rt_event) (c : CL) : bool :=
  match l with
  | [] => true
  | ev :: l' =>
      allowedb ev c &&
      match rt_handle ex_cfg 0 "f" ClusterExample.env ev c with Ok x => all_allowed l' x.2 | _ => false end
  end.

Definition routes_at (ip : string) (c : CL) : option (list route) :=
  d ← cl_dps c !! ip; m ← dpl_deployments d !! "f"%string; Some (routes m).

Lemma start_mirrored : mirrored 0 "f" start.
Proof.
  split; [by eexists|constructor|constructor|]. intros ip [x Hx]. cbn in Hx.
  apply lookup_singleton_Some in Hx as [<- _]. eexists. split; [reflexivity|].
  eexists. split; [reflexivity|]. split; [|done]. intros p Hp. by apply elem_of_nil in Hp.
Qed.
Lemma env_ok : rt_env_ok ClusterExample.env.
Proof. split; [apply map_to_list_valid|done|done]. Qed.

Lemma handle_all_run l c0 c c' :
  rt_run ex_cfg 0 "f" c0 c -> all_allowed l c = true -> handle_all l c = Ok c' -> rt_run ex_cfg 0 "f" c0 c'.
Proof.
  revert c. induction l as [|ev l IH]; intros c Hr Ha H; [by injection H as <-|].
  cbn [all_allowed handle_all] in Ha, H. apply andb_true_iff in Ha as [Ha1 Ha2].
  apply outcome_bind_Ok in H as ([[] c1]&H1&H2). rewrite H1 in Ha2.
  apply (IH c1); [|done|done]. eapply rt_event_step; [done|apply env_ok| |done].
  destruct ev; try done. by apply bool_decide_eq_true in Ha1.
Qed.

Definition scaled : list rt_event := [RtCreated (sandbox 1); RtCreated (sandbox 2); RtDownscale 2 1].
Definition final (l : list rt_event) : option CL := match handle_all l start with Ok c => Some c | _ => None end.
End RoutingExample.


(** Registering a second data plane sends the endpoints of every service to all
    data planes, and a data plane appends what it is sent: the first data plane
    then routes to the sandbox twice, a later drain takes one of the two off,
    and the data plane keeps routing to a sandbox that has been deleted. *)
Theorem second_dataplane_duplicates_routes :
  let joined := c ← RoutingExample.final [RtCreated (RoutingExample.sandbox 1)];
    match on_cp ClusterExample.env (RegisterDataplane ex_env (mkDataplaneInfo "10.0.0.8" 8081 8080)) c with
    | Ok (_, c') => Some c'
    | _ => None
    end in
  let scaled_to_zero := c ← joined;
    match RoutingExample.handle_all [RtDownscale 1 0; RtTask] c with Ok c' => Some c' | _ => None end in
  (RoutingExample.final [RtCreated (RoutingExample.sandbox 1)] ≫= RoutingExample.routes_at "10.0.0.9") =
    Some [("sb1", "10.0.0.1:1")]%string /\
  (joined ≫= RoutingExample.routes_at "10.0.0.9") =
    Some [("sb1", "10.0.0.1:1"); ("sb1", "10.0.0.1:1")]%string /\
  (scaled_to_zero ≫= RoutingExample.routes_at "10.0.0.9") = Some [("sb1", "10.0.0.1:1")]%string /\
  (scaled_to_zero ≫= fun c => last (cp_rpcs (cl_cp c))) = Some (RpcDeleteSandbox "n1" "sb1" 1).
Proof. cbv zeta. split_and!; vm_compute; reflexivity. Qed.

(** The call that tells a data plane of a new sandbox is lost: the control plane
    keeps the sandbox in service, and the data plane never routes to it. *)
Lemma lost_update_misses_route :
  match rt_handle ex_cfg 0 "f" ClusterExample.unreachable (RtCreated (RoutingExample.sandbox 1)) RoutingExample.start with
  | Ok (_, c) => (length ∘ ss_Endpoints <$> ss_heap (cl_cp c) !! 0%nat, RoutingExample.routes_at "10.0.0.9" c)
  | _ => (None, None)
  end = (Some 1%nat, Some []).
Proof. vm_compute. reflexivity. Qed.
