(* ===== verification/Config.v ===== *)
(** * Configuration files

    [pkg/config]: the name, the type and the folder of a configuration file
    from its path, and the checks on what was read; from [cmd/master_node], the
    port of the registration server.  The configuration library (viper) is a
    parameter: what it answers for a file, and the structure it fills. *)
From Stdlib Require Import ZArith Lia Ascii.
From stdpp Require Import base tactics list gmap strings sets numbers pretty.
From S2P Require Import Prelude Core Net.

Local Open Scope Z_scope.

Definition slash : ascii := "/"%char.
Definition dot : ascii := "."%char.

(** ** Paths *)

(** [filepath.Split]: the folder ends in the separator. *)
Definition filepath_Split (path : string) : string * string :=
  match split_last slash path with
  | Some (dir, file) => (dir +:+ String slash "", file)
  | None => (EmptyString, path)
  end.
(** [filepath.Ext]: from the last dot of the last element on. *)
Definition filepath_Ext (path : string) : string :=
  match split_last dot (filepath_Split path).2 with
  | Some (_, ext) => String dot ext
  | None => EmptyString
  end.

Definition TrimSuffix (s suffix : string) : string :=
  let n := (String.length s - String.length suffix)%nat in
  if decide (String.length suffix <= String.length s)%nat then
    if decide (String.substring n (String.length suffix) s = suffix) then String.substring 0 n s else s
  else s.

(** [strings.ReplaceAll(s, c, "")] *)
Fixpoint remove_char (c : ascii) (s : string) : string :=
  match s with
  | EmptyString => EmptyString
  | String c' s' => if decide (c' = c) then remove_char c s' else String c' (remove_char c s')
  end.

Definition parseConfigPath (configPath : string) : string * string * string :=
  let '(configFolder, configName) := filepath_Split configPath in
  let configName := TrimSuffix configName (filepath_Ext configName) in
  let configType := remove_char dot (filepath_Ext configPath) in
  (if decide (configFolder = EmptyString) then "./"%string else configFolder, configName, configType).

(** ** Reading *)

Section reading.
(** [ReadInConfig] for a folder, a name and a type, and [Unmarshal]. *)
Context (ReadInConfig : string * string * string -> go_error).

Definition setupViper (configPath : string) : go_error := ReadInConfig (parseConfigPath configPath).

Section control_plane.
Context {C : Type} (zero : C) (Replicas : C -> list string).
Context (Unmarshal : string * string * string -> C * go_error).

Definition ReadControlPlaneConfiguration (configPath : string) : outcome (C * go_error) :=
  match setupViper configPath with
  | Some e => Ok (zero, Some e)
  | None =>
      let '(controlPlaneConfig, err) := Unmarshal (parseConfigPath configPath) in
      match err with
      | Some e => Ok (zero, Some e)
      | None =>
          if decide (Z.of_nat (length (Replicas controlPlaneConfig)) `mod` 2 = 1) then Fatal
          else Ok (controlPlaneConfig, None)
      end
  end.
End control_plane.

Section data_plane.
Context {C : Type} (zero : C) (DataPlaneIp : C -> string) (with_ip : string -> C -> C).
Context (Unmarshal : string * string * string -> C * go_error) (GetLocalIP : string).

Definition ReadDataPlaneConfiguration (configPath : string) : C * go_error :=
  match setupViper configPath with
  | Some e => (zero, Some e)
  | None =>
      let '(dataPlaneConfig, err) := Unmarshal (parseConfigPath configPath) in
      match err with
      | Some e => (zero, Some e)
      | None =>
          (if decide (DataPlaneIp dataPlaneConfig = "dynamic"%string)
           then with_ip GetLocalIP dataPlaneConfig else dataPlaneConfig, None)
      end
  end.
End data_plane.

Section worker_node.
Context {C : Type} (zero : C) (Unmarshal : string * string * string -> C * go_error).

Definition ReadWorkedNodeConfiguration (configPath : string) : C * go_error :=
  match setupViper configPath with
  | Some e => (zero, Some e)
  | None =>
      let '(workerNodeConfig, err) := Unmarshal (parseConfigPath configPath) in
      match err with Some e => (zero, Some e) | None => (workerNodeConfig, None) end
  end.
End worker_node.
End reading.

(** [cmd/master_node]: the port of the configured registration server. *)
Definition getRegistrationPort (registrationServer : string) : outcome string :=
  match SplitHostPort registrationServer with
  | Some (_, registrationPort) => Ok registrationPort
  | None => Fatal
  end.

(** ** The path of a file and its parts *)

Lemma substring_0 n s : (String.length s <= n)%nat -> String.substring 0 n s = s.
Proof.
  revert n. induction s as [|c s IH]; intros [|n] Hn; cbn in *; try done; [lia|]. by rewrite IH by lia.
Qed.
Lemma substring_prefix a b : String.substring 0 (String.length a) (a +:+ b) = a.
Proof.
  induction a as [|c a IH]; [by destruct b|].
  change (String c (String.substring 0 (String.length a) (a +:+ b)) = String c a). by rewrite IH.
Qed.
Lemma substring_suffix a b n : String.substring (String.length a) n (a +:+ b) = String.substring 0 n b.
Proof. induction a as [|c a IH]; [done|]. exact IH. Qed.

Lemma TrimSuffix_app a b : TrimSuffix (a +:+ b) b = a.
Proof.
  unfold TrimSuffix. rewrite string_length_app, Nat.add_sub, decide_True by lia.
  rewrite substring_suffix, substring_0, decide_True by (done || lia). apply substring_prefix.
Qed.

Lemma remove_char_id c s : mentions c s = false -> remove_char c s = s.
Proof.
  induction s as [|c' s IH]; [done|]. cbn. intros [Hc Hs]%orb_false_iff. apply bool_decide_eq_false in Hc.
  rewrite decide_False by done. by rewrite IH.
Qed.

Lemma Ext_plain name ext :
  mentions slash (name +:+ String dot ext) = false -> mentions dot ext = false ->
  filepath_Ext (name +:+ String dot ext) = String dot ext.
Proof.
  intros Hs Hd. unfold filepath_Ext, filepath_Split. rewrite (split_last_none slash) by done. cbn [snd].
  by rewrite split_last_app.
Qed.

(** A path whose folder, if any, ends in the separator. *)
Definition config_path (folder name ext : string) : string :=
  (if decide (folder = EmptyString) then EmptyString else folder +:+ String slash "") +:+ name +:+ String dot ext.

(** The path of a configuration file and its parts determine each other:
    for a file with a name and an extension, in a folder or in the current one,
    the folder (the current one as [./]), the name and the type handed to the
    configuration library are those the path was made of, also when the folder
    or the name contains dots. *)
Theorem parseConfigPath_roundtrip folder name ext :
  mentions slash name = false -> mentions slash ext = false -> mentions dot ext = false ->
  parseConfigPath (config_path folder name ext) =
    (if decide (folder = EmptyString) then "./"%string else folder +:+ String slash "", name, ext).
Proof.
  intros Hn He Hd.
  assert (Hf : mentions slash (name +:+ String dot ext) = false).
  { rewrite mentions_app, Hn. cbn [mentions]. by rewrite He. }
  assert (Hsplit : filepath_Split (config_path folder name ext) =
    (if decide (folder = EmptyString) then EmptyString else folder +:+ String slash "", name +:+ String dot ext)).
  { unfold config_path, filepath_Split. case_decide; [by rewrite split_last_none|].
    rewrite string_app_assoc. change (String slash "" +:+ name +:+ String dot ext) with (String slash (name +:+ String dot ext)).
    by rewrite split_last_app. }
  assert (Hext : filepath_Ext (config_path folder name ext) = String dot ext).
  { unfold filepath_Ext. rewrite Hsplit. cbn [snd]. by rewrite split_last_app. }
  assert (Htype : remove_char dot (String dot ext) = ext).
  { cbn [remove_char]. rewrite decide_True by done. by apply remove_char_id. }
  unfold parseConfigPath. rewrite Hsplit, Hext, Htype, Ext_plain, TrimSuffix_app by done.
  destruct (decide (folder = EmptyString)) as [->|Hne]; [done|].
  rewrite decide_False; [done|]. by destruct folder.
Qed.

Lemma parseConfigPath_roundtrip_witness :
  parseConfigPath "cmd/master.node/config.v2.yaml" = ("cmd/master.node/", "config.v2", "yaml")%string.
Proof.
  apply (parseConfigPath_roundtrip "cmd/master.node" "config.v2" "yaml"); reflexivity.
Defined.

(** A configuration that is accepted names an even number of other replicas, so
    that the control plane has an odd number of replicas; otherwise the process
    terminates. *)
Theorem accepted_replicas_odd {C} (ReadInConfig : string * string * string -> go_error) (zero : C) Replicas Unmarshal path cfg :
  ReadControlPlaneConfiguration ReadInConfig zero Replicas Unmarshal path = Ok (cfg, None) ->
  Unmarshal (parseConfigPath path) = (cfg, None) /\ (1 + Z.of_nat (length (Replicas cfg))) `mod` 2 = 1.
Proof.
  unfold ReadControlPlaneConfiguration. destruct (setupViper ReadInConfig path); [done|].
  destruct (Unmarshal (parseConfigPath path)) as [c [e|]]; [done|]. case_decide as Hm; [done|]. intros [= <-].
  split; [done|]. pose proof (Z.mod_pos_bound (Z.of_nat (length (Replicas c))) 2 ltac:(lia)).
  rewrite Z.add_mod by lia. replace (Z.of_nat (length (Replicas c)) `mod` 2) with 0 by lia. done.
Qed.
