(* ===== verification/Stubs.v ===== *)
(** * Worker nodes and data planes that do nothing

    The interfaces the control plane uses for its worker nodes and data planes
    ([core/interface.go]) as classes over the state of an implementation, with
    the implementations that hold a connection ([Core]) and the empty ones used
    to measure the control plane alone ([empty_worker], [empty_dataplane]),
    which answer at once and keep nothing. *)
From Stdlib Require Import ZArith Lia.
From stdpp Require Import base tactics list gmap strings sets numbers pretty.
From S2P Require Import Prelude Sync Autoscaling Core ControlPlane.

Local Open Scope Z_scope.

(** ** The interfaces *)

(** The part of [WorkerNodeInterface] that concerns the handle itself; [now] is
    the clock. *)
Class WorkerNodeInterface (W : Type) : Type := {
  GetName : W -> string;
  GetIP : W -> string;
  GetPort : W -> string;
  GetCpuCores : W -> Z;
  GetMemory : W -> Z;
  GetCpuUsage : W -> Z;
  GetMemoryUsage : W -> Z;
  GetLastHeartBeat : Z -> W -> Z;
  GetSchedulability : W -> bool;
  GetConfiguration : W -> WorkerNodeConfiguration;
  GetEndpointMap : W -> Structure Endpoint string;
  UpdateLastHearBeat_ : Z -> W -> W;
  SetSchedulability_ : bool -> W -> W;
  SetCpuUsage : Z -> W -> W;
  SetMemoryUsage : Z -> W -> W;
}.

#[export] Instance WorkerNode_interface : WorkerNodeInterface WorkerNode := {|
  GetName := wn_Name; GetIP := wn_IP; GetPort := wn_Port;
  GetCpuCores := wn_CpuCores; GetMemory := wn_Memory;
  GetCpuUsage := wn_CpuUsage; GetMemoryUsage := wn_MemoryUsage;
  GetLastHeartBeat _ := wn_LastHeartbeat; GetSchedulability := wn_Schedulable;
  GetConfiguration := GetWorkerNodeConfiguration; GetEndpointMap := wn_endpointMap;
  UpdateLastHearBeat_ := UpdateLastHearBeat; SetSchedulability_ := SetSchedulability;
  SetCpuUsage u w := SetUsage u (wn_MemoryUsage w) w;
  SetMemoryUsage u w := SetUsage (wn_CpuUsage w) u w;
|}.

(** The part of [DataPlaneInterface] that concerns the handle itself. *)
Class DataPlaneInterface (D : Type) : Type := {
  dpi_GetIP : D -> string;
  dpi_GetApiPort : D -> string;
  dpi_GetProxyPort : D -> string;
  dpi_GetLastHeartBeat : Z -> D -> Z;
  dpi_UpdateHeartBeat : Z -> D -> D;
  dpi_Initialize : go_error -> D -> go_error * D;      (* with the outcome of the dial *)
}.
#[export] Instance DataPlaneConnection_interface : DataPlaneInterface DataPlaneConnectionInfo := {|
  dpi_GetIP := dp_IP; dpi_GetApiPort := dp_APIPort; dpi_GetProxyPort := dp_ProxyPort;
  dpi_GetLastHeartBeat _ := dp_LastHeartBeat; dpi_UpdateHeartBeat := UpdateHeartBeat;
  dpi_Initialize e d := match e with None => (None, SetConnected d) | Some _ => (e, d) end;
|}.

(** ** The empty implementations *)

Record emptyWorker : Type := mkEmptyWorker {
  ew_name : string;
  ew_workerEndPointMap : Structure Endpoint string;
}.
Definition NewEmptyWorkerNode (c : WorkerNodeConfiguration) : emptyWorker :=
  mkEmptyWorker (wc_Name c) NewControlPlaneSyncStructure.

#[export] Instance emptyWorker_interface : WorkerNodeInterface emptyWorker := {|
  GetName := ew_name; GetIP _ := EmptyString; GetPort _ := EmptyString;
  GetCpuCores _ := 0; GetMemory _ := 0; GetCpuUsage _ := 0; GetMemoryUsage _ := 0;
  GetLastHeartBeat now _ := now; GetSchedulability _ := true;
  GetConfiguration _ := mkWorkerNodeConfiguration EmptyString EmptyString EmptyString 0 0;
  GetEndpointMap := ew_workerEndPointMap;
  UpdateLastHearBeat_ _ e := e; SetSchedulability_ _ e := e; SetCpuUsage _ e := e; SetMemoryUsage _ e := e;
|}.

(** Calls: [uuid] is the identifier drawn. *)
Definition emptyWorker_CreateSandbox (uuid : string) (e : emptyWorker) : SandboxCreationStatus * go_error :=
  (mkSandboxCreationStatus true uuid (mkPortMapping 0 0 TCP), None).
Definition emptyWorker_DeleteSandbox (e : emptyWorker) : ActionStatus * go_error := (status_ok, None).
Definition emptyWorker_ListEndpoints (e : emptyWorker) : list proto_Endpoint * go_error := ([], None).

(** The client [ConnectToWorker] of an empty worker returns (its [CreateSandbox],
    which nobody calls, answers without port mappings). *)
Definition emptyClient_DeleteSandbox : ActionStatus * go_error := (status_ok, None).
Definition emptyClient_ListEndpoints : list proto_Endpoint * go_error := ([], None).

Definition emptyDataplane : Type := unit.
Definition NewDataplaneConnectionEmpty (IP APIPort ProxyPort : string) : emptyDataplane := tt.
#[export] Instance emptyDataplane_interface : DataPlaneInterface emptyDataplane := {|
  dpi_GetIP _ := EmptyString; dpi_GetApiPort _ := EmptyString; dpi_GetProxyPort _ := EmptyString;
  dpi_GetLastHeartBeat now _ := now; dpi_UpdateHeartBeat _ d := d; dpi_Initialize _ d := (None, d);
|}.
(** Success and message of [AddDeployment], [UpdateEndpointList],
    [DeleteDeployment], [DrainSandbox] and [ResetMeasurements]. *)
Definition emptyDataplane_call (d : emptyDataplane) : bool * string * go_error := (true, EmptyString, None).

(** ** What the control plane relies on *)

(** Operations on a handle keep its identity, and a heartbeat counts. *)
Class LawfulNode (W : Type) `{WorkerNodeInterface W} : Prop := {
  ln_heartbeat : forall now w, GetLastHeartBeat now (UpdateLastHearBeat_ now w) = now;
  ln_name : forall now b u w,
    GetName (UpdateLastHearBeat_ now w) = GetName w /\ GetName (SetSchedulability_ b w) = GetName w /\
    GetName (SetCpuUsage u w) = GetName w /\ GetName (SetMemoryUsage u w) = GetName w;
  ln_map : forall now b u w,
    GetEndpointMap (UpdateLastHearBeat_ now w) = GetEndpointMap w /\
    GetEndpointMap (SetSchedulability_ b w) = GetEndpointMap w /\
    GetEndpointMap (SetCpuUsage u w) = GetEndpointMap w /\ GetEndpointMap (SetMemoryUsage u w) = GetEndpointMap w;
}.
#[export] Instance WorkerNode_lawful : LawfulNode WorkerNode.
Proof. by split. Qed.
#[export] Instance emptyWorker_lawful : LawfulNode emptyWorker.
Proof. by split. Qed.

(** The condition of the node monitor. *)
Definition declared_dead {W} `{WorkerNodeInterface W} (now : Z) (w : W) : bool :=
  bool_decide (TolerateHeartbeatMisses * HeartbeatInterval < now - GetLastHeartBeat now w).

(** A node that has just sent a heartbeat is not declared dead, in any lawful
    implementation; it stays so for as long as the monitor tolerates. *)
Lemma heartbeat_revives {W} `{LawfulNode W} now (w : W) : declared_dead now (UpdateLastHearBeat_ now w) = false.
Proof.
  unfold declared_dead. rewrite ln_heartbeat. apply bool_decide_eq_false_2.
  unfold TolerateHeartbeatMisses, HeartbeatInterval, Second. lia.
Qed.

(** Empty workers are never declared dead, and all their sandboxes have the
    same address. *)
Theorem empty_workers_share_address now uuid1 uuid2 (w1 w2 : emptyWorker) :
  declared_dead now w1 = false /\
  (GetIP w1 +:+ ":" +:+ Itoa (pm_HostPort (scs_PortMappings (emptyWorker_CreateSandbox uuid1 w1).1)))%string =
  (GetIP w2 +:+ ":" +:+ Itoa (pm_HostPort (scs_PortMappings (emptyWorker_CreateSandbox uuid2 w2).1)))%string.
Proof.
  split; [|done]. unfold declared_dead. apply bool_decide_eq_false_2. cbn.
  unfold TolerateHeartbeatMisses, HeartbeatInterval, Second. lia.
Qed.
